(* ===== verification/_CoqProject ===== *)
-Q . S2P
Prelude.v
RustText.v
EventLoop.v
SafeNd.v
SafeNdModel.v
MockAccount.v
MockVault.v
MockVaultRequests.v
MockVaultProcess.v
MockVaultSpec.v
MockVaultRefine.v
MockVaultSafety.v
MockVaultBehaviour.v
MockVaultTotality.v
MockVaultAccess.v
CoreTypes.v
ClientApi.v
MockStore.v
MockConnection.v
MockShared.v
MockClient.v
Recovery.v
RecoveryProofs.v
RecoveryRepair.v
MDataInfo.v
MDataInfoProofs.v
MockVaultLocal.v
SeqStore.v
AuthTypes.v
AuthConfig.v
AuthConfigProofs.v
AccessContainer.v
AccessContainerProofs.v
Revocation.v
RevocationMock.v
AuthModel.v
AppAuth.v
AppErrors.v
AuthErrors.v
Ipc.v
IpcProofs.v
IpcModel.v
ConnectionGroup.v
ConnectionGroupProofs.v
AccountPacket.v
AuthLogin.v
AuthLoginProofs.v
SelfEncryption.v
SelfEncryptionProofs.v
SelfEncryptionMock.v
Nfs.v
NfsProofs.v
NfsMock.v
AppObjects.v
AppFfi.v
AppFfiMData.v
AppCacheProofs.v
AppProofs.v
AppModel.v
StdDirs.v
OwnNet.v
OwnNetMock.v
StdDirsProofs.v
OwnSession.v
AppSession.v
AppSessionProofs.v
RevokeSession.v
AppSessionModel.v
AuthIpc.v
AuthIpcProofs.v
AuthIpcModel.v
CoreClient.v
LogFilter.v
LogWebSocket.v
ConfigFile.v
LogAppender.v
LogThread.v
LogInit.v
GrantedApp.v
Reconnect.v
