(* ===== verification/Prelude.v ===== *)
(** * A verification of SAFE Client Libs

    SAFE Client Libs ([safe_core], [safe_authenticator], [safe_app]) is the client
    side of the SAFE Network.  A client turns calls into signed requests and sends
    them to a group of peers; the network, or the mock vault that stands for it in
    tests and development, checks the signature, the permissions and the balance of
    the requester and changes coins, accounts, login packets and data.  On top of the
    client, recovery loops repair requests the network refused, mutable data is
    encrypted entry by entry, immutable data holds values and files of any size, and
    directories keep files in entries.  The authenticator registers accounts, logs in,
    keeps its configuration, the access container and a queue of revocations in
    mutable data, and answers the messages of apps.  An app registers with what it was
    granted, and works through a C interface whose handles stand for objects in a
    cache.

    ** The parts and where they are modelled

    - This file: results, the state-and-error monad [M] with its four outcomes
      (a value, an error, a panic, a loop cut by its fuel; the state is kept on
      every path, since an error does not undo mutations), the weakest
      precondition [wp] with its symbolic execution, read-only and preserved parts
      of the state, [u64] arithmetic that wraps, totals over maps, and the ordered
      iteration of a [BTreeMap].
    - [SafeNd], [SafeNdModel]: the interface of the [safe_nd] crate, whose source
      is not here: its data as classes of types and operations, what the code
      relies on as [NdLaws], and an instance that shows the laws can hold.
    - [CoreTypes], [ClientApi], [MockClient]: [errors.rs], [client/id.rs], the
      [Client] and [AuthActions] traits of [client/mod.rs], against any connection
      manager (the class [Network]); and a client on the mock network.
    - [ConnectionGroup], [ConnectionGroupProofs]:
      [connection_manager/connection_group.rs], a group of peers as a state machine:
      bootstrapping, the challenge, requests and their responses
      (C1), and the manager that keeps the groups
      (C25).
    - [Recovery], [RecoveryProofs], [RecoveryRepair]: [client/recovery.rs]
      (C21 to C23): the loops
      end, retry as often as they say, and repair what they are told is wrong.
    - [MDataInfo], [MDataInfoProofs]: [utils/mod.rs], [client/mdata_info.rs] and
      its C representation (C20, [reencryption_phases]).
    - [SelfEncryption], [SelfEncryptionProofs], [SelfEncryptionMock]:
      [immutable_data.rs], [self_encryption_storage.rs] (C18), over any
      self-encryption crate; the mock network keeps immutable data.
    - [Nfs], [NfsProofs], [NfsMock]: [nfs/*.rs] (C16,
      C19).
    - [AccountPacket], [AuthLogin], [AuthLoginProofs]: [client/account.rs] and
      [safe_authenticator/src/client.rs] (C2), with accounts of a
      seed (C10).
    - [StdDirs], [StdDirsProofs]: [std_dirs.rs] and [lib.rs] of
      [safe_authenticator]: accounts with their containers, from end to end
      (C9, C24).
    - [SeqStore]: the interface [SeqMDataStore] between the authenticator and the
      network, and the proof that the mock network provides it.
    - [AuthTypes], [AuthConfig], [AuthConfigProofs]: [safe_authenticator/src/config.rs]
      (C8), with the parts of the state a computation leaves alone; [AccessContainer], [AccessContainerProofs]: [access_container.rs].
    - [Revocation], [RevocationMock], [AuthModel]:
      [revocation.rs], proved against an interface that says what one revocation
      does (C11), which the mock network is shown to satisfy
      (C12).
    - [AppAuth]: [app_auth.rs], [app_container.rs], [apps.rs] and
      [update_container_perms] of [ipc.rs] ([pending_app_refused]).
    - [OwnNet], [OwnNetMock]: the interface [OwnNet], what a client's requests for its
      own data and authorised keys answer and change on a view of the network, and the
      proof that the mock network provides it.  On it, [OwnSession], [AppSession],
      [AppSessionProofs], [RevokeSession]: a whole authentication
      (C3), a whole revocation (C4) and a new
      grant after it (C5); [AppSessionModel] runs them on an
      account.  [GrantedApp] puts the app on the network these calls leave: once its
      request is granted it opens a session and uses its containers
      (C6), and once it is revoked a session it still has is cut off
      (C7).
    - [AuthIpc], [AuthIpcProofs], [AuthIpcModel]: [ipc.rs] and [ffi] of
      [safe_authenticator], the requests of apps as the user is asked about them and
      answers them: the conversation with an app (C14), containers
      granted to a registered app (C15), requests to share data
      (C30).
    - [Ipc], [IpcProofs], [IpcModel]: [safe_core/src/ipc] and [safe_core/src/ffi/ipc],
      messages and their C representations ([auth_req_repr_roundtrip],
      [auth_granted_repr_roundtrip]).
    - [AppErrors], [AuthErrors]: [errors.rs] of [safe_app] and
      [safe_authenticator] ([error_codes_consistent]).
    - [AppObjects]: [safe_app/src/object_cache.rs], [lib.rs], [client.rs],
      [cipher_opt.rs], [permissions.rs]; [AppFfi], [AppFfiMData]:
      [safe_app/src/ffi], one definition per exported function;
      [AppCacheProofs], [AppProofs], [AppModel]: the handles (C17), data
      stored through them (C13) and the access container as an
      app sees it ([app_reads_granted_entry]).
    - [MockAccount], [MockVault], [MockVaultRequests], [MockVaultProcess]:
      [client/mock/account.rs] and [client/mock/vault.rs], one definition per request
      handler, composed by [process_request].
    - [MockVaultSpec], [MockVaultRefine], [MockVaultSafety]: the abstract vault, a
      relation of elementary steps each allowed to certain keys, the refinement of
      every handler, and the safety of whole sessions (C31 to
      C34; [auth_keys_isolated]).
    - [MockVaultBehaviour], [MockVaultTotality], [MockVaultAccess],
      [MockVaultLocal]: what requests do on each branch, that the vault answers,
      authorised keys, and that a request touches only the data it names
      (C35 to C38; [request_locality]).
    - [MockStore], [MockConnection], [MockShared]: the store in a file shared by
      processes, its locking and reloading, and the mock connection manager
      ([client/mock/connection_manager.rs]) (C39,
      C40).
    - [EventLoop]: [event_loop.rs], the loop that runs what is asked of a client
      (C27); [CoreClient]: [client/core_client.rs]
      (C29).
    - [Reconnect]: network events, [restart_network] and the observers of a session, on
      the mock connection manager (C26); the handles of a loop
      ([freed_handle_pending]).
    - [RustText]: text, bytes and paths of the standard library, as far as the next
      parts use them.
    - [ConfigFile]: [config_handler.rs], which configuration a client gets
      ([config_read], [dev_options_ignored]).
    - [LogFilter], [LogAppender], [LogThread], [LogWebSocket], [LogInit]:
      [utils/logging], the directives of RUST_LOG ([parse_loggers_spec]), the appenders
      and how they are configured, the thread that writes for them
      (C28), the buffer of the web socket ([write_all_in_order],
      [write_all_ends]) and the initialisation of the logger, once
      ([logger_initialised_once]).

    ** What the theorems show

    The connection: a response that a request gets was sent for it, by a peer that
    went through the challenge.  The client: recovery loops end and repair; encryption
    of entries commutes with mutating them, and survives a change of keys; values and
    files of any size come back as they were written; a directory is a map from names
    to versioned files.  The authenticator: an account that was registered, or updated,
    is what a login gives; a change of the configuration made from a stale copy loses
    nothing; creating an account leaves its containers and configuration in place, and a
    login makes up for a creation that was interrupted; what an app asks reaches the
    user as it was asked, and the app hears what became of it; an app that is
    authenticated has, on the network, its key, its entry and exactly the permissions
    its entry says, and a revocation takes all of them back and nothing else; grants
    add up; a revocation, taken through the queue, ends with the app's key no longer
    authorised or the app still in the queue.  Apps: what was granted arrives, through
    the C representations and through the access container; a handle stands for an
    object of one kind; what is stored through handles is read back.  The vault: a
    refinement from the code of every handler to the abstract steps, from which
    published data is permanent, data changes only under an allowed key, nobody else's
    balance shrinks, coins are not created, login packets and authorised keys belong to
    their owner; and that it answers every request of a requester that can pay
    (C37; [unpaid_mutation_panics] is the case where it panics).
    Around them: messages are run, logged and sent in the order they were given,
    whatever fails in between, what configures a client is what the files say, and a
    session hears of the first loss of its connection.

    Some theorems and lemmas state behaviour that is surprising and is listed as a
    finding: a failed transfer burns coins ([failed_transfer_burns_coins]), a
    permission check on transfers can be bypassed (C38), two
    processes whose writes have one modification time lose an update
    (C40), ranges of reads wrap ([reader_range_wraps],
    [file_read_past_end_unchecked]), a web socket that lost its peer keeps its
    thread busy ([write_all_spins]), a login is reported as a loss of the connection
    (C26), and others named in their comments.

    ** Bounds and fuel

    Loops of futures take a fuel.  The recovery loops give up after
    [MAX_ATTEMPTS] retries, so [S MAX_ATTEMPTS] iterations are all they make, and
    C22 shows that the fuel is never what stops them.
    [mutate_entry] retries for ever in the source; C8 shows that two
    iterations are enough when nobody interferes.  The flush of the revocation queue
    needs at most twice the length of the queue (C11).  The packing of
    immutable data ends because data maps shrink, and every fuel from some bound on
    gives the same result (C18).  Amounts and versions are [Z] with the
    wrap-around of [u64] written out; versions of entry errors are narrower, by
    [entry_version_modulus]; handles are typed while fewer than 2^64 have been made.
    The web socket takes a fuel for its loop: as many rounds as it has nanoseconds and
    messages left ([write_all_ends]).

    ** What is assumed

    Code outside the repository is a parameter: [safe_nd] ([NdOps]), the ciphers,
    hashes and random generator ([Crypto], [AuthExt], [AppExt], [AccountExt]),
    self-encryption ([SelfEnc]), serialisation ([CoreExt], [Serial], [StoreEnv]), the
    clock ([Chrono]), the futures crate ([FuturesExt]), the C interface of [ffi_utils] ([FfiUtils], [IpcExt]), the host
    ([Host], [ConfigExt]), the LRU cache ([LruOps]), the logger, its encoders, regular
    expressions and the web socket ([Log4rs], [LogExt], [WsNet]), and the texts of the
    errors of other crates ([CoreTexts], [AuthTexts]).  What is relied upon is stated in the classes
    named [...Laws], each with an instance.  A request of the client is processed when
    it is made, as by the mock connection manager.

    ** What is not modelled

    The Java bindings, the sockets below a connection group and below the web socket
    of the logger, the generation of bindings and packages, the tests and the
    examples; of threads and channels only their messages; and the order in which
    [buffer_unordered] completes futures, which is a parameter ([FuturesExt]).
    Pointers and the freeing of memory are not modelled either: a C structure is its
    contents. *)
From stdpp Require Export base tactics option list numbers gmap fin_maps strings sorting countable.

#[export] Set Default Goal Selector "!".

(** * Results and stateful computations *)

(** Rust's [Result<A, E>]. *)
Inductive result (A E : Type) : Type :=
| Ok (a : A)
| Err (e : E).
Arguments Ok {A E} a.
Arguments Err {A E} e.

#[export] Instance result_eq_dec {A E} `{EqDecision A, EqDecision E} :
  EqDecision (result A E).
Proof. solve_decision. Defined.

Definition is_ok {A E} (r : result A E) : bool :=
  match r with Ok _ => true | Err _ => false end.

(** What a call leaves behind.  The state is kept on every path: a Rust
    [Err] return does not undo the mutations made before it, and a panic
    unwinds with the state it had reached.  [Pending] is the outcome of a
    [loop_fn] whose iterations were cut by the fuel. *)
Inductive outcome (S E A : Type) : Type :=
| Ret (a : A) (s : S)
| Fail (e : E) (s : S)
| Panic (s : S)
| Pending (s : S).
Arguments Ret {S E A} a s.
Arguments Fail {S E A} e s.
Arguments Panic {S E A} s.
Arguments Pending {S E A} s.

Definition final {S E A} (o : outcome S E A) : S :=
  match o with Ret _ s | Fail _ s | Panic s | Pending s => s end.

Definition M (S E A : Type) : Type := S -> outcome S E A.

Definition ret {S E A} (a : A) : M S E A := fun s => Ret a s.
Definition fail {S E A} (e : E) : M S E A := fun s => Fail e s.
Definition panic {S E A} : M S E A := fun s => Panic s.
Definition gets {S E A} (f : S -> A) : M S E A := fun s => Ret (f s) s.
Definition modify {S E} (f : S -> S) : M S E unit := fun s => Ret tt (f s).

(** [and_then], and the [?] operator. *)
Definition bind {S E A B} (m : M S E A) (k : A -> M S E B) : M S E B := fun s =>
  match m s with
  | Ret a s' => k a s'
  | Fail e s' => Fail e s'
  | Panic s' => Panic s'
  | Pending s' => Pending s'
  end.

(** [or_else]. *)
Definition or_else {S E F A} (m : M S E A) (k : E -> M S F A) : M S F A := fun s =>
  match m s with
  | Ret a s' => Ret a s'
  | Fail e s' => k e s'
  | Panic s' => Panic s'
  | Pending s' => Pending s'
  end.

(** A computation whose [Result] is kept as a value, as in
    [let result = ...; Response::Mutation(result)] and in [then]. *)
Definition attempt {S E F A} (m : M S E A) : M S F (result A E) := fun s =>
  match m s with
  | Ret a s' => Ret (Ok a) s'
  | Fail e s' => Ret (Err e) s'
  | Panic s' => Panic s'
  | Pending s' => Pending s'
  end.

Definition lift_result {S E A} (r : result A E) : M S E A :=
  match r with Ok a => ret a | Err e => fail e end.

Definition ok_or {S E A} (o : option A) (e : E) : M S E A :=
  match o with Some a => ret a | None => fail e end.

(** [unwrap!]. *)
Definition unwrap {S E A} (o : option A) : M S E A :=
  match o with Some a => ret a | None => panic end.

Definition unwrap_result {S E F A} (r : result A F) : M S E A :=
  match r with Ok a => ret a | Err _ => panic end.

Definition map_err {S E F A} (f : E -> F) (m : M S E A) : M S F A :=
  or_else m (fun e => fail (f e)).

Definition fmapM {S E A B} (f : A -> B) (m : M S E A) : M S E B :=
  bind m (fun a => ret (f a)).

Declare Scope rust_scope.
Delimit Scope rust_scope with rust.
Notation "'let!' x ':=' c 'in' k" := (bind c (fun x => k))
  (at level 10, x pattern, c at level 100, k at level 200) : rust_scope.
Notation "c ';!' k" := (bind c (fun _ => k))
  (at level 110, right associativity) : rust_scope.
#[global] Open Scope rust_scope.

Section equations.
Context {S E A B : Type}.

Lemma bind_gets (f : S -> A) (k : A -> M S E B) s : bind (gets f) k s = k (f s) s.
Proof. done. Qed.
Lemma bind_ok_or (o : option A) (e : E) (k : A -> M S E B) s :
  bind (ok_or o e) k s = match o with Some a => k a s | None => Fail e s end.
Proof. by destruct o. Qed.
Lemma bind_lift_ok (a : A) (k : A -> M S E B) s : bind (lift_result (Ok a)) k s = k a s.
Proof. done. Qed.
Lemma bind_Ret (m : M S E A) (k : A -> M S E B) a s s' :
  m s = Ret a s' -> bind m k s = k a s'.
Proof. intros Hm. unfold bind. by rewrite Hm. Qed.
End equations.

(** Pure results: the same [?] for a function that touches no state. *)
Definition rbind {A B E} (r : result A E) (k : A -> result B E) : result B E :=
  match r with Ok a => k a | Err e => Err e end.
Notation "'let?' x ':=' c 'in' k" := (rbind c (fun x => k))
  (at level 10, x pattern, c at level 100, k at level 200) : rust_scope.

Definition rmap {A B E} (f : A -> B) (r : result A E) : result B E :=
  match r with Ok a => Ok (f a) | Err e => Err e end.

Definition ok_or_r {A E} (o : option A) (e : E) : result A E :=
  match o with Some a => Ok a | None => Err e end.

(** * Loops of futures *)

(** The [Loop] of [futures::future::loop_fn]. *)
Inductive Loop (T L : Type) : Type :=
| Break (t : T)
| Continue (l : L).
Arguments Break {T L} t.
Arguments Continue {T L} l.

Fixpoint loop_fn {S E T L} (fuel : nat) (st : L) (body : L -> M S E (Loop T L)) : M S E T :=
  match fuel with
  | O => fun s => Pending s
  | S n =>
      let! r := body st in
      match r with
      | Break t => ret t
      | Continue st' => loop_fn n st' body
      end
  end.

(** A [for] loop whose body may [return Err(..)]. *)
Fixpoint for_each {S E X} (l : list X) (body : X -> M S E unit) : M S E unit :=
  match l with
  | [] => ret tt
  | x :: l => body x ;! for_each l body
  end.

(** A [for] loop that builds its result. *)
Fixpoint fold_m {S E A B} (f : B -> A -> M S E B) (l : list A) (b : B) : M S E B :=
  match l with
  | [] => ret b
  | x :: l => let! b := f b x in fold_m f l b
  end.

Fixpoint fold_r {E A B} (f : B -> A -> result B E) (l : list A) (b : B) : result B E :=
  match l with
  | [] => Ok b
  | x :: l => let? b := f b x in fold_r f l b
  end.

(** * Reasoning about computations *)

(** [wp m Q F X s]: run from [s], the computation returns with [Q], or fails
    with [F], or stops (by a panic or for lack of fuel) with [X].  Taking
    [X := fun _ => False] makes it total correctness; taking an invariant for
    the three of them makes it an invariant of every path. *)
Definition wp {S E A} (m : M S E A) (Q : A -> S -> Prop) (F : E -> S -> Prop)
    (X : S -> Prop) (s : S) : Prop :=
  match m s with
  | Ret a s' => Q a s'
  | Fail e s' => F e s'
  | Panic s' | Pending s' => X s'
  end.

Section wp.
Context {S E : Type}.
Implicit Types (F : E -> S -> Prop) (X : S -> Prop).

Lemma wp_ret {A} (a : A) (Q : A -> S -> Prop) F X s : Q a s -> wp (ret a) Q F X s.
Proof. done. Qed.

Lemma wp_fail {A} (e : E) (Q : A -> S -> Prop) F X s : F e s -> wp (fail e) Q F X s.
Proof. done. Qed.

Lemma wp_panic {A} (Q : A -> S -> Prop) F X s : X s -> wp (@panic S E A) Q F X s.
Proof. done. Qed.

Lemma wp_gets {A} (f : S -> A) (Q : A -> S -> Prop) F X s :
  Q (f s) s -> wp (gets f) Q F X s.
Proof. done. Qed.

Lemma wp_modify (f : S -> S) (Q : unit -> S -> Prop) F X s :
  Q tt (f s) -> wp (modify f) Q F X s.
Proof. done. Qed.

Lemma wp_bind {A B} (m : M S E A) (k : A -> M S E B) Q F X s :
  wp m (fun a => wp (k a) Q F X) F X s -> wp (bind m k) Q F X s.
Proof. unfold wp, bind. by destruct (m s). Qed.

Lemma wp_or_else {G A} (m : M S G A) (k : G -> M S E A) Q F X s :
  wp m Q (fun e => wp (k e) Q F X) X s -> wp (or_else m k) Q F X s.
Proof. unfold wp, or_else. by destruct (m s). Qed.

Lemma wp_attempt {A G} (m : M S G A) Q F X s :
  wp m (fun a => Q (Ok a)) (fun e => Q (Err e)) X s -> wp (attempt m) Q F X s.
Proof. unfold wp, attempt. by destruct (m s). Qed.

Lemma wp_map_err {G A} (f : G -> E) (m : M S G A) Q F X s :
  wp m Q (fun e => F (f e)) X s -> wp (map_err f m) Q F X s.
Proof. unfold wp, map_err, or_else, fail. by destruct (m s). Qed.

Lemma wp_lift_result {A} (r : result A E) Q F X s :
  match r with Ok a => Q a s | Err e => F e s end -> wp (lift_result r) Q F X s.
Proof. by destruct r. Qed.

Lemma wp_ok_or {A} (o : option A) (e : E) Q F X s :
  match o with Some a => Q a s | None => F e s end -> wp (ok_or o e) Q F X s.
Proof. by destruct o. Qed.

Lemma wp_unwrap {A} (o : option A) Q F X s :
  match o with Some a => Q a s | None => X s end -> wp (unwrap o) Q F X s.
Proof. by destruct o. Qed.

Lemma wp_unwrap_result {G A} (r : result A G) Q F X s :
  match r with Ok a => Q a s | Err _ => X s end -> wp (unwrap_result r) Q F X s.
Proof. by destruct r. Qed.

Lemma wp_mono {A} (m : M S E A) (Q Q' : A -> S -> Prop) F F' X X' s :
  wp m Q F X s -> (forall a s', Q a s' -> Q' a s') -> (forall e s', F e s' -> F' e s') ->
  (forall s', X s' -> X' s') -> wp m Q' F' X' s.
Proof. unfold wp. destruct (m s); eauto. Qed.

(** An invariant of every path, read off the final state. *)
Lemma wp_final {A} (m : M S E A) (J : S -> Prop) s :
  wp m (fun _ => J) (fun _ => J) J s <-> J (final (m s)).
Proof. unfold wp. by destruct (m s). Qed.

(** A loop whose iterations keep [J] keeps it on every path. *)
Lemma wp_loop_fn {T L} fuel (st : L) (body : L -> M S E (Loop T L)) (J : S -> Prop) s :
  (forall l s, J s -> wp (body l) (fun _ => J) (fun _ => J) J s) ->
  J s -> wp (loop_fn fuel st body) (fun _ => J) (fun _ => J) J s.
Proof.
  intros Hb. revert st s. induction fuel as [|n IH]; intros st s Hs; simpl; [done|].
  apply wp_bind. eapply wp_mono; [by apply Hb|..]; [|done..].
  intros [t|l] s' Hs'; [done|by apply IH].
Qed.
End wp.

(** Computations that never change the state. *)
Definition readonly {S E A} (m : M S E A) : Prop := forall s, final (m s) = s.

Create HintDb readonly discriminated.

Section readonly.
Context {S E : Type}.

Lemma readonly_ret {A} (a : A) : readonly (@ret S E A a).
Proof. done. Qed.
Lemma readonly_fail {A} (e : E) : readonly (@fail S E A e).
Proof. done. Qed.
Lemma readonly_panic {A} : readonly (@panic S E A).
Proof. done. Qed.
Lemma readonly_gets {A} (f : S -> A) : readonly (@gets S E A f).
Proof. done. Qed.
Lemma readonly_lift_result {A} (r : result A E) : readonly (@lift_result S E A r).
Proof. by destruct r. Qed.
Lemma readonly_ok_or {A} (o : option A) (e : E) : readonly (@ok_or S E A o e).
Proof. by destruct o. Qed.
Lemma readonly_unwrap {A} (o : option A) : readonly (@unwrap S E A o).
Proof. by destruct o. Qed.
Lemma readonly_unwrap_result {G A} (r : result A G) : readonly (@unwrap_result S E G A r).
Proof. by destruct r. Qed.

Lemma readonly_bind {A B} (m : M S E A) (k : A -> M S E B) :
  readonly m -> (forall a, readonly (k a)) -> readonly (bind m k).
Proof.
  intros Hm Hk s. specialize (Hm s). unfold bind.
  destruct (m s); simpl in *; subst; [apply Hk|done..].
Qed.

Lemma readonly_attempt {G A} (m : M S G A) : readonly m -> readonly (@attempt S G E A m).
Proof. intros Hm s. specialize (Hm s). unfold attempt. by destruct (m s). Qed.

Lemma readonly_for_each {Y} (l : list Y) (body : Y -> M S E unit) :
  (forall x, readonly (body x)) -> readonly (for_each l body).
Proof.
  intros Hb. induction l; simpl; [apply readonly_ret|by apply readonly_bind].
Qed.

(** A loop of checks passes when each of them does. *)
Lemma for_each_ret {Y} (l : list Y) (body : Y -> M S E unit) s :
  (forall x, readonly (body x)) ->
  for_each l body s = Ret tt s <-> Forall (fun x => body x s = Ret tt s) l.
Proof.
  intros Hb. induction l as [|x l IH]; simpl; [by split|].
  rewrite Forall_cons_iff, <-IH. unfold bind. specialize (Hb x s).
  destruct (body x s) as [[]| | |]; simpl in *; subst; naive_solver.
Qed.

Lemma wp_readonly {A} (m : M S E A) Q F X s :
  readonly m -> (forall a, m s = Ret a s -> Q a s) -> (forall e, m s = Fail e s -> F e s) ->
  X s -> wp m Q F X s.
Proof.
  intros Hm HQ HF HX. specialize (Hm s). unfold wp. destruct (m s); simpl in *; subst; eauto.
Qed.

Lemma readonly_Ret {A} (m : M S E A) a s s' : readonly m -> m s = Ret a s' -> s' = s.
Proof. intros Hm Hr. specialize (Hm s). by rewrite Hr in Hm. Qed.
End readonly.

#[export] Hint Resolve readonly_ret readonly_fail readonly_panic readonly_gets
  readonly_lift_result readonly_ok_or readonly_unwrap readonly_unwrap_result : readonly.

Ltac readonly_tac :=
  repeat match goal with
  | |- readonly (bind _ _) => apply readonly_bind; [|intros ?]
  | |- readonly (attempt _) => apply readonly_attempt
  | |- readonly (for_each _ _) => apply readonly_for_each; intros ?
  | |- readonly (match ?x with _ => _ end) => destruct x
  | |- readonly _ => solve [auto with readonly]
  end.

(** Computations that leave one part of the state alone on every path. *)
Definition preserves {S X E A} (f : S -> X) (m : M S E A) : Prop :=
  forall s, f (final (m s)) = f s.

Create HintDb preserves discriminated.

Section preserves.
Context {S X E : Type} (f : S -> X).

Lemma preserves_readonly {A} (m : M S E A) : readonly m -> preserves f m.
Proof. intros Hm s. by rewrite Hm. Qed.

Lemma preserves_modify (g : S -> S) :
  (forall s, f (g s) = f s) -> preserves f (@modify S E g).
Proof. intros Hg s. apply Hg. Qed.

Lemma preserves_bind {A B} (m : M S E A) (k : A -> M S E B) :
  preserves f m -> (forall a, preserves f (k a)) -> preserves f (bind m k).
Proof.
  intros Hm Hk s. specialize (Hm s). unfold bind.
  destruct (m s) as [a s'| | |]; simpl in *; [|done..]. by rewrite Hk.
Qed.

Lemma preserves_or_else {G A} (m : M S G A) (k : G -> M S E A) :
  preserves f m -> (forall e, preserves f (k e)) -> preserves f (or_else m k).
Proof.
  intros Hm Hk s. specialize (Hm s). unfold or_else.
  destruct (m s) as [|e s'| |]; simpl in *; [done| |done..]. by rewrite Hk.
Qed.

Lemma preserves_attempt {G A} (m : M S G A) : preserves f m -> preserves f (@attempt S G E A m).
Proof. intros Hm s. specialize (Hm s). unfold attempt. by destruct (m s). Qed.

Lemma preserves_for_each {Y} (l : list Y) (body : Y -> M S E unit) :
  (forall x, preserves f (body x)) -> preserves f (for_each l body).
Proof.
  intros Hb. induction l; simpl; [by apply preserves_readonly|by apply preserves_bind].
Qed.

Lemma preserves_loop_fn {T L} fuel (st : L) (body : L -> M S E (Loop T L)) :
  (forall l, preserves f (body l)) -> preserves f (loop_fn fuel st body).
Proof.
  intros Hb. revert st. induction fuel as [|n IH]; intros st; simpl; [done|].
  apply preserves_bind; [done|]. intros [|]; [by apply preserves_readonly|done].
Qed.
End preserves.

Ltac preserves_tac :=
  repeat match goal with
  | |- preserves _ (bind _ _) => apply preserves_bind; [|intros ?]
  | |- preserves _ (or_else _ _) => apply preserves_or_else; [|intros ?]
  | |- preserves _ (map_err _ _) => apply preserves_or_else; [|intros ?]
  | |- preserves _ (attempt _) => apply preserves_attempt
  | |- preserves _ (for_each _ _) => apply preserves_for_each; intros ?
  | |- preserves _ (loop_fn _ _ _) => apply preserves_loop_fn; intros ?
  | |- preserves _ (match ?x with _ => _ end) => destruct x
  | |- preserves _ _ => solve [apply preserves_readonly; auto with readonly]
  | |- preserves _ _ => solve [auto with preserves]
  end.

(** Symbolic execution: follow the program text, case-splitting on every
    [match] and [if] of the source.  Calls known to be read-only are stepped
    over with [wp_readonly]. *)
Ltac wp_step :=
  match goal with
  | |- wp (ret _) _ _ _ _ => apply wp_ret
  | |- wp (fail _) _ _ _ _ => apply wp_fail
  | |- wp panic _ _ _ _ => apply wp_panic
  | |- wp (gets _) _ _ _ _ => apply wp_gets
  | |- wp (modify _) _ _ _ _ => apply wp_modify
  | |- wp (bind _ _) _ _ _ _ => apply wp_bind
  | |- wp (or_else _ _) _ _ _ _ => apply wp_or_else
  | |- wp (attempt _) _ _ _ _ => apply wp_attempt
  | |- wp (map_err _ _) _ _ _ _ => apply wp_map_err
  | |- wp (lift_result _) _ _ _ _ => apply wp_lift_result
  | |- wp (ok_or _ _) _ _ _ _ => apply wp_ok_or
  | |- wp (unwrap _) _ _ _ _ => apply wp_unwrap
  | |- wp (unwrap_result _) _ _ _ _ => apply wp_unwrap_result
  | |- wp (match ?x with _ => _ end) _ _ _ _ => destruct x eqn:?
  | |- wp _ _ _ _ _ => apply wp_readonly; [solve [auto with readonly]|intros ? ?|intros ? ?|]
  | |- match ?x with _ => _ end => destruct x eqn:?
  end.

(** Close an equation between closed terms by running it. *)
Ltac vm_refl := match goal with |- _ = ?b => vm_cast_no_check (eq_refl b) end.

(** * Fixed-width integers *)

(** The crates are built in release mode, without overflow checks: [+] and
    [-] on [u64] wrap. *)
Definition u64_modulus : Z := 18446744073709551616.
Definition u64_max : Z := 18446744073709551615.
Definition is_u64 (x : Z) : Prop := (0 <= x < u64_modulus)%Z.
Definition u64_add (x y : Z) : Z := ((x + y) mod u64_modulus)%Z.
Definition u64_sub (x y : Z) : Z := ((x - y) mod u64_modulus)%Z.

Lemma u64_add_small x y :
  (0 <= x + y < u64_modulus)%Z -> u64_add x y = (x + y)%Z.
Proof. intros. by apply Z.mod_small. Qed.

Lemma u64_sub_small x y :
  (0 <= x - y < u64_modulus)%Z -> u64_sub x y = (x - y)%Z.
Proof. intros. by apply Z.mod_small. Qed.

Lemma u64_add_range x y : is_u64 (u64_add x y).
Proof. apply Z.mod_pos_bound. by vm_compute. Qed.

(** * Totals over a finite map *)

Section map_total.
Context {K V : Type} `{Countable K} (f : V -> Z).

Definition map_total (m : gmap K V) : Z := map_fold (fun _ v acc => (f v + acc)%Z) 0%Z m.

Lemma map_total_empty : map_total ∅ = 0%Z.
Proof. apply map_fold_empty. Qed.

Lemma map_total_insert_new m k v :
  m !! k = None -> map_total (<[k:=v]> m) = (f v + map_total m)%Z.
Proof.
  intros Hk. unfold map_total.
  rewrite (map_fold_insert_L (fun _ v acc => (f v + acc)%Z)); [done| |done].
  intros; lia.
Qed.

Lemma map_total_delete m k v :
  m !! k = Some v -> map_total (delete k m) = (map_total m - f v)%Z.
Proof.
  intros Hk. pose proof (map_total_insert_new (delete k m) k v) as Hd.
  rewrite lookup_delete_eq, (insert_delete_id m k v Hk) in Hd.
  rewrite Hd by done. lia.
Qed.

Lemma map_total_insert m k v :
  map_total (<[k:=v]> m) = (map_total m - default 0 (f <$> m !! k) + f v)%Z.
Proof.
  rewrite <-insert_delete_eq, map_total_insert_new by apply lookup_delete_eq.
  destruct (m !! k) as [w|] eqn:Hk; simpl.
  - rewrite (map_total_delete _ _ _ Hk). lia.
  - rewrite delete_id by done. lia.
Qed.
End map_total.

(** * Ordered iteration *)

(** [BTreeMap] iteration: the entries in the order of their keys. *)
Definition btree_iter {K V} `{Countable K} (leb : K -> K -> bool) (m : gmap K V) : list (K * V) :=
  merge_sort (fun p q => Is_true (leb p.1 q.1)) (map_to_list m).

Lemma btree_iter_perm {K V} `{Countable K} (leb : K -> K -> bool) (m : gmap K V) :
  btree_iter leb m ≡ₚ map_to_list m.
Proof. apply merge_sort_Permutation. Qed.

Lemma elem_of_btree_iter {K V} `{Countable K} (leb : K -> K -> bool) (m : gmap K V) k v :
  (k, v) ∈ btree_iter leb m <-> m !! k = Some v.
Proof. rewrite btree_iter_perm. apply elem_of_map_to_list. Qed.

Lemma NoDup_fst_btree_iter {K V} `{Countable K} (leb : K -> K -> bool) (m : gmap K V) :
  NoDup (btree_iter leb m).*1.
Proof. rewrite btree_iter_perm. apply NoDup_fst_map_to_list. Qed.

(** Building a map by insertions of distinct keys. *)
Lemma lookup_foldl_insert {K V} `{Countable K} (l : list (K * V)) (m : gmap K V) k v :
  NoDup l.*1 -> (forall k, k ∈ l.*1 -> m !! k = None) ->
  foldl (fun m p => <[p.1 := p.2]> m) m l !! k = Some v <-> (k, v) ∈ l \/ m !! k = Some v.
Proof.
  revert m. induction l as [|[k1 v1] l IH]; intros m Hnd Hm; simpl in *.
  - set_solver.
  - apply list.NoDup_cons in Hnd as [Hk1 Hnd]. rewrite IH.
    + rewrite elem_of_cons. destruct (decide (k1 = k)) as [->|Hne].
      * rewrite lookup_insert_eq, (Hm k) by set_solver. split; [naive_solver|].
        intros [[[= ->]|Hin]|?]; [by right|by left|done].
      * rewrite lookup_insert_ne by done. naive_solver.
    + done.
    + intros k' Hk'. rewrite lookup_insert_ne by set_solver. apply Hm. set_solver.
Qed.

(** Lexicographic order on byte vectors, the [Ord] of [Vec<u8>]. *)
Fixpoint bytes_leb (xs ys : list Z) : bool :=
  match xs, ys with
  | [], _ => true
  | _ :: _, [] => false
  | x :: xs, y :: ys =>
      if (x <? y)%Z then true else if (y <? x)%Z then false else bytes_leb xs ys
  end.

Abbreviation bytes := (list Z).
