(* ===== verification/RustText.v ===== *)
(** Strings and paths as the loggers and the configuration use them: the characters
    of a Rust [String], its UTF-8 form, splitting and trimming, and the components
    of a Unix path. *)
From Stdlib Require Import Ascii.
From S2P Require Import Prelude.

#[local] Open Scope Z_scope.

(** * Characters *)

(** A Unicode scalar value. *)
Definition is_char (c : Z) : bool :=
  ((0 <=? c) && (c <? 55296)) || ((57344 <=? c) && (c <? 1114112)).

Abbreviation Text := (list Z).
Abbreviation is_text t := (Forall (fun c => is_char c = true) t).

(** A literal. *)
Definition lit (s : string) : Text := map (fun a => Z.of_N (Ascii.N_of_ascii a)) (String.list_ascii_of_string s).

#[global] Arguments lit : simpl never.

(** The property [White_Space]. *)
Definition is_whitespace (c : Z) : bool :=
  ((9 <=? c) && (c <=? 13)) || (c =? 32) || (c =? 133) || (c =? 160) || (c =? 5760) ||
  ((8192 <=? c) && (c <=? 8202)) || (c =? 8232) || (c =? 8233) || (c =? 8239) ||
  (c =? 8287) || (c =? 12288).

(** ** UTF-8 *)

Definition utf8_char (c : Z) : list Z :=
  if c <? 128 then [c]
  else if c <? 2048 then [192 + c / 64; 128 + c mod 64]
  else if c <? 65536 then [224 + c / 4096; 128 + c / 64 mod 64; 128 + c mod 64]
  else [240 + c / 262144; 128 + c / 4096 mod 64; 128 + c / 64 mod 64; 128 + c mod 64].

(** [String::into_bytes]. *)
Definition into_bytes (t : Text) : list Z := concat (map utf8_char t).

Definition is_cont (b : Z) : bool := (128 <=? b) && (b <? 192).

(** [String::from_utf8]: the shortest form of each character, and scalar values only. *)
Fixpoint from_utf8 (b : list Z) : option Text :=
  match b with
  | [] => Some []
  | b1 :: r1 =>
      if (0 <=? b1) && (b1 <? 128) then cons b1 <$> from_utf8 r1
      else match r1 with
      | b2 :: r2 =>
          if (192 <=? b1) && (b1 <? 224) then
            let c := (b1 - 192) * 64 + (b2 - 128) in
            if is_cont b2 && (128 <=? c) then cons c <$> from_utf8 r2 else None
          else match r2 with
          | b3 :: r3 =>
              if (224 <=? b1) && (b1 <? 240) then
                let c := (b1 - 224) * 4096 + (b2 - 128) * 64 + (b3 - 128) in
                if is_cont b2 && is_cont b3 && (2048 <=? c) && is_char c
                then cons c <$> from_utf8 r3 else None
              else match r3 with
              | b4 :: r4 =>
                  let c := (b1 - 240) * 262144 + (b2 - 128) * 4096 + (b3 - 128) * 64 + (b4 - 128) in
                  if (240 <=? b1) && is_cont b2 && is_cont b3 && is_cont b4 && (65536 <=? c) && is_char c
                  then cons c <$> from_utf8 r4 else None
              | [] => None
              end
          | [] => None
          end
      | [] => None
      end
  end.

(** Boolean comparisons of integers, decided. *)
Ltac zbool :=
  repeat match goal with
  | H : _ && _ = true |- _ => apply andb_true_iff in H as [? ?]
  | H : (_ <=? _) = true |- _ => apply Z.leb_le in H
  | H : (_ <? _) = true |- _ => apply Z.ltb_lt in H
  | H : (_ <? _) = false |- _ => apply Z.ltb_ge in H
  | H : (_ <=? _) = false |- _ => apply Z.leb_gt in H
  end.

(** Case analysis on the comparisons of a goal. *)
Ltac ztest :=
  repeat match goal with
  | |- context [?x <=? ?y] => destruct (Z.leb_spec x y); try lia
  | |- context [?x <? ?y] => destruct (Z.ltb_spec x y); try lia
  end; cbn [andb orb].

Lemma is_char_range c : is_char c = true -> 0 <= c < 1114112.
Proof. unfold is_char. rewrite orb_true_iff. intros [H|H]; zbool; lia. Qed.

(** The bytes a character can take, which are never the largest ones. *)
Lemma utf8_char_small c : is_char c = true -> Forall (fun b => 0 <= b < 245) (utf8_char c).
Proof.
  intros Hc%is_char_range. unfold utf8_char.
  pose proof (Z.mod_pos_bound c 64 ltac:(lia)). pose proof (Z.mod_pos_bound (c / 64) 64 ltac:(lia)).
  pose proof (Z.mod_pos_bound (c / 4096) 64 ltac:(lia)).
  repeat case_match; zbool; repeat apply List.Forall_cons; try apply List.Forall_nil; try lia;
    (split; [apply Z.add_nonneg_nonneg; [lia|apply Z.div_pos; lia]|]);
    match goal with |- ?a + c / ?m < _ => assert (c / m < 245 - a); [apply Z.div_lt_upper_bound|]; lia end.
Qed.

Lemma into_bytes_small t : is_text t -> Forall (fun b => 0 <= b < 245) (into_bytes t).
Proof.
  induction 1 as [|c t Hc _ IH]; [constructor|]. unfold into_bytes. simpl.
  apply Forall_app. split; [by apply utf8_char_small|exact IH].
Qed.

(** Reading back the bytes of one character. *)
Lemma from_utf8_char c t b :
  is_char c = true -> from_utf8 b = Some t -> from_utf8 (utf8_char c ++ b) = Some (c :: t).
Proof.
  intros Hc Hb. pose proof (is_char_range c Hc) as Hr. pose proof (Z.div_mod c 64 ltac:(lia)) as D0. pose proof (Z.div_mod (c / 64) 64 ltac:(lia)) as D1.
  pose proof (Z.div_mod (c / 4096) 64 ltac:(lia)) as D2.
  pose proof (Z.mod_pos_bound c 64 ltac:(lia)). pose proof (Z.mod_pos_bound (c / 64) 64 ltac:(lia)).
  pose proof (Z.mod_pos_bound (c / 4096) 64 ltac:(lia)).
  rewrite Z.div_div in D1, D2 by lia. change (64 * 64) with 4096 in D1. change (4096 * 64) with 262144 in D2.
  assert (0 <= c / 64 /\ 0 <= c / 4096 /\ 0 <= c / 262144) as (? & ? & ?) by (split_and!; apply Z.div_pos; lia).
  unfold is_cont, utf8_char. repeat case_match; zbool; cbn [app from_utf8]; unfold is_cont.
  - by rewrite (proj2 (andb_true_iff _ _)), Hb by (split; [apply Z.leb_le|apply Z.ltb_lt]; lia).
  - assert ((192 + c / 64 - 192) * 64 + (128 + c mod 64 - 128) = c) as -> by lia.
    ztest; [|lia..]. by rewrite Hb.
  - assert ((224 + c / 4096 - 224) * 4096 + (128 + c / 64 mod 64 - 128) * 64 + (128 + c mod 64 - 128) = c) as -> by lia.
    rewrite Hc. ztest; [|lia..]. by rewrite Hb.
  - assert ((240 + c / 262144 - 240) * 262144 + (128 + c / 4096 mod 64 - 128) * 4096 +
      (128 + c / 64 mod 64 - 128) * 64 + (128 + c mod 64 - 128) = c) as -> by lia.
    rewrite Hc. ztest; [|lia..]. by rewrite Hb.
Qed.

Lemma from_utf8_into_bytes t : is_text t -> from_utf8 (into_bytes t) = Some t.
Proof. induction 1 as [|c t Hc _ IH]; [done|]. unfold into_bytes. simpl. by apply from_utf8_char. Qed.

(** The digits of a number in base 64. *)
Lemma div_digit a b m : 0 <= b < m -> (a * m + b) / m = a /\ (a * m + b) mod m = b.
Proof. intros Hb. split; [by rewrite Z.div_add_l, Z.div_small, Z.add_0_r by lia|]. rewrite Z.add_comm, Z.mod_add by lia. by apply Z.mod_small. Qed.

Ltac digits :=
  repeat match goal with
  | |- context [(?a * 64 + ?b) / 64] => rewrite (proj1 (div_digit a b 64 ltac:(lia)))
  | |- context [(?a * 64 + ?b) mod 64] => rewrite (proj2 (div_digit a b 64 ltac:(lia)))
  end.

Lemma utf8_char_2 b1 b2 : 192 <= b1 < 224 -> 128 <= b2 < 192 -> 128 <= (b1 - 192) * 64 + (b2 - 128) ->
  utf8_char ((b1 - 192) * 64 + (b2 - 128)) = [b1; b2].
Proof.
  intros H1 H2 Hc. unfold utf8_char. ztest. digits. repeat f_equal; lia.
Qed.

Lemma utf8_char_3 b1 b2 b3 : 224 <= b1 < 240 -> 128 <= b2 < 192 -> 128 <= b3 < 192 ->
  2048 <= (b1 - 224) * 4096 + (b2 - 128) * 64 + (b3 - 128) ->
  utf8_char ((b1 - 224) * 4096 + (b2 - 128) * 64 + (b3 - 128)) = [b1; b2; b3].
Proof.
  intros H1 H2 H3 Hc. unfold utf8_char. ztest.
  replace ((b1 - 224) * 4096 + (b2 - 128) * 64 + (b3 - 128))
    with (((b1 - 224) * 64 + (b2 - 128)) * 64 + (b3 - 128)) by lia.
  rewrite <-(Z.div_div _ 64 64) by lia. digits. repeat f_equal; lia.
Qed.

Lemma utf8_char_4 b1 b2 b3 b4 : 240 <= b1 -> 128 <= b2 < 192 -> 128 <= b3 < 192 -> 128 <= b4 < 192 ->
  65536 <= (b1 - 240) * 262144 + (b2 - 128) * 4096 + (b3 - 128) * 64 + (b4 - 128) ->
  utf8_char ((b1 - 240) * 262144 + (b2 - 128) * 4096 + (b3 - 128) * 64 + (b4 - 128)) = [b1; b2; b3; b4].
Proof.
  intros H1 H2 H3 H4 Hc. unfold utf8_char. ztest.
  replace ((b1 - 240) * 262144 + (b2 - 128) * 4096 + (b3 - 128) * 64 + (b4 - 128))
    with ((((b1 - 240) * 64 + (b2 - 128)) * 64 + (b3 - 128)) * 64 + (b4 - 128)) by lia.
  rewrite <-(Z.div_div _ 4096 64), <-(Z.div_div _ 64 64) by lia. digits. repeat f_equal; lia.
Qed.

(** What is valid UTF-8 is the form of a text. *)
Lemma from_utf8_spec n b t : (length b <= n)%nat -> from_utf8 b = Some t -> is_text t /\ into_bytes t = b.
Proof.
  revert b t. induction n as [|n IH]; intros [|b1 r1] t Hlen; simpl in Hlen; try lia; cbn [from_utf8];
    [by intros [= <-]..|]. unfold is_cont.
  assert (forall r t', (length r <= n)%nat -> cons t' <$> from_utf8 r = Some t ->
    exists t1, t = t' :: t1 /\ is_text t1 /\ into_bytes t1 = r) as Hrest.
  { intros r t' Hr. destruct (from_utf8 r) as [t1|] eqn:Ht1; [|done]. intros [= <-].
    exists t1. split; [done|]. by apply IH. }
  case_match eqn:E1; [|destruct r1 as [|b2 r2]; [done|]; case_match eqn:E2;
    [|destruct r2 as [|b3 r3]; [done|]; case_match eqn:E3; [|destruct r3 as [|b4 r4]; [done|]]]];
    try case_match eqn:E4; try done; simpl in Hlen; zbool;
    intros (t1 & -> & Ht1 & Hb)%Hrest; try lia; (split; [constructor; [|done]|]);
    try done; try (unfold is_char; ztest; done);
    unfold into_bytes in *; simpl; rewrite Hb.
  - unfold utf8_char. by ztest.
  - by rewrite utf8_char_2.
  - by rewrite utf8_char_3.
  - by rewrite utf8_char_4.
Qed.

Lemma from_utf8_text b t : from_utf8 b = Some t -> is_text t.
Proof. intros H. by eapply from_utf8_spec. Qed.
Lemma from_utf8_bytes b t : from_utf8 b = Some t -> into_bytes t = b.
Proof. intros H. by eapply from_utf8_spec. Qed.

(** A character of one byte is found in the bytes where it is in the text. *)
Lemma ascii_in_bytes c t : 0 <= c < 128 -> is_text t -> (c ∈ into_bytes t <-> c ∈ t).
Proof.
  intros Hc. induction 1 as [|d t Hd _ IH]; [done|]. unfold into_bytes in *. simpl.
  rewrite elem_of_app, elem_of_cons, IH. enough (c ∈ utf8_char d <-> c = d) by tauto.
  pose proof (is_char_range d Hd). pose proof (Z.mod_pos_bound d 64 ltac:(lia)).
  pose proof (Z.mod_pos_bound (d / 64) 64 ltac:(lia)). pose proof (Z.mod_pos_bound (d / 4096) 64 ltac:(lia)).
  assert (0 <= d / 64 /\ 0 <= d / 4096 /\ 0 <= d / 262144) as (? & ? & ?) by (split_and!; apply Z.div_pos; lia).
  unfold utf8_char. repeat case_match; zbool; rewrite ?elem_of_cons, elem_of_nil; split; intuition lia.
Qed.

Lemma into_bytes_app t u : into_bytes (t ++ u) = into_bytes t ++ into_bytes u.
Proof. unfold into_bytes. by rewrite map_app, concat_app. Qed.

(** * Splitting and trimming *)

(** [str::split] at a character: one piece more than there are separators. *)
Fixpoint split_on (sep : Z) (t : Text) : list Text :=
  match t with
  | [] => [[]]
  | c :: t =>
      if c =? sep then [] :: split_on sep t
      else match split_on sep t with
           | p :: ps => (c :: p) :: ps
           | [] => [[c]]
           end
  end.

Fixpoint trim_start (t : Text) : Text :=
  match t with
  | c :: t' => if is_whitespace c then trim_start t' else t
  | [] => []
  end.
Definition trim_end (t : Text) : Text := reverse (trim_start (reverse t)).
Definition trim (t : Text) : Text := trim_end (trim_start t).

(** [l] joined by [sep]. *)
Fixpoint join_with (sep : Z) (l : list Text) : Text :=
  match l with
  | [] => []
  | [t] => t
  | t :: l => t ++ sep :: join_with sep l
  end.

Lemma split_on_nonempty sep t : split_on sep t <> [].
Proof. destruct t as [|c t]; simpl; [done|]. repeat case_match; done. Qed.

Lemma split_on_single sep t : sep ∉ t -> split_on sep t = [t].
Proof.
  induction t as [|c t IH]; intros Hno; [done|]. simpl.
  rewrite (proj2 (Z.eqb_neq c sep)) by set_solver. by rewrite IH by set_solver.
Qed.

Lemma split_on_app sep t u : sep ∉ t -> split_on sep (t ++ sep :: u) = t :: split_on sep u.
Proof.
  induction t as [|c t IH]; intros Hno; simpl; [by rewrite Z.eqb_refl|].
  rewrite (proj2 (Z.eqb_neq c sep)) by set_solver. by rewrite IH by set_solver.
Qed.

Lemma split_on_join sep l : l <> [] -> Forall (fun t => sep ∉ t) l -> split_on sep (join_with sep l) = l.
Proof.
  intros Hne Hl. induction Hl as [|t l Ht Hl IH]; [done|]. destruct l as [|u l].
  - by apply split_on_single.
  - change (join_with sep (t :: u :: l)) with (t ++ sep :: join_with sep (u :: l)).
    rewrite split_on_app by done. by rewrite IH.
Qed.

(** No white space at an end. *)
Definition trimmed (t : Text) : Prop :=
  match t with c :: _ => is_whitespace c = false | [] => True end /\
  match reverse t with c :: _ => is_whitespace c = false | [] => True end.

Lemma trim_start_none t : match t with c :: _ => is_whitespace c = false | [] => True end -> trim_start t = t.
Proof. destruct t; simpl; [done|]. by intros ->. Qed.

Lemma trim_trimmed t : trimmed t -> trim t = t.
Proof.
  intros [H1 H2]. unfold trim, trim_end. rewrite (trim_start_none t H1), trim_start_none by done.
  apply reverse_involutive.
Qed.

(** ** Decimal *)

(** A [u64] has at most twenty digits. *)
Fixpoint decimal_from (fuel : nat) (n : Z) (acc : Text) : Text :=
  match fuel with
  | O => acc
  | S fuel =>
      let acc := (48 + n mod 10) :: acc in
      if n <? 10 then acc else decimal_from fuel (n / 10) acc
  end.
Definition decimal (n : Z) : Text := decimal_from 20 n [].

Lemma decimal_from_digits fuel n acc :
  Forall (fun c => 48 <= c <= 57) acc -> Forall (fun c => 48 <= c <= 57) (decimal_from fuel n acc).
Proof.
  revert n acc. induction fuel as [|fuel IH]; intros n acc Hacc; simpl; [done|].
  pose proof (Z.mod_pos_bound n 10 ltac:(lia)).
  assert (Forall (fun c => 48 <= c <= 57) ((48 + n mod 10) :: acc)) as H1 by (constructor; [lia|done]).
  destruct (n <? 10); [done|by apply IH].
Qed.

Lemma decimal_digits n : Forall (fun c => 48 <= c <= 57) (decimal n).
Proof. by apply decimal_from_digits. Qed.

(** * Paths *)

(** Names are the bytes of an [OsString], which need not be UTF-8; [to_str] is
    [from_utf8]. *)

Inductive Component : Type :=
| RootDir | CurDir | ParentDir
| Normal (name : bytes).

Abbreviation Path := (list Component).

#[export] Instance Component_eq : EqDecision Component.
Proof. solve_decision. Defined.

Definition SLASH : Z := 47.
Definition DOT : Z := 46.

(** [.] stands for a component only at the front. *)
Definition component (t : bytes) : option Component :=
  if decide (t = [] \/ t = [DOT]) then None
  else if decide (t = [DOT; DOT]) then Some ParentDir else Some (Normal t).

Definition path_new (t : bytes) : Path :=
  let parts := split_on SLASH t in
  let front :=
    match t with
    | c :: _ => if c =? SLASH then [RootDir]
                else if decide (head parts = Some [DOT]) then [CurDir] else []
    | [] => []
    end in
  front ++ omap component parts.

(** [PathBuf::push] and [Path::join]. *)
Definition join_path (p q : Path) : Path :=
  match q with
  | RootDir :: _ => q
  | CurDir :: q' => match p with [] => q | _ => p ++ q' end
  | _ => p ++ q
  end.

Definition file_name (p : Path) : option bytes :=
  match list.last p with Some (Normal t) => Some t | _ => None end.

(** The parts of a file name around its last dot; a name that begins with its only
    dot has no extension. *)
Fixpoint split_last_dot (t : bytes) : option (bytes * bytes) :=
  match t with
  | [] => None
  | c :: t =>
      match split_last_dot t with
      | Some (before, after) => Some (c :: before, after)
      | None => if c =? DOT then Some ([], t) else None
      end
  end.
Definition file_stem (p : Path) : option bytes :=
  (fun name => match split_last_dot name with
               | Some (before, _) => if decide (before = []) then name else before
               | None => name
               end) <$> file_name p.
Definition extension (p : Path) : option bytes :=
  name ← file_name p;
  match split_last_dot name with
  | Some (before, after) => if decide (before = []) then None else Some after
  | None => None
  end.

(** [PathBuf::set_file_name]. *)
Definition set_file_name (name : bytes) (p : Path) : Path :=
  join_path (match file_name p with Some _ => removelast p | None => p end) (path_new name).

(** The name of a file, as opposed to a path. *)
Definition plain_name (t : bytes) : Prop := (SLASH ∉ t) /\ t <> [] /\ t <> [DOT] /\ t <> [DOT; DOT].

Lemma path_new_plain t : plain_name t -> path_new t = [Normal t].
Proof.
  intros (Hs & Hne & H1 & H2). unfold path_new. rewrite split_on_single by done. simpl.
  destruct t as [|c t]; [done|]. rewrite (proj2 (Z.eqb_neq c SLASH)) by set_solver.
  rewrite decide_False by (by intros [= -> ->]). simpl. unfold component.
  rewrite decide_False by (intros [?|?]; done). by rewrite decide_False.
Qed.

Lemma file_name_set t p : plain_name t -> file_name (set_file_name t p) = Some t.
Proof.
  intros Ht. unfold set_file_name. rewrite path_new_plain by done. unfold join_path, file_name at 1.
  by rewrite last_snoc.
Qed.

(** The last component of a path. *)
Lemma split_on_snoc sep t u : sep ∉ u -> split_on sep (t ++ sep :: u) = split_on sep t ++ [u].
Proof.
  intros Hu. induction t as [|c t IH]; simpl.
  - by rewrite Z.eqb_refl, split_on_single.
  - rewrite IH. destruct (c =? sep); [done|].
    pose proof (split_on_nonempty sep t). by destruct (split_on sep t).
Qed.

Lemma file_name_last t u : plain_name u -> file_name (path_new (t ++ SLASH :: u)) = Some u.
Proof.
  intros (Hs & Hne & H1 & H2). unfold path_new. rewrite split_on_snoc, omap_app by done.
  assert (omap component [u] = [Normal u]) as ->.
  { simpl. unfold component. rewrite decide_False by (intros [?|?]; done). by rewrite decide_False. }
  unfold file_name. by rewrite app_assoc, last_snoc.
Qed.

Lemma file_name_plain u : plain_name u -> file_name (path_new u) = Some u.
Proof. intros Hu. by rewrite path_new_plain. Qed.

Lemma split_last_dot_app t u : DOT ∉ u -> split_last_dot (t ++ DOT :: u) = Some (t, u).
Proof.
  intros Hu. induction t as [|c t IH]; simpl.
  - replace (split_last_dot u) with (@None (bytes * bytes)); [done|]. induction u as [|d u IH]; [done|]. simpl.
    apply not_elem_of_cons in Hu as [Hd Hu]. rewrite <-IH by done. by rewrite (proj2 (Z.eqb_neq d DOT)) by congruence.
  - by rewrite IH.
Qed.
