(* ===== verification/EventLoop.v ===== *)
(** The loop that runs what is asked of a client ([safe_core/src/event_loop.rs]): the
    messages of a channel, each a closure over the client and the context that may leave
    a future behind for the runtime; and the events of the network
    ([safe_core/src/event.rs]) with their observers. *)
From S2P Require Import Prelude.

(** * Events of the network ([safe_core/src/event.rs]) *)

Inductive NetworkEvent := Connected | Disconnected.

Definition NETWORK_EVENT_START_RANGE : Z := 0.
Definition NetworkEvent_into (e : NetworkEvent) : Z :=
  match e with
  | Connected => NETWORK_EVENT_START_RANGE
  | Disconnected => NETWORK_EVENT_START_RANGE - 1
  end.

#[export] Instance NetworkEvent_eq : EqDecision NetworkEvent.
Proof. solve_decision. Defined.

(** What an app and the authenticator do with an event, which the receiver never fails
    to give: they notify of a loss of the connection.  The state is how often they did. *)
Definition app_observe (event : NetworkEvent) (notified : nat) : nat :=
  match event with Disconnected => S notified | _ => notified end.
Definition auth_observe (net_event : result NetworkEvent unit) (notified : nat) : nat :=
  match net_event with Ok Disconnected => S notified | _ => notified end.

(** * The loop *)

Section event_loop.
(** [W] is what a closure can change through the client and the context. *)
Context {W : Type}.

(** A future the closure leaves behind is polled until it has done its work: what is
    left of it, a poll at a time. *)
Definition TailFuture : Type := list (W -> W).
Definition TailFutureFn : Type := W -> option TailFuture * W.

(** The closure of a message is [FnMut], over an [FnOnce] that the first call takes. *)
Inductive CoreMsg := mk_core_msg (f : option (option TailFutureFn)).

Definition CoreMsg_new (f : TailFutureFn) : CoreMsg := mk_core_msg (Some (Some f)).
Definition build_terminator : CoreMsg := mk_core_msg None.

(** The receiver, and what runs on the [Runtime] of the loop. *)
Record EventLoop := {
  el_rx : list CoreMsg;
  el_closed : bool;
  el_spawned : list TailFuture;
  el_world : W;
}.

Inductive LoopStep := LoopGoesOn (el : EventLoop) | LoopPanics (el : EventLoop) | LoopExits (w : W).

(** [for_each] of [keep_alive], when it is polled: [None] when it waits for a message.
    At the end of [run] the [Runtime] is dropped, with the tails it still has. *)
Definition keep_alive (el : EventLoop) : option LoopStep :=
  match el_rx el with
  | mk_core_msg (Some f) :: rest =>
      match f with
      | None => Some (LoopPanics el)
      | Some f =>
          let '(tail, w) := f (el_world el) in
          Some (LoopGoesOn {| el_rx := rest; el_closed := el_closed el;
                              el_spawned := el_spawned el ++ match tail with Some t => [t] | None => [] end;
                              el_world := w |})
      end
  | mk_core_msg None :: _ => Some (LoopExits (el_world el))
  | [] => if el_closed el then Some (LoopExits (el_world el)) else None
  end.

(** The runtime polls [keep_alive] and the spawned futures in some order, while
    senders add messages, or go away; a step is labelled with the closure it calls. *)
Inductive loop_step : option TailFutureFn -> EventLoop -> EventLoop -> Prop :=
| LoopMessage el f rest el' :
    el_rx el = CoreMsg_new f :: rest -> keep_alive el = Some (LoopGoesOn el') ->
    loop_step (Some f) el el'
| LoopTail el l t ts r :
    el_spawned el = l ++ (t :: ts) :: r ->
    loop_step None el {| el_rx := el_rx el; el_closed := el_closed el; el_spawned := l ++ ts :: r;
                         el_world := t (el_world el) |}
| LoopSend el m :
    el_closed el = false ->
    loop_step None el {| el_rx := el_rx el ++ [m]; el_closed := false; el_spawned := el_spawned el;
                         el_world := el_world el |}
| LoopSendersGone el :
    loop_step None el {| el_rx := el_rx el; el_closed := true; el_spawned := el_spawned el;
                         el_world := el_world el |}.

Inductive loop_run : list (option TailFutureFn) -> EventLoop -> EventLoop -> Prop :=
| LoopRunNil el : loop_run [] el el
| LoopRunStep l ls el1 el2 el3 :
    loop_step l el1 el2 -> loop_run ls el2 el3 -> loop_run (l :: ls) el1 el3.

(** The sender of a channel, whose loop may have ended: whether the message is taken. *)
Definition unbounded_send (m : CoreMsg) (l : option EventLoop) : bool * option EventLoop :=
  match l with
  | Some el => (true, Some {| el_rx := el_rx el ++ [m]; el_closed := el_closed el;
                              el_spawned := el_spawned el; el_world := el_world el |})
  | None => (false, None)
  end.

(** The closures of the messages in front of the first terminator. *)
Definition pending_calls (fs : list TailFutureFn) (el : EventLoop) : Prop :=
  exists rest, el_rx el = map CoreMsg_new fs ++ build_terminator :: rest.

Lemma pending_calls_step l el el' fs :
  loop_step l el el' -> pending_calls fs el ->
  exists fs', fs = option_list l ++ fs' /\ pending_calls fs' el'.
Proof.
  intros [el1 f rest el2 Hrx Hk|el1 lo t ts r Hs|el1 m Hc|el1] [rest' Hp].
  - unfold keep_alive in Hk. rewrite Hrx in *. destruct fs as [|g fs]; [done|].
    simpl in Hp. injection Hp as <- Hp. exists fs. split; [done|].
    simpl in Hk. destruct (f (el_world el1)) as [tail w]. simplify_eq. by exists rest'.
  - exists fs. split; [done|]. by exists rest'.
  - exists fs. split; [done|]. exists (rest' ++ [m]). simpl. rewrite Hp. by rewrite <-(assoc_L (++)).
  - exists fs. split; [done|]. by exists rest'.
Qed.

Lemma pending_calls_run ls el el' fs :
  loop_run ls el el' -> pending_calls fs el ->
  exists fs', fs = omap id ls ++ fs' /\ pending_calls fs' el'.
Proof.
  intros Hrun. revert fs. induction Hrun as [el|l ls el1 el2 el3 Hs _ IH]; intros fs Hp.
  - by exists fs.
  - destruct (pending_calls_step _ _ _ _ Hs Hp) as (fs1 & -> & Hp1).
    destruct (IH fs1 Hp1) as (fs2 & -> & Hp2). exists fs2. split; [|done].
    destruct l; simpl; by rewrite ?(assoc_L (++)).
Qed.

(** C27: once a terminator is in the channel, behind the messages [fs], the loop calls
    their closures and no others, each once and in the order they were sent, whatever
    spawned futures are polled and whatever is sent in between; it never waits for a
    message and never takes a closure twice, and when all of them have been called its
    next step ends it, with the world as it is then: what is spawned and not done, and
    what was sent after the terminator, does not run. *)
Theorem messages_run_in_order fs ls el el' :
  pending_calls fs el -> loop_run ls el el' ->
  exists fs', fs = omap id ls ++ fs' /\
    match fs' with
    | f :: _ => exists el2, keep_alive el' = Some (LoopGoesOn el2) /\ loop_step (Some f) el' el2 /\
        el_world el2 = (f (el_world el')).2
    | [] => keep_alive el' = Some (LoopExits (el_world el'))
    end.
Proof.
  intros Hp Hrun. destruct (pending_calls_run _ _ _ _ Hrun Hp) as (fs' & -> & rest & Hrx).
  exists fs'. split; [done|]. destruct fs' as [|f fs']; unfold keep_alive at 1; rewrite Hrx; [done|].
  simpl. destruct (f (el_world el')) as [tail w] eqn:Hf. eexists. split_and!; [done| |done].
  eapply LoopMessage; [exact Hrx|]. unfold keep_alive. rewrite Hrx. simpl. by rewrite Hf.
Qed.
End event_loop.
Arguments CoreMsg W : clear implicits.
Arguments EventLoop W : clear implicits.
Arguments TailFuture W : clear implicits.
Arguments TailFutureFn W : clear implicits.

(** * A concrete loop *)

(** Two messages and a terminator, with a third message behind it. *)
Definition ex_call (k : nat) : TailFutureFn (list nat) := fun w => (Some [app w; cons k], k :: w).
Definition ex_loop : EventLoop (list nat) :=
  {| el_rx := [CoreMsg_new (ex_call 1); CoreMsg_new (ex_call 2); build_terminator;
               CoreMsg_new (ex_call 3)];
     el_closed := false; el_spawned := []; el_world := [] |}.

(** The loop after its first message, and one poll of the future that left behind. *)
Definition ex_loop_later : EventLoop (list nat) :=
  {| el_rx := [CoreMsg_new (ex_call 2); build_terminator; CoreMsg_new (ex_call 3)];
     el_closed := false; el_spawned := [[cons 1]]; el_world := [1] |}.

Example messages_run_in_order_witness :
  exists fs', [ex_call 1; ex_call 2] = omap id [Some (ex_call 1); None] ++ fs' /\
    match fs' with
    | f :: _ => exists el2, keep_alive ex_loop_later = Some (LoopGoesOn el2) /\
        loop_step (Some f) ex_loop_later el2 /\ el_world el2 = (f (el_world ex_loop_later)).2
    | [] => keep_alive ex_loop_later = Some (LoopExits (el_world ex_loop_later))
    end.
Proof.
  apply (messages_run_in_order [ex_call 1; ex_call 2] [Some (ex_call 1); None] ex_loop).
  - by exists [CoreMsg_new (ex_call 3)].
  - eapply LoopRunStep; [by eapply LoopMessage|].
    eapply LoopRunStep; [by apply (LoopTail _ [] (app []) [cons 1] [])|]. constructor.
Defined.
