(* ===== verification/SafeNd.v ===== *)
(** The [safe_nd] crate, as the client libraries see it.

    [safe_nd] is a dependency, not part of this repository: its types and
    functions are parameters here.  [NdTypes] holds the types whose
    representation the sources never look into; the enums and structs whose
    variants and fields the sources do match on ([Request], [Response],
    [MData], [AData], addresses, errors, ...) are inductive types over them,
    with exactly the variants the sources name.  [NdOps] holds the crate's
    methods the sources call, and [NdLaws] the documented behaviour that the
    theorems rely on, one named law per fact. *)
From S2P Require Import Prelude.

Class NdTypes := {
  PublicKey : Type;
  PublicKey_eq :: EqDecision PublicKey;
  PublicKey_countable :: Countable PublicKey;
  ClientPublicId : Type;
  ClientPublicId_eq :: EqDecision ClientPublicId;
  ClientPublicId_countable :: Countable ClientPublicId;
  AppPublicId : Type;
  AppPublicId_eq :: EqDecision AppPublicId;
  AppPublicId_countable :: Countable AppPublicId;
  NodePublicId : Type;
  NodePublicId_eq :: EqDecision NodePublicId;
  NodePublicId_countable :: Countable NodePublicId;
  Signature : Type;
  MessageId : Type;
  Notification : Type;
  Coins : Type;
  Coins_eq :: EqDecision Coins;
  LoginPacket : Type;
  PubImmutableData : Type;
  UnpubImmutableData : Type;
  SeqMutableData : Type;
  UnseqMutableData : Type;
  MDataPermissionSet : Type;
  MDataSeqEntryActions : Type;
  MDataUnseqEntryActions : Type;
  PubSeqAppendOnlyData : Type;
  PubUnseqAppendOnlyData : Type;
  UnpubSeqAppendOnlyData : Type;
  UnpubUnseqAppendOnlyData : Type;
  ADataEntry : Type;
  ADataIndices : Type;
  ADataOwner : Type;
  ADataUser : Type;
  ADataPubPermissions : Type;
  ADataUnpubPermissions : Type;
  ADataPubPermissionSet : Type;
  ADataUnpubPermissionSet : Type;
  (** Payloads of the error variants the sources ignore. *)
  SndPayload : Type;
}.

(** * Names and addresses *)

(** [XorName(pub [u8; XOR_NAME_LEN])]. *)
Record XorName := MkXorName { xor_name_0 : bytes }.

#[export] Instance XorName_eq : EqDecision XorName.
Proof. solve_decision. Defined.
#[export] Instance XorName_countable : Countable XorName.
Proof.
  refine (inj_countable' xor_name_0 MkXorName _). by intros [].
Defined.

Inductive IDataAddress := IPub (name : XorName) | IUnpub (name : XorName).
Inductive MDataKind := MKSeq | MKUnseq.
Inductive MDataAddress := MSeq (name : XorName) (tag : Z) | MUnseq (name : XorName) (tag : Z).
Inductive ADataAddress :=
| APubSeq (name : XorName) (tag : Z)
| APubUnseq (name : XorName) (tag : Z)
| AUnpubSeq (name : XorName) (tag : Z)
| AUnpubUnseq (name : XorName) (tag : Z).

#[export] Instance IDataAddress_eq : EqDecision IDataAddress.
Proof. solve_decision. Defined.
#[export] Instance MDataKind_eq : EqDecision MDataKind.
Proof. solve_decision. Defined.
#[export] Instance MDataAddress_eq : EqDecision MDataAddress.
Proof. solve_decision. Defined.
#[export] Instance ADataAddress_eq : EqDecision ADataAddress.
Proof. solve_decision. Defined.

#[export] Instance IDataAddress_countable : Countable IDataAddress.
Proof.
  refine (inj_countable'
    (fun a => match a with IPub n => (true, n) | IUnpub n => (false, n) end)
    (fun p => if p.1 then IPub p.2 else IUnpub p.2) _).
  by intros [].
Defined.
#[export] Instance MDataAddress_countable : Countable MDataAddress.
Proof.
  refine (inj_countable'
    (fun a => match a with MSeq n t => (true, n, t) | MUnseq n t => (false, n, t) end)
    (fun p => if p.1.1 then MSeq p.1.2 p.2 else MUnseq p.1.2 p.2) _).
  by intros [].
Defined.
#[export] Instance ADataAddress_countable : Countable ADataAddress.
Proof.
  refine (inj_countable'
    (fun a => match a with
       | APubSeq n t => (true, true, n, t) | APubUnseq n t => (true, false, n, t)
       | AUnpubSeq n t => (false, true, n, t) | AUnpubUnseq n t => (false, false, n, t) end)
    (fun p => match p with
       | (true, true, n, t) => APubSeq n t | (true, false, n, t) => APubUnseq n t
       | (false, true, n, t) => AUnpubSeq n t | (false, false, n, t) => AUnpubUnseq n t end) _).
  by intros [].
Defined.

Inductive ADataIndex := FromStart (index : Z) | FromEnd (index : Z).
Inductive ADataAction := ARead | AAppend | AManagePermissions.
Inductive MDataAction := MRead | MInsert | MUpdate | MDelete | MManagePermissions.
Inductive RequestType := PublicGet | PrivateGet | TMutation | TTransaction.

#[export] Instance MDataAction_eq : EqDecision MDataAction.
Proof. solve_decision. Defined.
#[export] Instance RequestType_eq : EqDecision RequestType.
Proof. solve_decision. Defined.

Record AppPermissions := {
  transfer_coins_perm : bool;
  perform_mutations : bool;
  get_balance_perm : bool;
}.

(** The version an [EntryError] carries is an unsigned integer narrower than
    [u64]; its width is [entry_version_modulus] below. *)
Inductive EntryError :=
| ENoSuchEntry
| EEntryExists (current_version : Z)
| EInvalidSuccessor (current_version : Z).

Record MDataSeqValue := { seq_data : bytes; seq_version : Z }.
Inductive MDataSeqEntryAction :=
| Ins (value : MDataSeqValue)
| Update (value : MDataSeqValue)
| Del (version : Z).

Abbreviation MDataSeqEntries := (gmap bytes MDataSeqValue).
Abbreviation MDataUnseqEntries := (gmap bytes bytes).

Inductive MDataValue := VSeq (v : MDataSeqValue) | VUnseq (v : bytes).
Inductive MDataEntries := EntSeq (e : MDataSeqEntries) | EntUnseq (e : MDataUnseqEntries).
Inductive MDataValues := ValsSeq (v : list MDataSeqValue) | ValsUnseq (v : list bytes).

Section data.
Context `{ndt : !NdTypes}.

(** [safe_nd::Error], with the variants of the exhaustive match of
    [core_error_code]. *)
Inductive SndError :=
| AccessDenied | NoSuchLoginPacket | LoginPacketExists | NoSuchData | DataExists
| NoSuchEntry | TooManyEntries
| InvalidEntryActions (errors : gmap bytes EntryError)
| NoSuchKey | KeysExist (p : SndPayload) | DuplicateEntryKeys | DuplicateMessageId
| InvalidOwners | InvalidSuccessor (current : Z) | InvalidOperation
| NetworkOther (p : SndPayload) | InvalidOwnersSuccessor (p : SndPayload)
| InvalidPermissionsSuccessor (p : SndPayload)
| SigningKeyTypeMismatch | InvalidSignature | LossOfPrecision | ExcessiveValue
| NoSuchBalance | BalanceExists | FailedToParse (p : SndPayload) | TransactionIdExists
| InsufficientBalance | ExceededSize.

Inductive PublicId :=
| PClient (id : ClientPublicId) | PApp (id : AppPublicId) | PNode (id : NodePublicId).

#[export] Instance PublicId_eq : EqDecision PublicId.
Proof. solve_decision. Defined.

Inductive IData := IDPub (d : PubImmutableData) | IDUnpub (d : UnpubImmutableData).
Inductive MData := MDSeq (d : SeqMutableData) | MDUnseq (d : UnseqMutableData).
Inductive AData :=
| ADPubSeq (d : PubSeqAppendOnlyData) | ADPubUnseq (d : PubUnseqAppendOnlyData)
| ADUnpubSeq (d : UnpubSeqAppendOnlyData) | ADUnpubUnseq (d : UnpubUnseqAppendOnlyData).
Inductive Data := Immutable (d : IData) | Mutable (d : MData) | AppendOnly (d : AData).

Inductive MDataEntryActions :=
| ActSeq (a : MDataSeqEntryActions) | ActUnseq (a : MDataUnseqEntryActions).
Inductive ADataPermissions :=
| PermsPub (p : ADataPubPermissions) | PermsUnpub (p : ADataUnpubPermissions).

Record ADataAppendOperation := { append_address : ADataAddress; append_values : list ADataEntry }.
Record Transaction := { tx_id : Z; tx_amount : Coins }.

(** [safe_nd::Request]: the variants of the exhaustive match of
    [Vault::process_request]. *)
Inductive Request :=
| GetIData (address : IDataAddress)
| PutIData (idata : IData)
| DeleteUnpubIData (address : IDataAddress)
| ListAuthKeysAndVersion
| InsAuthKey (key : PublicKey) (permissions : AppPermissions) (version : Z)
| DelAuthKey (key : PublicKey) (version : Z)
| TransferCoins (destination : XorName) (amount : Coins) (transaction_id : Z)
| CreateBalance (new_balance_owner : PublicKey) (amount : Coins) (transaction_id : Z)
| GetBalance
| CreateLoginPacketFor (new_owner : PublicKey) (amount : Coins) (transaction_id : Z)
    (new_login_packet : LoginPacket)
| CreateLoginPacket (account_data : LoginPacket)
| GetLoginPacket (location : XorName)
| UpdateLoginPacket (new_packet : LoginPacket)
| GetMData (address : MDataAddress)
| PutMData (data : MData)
| GetMDataValue (address : MDataAddress) (key : bytes)
| GetMDataShell (address : MDataAddress)
| GetMDataVersion (address : MDataAddress)
| ListMDataEntries (address : MDataAddress)
| ListMDataKeys (address : MDataAddress)
| ListMDataValues (address : MDataAddress)
| DeleteMData (address : MDataAddress)
| SetMDataUserPermissions (address : MDataAddress) (user : PublicKey)
    (permissions : MDataPermissionSet) (version : Z)
| DelMDataUserPermissions (address : MDataAddress) (user : PublicKey) (version : Z)
| ListMDataUserPermissions (address : MDataAddress) (user : PublicKey)
| ListMDataPermissions (address : MDataAddress)
| MutateMDataEntries (address : MDataAddress) (actions : MDataEntryActions)
| PutAData (adata : AData)
| GetAData (address : ADataAddress)
| DeleteAData (address : ADataAddress)
| GetADataShell (address : ADataAddress) (data_index : ADataIndex)
| GetADataRange (address : ADataAddress) (range : ADataIndex * ADataIndex)
| GetADataValue (address : ADataAddress) (key : bytes)
| GetADataIndices (address : ADataAddress)
| GetADataLastEntry (address : ADataAddress)
| GetADataPermissions (address : ADataAddress) (permissions_index : ADataIndex)
| GetPubADataUserPermissions (address : ADataAddress) (permissions_index : ADataIndex)
    (user : ADataUser)
| GetUnpubADataUserPermissions (address : ADataAddress) (permissions_index : ADataIndex)
    (public_key : PublicKey)
| AppendSeq (append : ADataAppendOperation) (index : Z)
| AppendUnseq (append : ADataAppendOperation)
| AddPubADataPermissions (address : ADataAddress) (permissions : ADataPubPermissions)
    (permissions_index : Z)
| AddUnpubADataPermissions (address : ADataAddress) (permissions : ADataUnpubPermissions)
    (permissions_index : Z)
| SetADataOwner (address : ADataAddress) (owner : ADataOwner) (owners_index : Z)
| GetADataOwners (address : ADataAddress) (owners_index : ADataIndex).

Abbreviation SndResult A := (result A SndError).

Inductive Response :=
| RMutation (r : SndResult unit)
| RTransaction (r : SndResult Transaction)
| RGetIData (r : SndResult IData)
| RListAuthKeysAndVersion (r : SndResult (gmap PublicKey AppPermissions * Z))
| RGetBalance (r : SndResult Coins)
| RGetLoginPacket (r : SndResult (bytes * Signature))
| RGetMData (r : SndResult MData)
| RGetMDataValue (r : SndResult MDataValue)
| RGetMDataShell (r : SndResult MData)
| RGetMDataVersion (r : SndResult Z)
| RListMDataEntries (r : SndResult MDataEntries)
| RListMDataKeys (r : SndResult (gset bytes))
| RListMDataValues (r : SndResult MDataValues)
| RListMDataUserPermissions (r : SndResult MDataPermissionSet)
| RListMDataPermissions (r : SndResult (gmap PublicKey MDataPermissionSet))
| RGetAData (r : SndResult AData)
| RGetADataShell (r : SndResult AData)
| RGetADataRange (r : SndResult (list ADataEntry))
| RGetADataValue (r : SndResult bytes)
| RGetADataIndices (r : SndResult ADataIndices)
| RGetADataLastEntry (r : SndResult ADataEntry)
| RGetADataPermissions (r : SndResult ADataPermissions)
| RGetPubADataUserPermissions (r : SndResult ADataPubPermissionSet)
| RGetUnpubADataUserPermissions (r : SndResult ADataUnpubPermissionSet)
| RGetADataOwners (r : SndResult ADataOwner).

Inductive Message :=
| MsgRequest (request : Request) (message_id : MessageId) (signature : option Signature)
| MsgResponse (response : Response) (message_id : MessageId)
| MsgNotification (notification : Notification).
End data.

#[export] Instance PublicId_countable `{!NdTypes} : Countable PublicId.
Proof.
  refine (inj_countable'
    (fun i => match i with PClient c => inl c | PApp a => inr (inl a) | PNode n => inr (inr n) end)
    (fun x => match x with inl c => PClient c | inr (inl a) => PApp a | inr (inr n) => PNode n end) _).
  by intros [].
Defined.

Abbreviation SndResult A := (result A SndError).

(** * The crate's methods *)

Class NdOps `{!NdTypes} := {
  (** [Coins]: a number of nanos. *)
  as_nano : Coins -> Z;
  coins_from_nano : Z -> SndResult Coins;
  coins_from_str : string -> SndResult Coins;
  checked_add : Coins -> Coins -> option Coins;
  checked_sub : Coins -> Coins -> option Coins;
  (** Identities. *)
  public_key_leb : PublicKey -> PublicKey -> bool;
  xor_name_from : PublicKey -> XorName;
  public_id_name : PublicId -> XorName;
  client_name : ClientPublicId -> XorName;
  client_public_key : ClientPublicId -> PublicKey;
  app_public_key : AppPublicId -> PublicKey;
  app_owner : AppPublicId -> ClientPublicId;
  app_owner_name : AppPublicId -> XorName;
  (** Messages. *)
  get_type : Request -> RequestType;
  error_response : Request -> SndError -> Response;
  snd_error_from : string -> SndError;
  verify_signature : Signature -> PublicKey -> Request -> MessageId -> SndResult unit;
  (** Immutable data. *)
  unpub_idata_owner : UnpubImmutableData -> PublicKey;
  idata_address : IData -> IDataAddress;
  idata_address_is_pub : IDataAddress -> bool;
  (** Login packets. *)
  login_destination : LoginPacket -> XorName;
  login_authorised_getter : LoginPacket -> PublicKey;
  login_data : LoginPacket -> bytes;
  login_signature : LoginPacket -> Signature;
  (** Mutable data. *)
  mdata_address_kind : MDataAddress -> MDataKind;
  mdata_address : MData -> MDataAddress;
  mdata_owner : MData -> PublicKey;
  mdata_shell : MData -> MData;
  mdata_version : MData -> Z;
  mdata_keys : MData -> gset bytes;
  mdata_check_permissions : MData -> MDataAction -> PublicKey -> SndResult unit;
  mdata_check_is_owner : MData -> PublicKey -> SndResult unit;
  mdata_set_user_permissions :
    MData -> PublicKey -> MDataPermissionSet -> Z -> SndResult MData;
  mdata_del_user_permissions : MData -> PublicKey -> Z -> SndResult MData;
  mdata_user_permissions : MData -> PublicKey -> SndResult MDataPermissionSet;
  mdata_permissions : MData -> gmap PublicKey MDataPermissionSet;
  mdata_mutate_entries : MData -> MDataEntryActions -> PublicKey -> SndResult MData;
  seq_mdata_get : SeqMutableData -> bytes -> option MDataSeqValue;
  seq_mdata_entries : SeqMutableData -> MDataSeqEntries;
  seq_mdata_values : SeqMutableData -> list MDataSeqValue;
  unseq_mdata_get : UnseqMutableData -> bytes -> option bytes;
  unseq_mdata_entries : UnseqMutableData -> MDataUnseqEntries;
  unseq_mdata_values : UnseqMutableData -> list bytes;
  (** Append-only data. *)
  adata_kind_is_pub : ADataAddress -> bool;
  adata_kind_is_unpub : ADataAddress -> bool;
  adata_address : AData -> ADataAddress;
  adata_is_pub : AData -> bool;
  adata_is_unpub : AData -> bool;
  adata_check_permission : AData -> ADataAction -> PublicKey -> SndResult unit;
  adata_check_is_last_owner : AData -> PublicKey -> SndResult unit;
  adata_owners_index : AData -> Z;
  adata_permissions_index : AData -> Z;
  adata_owner : AData -> Z -> option ADataOwner;
  adata_owner_public_key : ADataOwner -> PublicKey;
  adata_shell : AData -> Z -> SndResult AData;
  adata_in_range : AData -> ADataIndex -> ADataIndex -> option (list ADataEntry);
  adata_get : AData -> bytes -> option bytes;
  adata_indices : AData -> SndResult ADataIndices;
  adata_last_entry : AData -> option ADataEntry;
  adata_pub_permissions : AData -> ADataIndex -> SndResult ADataPubPermissions;
  adata_unpub_permissions : AData -> ADataIndex -> SndResult ADataUnpubPermissions;
  adata_pub_user_permissions : AData -> ADataUser -> ADataIndex -> SndResult ADataPubPermissionSet;
  adata_unpub_user_permissions :
    AData -> PublicKey -> ADataIndex -> SndResult ADataUnpubPermissionSet;
  pub_seq_append : PubSeqAppendOnlyData -> list ADataEntry -> Z -> SndResult PubSeqAppendOnlyData;
  unpub_seq_append :
    UnpubSeqAppendOnlyData -> list ADataEntry -> Z -> SndResult UnpubSeqAppendOnlyData;
  pub_unseq_append : PubUnseqAppendOnlyData -> list ADataEntry -> SndResult PubUnseqAppendOnlyData;
  unpub_unseq_append :
    UnpubUnseqAppendOnlyData -> list ADataEntry -> SndResult UnpubUnseqAppendOnlyData;
  pub_seq_append_permissions :
    PubSeqAppendOnlyData -> ADataPubPermissions -> Z -> SndResult PubSeqAppendOnlyData;
  pub_unseq_append_permissions :
    PubUnseqAppendOnlyData -> ADataPubPermissions -> Z -> SndResult PubUnseqAppendOnlyData;
  unpub_seq_append_permissions :
    UnpubSeqAppendOnlyData -> ADataUnpubPermissions -> Z -> SndResult UnpubSeqAppendOnlyData;
  unpub_unseq_append_permissions :
    UnpubUnseqAppendOnlyData -> ADataUnpubPermissions -> Z -> SndResult UnpubUnseqAppendOnlyData;
  pub_seq_append_owner : PubSeqAppendOnlyData -> ADataOwner -> Z -> SndResult PubSeqAppendOnlyData;
  pub_unseq_append_owner :
    PubUnseqAppendOnlyData -> ADataOwner -> Z -> SndResult PubUnseqAppendOnlyData;
  unpub_seq_append_owner :
    UnpubSeqAppendOnlyData -> ADataOwner -> Z -> SndResult UnpubSeqAppendOnlyData;
  unpub_unseq_append_owner :
    UnpubUnseqAppendOnlyData -> ADataOwner -> Z -> SndResult UnpubUnseqAppendOnlyData;
  (** Permission sets and entry actions. *)
  perms_new : MDataPermissionSet;
  perms_allow : MDataPermissionSet -> MDataAction -> MDataPermissionSet;
  perms_deny : MDataPermissionSet -> MDataAction -> MDataPermissionSet;
  perms_is_allowed : MDataPermissionSet -> MDataAction -> bool;
  seq_actions_new : MDataSeqEntryActions;
  seq_actions_ins : MDataSeqEntryActions -> bytes -> bytes -> Z -> MDataSeqEntryActions;
  seq_actions_update : MDataSeqEntryActions -> bytes -> bytes -> Z -> MDataSeqEntryActions;
  seq_actions_del : MDataSeqEntryActions -> bytes -> Z -> MDataSeqEntryActions;
  seq_actions_from : gmap bytes MDataSeqEntryAction -> MDataSeqEntryActions;
  seq_into_actions : MDataSeqEntryActions -> gmap bytes MDataSeqEntryAction;
  entry_version_modulus : Z;
}.

(** * Documented behaviour *)

(** The requests that ask for data and are not mutations or transactions. *)
Definition is_get `{!NdTypes} (r : Request) : bool :=
  match r with
  | GetIData _ | ListAuthKeysAndVersion | GetBalance | GetLoginPacket _
  | GetMData _ | GetMDataValue _ _ | GetMDataShell _ | GetMDataVersion _
  | ListMDataEntries _ | ListMDataKeys _ | ListMDataValues _
  | ListMDataUserPermissions _ _ | ListMDataPermissions _
  | GetAData _ | GetADataShell _ _ | GetADataRange _ _ | GetADataValue _ _
  | GetADataIndices _ | GetADataLastEntry _ | GetADataPermissions _ _
  | GetPubADataUserPermissions _ _ _ | GetUnpubADataUserPermissions _ _ _
  | GetADataOwners _ _ => true
  | _ => false
  end.

(** The error a response carries, if it carries one. *)
Definition response_error `{!NdTypes} (r : Response) : option SndError :=
  let err {A} (x : SndResult A) := match x with Ok _ => None | Err e => Some e end in
  match r with
  | RMutation x => err x | RTransaction x => err x | RGetIData x => err x
  | RListAuthKeysAndVersion x => err x | RGetBalance x => err x | RGetLoginPacket x => err x
  | RGetMData x => err x | RGetMDataValue x => err x | RGetMDataShell x => err x
  | RGetMDataVersion x => err x | RListMDataEntries x => err x | RListMDataKeys x => err x
  | RListMDataValues x => err x | RListMDataUserPermissions x => err x
  | RListMDataPermissions x => err x | RGetAData x => err x | RGetADataShell x => err x
  | RGetADataRange x => err x | RGetADataValue x => err x | RGetADataIndices x => err x
  | RGetADataLastEntry x => err x | RGetADataPermissions x => err x
  | RGetPubADataUserPermissions x => err x | RGetUnpubADataUserPermissions x => err x
  | RGetADataOwners x => err x
  end.

(** The address kind of each variant of the data enums. *)
Definition idata_kind_ok `{!NdTypes} (d : IData) (a : IDataAddress) : Prop :=
  match d, a with IDPub _, IPub _ | IDUnpub _, IUnpub _ => True | _, _ => False end.
Definition mdata_kind_ok `{!NdTypes} (d : MData) (a : MDataAddress) : Prop :=
  match d, a with MDSeq _, MSeq _ _ | MDUnseq _, MUnseq _ _ => True | _, _ => False end.
Definition adata_kind_ok `{!NdTypes} (d : AData) (a : ADataAddress) : Prop :=
  match d, a with
  | ADPubSeq _, APubSeq _ _ | ADPubUnseq _, APubUnseq _ _
  | ADUnpubSeq _, AUnpubSeq _ _ | ADUnpubUnseq _, AUnpubUnseq _ _ => True
  | _, _ => False
  end.

Class NdLaws `{!NdTypes, !NdOps} := {
  (** [Coins] is a bounded number of nanos with checked arithmetic. *)
  max_nano : Z;
  max_nano_pos : (1 <= max_nano)%Z;
  as_nano_range c : (0 <= as_nano c <= max_nano)%Z;
  as_nano_inj c c' : as_nano c = as_nano c' -> c = c';
  from_nano_ok n : (0 <= n <= max_nano)%Z ->
    exists c, coins_from_nano n = Ok c /\ as_nano c = n;
  from_str_zero : exists c, coins_from_str "0" = Ok c /\ as_nano c = 0%Z;
  checked_add_spec a b :
    match checked_add a b with
    | Some c => as_nano c = (as_nano a + as_nano b)%Z
    | None => (max_nano < as_nano a + as_nano b)%Z
    end;
  checked_sub_spec a b :
    match checked_sub a b with
    | Some c => as_nano c = (as_nano a - as_nano b)%Z
    | None => (as_nano a < as_nano b)%Z
    end;
  (** The network name of a client is that of its key; an app acts under the
      name of its owner. *)
  client_name_spec c : client_name c = xor_name_from (client_public_key c);
  public_id_name_client c : public_id_name (PClient c) = client_name c;
  public_id_name_app a : public_id_name (PApp a) = app_owner_name a;
  app_owner_name_spec a : app_owner_name a = client_name (app_owner a);
  (** Only requests that fetch data are [PublicGet]s, and the list of
      authorised keys is not public. *)
  get_type_public r : get_type r = PublicGet -> is_get r = true;
  get_type_mutating r : is_get r = false -> get_type r = TMutation \/ get_type r = TTransaction;
  get_type_list_auth_keys : get_type ListAuthKeysAndVersion = PrivateGet;
  error_response_spec r e : response_error (error_response r e) = Some e;
  (** Addresses have the kind of their data, and mutators keep them. *)
  idata_address_kind d : idata_kind_ok d (idata_address d);
  idata_address_is_pub_spec n :
    idata_address_is_pub (IPub n) = true /\ idata_address_is_pub (IUnpub n) = false;
  mdata_address_kind_spec n t :
    mdata_address_kind (MSeq n t) = MKSeq /\ mdata_address_kind (MUnseq n t) = MKUnseq;
  mdata_address_variant d : mdata_kind_ok d (mdata_address d);
  mdata_set_user_permissions_address d u p v d' :
    mdata_set_user_permissions d u p v = Ok d' ->
    mdata_address d' = mdata_address d /\ mdata_owner d' = mdata_owner d;
  mdata_del_user_permissions_address d u v d' :
    mdata_del_user_permissions d u v = Ok d' ->
    mdata_address d' = mdata_address d /\ mdata_owner d' = mdata_owner d;
  mdata_mutate_entries_address d a pk d' :
    mdata_mutate_entries d a pk = Ok d' ->
    mdata_address d' = mdata_address d /\ mdata_owner d' = mdata_owner d;
  adata_address_variant d : adata_kind_ok d (adata_address d);
  pub_seq_append_address d es i d' :
    pub_seq_append d es i = Ok d' -> adata_address (ADPubSeq d') = adata_address (ADPubSeq d);
  unpub_seq_append_address d es i d' :
    unpub_seq_append d es i = Ok d' -> adata_address (ADUnpubSeq d') = adata_address (ADUnpubSeq d);
  pub_unseq_append_address d es d' :
    pub_unseq_append d es = Ok d' -> adata_address (ADPubUnseq d') = adata_address (ADPubUnseq d);
  unpub_unseq_append_address d es d' :
    unpub_unseq_append d es = Ok d' ->
    adata_address (ADUnpubUnseq d') = adata_address (ADUnpubUnseq d);
  pub_seq_append_permissions_address d p i d' :
    pub_seq_append_permissions d p i = Ok d' ->
    adata_address (ADPubSeq d') = adata_address (ADPubSeq d);
  pub_unseq_append_permissions_address d p i d' :
    pub_unseq_append_permissions d p i = Ok d' ->
    adata_address (ADPubUnseq d') = adata_address (ADPubUnseq d);
  unpub_seq_append_permissions_address d p i d' :
    unpub_seq_append_permissions d p i = Ok d' ->
    adata_address (ADUnpubSeq d') = adata_address (ADUnpubSeq d);
  unpub_unseq_append_permissions_address d p i d' :
    unpub_unseq_append_permissions d p i = Ok d' ->
    adata_address (ADUnpubUnseq d') = adata_address (ADUnpubUnseq d);
  pub_seq_append_owner_address d o i d' :
    pub_seq_append_owner d o i = Ok d' -> adata_address (ADPubSeq d') = adata_address (ADPubSeq d);
  pub_unseq_append_owner_address d o i d' :
    pub_unseq_append_owner d o i = Ok d' ->
    adata_address (ADPubUnseq d') = adata_address (ADPubUnseq d);
  unpub_seq_append_owner_address d o i d' :
    unpub_seq_append_owner d o i = Ok d' ->
    adata_address (ADUnpubSeq d') = adata_address (ADUnpubSeq d);
  unpub_unseq_append_owner_address d o i d' :
    unpub_unseq_append_owner d o i = Ok d' ->
    adata_address (ADUnpubUnseq d') = adata_address (ADUnpubUnseq d);
  (** Permission sets: what was allowed or denied last is what holds. *)
  perms_new_allowed a : perms_is_allowed perms_new a = false;
  perms_allow_allowed s a b :
    perms_is_allowed (perms_allow s a) b = bool_decide (a = b) || perms_is_allowed s b;
  perms_deny_allowed s a b :
    perms_is_allowed (perms_deny s a) b = negb (bool_decide (a = b)) && perms_is_allowed s b;
  (** Entry actions are a map from keys to actions. *)
  seq_actions_from_into m : seq_into_actions (seq_actions_from m) = m;
  seq_actions_into_from a : seq_actions_from (seq_into_actions a) = a;
  entry_version_modulus_range : (1 < entry_version_modulus <= u64_modulus)%Z;
}.

(** * Derived facts on coins *)

Section coins.
Context `{ndt : !NdTypes, ndo : !NdOps, ndl : !NdLaws}.

Lemma checked_add_Some a b c :
  checked_add a b = Some c -> as_nano c = (as_nano a + as_nano b)%Z.
Proof. intros H. pose proof (checked_add_spec a b) as Hs. by rewrite H in Hs. Qed.

Lemma checked_add_None a b :
  checked_add a b = None -> (max_nano < as_nano a + as_nano b)%Z.
Proof. intros H. pose proof (checked_add_spec a b) as Hs. by rewrite H in Hs. Qed.

Lemma checked_sub_Some a b c :
  checked_sub a b = Some c -> as_nano c = (as_nano a - as_nano b)%Z.
Proof. intros H. pose proof (checked_sub_spec a b) as Hs. by rewrite H in Hs. Qed.

Lemma checked_sub_None a b : checked_sub a b = None -> (as_nano a < as_nano b)%Z.
Proof. intros H. pose proof (checked_sub_spec a b) as Hs. by rewrite H in Hs. Qed.

Lemma checked_sub_is_Some a b : (as_nano b <= as_nano a)%Z -> is_Some (checked_sub a b).
Proof.
  intros Hle. destruct (checked_sub a b) eqn:E; [done|].
  apply checked_sub_None in E. lia.
Qed.
End coins.
