(* ===== verification/SafeNdModel.v ===== *)
(** A concrete instance of the [safe_nd] interface.

    Every theorem of the development is proved for an arbitrary instance of
    [NdTypes], [NdOps] and [NdLaws].  This instance shows that the laws can
    hold together, and is what the witnesses compute with: keys are numbers,
    coins are bounded integers, mutable data checks entry versions and
    permissions the way the crate documents. *)
From S2P Require Import Prelude SafeNd.

(** * Data *)

Definition model_max : Z := 4294967296000000000.
Definition model_coins : Type := dsig (fun n : Z => 0 <= n <= model_max)%Z.
Definition mk_coins (n : Z) : option model_coins :=
  match decide (0 <= n <= model_max)%Z with
  | left H => Some (dexist n H)
  | right _ => None
  end.

Record model_perms := {
  pr : bool; pin : bool; pu : bool; pd : bool; pm : bool }.

Definition model_allowed (s : model_perms) (a : MDataAction) : bool :=
  match a with
  | MRead => pr s | MInsert => pin s | MUpdate => pu s
  | MDelete => pd s | MManagePermissions => pm s
  end.

Definition model_set (s : model_perms) (a : MDataAction) (b : bool) : model_perms :=
  match a with
  | MRead => {| pr := b; pin := pin s; pu := pu s; pd := pd s; pm := pm s |}
  | MInsert => {| pr := pr s; pin := b; pu := pu s; pd := pd s; pm := pm s |}
  | MUpdate => {| pr := pr s; pin := pin s; pu := b; pd := pd s; pm := pm s |}
  | MDelete => {| pr := pr s; pin := pin s; pu := pu s; pd := b; pm := pm s |}
  | MManagePermissions => {| pr := pr s; pin := pin s; pu := pu s; pd := pd s; pm := b |}
  end.

Record model_mdata (V : Type) := {
  md_name : XorName; md_tag : Z; md_entries : gmap bytes V;
  md_perms : gmap Z model_perms; md_version : Z; md_owner : Z }.
Arguments md_name {V}. Arguments md_tag {V}. Arguments md_entries {V}.
Arguments md_perms {V}. Arguments md_version {V}. Arguments md_owner {V}.

Record model_adata := {
  ad_name : XorName; ad_tag : Z; ad_entries : list (bytes * bytes);
  ad_perms : list Z; ad_owners : list Z }.

(** A name of 32 elements for a code. *)
Definition model_name (code : positive) : XorName := MkXorName (Z.pos code :: replicate 31 0%Z).

Record model_packet := { lp_dest : XorName; lp_getter : Z; lp_data : bytes; lp_sig : Z }.

#[export, program] Instance ModelTypes : NdTypes := {|
  PublicKey := Z; ClientPublicId := Z; AppPublicId := Z * Z; NodePublicId := Z;
  Signature := Z; MessageId := Z; Notification := unit; Coins := model_coins;
  LoginPacket := model_packet; PubImmutableData := bytes; UnpubImmutableData := bytes * Z;
  SeqMutableData := model_mdata MDataSeqValue; UnseqMutableData := model_mdata bytes;
  MDataPermissionSet := model_perms;
  MDataSeqEntryActions := gmap bytes MDataSeqEntryAction;
  MDataUnseqEntryActions := gmap bytes (option bytes);
  PubSeqAppendOnlyData := model_adata; PubUnseqAppendOnlyData := model_adata;
  UnpubSeqAppendOnlyData := model_adata; UnpubUnseqAppendOnlyData := model_adata;
  ADataEntry := bytes * bytes; ADataIndices := Z; ADataOwner := Z; ADataUser := Z;
  ADataPubPermissions := Z; ADataUnpubPermissions := Z;
  ADataPubPermissionSet := Z; ADataUnpubPermissionSet := Z; SndPayload := string;
|}.

(** * Mutable data *)

Definition model_granted {V} (d : model_mdata V) (a : MDataAction) (pk : Z) : bool :=
  bool_decide (pk = md_owner d) ||
  match md_perms d !! pk with Some s => model_allowed s a | None => false end.

(** The error of one action against the stored entry, if any. *)
Definition model_entry_error (modulus : Z) (cur : option MDataSeqValue)
    (act : MDataSeqEntryAction) : option EntryError :=
  match act, cur with
  | Ins _, None => None
  | Ins _, Some v => Some (EEntryExists (seq_version v mod modulus)%Z)
  | (Update _ | Del _), None => Some ENoSuchEntry
  | Update w, Some v =>
      if (seq_version w =? seq_version v + 1)%Z then None
      else Some (EInvalidSuccessor (seq_version v mod modulus)%Z)
  | Del n, Some v =>
      if (n =? seq_version v + 1)%Z then None
      else Some (EInvalidSuccessor (seq_version v mod modulus)%Z)
  end.

Definition model_apply (cur : option MDataSeqValue) (act : MDataSeqEntryAction) :
    option MDataSeqValue :=
  match act with Ins v | Update v => Some v | Del _ => None end.

Definition model_errors (modulus : Z) (entries : MDataSeqEntries)
    (acts : gmap bytes MDataSeqEntryAction) : gmap bytes EntryError :=
  map_imap (fun k act => model_entry_error modulus (entries !! k) act) acts.

Definition model_applied (entries : MDataSeqEntries)
    (acts : gmap bytes MDataSeqEntryAction) : MDataSeqEntries :=
  merge (fun cur act => match act with
           | None => cur
           | Some a => model_apply cur a end) entries acts.

Definition model_need (act : MDataSeqEntryAction) : MDataAction :=
  match act with Ins _ => MInsert | Update _ => MUpdate | Del _ => MDelete end.

Definition with_entries {V} (d : model_mdata V) (e : gmap bytes V) : model_mdata V :=
  {| md_name := md_name d; md_tag := md_tag d; md_entries := e; md_perms := md_perms d;
     md_version := md_version d; md_owner := md_owner d |}.

Definition with_perms {V} (d : model_mdata V) (p : gmap Z model_perms) (v : Z) : model_mdata V :=
  {| md_name := md_name d; md_tag := md_tag d; md_entries := md_entries d; md_perms := p;
     md_version := v; md_owner := md_owner d |}.

Definition model_modulus : Z := 256.

Definition model_mutate_seq (d : model_mdata MDataSeqValue)
    (acts : gmap bytes MDataSeqEntryAction) (pk : Z) :
    SndResult (model_mdata MDataSeqValue) :=
  if forallb (fun p => model_granted d (model_need p.2) pk) (map_to_list acts) then
    let errors := model_errors model_modulus (md_entries d) acts in
    if bool_decide (errors = ∅) then Ok (with_entries d (model_applied (md_entries d) acts))
    else Err (InvalidEntryActions errors)
  else Err AccessDenied.

Definition model_mutate_unseq (d : model_mdata bytes) (acts : gmap bytes (option bytes)) (pk : Z) :
    SndResult (model_mdata bytes) :=
  if model_granted d MUpdate pk then
    Ok (with_entries d (merge (fun cur act => match act with
           | None => cur | Some a => a end) (md_entries d) acts))
  else Err AccessDenied.

Definition model_set_perms {V} (d : model_mdata V) (u : Z) (p : model_perms) (v : Z) :
    SndResult (model_mdata V) :=
  if (v =? md_version d + 1)%Z then Ok (with_perms d (<[u:=p]> (md_perms d)) v)
  else Err (InvalidSuccessor (md_version d)).

Definition model_del_perms {V} (d : model_mdata V) (u : Z) (v : Z) :
    SndResult (model_mdata V) :=
  if (v =? md_version d + 1)%Z then
    match md_perms d !! u with
    | Some _ => Ok (with_perms d (delete u (md_perms d)) v)
    | None => Err NoSuchKey
    end
  else Err (InvalidSuccessor (md_version d)).

(** * Append-only data *)

Definition ad_with_entries (d : model_adata) (es : list (bytes * bytes)) : model_adata :=
  {| ad_name := ad_name d; ad_tag := ad_tag d; ad_entries := es;
     ad_perms := ad_perms d; ad_owners := ad_owners d |}.
Definition ad_with_perms (d : model_adata) (ps : list Z) : model_adata :=
  {| ad_name := ad_name d; ad_tag := ad_tag d; ad_entries := ad_entries d;
     ad_perms := ps; ad_owners := ad_owners d |}.
Definition ad_with_owners (d : model_adata) (os : list Z) : model_adata :=
  {| ad_name := ad_name d; ad_tag := ad_tag d; ad_entries := ad_entries d;
     ad_perms := ad_perms d; ad_owners := os |}.

Definition model_append (d : model_adata) (es : list (bytes * bytes)) : SndResult model_adata :=
  Ok (ad_with_entries d (ad_entries d ++ es)).
Definition model_append_at (d : model_adata) (es : list (bytes * bytes)) (i : Z) :
    SndResult model_adata :=
  if (i =? Z.of_nat (length (ad_entries d)))%Z then model_append d es
  else Err (InvalidSuccessor (Z.of_nat (length (ad_entries d)))).
Definition model_append_perms (d : model_adata) (p i : Z) : SndResult model_adata :=
  if (i =? Z.of_nat (length (ad_perms d)))%Z then Ok (ad_with_perms d (ad_perms d ++ [p]))
  else Err (InvalidPermissionsSuccessor "permissions").
Definition model_append_owner (d : model_adata) (o i : Z) : SndResult model_adata :=
  if (i =? Z.of_nat (length (ad_owners d)))%Z then Ok (ad_with_owners d (ad_owners d ++ [o]))
  else Err (InvalidOwnersSuccessor "owners").

Definition model_raw (d : AData) : model_adata :=
  match d with
  | ADPubSeq x | ADPubUnseq x | ADUnpubSeq x | ADUnpubUnseq x => x
  end.

Definition model_nth {A} (l : list A) (i : Z) : option A :=
  if (i <? 0)%Z then None else l !! Z.to_nat i.

Definition model_type (r : Request) : RequestType :=
  match r with
  | GetIData (IPub _) => PublicGet
  | GetAData (APubSeq _ _ | APubUnseq _ _) => PublicGet
  | TransferCoins _ _ _ | CreateBalance _ _ _ | CreateLoginPacketFor _ _ _ _ => TTransaction
  | _ => if is_get r then PrivateGet else TMutation
  end.

Definition model_error_response (r : Request) (e : SndError) : Response :=
  match r with
  | GetIData _ => RGetIData (Err e)
  | ListAuthKeysAndVersion => RListAuthKeysAndVersion (Err e)
  | GetBalance => RGetBalance (Err e)
  | GetLoginPacket _ => RGetLoginPacket (Err e)
  | GetMData _ => RGetMData (Err e)
  | GetMDataValue _ _ => RGetMDataValue (Err e)
  | TransferCoins _ _ _ | CreateBalance _ _ _ | CreateLoginPacketFor _ _ _ _ =>
      RTransaction (Err e)
  | _ => RMutation (Err e)
  end.

Definition model_addr {V} (d : model_mdata V) := (md_name d, md_tag d).

#[export] Instance ModelOps : NdOps := {|
  as_nano (c : Coins) := proj1_sig c;
  coins_from_nano n := ok_or_r (mk_coins n) ExcessiveValue;
  coins_from_str s :=
    if bool_decide (s = "0") then ok_or_r (mk_coins 0) ExcessiveValue else Err (FailedToParse s);
  checked_add a b := mk_coins (proj1_sig a + proj1_sig b);
  checked_sub a b := mk_coins (proj1_sig a - proj1_sig b);
  public_key_leb := Z.leb;
  xor_name_from pk := MkXorName [pk];
  public_id_name i := match i with
    | PClient c => MkXorName [c] | PApp a => MkXorName [a.2] | PNode n => MkXorName [n] end;
  client_name c := MkXorName [c];
  client_public_key c := c;
  app_public_key a := a.1;
  app_owner a := a.2;
  app_owner_name a := MkXorName [a.2];
  get_type := model_type;
  error_response := model_error_response;
  snd_error_from s := NetworkOther s;
  verify_signature sig pk _ _ := if (sig =? pk)%Z then Ok tt else Err InvalidSignature;
  unpub_idata_owner d := d.2;
  idata_address d := match d with
    | IDPub b => IPub (model_name (encode b)) | IDUnpub p => IUnpub (model_name (encode p)) end;
  idata_address_is_pub a := match a with IPub _ => true | IUnpub _ => false end;
  login_destination := lp_dest;
  login_authorised_getter := lp_getter;
  login_data := lp_data;
  login_signature := lp_sig;
  mdata_address_kind a := match a with MSeq _ _ => MKSeq | MUnseq _ _ => MKUnseq end;
  mdata_address d := match d with
    | MDSeq x => MSeq (md_name x) (md_tag x) | MDUnseq x => MUnseq (md_name x) (md_tag x) end;
  mdata_owner d := match d with MDSeq x => md_owner x | MDUnseq x => md_owner x end;
  mdata_shell d := match d with
    | MDSeq x => MDSeq (with_entries x ∅) | MDUnseq x => MDUnseq (with_entries x ∅) end;
  mdata_version d := match d with MDSeq x => md_version x | MDUnseq x => md_version x end;
  mdata_keys d := match d with MDSeq x => dom (md_entries x) | MDUnseq x => dom (md_entries x) end;
  mdata_check_permissions d a pk :=
    if match d with MDSeq x => model_granted x a pk | MDUnseq x => model_granted x a pk end
    then Ok tt else Err AccessDenied;
  mdata_check_is_owner d pk :=
    if bool_decide (pk = match d with MDSeq x => md_owner x | MDUnseq x => md_owner x end)
    then Ok tt else Err AccessDenied;
  mdata_set_user_permissions d u p v := match d with
    | MDSeq x => rmap MDSeq (model_set_perms x u p v)
    | MDUnseq x => rmap MDUnseq (model_set_perms x u p v) end;
  mdata_del_user_permissions d u v := match d with
    | MDSeq x => rmap MDSeq (model_del_perms x u v)
    | MDUnseq x => rmap MDUnseq (model_del_perms x u v) end;
  mdata_user_permissions d u :=
    ok_or_r (match d with MDSeq x => md_perms x | MDUnseq x => md_perms x end !! u) NoSuchKey;
  mdata_permissions d := match d with MDSeq x => md_perms x | MDUnseq x => md_perms x end;
  mdata_mutate_entries d a pk := match d, a with
    | MDSeq x, ActSeq acts => rmap MDSeq (model_mutate_seq x acts pk)
    | MDUnseq x, ActUnseq acts => rmap MDUnseq (model_mutate_unseq x acts pk)
    | _, _ => Err InvalidOperation end;
  seq_mdata_get d k := md_entries d !! k;
  seq_mdata_entries d := md_entries d;
  seq_mdata_values d := (btree_iter bytes_leb (md_entries d)).*2;
  unseq_mdata_get d k := md_entries d !! k;
  unseq_mdata_entries d := md_entries d;
  unseq_mdata_values d := (btree_iter bytes_leb (md_entries d)).*2;
  adata_kind_is_pub a := match a with APubSeq _ _ | APubUnseq _ _ => true | _ => false end;
  adata_kind_is_unpub a := match a with APubSeq _ _ | APubUnseq _ _ => false | _ => true end;
  adata_address d := match d with
    | ADPubSeq x => APubSeq (ad_name x) (ad_tag x) | ADPubUnseq x => APubUnseq (ad_name x) (ad_tag x)
    | ADUnpubSeq x => AUnpubSeq (ad_name x) (ad_tag x)
    | ADUnpubUnseq x => AUnpubUnseq (ad_name x) (ad_tag x) end;
  adata_is_pub d := match d with ADPubSeq _ | ADPubUnseq _ => true | _ => false end;
  adata_is_unpub d := match d with ADPubSeq _ | ADPubUnseq _ => false | _ => true end;
  adata_check_permission d _ pk :=
    if bool_decide (list.last (ad_owners (model_raw d)) = Some pk) || bool_decide (pk ∈ ad_perms (model_raw d))
    then Ok tt else Err AccessDenied;
  adata_check_is_last_owner d pk :=
    if bool_decide (list.last (ad_owners (model_raw d)) = Some pk) then Ok tt else Err AccessDenied;
  adata_owners_index d := Z.of_nat (length (ad_owners (model_raw d)));
  adata_permissions_index d := Z.of_nat (length (ad_perms (model_raw d)));
  adata_owner d i := model_nth (ad_owners (model_raw d)) i;
  adata_owner_public_key o := o;
  adata_shell d _ := Ok d;
  adata_in_range d _ _ := Some (ad_entries (model_raw d));
  adata_get d k := snd <$> find (fun e => bool_decide (e.1 = k)) (ad_entries (model_raw d));
  adata_indices d := Ok (Z.of_nat (length (ad_entries (model_raw d))));
  adata_last_entry d := list.last (ad_entries (model_raw d));
  adata_pub_permissions d _ := ok_or_r (list.last (ad_perms (model_raw d))) NoSuchEntry;
  adata_unpub_permissions d _ := ok_or_r (list.last (ad_perms (model_raw d))) NoSuchEntry;
  adata_pub_user_permissions d u _ :=
    if bool_decide (u ∈ ad_perms (model_raw d)) then Ok u else Err NoSuchKey;
  adata_unpub_user_permissions d u _ :=
    if bool_decide (u ∈ ad_perms (model_raw d)) then Ok u else Err NoSuchKey;
  pub_seq_append := model_append_at;
  unpub_seq_append := model_append_at;
  pub_unseq_append := model_append;
  unpub_unseq_append := model_append;
  pub_seq_append_permissions := model_append_perms;
  pub_unseq_append_permissions := model_append_perms;
  unpub_seq_append_permissions := model_append_perms;
  unpub_unseq_append_permissions := model_append_perms;
  pub_seq_append_owner := model_append_owner;
  pub_unseq_append_owner := model_append_owner;
  unpub_seq_append_owner := model_append_owner;
  unpub_unseq_append_owner := model_append_owner;
  perms_new := {| pr := false; pin := false; pu := false; pd := false; pm := false |};
  perms_allow s a := model_set s a true;
  perms_deny s a := model_set s a false;
  perms_is_allowed := model_allowed;
  seq_actions_new := ∅;
  seq_actions_ins m k d v := <[k := Ins {| seq_data := d; seq_version := v |}]> m;
  seq_actions_update m k d v := <[k := Update {| seq_data := d; seq_version := v |}]> m;
  seq_actions_del m k v := <[k := Del v]> m;
  seq_actions_from m := m;
  seq_into_actions m := m;
  entry_version_modulus := model_modulus;
|}.

(** * The laws hold *)

Lemma mk_coins_spec n c : mk_coins n = Some c -> proj1_sig c = n.
Proof. unfold mk_coins. case_decide; [|done]. by intros [= <-]. Qed.

Lemma mk_coins_is_Some n : (0 <= n <= model_max)%Z -> exists c, mk_coins n = Some c.
Proof. unfold mk_coins. case_decide; [eauto|done]. Qed.

Lemma mk_coins_None n : mk_coins n = None -> ~ (0 <= n <= model_max)%Z.
Proof. unfold mk_coins. by case_decide. Qed.

Lemma model_range (c : model_coins) : (0 <= proj1_sig c <= model_max)%Z.
Proof. apply (proj2_dsig c). Qed.

Lemma model_from_nano n : (0 <= n <= model_max)%Z ->
  exists c, ok_or_r (mk_coins n) ExcessiveValue = Ok c /\ proj1_sig c = n.
Proof.
  intros [c Hc]%mk_coins_is_Some. exists c. rewrite Hc. split; [done|].
  by apply mk_coins_spec.
Qed.

Lemma model_add (a b : model_coins) :
  match mk_coins (proj1_sig a + proj1_sig b) with
  | Some c => proj1_sig c = (proj1_sig a + proj1_sig b)%Z
  | None => (model_max < proj1_sig a + proj1_sig b)%Z
  end.
Proof.
  pose proof (model_range a). pose proof (model_range b). case_match eqn:E.
  - by apply mk_coins_spec.
  - apply mk_coins_None in E. lia.
Qed.

Lemma model_sub (a b : model_coins) :
  match mk_coins (proj1_sig a - proj1_sig b) with
  | Some c => proj1_sig c = (proj1_sig a - proj1_sig b)%Z
  | None => (proj1_sig a < proj1_sig b)%Z
  end.
Proof.
  pose proof (model_range a). pose proof (model_range b). case_match eqn:E.
  - by apply mk_coins_spec.
  - apply mk_coins_None in E. lia.
Qed.

Ltac model_inv :=
  unfold model_append_at, model_append, model_append_perms, model_append_owner,
    model_set_perms, model_del_perms, model_mutate_seq, model_mutate_unseq in *;
  simplify_eq/=; repeat (case_match; simplify_eq/=; try done).

#[export] Instance ModelLaws : NdLaws.
Proof.
  unshelve refine {| max_nano := model_max |}; intros;
    try done;
    try apply model_range; try apply model_add; try apply model_sub;
    try (by apply model_from_nano); try (by apply dsig_eq).
  all: try (by destruct d); try (by simpl in *; model_inv).
  - by destruct r as [[]| | | | | | | | | | | | | | | | | | | | | | | | | | | |[]| | | | | | | | | | | | | | |].
  - destruct r; simpl in *; auto; done.
  - by destruct r.
  - by destruct a.
  - by destruct s, a, b.
  - by destruct s, a, b.
Defined.
