(* ===== verification/MockAccount.v ===== *)
(** Coin balances and client accounts of the mock vault
    ([safe_core/src/client/mock/account.rs]).

    [CoinBalance] keeps an amount and a bounded history of credits;
    [Account] keeps the keys authorised by a client, under a version that
    every successful change bumps by one. *)
From S2P Require Import Prelude SafeNd SafeNdModel.

(** The host process: its environment variables and directories, and the
    transport configuration of [quic_p2p]. *)
Class Host := {
  env_var : string -> option string;
  temp_dir : string;
  path_join : string -> string -> string;
  QuicP2pConfig : Type;
}.

(** [DevConfig] and [Config] of [config_handler.rs]. *)
Record DevConfig := {
  mock_unlimited_coins : bool;
  mock_in_memory_storage : bool;
  mock_vault_path_opt : option string;
}.
Record Config `{!Host} := {
  quic_p2p : QuicP2pConfig;
  dev : option DevConfig;
}.

Definition DEFAULT_MAX_CREDITS : nat := 100.

(** [VecDeque]: the front of the queue is the head of the list. *)
Definition pop_back {A} (q : list A) : list A := take (length q - 1) q.
Definition push_front {A} (x : A) (q : list A) : list A := x :: q.

Section account.
Context `{ndt : !NdTypes, ndo : !NdOps, host : !Host}.

(** * [CoinBalance] *)

Record Credit := { amount : Coins; transaction_id : Z }.
Record CoinBalance := { owner : PublicKey; value : Coins; credits : list Credit }.

Definition CoinBalance_new (value : Coins) (owner : PublicKey) : CoinBalance :=
  {| owner := owner; value := value; credits := [] |}.

Definition add_transaction (amount : Coins) (transaction_id : Z) (b : CoinBalance) :
    CoinBalance :=
  let credits' :=
    if (length (credits b) =? DEFAULT_MAX_CREDITS)%nat then pop_back (credits b)
    else credits b in
  {| owner := owner b; value := value b;
     credits := push_front {| amount := amount; transaction_id := transaction_id |} credits' |}.

Definition set_value (v : Coins) (b : CoinBalance) : CoinBalance :=
  {| owner := owner b; value := v; credits := credits b |}.

Definition credit_balance (amount : Coins) (transaction_id : Z) :
    M CoinBalance SndError unit :=
  let! value := gets value in
  match checked_add value amount with
  | Some new_balance =>
      modify (set_value new_balance) ;!
      modify (add_transaction amount transaction_id)
  | None => fail ExcessiveValue
  end.

Definition debit_balance (amount : Coins) : M CoinBalance SndError unit :=
  let! value := gets value in
  match checked_sub value amount with
  | Some new_balance => modify (set_value new_balance)
  | None => fail InsufficientBalance
  end.

Definition balance (b : CoinBalance) : Coins := value b.

(** * [Account] *)

Record Account := {
  auth_keys : gmap PublicKey AppPermissions;
  version : Z;
  config : Config;
}.

Definition Account_new (config : Config) : Account :=
  {| auth_keys := ∅; version := 0; config := config |}.

Definition validate_version (version_ : Z) : M Account SndError unit :=
  let! current := gets version in
  if decide (version_ = u64_add current 1) then ret tt
  else fail (InvalidSuccessor current).

Definition ins_auth_key (key : PublicKey) (permissions : AppPermissions) (version_ : Z) :
    M Account SndError unit :=
  validate_version version_ ;!
  modify (fun a => {| auth_keys := <[key := permissions]> (auth_keys a);
                      version := version_; config := config a |}).

Definition del_auth_key (key : PublicKey) (version_ : Z) : M Account SndError unit :=
  validate_version version_ ;!
  let! keys := gets auth_keys in
  (* [BTreeMap::remove] is an [Option] of the value removed *)
  modify (fun a => {| auth_keys := delete key (auth_keys a);
                      version := version a; config := config a |}) ;!
  match keys !! key with
  | Some _ => modify (fun a => {| auth_keys := auth_keys a;
                                  version := version_; config := config a |})
  | None => fail NoSuchKey
  end.

(** * Behaviour *)

(** The history never outgrows [DEFAULT_MAX_CREDITS]. *)
Definition balance_wf (b : CoinBalance) : Prop :=
  (length (credits b) <= DEFAULT_MAX_CREDITS)%nat.

Lemma CoinBalance_new_wf v o : balance_wf (CoinBalance_new v o).
Proof. unfold balance_wf; simpl. lia. Qed.

Lemma add_transaction_wf amt id b : balance_wf b -> balance_wf (add_transaction amt id b).
Proof.
  unfold balance_wf, add_transaction, pop_back, DEFAULT_MAX_CREDITS. simpl. intros Hb.
  case_match eqn:E.
  - apply Nat.eqb_eq in E. rewrite length_take. lia.
  - apply Nat.eqb_neq in E. lia.
Qed.

Lemma set_value_wf c b : balance_wf b -> balance_wf (set_value c b).
Proof. done. Qed.

Lemma credit_balance_eq amt id b :
  credit_balance amt id b =
  match checked_add (value b) amt with
  | Some v => Ret tt (add_transaction amt id (set_value v b))
  | None => Fail ExcessiveValue b
  end.
Proof. unfold credit_balance, bind, gets, modify, fail. by destruct (checked_add _ _). Qed.

Lemma debit_balance_eq amt b :
  debit_balance amt b =
  match checked_sub (value b) amt with
  | Some v => Ret tt (set_value v b)
  | None => Fail InsufficientBalance b
  end.
Proof. unfold debit_balance, bind, gets, modify, fail. by destruct (checked_sub _ _). Qed.

Lemma ins_auth_key_eq key perms v a :
  ins_auth_key key perms v a =
  if decide (v = u64_add (version a) 1)
  then Ret tt {| auth_keys := <[key := perms]> (auth_keys a); version := v; config := config a |}
  else Fail (InvalidSuccessor (version a)) a.
Proof. unfold ins_auth_key, validate_version, bind, gets. by case_decide. Qed.

Lemma del_auth_key_eq key v a :
  del_auth_key key v a =
  if decide (v = u64_add (version a) 1) then
    match auth_keys a !! key with
    | Some _ => Ret tt {| auth_keys := delete key (auth_keys a); version := v; config := config a |}
    | None => Fail NoSuchKey a
    end
  else Fail (InvalidSuccessor (version a)) a.
Proof.
  unfold del_auth_key, validate_version, bind, gets, modify, fail, ret. case_decide; [|done].
  case_match eqn:E; [done|]. destruct a as [ks ? ?]; simpl in *.
  by rewrite delete_id.
Qed.
End account.
