(* ===== verification/MockVault.v ===== *)
(** The mock vault: its state and the operations its request handlers share
    ([safe_core/src/client/mock/vault.rs], [mock/mod.rs]).

    The vault stands for the whole network in the [mock-network] build.  Its
    [Cache] maps names to coin balances, accounts and login packets, and data
    identifiers to data.  Operations that take [&mut self] are computations
    in [M Vault SndError]; a failed [unwrap!] is [Panic]. *)
From S2P Require Import Prelude SafeNd SafeNdModel MockAccount.

(** * State *)

Inductive DataId :=
| DImmutable (a : IDataAddress)
| DMutable (a : MDataAddress)
| DAppendOnly (a : ADataAddress).

#[export] Instance DataId_eq : EqDecision DataId.
Proof. solve_decision. Defined.
#[export] Instance DataId_countable : Countable DataId.
Proof.
  refine (inj_countable'
    (fun d => match d with
       | DImmutable a => inl a | DMutable a => inr (inl a) | DAppendOnly a => inr (inr a) end)
    (fun x => match x with
       | inl a => DImmutable a | inr (inl a) => DMutable a | inr (inr a) => DAppendOnly a end) _).
  by intros [].
Defined.

(** The persistence layer of the vault: [MemoryStore], or a [FileStore] with
    the handle it holds while the vault is locked (and whether it is held for
    writing), the time of its last synchronisation, and its path. *)
Record FileStore := {
  fs_file : option (string * bool);
  fs_sync_time : option Z;
  fs_path : option string;
}.
Inductive Store := MemoryStore | FileStoreBox (s : FileStore).

Section vault.
Context `{ndt : !NdTypes, ndo : !NdOps, host : !Host}.

Record Cache := {
  coin_balances : gmap XorName CoinBalance;
  client_manager : gmap XorName Account;
  login_packets : gmap XorName LoginPacket;
  nae_manager : gmap DataId Data;
}.

Record Vault := { cache : Cache; vault_config : Config; store : Store }.

Definition set_cache (c : Cache) (v : Vault) : Vault :=
  {| cache := c; vault_config := vault_config v; store := store v |}.
Definition set_coin_balances (m : gmap XorName CoinBalance) (v : Vault) : Vault :=
  set_cache {| coin_balances := m; client_manager := client_manager (cache v);
               login_packets := login_packets (cache v);
               nae_manager := nae_manager (cache v) |} v.
Definition set_client_manager (m : gmap XorName Account) (v : Vault) : Vault :=
  set_cache {| coin_balances := coin_balances (cache v); client_manager := m;
               login_packets := login_packets (cache v);
               nae_manager := nae_manager (cache v) |} v.
Definition set_login_packets (m : gmap XorName LoginPacket) (v : Vault) : Vault :=
  set_cache {| coin_balances := coin_balances (cache v);
               client_manager := client_manager (cache v); login_packets := m;
               nae_manager := nae_manager (cache v) |} v.
Definition set_nae_manager (m : gmap DataId Data) (v : Vault) : Vault :=
  set_cache {| coin_balances := coin_balances (cache v);
               client_manager := client_manager (cache v);
               login_packets := login_packets (cache v); nae_manager := m |} v.

(** * Construction *)

Definition FILE_NAME : string := "SCL-Mock".

Definition init_vault_path (devconfig : option DevConfig) : string :=
  match env_var "SAFE_MOCK_VAULT_PATH" with
  | Some path => path
  | None => match devconfig ≫= mock_vault_path_opt with
            | Some path => path
            | None => temp_dir
            end
  end.

Definition FileStore_new (path : string) : FileStore :=
  {| fs_file := None; fs_sync_time := None; fs_path := Some (path_join path FILE_NAME) |}.

Definition init_vault_store (config : Config) : Store :=
  match env_var "SAFE_MOCK_IN_MEMORY_STORAGE" with
  | Some _ => MemoryStore
  | None => match dev config with
            | Some dev =>
                if mock_in_memory_storage dev then MemoryStore
                else FileStoreBox (FileStore_new (init_vault_path (Some dev)))
            | None => FileStoreBox (FileStore_new (init_vault_path None))
            end
  end.

Definition Vault_new (config : Config) : Vault :=
  {| cache := {| coin_balances := ∅; client_manager := ∅; login_packets := ∅; nae_manager := ∅ |};
     vault_config := config; store := init_vault_store config |}.

Definition mock_vault_path (config : Config) : string :=
  path_join (init_vault_path (dev config)) FILE_NAME.

(** [unlimited_coins] of [mock/connection_manager.rs]. *)
Definition unlimited_coins (config : Config) : bool :=
  match env_var "SAFE_MOCK_UNLIMITED_COINS" with
  | Some _ => true
  | None => match dev config with
            | Some dev => mock_unlimited_coins dev
            | None => false
            end
  end.

(** [COST_OF_PUT] of [client/mod.rs]: a lazily unwrapped constant. *)
Definition COST_OF_PUT : option Coins :=
  match coins_from_nano 1 with Ok c => Some c | Err _ => None end.

(** * Accessors *)

Abbreviation V A := (M Vault SndError A).

Definition get_account (name : XorName) (v : Vault) : option Account :=
  client_manager (cache v) !! name.
Definition get_coin_balance (name : XorName) (v : Vault) : option CoinBalance :=
  coin_balances (cache v) !! name.
Definition get_login_packet (name : XorName) (v : Vault) : option LoginPacket :=
  login_packets (cache v) !! name.

(** [get_coin_balance_mut]: run [m] on the balance in place, or [none]. *)
Definition get_coin_balance_mut {A} (name : XorName)
    (m : M CoinBalance SndError A) (none : V A) : V A := fun v =>
  match coin_balances (cache v) !! name with
  | None => none v
  | Some b =>
      let put b' := set_coin_balances (<[name := b']> (coin_balances (cache v))) v in
      match m b with
      | Ret a b' => Ret a (put b')
      | Fail e b' => Fail e (put b')
      | Panic b' => Panic (put b')
      | Pending b' => Pending (put b')
      end
  end.

Definition get_account_mut {A} (name : XorName)
    (m : M Account SndError A) (none : V A) : V A := fun v =>
  match client_manager (cache v) !! name with
  | None => none v
  | Some a =>
      let put a' := set_client_manager (<[name := a']> (client_manager (cache v))) v in
      match m a with
      | Ret x a' => Ret x (put a')
      | Fail e a' => Fail e (put a')
      | Panic a' => Panic (put a')
      | Pending a' => Pending (put a')
      end
  end.

Definition insert_account (name : XorName) : V unit :=
  modify (fun v =>
    set_client_manager (<[name := Account_new (vault_config v)]> (client_manager (cache v))) v).

Definition insert_login_packet (login_packet : LoginPacket) : V unit :=
  modify (fun v =>
    set_login_packets
      (<[login_destination login_packet := login_packet]> (login_packets (cache v))) v).

Definition contains_data (name : DataId) (v : Vault) : bool :=
  bool_decide (is_Some (nae_manager (cache v) !! name)).
Definition get_data (name : DataId) (v : Vault) : option Data :=
  nae_manager (cache v) !! name.
Definition insert_data (name : DataId) (data : Data) : V unit :=
  modify (fun v => set_nae_manager (<[name := data]> (nae_manager (cache v))) v).
Definition delete_data (name : DataId) : V unit :=
  modify (fun v => set_nae_manager (delete name (nae_manager (cache v))) v).

(** * Coins *)

Definition mock_create_balance (owner : PublicKey) (amount : Coins) : V unit :=
  modify (fun v =>
    set_coin_balances
      (<[xor_name_from owner := CoinBalance_new amount owner]> (coin_balances (cache v))) v).

(** The transaction identifier is drawn at random. *)
Definition mock_increment_balance (coin_balance_name : XorName) (amount : Coins)
    (random_id : Z) : V unit :=
  get_coin_balance_mut coin_balance_name (credit_balance amount random_id)
    (fail NoSuchBalance).

Definition get_balance (coins_balance_id : XorName) : V Coins :=
  let! b := gets (get_coin_balance coins_balance_id) in
  match b with
  | None => fail NoSuchBalance
  | Some bal => ret (balance bal)
  end.

Definition has_sufficient_balance (balance amount : Coins) (v : Vault) : bool :=
  unlimited_coins (vault_config v) || bool_decide (is_Some (checked_sub balance amount)).

Inductive Operation := OpTransferCoins | OpMutation | OpGetBalance.

Definition authorise_operations (operations : list Operation) (owner : XorName)
    (requester_pk : PublicKey) : V unit :=
  let requester := xor_name_from requester_pk in
  let! balance := get_balance owner in
  if decide (owner = requester) then
    for_each operations (fun operation =>
      match operation with
      | OpMutation =>
          let! cost := unwrap COST_OF_PUT in
          let! sufficient := gets (has_sufficient_balance balance cost) in
          if negb sufficient then fail InsufficientBalance else ret tt
      | _ => ret tt
      end)
  else
    let! account := gets (get_account owner) in
    let! account := ok_or account AccessDenied in
    let! perms := ok_or (auth_keys account !! requester_pk) AccessDenied in
    for_each operations (fun operation =>
      match operation with
      | OpTransferCoins => if negb (transfer_coins_perm perms) then fail AccessDenied else ret tt
      | OpGetBalance => if negb (get_balance_perm perms) then fail AccessDenied else ret tt
      | OpMutation =>
          if negb (perform_mutations perms) then fail AccessDenied
          else
            let! cost := unwrap COST_OF_PUT in
            let! sufficient := gets (has_sufficient_balance balance cost) in
            if negb sufficient then fail InsufficientBalance else ret tt
      end).

Definition commit_mutation (account : XorName) : V unit :=
  let! unlimited := gets (fun v => unlimited_coins (vault_config v)) in
  if negb unlimited then
    let! cost := unwrap COST_OF_PUT in
    get_coin_balance_mut account (or_else (debit_balance cost) (fun _ => panic)) panic
  else ret tt.

Definition create_balance (destination : XorName) (owner : PublicKey) : V unit :=
  let! b := gets (get_coin_balance destination) in
  match b with
  | Some _ => fail BalanceExists
  | None =>
      let! zero := lift_result (coins_from_nano 0) in
      modify (fun v =>
        set_coin_balances
          (<[destination := CoinBalance_new zero owner]> (coin_balances (cache v))) v)
  end.

Definition transfer_coins (source destination : XorName) (amount : Coins)
    (transaction_id : Z) : V Transaction :=
  let! unlimited := gets (fun v => unlimited_coins (vault_config v)) in
  get_coin_balance_mut source
    (if negb unlimited then debit_balance amount else ret tt) (fail NoSuchBalance) ;!
  get_coin_balance_mut destination (credit_balance amount transaction_id)
    (fail NoSuchBalance) ;!
  ret {| tx_id := transaction_id; tx_amount := amount |}.
End vault.
