(* ===== verification/MockVaultRequests.v ===== *)
(** The request handlers of the mock vault and [Vault::process_request]
    ([safe_core/src/client/mock/vault.rs]).

    One definition per request variant, composed by [process_request] after
    the authentication step that every request goes through.  A handler's
    [Result] is kept as a value and wrapped in the variant of [Response] the
    source uses. *)
From S2P Require Import Prelude SafeNd SafeNdModel MockAccount MockVault.

Section requests.
Context `{ndt : !NdTypes, ndo : !NdOps, host : !Host}.
Abbreviation V A := (M Vault SndError A).

(** * Permission checks *)

Definition check_perms_adata (data : AData) (request : Request) (requester : PublicKey) :
    SndResult unit :=
  match request with
  | GetAData _ | GetADataShell _ _ | GetADataValue _ _ | GetADataRange _ _
  | GetADataIndices _ | GetADataLastEntry _ | GetADataPermissions _ _
  | GetPubADataUserPermissions _ _ _ | GetUnpubADataUserPermissions _ _ _
  | GetADataOwners _ _ =>
      match data with
      | ADPubUnseq _ | ADPubSeq _ => Ok tt
      | ADUnpubSeq _ | ADUnpubUnseq _ => adata_check_permission data ARead requester
      end
  | AppendSeq _ _ | AppendUnseq _ => adata_check_permission data AAppend requester
  | AddPubADataPermissions _ _ _ | AddUnpubADataPermissions _ _ _ =>
      adata_check_permission data AManagePermissions requester
  | SetADataOwner _ _ _ => adata_check_is_last_owner data requester
  | DeleteAData _ =>
      match data with
      | ADPubSeq _ | ADPubUnseq _ => Err InvalidOperation
      | ADUnpubSeq _ | ADUnpubUnseq _ => adata_check_is_last_owner data requester
      end
  | _ => Err InvalidOperation
  end.

Definition check_perms_mdata (data : MData) (request : Request) (requester : PublicKey) :
    SndResult unit :=
  match request with
  | GetMData _ | GetMDataShell _ | GetMDataVersion _ | ListMDataKeys _
  | ListMDataEntries _ | ListMDataValues _ | GetMDataValue _ _
  | ListMDataPermissions _ | ListMDataUserPermissions _ _ =>
      mdata_check_permissions data MRead requester
  | SetMDataUserPermissions _ _ _ _ | DelMDataUserPermissions _ _ _ =>
      mdata_check_permissions data MManagePermissions requester
  | MutateMDataEntries _ _ => Ok tt
  | DeleteMData _ => mdata_check_is_owner data requester
  | _ => Err InvalidOperation
  end.

(** * Data access *)

Definition get_idata (address : IDataAddress) : V IData :=
  let! d := gets (get_data (DImmutable address)) in
  match d with
  | Some (Immutable data) => ret data
  | Some _ => fail NoSuchData
  | None => fail NoSuchData
  end.

Definition delete_idata (address : IDataAddress) (requester_pk : PublicKey) : V unit :=
  let data_id := DImmutable address in
  let! d := gets (get_data data_id) in
  match d with
  | Some (Immutable (IDUnpub unpub_idata)) =>
      if decide (unpub_idata_owner unpub_idata = requester_pk) then delete_data data_id
      else fail AccessDenied
  | Some (Immutable (IDPub _)) => fail InvalidOperation
  | Some _ => fail NoSuchData
  | None => fail NoSuchData
  end.

Definition get_mdata (address : MDataAddress) (requester_pk : PublicKey) (request : Request) :
    V MData :=
  let! d := gets (get_data (DMutable address)) in
  match d with
  | Some (Mutable data) =>
      lift_result (check_perms_mdata data request requester_pk) ;! ret data
  | Some _ => fail NoSuchData
  | None => fail NoSuchData
  end.

Definition get_adata (address : ADataAddress) (requester_pk : PublicKey) (request : Request) :
    V AData :=
  let! d := gets (get_data (DAppendOnly address)) in
  match d with
  | Some (AppendOnly data) =>
      lift_result (check_perms_adata data request requester_pk) ;! ret data
  | Some _ => fail NoSuchData
  | None => fail NoSuchData
  end.

Definition put_data (data_name : DataId) (data : Data) (requester : PublicId) : V unit :=
  let! (name, key) :=
    match requester with
    | PClient c => ret (client_name c, client_public_key c)
    | PApp a => ret (app_owner_name a, app_public_key a)
    | PNode _ => fail AccessDenied
    end in
  authorise_operations [OpMutation] name key ;!
  let! contained := gets (contains_data data_name) in
  if (contained : bool) then
    match data_name with
    | DImmutable addr =>
        if idata_address_is_pub addr then commit_mutation (public_id_name requester)
        else fail DataExists
    | _ => fail DataExists
    end
  else
    insert_data data_name data ;!
    commit_mutation (public_id_name requester).

(** * Authorised keys *)

Definition ensure_account (name : XorName) : V unit :=
  let! a := gets (get_account name) in
  match a with None => insert_account name | Some _ => ret tt end.

Definition list_auth_keys_and_version (name : XorName) :
    V (gmap PublicKey AppPermissions * Z) :=
  ensure_account name ;!
  let! a := gets (get_account name) in
  let! account := unwrap a in
  ret (auth_keys account, version account).

Definition vault_ins_auth_key (name : XorName) (key : PublicKey)
    (permissions : AppPermissions) (version_ : Z) : V unit :=
  ensure_account name ;!
  get_account_mut name (ins_auth_key key permissions version_) panic.

Definition vault_del_auth_key (name : XorName) (key : PublicKey) (version_ : Z) : V unit :=
  ensure_account name ;!
  get_account_mut name (del_auth_key key version_) panic.

(** * Handlers: immutable data *)

Definition respond {A} (wrap : SndResult A -> Response) (m : V A) : V Response :=
  let! result := attempt m in ret (wrap result).

Definition handle_GetIData (address : IDataAddress) (requester_pk : PublicKey) : V Response :=
  respond RGetIData
    (let! idata := get_idata address in
     match idata with
     | IDUnpub data =>
         if decide (unpub_idata_owner data = requester_pk) then ret idata
         else fail AccessDenied
     | IDPub _ => ret idata
     end).

Definition handle_PutIData (idata : IData) (requester : PublicId) (owner_pk : PublicKey) :
    V Response :=
  let errored :=
    match idata with
    | IDUnpub data => bool_decide (owner_pk ≠ unpub_idata_owner data)
    | IDPub _ => false
    end in
  respond RMutation
    (if (errored : bool) then fail InvalidOwners
     else put_data (DImmutable (idata_address idata)) (Immutable idata) requester).

Definition handle_DeleteUnpubIData (address : IDataAddress) (requester_pk : PublicKey) :
    V Response :=
  respond RMutation (delete_idata address requester_pk).

(** * Handlers: authorised keys of a client *)

Definition handle_ListAuthKeysAndVersion (requester : PublicId)
    (requester_pk owner_pk : PublicKey) : V Response :=
  respond RListAuthKeysAndVersion
    (if decide (owner_pk = requester_pk)
     then list_auth_keys_and_version (public_id_name requester)
     else fail AccessDenied).

Definition handle_InsAuthKey (key : PublicKey) (permissions : AppPermissions) (version_ : Z)
    (requester : PublicId) (requester_pk owner_pk : PublicKey) : V Response :=
  respond RMutation
    (if decide (owner_pk = requester_pk)
     then vault_ins_auth_key (public_id_name requester) key permissions version_
     else fail AccessDenied).

Definition handle_DelAuthKey (key : PublicKey) (version_ : Z)
    (requester : PublicId) (requester_pk owner_pk : PublicKey) : V Response :=
  respond RMutation
    (if decide (owner_pk = requester_pk)
     then vault_del_auth_key (public_id_name requester) key version_
     else fail AccessDenied).

(** * Handlers: coins *)

Definition handle_TransferCoins (destination : XorName) (amount : Coins)
    (transaction_id : Z) (requester_pk owner_pk : PublicKey) : V Response :=
  let source := xor_name_from owner_pk in
  respond RTransaction
    (if (as_nano amount =? 0)%Z then fail InvalidOperation
     else
       authorise_operations [OpTransferCoins] source requester_pk ;!
       transfer_coins source destination amount transaction_id).

(** The operations [CreateBalance] and [CreateLoginPacketFor] ask to be
    authorised for: [vec![Mutation]], with [TransferCoins] pushed when the
    amount equals [Coins::from_str("0")]. *)
Definition creation_perms (amount : Coins) : V (list Operation) :=
  let! zero := unwrap_result (coins_from_str "0") in
  ret (if decide (amount = zero) then [OpMutation; OpTransferCoins] else [OpMutation]).

(** Check that the source can pay for the balance and its initial amount,
    then create it; shared by the two requests that create balances. *)
Definition check_and_create_balance (source destination : XorName) (owner : PublicKey)
    (amount source_balance : Coins) : V unit :=
  let! cost := unwrap COST_OF_PUT in
  let! total_amount := ok_or (checked_add amount cost) ExcessiveValue in
  let! sufficient := gets (has_sufficient_balance source_balance total_amount) in
  if negb sufficient then fail InsufficientBalance
  else create_balance destination owner.

Definition handle_CreateBalance (new_balance_owner : PublicKey) (amount : Coins)
    (transaction_id : Z) (requester_pk owner_pk : PublicKey) : V Response :=
  let source := xor_name_from owner_pk in
  let destination := xor_name_from new_balance_owner in
  respond RTransaction
    (if decide (source = destination) then
       mock_create_balance new_balance_owner amount ;!
       ret {| tx_id := transaction_id; tx_amount := amount |}
     else
       let! req_perms := creation_perms amount in
       authorise_operations req_perms source requester_pk ;!
       let! source_balance := get_balance source in
       check_and_create_balance source destination new_balance_owner amount source_balance ;!
       commit_mutation source ;!
       transfer_coins source destination amount transaction_id).

Definition handle_GetBalance (requester_pk owner_pk : PublicKey) : V Response :=
  let coin_balance_id := xor_name_from owner_pk in
  respond RGetBalance
    (authorise_operations [OpGetBalance] coin_balance_id requester_pk ;!
     get_balance coin_balance_id).

(** * Handlers: login packets *)

Definition handle_CreateLoginPacketFor (new_owner : PublicKey) (amount : Coins)
    (transaction_id : Z) (new_login_packet : LoginPacket)
    (requester_pk owner_pk : PublicKey) : V Response :=
  let source := xor_name_from owner_pk in
  let new_balance_dest := xor_name_from new_owner in
  respond RTransaction
    (let! req_perms := creation_perms amount in
     authorise_operations req_perms source requester_pk ;!
     let! source_balance := get_balance source in
     check_and_create_balance source new_balance_dest new_owner amount source_balance ;!
     commit_mutation source ;!
     transfer_coins source new_balance_dest amount transaction_id ;!
     let! packet := gets (get_login_packet (login_destination new_login_packet)) in
     match packet with
     | Some _ => fail LoginPacketExists
     | None =>
         insert_login_packet new_login_packet ;!
         ret {| tx_id := transaction_id; tx_amount := amount |}
     end).

Definition handle_CreateLoginPacket (account_data : LoginPacket)
    (requester_pk owner_pk : PublicKey) : V Response :=
  let source := xor_name_from owner_pk in
  respond RMutation
    (authorise_operations [OpMutation] source requester_pk ;!
     let! packet := gets (get_login_packet (login_destination account_data)) in
     match packet with
     | Some _ => fail LoginPacketExists
     | None =>
         let! source_balance := get_balance source in
         let! cost := unwrap COST_OF_PUT in
         let! sufficient := gets (has_sufficient_balance source_balance cost) in
         if negb sufficient then fail InsufficientBalance
         else commit_mutation source ;! insert_login_packet account_data
     end).

Definition handle_GetLoginPacket (location : XorName) (requester_pk : PublicKey) : V Response :=
  respond RGetLoginPacket
    (let! packet := gets (get_login_packet location) in
     match packet with
     | None => fail NoSuchLoginPacket
     | Some login_packet =>
         if decide (login_authorised_getter login_packet = requester_pk)
         then ret (login_data login_packet, login_signature login_packet)
         else fail AccessDenied
     end).

Definition handle_UpdateLoginPacket (new_packet : LoginPacket) (requester_pk : PublicKey) :
    V Response :=
  respond RMutation
    (let! packet := gets (get_login_packet (login_destination new_packet)) in
     match packet with
     | Some old_packet =>
         if decide (login_authorised_getter old_packet = requester_pk)
         then insert_login_packet new_packet
         else fail AccessDenied
     | None => fail NoSuchLoginPacket
     end).

(** * Handlers: mutable data *)

(** [self.get_mdata(..).and_then(|data| if address != *data.address()
    { return Err(NoSuchData) } ..)], the opening of most handlers. *)
Definition get_mdata_at (address : MDataAddress) (requester_pk : PublicKey)
    (request : Request) : V MData :=
  let! data := get_mdata address requester_pk request in
  if decide (address = mdata_address data) then ret data else fail NoSuchData.

Definition handle_GetMData (address : MDataAddress) (requester_pk : PublicKey)
    (request : Request) : V Response :=
  respond RGetMData (get_mdata_at address requester_pk request).

Definition handle_PutMData (data : MData) (requester : PublicId) (owner_pk : PublicKey) :
    V Response :=
  respond RMutation
    (if decide (mdata_owner data = owner_pk)
     then put_data (DMutable (mdata_address data)) (Mutable data) requester
     else fail InvalidOwners).

(** The three handlers that read entries match on the kind of the address
    and the variant of the data. *)
Definition match_mdata {A} (address : MDataAddress) (data : MData)
    (seq : SeqMutableData -> SndResult A) (unseq : UnseqMutableData -> SndResult A) :
    SndResult A :=
  match mdata_address_kind address, data with
  | MKSeq, MDSeq mdata => seq mdata
  | MKUnseq, MDUnseq mdata => unseq mdata
  | _, _ => Err NoSuchData
  end.

Definition handle_GetMDataValue (address : MDataAddress) (key : bytes)
    (requester_pk : PublicKey) (request : Request) : V Response :=
  respond RGetMDataValue
    (let! data := get_mdata address requester_pk request in
     lift_result (match_mdata address data
       (fun mdata => ok_or_r (VSeq <$> seq_mdata_get mdata key) NoSuchEntry)
       (fun mdata => ok_or_r (VUnseq <$> unseq_mdata_get mdata key) NoSuchEntry))).

Definition handle_GetMDataShell (address : MDataAddress) (requester_pk : PublicKey)
    (request : Request) : V Response :=
  respond RGetMDataShell
    (let! data := get_mdata_at address requester_pk request in ret (mdata_shell data)).

Definition handle_GetMDataVersion (address : MDataAddress) (requester_pk : PublicKey)
    (request : Request) : V Response :=
  respond RGetMDataVersion
    (let! data := get_mdata_at address requester_pk request in ret (mdata_version data)).

Definition handle_ListMDataEntries (address : MDataAddress) (requester_pk : PublicKey)
    (request : Request) : V Response :=
  respond RListMDataEntries
    (let! data := get_mdata address requester_pk request in
     lift_result (match_mdata address data
       (fun mdata => Ok (EntSeq (seq_mdata_entries mdata)))
       (fun mdata => Ok (EntUnseq (unseq_mdata_entries mdata))))).

Definition handle_ListMDataKeys (address : MDataAddress) (requester_pk : PublicKey)
    (request : Request) : V Response :=
  respond RListMDataKeys
    (let! data := get_mdata_at address requester_pk request in ret (mdata_keys data)).

Definition handle_ListMDataValues (address : MDataAddress) (requester_pk : PublicKey)
    (request : Request) : V Response :=
  respond RListMDataValues
    (let! data := get_mdata address requester_pk request in
     lift_result (match_mdata address data
       (fun mdata => Ok (ValsSeq (seq_mdata_values mdata)))
       (fun mdata => Ok (ValsUnseq (unseq_mdata_values mdata))))).

Definition handle_DeleteMData (address : MDataAddress) (requester : PublicId)
    (requester_pk : PublicKey) (request : Request) : V Response :=
  respond RMutation
    (let! data := get_mdata_at address requester_pk request in
     match requester with
     | PClient client_id =>
         if decide (client_public_key client_id = mdata_owner data)
         then delete_data (DMutable address)
         else fail InvalidOwners
     | _ => fail AccessDenied
     end).

Definition handle_SetMDataUserPermissions (address : MDataAddress) (user : PublicKey)
    (permissions : MDataPermissionSet) (version_ : Z) (requester : PublicId)
    (requester_pk : PublicKey) (request : Request) : V Response :=
  respond RMutation
    (let! data := get_mdata_at address requester_pk request in
     let! data := lift_result (mdata_set_user_permissions data user permissions version_) in
     insert_data (DMutable address) (Mutable data) ;!
     commit_mutation (public_id_name requester)).

Definition handle_DelMDataUserPermissions (address : MDataAddress) (user : PublicKey)
    (version_ : Z) (requester : PublicId) (requester_pk : PublicKey) (request : Request) :
    V Response :=
  respond RMutation
    (let! data := get_mdata_at address requester_pk request in
     let! data := lift_result (mdata_del_user_permissions data user version_) in
     insert_data (DMutable address) (Mutable data) ;!
     commit_mutation (public_id_name requester)).

Definition handle_ListMDataUserPermissions (address : MDataAddress) (user : PublicKey)
    (requester_pk : PublicKey) (request : Request) : V Response :=
  respond RListMDataUserPermissions
    (let! data := get_mdata_at address requester_pk request in
     lift_result (mdata_user_permissions data user)).

Definition handle_ListMDataPermissions (address : MDataAddress) (requester_pk : PublicKey)
    (request : Request) : V Response :=
  respond RListMDataPermissions
    (let! data := get_mdata_at address requester_pk request in ret (mdata_permissions data)).

Definition handle_MutateMDataEntries (address : MDataAddress) (actions : MDataEntryActions)
    (requester : PublicId) (requester_pk : PublicKey) (request : Request) : V Response :=
  respond RMutation
    (let! data := get_mdata_at address requester_pk request in
     let! data := lift_result (mdata_mutate_entries data actions requester_pk) in
     insert_data (DMutable address) (Mutable data) ;!
     commit_mutation (public_id_name requester)).
End requests.
