(* ===== verification/MockVaultProcess.v ===== *)
(** The append-only data handlers of the mock vault, and
    [Vault::process_request] itself
    ([safe_core/src/client/mock/vault.rs]). *)
From S2P Require Import Prelude SafeNd SafeNdModel MockAccount MockVault MockVaultRequests.

Section adata.
Context `{ndt : !NdTypes, ndo : !NdOps, host : !Host}.
Abbreviation V A := (M Vault SndError A).

Definition handle_PutAData (adata : AData) (requester : PublicId) (owner_pk : PublicKey) :
    V Response :=
  let owner_index := adata_owners_index adata in
  let address := adata_address adata in
  respond RMutation
    match adata_owner adata (u64_sub owner_index 1) with
    | Some key =>
        if decide (adata_owner_public_key key = owner_pk)
        then put_data (DAppendOnly address) (AppendOnly adata) requester
        else fail InvalidOwners
    | None => fail NoSuchEntry
    end.

Definition handle_GetAData (address : ADataAddress) (requester_pk : PublicKey)
    (request : Request) : V Response :=
  respond RGetAData (get_adata address requester_pk request).

Definition handle_DeleteAData (address : ADataAddress) (requester_pk : PublicKey)
    (request : Request) : V Response :=
  let id := DAppendOnly address in
  respond RMutation
    (let! data := get_adata address requester_pk request in
     match data with
     | ADPubSeq _ | ADPubUnseq _ => fail InvalidOperation
     | ADUnpubSeq _ | ADUnpubUnseq _ => delete_data id
     end).

Definition handle_GetADataShell (address : ADataAddress) (data_index : ADataIndex)
    (requester_pk : PublicKey) (request : Request) : V Response :=
  respond RGetADataShell
    (let! data := get_adata address requester_pk request in
     let index := match data_index with
                  | FromStart index => index
                  | FromEnd index => u64_sub (adata_permissions_index data) index
                  end in
     lift_result (adata_shell data index)).

Definition handle_GetADataRange (address : ADataAddress) (range : ADataIndex * ADataIndex)
    (requester_pk : PublicKey) (request : Request) : V Response :=
  respond RGetADataRange
    (let! data := get_adata address requester_pk request in
     ok_or (adata_in_range data range.1 range.2) NoSuchEntry).

Definition handle_GetADataValue (address : ADataAddress) (key : bytes)
    (requester_pk : PublicKey) (request : Request) : V Response :=
  respond RGetADataValue
    (let! data := get_adata address requester_pk request in
     ok_or (adata_get data key) NoSuchEntry).

Definition handle_GetADataIndices (address : ADataAddress) (requester_pk : PublicKey)
    (request : Request) : V Response :=
  respond RGetADataIndices
    (let! data := get_adata address requester_pk request in lift_result (adata_indices data)).

Definition handle_GetADataLastEntry (address : ADataAddress) (requester_pk : PublicKey)
    (request : Request) : V Response :=
  respond RGetADataLastEntry
    (let! data := get_adata address requester_pk request in
     ok_or (adata_last_entry data) NoSuchEntry).

Definition handle_GetADataPermissions (address : ADataAddress) (permissions_index : ADataIndex)
    (requester_pk : PublicKey) (request : Request) : V Response :=
  respond RGetADataPermissions
    (let! data := get_adata address requester_pk request in
     if adata_kind_is_pub address && adata_is_pub data then
       lift_result (rmap PermsPub (adata_pub_permissions data permissions_index))
     else if adata_kind_is_unpub address && adata_is_unpub data then
       lift_result (rmap PermsUnpub (adata_unpub_permissions data permissions_index))
     else fail NoSuchData).

Definition handle_GetPubADataUserPermissions (address : ADataAddress)
    (permissions_index : ADataIndex) (user : ADataUser)
    (requester_pk : PublicKey) (request : Request) : V Response :=
  respond RGetPubADataUserPermissions
    (let! data := get_adata address requester_pk request in
     lift_result (adata_pub_user_permissions data user permissions_index)).

Definition handle_GetUnpubADataUserPermissions (address : ADataAddress)
    (permissions_index : ADataIndex) (public_key : PublicKey)
    (requester_pk : PublicKey) (request : Request) : V Response :=
  respond RGetUnpubADataUserPermissions
    (let! data := get_adata address requester_pk request in
     lift_result (adata_unpub_user_permissions data public_key permissions_index)).

(** Every mutation of append-only data ends the same way: take the fee,
    then store the new value. *)
Definition commit_adata (requester : PublicId) (id : DataId) (data : AData) : V unit :=
  commit_mutation (public_id_name requester) ;!
  insert_data id (AppendOnly data).

Definition handle_AppendSeq (append : ADataAppendOperation) (index : Z)
    (requester : PublicId) (requester_pk : PublicKey) (request : Request) : V Response :=
  let id := DAppendOnly (append_address append) in
  respond RMutation
    (let! data := get_adata (append_address append) requester_pk request in
     match data with
     | ADPubSeq adata =>
         let! adata := lift_result (pub_seq_append adata (append_values append) index) in
         commit_adata requester id (ADPubSeq adata)
     | ADUnpubSeq adata =>
         let! adata := lift_result (unpub_seq_append adata (append_values append) index) in
         commit_adata requester id (ADUnpubSeq adata)
     | _ => fail NoSuchData
     end).

Definition handle_AppendUnseq (append : ADataAppendOperation)
    (requester : PublicId) (requester_pk : PublicKey) (request : Request) : V Response :=
  let id := DAppendOnly (append_address append) in
  respond RMutation
    (let! data := get_adata (append_address append) requester_pk request in
     match data with
     | ADPubUnseq adata =>
         let! adata := lift_result (pub_unseq_append adata (append_values append)) in
         commit_adata requester id (ADPubUnseq adata)
     | ADUnpubUnseq adata =>
         let! adata := lift_result (unpub_unseq_append adata (append_values append)) in
         commit_adata requester id (ADUnpubUnseq adata)
     | _ => fail NoSuchData
     end).

Definition handle_AddPubADataPermissions (address : ADataAddress)
    (permissions : ADataPubPermissions) (permissions_index : Z)
    (requester : PublicId) (requester_pk : PublicKey) (request : Request) : V Response :=
  let id := DAppendOnly address in
  respond RMutation
    (let! data := get_adata address requester_pk request in
     match address with
     | APubSeq _ _ =>
         match data with
         | ADPubSeq adata =>
             let! adata :=
               lift_result (pub_seq_append_permissions adata permissions permissions_index) in
             commit_adata requester id (ADPubSeq adata)
         | _ => fail NoSuchData
         end
     | APubUnseq _ _ =>
         match data with
         | ADPubUnseq adata =>
             let! adata :=
               lift_result (pub_unseq_append_permissions adata permissions permissions_index) in
             commit_adata requester id (ADPubUnseq adata)
         | _ => fail NoSuchData
         end
     | _ => fail AccessDenied
     end).

Definition handle_AddUnpubADataPermissions (address : ADataAddress)
    (permissions : ADataUnpubPermissions) (permissions_index : Z)
    (requester : PublicId) (requester_pk : PublicKey) (request : Request) : V Response :=
  let id := DAppendOnly address in
  respond RMutation
    (let! data := get_adata address requester_pk request in
     match address with
     | AUnpubSeq _ _ =>
         match data with
         | ADUnpubSeq adata =>
             let! adata :=
               lift_result (unpub_seq_append_permissions adata permissions permissions_index) in
             commit_adata requester id (ADUnpubSeq adata)
         | _ => fail NoSuchData
         end
     | AUnpubUnseq _ _ =>
         match data with
         | ADUnpubUnseq adata =>
             let! adata :=
               lift_result (unpub_unseq_append_permissions adata permissions permissions_index) in
             commit_adata requester id (ADUnpubUnseq adata)
         | _ => fail NoSuchData
         end
     | _ => fail AccessDenied
     end).

Definition handle_SetADataOwner (address : ADataAddress) (owner : ADataOwner)
    (owners_index : Z) (requester : PublicId) (requester_pk : PublicKey) (request : Request) :
    V Response :=
  let id := DAppendOnly address in
  respond RMutation
    (let! data := get_adata address requester_pk request in
     match address, data with
     | APubSeq _ _, ADPubSeq adata =>
         let! adata := lift_result (pub_seq_append_owner adata owner owners_index) in
         commit_adata requester id (ADPubSeq adata)
     | APubUnseq _ _, ADPubUnseq adata =>
         let! adata := lift_result (pub_unseq_append_owner adata owner owners_index) in
         commit_adata requester id (ADPubUnseq adata)
     | AUnpubSeq _ _, ADUnpubSeq adata =>
         let! adata := lift_result (unpub_seq_append_owner adata owner owners_index) in
         commit_adata requester id (ADUnpubSeq adata)
     | AUnpubUnseq _ _, ADUnpubUnseq adata =>
         let! adata := lift_result (unpub_unseq_append_owner adata owner owners_index) in
         commit_adata requester id (ADUnpubUnseq adata)
     | _, _ => fail NoSuchData
     end).

Definition handle_GetADataOwners (address : ADataAddress) (owners_index : ADataIndex)
    (requester_pk : PublicKey) (request : Request) : V Response :=
  respond RGetADataOwners
    (let! data := get_adata address requester_pk request in
     let index := match owners_index with
                  | FromStart index => index
                  | FromEnd index => u64_sub (adata_owners_index data) index
                  end in
     ok_or (adata_owner data index) NoSuchEntry).

(** * [process_request] *)

(** The requester's key and its owner's key, once an app is known to be
    authorised and the signature of a request that is not a GET of public
    data has been checked. *)
Definition authenticate_request (requester : PublicId) (request : Request)
    (message_id : MessageId) (signature : option Signature) : V (PublicKey * PublicKey) :=
  let! (is_app, requester_pk, owner_pk) :=
    match requester with
    | PApp pk => ret (true, app_public_key pk, client_public_key (app_owner pk))
    | PClient pk => ret (false, client_public_key pk, client_public_key pk)
    | PNode _ => fail AccessDenied
    end in
  match get_type request with
  | PrivateGet | TMutation | TTransaction =>
      (if (is_app : bool) then
         let! account := gets (get_account (public_id_name requester)) in
         let auth_keys := default ∅ (auth_keys <$> account) in
         match auth_keys !! requester_pk with
         | None => fail AccessDenied
         | Some _ => ret tt
         end
       else ret tt) ;!
      match signature with
      | Some sig => lift_result (verify_signature sig requester_pk request message_id)
      | None => fail InvalidSignature
      end
  | PublicGet => ret tt
  end ;!
  ret (requester_pk, owner_pk).

Definition dispatch (requester : PublicId) (requester_pk owner_pk : PublicKey)
    (request : Request) : V Response :=
  match request with
  | GetIData address => handle_GetIData address requester_pk
  | PutIData idata => handle_PutIData idata requester owner_pk
  | DeleteUnpubIData address => handle_DeleteUnpubIData address requester_pk
  | ListAuthKeysAndVersion => handle_ListAuthKeysAndVersion requester requester_pk owner_pk
  | InsAuthKey key permissions version_ =>
      handle_InsAuthKey key permissions version_ requester requester_pk owner_pk
  | DelAuthKey key version_ => handle_DelAuthKey key version_ requester requester_pk owner_pk
  | TransferCoins destination amount transaction_id =>
      handle_TransferCoins destination amount transaction_id requester_pk owner_pk
  | CreateBalance new_balance_owner amount transaction_id =>
      handle_CreateBalance new_balance_owner amount transaction_id requester_pk owner_pk
  | GetBalance => handle_GetBalance requester_pk owner_pk
  | CreateLoginPacketFor new_owner amount transaction_id new_login_packet =>
      handle_CreateLoginPacketFor new_owner amount transaction_id new_login_packet
        requester_pk owner_pk
  | CreateLoginPacket account_data =>
      handle_CreateLoginPacket account_data requester_pk owner_pk
  | GetLoginPacket location => handle_GetLoginPacket location requester_pk
  | UpdateLoginPacket new_packet => handle_UpdateLoginPacket new_packet requester_pk
  | GetMData address => handle_GetMData address requester_pk request
  | PutMData data => handle_PutMData data requester owner_pk
  | GetMDataValue address key => handle_GetMDataValue address key requester_pk request
  | GetMDataShell address => handle_GetMDataShell address requester_pk request
  | GetMDataVersion address => handle_GetMDataVersion address requester_pk request
  | ListMDataEntries address => handle_ListMDataEntries address requester_pk request
  | ListMDataKeys address => handle_ListMDataKeys address requester_pk request
  | ListMDataValues address => handle_ListMDataValues address requester_pk request
  | DeleteMData address => handle_DeleteMData address requester requester_pk request
  | SetMDataUserPermissions address user permissions version_ =>
      handle_SetMDataUserPermissions address user permissions version_
        requester requester_pk request
  | DelMDataUserPermissions address user version_ =>
      handle_DelMDataUserPermissions address user version_ requester requester_pk request
  | ListMDataUserPermissions address user =>
      handle_ListMDataUserPermissions address user requester_pk request
  | ListMDataPermissions address => handle_ListMDataPermissions address requester_pk request
  | MutateMDataEntries address actions =>
      handle_MutateMDataEntries address actions requester requester_pk request
  | PutAData adata => handle_PutAData adata requester owner_pk
  | GetAData address => handle_GetAData address requester_pk request
  | DeleteAData address => handle_DeleteAData address requester_pk request
  | GetADataShell address data_index =>
      handle_GetADataShell address data_index requester_pk request
  | GetADataRange address range => handle_GetADataRange address range requester_pk request
  | GetADataValue address key => handle_GetADataValue address key requester_pk request
  | GetADataIndices address => handle_GetADataIndices address requester_pk request
  | GetADataLastEntry address => handle_GetADataLastEntry address requester_pk request
  | GetADataPermissions address permissions_index =>
      handle_GetADataPermissions address permissions_index requester_pk request
  | GetPubADataUserPermissions address permissions_index user =>
      handle_GetPubADataUserPermissions address permissions_index user requester_pk request
  | GetUnpubADataUserPermissions address permissions_index public_key =>
      handle_GetUnpubADataUserPermissions address permissions_index public_key
        requester_pk request
  | AppendSeq append index => handle_AppendSeq append index requester requester_pk request
  | AppendUnseq append => handle_AppendUnseq append requester requester_pk request
  | AddPubADataPermissions address permissions permissions_index =>
      handle_AddPubADataPermissions address permissions permissions_index
        requester requester_pk request
  | AddUnpubADataPermissions address permissions permissions_index =>
      handle_AddUnpubADataPermissions address permissions permissions_index
        requester requester_pk request
  | SetADataOwner address owner owners_index =>
      handle_SetADataOwner address owner owners_index requester requester_pk request
  | GetADataOwners address owners_index =>
      handle_GetADataOwners address owners_index requester_pk request
  end.

Definition process_request (requester : PublicId) (message : Message) : V Message :=
  match message with
  | MsgRequest request message_id signature =>
      let! result := attempt (authenticate_request requester request message_id signature) in
      match result with
      | Ok (requester_pk, owner_pk) =>
          let! response := dispatch requester requester_pk owner_pk request in
          ret (MsgResponse response message_id)
      | Err err => ret (MsgResponse (error_response request err) message_id)
      end
  | _ => fail (snd_error_from "Unexpected Message type")
  end.
End adata.
