(* ===== verification/MockVaultRefine.v ===== *)
(** [process_request] refines the abstract vault of [MockVaultSpec]. *)
From stdpp Require Import relations.
From S2P Require Import Prelude SafeNd SafeNdModel MockAccount MockVault.
From S2P Require Import MockVaultRequests MockVaultProcess MockVaultSpec.

Section refine.
Context `{ndt : !NdTypes, ndo : !NdOps, ndl : !NdLaws, host : !Host}.

(** * Writing back what was read *)

Lemma put_balance_id n b v :
  coin_balances (cache v) !! n = Some b -> put_balance n b v = v.
Proof.
  intros Hb. destruct v as [[] ? ?]. unfold put_balance, set_coin_balances, set_cache.
  simpl in *. by rewrite insert_id.
Qed.

Lemma put_account_id n a v :
  client_manager (cache v) !! n = Some a -> put_account n a v = v.
Proof.
  intros Ha. destruct v as [[] ? ?]. unfold put_account, set_client_manager, set_cache.
  simpl in *. by rewrite insert_id.
Qed.

(** * The primitives that write *)

Lemma wp_commit_mutation n Q F X v :
  (~ limited v -> Q tt v) ->
  (forall b cost c, limited v -> COST_OF_PUT = Some cost ->
     coin_balances (cache v) !! n = Some b -> checked_sub (value b) cost = Some c ->
     Q tt (put_balance n (set_value c b) v)) ->
  (limited v -> X v) ->
  wp (commit_mutation n) Q F X v.
Proof.
  intros Hun Hlim HX. unfold commit_mutation, limited in *. do 2 wp_step. wp_step.
  2: { apply negb_false_iff in Heqb. wp_step. apply Hun. by rewrite Heqb. }
  apply negb_true_iff in Heqb. wp_step. wp_step. wp_step; [|by apply HX].
  unfold wp, get_coin_balance_mut.
  destruct (coin_balances _ !! n) as [b|] eqn:Hb; [|by apply HX].
  unfold or_else. rewrite debit_balance_eq.
  destruct (checked_sub _ _) as [c'|] eqn:Hs; simpl; [by eapply Hlim|].
  change (X (put_balance n b v)). rewrite put_balance_id by done. by apply HX.
Qed.

Lemma wp_create_balance n o Q F X v :
  (forall c, coin_balances (cache v) !! n = None -> coins_from_nano 0 = Ok c ->
     Q tt (put_balance n (CoinBalance_new c o) v)) ->
  (forall e, F e v) ->
  wp (create_balance n o) Q F X v.
Proof.
  intros HQ HF. unfold create_balance, get_coin_balance. repeat wp_step; auto.
  by apply HQ.
Qed.

Lemma wp_transfer_coins src dst amt tid Q F X v :
  (forall b c b' c', limited v ->
     coin_balances (cache v) !! src = Some b -> checked_sub (value b) amt = Some c ->
     coin_balances (cache (put_balance src (set_value c b) v)) !! dst = Some b' ->
     checked_add (value b') amt = Some c' ->
     Q {| tx_id := tid; tx_amount := amt |}
       (put_balance dst (add_transaction amt tid (set_value c' b'))
          (put_balance src (set_value c b) v))) ->
  (forall b c, ~ limited v -> coin_balances (cache v) !! dst = Some b ->
     checked_add (value b) amt = Some c ->
     Q {| tx_id := tid; tx_amount := amt |}
       (put_balance dst (add_transaction amt tid (set_value c b)) v)) ->
  (forall e b c, limited v -> coin_balances (cache v) !! src = Some b ->
     checked_sub (value b) amt = Some c -> F e (put_balance src (set_value c b) v)) ->
  (forall e, F e v) ->
  wp (transfer_coins src dst amt tid) Q F X v.
Proof.
  intros Hlim Hun Hburn HF. unfold transfer_coins, limited in *. do 3 wp_step.
  unfold wp at 1, get_coin_balance_mut at 1.
  destruct (coin_balances _ !! src) as [b|] eqn:Hb; [|apply HF].
  destruct (unlimited_coins _) eqn:Hu; simpl.
  - change (wp (get_coin_balance_mut dst (credit_balance amt tid) (fail NoSuchBalance) ;!
      ret {| tx_id := tid; tx_amount := amt |}) Q F X (put_balance src b v)).
    rewrite put_balance_id by done. wp_step. unfold wp at 1, get_coin_balance_mut.
    destruct (coin_balances _ !! dst) as [b'|] eqn:Hb'; [|apply HF].
    rewrite credit_balance_eq. destruct (checked_add _ _) as [c'|] eqn:Hc; [by eapply Hun|].
    change (F ExcessiveValue (put_balance dst b' v)). by rewrite put_balance_id.
  - rewrite debit_balance_eq. destruct (checked_sub _ _) as [c|] eqn:Hc; simpl.
    2: { change (F InsufficientBalance (put_balance src b v)). by rewrite put_balance_id. }
    change (wp (get_coin_balance_mut dst (credit_balance amt tid) (fail NoSuchBalance) ;!
      ret {| tx_id := tid; tx_amount := amt |}) Q F X (put_balance src (set_value c b) v)).
    wp_step. unfold wp at 1, get_coin_balance_mut.
    destruct (coin_balances (cache (put_balance _ _ _)) !! dst) as [b'|] eqn:Hb';
      [|by eapply Hburn].
    rewrite credit_balance_eq. destruct (checked_add _ _) as [c'|] eqn:Hc'; [by eapply Hlim|].
    change (F ExcessiveValue (put_balance dst b' (put_balance src (set_value c b) v))).
    rewrite put_balance_id by done. by eapply Hburn.
Qed.

Lemma wp_ensure_account n Q F X v :
  (is_Some (client_manager (cache v) !! n) -> Q tt v) ->
  (client_manager (cache v) !! n = None ->
     Q tt (put_account n (Account_new (vault_config v)) v)) ->
  wp (ensure_account n) Q F X v.
Proof.
  intros Hs Hn. unfold ensure_account, get_account, insert_account. repeat wp_step.
  - apply Hs. by eexists.
  - by apply Hn.
Qed.

Lemma wp_get_account_mut n (m : M Account SndError unit) none Q F X v a :
  client_manager (cache v) !! n = Some a ->
  wp m (fun x a' => Q x (put_account n a' v)) (fun e a' => F e (put_account n a' v))
    (fun a' => X (put_account n a' v)) a ->
  wp (get_account_mut n m none) Q F X v.
Proof. intros Ha. unfold wp, get_account_mut. rewrite Ha. by destruct (m a). Qed.

(** The name the handlers charge is the requester's. *)
Lemma keys_of_name r pk opk : keys_of r pk opk -> xor_name_from opk = public_id_name r.
Proof.
  destruct r as [c|a|n]; simpl; [| |done]; intros [_ ->].
  - by rewrite public_id_name_client, client_name_spec.
  - by rewrite public_id_name_app, app_owner_name_spec, client_name_spec.
Qed.

(** * Composite operations, against the abstract steps *)

Section reach.
Context (r : PublicId) (pk opk : PublicKey) (Hkeys : keys_of r pk opk).
Context (req : Request) (v0 : Vault) (Hwf0 : vault_wf v0).

Definition reach (v : Vault) : Prop := rtc (vault_step r pk opk req) v0 v.

(** Every path of [m] from [v] stays within the abstract steps. *)
Abbreviation refines m v := (wp m (fun _ => reach) (fun _ => reach) reach v).

Lemma reach_step v v' : reach v -> vault_step r pk opk req v v' -> reach v'.
Proof. intros. by eapply rtc_r. Qed.

Lemma reach_wf v : reach v -> vault_wf v.
Proof. intros. by eapply vault_steps_wf. Qed.

Lemma reach_debit v b cost c :
  reach v -> limited v -> coin_balances (cache v) !! public_id_name r = Some b ->
  checked_sub (value b) cost = Some c ->
  reach (put_balance (public_id_name r) (set_value c b) v).
Proof. intros. eapply reach_step; [done|]. by econstructor. Qed.

Lemma commit_mutation_refines v : reach v -> refines (commit_mutation (public_id_name r)) v.
Proof. intros Hv. apply wp_commit_mutation; eauto using reach_debit. Qed.

Lemma transfer_coins_refines dst amt tid v :
  reach v -> refines (transfer_coins (public_id_name r) dst amt tid) v.
Proof.
  intros Hv. apply wp_transfer_coins; intros; eauto using reach_debit.
  - eapply reach_step; [done|]. by econstructor.
  - eapply reach_step; [done|]. by eapply step_mint.
Qed.

Lemma create_balance_refines n o v : reach v -> refines (create_balance n o) v.
Proof.
  intros Hv. apply wp_create_balance; [|done]. intros c Hn Hc.
  eapply reach_step; [done|]. by eapply step_new_balance.
Qed.

Lemma check_and_create_balance_refines src dst o amt bal v :
  reach v -> refines (check_and_create_balance src dst o amt bal) v.
Proof.
  intros Hv. unfold check_and_create_balance. repeat (wp_step; try done).
  by apply create_balance_refines.
Qed.

Lemma put_data_refines d v :
  reach v -> put_allowed opk d -> refines (put_data (data_id d) d r) v.
Proof.
  intros Hv Hput. unfold put_data. wp_step.
  apply (wp_mono _ (fun _ s => s = v) _ (fun _ s => s = v) _ (fun s => s = v));
    [by destruct r|intros [n k] ? ->|by intros ? ? ->|by intros ? ->].
  do 4 (wp_step; try done). unfold contains_data.
  case_bool_decide as Hin.
  - destruct (data_id d); repeat wp_step; try done; by apply commit_mutation_refines.
  - apply eq_None_not_Some in Hin. unfold insert_data. wp_step. wp_step.
    apply commit_mutation_refines. eapply reach_step; [done|]. by apply step_put.
Qed.

Lemma ensure_account_refines v :
  reach v ->
  wp (ensure_account (public_id_name r))
    (fun _ v => reach v /\ is_Some (client_manager (cache v) !! public_id_name r))
    (fun _ => reach) reach v.
Proof.
  intros Hv. apply wp_ensure_account; [done|]. intros Hn. split.
  - eapply reach_step; [done|]. by apply step_new_account.
  - simpl. rewrite lookup_insert_eq. by eexists.
Qed.

Lemma list_auth_keys_and_version_refines v :
  reach v -> refines (list_auth_keys_and_version (public_id_name r)) v.
Proof.
  intros Hv. unfold list_auth_keys_and_version. wp_step.
  eapply wp_mono; [by apply ensure_account_refines| |done|done].
  intros _ v' [Hv' _]. by repeat wp_step.
Qed.

Lemma account_update_refines (m : M Account SndError unit) v :
  reach v ->
  (forall a, wp m (fun _ a' => account_step a a') (fun _ a' => a' = a) (fun _ => False) a) ->
  refines (ensure_account (public_id_name r) ;!
           get_account_mut (public_id_name r) m panic) v.
Proof.
  intros Hv Hm. wp_step.
  eapply wp_mono; [by apply ensure_account_refines| |done|done].
  intros _ v' [Hv' [a Ha]]. eapply wp_get_account_mut; [done|].
  eapply wp_mono; [apply Hm|..]; [| |done].
  - intros ? a' Hstep. eapply reach_step; [done|]. by eapply step_account.
  - intros ? a' ->. by rewrite put_account_id.
Qed.

Lemma ins_auth_key_refines key perms ver v :
  reach v -> refines (vault_ins_auth_key (public_id_name r) key perms ver) v.
Proof.
  intros Hv. apply account_update_refines; [done|]. intros a. unfold wp.
  rewrite ins_auth_key_eq. case_decide; [subst; constructor|done].
Qed.

Lemma del_auth_key_refines key ver v :
  reach v -> refines (vault_del_auth_key (public_id_name r) key ver) v.
Proof.
  intros Hv. apply account_update_refines; [done|]. intros a. unfold wp.
  rewrite del_auth_key_eq. case_decide; [|done].
  destruct (auth_keys a !! key) eqn:Hk; [subst; by constructor|done].
Qed.

(** Replacing mutable or append-only data in place: the fee is taken
    after the write for the former, before it for the latter. *)
Lemma reach_update id d d' v :
  reach v -> nae_manager (cache v) !! id = Some d -> update_allowed pk d d' ->
  reach (put_data_at id d' v).
Proof.
  intros Hv Hd Hup. eapply reach_step; [done|].
  rewrite <-(wf_data _ (reach_wf _ Hv) _ _ Hd) in Hd |- *. by eapply step_update.
Qed.

Lemma update_mdata_refines id d d' v :
  reach v -> nae_manager (cache v) !! id = Some d -> update_allowed pk d d' ->
  refines (insert_data id d' ;! commit_mutation (public_id_name r)) v.
Proof.
  intros Hv Hd Hup. unfold insert_data. wp_step. wp_step. apply commit_mutation_refines.
  by eapply reach_update.
Qed.

Lemma commit_adata_refines id d d' v :
  reach v -> nae_manager (cache v) !! id = Some d -> update_allowed pk d (AppendOnly d') ->
  refines (commit_adata r id d') v.
Proof.
  intros Hv Hd Hup. unfold commit_adata, insert_data. wp_step.
  apply wp_commit_mutation; intros; [..|done]; wp_step; eapply reach_update;
    eauto using reach_debit.
Qed.

Lemma delete_data_refines id d v :
  reach v -> nae_manager (cache v) !! id = Some d -> delete_allowed pk d ->
  refines (delete_data id) v.
Proof.
  intros Hv Hd Hdel. unfold delete_data. wp_step. eapply reach_step; [done|].
  rewrite <-(wf_data _ (reach_wf _ Hv) _ _ Hd) in Hd |- *. by eapply step_delete.
Qed.

Lemma respond_refines {A} (wrap : SndResult A -> Response) (m : M Vault SndError A) v :
  refines m v -> refines (respond wrap m) v.
Proof.
  intros Hm. unfold respond. do 2 wp_step. eapply wp_mono; [done|..]; try done.
Qed.

Lemma refines_bind {A B} (m : M Vault SndError A) (k : A -> M Vault SndError B) v :
  refines m v -> (forall a v, reach v -> refines (k a) v) -> refines (bind m k) v.
Proof. intros Hm Hk. apply wp_bind. eapply wp_mono; [done|..]; eauto. Qed.

(** * Every handler *)

Lemma login_packet_refines p v :
  reach v ->
  (login_packets (cache v) !! login_destination p = None \/
   exists old, login_packets (cache v) !! login_destination p = Some old /\
               login_authorised_getter old = pk) ->
  refines (insert_login_packet p) v.
Proof.
  intros Hv Hp. unfold insert_login_packet. wp_step. eapply reach_step; [done|].
  destruct Hp as [Hp|(old & Hp & Hg)]; [by apply step_new_packet|].
  by eapply step_update_packet.
Qed.

Lemma mock_create_balance_refines o c tid v :
  reach v -> req = CreateBalance o c tid -> xor_name_from o = public_id_name r -> refines (mock_create_balance o c) v.
Proof.
  intros Hv Hreq Ho. unfold mock_create_balance. rewrite Ho. wp_step.
  eapply reach_step; [done|]. by eapply step_reset_balance.
Qed.

(** Follow a handler, stepping over the calls above with their lemmas. *)
Ltac handler_step :=
  match goal with
  | |- wp (respond _ _) _ _ _ _ => apply respond_refines
  | |- wp (get_idata _) _ _ _ _ => apply wp_get_idata; [intros ? ?|done]
  | |- wp (get_mdata _ _ _) _ _ _ _ => apply wp_get_mdata; [intros ? ? ?|done]
  | |- wp (get_mdata_at _ _ _) _ _ _ _ => apply wp_get_mdata_at; [intros ? ? ? ?|done]
  | |- wp (get_adata _ _ _) _ _ _ _ => apply wp_get_adata; [intros ? ? ?|done]
  | |- wp (insert_data _ _ ;! _) _ _ _ _ =>
      eapply update_mdata_refines; [done|done|econstructor; done]
  | |- wp (commit_adata _ _ _) _ _ _ _ =>
      eapply commit_adata_refines; [done|done|]
  | |- wp (delete_data _) _ _ _ _ => eapply delete_data_refines; [done|done|]
  | |- wp (if decide ?P then _ else _) _ _ _ _ => destruct (decide P)
  | |- _ => wp_step
  end.
Ltac handler := repeat (handler_step; try done).

Lemma handle_PutIData_refines d v : reach v -> refines (handle_PutIData d r opk) v.
Proof.
  intros Hv. unfold handle_PutIData. handler.
  apply (put_data_refines (Immutable d)); [done|].
  destruct d; simpl; [done|]. case_bool_decide as Ho; [done|].
  by destruct (decide (opk = unpub_idata_owner d)).
Qed.

Lemma handle_DeleteUnpubIData_refines a v :
  reach v -> refines (handle_DeleteUnpubIData a pk) v.
Proof. intros Hv. unfold handle_DeleteUnpubIData, delete_idata, get_data. handler. Qed.

Lemma handle_auth_keys_refines v :
  reach v ->
  refines (handle_ListAuthKeysAndVersion r pk opk) v /\
  (forall key perms ver, refines (handle_InsAuthKey key perms ver r pk opk) v) /\
  (forall key ver, refines (handle_DelAuthKey key ver r pk opk) v).
Proof.
  intros Hv. unfold handle_ListAuthKeysAndVersion, handle_InsAuthKey, handle_DelAuthKey.
  split_and!; intros; apply respond_refines; case_decide; try done.
  - by apply list_auth_keys_and_version_refines.
  - by apply ins_auth_key_refines.
  - by apply del_auth_key_refines.
Qed.

Lemma handle_TransferCoins_refines dst amt tid v :
  reach v -> refines (handle_TransferCoins dst amt tid pk opk) v.
Proof.
  intros Hv. unfold handle_TransferCoins. rewrite (keys_of_name _ _ _ Hkeys). handler.
  by apply transfer_coins_refines.
Qed.

(** What [CreateBalance] and [CreateLoginPacketFor] do once authorised. *)
Lemma pay_for_balance_refines dst o amt bal {A} (k : M Vault SndError A) v :
  reach v -> (forall v, reach v -> refines k v) ->
  refines (check_and_create_balance (public_id_name r) dst o amt bal ;!
           commit_mutation (public_id_name r) ;! k) v.
Proof.
  intros Hv Hk. apply refines_bind; [by apply check_and_create_balance_refines|].
  intros _ v1 Hv1. apply refines_bind; [by apply commit_mutation_refines|]. auto.
Qed.

Lemma handle_CreateBalance_refines o amt tid v :
  reach v -> req = CreateBalance o amt tid ->
  refines (handle_CreateBalance o amt tid pk opk) v.
Proof.
  intros Hv Hreq. unfold handle_CreateBalance. rewrite (keys_of_name _ _ _ Hkeys).
  apply respond_refines. case_decide.
  - apply refines_bind; [by eapply mock_create_balance_refines|done].
  - do 3 (wp_step; wp_step; try done). 
    apply pay_for_balance_refines; [done|]. intros. by apply transfer_coins_refines.
Qed.

Lemma handle_CreateLoginPacketFor_refines o amt tid p v :
  reach v -> refines (handle_CreateLoginPacketFor o amt tid p pk opk) v.
Proof.
  intros Hv. unfold handle_CreateLoginPacketFor. rewrite (keys_of_name _ _ _ Hkeys).
  apply respond_refines. do 3 (wp_step; wp_step; try done).
  apply pay_for_balance_refines; [done|]. intros v1 Hv1.
  apply refines_bind; [by apply transfer_coins_refines|]. intros _ v' Hv'.
  unfold get_login_packet.
  handler_step. handler_step. destruct (login_packets _ !! _) eqn:Hp; [done|].
  apply refines_bind; [|done]. apply login_packet_refines; auto.
Qed.

Lemma handle_CreateLoginPacket_refines p v :
  reach v -> refines (handle_CreateLoginPacket p pk opk) v.
Proof.
  intros Hv. unfold handle_CreateLoginPacket. rewrite (keys_of_name _ _ _ Hkeys).
  unfold get_login_packet. handler. apply wp_commit_mutation; intros; [..|done];
    apply login_packet_refines; eauto using reach_debit.
Qed.

Lemma handle_UpdateLoginPacket_refines p v :
  reach v -> refines (handle_UpdateLoginPacket p pk) v.
Proof.
  intros Hv. unfold handle_UpdateLoginPacket, get_login_packet. handler.
  apply login_packet_refines; eauto.
Qed.

Lemma handle_PutMData_refines d v : reach v -> refines (handle_PutMData d r opk) v.
Proof.
  intros Hv. unfold handle_PutMData. handler. by apply (put_data_refines (Mutable d)).
Qed.

Lemma handle_PutAData_refines d v : reach v -> refines (handle_PutAData d r opk) v.
Proof.
  intros Hv. unfold handle_PutAData. handler.
  apply (put_data_refines (AppendOnly d)); simpl; eauto.
Qed.

Lemma handle_DeleteMData_refines a v :
  reach v -> refines (handle_DeleteMData a r pk (DeleteMData a)) v.
Proof.
  intros Hv. unfold handle_DeleteMData. handler. simplify_eq/=.
  destruct Hkeys as [-> _]. by split.
Qed.

Lemma handle_mutate_mdata_refines a v :
  reach v ->
  (forall u p ver, refines (handle_SetMDataUserPermissions a u p ver r pk
     (SetMDataUserPermissions a u p ver)) v) /\
  (forall u ver, refines (handle_DelMDataUserPermissions a u ver r pk
     (DelMDataUserPermissions a u ver)) v) /\
  (forall acts, refines (handle_MutateMDataEntries a acts r pk
     (MutateMDataEntries a acts)) v).
Proof.
  intros Hv. unfold handle_SetMDataUserPermissions, handle_DelMDataUserPermissions,
    handle_MutateMDataEntries.
  split_and!; intros; handler.
Qed.

Lemma handle_DeleteAData_refines a v :
  reach v -> refines (handle_DeleteAData a pk (DeleteAData a)) v.
Proof. intros Hv. unfold handle_DeleteAData. handler. Qed.

Lemma handle_append_refines op v :
  reach v ->
  (forall i, refines (handle_AppendSeq op i r pk (AppendSeq op i)) v) /\
  refines (handle_AppendUnseq op r pk (AppendUnseq op)) v.
Proof.
  intros Hv. unfold handle_AppendSeq, handle_AppendUnseq. split; intros; handler;
    (apply upd_append; [done|by econstructor]).
Qed.

Lemma handle_adata_perms_refines a i v :
  reach v ->
  (forall p, refines (handle_AddPubADataPermissions a p i r pk
     (AddPubADataPermissions a p i)) v) /\
  (forall p, refines (handle_AddUnpubADataPermissions a p i r pk
     (AddUnpubADataPermissions a p i)) v) /\
  (forall o, refines (handle_SetADataOwner a o i r pk (SetADataOwner a o i)) v).
Proof.
  intros Hv. unfold handle_AddPubADataPermissions, handle_AddUnpubADataPermissions,
    handle_SetADataOwner.
  split_and!; intros; handler;
    first [apply upd_adata_perms; [done|by econstructor]
          |apply upd_adata_owner; [done|by econstructor]].
Qed.

(** The requests that only read. *)
Lemma handle_get_refines v :
  reach v -> is_get req = true -> refines (dispatch r pk opk req) v.
Proof.
  intros Hv Hget. destruct req eqn:Hreq; simpl in Hget; simplify_eq; simpl.
  3, 4: unfold handle_GetBalance, handle_GetLoginPacket; by handler.
  2: by apply handle_auth_keys_refines.
  all: unfold handle_GetIData, handle_GetMData, handle_GetMDataValue, handle_GetMDataShell,
    handle_GetMDataVersion, handle_ListMDataEntries, handle_ListMDataKeys,
    handle_ListMDataValues, handle_ListMDataUserPermissions, handle_ListMDataPermissions,
    handle_GetAData, handle_GetADataShell, handle_GetADataRange, handle_GetADataValue,
    handle_GetADataIndices, handle_GetADataLastEntry, handle_GetADataPermissions,
    handle_GetPubADataUserPermissions, handle_GetUnpubADataUserPermissions,
    handle_GetADataOwners; by handler.
Qed.

Lemma dispatch_refines v : reach v -> refines (dispatch r pk opk req) v.
Proof.
  intros Hv. destruct (is_get req) eqn:Hget; [by apply handle_get_refines|].
  destruct req eqn:Hreq; try done; simpl; clear Hget.
  all: auto using handle_PutIData_refines, handle_DeleteUnpubIData_refines,
    handle_TransferCoins_refines, handle_CreateBalance_refines,
    handle_CreateLoginPacketFor_refines, handle_CreateLoginPacket_refines,
    handle_UpdateLoginPacket_refines, handle_PutMData_refines, handle_PutAData_refines,
    handle_DeleteMData_refines, handle_DeleteAData_refines.
  - apply (handle_auth_keys_refines v Hv).
  - apply (handle_auth_keys_refines v Hv).
  - apply (handle_mutate_mdata_refines address v Hv).
  - apply (handle_mutate_mdata_refines address v Hv).
  - apply (handle_mutate_mdata_refines address v Hv).
  - apply (handle_append_refines append v Hv).
  - apply (handle_append_refines append v Hv).
  - apply (handle_adata_perms_refines address permissions_index v Hv).
  - apply (handle_adata_perms_refines address permissions_index v Hv).
  - apply (handle_adata_perms_refines address owners_index v Hv).
Qed.
End reach.

(** * [process_request] *)

(** The steps a requester may cause: none for a node, and those under its own
    keys for a client or an app. *)
Definition allowed_steps (r : PublicId) (msg : Message) (v v' : Vault) : Prop :=
  v' = v \/
  exists pk opk req mid sig, msg = MsgRequest req mid sig /\ keys_of r pk opk /\ rtc (vault_step r pk opk req) v v'.

Lemma process_request_steps r msg v :
  vault_wf v -> allowed_steps r msg v (final (process_request r msg v)).
Proof.
  intros Hwf. apply wp_final. unfold process_request.
  destruct msg as [req mid sig| |]; [|by left..].
  wp_step. apply wp_attempt, wp_readonly; [auto with readonly|..].
  - intros [pk opk] Ha. assert (keys_of r pk opk) as Hk by by eapply authenticate_request_keys.
    apply wp_bind. eapply wp_mono; [apply (dispatch_refines r pk opk Hk req v Hwf), rtc_refl|..].
    all: unfold allowed_steps, reach; simpl; intros; right;
      by exists pk, opk, req, mid, sig.
  - intros. by left.
  - by left.
Qed.
End refine.
