(* ===== verification/MockVaultSafety.v ===== *)
(** What holds of the mock vault whoever talks to it: its invariants, by
    induction on the abstract steps of [MockVaultSpec], for one message and
    for whole sessions of messages from any mix of requesters. *)
From stdpp Require Import relations.
From S2P Require Import Prelude SafeNd SafeNdModel MockAccount MockVault.
From S2P Require Import MockVaultRequests MockVaultProcess MockVaultSpec MockVaultRefine.


Section safety.
Context `{ndt : !NdTypes, ndo : !NdOps, ndl : !NdLaws, host : !Host}.

(** A session: messages processed one after the other, each leaving the
    vault in the state it reached, whatever its outcome. *)
Definition run (l : list (PublicId * Message)) (v : Vault) : Vault :=
  foldl (fun v p => final (process_request p.1 p.2 v)) v l.

(** * Invariants of steps are invariants of messages and sessions *)

Lemma process_request_wf r msg v : vault_wf v -> vault_wf (final (process_request r msg v)).
Proof.
  intros Hwf. destruct (process_request_steps r msg v Hwf)
    as [->|(pk & opk & req & mid & sig & _ & _ & Hs)]; [done|by eapply vault_steps_wf].
Qed.

Lemma process_request_invariant r msg v (J : Vault -> Prop) :
  vault_wf v -> J v ->
  (forall pk opk req mid sig v v', msg = MsgRequest req mid sig -> keys_of r pk opk ->
     vault_wf v -> J v -> vault_step r pk opk req v v' -> J v') ->
  J (final (process_request r msg v)).
Proof.
  intros Hwf HJ Hstep. destruct (process_request_steps r msg v Hwf)
    as [->|(pk & opk & req & mid & sig & Hm & Hk & Hs)]; [done|].
  revert Hwf HJ. induction Hs as [|v1 v2 v3 H12 _ IH]; intros Hwf HJ; [done|].
  apply IH; eauto using vault_step_wf.
Qed.

Lemma run_invariant (ok : PublicId * Message -> Prop) l v (J : Vault -> Prop) :
  vault_wf v -> J v -> Forall ok l ->
  (forall r req mid sig pk opk v v', ok (r, MsgRequest req mid sig) -> keys_of r pk opk ->
     vault_wf v -> J v -> vault_step r pk opk req v v' -> J v') ->
  J (run l v) /\ vault_wf (run l v).
Proof.
  intros Hwf HJ Hl Hstep. revert v Hwf HJ.
  induction Hl as [|[r msg] l Hok Hl IH]; intros v Hwf HJ; simpl; [done|].
  apply IH; [by apply process_request_wf|].
  apply process_request_invariant; [done..|].
  intros pk opk req mid sig v1 v2 ->. by apply Hstep with (mid := mid) (sig := sig).
Qed.

(** * Stored data *)

Lemma update_allowed_published pk d d' : update_allowed pk d d' -> published d' = published d.
Proof.
  destruct 1 as [| | |? ? ? Hup|? ? ? Hup|? ? ? Hup]; [done..| | |]; by destruct Hup.
Qed.

(** What the stored copy of published data may become. *)
Definition kept (d d' : Data) : Prop :=
  published d' = true /\ match d with Immutable _ => d' = d | _ => True end.

Lemma vault_step_published r pk opk req id d v v' :
  published d = true -> vault_wf v -> vault_step r pk opk req v v' ->
  (exists d1, nae_manager (cache v) !! id = Some d1 /\ kept d d1) ->
  exists d1, nae_manager (cache v') !! id = Some d1 /\ kept d d1.
Proof.
  intros Hpub Hwf Hs (d1 & Hd1 & Hkept).
  destruct Hs as [d2 v Hn ?|d2 d' v Hd2 Hup|d2 v Hd2 Hdel| | | | | | | | |]; simpl; eauto;
    destruct Hkept as [Hp1 Hi].
  - exists d1. by rewrite lookup_insert_ne by congruence.
  - destruct (decide (data_id d2 = id)) as [<-|]; [|exists d1; by simplify_map_eq].
    exists d'. rewrite lookup_insert_eq. split; [done|]. simplify_eq. split.
    + by rewrite (update_allowed_published _ _ _ Hup).
    + destruct d; [subst; inversion Hup|done..].
  - destruct (decide (data_id d2 = id)) as [<-|]; [|exists d1; by simplify_map_eq].
    assert (d2 = d1) as -> by congruence. by destruct d1 as [[]| |[]].
Qed.

(** * Coins *)

Definition supply (v : Vault) : Z :=
  map_total (fun b => as_nano (value b)) (coin_balances (cache v)).

(** A request for a balance under the requester's own name: the mock grants
    it whatever amount it asks for. *)
Definition self_funding (r : PublicId) (msg : Message) : bool :=
  match msg with
  | MsgRequest (CreateBalance o _ _) _ _ => bool_decide (xor_name_from o = public_id_name r)
  | _ => false
  end.

Lemma zero_coins c : coins_from_nano 0 = Ok c -> as_nano c = 0%Z.
Proof.
  intros Hc. destruct (from_nano_ok 0) as (c' & Hc' & Hz).
  - pose proof max_nano_pos. lia.
  - by assert (c = c') as -> by congruence.
Qed.

Lemma vault_step_config r pk opk req v v' :
  vault_step r pk opk req v v' -> vault_config v' = vault_config v.
Proof. by destruct 1. Qed.

Lemma supply_put_balance n b v :
  supply (put_balance n b v) =
  (supply v - default 0 ((fun b => as_nano (value b)) <$> coin_balances (cache v) !! n)
   + as_nano (value b))%Z.
Proof. unfold supply; simpl. apply (map_total_insert (fun b => as_nano (value b))). Qed.

(** Without free coins, a step only moves coins or burns them. *)
Lemma vault_step_supply r pk opk req mid sig v v' :
  limited v -> self_funding r (MsgRequest req mid sig) = false ->
  vault_step r pk opk req v v' -> (supply v' <= supply v)%Z.
Proof.
  intros Hlim Hself Hs. destruct Hs; try (unfold supply; simpl; lia).
  - rewrite supply_put_balance, H0. simpl. apply checked_sub_Some in H1.
    pose proof (as_nano_range amt). lia.
  - subst v1. rewrite !supply_put_balance, H0, H2. simpl.
    apply checked_sub_Some in H1. apply checked_add_Some in H3. lia.
  - done.
  - rewrite supply_put_balance, H. simpl. rewrite (zero_coins _ H0). lia.
  - subst req. simpl in Hself. by case_bool_decide.
Qed.

(** A step leaves every balance but the requester's at least as large, under
    the same owner. *)
Lemma vault_step_balance r pk opk req n b v v' :
  n <> public_id_name r -> vault_step r pk opk req v v' ->
  coin_balances (cache v) !! n = Some b ->
  exists b', coin_balances (cache v') !! n = Some b' /\ owner b' = owner b /\
    (as_nano (value b) <= as_nano (value b'))%Z.
Proof.
  intros Hn Hs Hb. destruct Hs; simpl in *; eauto with lia;
    try (exists b; by simplify_map_eq).
  - destruct (decide (dst = n)) as [->|]; [|exists b; by simplify_map_eq].
    simplify_map_eq. eexists; split_and!; [done..|]. simpl.
    apply checked_add_Some in H3. pose proof (as_nano_range amt). lia.
  - destruct (decide (dst = n)) as [->|]; [|exists b; by simplify_map_eq].
    simplify_map_eq. eexists; split_and!; [done..|]. simpl.
    apply checked_add_Some in H1. pose proof (as_nano_range amt). lia.
Qed.

(** * Login packets *)

Lemma vault_step_packet r pk opk req n p v v' :
  login_authorised_getter p <> pk -> vault_step r pk opk req v v' ->
  login_packets (cache v) !! n = Some p -> login_packets (cache v') !! n = Some p.
Proof.
  intros Hg Hs Hp. destruct Hs; simpl in *; try done; apply lookup_insert_Some; right;
    (split; [congruence|done]).
Qed.

(** * Accounts *)

Lemma vault_step_account r pk opk req n v v' :
  n <> public_id_name r -> vault_step r pk opk req v v' ->
  client_manager (cache v') !! n = client_manager (cache v) !! n.
Proof. intros Hn Hs. destruct Hs; simpl in *; by simplify_map_eq. Qed.

(** * The invariants *)

(** C31: [process_request] implements the abstract vault.  Whatever the
    message and its outcome (a response, an error or a panic), a well-formed
    vault stays well formed, and its state moves by a finite sequence of the
    elementary steps the requester's keys allow, or not at all. *)
Theorem process_request_refines r msg v :
  vault_wf v ->
  allowed_steps r msg v (final (process_request r msg v)) /\
  vault_wf (final (process_request r msg v)).
Proof. auto using process_request_steps, process_request_wf. Qed.

(** C32: published data is permanent.  Through any session of requests from
    any requesters, published data stays stored under its identifier and
    stays published, and published immutable data keeps its content. *)
Theorem published_data_permanent l v id d :
  vault_wf v -> nae_manager (cache v) !! id = Some d -> published d = true ->
  exists d', nae_manager (cache (run l v)) !! id = Some d' /\ published d' = true /\
    match d with Immutable _ => d' = d | _ => True end.
Proof.
  intros Hwf Hd Hpub. apply (run_invariant (fun _ => True)
    l v (fun v => exists d1, nae_manager (cache v) !! id = Some d1 /\ kept d d1)).
  - done.
  - exists d. split; [done|]. split; [done|by destruct d].
  - by apply Forall_true.
  - intros. by eapply vault_step_published.
Qed.


(** Only the requester pays.  A request leaves the balance of every other
    client in place, under the same owner, and at least as large. *)
Theorem other_balances_safe r msg v n b :
  vault_wf v -> n <> public_id_name r -> coin_balances (cache v) !! n = Some b ->
  exists b', coin_balances (cache (final (process_request r msg v))) !! n = Some b' /\
    owner b' = owner b /\ (as_nano (value b) <= as_nano (value b'))%Z.
Proof.
  intros Hwf Hn Hb. apply (process_request_invariant r msg v (fun v =>
    exists b', coin_balances (cache v) !! n = Some b' /\ owner b' = owner b /\
      (as_nano (value b) <= as_nano (value b'))%Z)); [done|by exists b|].
  intros pk opk req mid sig v1 v2 _ _ _ (b1 & Hb1 & Ho1 & Hle1) Hs.
  destruct (vault_step_balance _ _ _ _ _ _ _ _ Hn Hs Hb1) as (b2 & Hb2 & Ho2 & Hle2).
  exists b2. split_and!; [done|congruence|lia].
Qed.

(** C34: coins are never created by a session without unlimited coins in which
    nobody asks for a balance of its own: the total of all balances does not
    grow. *)
Theorem supply_never_grows l v :
  vault_wf v -> limited v -> Forall (fun p => self_funding p.1 p.2 = false) l ->
  (supply (run l v) <= supply v)%Z.
Proof.
  intros Hwf Hlim Hl. eapply (run_invariant _ l v (fun v' => limited v' /\
    (supply v' <= supply v)%Z)); [done| |exact Hl|]; [by split|].
  intros r req mid sig pk opk v1 v2 Hself _ _ [Hlim1 Hle] Hs. split.
  - unfold limited. by rewrite (vault_step_config _ _ _ _ _ _ Hs).
  - pose proof (vault_step_supply _ _ _ _ mid sig _ _ Hlim1 Hself Hs). lia.
Qed.

(** A login packet is replaced only by the key it names: through a session
    in which that key sends nothing, the packet is unchanged. *)
Theorem login_packet_safe l v n p :
  vault_wf v -> login_packets (cache v) !! n = Some p ->
  Forall (fun m => ~ exists opk, keys_of m.1 (login_authorised_getter p) opk) l ->
  login_packets (cache (run l v)) !! n = Some p.
Proof.
  intros Hwf Hp Hl.
  eapply (run_invariant _ l v (fun v => login_packets (cache v) !! n = Some p));
    [done|done|exact Hl|].
  intros r req mid sig pk opk v1 v2 Hno Hk _ Hv1 Hs. eapply vault_step_packet; [|done..].
  intros <-. apply Hno. by exists opk.
Qed.

(** The keys a client has authorised are its own business: no other
    client, and no app of another client, can add or revoke them. *)
Theorem auth_keys_isolated l v n :
  vault_wf v -> Forall (fun m => public_id_name m.1 <> n) l ->
  client_manager (cache (run l v)) !! n = client_manager (cache v) !! n.
Proof.
  intros Hwf Hl. eapply (run_invariant _ l v (fun v' =>
    client_manager (cache v') !! n = client_manager (cache v) !! n)); [done..|exact Hl|].
  intros r req mid sig pk opk v1 v2 Hn _ _ Hv1 Hs. rewrite <-Hv1.
  eapply vault_step_account; [|done]. by apply not_eq_sym.
Qed.
End safety.

(** * The theorems at work *)

Example process_request_refines_witness :
  allowed_steps alice ex_transfer ex_vault (final (process_request alice ex_transfer ex_vault)) /\
  vault_wf (final (process_request alice ex_transfer ex_vault)).
Proof. exact (process_request_refines alice ex_transfer ex_vault ex_vault_wf). Defined.

Example published_data_permanent_witness :
  exists d', nae_manager (cache (run ex_session ex_vault)) !! DImmutable (idata_address ex_pub_idata)
    = Some d' /\ published d' = true /\ d' = Immutable ex_pub_idata.
Proof.
  exact (published_data_permanent ex_session ex_vault (DImmutable (idata_address ex_pub_idata))
    (Immutable ex_pub_idata)
    ex_vault_wf eq_refl eq_refl).
Defined.

Definition ex_delete : Message := signed 1 (DeleteMData (MSeq (ex_name 50) 15000)).


Example other_balances_safe_witness :
  exists b', coin_balances (cache (final (process_request alice ex_transfer ex_vault)))
      !! ex_name 2 = Some b' /\ owner b' = ex_key 2 /\
    (as_nano (ex_coins 10) <= as_nano (value b'))%Z.
Proof.
  apply (other_balances_safe alice ex_transfer ex_vault (ex_name 2)
    (ex_balance 2 10)).
  - exact ex_vault_wf.
  - discriminate.
  - vm_refl.
Defined.

Example supply_never_grows_witness : (supply (run ex_session ex_vault) <= 110)%Z.
Proof.
  apply (supply_never_grows ex_session ex_vault ex_vault_wf ex_vault_limited).
  repeat constructor.
Defined.

Example login_packet_safe_witness :
  login_packets (cache (run [(bob, signed 2 (UpdateLoginPacket ex_packet))] ex_vault))
    !! ex_name 9 = Some ex_packet.
Proof.
  apply (login_packet_safe _ ex_vault (ex_name 9) ex_packet ex_vault_wf eq_refl).
  repeat constructor. intros [opk [Hk _]]. discriminate.
Defined.

Example auth_keys_isolated_witness :
  client_manager (cache (run [(bob, signed 2 (DelAuthKey (ex_key 7) 2))] ex_vault))
    !! ex_name 1 = client_manager (cache ex_vault) !! ex_name 1.
Proof.
  apply (auth_keys_isolated _ ex_vault (ex_name 1) ex_vault_wf).
  repeat constructor. discriminate.
Defined.
