(* ===== verification/MockVaultBehaviour.v ===== *)
(** What the mock vault answers: the functional behaviour of its requests, on
    the branches that succeed and on those that fail. *)
From stdpp Require Import relations.
From S2P Require Import Prelude SafeNd SafeNdModel MockAccount MockVault.
From S2P Require Import MockVaultRequests MockVaultProcess MockVaultSpec MockVaultRefine.
From S2P Require Import MockVaultSafety.

Section behaviour.
Context `{ndt : !NdTypes, ndo : !NdOps, ndl : !NdLaws, host : !Host}.

(** [m] returns from [v], with [Q]. *)
Abbreviation returns m v Q := (wp m Q (fun _ _ => False) (fun _ => False) v).

(** * Authentication *)

(** The authorised keys an app is looked up in. *)
Definition authorised (r : PublicId) (pk : PublicKey) (v : Vault) : Prop :=
  match r with
  | PApp _ => exists a, client_manager (cache v) !! public_id_name r = Some a /\
                        is_Some (auth_keys a !! pk)
  | _ => True
  end.

Lemma not_get_not_public req : is_get req = false -> get_type req <> PublicGet.
Proof. intros Hg Ht. apply get_type_public in Ht. congruence. Qed.

Lemma authenticate_request_ok r req mid s v pk opk :
  keys_of r pk opk -> authorised r pk v -> verify_signature s pk req mid = Ok tt ->
  authenticate_request r req mid (Some s) v = Ret (pk, opk) v.
Proof.
  intros Hk Hauth Hs. unfold authenticate_request, bind, gets, get_account.
  destruct r as [c|a|n]; destruct Hk; subst; simpl; [by destruct (get_type req); rewrite ?Hs| ].
  destruct Hauth as (acc & Hacc & [p Hp]).
  destruct (get_type req); rewrite ?Hacc; simpl; rewrite ?Hp; simpl; by rewrite ?Hs.
Qed.

Lemma authenticate_request_inv r req mid sig v pk opk :
  get_type req <> PublicGet ->
  authenticate_request r req mid sig v = Ret (pk, opk) v ->
  authorised r pk v /\ exists s, sig = Some s /\ verify_signature s pk req mid = Ok tt.
Proof.
  intros Ht. unfold authenticate_request, bind, gets, get_account, fail, ret.
  destruct r as [c|a|n]; simpl; [..|done]; intros Ha.
  - split; [done|]. destruct sig as [s|]; [|by destruct (get_type req)].
    exists s. destruct (verify_signature s _ _ _) as [[]|] eqn:Hs;
      destruct (get_type req); simplify_eq/=; done.
  - destruct (get_type req); [done|..]; revert Ha;
      (destruct (client_manager _ !! _) as [acc|] eqn:Hacc; simpl;
        [|by rewrite lookup_empty]);
      (destruct (auth_keys acc !! _) eqn:Hp; [|done]); (destruct sig as [s|]; [|done]); simpl;
      destruct (verify_signature s _ _ _) as [[]|] eqn:Hs; simpl; intros; simplify_eq; eauto 10.
Qed.

(** Once authenticated, the answer is the handler's. *)
Lemma process_request_dispatch r req mid s v pk opk Q :
  keys_of r pk opk -> authorised r pk v -> verify_signature s pk req mid = Ok tt ->
  returns (dispatch r pk opk req) v (fun resp v' => Q (MsgResponse resp mid) v') ->
  returns (process_request r (MsgRequest req mid (Some s))) v Q.
Proof.
  intros Hk Hauth Hs Hd. unfold process_request. apply wp_bind, wp_attempt.
  unfold wp at 1. rewrite (authenticate_request_ok _ _ _ _ _ _ _ Hk Hauth Hs).
  apply wp_bind. eapply wp_mono; [done|..]; auto.
Qed.

Lemma returns_inv {A} (m : M Vault SndError A) v (Q : A -> Vault -> Prop) :
  returns m v Q -> exists a v', m v = Ret a v' /\ Q a v'.
Proof. unfold wp. destruct (m v); [eauto|done..]. Qed.

(** * Fees *)

Lemma COST_OF_PUT_spec : exists c, COST_OF_PUT = Some c /\ as_nano c = 1%Z.
Proof.
  destruct (from_nano_ok 1) as (c & Hc & H1); [pose proof max_nano_pos; lia|].
  exists c. unfold COST_OF_PUT. by rewrite Hc.
Qed.

(** The account can pay the fee of a mutation. *)
Definition can_pay (n : XorName) (v : Vault) : Prop :=
  ~ limited v \/ exists b, coin_balances (cache v) !! n = Some b /\ (1 <= as_nano (value b))%Z.

Lemma sufficient_spec bal amt v :
  has_sufficient_balance bal amt v = true <-> ~ limited v \/ (as_nano amt <= as_nano bal)%Z.
Proof.
  unfold has_sufficient_balance, limited. rewrite orb_true_iff, bool_decide_eq_true.
  rewrite not_false_iff_true. f_equiv. split.
  - intros [c Hc]. apply checked_sub_Some in Hc. pose proof (as_nano_range c). lia.
  - apply checked_sub_is_Some.
Qed.

(** What is left of a balance once the fee of one mutation is paid. *)
Definition paid (b b' : CoinBalance) : Prop :=
  owner b' = owner b /\ credits b' = credits b /\
  as_nano (value b') = (as_nano (value b) - 1)%Z.

Lemma returns_commit_mutation n (Q : unit -> Vault -> Prop) v :
  can_pay n v ->
  (~ limited v -> Q tt v) ->
  (forall b b', limited v -> coin_balances (cache v) !! n = Some b -> paid b b' ->
     Q tt (put_balance n b' v)) ->
  returns (commit_mutation n) v Q.
Proof.
  intros Hpay Hun Hlim. destruct COST_OF_PUT_spec as (cost & Hc & H1).
  unfold commit_mutation. do 2 wp_step. destruct (unlimited_coins _) eqn:Hu; simpl.
  { wp_step. apply Hun. unfold limited. by rewrite Hu. }
  destruct Hpay as [Hpay|(b & Hb & Hle)]; [done|].
  wp_step. wp_step. rewrite Hc. unfold wp, get_coin_balance_mut, or_else. rewrite Hb.
  rewrite debit_balance_eq. destruct (checked_sub_is_Some (value b) cost) as [c' Hs]; [lia|].
  rewrite Hs. eapply Hlim; [done|done|]. split_and!; [done..|]. simpl.
  apply checked_sub_Some in Hs. lia.
Qed.

(** * Authorisation of coin operations *)

(** The permissions an app needs for each operation. *)
Definition op_granted (perms : AppPermissions) (op : Operation) : Prop :=
  match op with
  | OpTransferCoins => transfer_coins_perm perms = true
  | OpMutation => perform_mutations perms = true
  | OpGetBalance => get_balance_perm perms = true
  end.

(** [pk] may act on the balance of [n]: it is its owner's key, or was
    granted the operation. *)
Definition may_operate (n : XorName) (pk : PublicKey) (op : Operation) (v : Vault) : Prop :=
  n = xor_name_from pk \/
  exists a perms, client_manager (cache v) !! n = Some a /\ auth_keys a !! pk = Some perms /\
                  op_granted perms op.

(** The fee of a mutation is available. *)
Definition op_funded (bal : Coins) (op : Operation) (v : Vault) : Prop :=
  op = OpMutation -> ~ limited v \/ (1 <= as_nano bal)%Z.

Lemma fee_check_ret bal v :
  (let! cost := unwrap COST_OF_PUT in
   let! sufficient := gets (has_sufficient_balance bal cost) in
   if negb sufficient then fail InsufficientBalance else ret tt : M Vault SndError unit) v
  = Ret tt v <-> ~ limited v \/ (1 <= as_nano bal)%Z.
Proof.
  destruct COST_OF_PUT_spec as (cost & Hc & H1). unfold bind. rewrite Hc. simpl.
  unfold gets. rewrite <-H1, <-sufficient_spec. by destruct (has_sufficient_balance _ _ _).
Qed.

Lemma authorise_operations_spec ops n pk v :
  ops <> [] ->
  authorise_operations ops n pk v = Ret tt v <->
  exists b, coin_balances (cache v) !! n = Some b /\
    Forall (fun op => may_operate n pk op v /\ op_funded (value b) op v) ops.
Proof.
  intros Hne. unfold authorise_operations, get_balance, get_account, get_coin_balance.
  unfold bind at 1 2, gets at 1. destruct (coin_balances _ !! n) as [b|]; simpl;
    [|by split; [|intros (? & ? & _)]].
  trans (Forall (fun op => may_operate n pk op v /\ op_funded (value b) op v) ops);
    [|split; [by exists b|by intros (? & [= ->] & ?)]].
  unfold balance, may_operate. case_decide as Hn.
  - rewrite for_each_ret by (intros []; simpl; readonly_tac). apply Forall_iff. intros op.
    unfold op_funded. destruct op; [naive_solver|rewrite fee_check_ret|]; naive_solver.
  - rewrite bind_gets, bind_ok_or. destruct (client_manager _ !! n) as [a|].
    2: { split; [done|]. destruct ops; [done|]. intros [? _]%Forall_cons_iff. naive_solver. }
    rewrite bind_ok_or. destruct (auth_keys a !! pk) as [perms|] eqn:Hp.
    2: { split; [done|]. destruct ops; [done|]. intros [? _]%Forall_cons_iff. naive_solver. }
    rewrite for_each_ret by (intros []; simpl; readonly_tac). apply Forall_iff. intros op.
    trans (op_granted perms op /\ op_funded (value b) op v);
      [|split; [intros [Hg Hf]; split; [by right; exists a, perms|done]
        |by intros [[?|(? & ? & [= <-] & Hp' & ?)] ?]; simplify_eq]].
    unfold op_funded. destruct op; simpl.
    + by destruct (transfer_coins_perm perms); split; [|intros []| |intros []].
    + destruct (perform_mutations perms); simpl; [rewrite fee_check_ret|]; naive_solver.
    + by destruct (get_balance_perm perms); split; [|intros []| |intros []].
Qed.

(** * Requests *)

(** C35: nothing happens without credentials.  If a request that is not a GET
    of public data changes the vault or is answered without an error, then it
    carries a signature of that very request by the requester's key, and an
    app that sends it is among the keys its owner has authorised. *)
Theorem authentication_required r req mid sig v resp mid' v' :
  get_type req <> PublicGet ->
  process_request r (MsgRequest req mid sig) v = Ret (MsgResponse resp mid') v' ->
  v' <> v \/ response_error resp = None ->
  exists s pk opk, sig = Some s /\ keys_of r pk opk /\ authorised r pk v /\
    verify_signature s pk req mid = Ok tt.
Proof.
  intros Ht Hp Hchange. unfold process_request, bind at 1, attempt in Hp.
  pose proof (authenticate_request_readonly r req mid sig v) as Hro.
  destruct (authenticate_request r req mid sig v) as [[pk opk] v1|e v1| |] eqn:Ha;
    simpl in Hro; subst; [| |done..].
  - destruct (authenticate_request_inv _ _ _ _ _ _ _ Ht Ha) as (Hauth & s & -> & Hs).
    exists s, pk, opk. split_and!; [done| |done|done]. by eapply authenticate_request_keys.
  - unfold ret in Hp. simplify_eq. rewrite error_response_spec in Hchange. naive_solver.
Qed.

(** The authorised keys of a client do not matter to its own requests. *)
Lemma client_keys c : keys_of (PClient c) (client_public_key c) (client_public_key c).
Proof. done. Qed.

Lemma client_xor_name c : xor_name_from (client_public_key c) = public_id_name (PClient c).
Proof. by rewrite public_id_name_client, client_name_spec. Qed.

Lemma authorise_owner ops c b v :
  coin_balances (cache v) !! public_id_name (PClient c) = Some b ->
  Forall (fun op => op_funded (value b) op v) ops -> ops <> [] ->
  authorise_operations ops (public_id_name (PClient c)) (client_public_key c) v = Ret tt v.
Proof.
  intros Hb Hf Hne. apply authorise_operations_spec; [done|]. exists b. split; [done|].
  rewrite Forall_forall in Hf |- *. intros op Hop.
  split; [left; by rewrite client_xor_name|auto].
Qed.

Lemma transfer_coins_eq src dst amt tid v b b' c1 c2 :
  limited v -> src <> dst ->
  coin_balances (cache v) !! src = Some b -> coin_balances (cache v) !! dst = Some b' ->
  checked_sub (value b) amt = Some c1 -> checked_add (value b') amt = Some c2 ->
  transfer_coins src dst amt tid v =
    Ret {| tx_id := tid; tx_amount := amt |}
      (put_balance dst (add_transaction amt tid (set_value c2 b'))
         (put_balance src (set_value c1 b) v)).
Proof.
  intros Hlim Hne Hb Hb' Hc1 Hc2. unfold transfer_coins, bind, gets, get_coin_balance_mut.
  unfold limited in Hlim. rewrite Hlim, Hb. simpl.
  rewrite debit_balance_eq, Hc1. simpl. rewrite lookup_insert_ne, Hb' by done.
  by rewrite credit_balance_eq, Hc2.
Qed.

(** C36: a transfer that can be made is made exactly.  A client's signed
    request moves the amount from its balance to the destination's, records
    the credit at the head of the destination's history, leaves every other
    balance alone, and so keeps the total of all balances. *)
Theorem transfer_coins_exact c dst amt tid mid s v b b' :
  let src := public_id_name (PClient c) in
  let req := TransferCoins dst amt tid in
  limited v -> verify_signature s (client_public_key c) req mid = Ok tt -> src <> dst ->
  coin_balances (cache v) !! src = Some b -> coin_balances (cache v) !! dst = Some b' ->
  (0 < as_nano amt <= as_nano (value b))%Z ->
  (as_nano (value b') + as_nano amt <= max_nano)%Z ->
  exists c1 c2,
    let v' := put_balance dst (add_transaction amt tid (set_value c2 b'))
                (put_balance src (set_value c1 b) v) in
    process_request (PClient c) (MsgRequest req mid (Some s)) v =
      Ret (MsgResponse (RTransaction (Ok {| tx_id := tid; tx_amount := amt |})) mid) v' /\
    as_nano c1 = (as_nano (value b) - as_nano amt)%Z /\
    as_nano c2 = (as_nano (value b') + as_nano amt)%Z /\ supply v' = supply v.
Proof.
  intros src req Hlim Hs Hne Hb Hb' Hamt Hmax.
  destruct (checked_sub_is_Some (value b) amt) as [c1 Hc1]; [lia|].
  destruct (checked_add (value b') amt) as [c2|] eqn:Hc2;
    [|apply checked_add_None in Hc2; lia].
  exists c1, c2. split_and!; [|by apply checked_sub_Some|by apply checked_add_Some|].
  2: { rewrite !supply_put_balance; simpl. rewrite lookup_insert_ne, Hb, Hb' by done. simpl.
       apply checked_sub_Some in Hc1. apply checked_add_Some in Hc2. lia. }
  unfold process_request, bind at 1, attempt.
  rewrite (authenticate_request_ok _ _ _ _ _ _ _ (client_keys c) I Hs). simpl.
  unfold handle_TransferCoins, respond. rewrite client_xor_name.
  destruct (as_nano amt =? 0)%Z eqn:Hz; [apply Z.eqb_eq in Hz; lia|].
  unfold bind at 1 2, attempt.
  rewrite (bind_Ret _ _ _ _ _ (authorise_owner [OpTransferCoins] c b v Hb
    ltac:(by repeat constructor) ltac:(done))).
  fold src. by rewrite (transfer_coins_eq src dst amt tid v b b' c1 c2).
Qed.

(** A failed transfer can destroy coins.  When the destination has no
    balance, the request is refused with [NoSuchBalance], and yet the source
    has been debited: the coins are gone from the network. *)
Theorem failed_transfer_burns_coins c dst amt tid mid s v b :
  let src := public_id_name (PClient c) in
  let req := TransferCoins dst amt tid in
  limited v -> verify_signature s (client_public_key c) req mid = Ok tt ->
  coin_balances (cache v) !! src = Some b -> coin_balances (cache v) !! dst = None ->
  (0 < as_nano amt <= as_nano (value b))%Z ->
  exists v',
    process_request (PClient c) (MsgRequest req mid (Some s)) v =
      Ret (MsgResponse (RTransaction (Err NoSuchBalance)) mid) v' /\
    supply v' = (supply v - as_nano amt)%Z.
Proof.
  intros src req Hlim Hs Hb Hd Hamt.
  assert (src <> dst) as Hne by congruence.
  destruct (checked_sub_is_Some (value b) amt) as [c1 Hc1]; [lia|].
  exists (put_balance src (set_value c1 b) v). split.
  2: { rewrite supply_put_balance, Hb. simpl. apply checked_sub_Some in Hc1. lia. }
  unfold process_request, bind at 1, attempt.
  rewrite (authenticate_request_ok _ _ _ _ _ _ _ (client_keys c) I Hs). simpl.
  unfold handle_TransferCoins, respond. rewrite client_xor_name.
  destruct (as_nano amt =? 0)%Z eqn:Hz; [apply Z.eqb_eq in Hz; lia|].
  unfold bind at 1 2, attempt.
  rewrite (bind_Ret _ _ _ _ _ (authorise_owner [OpTransferCoins] c b v Hb
    ltac:(by repeat constructor) ltac:(done))).
  unfold transfer_coins, bind, gets, get_coin_balance_mut.
  unfold limited in Hlim. rewrite Hlim. fold src. rewrite Hb. simpl.
  rewrite debit_balance_eq, Hc1. simpl. by rewrite lookup_insert_ne, Hd by done.
Qed.

(** Immutable data that is in the vault stays there while its owner is
    silent, if it has an owner. *)
Definition idata_owned_by (pk : PublicKey) (d : IData) : Prop :=
  match d with IDUnpub u => unpub_idata_owner u = pk | IDPub _ => True end.

Lemma idata_kept pk d l v :
  vault_wf v -> idata_owned_by pk d ->
  nae_manager (cache v) !! DImmutable (idata_address d) = Some (Immutable d) ->
  Forall (fun m => ~ exists opk, keys_of m.1 pk opk) l ->
  nae_manager (cache (run l v)) !! DImmutable (idata_address d) = Some (Immutable d).
Proof.
  intros Hwf Ho Hd Hl. set (id := DImmutable _) in *.
  eapply (run_invariant _ l v (fun v => nae_manager (cache v) !! id = Some (Immutable d)));
    [done|done|exact Hl|].
  intros r req mid sig pk' opk v1 v2 Hno Hk _ Hv1 Hs.
  destruct Hs as [d1 ? Hn|d1 d' ? Hd1 Hup|d1 ? Hd1 Hdel| | | | | | | | |]; simpl; auto;
    (destruct (decide (data_id d1 = id)) as [E|]; [rewrite E in *|by simplify_map_eq]).
  - congruence.
  - assert (d1 = Immutable d) as -> by congruence. inversion Hup.
  - assert (d1 = Immutable d) as -> by congruence. exfalso. apply Hno. exists opk.
    by destruct d; simpl in *; subst.
Qed.

Lemma returns_put_data d c b (Q : unit -> Vault -> Prop) v :
  let n := public_id_name (PClient c) in
  limited v -> coin_balances (cache v) !! n = Some b -> (1 <= as_nano (value b))%Z ->
  nae_manager (cache v) !! data_id d = None ->
  (forall b', paid b b' -> Q tt (put_balance n b' (put_data_at (data_id d) d v))) ->
  returns (put_data (data_id d) d (PClient c)) v Q.
Proof.
  intros n Hlim Hb Hle Hd HQ. unfold put_data. rewrite <-public_id_name_client. do 3 wp_step.
  unfold wp at 1. rewrite (authorise_owner [OpMutation] c b v Hb);
    [|constructor; [by intros _; right|constructor]|done].
  do 2 wp_step. unfold contains_data. rewrite bool_decide_eq_false_2
    by (rewrite Hd; by intros []).
  unfold insert_data. do 2 wp_step. apply returns_commit_mutation.
  - right. by exists b.
  - intros []. done.
  - intros b0 b' _ Hb0 Hpaid. simpl in Hb0. fold n in Hb0. simplify_eq. by apply HQ.
Qed.

(** What is put can be got back.  A client with a nano to pay stores new
    immutable data (published, or its own unpublished data); the request
    succeeds, costs exactly one nano, and after any session in which the
    client's key is silent, getting the address returns the very data. *)
Theorem put_get_idata c d b mid s mid' s' l v :
  let r := PClient c in
  let n := public_id_name r in
  vault_wf v -> limited v -> idata_owned_by (client_public_key c) d ->
  nae_manager (cache v) !! DImmutable (idata_address d) = None ->
  coin_balances (cache v) !! n = Some b -> (1 <= as_nano (value b))%Z ->
  verify_signature s (client_public_key c) (PutIData d) mid = Ok tt ->
  verify_signature s' (client_public_key c) (GetIData (idata_address d)) mid' = Ok tt ->
  Forall (fun m => ~ exists opk, keys_of m.1 (client_public_key c) opk) l ->
  exists v' b',
    process_request r (MsgRequest (PutIData d) mid (Some s)) v =
      Ret (MsgResponse (RMutation (Ok tt)) mid) v' /\
    coin_balances (cache v') = <[n := b']> (coin_balances (cache v)) /\ paid b b' /\
    process_request r (MsgRequest (GetIData (idata_address d)) mid' (Some s')) (run l v') =
      Ret (MsgResponse (RGetIData (Ok d)) mid') (run l v').
Proof.
  intros r n Hwf Hlim Ho Hd Hb Hle Hs Hs' Hl.
  assert (returns (process_request r (MsgRequest (PutIData d) mid (Some s))) v (fun m v' =>
    m = MsgResponse (RMutation (Ok tt)) mid /\ exists b', paid b b' /\
    v' = put_balance n b' (put_data_at (data_id (Immutable d)) (Immutable d) v)))
    as (m & v' & Hput & -> & b' & Hpaid & Hv')%returns_inv.
  { eapply process_request_dispatch; [apply client_keys|done|done|]. simpl.
    unfold handle_PutIData, respond. do 2 wp_step.
    replace (match d with IDUnpub _ => _ | _ => _ end) with false.
    2: { destruct d; [done|]. by rewrite bool_decide_eq_false_2; [|intros []]. }
    eapply wp_mono; [apply (returns_put_data (Immutable d) c b (fun _ v' =>
      exists b', paid b b' /\ v' = put_balance n b' (put_data_at (data_id (Immutable d)) (Immutable d) v))); eauto|..];
      [|done..].
    intros [] v' Hv'. by apply wp_ret. }
  exists v', b'. split_and!; [done|by subst|done|].
  assert (vault_wf v') as Hwf'.
  { pose proof (process_request_wf r (MsgRequest (PutIData d) mid (Some s)) v Hwf) as Hw.
    by rewrite Hput in Hw. }
  assert (nae_manager (cache (run l v')) !! DImmutable (idata_address d) = Some (Immutable d))
    as Hget.
  { eapply idata_kept; [done|done| |done]. subst. simpl. by rewrite lookup_insert_eq. }
  unfold process_request, bind at 1, attempt.
  rewrite (authenticate_request_ok _ _ _ _ _ _ _ (client_keys c) I Hs'). simpl.
  unfold handle_GetIData, respond, get_idata, get_data, bind, gets, attempt.
  rewrite Hget. destruct d; simpl; [done|]. by case_decide.
Qed.
End behaviour.

(** * The theorems at work *)

Definition ex_tx : Transaction := {| tx_id := 77; tx_amount := ex_coins 5 |}.

Example authentication_required_witness :
  exists s pk opk, Some (ex_sig 1) = Some s /\ keys_of alice pk opk /\
    authorised alice pk ex_vault /\
    verify_signature s pk (TransferCoins (ex_name 2) (ex_coins 5) 77) ex_mid = Ok tt.
Proof.
  apply (authentication_required alice (TransferCoins (ex_name 2) (ex_coins 5) 77) ex_mid
    (Some (ex_sig 1)) ex_vault (RTransaction (Ok ex_tx)) ex_mid
    (final (process_request alice ex_transfer ex_vault))).
  - discriminate.
  - vm_refl.
  - right. reflexivity.
Defined.

Example transfer_coins_exact_witness :
  exists c1 c2,
    let v' := put_balance (ex_name 2)
                (add_transaction (ex_coins 5) 77 (set_value c2 (ex_balance 2 10)))
                (put_balance (public_id_name alice) (set_value c1 (ex_balance 1 100)) ex_vault) in
    process_request alice ex_transfer ex_vault =
      Ret (MsgResponse (RTransaction (Ok ex_tx)) ex_mid) v' /\
    as_nano c1 = (as_nano (ex_coins 100) - as_nano (ex_coins 5))%Z /\
    as_nano c2 = (as_nano (ex_coins 10) + as_nano (ex_coins 5))%Z /\ supply v' = supply ex_vault.
Proof.
  apply (transfer_coins_exact (ex_client 1) (ex_name 2) (ex_coins 5) 77 ex_mid (ex_sig 1) ex_vault
    (ex_balance 1 100) (ex_balance 2 10)).
  - exact ex_vault_limited.
  - vm_refl.
  - discriminate.
  - vm_refl.
  - vm_refl.
  - by vm_compute.
  - by vm_compute.
Defined.

Example failed_transfer_burns_coins_witness :
  exists v', process_request alice (signed 1 (TransferCoins (ex_name 4) (ex_coins 5) 77)) ex_vault =
      Ret (MsgResponse (RTransaction (Err NoSuchBalance)) ex_mid) v' /\
    supply v' = (supply ex_vault - as_nano (ex_coins 5))%Z.
Proof.
  apply (failed_transfer_burns_coins (ex_client 1) (ex_name 4) (ex_coins 5) 77 ex_mid (ex_sig 1)
    ex_vault (ex_balance 1 100)).
  - exact ex_vault_limited.
  - vm_refl.
  - vm_refl.
  - vm_refl.
  - by vm_compute.
Defined.

Definition ex_new_idata : IData := IDUnpub (([48%Z], 1%Z) : UnpubImmutableData).

Example put_get_idata_witness :
  let r := alice in
  exists v' b',
    process_request r (signed 1 (PutIData ex_new_idata)) ex_vault =
      Ret (MsgResponse (RMutation (Ok tt)) ex_mid) v' /\
    coin_balances (cache v') = <[public_id_name alice := b']> (coin_balances (cache ex_vault)) /\
    paid (ex_balance 1 100) b' /\
    process_request r (signed 1 (GetIData (idata_address ex_new_idata)))
      (run [(bob, signed 2 (DeleteUnpubIData (idata_address ex_new_idata)))] v') =
      Ret (MsgResponse (RGetIData (Ok ex_new_idata)) ex_mid)
        (run [(bob, signed 2 (DeleteUnpubIData (idata_address ex_new_idata)))] v').
Proof.
  apply (put_get_idata (ex_client 1) ex_new_idata (ex_balance 1 100) ex_mid (ex_sig 1)
    ex_mid (ex_sig 1) [(bob, signed 2 (DeleteUnpubIData (idata_address ex_new_idata)))] ex_vault).
  - exact ex_vault_wf.
  - exact ex_vault_limited.
  - reflexivity.
  - vm_refl.
  - vm_refl.
  - by vm_compute.
  - vm_refl.
  - vm_refl.
  - repeat constructor. intros [opk [Hk _]]. discriminate.
Defined.
