(* ===== verification/MockVaultTotality.v ===== *)
(** When the mock vault panics and when it does not: its [unwrap!]s.

    [commit_mutation] unwraps the payment of the fee, with the comment that
    it cannot fail because the balance was checked before.  That holds for
    puts, but the requests that change stored data do not check it. *)
From stdpp Require Import relations.
From S2P Require Import Prelude SafeNd SafeNdModel MockAccount MockVault.
From S2P Require Import MockVaultRequests MockVaultProcess MockVaultSpec MockVaultRefine.
From S2P Require Import MockVaultSafety MockVaultBehaviour.

Section totality.
Context `{ndt : !NdTypes, ndo : !NdOps, ndl : !NdLaws, host : !Host}.

(** [m] comes to an end from [v]: a result or an error, no panic. *)
Abbreviation ends m v := (wp m (fun _ _ => True) (fun _ _ => True) (fun _ => False) v).

(** [m] answers from [v]: a response, neither an error nor a panic. *)
Abbreviation answers m v := (wp m (fun _ _ => True) (fun _ _ => False) (fun _ => False) v).

Lemma wp_get_balance n Q F X v :
  (forall b, coin_balances (cache v) !! n = Some b -> Q (value b) v) ->
  (forall e, F e v) -> wp (get_balance n) Q F X v.
Proof. intros HQ HF. unfold get_balance, get_coin_balance. repeat wp_step; auto. Qed.

Lemma fee_check_ends bal v :
  ends (let! cost := unwrap COST_OF_PUT in
        let! sufficient := gets (has_sufficient_balance bal cost) in
        if negb sufficient then fail InsufficientBalance else ret tt : M Vault SndError unit) v.
Proof.
  destruct COST_OF_PUT_spec as (cost & Hc & _). do 2 wp_step. rewrite Hc. by repeat wp_step.
Qed.

Lemma for_each_ends {X} (l : list X) (body : X -> M Vault SndError unit) v :
  (forall x v, ends (body x) v) -> ends (for_each l body) v.
Proof.
  intros Hb. revert v. induction l as [|x l IH]; intros v; simpl; [done|].
  apply wp_bind. eapply wp_mono; [apply Hb|..]; auto.
Qed.

Lemma authorise_operations_ends ops n pk v : ends (authorise_operations ops n pk) v.
Proof.
  unfold authorise_operations. wp_step. apply wp_get_balance; [|done]. intros b _.
  case_decide.
  - apply for_each_ends. intros [] v'; [done|apply fee_check_ends|done].
  - unfold get_account. do 8 (wp_step; try done).
    apply for_each_ends. intros [] v'; simpl; wp_step; try done. apply fee_check_ends.
Qed.

(** A readonly check that ends can be stepped over. *)
Lemma wp_check {A} (m : M Vault SndError A) Q F X v :
  readonly m -> ends m v ->
  (forall a, m v = Ret a v -> Q a v) -> (forall e, F e v) -> wp m Q F X v.
Proof.
  intros Hro Hend HQ HF. specialize (Hro v). unfold wp in *.
  destruct (m v); simpl in *; subst; auto; done.
Qed.

Lemma wp_authorise ops n pk Q F X v :
  (authorise_operations ops n pk v = Ret tt v -> Q tt v) -> (forall e, F e v) ->
  wp (authorise_operations ops n pk) Q F X v.
Proof.
  intros HQ HF. apply wp_check; auto using authorise_operations_readonly,
    authorise_operations_ends. intros []. done.
Qed.

Lemma wp_creation_perms amt (Q : list Operation -> Vault -> Prop) F X v :
  (forall ops, OpMutation ∈ ops -> Q ops v) -> wp (creation_perms amt) Q F X v.
Proof.
  intros HQ. destruct from_str_zero as (z & Hz & _). unfold creation_perms.
  do 2 wp_step. rewrite Hz. wp_step. case_decide; apply HQ; set_solver.
Qed.

Lemma commit_mutation_ends n v : can_pay n v -> ends (commit_mutation n) v.
Proof.
  intros Hpay. eapply wp_mono; [apply (returns_commit_mutation n (fun _ _ => True)); auto|..];
    done.
Qed.

Lemma transfer_coins_ends src dst amt tid v : ends (transfer_coins src dst amt tid) v.
Proof. by apply wp_transfer_coins. Qed.

Lemma put_data_ends id d r v : ends (put_data id d r) v.
Proof.
  unfold put_data. wp_step.
  assert (forall n k, n = public_id_name r -> ends (authorise_operations [OpMutation] n k ;!
    let! contained := gets (contains_data id) in
    if (contained : bool) then
      match id with
      | DImmutable addr => if idata_address_is_pub addr then commit_mutation (public_id_name r)
                           else fail DataExists
      | _ => fail DataExists end
    else insert_data id d ;! commit_mutation (public_id_name r)) v) as Hrest.
  { intros n k ->. wp_step. apply wp_authorise; [|done]. intros Ha.
    assert (can_pay (public_id_name r) v) as Hpay.
    { apply authorise_operations_spec in Ha as (b & Hb & Hf); [|done].
      apply Forall_cons_iff in Hf as [[_ Hf] _].
      destruct (Hf eq_refl); [by left|right; eauto]. }
    do 3 wp_step.
    - destruct id; repeat wp_step; try done. by apply commit_mutation_ends.
    - unfold insert_data. do 2 wp_step. by apply commit_mutation_ends. }
  destruct r; [| |done]; wp_step; apply Hrest.
  - by rewrite public_id_name_client.
  - by rewrite public_id_name_app.
Qed.

Lemma respond_answers {A} (wrap : SndResult A -> Response) (m : M Vault SndError A) v :
  ends m v -> answers (respond wrap m) v.
Proof. intros Hm. unfold respond. do 2 wp_step. by eapply wp_mono. Qed.

Lemma account_update_ends (m : M Account SndError unit) n v :
  (forall a, wp m (fun _ _ => True) (fun _ _ => True) (fun _ => False) a) ->
  ends (ensure_account n ;! get_account_mut n m panic) v.
Proof.
  intros Hm. wp_step. apply wp_ensure_account.
  - intros [a Ha]. by eapply wp_get_account_mut.
  - intros _. eapply wp_get_account_mut; [simpl; by rewrite lookup_insert_eq|done].
Qed.

Lemma auth_keys_end n v :
  ends (list_auth_keys_and_version n) v /\
  (forall key perms ver, ends (vault_ins_auth_key n key perms ver) v) /\
  (forall key ver, ends (vault_del_auth_key n key ver) v).
Proof.
  split_and!; [|intros; apply account_update_ends; intros a; unfold wp..].
  - unfold list_auth_keys_and_version, get_account. wp_step.
    apply wp_ensure_account; intros Ha; do 4 wp_step.
    + by destruct Ha as [a ->].
    + simpl. by rewrite lookup_insert_eq.
  - rewrite ins_auth_key_eq. by case_decide.
  - rewrite del_auth_key_eq. case_decide; [by destruct (auth_keys a !! key)|done].
Qed.

(** Creating a balance of another name leaves the source able to pay. *)
Lemma check_and_create_balance_ends {A} src dst o amt b (k : M Vault SndError A) v :
  coin_balances (cache v) !! src = Some b ->
  (forall v, can_pay src v -> ends k v) ->
  ends (check_and_create_balance src dst o amt (value b) ;! k) v.
Proof.
  intros Hb Hk. destruct COST_OF_PUT_spec as (cost & Hc & H1).
  unfold check_and_create_balance. do 3 wp_step. rewrite Hc.
  do 3 (wp_step; try done). do 2 wp_step. destruct (has_sufficient_balance _ _ _) eqn:Hsuf;
    simpl; [|done].
  apply wp_create_balance; [|done]. intros c0 Hn _. apply Hk.
  apply sufficient_spec in Hsuf as [Hun|Hle]; [by left|]. right. exists b. simpl.
  rewrite lookup_insert_ne by congruence. split; [done|].
  match goal with H : checked_add _ _ = Some _ |- _ => apply checked_add_Some in H end.
  pose proof (as_nano_range amt). lia.
Qed.

Lemma create_balances_answer pk opk v :
  (forall o amt tid, answers (handle_CreateBalance o amt tid pk opk) v) /\
  (forall o amt tid p, answers (handle_CreateLoginPacketFor o amt tid p pk opk) v).
Proof.
  split; intros; apply respond_answers.
  - case_decide; [done|]. wp_step. apply wp_creation_perms. intros ops _.
    wp_step. apply wp_authorise; [intros _|done]. wp_step. apply wp_get_balance; [|done].
    intros b Hb. apply check_and_create_balance_ends; [done|]. intros v' Hpay. wp_step.
    eapply wp_mono; [by apply commit_mutation_ends|..]; [|done..].
    intros. apply transfer_coins_ends.
  - wp_step. apply wp_creation_perms. intros ops _.
    wp_step. apply wp_authorise; [intros _|done]. wp_step. apply wp_get_balance; [|done].
    intros b Hb. apply check_and_create_balance_ends; [done|]. intros v' Hpay. wp_step.
    eapply wp_mono; [by apply commit_mutation_ends|..]; [|done..].
    intros. wp_step. eapply wp_mono; [apply transfer_coins_ends|..]; [|done..].
    intros. by repeat wp_step.
Qed.

Lemma handle_CreateLoginPacket_answers p pk opk v :
  answers (handle_CreateLoginPacket p pk opk) v.
Proof.
  apply respond_answers. wp_step. apply wp_authorise; [|done]. intros Ha. wp_step. wp_step.
  wp_step; [done|]. wp_step. apply wp_get_balance; [|done]. intros b Hb.
  do 2 wp_step. destruct COST_OF_PUT_spec as (cost & Hc & H1). rewrite Hc. do 2 wp_step.
  destruct (has_sufficient_balance _ _ _) eqn:Hsuf; simpl; [|done]. wp_step.
  eapply wp_mono; [apply commit_mutation_ends|done..].
  apply sufficient_spec in Hsuf as [Hun|Hle]; [by left|]. right. exists b. split; [done|lia].
Qed.

Lemma commit_adata_ends r id d v :
  can_pay (public_id_name r) v -> ends (commit_adata r id d) v.
Proof.
  intros Hpay. unfold commit_adata. wp_step.
  by eapply wp_mono; [apply commit_mutation_ends|..].
Qed.

Lemma update_mdata_ends r id d v :
  can_pay (public_id_name r) v ->
  ends (insert_data id d ;! commit_mutation (public_id_name r)) v.
Proof. intros Hpay. unfold insert_data. do 2 wp_step. by apply commit_mutation_ends. Qed.

Ltac ends_step :=
  match goal with
  | |- wp (get_idata _) _ _ _ _ => apply wp_get_idata; [intros ? ?|done]
  | |- wp (get_mdata _ _ _) _ _ _ _ => apply wp_get_mdata; [intros ? ? ?|done]
  | |- wp (get_mdata_at _ _ _) _ _ _ _ => apply wp_get_mdata_at; [intros ? ? ? ?|done]
  | |- wp (get_adata _ _ _) _ _ _ _ => apply wp_get_adata; [intros ? ? ?|done]
  | |- wp (get_balance _) _ _ _ _ => apply wp_get_balance; [intros ? ?|done]
  | |- wp (authorise_operations _ _ _) _ _ _ _ => apply wp_authorise; [intros ?|done]
  | |- wp (transfer_coins _ _ _ _) _ _ _ _ => apply transfer_coins_ends
  | |- wp (put_data _ _ _) _ _ _ _ => apply put_data_ends
  | |- wp (insert_data _ _ ;! _) _ _ _ _ => by apply update_mdata_ends
  | |- wp (commit_adata _ _ _) _ _ _ _ => by apply commit_adata_ends
  | |- wp (modify _) _ _ _ _ => apply wp_modify
  | |- wp (if decide ?P then _ else _) _ _ _ _ => destruct (decide P)
  | |- _ => wp_step
  end.

Lemma dispatch_answers r pk opk req v :
  can_pay (public_id_name r) v -> answers (dispatch r pk opk req) v.
Proof.
  intros Hpay. destruct (auth_keys_end (public_id_name r) v) as (Hl & Hi & Hdel).
  destruct (create_balances_answer pk opk v) as [Hb Hlp].
  destruct req; simpl; auto using handle_CreateLoginPacket_answers; apply respond_answers;
    unfold delete_idata, insert_login_packet, delete_data; repeat (ends_step; try done).
Qed.

Lemma authenticate_request_ends r req mid sig v : ends (authenticate_request r req mid sig) v.
Proof. unfold authenticate_request. by repeat wp_step. Qed.

(** C37: the vault answers.  A requester that can pay the fee of a mutation
    gets a response to every request, of the same message identifier: no
    [unwrap!] of the vault fails. *)
Theorem process_request_total r req mid sig v :
  can_pay (public_id_name r) v ->
  exists resp v', process_request r (MsgRequest req mid sig) v = Ret (MsgResponse resp mid) v'.
Proof.
  intros Hpay.
  assert (wp (process_request r (MsgRequest req mid sig))
    (fun m _ => exists resp, m = MsgResponse resp mid) (fun _ _ => False) (fun _ => False) v)
    as (m & v' & Hp & resp & ->)%returns_inv; [|eauto].
  unfold process_request. wp_step. apply wp_attempt.
  apply wp_check; [auto with readonly|apply authenticate_request_ends| |].
  - intros [pk opk] _. wp_step.
    eapply wp_mono; [by apply dispatch_answers|..]; [|done..]. intros resp v' _. wp_step. eauto.
  - intros e. wp_step. eauto.
Qed.

(** Without that nano, changing one's own data panics the vault.  The
    client may change the entries, the change is stored, and then the payment
    that "cannot fail" does. *)
Theorem unpaid_mutation_panics c a acts d d' mid s v :
  let pk := client_public_key c in
  let req := MutateMDataEntries a acts in
  ~ can_pay (public_id_name (PClient c)) v ->
  nae_manager (cache v) !! DMutable a = Some (Mutable d) -> mdata_address d = a ->
  mdata_mutate_entries d acts pk = Ok d' -> verify_signature s pk req mid = Ok tt ->
  process_request (PClient c) (MsgRequest req mid (Some s)) v =
    Panic (put_data_at (DMutable a) (Mutable d') v).
Proof.
  intros pk req Hpay Hd <- Hmut Hs. unfold process_request, bind at 1, attempt.
  rewrite (authenticate_request_ok _ _ _ _ _ _ _ (client_keys c) I Hs). simpl.
  unfold handle_MutateMDataEntries, respond, get_mdata_at, get_mdata, get_data.
  unfold bind, attempt, gets. rewrite Hd. simpl. rewrite decide_True by done. simpl.
  fold pk. rewrite Hmut. simpl.
  assert (unlimited_coins (vault_config v) = false) as Hlim.
  { destruct (unlimited_coins _) eqn:E; [|done]. destruct Hpay. left. unfold limited. congruence. }
  unfold commit_mutation, bind, gets, get_coin_balance_mut, or_else. simpl. rewrite Hlim. simpl.
  destruct COST_OF_PUT_spec as (cost & Hc & H1). rewrite Hc. simpl.
  destruct (coin_balances _ !! _) as [b|] eqn:Hb; [|done].
  rewrite debit_balance_eq. destruct (checked_sub _ _) as [c'|] eqn:Hc'.
  - destruct Hpay. right. exists b. split; [done|]. apply checked_sub_Some in Hc'.
    pose proof (as_nano_range c'). lia.
  - simpl. do 2 f_equal. by apply (put_balance_id _ b (put_data_at _ _ v)).
Qed.
End totality.

(** * The theorems at work *)

Example process_request_total_witness :
  exists resp v', process_request alice ex_transfer ex_vault = Ret (MsgResponse resp ex_mid) v'.
Proof.
  apply (process_request_total alice _ ex_mid (Some (ex_sig 1)) ex_vault).
  right. exists (ex_balance 1 100). split; [vm_refl|by vm_compute].
Defined.

Definition ex_actions : MDataEntryActions :=
  ActSeq ({[ [5%Z] := Ins {| seq_data := [6%Z]; seq_version := 0 |} ]} : MDataSeqEntryActions).
Definition ex_mdata_mutated : MData := MDSeq {| md_name := ex_name 51; md_tag := 15000;
  md_entries := {[ [5%Z] := {| seq_data := [6%Z]; seq_version := 0 |} ]};
  md_perms := ∅; md_version := 0; md_owner := 3 |}.

Example unpaid_mutation_panics_witness :
  process_request broke (signed 3 (MutateMDataEntries (MSeq (ex_name 51) 15000) ex_actions))
    ex_vault =
  Panic (put_data_at (DMutable (MSeq (ex_name 51) 15000)) (Mutable ex_mdata_mutated) ex_vault).
Proof.
  apply (unpaid_mutation_panics (ex_client 3) (MSeq (ex_name 51) 15000) ex_actions
    ex_mdata_broke ex_mdata_mutated ex_mid (ex_sig 3) ex_vault).
  - intros [Hl|(b & Hb & Hle)]; [by apply Hl, ex_vault_limited|].
    assert (Some b = Some (ex_balance 3 0)) as [= ->] by (rewrite <-Hb; vm_refl).
    vm_compute in Hle. by apply Hle.
  - vm_refl.
  - vm_refl.
  - vm_refl.
  - vm_refl.
Defined.
