(* ===== verification/MockVaultAccess.v ===== *)
(** Reads, authorised keys and app permissions of the mock vault. *)
From stdpp Require Import relations.
From S2P Require Import Prelude SafeNd SafeNdModel MockAccount MockVault.
From S2P Require Import MockVaultRequests MockVaultProcess MockVaultSpec MockVaultRefine.
From S2P Require Import MockVaultSafety MockVaultBehaviour.

Section access.
Context `{ndt : !NdTypes, ndo : !NdOps, ndl : !NdLaws, host : !Host}.

(** * Reads *)

Lemma get_idata_readonly a : readonly (get_idata a).
Proof. unfold get_idata. readonly_tac. Qed.
Lemma get_mdata_readonly a pk req : readonly (get_mdata a pk req).
Proof. unfold get_mdata. readonly_tac. Qed.
Lemma get_mdata_at_readonly a pk req : readonly (get_mdata_at a pk req).
Proof. unfold get_mdata_at, get_mdata. readonly_tac. Qed.
Lemma get_adata_readonly a pk req : readonly (get_adata a pk req).
Proof. unfold get_adata. readonly_tac. Qed.
Hint Resolve get_idata_readonly get_mdata_readonly get_mdata_at_readonly get_adata_readonly
  : readonly.

(** An account is created on the first listing of its keys. *)
Definition account_listed (n : XorName) (v : Vault) : Vault :=
  match client_manager (cache v) !! n with
  | Some _ => v
  | None => put_account n (Account_new (vault_config v)) v
  end.

Lemma list_auth_keys_final n v :
  final (list_auth_keys_and_version n v) = account_listed n v.
Proof.
  unfold list_auth_keys_and_version, ensure_account, account_listed, get_account, bind, gets.
  destruct (client_manager _ !! n) as [a|] eqn:Ha; simpl.
  - by rewrite Ha.
  - by rewrite lookup_insert_eq.
Qed.

Lemma dispatch_get_readonly r pk opk req :
  is_get req = true -> req <> ListAuthKeysAndVersion -> readonly (dispatch r pk opk req).
Proof.
  intros Hg Hl. destruct req; simpl in Hg; simplify_eq; simpl;
    unfold handle_GetIData, handle_GetBalance, handle_GetLoginPacket, handle_GetMData,
      handle_GetMDataValue, handle_GetMDataShell,
      handle_GetMDataVersion, handle_ListMDataEntries, handle_ListMDataKeys,
      handle_ListMDataValues, handle_ListMDataUserPermissions, handle_ListMDataPermissions,
      handle_GetAData, handle_GetADataShell, handle_GetADataRange, handle_GetADataValue,
      handle_GetADataIndices, handle_GetADataLastEntry, handle_GetADataPermissions,
      handle_GetPubADataUserPermissions, handle_GetUnpubADataUserPermissions,
      handle_GetADataOwners, respond; readonly_tac.
Qed.

(** The vault is left as it was, or as the handler leaves it. *)
Lemma process_request_final r req mid sig v :
  let o := process_request r (MsgRequest req mid sig) v in
  final o = v \/ exists pk opk, final o = final (dispatch r pk opk req v).
Proof.
  simpl. pose proof (authenticate_request_readonly r req mid sig v) as Hro.
  unfold process_request. unfold bind, attempt, ret in *.
  destruct (authenticate_request r req mid sig v) as [[pk opk] v1|e v1|v1|v1];
    simpl in Hro; subst; simpl; auto.
  right. exists pk, opk. by destruct (dispatch r pk opk req v).
Qed.

(** Reading changes nothing.  A request that fetches leaves the vault as
    it was, whatever its outcome; listing the authorised keys is the one that
    may write, and all it writes is the empty account of a client that had
    none. *)
Theorem get_requests_readonly r req mid sig v :
  is_get req = true ->
  let v' := final (process_request r (MsgRequest req mid sig) v) in
  v' = v \/ (req = ListAuthKeysAndVersion /\ v' = account_listed (public_id_name r) v).
Proof.
  intros Hg v'. destruct (process_request_final r req mid sig v) as [Hf|(pk & opk & Hf)];
    [by left|]. subst v'. rewrite Hf.
  destruct req; try (left; by apply dispatch_get_readonly). simpl.
  unfold handle_ListAuthKeysAndVersion, respond. case_decide; [right|by left].
  split; [done|]. rewrite <-list_auth_keys_final. unfold bind, attempt.
  by destruct (list_auth_keys_and_version _ v).
Qed.

(** * Authorised keys *)

Definition account_of (n : XorName) (v : Vault) : Account :=
  default (Account_new (vault_config v)) (client_manager (cache v) !! n).

Lemma account_update_eq n (m : M Account SndError unit) v :
  (ensure_account n ;! get_account_mut n m panic) v =
  match m (account_of n v) with
  | Ret x a => Ret x (put_account n a v)
  | Fail e a => Fail e (put_account n a v)
  | Panic a => Panic (put_account n a v)
  | Pending a => Pending (put_account n a v)
  end.
Proof.
  unfold ensure_account, get_account_mut, insert_account, get_account, account_of, bind, gets,
    modify, ret.
  destruct (client_manager _ !! n) as [a|] eqn:Ha; simpl; rewrite ?Ha; [done|].
  rewrite lookup_insert_eq. unfold put_account, set_client_manager, set_cache. simpl.
  destruct (m _); by rewrite insert_insert_eq.
Qed.

Lemma client_request_eq c req mid s v :
  verify_signature s (client_public_key c) req mid = Ok tt ->
  process_request (PClient c) (MsgRequest req mid (Some s)) v =
  (let! resp := dispatch (PClient c) (client_public_key c) (client_public_key c) req in
   ret (MsgResponse resp mid)) v.
Proof.
  intros Hs. unfold process_request, bind at 1, attempt.
  by rewrite (authenticate_request_ok _ _ _ _ _ _ _ (client_keys c) I Hs).
Qed.

Lemma ins_auth_key_dispatch c key perms ver v :
  let n := public_id_name (PClient c) in
  dispatch (PClient c) (client_public_key c) (client_public_key c) (InsAuthKey key perms ver) v =
  if decide (ver = u64_add (version (account_of n v)) 1) then
    Ret (RMutation (Ok tt))
      (put_account n {| auth_keys := <[key := perms]> (auth_keys (account_of n v));
                        version := ver; config := config (account_of n v) |} v)
  else Ret (RMutation (Err (InvalidSuccessor (version (account_of n v)))))
         (put_account n (account_of n v) v).
Proof.
  intros n. simpl. unfold handle_InsAuthKey, respond. rewrite decide_True by done.
  unfold bind, attempt. unfold vault_ins_auth_key. fold n.
  rewrite account_update_eq, ins_auth_key_eq. by case_decide.
Qed.

Lemma ins_auth_key_request c key perms ver mid s v :
  let n := public_id_name (PClient c) in
  let req := InsAuthKey key perms ver in
  verify_signature s (client_public_key c) req mid = Ok tt ->
  process_request (PClient c) (MsgRequest req mid (Some s)) v =
  if decide (ver = u64_add (version (account_of n v)) 1) then
    Ret (MsgResponse (RMutation (Ok tt)) mid)
      (put_account n {| auth_keys := <[key := perms]> (auth_keys (account_of n v));
                        version := ver; config := config (account_of n v) |} v)
  else Ret (MsgResponse (RMutation (Err (InvalidSuccessor (version (account_of n v))))) mid)
         (put_account n (account_of n v) v).
Proof.
  intros n req Hs. rewrite client_request_eq by done. unfold bind, req.
  rewrite ins_auth_key_dispatch. fold n. by case_decide.
Qed.

Lemma del_auth_key_request c key ver mid s v :
  let n := public_id_name (PClient c) in
  let req := DelAuthKey key ver in
  verify_signature s (client_public_key c) req mid = Ok tt ->
  ver = u64_add (version (account_of n v)) 1 ->
  is_Some (auth_keys (account_of n v) !! key) ->
  process_request (PClient c) (MsgRequest req mid (Some s)) v =
    Ret (MsgResponse (RMutation (Ok tt)) mid)
      (put_account n {| auth_keys := delete key (auth_keys (account_of n v));
                        version := ver; config := config (account_of n v) |} v).
Proof.
  intros n req Hs Hver [p Hp]. rewrite client_request_eq by done. simpl.
  unfold handle_DelAuthKey, respond. rewrite decide_True by done.
  unfold bind at 1 2, attempt. unfold vault_del_auth_key. fold n.
  by rewrite account_update_eq, del_auth_key_eq, decide_True, Hp by done.
Qed.

Lemma u64_succ_neq x : u64_add x 1 <> x.
Proof.
  unfold u64_add, u64_modulus. intros H.
  pose proof (Z.mod_pos_bound (x + 1) 18446744073709551616 ltac:(lia)).
  rewrite Z.mod_eq in H by lia. lia.
Qed.

Lemma account_of_put n a v : account_of n (put_account n a v) = a.
Proof. unfold account_of. simpl. by rewrite lookup_insert_eq. Qed.

(** Authorising an app is a compare-and-swap on the account's version.
    A client's request with the next version authorises the app with those
    permissions; a replay of that request is refused and changes nothing; and
    a revocation with the version after that leaves the app unauthorised. *)
Theorem auth_key_lifecycle c app perms ver mid s mid' s' v :
  let n := public_id_name (PClient c) in
  let key := app_public_key app in
  let insert := MsgRequest (InsAuthKey key perms ver) mid (Some s) in
  let revoke := MsgRequest (DelAuthKey key (u64_add ver 1)) mid' (Some s') in
  app_owner app = c -> ver = u64_add (version (account_of n v)) 1 ->
  verify_signature s (client_public_key c) (InsAuthKey key perms ver) mid = Ok tt ->
  verify_signature s' (client_public_key c) (DelAuthKey key (u64_add ver 1)) mid' = Ok tt ->
  exists v1 v2,
    process_request (PClient c) insert v = Ret (MsgResponse (RMutation (Ok tt)) mid) v1 /\
    authorised (PApp app) key v1 /\ auth_keys (account_of n v1) !! key = Some perms /\
    process_request (PClient c) insert v1 =
      Ret (MsgResponse (RMutation (Err (InvalidSuccessor ver))) mid) v1 /\
    process_request (PClient c) revoke v1 = Ret (MsgResponse (RMutation (Ok tt)) mid') v2 /\
    ~ authorised (PApp app) key v2.
Proof.
  intros n key insert revoke Howner Hver Hs Hs'.
  assert (public_id_name (PApp app) = n) as Hn.
  { unfold n. rewrite public_id_name_app, app_owner_name_spec, Howner, <-public_id_name_client.
    done. }
  set (acc := {| auth_keys := <[key := perms]> (auth_keys (account_of n v));
                 version := ver; config := config (account_of n v) |}).
  set (v1 := put_account n acc v).
  assert (account_of n v1 = acc) as Hacc by apply account_of_put.
  set (acc2 := {| auth_keys := delete key (auth_keys acc);
                  version := u64_add ver 1; config := config acc |}).
  exists v1, (put_account n acc2 v1). split_and!.
  - unfold insert. by rewrite ins_auth_key_request, decide_True by done.
  - exists acc. rewrite Hn. split; [|simpl; by rewrite lookup_insert_eq].
    simpl. by rewrite lookup_insert_eq.
  - rewrite Hacc. simpl. by rewrite lookup_insert_eq.
  - unfold insert. rewrite ins_auth_key_request by done. fold n. rewrite Hacc. simpl.
    rewrite decide_False by (apply not_eq_sym, u64_succ_neq). f_equal.
    apply put_account_id. simpl. by rewrite lookup_insert_eq.
  - unfold revoke. rewrite del_auth_key_request; fold n; rewrite ?Hacc; [done..|].
    simpl. rewrite lookup_insert_eq. eauto.
  - intros (a & Ha & Hk). rewrite Hn in Ha. simpl in Ha. rewrite lookup_insert_eq in Ha.
    simplify_eq. simpl in Hk. rewrite lookup_delete_eq in Hk. by destruct Hk.
Qed.

(** * App permissions *)

Lemma app_request_eq app req mid s v :
  authorised (PApp app) (app_public_key app) v ->
  verify_signature s (app_public_key app) req mid = Ok tt ->
  process_request (PApp app) (MsgRequest req mid (Some s)) v =
  (let! resp := dispatch (PApp app) (app_public_key app) (client_public_key (app_owner app)) req in
   ret (MsgResponse resp mid)) v.
Proof.
  intros Ha Hs. unfold process_request, bind at 1, attempt.
  by rewrite (authenticate_request_ok (PApp app) _ _ _ _ _ (client_public_key (app_owner app))
    (conj eq_refl eq_refl) Ha Hs).
Qed.

Lemma app_xor_name app :
  xor_name_from (client_public_key (app_owner app)) = public_id_name (PApp app).
Proof. by rewrite public_id_name_app, app_owner_name_spec, client_name_spec. Qed.

Lemma respond_request {A} (m : M Vault SndError A) (wrap : SndResult A -> Response) mid v
    (P : Response -> Vault -> Prop) :
  wp m (fun a => P (wrap (Ok a))) (fun _ _ => False) (fun _ => False) v ->
  exists resp v', (let! resp := respond wrap m in ret (MsgResponse resp mid)) v =
    (Ret (MsgResponse resp mid) v' : outcome Vault SndError Message) /\ P resp v'.
Proof. unfold wp, respond, bind, attempt, ret. destruct (m v); [eauto|done..]. Qed.

Lemma creation_perms_nonzero amt v :
  as_nano amt <> 0%Z -> creation_perms amt v = Ret [OpMutation] v.
Proof.
  intros Hne. destruct from_str_zero as (z & Hz & Hz0). unfold creation_perms, bind.
  rewrite Hz. simpl. unfold ret. rewrite decide_False; [done|]. congruence.
Qed.

(** Paying for a balance of another key: the fee and the amount leave the
    source, the amount arrives. *)
Lemma returns_pay_for_balance src o amt tid b (Q : Transaction -> Vault -> Prop) v :
  let dst := xor_name_from o in
  limited v -> src <> dst -> coin_balances (cache v) !! src = Some b ->
  coin_balances (cache v) !! dst = None -> (as_nano amt + 1 <= as_nano (value b))%Z ->
  (forall b1 b' v1, coin_balances (cache v1) =
     <[dst := b']> (<[src := b1]> (coin_balances (cache v))) ->
     owner b' = o -> value b' = amt ->
     as_nano (value b1) = (as_nano (value b) - as_nano amt - 1)%Z ->
     Q {| tx_id := tid; tx_amount := amt |} v1) ->
  wp (check_and_create_balance src dst o amt (value b) ;! commit_mutation src ;!
      transfer_coins src dst amt tid) Q (fun _ _ => False) (fun _ => False) v.
Proof.
  intros dst Hlim Hne Hb Hnew Hle HQ. destruct COST_OF_PUT_spec as (cost & Hc & H1).
  pose proof (as_nano_range (value b)). pose proof (as_nano_range amt).
  destruct (from_nano_ok 0) as (zero & Hz & Hz0); [pose proof max_nano_pos; lia|].
  unfold check_and_create_balance. do 3 wp_step. rewrite Hc. do 2 wp_step.
  destruct (checked_add amt cost) as [total|] eqn:Htot;
    [apply checked_add_Some in Htot|apply checked_add_None in Htot; lia].
  do 2 wp_step. rewrite (proj2 (sufficient_spec (value b) total v)) by (right; lia). simpl.
  unfold create_balance, get_coin_balance. do 2 wp_step. rewrite Hnew. do 2 wp_step.
  rewrite Hz. wp_step. wp_step. apply returns_commit_mutation.
  - right. exists b. simpl. rewrite lookup_insert_ne by done. split; [done|lia].
  - done.
  - intros b0 b1 _ Hb0 (Ho & Hcr & Hv). simpl in Hb0.
    rewrite lookup_insert_ne in Hb0 by done. simplify_eq.
    destruct (checked_sub_is_Some (value b1) amt) as [c1 Hc1]; [lia|].
    destruct (checked_add zero amt) as [c2|] eqn:Hc2;
      [|apply checked_add_None in Hc2; lia].
    assert (c2 = amt) as -> by (apply as_nano_inj; apply checked_add_Some in Hc2; lia).
    unfold wp.
    rewrite (transfer_coins_eq src dst amt tid _ b1 (CoinBalance_new zero o) c1 amt);
      [|done|done|..|done|done].
    + eapply HQ.
      * simpl. by rewrite insert_insert_eq, (insert_insert_ne _ src dst), insert_insert_eq.
      * done.
      * done.
      * simpl. apply checked_sub_Some in Hc1. lia.
    + simpl. by rewrite lookup_insert_eq.
    + simpl. rewrite lookup_insert_ne by done. by rewrite lookup_insert_eq.
Qed.

(** C38: the permission to transfer coins can be bypassed.  An app that may
    perform mutations but not transfer coins is refused a transfer; and yet,
    asking for the creation of a balance, it moves any positive amount its
    owner can afford to a new balance of whatever key it likes. *)
Theorem transfer_permission_bypass app acc perms o amt tid b mid s mid' s' v :
  let n := public_id_name (PApp app) in
  let dst := xor_name_from o in
  let pk := app_public_key app in
  limited v -> n <> xor_name_from pk -> n <> dst ->
  client_manager (cache v) !! n = Some acc -> auth_keys acc !! pk = Some perms ->
  perform_mutations perms = true -> transfer_coins_perm perms = false ->
  coin_balances (cache v) !! n = Some b -> coin_balances (cache v) !! dst = None ->
  (0 < as_nano amt)%Z -> (as_nano amt + 1 <= as_nano (value b))%Z ->
  verify_signature s pk (TransferCoins dst amt tid) mid = Ok tt ->
  verify_signature s' pk (CreateBalance o amt tid) mid' = Ok tt ->
  process_request (PApp app) (MsgRequest (TransferCoins dst amt tid) mid (Some s)) v =
    Ret (MsgResponse (RTransaction (Err AccessDenied)) mid) v /\
  exists v' b', process_request (PApp app) (MsgRequest (CreateBalance o amt tid) mid' (Some s')) v =
      Ret (MsgResponse (RTransaction (Ok {| tx_id := tid; tx_amount := amt |})) mid') v' /\
    coin_balances (cache v') !! dst = Some b' /\ owner b' = o /\ value b' = amt.
Proof.
  intros n dst pk Hlim Hpk Hdst Hacc Hperms Hmut Htr Hb Hnew Hpos Hle Hs Hs'.
  assert (authorised (PApp app) pk v) as Hauth by (exists acc; eauto).
  rewrite !app_request_eq by done. simpl. split.
  - unfold handle_TransferCoins, respond. rewrite app_xor_name.
    destruct (as_nano amt =? 0)%Z eqn:Hz; [apply Z.eqb_eq in Hz; lia|].
    unfold authorise_operations, get_balance, get_coin_balance, get_account, bind, attempt,
      gets. cbn beta. fold n pk. rewrite Hb. simpl. rewrite decide_False by done. rewrite Hacc. simpl.
    rewrite Hperms. simpl. by rewrite Htr.
  - unfold handle_CreateBalance. rewrite app_xor_name. fold n. rewrite decide_False by done.
    match goal with |- context [respond RTransaction ?m] => set (body := m) end.
    destruct (respond_request body RTransaction mid' v (fun resp v' =>
      resp = RTransaction (Ok {| tx_id := tid; tx_amount := amt |}) /\
      exists b', coin_balances (cache v') !! dst = Some b' /\ owner b' = o /\ value b' = amt))
      as (resp & v' & -> & -> & b' & Hb'); [|by exists v', b'].
    subst body. wp_step. unfold wp at 1. rewrite creation_perms_nonzero by lia.
    wp_step. unfold wp at 1. fold pk.
    rewrite (proj2 (authorise_operations_spec [OpMutation] n pk v ltac:(done))).
    2: { exists b. split; [done|]. constructor; [|constructor].
         split; [right; exists acc, perms; done|intros _; right; lia]. }
    wp_step. unfold wp at 1, get_balance, get_coin_balance, bind at 1, gets. rewrite Hb.
    apply returns_pay_for_balance; try done. intros b1 b' v1 -> Ho Hv _. split; [done|].
    exists b'. by rewrite lookup_insert_eq.
Qed.
End access.

(** * The theorems at work *)

Example get_requests_readonly_witness :
  let v' := final (process_request bob (signed 2 ListAuthKeysAndVersion) ex_vault) in
  v' = ex_vault \/
  (ListAuthKeysAndVersion = ListAuthKeysAndVersion /\ v' = account_listed (ex_name 2) ex_vault).
Proof. exact (get_requests_readonly bob ListAuthKeysAndVersion ex_mid (Some (ex_sig 2)) ex_vault eq_refl). Defined.

Definition ex_app : AppPublicId := ((8, 1)%Z : AppPublicId).

Example auth_key_lifecycle_witness :
  let insert := signed 1 (InsAuthKey (app_public_key ex_app) ex_perms 2) in
  let revoke := signed 1 (DelAuthKey (app_public_key ex_app) (u64_add 2 1)) in
  exists v1 v2,
    process_request alice insert ex_vault = Ret (MsgResponse (RMutation (Ok tt)) ex_mid) v1 /\
    authorised (PApp ex_app) (app_public_key ex_app) v1 /\
    auth_keys (account_of (public_id_name alice) v1) !! app_public_key ex_app = Some ex_perms /\
    process_request alice insert v1 =
      Ret (MsgResponse (RMutation (Err (InvalidSuccessor 2))) ex_mid) v1 /\
    process_request alice revoke v1 = Ret (MsgResponse (RMutation (Ok tt)) ex_mid) v2 /\
    ~ authorised (PApp ex_app) (app_public_key ex_app) v2.
Proof.
  apply (auth_key_lifecycle (ex_client 1) ex_app ex_perms 2 ex_mid (ex_sig 1) ex_mid (ex_sig 1)
    ex_vault).
  - reflexivity.
  - vm_refl.
  - vm_refl.
  - vm_refl.
Defined.

Definition ex_alice_account : Account :=
  {| auth_keys := {[ ex_key 7 := ex_perms ]}; version := 1; config := ex_config |}.
Definition ex_app7 : AppPublicId := ((7, 1)%Z : AppPublicId).

Example transfer_permission_bypass_witness :
  process_request alice_app (signed 7 (TransferCoins (xor_name_from (ex_key 4)) (ex_coins 50) 77)) ex_vault =
    Ret (MsgResponse (RTransaction (Err AccessDenied)) ex_mid) ex_vault /\
  exists v' b',
    process_request alice_app (signed 7 (CreateBalance (ex_key 4) (ex_coins 50) 77)) ex_vault =
      Ret (MsgResponse (RTransaction (Ok {| tx_id := 77; tx_amount := ex_coins 50 |})) ex_mid) v' /\
    coin_balances (cache v') !! xor_name_from (ex_key 4) = Some b' /\ owner b' = ex_key 4 /\
    value b' = ex_coins 50.
Proof.
  apply (transfer_permission_bypass ex_app7 ex_alice_account ex_perms (ex_key 4) (ex_coins 50) 77
    (ex_balance 1 100) ex_mid (ex_sig 7) ex_mid (ex_sig 7) ex_vault).
  all: first [discriminate | exact ex_vault_limited | vm_refl | by vm_compute].
Defined.
