(* ===== verification/CoreTypes.v ===== *)
(** Errors and identities of [safe_core] ([errors.rs], [client/id.rs]), and the
    crates they are built on.

    [CoreExt] holds the types and functions of [bincode], of the key types of
    [safe_nd] and of the other crates whose errors [CoreError] wraps;
    [CoreExtLaws] holds what is relied upon: what a key signs, the vault's
    [verify_signature] accepts under the corresponding public key. *)
From S2P Require Import Prelude SafeNd SafeNdModel MockAccount.

Class CoreExt `{!NdTypes} := {
  ClientFullId : Type;
  AppFullId : Type;
  client_full_public_id : ClientFullId -> ClientPublicId;
  app_full_public_id : AppFullId -> AppPublicId;
  client_sign : ClientFullId -> bytes -> Signature;
  app_sign : AppFullId -> bytes -> Signature;
  SerialisationError : Type;
  SelfEncryptionError : Type;
  JsonError : Type;
  IoErrorT : Type;
  QuicP2pError : Type;
  (** [serde_json::Error::classify() == Category::Io], and the conversion. *)
  json_error_io : JsonError -> option IoErrorT;
  (** [bincode::serialize(&(&request, message_id))]. *)
  serialize_request : Request -> MessageId -> result bytes SerialisationError;
}.

(** The texts of errors of other crates: [Display], [Debug] and [description]; and
    [Debug] of a string, which escapes what is not printable. *)
Class CoreTexts `{!NdTypes, !CoreExt} := {
  str_debug : string -> string;
  snd_display : SndError -> string;
  snd_debug : SndError -> string;
  snd_description : SndError -> string;
  serialisation_display : SerialisationError -> string;
  serialisation_debug : SerialisationError -> string;
  self_encryption_display : SelfEncryptionError -> string;
  self_encryption_debug : SelfEncryptionError -> string;
  self_encryption_description : SelfEncryptionError -> string;
  json_display : JsonError -> string;
  json_debug : JsonError -> string;
  json_description : JsonError -> string;
  io_display : IoErrorT -> string;
  io_debug : IoErrorT -> string;
  io_description : IoErrorT -> string;
  quic_display : QuicP2pError -> string;
  quic_debug : QuicP2pError -> string;
  quic_description : QuicP2pError -> string;
}.

Section core_error.
Context `{ndt : !NdTypes, core : !CoreExt}.

Inductive CoreError :=
| EncodeDecodeError (e : SerialisationError)
| AsymmetricDecipherFailure
| SymmetricDecipherFailure
| ReceivedUnexpectedData
| ReceivedUnexpectedEvent
| VersionCacheMiss
| RootDirectoryExists
| RandomDataGenerationFailure
| OperationForbidden
| Unexpected (msg : string)
| DataError (e : SndError)
| UnsupportedSaltSizeForPwHash
| UnsuccessfulPwHash
| OperationAborted
| SelfEncryption (e : SelfEncryptionError)
| RequestTimeout
| ConfigError (e : JsonError)
| IoError (e : IoErrorT)
| QuicP2p (e : QuicP2pError).

(** [From<serde_json::error::Error> for CoreError]. *)
Definition core_error_from_json (error : JsonError) : CoreError :=
  match json_error_io error with
  | Some io => IoError io
  | None => ConfigError error
  end.

(** [StdError::description], [Debug] and [Display] of [CoreError]. *)
Section texts.
Context `{txt : !CoreTexts}.

Definition core_error_description (e : CoreError) : string :=
  match e with
  | EncodeDecodeError _ => "Serialisation error"
  | AsymmetricDecipherFailure => "Asymmetric decryption failure"
  | SymmetricDecipherFailure => "Symmetric decryption failure"
  | ReceivedUnexpectedData => "Received unexpected data"
  | ReceivedUnexpectedEvent => "Received unexpected event"
  | VersionCacheMiss => "Version cache miss"
  | RootDirectoryExists => "Root directory already exists"
  | RandomDataGenerationFailure => "Cannot obtain RNG"
  | OperationForbidden => "Operation forbidden"
  | Unexpected _ => "Unexpected error"
  | DataError error => snd_description error
  | UnsupportedSaltSizeForPwHash => "Unsupported size of salt"
  | UnsuccessfulPwHash => "Failed while password hashing"
  | OperationAborted => "Operation aborted"
  | SelfEncryption error => self_encryption_description error
  | RequestTimeout => "Request has timed out"
  | ConfigError error => json_description error
  | IoError error => io_description error
  | QuicP2p error => quic_description error
  end.

Definition core_error_debug (e : CoreError) : string :=
  core_error_description e +:+ " - " +:+
  match e with
  | EncodeDecodeError error => "CoreError::EncodeDecodeError -> " +:+ serialisation_debug error
  | AsymmetricDecipherFailure => "CoreError::AsymmetricDecipherFailure"
  | SymmetricDecipherFailure => "CoreError::SymmetricDecipherFailure"
  | ReceivedUnexpectedData => "CoreError::ReceivedUnexpectedData"
  | ReceivedUnexpectedEvent => "CoreError::ReceivedUnexpectedEvent"
  | VersionCacheMiss => "CoreError::VersionCacheMiss"
  | RootDirectoryExists => "CoreError::RootDirectoryExists"
  | RandomDataGenerationFailure => "CoreError::RandomDataGenerationFailure"
  | OperationForbidden => "CoreError::OperationForbidden"
  | Unexpected error => "CoreError::Unexpected::{" +:+ str_debug error +:+ "}"
  | DataError error => "CoreError::DataError -> " +:+ snd_debug error
  | UnsupportedSaltSizeForPwHash => "CoreError::UnsupportedSaltSizeForPwHash"
  | UnsuccessfulPwHash => "CoreError::UnsuccessfulPwHash"
  | OperationAborted => "CoreError::OperationAborted"
  | SelfEncryption error => "CoreError::SelfEncryption -> " +:+ self_encryption_debug error
  | RequestTimeout => "CoreError::RequestTimeout"
  | ConfigError error => "CoreError::ConfigError -> " +:+ json_debug error
  | IoError error => "CoreError::IoError -> " +:+ io_debug error
  | QuicP2p error => "CoreError::QuicP2p -> " +:+ quic_debug error
  end.

Definition core_error_display (e : CoreError) : string :=
  match e with
  | EncodeDecodeError error => "Error while serialising/deserialising: " +:+ serialisation_display error
  | AsymmetricDecipherFailure => "Asymmetric decryption failed"
  | SymmetricDecipherFailure => "Symmetric decryption failed"
  | ReceivedUnexpectedData => "Received unexpected data"
  | ReceivedUnexpectedEvent => "Received unexpected event"
  | VersionCacheMiss => "No such data found in local version cache"
  | RootDirectoryExists => "Cannot overwrite a root directory if it already exists"
  | RandomDataGenerationFailure => "Unable to obtain generator for random data"
  | OperationForbidden => "Forbidden operation requested"
  | Unexpected error => "Unexpected: " +:+ error
  | DataError error => "Data error -> " +:+ snd_display error
  | UnsupportedSaltSizeForPwHash => "Unable to pack into or operate with size of Salt"
  | UnsuccessfulPwHash => "Unable to complete computation for password hashing"
  | OperationAborted => "Blocking operation was cancelled"
  | SelfEncryption error => "Self-encryption error: " +:+ self_encryption_display error
  | RequestTimeout => "RequestTimeout"
  | ConfigError error => "Config file error: " +:+ json_display error
  | IoError error => "Io error: " +:+ io_display error
  | QuicP2p error => "QuicP2P error: " +:+ quic_display error
  end.
End texts.

(** * [SafeKey] *)

Inductive SafeKey := SKApp (id : AppFullId) | SKClient (id : ClientFullId).

Definition safe_key_sign (key : SafeKey) (msg : bytes) : Signature :=
  match key with
  | SKApp app_full_id => app_sign app_full_id msg
  | SKClient client_full_id => client_sign client_full_id msg
  end.

Definition safe_key_public_id (key : SafeKey) : PublicId :=
  match key with
  | SKApp app_full_id => PApp (app_full_public_id app_full_id)
  | SKClient client_full_id => PClient (client_full_public_id client_full_id)
  end.

End core_error.

Definition safe_key_public_key `{!NdTypes, !NdOps, !CoreExt} (key : SafeKey) : PublicKey :=
  match key with
  | SKApp app_full_id => app_public_key (app_full_public_id app_full_id)
  | SKClient client_full_id => client_public_key (client_full_public_id client_full_id)
  end.

Class CoreExtLaws `{!NdTypes, !NdOps, !CoreExt} := {
  serialize_request_ok req mid : exists b, serialize_request req mid = Ok b;
  client_sign_ok id req mid b :
    serialize_request req mid = Ok b ->
    verify_signature (client_sign id b) (client_public_key (client_full_public_id id)) req mid
      = Ok tt;
  app_sign_ok id req mid b :
    serialize_request req mid = Ok b ->
    verify_signature (app_sign id b) (app_public_key (app_full_public_id id)) req mid = Ok tt;
}.

(** A key's public identity is a client's or an app's, never a node's, and a
    signature by the key verifies. *)
Lemma safe_key_sign_ok `{!NdTypes, !NdOps, !CoreExt, !CoreExtLaws} key req mid b :
  serialize_request req mid = Ok b ->
  verify_signature (safe_key_sign key b) (safe_key_public_key key) req mid = Ok tt.
Proof. destruct key; simpl; eauto using app_sign_ok, client_sign_ok. Qed.

(** * A concrete instance *)

#[export] Instance ModelCore : CoreExt := {|
  ClientFullId := Z; AppFullId := Z * Z;
  client_full_public_id i := (i : ClientPublicId);
  app_full_public_id i := (i : AppPublicId);
  client_sign i _ := (i : Signature);
  app_sign i _ := (i.1 : Signature);
  SerialisationError := string; SelfEncryptionError := string; JsonError := string;
  IoErrorT := string; QuicP2pError := string;
  json_error_io _ := None;
  serialize_request _ _ := Ok [];
|}.

#[export] Instance ModelCoreLaws : CoreExtLaws.
Proof.
  split.
  - intros. by exists [].
  - intros id req mid b _. simpl. by rewrite Z.eqb_refl.
  - intros id req mid b _. simpl. by rewrite Z.eqb_refl.
Qed.

(** Short texts. *)
#[export] Instance ModelCoreTexts : CoreTexts := {|
  str_debug s := "'" +:+ s +:+ "'";
  snd_display _ := "refused"; snd_debug _ := "SndError"; snd_description _ := "refused";
  serialisation_display e := e; serialisation_debug e := e;
  self_encryption_display e := e; self_encryption_debug e := e; self_encryption_description e := e;
  json_display e := e; json_debug e := e; json_description e := e;
  io_display e := e; io_debug e := e; io_description e := e;
  quic_display e := e; quic_debug e := e; quic_description e := e;
|}.
