(* ===== verification/ClientApi.v ===== *)
(** The [Client] trait of [safe_core] ([client/mod.rs]): how a client turns a
    call into a signed request, sends it through its connection manager, and
    reads the response; with the cache of immutable data.

    The connection manager is an interface, [Network]: the client's theorems
    hold of any, and [MockConnection] provides the one of the mock network. *)
From S2P Require Import Prelude SafeNd SafeNdModel MockAccount CoreTypes.

(** * What a client needs *)

(** A connection manager with state [W]; [MessageId::new] and [rand::random]
    draw from the same world. *)
Class Network `{!NdTypes, !CoreExt} (W : Type) := {
  cm_send : PublicId -> Message -> M W CoreError Response;
  cm_bootstrap : SafeKey -> M W CoreError unit;
  cm_disconnect : PublicId -> M W CoreError unit;
  new_message_id : M W CoreError MessageId;
  rand_random : M W CoreError Z;
}.

(** The [lru_cache] crate: a map with a capacity, from which entries may be
    dropped by an insertion. *)
Class LruOps := {
  LruCache : Type -> Type -> Type;
  lru_new {K V} `{Countable K} : nat -> LruCache K V;
  lru_get_mut {K V} `{Countable K} : K -> LruCache K V -> option V * LruCache K V;
  lru_insert {K V} `{Countable K} : K -> V -> LruCache K V -> LruCache K V;
  lru_remove {K V} `{Countable K} : K -> LruCache K V -> option V * LruCache K V;
  lru_map {K V} `{Countable K} : LruCache K V -> gmap K V;
}.

Class LruLaws `{!LruOps} := {
  lru_new_spec {K V} `{Countable K} (capacity : nat) :
    lru_map (lru_new capacity : LruCache K V) = ∅;
  lru_get_mut_spec {K V} `{Countable K} (k : K) (c : LruCache K V) :
    (lru_get_mut k c).1 = lru_map c !! k /\ lru_map (lru_get_mut k c).2 = lru_map c;
  lru_insert_spec {K V} `{Countable K} (k : K) (v : V) (c : LruCache K V) :
    lru_map (lru_insert k v c) ⊆ <[k := v]> (lru_map c);
  lru_remove_spec {K V} `{Countable K} (k : K) (c : LruCache K V) :
    lru_map (lru_remove k c).2 = delete k (lru_map c);
}.

#[export] Instance ModelLru : LruOps := {|
  LruCache K V := list (K * V);
  lru_new K V _ _ _ := [];
  lru_get_mut K V _ _ k c :=
    match (list_to_map c : gmap K V) !! k with
    | Some v => (Some v, (k, v) :: c)
    | None => (None, c)
    end;
  lru_insert K V _ _ k v c := (k, v) :: c;
  lru_remove K V _ _ k c :=
    ((list_to_map c : gmap K V) !! k, filter (fun p => p.1 ≠ k) c);
  lru_map K V _ _ c := list_to_map c;
|}.

Lemma list_to_map_filter_ne {K V} `{Countable K} (k : K) (c : list (K * V)) :
  list_to_map (filter (fun p => p.1 ≠ k) c) = delete k (list_to_map c : gmap K V).
Proof.
  induction c as [|[k' v'] c IH]; [symmetry; apply delete_empty|].
  rewrite filter_cons. case_decide as Hk; simpl in *.
  - by rewrite IH, delete_insert_ne by congruence.
  - subst. by rewrite IH, delete_insert_eq.
Qed.

#[export] Instance ModelLruLaws : LruLaws.
Proof.
  split; simpl.
  - done.
  - intros K V ? ? k c. destruct (list_to_map c !! k) as [v|] eqn:Hk; simpl; [|done].
    by rewrite insert_id.
  - done.
  - intros. apply list_to_map_filter_ne.
Qed.

Definition IMMUT_DATA_CACHE_SIZE : nat := 300.

Section client.
Context `{ndt : !NdTypes, ndo : !NdOps, core : !CoreExt, lru : !LruOps}.
Context {W : Type} `{net : !Network W}.

(** * State *)

(** [ClientInner]: the connection manager and the cache. *)
Record ClientInner := {
  connection_manager : W;
  ci_cache : LruCache IDataAddress IData;
  timeout : Z;
}.

(** What a [Client] implementation provides: its full identity and its owner's
    key. *)
Record Client := { full_id : SafeKey; owner_key : PublicKey }.

Abbreviation C A := (M ClientInner CoreError A).

Definition set_cm (w : W) (s : ClientInner) : ClientInner :=
  {| connection_manager := w; ci_cache := ci_cache s; timeout := timeout s |}.
Definition set_ci_cache (c : LruCache IDataAddress IData) (s : ClientInner) : ClientInner :=
  {| connection_manager := connection_manager s; ci_cache := c; timeout := timeout s |}.

(** [inner.borrow_mut().connection_manager]. *)
Definition with_cm {A} (m : M W CoreError A) : C A := fun s =>
  match m (connection_manager s) with
  | Ret a w => Ret a (set_cm w s)
  | Fail e w => Fail e (set_cm w s)
  | Panic w => Panic (set_cm w s)
  | Pending w => Pending (set_cm w s)
  end.

Definition public_id (client : Client) : PublicId := safe_key_public_id (full_id client).
Definition public_key (client : Client) : PublicKey := safe_key_public_key (full_id client).

Definition set_timeout (duration : Z) : C unit :=
  modify (fun s => {| connection_manager := connection_manager s; ci_cache := ci_cache s;
                      timeout := duration |}).

(** * Sending *)

Definition compose_message (client : Client) (request : Request) (sign : bool) : C Message :=
  let! message_id := with_cm new_message_id in
  let! signature :=
    if sign then
      let! payload := unwrap_result (serialize_request request message_id) in
      ret (Some (safe_key_sign (full_id client) payload))
    else ret None in
  ret (MsgRequest request message_id signature).

Definition sign_request (request : Request) (client_id : ClientFullId) : C Message :=
  let! message_id := with_cm new_message_id in
  let! payload := unwrap_result (serialize_request request message_id) in
  ret (MsgRequest request message_id (Some (client_sign client_id payload))).

Definition send (client : Client) (request : Request) : C Response :=
  let sign := negb (bool_decide (get_type request = PublicGet)) in
  let! request := compose_message client request sign in
  with_cm (cm_send (public_id client) request).

(** [res.map_err(CoreError::from)]. *)
Definition data_result {A} (res : SndResult A) : C A :=
  match res with Ok a => ret a | Err e => fail (DataError e) end.

Definition send_mutation (client : Client) (req : Request) : C unit :=
  let! res := send client req in
  match res with
  | RMutation res => data_result res
  | _ => fail ReceivedUnexpectedEvent
  end.

Definition send_as_helper (client : Client) (request : Request)
    (client_id : option ClientFullId) : C Response :=
  let! (message, identity) :=
    match client_id with
    | Some id => let! m := sign_request request id in ret (m, SKClient id)
    | None => let! m := compose_message client request true in ret (m, full_id client)
    end in
  let pub_id := safe_key_public_id identity in
  with_cm (cm_bootstrap identity) ;!
  with_cm (cm_send pub_id message).

(** The [send_as!] macro, at the response variant of transactions. *)
Definition send_as_transaction (client : Client) (request : Request)
    (client_id : option ClientFullId) : C Transaction :=
  let! res := send_as_helper client request client_id in
  match res with
  | RTransaction res => data_result res
  | _ => fail ReceivedUnexpectedEvent
  end.

(** [transaction_id.unwrap_or_else(rand::random)]. *)
Definition unwrap_or_random (transaction_id : option Z) : C Z :=
  match transaction_id with Some id => ret id | None => with_cm rand_random end.

(** * Coins *)

Definition transfer_coins (client : Client) (client_id : option ClientFullId)
    (destination : XorName) (amount : Coins) (transaction_id : option Z) : C Transaction :=
  let! transaction_id := unwrap_or_random transaction_id in
  send_as_transaction client (TransferCoins destination amount transaction_id) client_id.

Definition create_balance (client : Client) (client_id : option ClientFullId)
    (new_balance_owner : PublicKey) (amount : Coins) (transaction_id : option Z) :
    C Transaction :=
  let! transaction_id := unwrap_or_random transaction_id in
  send_as_transaction client (CreateBalance new_balance_owner amount transaction_id) client_id.

Definition insert_login_packet_for (client : Client) (client_id : option ClientFullId)
    (new_owner : PublicKey) (amount : Coins) (transaction_id : option Z)
    (new_login_packet : LoginPacket) : C Transaction :=
  let! transaction_id := unwrap_or_random transaction_id in
  send_as_transaction client
    (CreateLoginPacketFor new_owner amount transaction_id new_login_packet) client_id.

Definition get_balance (client : Client) (client_id : option ClientFullId) : C Coins :=
  let! res := send_as_helper client GetBalance client_id in
  match res with
  | RGetBalance res => data_result res
  | _ => fail ReceivedUnexpectedEvent
  end.

Definition test_set_balance (client : Client) (client_id : option ClientFullId)
    (amount : Coins) : C Transaction :=
  let new_balance_owner :=
    match client_id with
    | None => public_key client
    | Some client_id => client_public_key (client_full_public_id client_id)
    end in
  let! transaction_id := with_cm rand_random in
  send_as_transaction client (CreateBalance new_balance_owner amount transaction_id) client_id.

(** * Immutable data *)

Definition put_idata (client : Client) (idata : IData) : C unit :=
  send_mutation client (PutIData idata).

Definition get_idata (client : Client) (address : IDataAddress) : C IData :=
  let! cached := (fun s =>
    let '(data, cache) := lru_get_mut address (ci_cache s) in
    Ret data (set_ci_cache cache s)) in
  match cached with
  | Some data => ret data
  | None =>
      let! res := send client (GetIData address) in
      let! data := match res with
                   | RGetIData res => data_result res
                   | _ => fail ReceivedUnexpectedEvent
                   end in
      modify (fun s => set_ci_cache (lru_insert (idata_address data) data (ci_cache s)) s) ;!
      ret data
  end.

Definition del_unpub_idata (client : Client) (name : XorName) : C unit :=
  modify (fun s => set_ci_cache (lru_remove (IUnpub name) (ci_cache s)).2 s) ;!
  send_mutation client (DeleteUnpubIData (IUnpub name)).

(** * Mutable data *)

Definition put_unseq_mutable_data (client : Client) (data : UnseqMutableData) : C unit :=
  send_mutation client (PutMData (MDUnseq data)).

Definition put_seq_mutable_data (client : Client) (data : SeqMutableData) : C unit :=
  send_mutation client (PutMData (MDSeq data)).

Definition get_unseq_mdata (client : Client) (name : XorName) (tag : Z) : C UnseqMutableData :=
  let! res := send client (GetMData (MUnseq name tag)) in
  match res with
  | RGetMData res =>
      let! mdata := data_result res in
      match mdata with MDUnseq data => ret data | MDSeq _ => fail ReceivedUnexpectedData end
  | _ => fail ReceivedUnexpectedEvent
  end.

Definition get_seq_mdata (client : Client) (name : XorName) (tag : Z) : C SeqMutableData :=
  let! res := send client (GetMData (MSeq name tag)) in
  match res with
  | RGetMData res =>
      let! mdata := data_result res in
      match mdata with MDSeq data => ret data | MDUnseq _ => fail ReceivedUnexpectedData end
  | _ => fail ReceivedUnexpectedEvent
  end.

Definition get_seq_mdata_value (client : Client) (name : XorName) (tag : Z) (key : bytes) :
    C MDataSeqValue :=
  let! res := send client (GetMDataValue (MSeq name tag) key) in
  match res with
  | RGetMDataValue res =>
      let! value := data_result res in
      match value with VSeq val => ret val | VUnseq _ => fail ReceivedUnexpectedData end
  | _ => fail ReceivedUnexpectedEvent
  end.

Definition get_unseq_mdata_value (client : Client) (name : XorName) (tag : Z) (key : bytes) :
    C bytes :=
  let! res := send client (GetMDataValue (MUnseq name tag) key) in
  match res with
  | RGetMDataValue res =>
      let! value := data_result res in
      match value with VUnseq val => ret val | VSeq _ => fail ReceivedUnexpectedData end
  | _ => fail ReceivedUnexpectedEvent
  end.

Definition mutate_seq_mdata_entries (client : Client) (name : XorName) (tag : Z)
    (actions : MDataSeqEntryActions) : C unit :=
  send_mutation client (MutateMDataEntries (MSeq name tag) (ActSeq actions)).

Definition mutate_unseq_mdata_entries (client : Client) (name : XorName) (tag : Z)
    (actions : MDataUnseqEntryActions) : C unit :=
  send_mutation client (MutateMDataEntries (MUnseq name tag) (ActUnseq actions)).

Definition get_seq_mdata_shell (client : Client) (name : XorName) (tag : Z) :
    C SeqMutableData :=
  let! res := send client (GetMDataShell (MSeq name tag)) in
  match res with
  | RGetMDataShell res =>
      let! mdata := data_result res in
      match mdata with MDSeq data => ret data | _ => fail ReceivedUnexpectedData end
  | _ => fail ReceivedUnexpectedEvent
  end.

Definition get_unseq_mdata_shell (client : Client) (name : XorName) (tag : Z) :
    C UnseqMutableData :=
  let! res := send client (GetMDataShell (MUnseq name tag)) in
  match res with
  | RGetMDataShell res =>
      let! mdata := data_result res in
      match mdata with MDUnseq data => ret data | _ => fail ReceivedUnexpectedData end
  | _ => fail ReceivedUnexpectedEvent
  end.

Definition get_mdata_version (client : Client) (address : MDataAddress) : C Z :=
  let! res := send client (GetMDataVersion address) in
  match res with
  | RGetMDataVersion res => data_result res
  | _ => fail ReceivedUnexpectedEvent
  end.

Definition list_unseq_mdata_entries (client : Client) (name : XorName) (tag : Z) :
    C MDataUnseqEntries :=
  let! res := send client (ListMDataEntries (MUnseq name tag)) in
  match res with
  | RListMDataEntries res =>
      let! entries := data_result res in
      match entries with EntUnseq data => ret data | EntSeq _ => fail ReceivedUnexpectedData end
  | _ => fail ReceivedUnexpectedEvent
  end.

Definition list_seq_mdata_entries (client : Client) (name : XorName) (tag : Z) :
    C MDataSeqEntries :=
  let! res := send client (ListMDataEntries (MSeq name tag)) in
  match res with
  | RListMDataEntries res =>
      let! entries := data_result res in
      match entries with EntSeq data => ret data | EntUnseq _ => fail ReceivedUnexpectedData end
  | _ => fail ReceivedUnexpectedEvent
  end.

Definition list_mdata_keys (client : Client) (address : MDataAddress) : C (gset bytes) :=
  let! res := send client (ListMDataKeys address) in
  match res with
  | RListMDataKeys res => data_result res
  | _ => fail ReceivedUnexpectedEvent
  end.

Definition list_seq_mdata_values (client : Client) (name : XorName) (tag : Z) :
    C (list MDataSeqValue) :=
  let! res := send client (ListMDataValues (MSeq name tag)) in
  match res with
  | RListMDataValues res =>
      let! values := data_result res in
      match values with ValsSeq data => ret data | ValsUnseq _ => fail ReceivedUnexpectedData end
  | _ => fail ReceivedUnexpectedEvent
  end.

Definition list_unseq_mdata_values (client : Client) (name : XorName) (tag : Z) :
    C (list bytes) :=
  let! res := send client (ListMDataValues (MUnseq name tag)) in
  match res with
  | RListMDataValues res =>
      let! values := data_result res in
      match values with ValsUnseq data => ret data | ValsSeq _ => fail ReceivedUnexpectedData end
  | _ => fail ReceivedUnexpectedEvent
  end.

Definition list_mdata_user_permissions (client : Client) (address : MDataAddress)
    (user : PublicKey) : C MDataPermissionSet :=
  let! res := send client (ListMDataUserPermissions address user) in
  match res with
  | RListMDataUserPermissions res => data_result res
  | _ => fail ReceivedUnexpectedEvent
  end.

Definition list_mdata_permissions (client : Client) (address : MDataAddress) :
    C (gmap PublicKey MDataPermissionSet) :=
  let! res := send client (ListMDataPermissions address) in
  match res with
  | RListMDataPermissions res => data_result res
  | _ => fail ReceivedUnexpectedEvent
  end.

Definition set_mdata_user_permissions (client : Client) (address : MDataAddress)
    (user : PublicKey) (permissions : MDataPermissionSet) (version_ : Z) : C unit :=
  send_mutation client (SetMDataUserPermissions address user permissions version_).

Definition del_mdata_user_permissions (client : Client) (address : MDataAddress)
    (user : PublicKey) (version_ : Z) : C unit :=
  send_mutation client (DelMDataUserPermissions address user version_).

(** * Append-only data *)

Definition put_adata (client : Client) (data : AData) : C unit :=
  send_mutation client (PutAData data).

Definition get_adata (client : Client) (address : ADataAddress) : C AData :=
  let! res := send client (GetAData address) in
  match res with RGetAData res => data_result res | _ => fail ReceivedUnexpectedEvent end.

Definition get_adata_shell (client : Client) (data_index : ADataIndex)
    (address : ADataAddress) : C AData :=
  let! res := send client (GetADataShell address data_index) in
  match res with RGetADataShell res => data_result res | _ => fail ReceivedUnexpectedEvent end.

Definition get_adata_value (client : Client) (address : ADataAddress) (key : bytes) : C bytes :=
  let! res := send client (GetADataValue address key) in
  match res with RGetADataValue res => data_result res | _ => fail ReceivedUnexpectedEvent end.

Definition get_adata_range (client : Client) (address : ADataAddress)
    (range : ADataIndex * ADataIndex) : C (list ADataEntry) :=
  let! res := send client (GetADataRange address range) in
  match res with RGetADataRange res => data_result res | _ => fail ReceivedUnexpectedEvent end.

Definition get_adata_indices (client : Client) (address : ADataAddress) : C ADataIndices :=
  let! res := send client (GetADataIndices address) in
  match res with RGetADataIndices res => data_result res | _ => fail ReceivedUnexpectedEvent end.

Definition get_adata_last_entry (client : Client) (address : ADataAddress) : C ADataEntry :=
  let! res := send client (GetADataLastEntry address) in
  match res with RGetADataLastEntry res => data_result res | _ => fail ReceivedUnexpectedEvent end.

Definition get_unpub_adata_permissions_at_index (client : Client) (address : ADataAddress)
    (permissions_index : ADataIndex) : C ADataUnpubPermissions :=
  let! res := send client (GetADataPermissions address permissions_index) in
  match res with
  | RGetADataPermissions res =>
      let! permissions := data_result res in
      match permissions with
      | PermsUnpub data => ret data
      | PermsPub _ => fail ReceivedUnexpectedData
      end
  | _ => fail ReceivedUnexpectedEvent
  end.

Definition get_pub_adata_permissions_at_index (client : Client) (address : ADataAddress)
    (permissions_index : ADataIndex) : C ADataPubPermissions :=
  let! res := send client (GetADataPermissions address permissions_index) in
  match res with
  | RGetADataPermissions res =>
      let! permissions := data_result res in
      match permissions with
      | PermsPub data => ret data
      | PermsUnpub _ => fail ReceivedUnexpectedData
      end
  | _ => fail ReceivedUnexpectedEvent
  end.

Definition get_pub_adata_user_permissions (client : Client) (address : ADataAddress)
    (permissions_index : ADataIndex) (user : ADataUser) : C ADataPubPermissionSet :=
  let! res := send client (GetPubADataUserPermissions address permissions_index user) in
  match res with
  | RGetPubADataUserPermissions res => data_result res
  | _ => fail ReceivedUnexpectedEvent
  end.

Definition get_unpub_adata_user_permissions (client : Client) (address : ADataAddress)
    (permissions_index : ADataIndex) (public_key_ : PublicKey) : C ADataUnpubPermissionSet :=
  let! res := send client (GetUnpubADataUserPermissions address permissions_index public_key_) in
  match res with
  | RGetUnpubADataUserPermissions res => data_result res
  | _ => fail ReceivedUnexpectedEvent
  end.

Definition add_unpub_adata_permissions (client : Client) (address : ADataAddress)
    (permissions : ADataUnpubPermissions) (permissions_index : Z) : C unit :=
  send_mutation client (AddUnpubADataPermissions address permissions permissions_index).

Definition add_pub_adata_permissions (client : Client) (address : ADataAddress)
    (permissions : ADataPubPermissions) (permissions_index : Z) : C unit :=
  send_mutation client (AddPubADataPermissions address permissions permissions_index).

Definition set_adata_owners (client : Client) (address : ADataAddress) (owner : ADataOwner)
    (owners_index : Z) : C unit :=
  send_mutation client (SetADataOwner address owner owners_index).

Definition get_adata_owners (client : Client) (address : ADataAddress)
    (owners_index : ADataIndex) : C ADataOwner :=
  let! res := send client (GetADataOwners address owners_index) in
  match res with RGetADataOwners res => data_result res | _ => fail ReceivedUnexpectedEvent end.

Definition append_seq_adata (client : Client) (append : ADataAppendOperation) (index : Z) :
    C unit :=
  send_mutation client (AppendSeq append index).

Definition append_unseq_adata (client : Client) (append : ADataAppendOperation) : C unit :=
  send_mutation client (AppendUnseq append).

(** * [AuthActions] *)

Definition list_auth_keys_and_version (client : Client) :
    C (gmap PublicKey AppPermissions * Z) :=
  let! res := send client ListAuthKeysAndVersion in
  match res with
  | RListAuthKeysAndVersion res => data_result res
  | _ => fail ReceivedUnexpectedEvent
  end.

Definition ins_auth_key (client : Client) (key : PublicKey) (permissions : AppPermissions)
    (version_ : Z) : C unit :=
  send_mutation client (InsAuthKey key permissions version_).

Definition del_auth_key (client : Client) (key : PublicKey) (version_ : Z) : C unit :=
  send_mutation client (DelAuthKey key version_).

Definition delete_mdata (client : Client) (address : MDataAddress) : C unit :=
  send_mutation client (DeleteMData address).

Definition delete_adata (client : Client) (address : ADataAddress) : C unit :=
  send_mutation client (DeleteAData address).

(** * Throw-away clients *)

Definition req (request : Request) (full_id_new : SafeKey) : M W CoreError Response :=
  let! message_id := new_message_id in
  let! payload := unwrap_result (serialize_request request message_id) in
  let signature := safe_key_sign full_id_new payload in
  cm_send (safe_key_public_id full_id_new) (MsgRequest request message_id (Some signature)).

(** [ConnectionManager::new] is the caller's: the world is the new manager's.
    The disconnection happens whether [func] failed or not, and its own error
    wins. *)
Definition temp_client {R} (identity : ClientFullId) (func : SafeKey -> M W CoreError R) :
    M W CoreError R :=
  let full_id := SKClient identity in
  cm_bootstrap full_id ;!
  let! res := attempt (func full_id) in
  cm_disconnect (safe_key_public_id full_id) ;!
  lift_result res.

Definition unexpected_response {A} : M W CoreError A := fail (Unexpected "Unexpected response").

Definition transaction_result (response : Response) : M W CoreError Transaction :=
  match response with
  | RTransaction (Ok t) => ret t
  | RTransaction (Err e) => fail (DataError e)
  | _ => unexpected_response
  end.

Definition test_create_balance (owner : ClientFullId) (amount : Coins) : M W CoreError unit :=
  temp_client owner (fun full_id =>
    let! new_balance_owner :=
      match safe_key_public_id full_id with
      | PClient id => ret (client_public_key id)
      | _ => fail (Unexpected "Unexpected ID type")
      end in
    let! transaction_id := rand_random in
    let! response := req (CreateBalance new_balance_owner amount transaction_id) full_id in
    let! _ := transaction_result response in
    ret tt).

Definition wallet_get_balance (wallet_sk : ClientFullId) : M W CoreError Coins :=
  temp_client wallet_sk (fun full_id =>
    let! response := req GetBalance full_id in
    match response with
    | RGetBalance (Ok c) => ret c
    | RGetBalance (Err e) => fail (DataError e)
    | _ => unexpected_response
    end).

Definition wallet_create_balance (client_id : ClientFullId) (new_balance_owner : PublicKey)
    (amount : Coins) (transaction_id : option Z) : M W CoreError Transaction :=
  let! transaction_id := match transaction_id with Some id => ret id | None => rand_random end in
  temp_client client_id (fun full_id =>
    let! response := req (CreateBalance new_balance_owner amount transaction_id) full_id in
    transaction_result response).

Definition wallet_transfer_coins (client_id : ClientFullId) (destination : XorName)
    (amount : Coins) (transaction_id : option Z) : M W CoreError Transaction :=
  let! transaction_id := match transaction_id with Some id => ret id | None => rand_random end in
  temp_client client_id (fun full_id =>
    let! response := req (TransferCoins destination amount transaction_id) full_id in
    transaction_result response).
End client.
Arguments ClientInner {ndt lru} W.
