(* ===== verification/MockStore.v ===== *)
(** Persistence of the mock vault ([safe_core/src/client/mock/vault.rs], [lock],
    [VaultGuard] and the [Store] implementations).

    A vault either lives in memory or mirrors a file that several processes may
    share: locking the vault reloads the cache when the file is newer than the
    last synchronisation, and dropping the guard writes it back when the lock
    was taken for writing.  The file system is a map from paths to contents and
    modification times; the [n]-th modification is stamped [os_time n]. *)
From S2P Require Import Prelude SafeNd SafeNdModel MockAccount MockVault.

Record FileState := { contents : bytes; mtime : Z }.
Record Disk := { files : gmap string FileState; ticks : nat }.

(** The clock of the file system, and [bincode] on the vault's cache. *)
Class StoreEnv `{!NdTypes, !Host} := {
  os_time : nat -> Z;
  serialize_cache : Cache -> option bytes;
  deserialize_cache : bytes -> option Cache;
}.

(** What is relied upon: [bincode] round-trips and writes at least a byte, and
    the clock does not go back. *)
Class StoreLaws `{!NdTypes, !Host, !StoreEnv} := {
  cache_roundtrip c :
    exists b, serialize_cache c = Some b /\ b <> [] /\ deserialize_cache b = Some c;
  os_time_mono n : (os_time n <= os_time (S n))%Z;
}.

Section store.
Context `{ndt : !NdTypes, host : !Host, env : !StoreEnv}.

Definition write_file (path : string) (raw : bytes) (d : Disk) : Disk :=
  {| files := <[path := {| contents := raw; mtime := os_time (ticks d) |}]> (files d);
     ticks := S (ticks d) |}.

(** [OpenOptions] with [create(true)] and [truncate(false)]: the file is created
    empty when it is missing. *)
Definition open_file (path : string) (d : Disk) : FileState * Disk :=
  match files d !! path with
  | Some f => (f, d)
  | None => ({| contents := []; mtime := os_time (ticks d) |}, write_file path [] d)
  end.

(** [mtime_duration > 0]: the time since the last synchronisation, zero when the
    clock went back, and one millisecond when there was none. *)
Definition newer (sync_time : option Z) (mtime_ : Z) : bool :=
  match sync_time with
  | Some t => (t <? mtime_)%Z
  | None => true
  end.

(** [FileStore::load]; [None] when the path does not unwrap. *)
Definition file_load (writing : bool) (s : FileStore) (d : Disk) :
    option (option Cache * FileStore * Disk) :=
  path ← fs_path s;
  let '(f, d) := open_file path d in
  let read := if newer (fs_sync_time s) (mtime f) then
                match contents f with
                | [] => None
                | raw => deserialize_cache raw
                end
              else None in
  let sync_time := match read with Some _ => Some (mtime f) | None => fs_sync_time s end in
  Some (read, {| fs_file := Some (path, writing); fs_sync_time := sync_time;
                 fs_path := fs_path s |}, d).

(** [FileStore::save]; [None] when the cache does not serialise. *)
Definition file_save (cache_ : Cache) (s : FileStore) (d : Disk) : option (FileStore * Disk) :=
  match fs_file s with
  | Some (path, true) =>
      raw ← serialize_cache cache_;
      Some ({| fs_file := None; fs_sync_time := Some (os_time (ticks d)); fs_path := fs_path s |},
            write_file path raw d)
  | Some (_, false) =>
      Some ({| fs_file := None; fs_sync_time := fs_sync_time s; fs_path := fs_path s |}, d)
  | None => Some (s, d)
  end.

Definition store_load (writing : bool) (s : Store) (d : Disk) :
    option (option Cache * Store * Disk) :=
  match s with
  | MemoryStore => Some (None, MemoryStore, d)
  | FileStoreBox s =>
      '(c, s, d) ← file_load writing s d; Some (c, FileStoreBox s, d)
  end.

Definition store_save (cache_ : Cache) (s : Store) (d : Disk) : option (Store * Disk) :=
  match s with
  | MemoryStore => Some (MemoryStore, d)
  | FileStoreBox s => '(s, d) ← file_save cache_ s d; Some (FileStoreBox s, d)
  end.

(** * The guard *)

Record Locked := { lk_vault : Vault; lk_disk : Disk }.

Definition with_store (s : Store) (v : Vault) : Vault :=
  {| cache := cache v; vault_config := vault_config v; store := s |}.

Definition lock {E} (writing : bool) : M Locked E unit := fun s =>
  match store_load writing (store (lk_vault s)) (lk_disk s) with
  | None => Panic s
  | Some (c, st, d) =>
      let v := with_store st (lk_vault s) in
      let v := match c with Some c => set_cache c v | None => v end in
      Ret tt {| lk_vault := v; lk_disk := d |}
  end.

(** [VaultGuard::drop]. *)
Definition unlock {E} : M Locked E unit := fun s =>
  match store_save (cache (lk_vault s)) (store (lk_vault s)) (lk_disk s) with
  | None => Panic s
  | Some (st, d) => Ret tt {| lk_vault := with_store st (lk_vault s); lk_disk := d |}
  end.

(** Run [m] on the locked vault; the guard is dropped when the block is left, by
    a panic too. *)
Definition with_lock {E A} (writing : bool) (m : M Vault E A) : M Locked E A := fun s =>
  match lock (E := E) writing s with
  | Ret _ s =>
      let leave o v k :=
        match unlock (E := E) {| lk_vault := v; lk_disk := lk_disk s |} with
        | Ret _ s' => k s'
        | _ => o
        end in
      match m (lk_vault s) with
      | Ret a v => leave (Panic s) v (Ret a)
      | Fail e v => leave (Panic s) v (Fail e)
      | Panic v => leave (Panic s) v Panic
      | Pending v => leave (Panic s) v Pending
      end
  | Fail e s => Fail e s
  | Panic s => Panic s
  | Pending s => Pending s
  end.
End store.
