(* ===== verification/MockConnection.v ===== *)
(** The connection manager of the mock network
    ([safe_core/src/client/mock/connection_manager.rs]): it locks the vault,
    lets it process the message, and hands the response back. *)
From S2P Require Import Prelude EventLoop SafeNd SafeNdModel MockAccount MockVault.
From S2P Require Import MockVaultRequests MockVaultProcess CoreTypes ClientApi MockStore.
From S2P Require Import MockVaultSpec.

(** Where [MessageId::new] and [rand::random] get their values. *)
Class RandomSource `{!NdTypes} := {
  message_id_at : nat -> MessageId;
  random_u64_at : nat -> Z;
}.

Section connection.
Context `{ndt : !NdTypes, ndo : !NdOps, host : !Host, core : !CoreExt}.
Context `{env : !StoreEnv, rnd : !RandomSource}.

(** A request hook is an [FnMut]: a function of the requests it has seen so
    far, the current one first.  [Arc::get_mut] hands it out only while it is
    not shared with a clone of the manager. *)
Record Hook := {
  hook_fn : list Request -> option Response;
  hook_seen : list Request;
  hook_unique : bool;
}.

Record MockNet := {
  vault : Locked;
  request_hook : option Hook;
  (** Set, and never called. *)
  response_hook : option (Response -> Response);
  groups : gset PublicId;
  (** What was sent on the channel of network events, the oldest first. *)
  net_tx : list NetworkEvent;
  drawn : nat;
}.

Definition set_vault (l : Locked) (n : MockNet) : MockNet :=
  {| vault := l; request_hook := request_hook n; response_hook := response_hook n; groups := groups n;
     net_tx := net_tx n; drawn := drawn n |}.
Definition set_hook (h : option Hook) (n : MockNet) : MockNet :=
  {| vault := vault n; request_hook := h; response_hook := response_hook n; groups := groups n;
     net_tx := net_tx n; drawn := drawn n |}.
Definition set_groups (g : gset PublicId) (events : list NetworkEvent) (n : MockNet) : MockNet :=
  {| vault := vault n; request_hook := request_hook n; response_hook := response_hook n; groups := g;
     net_tx := events; drawn := drawn n |}.
Definition set_drawn (k : nat) (n : MockNet) : MockNet :=
  {| vault := vault n; request_hook := request_hook n; response_hook := response_hook n; groups := groups n;
     net_tx := net_tx n; drawn := k |}.

Definition on_vault {E A} (m : M Locked E A) : M MockNet E A := fun n =>
  match m (vault n) with
  | Ret a l => Ret a (set_vault l n)
  | Fail e l => Fail e (set_vault l n)
  | Panic l => Panic (set_vault l n)
  | Pending l => Pending (set_vault l n)
  end.

Definition new_with (l : Locked) : MockNet :=
  {| vault := l; request_hook := None; response_hook := None; groups := ∅; net_tx := []; drawn := 0 |}.

(** [ConnectionManager::new], on the vault of the process ([clone_vault]), which is
    [shared]. *)
Definition ConnectionManager_new (shared : Locked) : result MockNet CoreError := Ok (new_with shared).

Definition ConnectionManager_new_with_vault (vault_config : Config) (d : Disk) : MockNet :=
  new_with {| lk_vault := Vault_new vault_config; lk_disk := d |}.

Definition has_connection_to (pub_id : PublicId) (n : MockNet) : bool :=
  bool_decide (pub_id ∈ groups n).

Definition intercept_request {E} (message : Message) : M MockNet E (option Response) := fun n =>
  match message, request_hook n with
  | MsgRequest request _ _, Some h =>
      if hook_unique h then
        let seen := request :: hook_seen h in
        Ret (hook_fn h seen)
            (set_hook (Some {| hook_fn := hook_fn h; hook_seen := seen;
                               hook_unique := true |}) n)
      else Ret None n
  | _, _ => Ret None n
  end.

(** The lock is exclusive for mutations and transactions only. *)
Definition is_writing (msg : Message) : bool :=
  match msg with
  | MsgRequest request _ _ =>
      bool_decide (get_type request = TMutation) || bool_decide (get_type request = TTransaction)
  | _ => false
  end.

(** [unwrap!(vault.process_request(pub_id.clone(), &msg))], under the lock. *)
Definition process_locked (pub_id : PublicId) (msg : Message) : M Locked CoreError Message :=
  with_lock (is_writing msg)
    (let! r := attempt (process_request pub_id msg) in unwrap_result r).

Definition mock_send (pub_id : PublicId) (msg : Message) : M MockNet CoreError Response :=
  let! intercepted := intercept_request msg in
  match intercepted with
  | Some resp => ret resp
  | None =>
      let! msg := on_vault (process_locked pub_id msg) in
      match msg with
      | MsgResponse response _ => ret response
      | _ => fail (Unexpected "Logic error: Vault error returned invalid response")
      end
  end.

Definition bootstrap (full_id : SafeKey) : M MockNet CoreError unit :=
  modify (fun n => set_groups ({[ safe_key_public_id full_id ]} ∪ groups n)
                     (net_tx n) n).

(** [restart_network], which does nothing. *)
Definition mock_restart_network : M MockNet CoreError unit := ret tt.

Definition disconnect (pub_id : PublicId) : M MockNet CoreError unit :=
  modify (fun n =>
    let groups' := groups n ∖ {[ pub_id ]} in
    set_groups groups'
      (if decide (groups' = ∅) then net_tx n ++ [Disconnected] else net_tx n) n).

Definition simulate_disconnect : M MockNet CoreError unit :=
  modify (fun n =>
    if decide (groups n = ∅) then n else set_groups ∅ (net_tx n ++ [Disconnected]) n).

(** The random transaction identifier of [mock_increment_balance]. *)
Definition allocate_test_coins (coin_balance_name : XorName) (amount : Coins) :
    M MockNet SndError unit := fun n =>
  on_vault (with_lock true
    (mock_increment_balance coin_balance_name amount (random_u64_at (drawn n))))
    (set_drawn (S (drawn n)) n).

Definition mock_net_create_balance (owner : PublicKey) (amount : Coins) :
    M MockNet SndError unit :=
  on_vault (with_lock true (mock_create_balance owner amount)).

Definition set_request_hook (f : list Request -> option Response) : M MockNet CoreError unit :=
  modify (set_hook (Some {| hook_fn := f; hook_seen := []; hook_unique := true |})).

Definition remove_request_hook : M MockNet CoreError unit := modify (set_hook None).

Definition set_response_hook (f : Response -> Response) : M MockNet CoreError unit :=
  modify (fun n => {| vault := vault n; request_hook := request_hook n; response_hook := Some f;
                      groups := groups n; net_tx := net_tx n; drawn := drawn n |}).

(** Both are [unimplemented!()]. *)
Definition set_simulate_timeout (_ : bool) : M MockNet CoreError unit := panic.
Definition set_network_limits (_ : option Z) : M MockNet CoreError unit := panic.

Definition draw {A} (f : nat -> A) : M MockNet CoreError A := fun n =>
  Ret (f (drawn n)) (set_drawn (S (drawn n)) n).

#[global] Instance MockNetwork : Network MockNet := {|
  cm_send := mock_send;
  cm_bootstrap := bootstrap;
  cm_disconnect := disconnect;
  new_message_id := draw message_id_at;
  rand_random := draw random_u64_at;
|}.
End connection.

(** * A concrete store

    For the witnesses: the model's cache is countable, so it has an encoding that
    round-trips, and the clock ticks at every write. *)

Ltac by_fields := intros []; reflexivity.

#[export] Instance perms_eq : EqDecision model_perms.
Proof. solve_decision. Defined.
#[export] Instance perms_countable : Countable model_perms.
Proof.
  refine (inj_countable' (fun s => (pr s, pin s, pu s, pd s, pm s))
    (fun '(a, b, c, d, e) => {| pr := a; pin := b; pu := c; pd := d; pm := e |}) _).
  by_fields.
Defined.
#[export] Instance seq_value_eq : EqDecision MDataSeqValue.
Proof. solve_decision. Defined.
#[export] Instance seq_value_countable : Countable MDataSeqValue.
Proof.
  refine (inj_countable' (fun v => (seq_data v, seq_version v))
    (fun '(d, n) => {| seq_data := d; seq_version := n |}) _).
  by_fields.
Defined.
#[export] Instance model_mdata_eq {V} `{EqDecision V} : EqDecision (model_mdata V).
Proof. solve_decision. Defined.
#[export] Instance model_mdata_countable {V} `{Countable V} : Countable (model_mdata V).
Proof.
  refine (inj_countable'
    (fun d => (md_name d, md_tag d, md_entries d, md_perms d, md_version d, md_owner d))
    (fun '(n, t, e, p, v, o) => {| md_name := n; md_tag := t; md_entries := e; md_perms := p;
                                   md_version := v; md_owner := o |}) _).
  by_fields.
Defined.
#[export] Instance model_adata_eq : EqDecision model_adata.
Proof. solve_decision. Defined.
#[export] Instance model_adata_countable : Countable model_adata.
Proof.
  refine (inj_countable' (fun d => (ad_name d, ad_tag d, ad_entries d, ad_perms d, ad_owners d))
    (fun '(n, t, e, p, o) => {| ad_name := n; ad_tag := t; ad_entries := e; ad_perms := p;
                                ad_owners := o |}) _).
  by_fields.
Defined.
#[export] Instance model_packet_eq : EqDecision model_packet.
Proof. solve_decision. Defined.
#[export] Instance model_packet_countable : Countable model_packet.
Proof.
  refine (inj_countable' (fun p => (lp_dest p, lp_getter p, lp_data p, lp_sig p))
    (fun '(d, g, x, s) => {| lp_dest := d; lp_getter := g; lp_data := x; lp_sig := s |}) _).
  by_fields.
Defined.
#[export] Instance model_coins_countable : Countable model_coins.
Proof. unfold model_coins, dsig. apply _. Defined.

#[export] Instance app_perms_eq : EqDecision AppPermissions.
Proof. solve_decision. Defined.
#[export] Instance app_perms_countable : Countable AppPermissions.
Proof.
  refine (inj_countable' (fun p => (transfer_coins_perm p, perform_mutations p, get_balance_perm p))
    (fun '(a, b, c) => {| transfer_coins_perm := a; perform_mutations := b;
                          get_balance_perm := c |}) _).
  by_fields.
Defined.
#[export] Instance dev_config_eq : EqDecision DevConfig.
Proof. solve_decision. Defined.
#[export] Instance dev_config_countable : Countable DevConfig.
Proof.
  refine (inj_countable'
    (fun d => (mock_unlimited_coins d, mock_in_memory_storage d, mock_vault_path_opt d))
    (fun '(a, b, c) => {| mock_unlimited_coins := a; mock_in_memory_storage := b;
                          mock_vault_path_opt := c |}) _).
  by_fields.
Defined.

(** The vault's records, as tuples. *)
Definition balance_tuple (b : CoinBalance) : Z * model_coins * list (model_coins * Z) :=
  (owner b, value b, map (fun c => (amount c, transaction_id c)) (credits b)).
Definition balance_of_tuple (t : Z * model_coins * list (model_coins * Z)) : CoinBalance :=
  {| owner := t.1.1 : PublicKey; value := t.1.2 : Coins;
     credits := map (fun p : model_coins * Z =>
       {| amount := p.1 : Coins; transaction_id := p.2 |}) t.2 |}.
Lemma balance_tuple_inv b : balance_of_tuple (balance_tuple b) = b.
Proof.
  destruct b as [o v cs]. unfold balance_of_tuple, balance_tuple. simpl. f_equal.
  induction cs as [|[a i] cs IH]; simpl; [done|]. by rewrite IH.
Qed.

Definition account_tuple (a : Account) : gmap Z AppPermissions * Z * option DevConfig :=
  (auth_keys a, version a, dev (config a)).
Definition account_of_tuple (t : gmap Z AppPermissions * Z * option DevConfig) : Account :=
  {| auth_keys := t.1.1 : gmap PublicKey AppPermissions; version := t.1.2;
     config := {| quic_p2p := tt : QuicP2pConfig; dev := t.2 |} |}.
Lemma account_tuple_inv a : account_of_tuple (account_tuple a) = a.
Proof. by destruct a as [? ? [[] ?]]. Qed.

Abbreviation data_code :=
  ((bytes + bytes * Z) + ((model_mdata MDataSeqValue + model_mdata bytes) +
   ((model_adata + model_adata) + (model_adata + model_adata))))%type.
Definition data_to_code (d : Data) : data_code :=
  match d with
  | Immutable (IDPub b) => inl (inl b)
  | Immutable (IDUnpub p) => inl (inr p)
  | Mutable (MDSeq m) => inr (inl (inl m))
  | Mutable (MDUnseq m) => inr (inl (inr m))
  | AppendOnly (ADPubSeq a) => inr (inr (inl (inl a)))
  | AppendOnly (ADPubUnseq a) => inr (inr (inl (inr a)))
  | AppendOnly (ADUnpubSeq a) => inr (inr (inr (inl a)))
  | AppendOnly (ADUnpubUnseq a) => inr (inr (inr (inr a)))
  end.
Definition data_of_code (d : data_code) : Data :=
  match d with
  | inl (inl b) => Immutable (IDPub (b : PubImmutableData))
  | inl (inr p) => Immutable (IDUnpub (p : UnpubImmutableData))
  | inr (inl (inl m)) => Mutable (MDSeq (m : SeqMutableData))
  | inr (inl (inr m)) => Mutable (MDUnseq (m : UnseqMutableData))
  | inr (inr (inl (inl a))) => AppendOnly (ADPubSeq (a : PubSeqAppendOnlyData))
  | inr (inr (inl (inr a))) => AppendOnly (ADPubUnseq (a : PubUnseqAppendOnlyData))
  | inr (inr (inr (inl a))) => AppendOnly (ADUnpubSeq (a : UnpubSeqAppendOnlyData))
  | inr (inr (inr (inr a))) => AppendOnly (ADUnpubUnseq (a : UnpubUnseqAppendOnlyData))
  end.
Lemma data_code_inv d : data_of_code (data_to_code d) = d.
Proof. by destruct d as [[]|[]|[]]. Qed.

Abbreviation cache_code := (gmap XorName (Z * model_coins * list (model_coins * Z)) *
  gmap XorName (gmap Z AppPermissions * Z * option DevConfig) *
  gmap XorName model_packet * gmap DataId data_code)%type.
Definition cache_to_code (c : Cache) : cache_code :=
  (balance_tuple <$> coin_balances c, account_tuple <$> client_manager c,
   login_packets c : gmap XorName model_packet, data_to_code <$> nae_manager c).
Definition cache_of_code (t : cache_code) : Cache :=
  {| coin_balances := balance_of_tuple <$> t.1.1.1; client_manager := account_of_tuple <$> t.1.1.2;
     login_packets := t.1.2 : gmap XorName LoginPacket; nae_manager := data_of_code <$> t.2 |}.

Lemma fmap_inv {K A B} `{Countable K} (f : A -> B) (g : B -> A) (m : gmap K A) :
  (forall x, g (f x) = x) -> g <$> (f <$> m) = m.
Proof.
  intros Hgf. rewrite <-map_fmap_compose. rewrite <-(map_fmap_id m) at 2.
  apply map_fmap_ext. intros i x _. apply Hgf.
Qed.

Lemma cache_code_inv c : cache_of_code (cache_to_code c) = c.
Proof.
  destruct c as [b a p d]. unfold cache_of_code, cache_to_code. simpl. f_equal; apply fmap_inv;
    auto using balance_tuple_inv, account_tuple_inv, data_code_inv.
Qed.

#[export] Instance ModelStore : StoreEnv := {|
  os_time n := Z.of_nat n;
  serialize_cache c := Some [Z.pos (encode (cache_to_code c))];
  deserialize_cache raw :=
    match raw with [Z.pos p] => cache_of_code <$> decode p | _ => None end;
|}.

#[export] Instance ModelStoreLaws : StoreLaws.
Proof.
  split.
  - intros c. eexists. split_and!; [done|done|]. simpl. rewrite decode_encode. simpl.
    by rewrite cache_code_inv.
  - intros n. simpl. lia.
Qed.

#[export] Instance ModelRandom : RandomSource := {|
  message_id_at n := (Z.of_nat n : MessageId);
  random_u64_at n := Z.of_nat n;
|}.
