(* ===== verification/MockShared.v ===== *)
(** Several processes on one vault file: the caches they keep agree.

    Each process of the mock network has its own [Vault], mirroring the same
    file.  As long as modification times distinguish writes, whatever process
    handles a request, it handles it on the state the last write left. *)
From S2P Require Import Prelude SafeNd SafeNdModel MockAccount MockVault.
From S2P Require Import MockVaultRequests MockVaultProcess MockVaultSpec.
From S2P Require Import MockVaultRefine MockVaultSafety MockVaultBehaviour MockVaultAccess.
From S2P Require Import CoreTypes ClientApi MockStore MockConnection.

Section shared.
Context `{ndt : !NdTypes, ndo : !NdOps, ndl : !NdLaws, host : !Host, core : !CoreExt}.
Context `{env : !StoreEnv, envl : !StoreLaws}.

(** Every write gets a later time than the one before. *)
Definition strict_clock : Prop := forall n m, (n < m)%nat -> (os_time n < os_time m)%Z.

(** The path of the vault file, the configuration, and the state they share. *)
Section invariant.
Context (p : string) (cfg : Config).

(** What the file holds: nothing yet, or the shared state, written at one of the
    past ticks of the clock. *)
Inductive file_holds (d : Disk) (c : Cache) : option Z -> Prop :=
| holds_nothing :
    (files d !! p = None \/ exists t, files d !! p = Some {| contents := []; mtime := t |}) ->
    file_holds d c None
| holds_cache raw k :
    files d !! p = Some {| contents := raw; mtime := os_time k |} ->
    (k < ticks d)%nat -> raw <> [] -> deserialize_cache raw = Some c ->
    file_holds d c (Some (os_time k)).

(** A process is up to date, or will reload: it never missed a write it could
    take for its own. *)
Definition process_ok (c : Cache) (written : option Z) (v : Vault) : Prop :=
  vault_config v = cfg /\
  exists t, store v = FileStoreBox {| fs_file := None; fs_sync_time := t; fs_path := Some p |} /\
    match t, written with
    | None, None => cache v = c
    | None, Some _ => True
    | Some _, None => False
    | Some t, Some w => (t <= w)%Z /\ (t = w -> cache v = c)
    end.

Definition Shared (vs : list Vault) (d : Disk) (c : Cache) : Prop :=
  exists written, file_holds d c written /\ Forall (process_ok c written) vs.

(** Locking brings the shared state into the process's cache. *)
Lemma lock_shared {E} writing v d c written :
  file_holds d c written -> process_ok c written v ->
  exists v1 d1 t, lock (E := E) writing {| lk_vault := v; lk_disk := d |} =
      Ret tt {| lk_vault := v1; lk_disk := d1 |} /\
    cache v1 = c /\ vault_config v1 = cfg /\
    store v1 = FileStoreBox {| fs_file := Some (p, writing); fs_sync_time := t; fs_path := Some p |} /\
    t = written /\ file_holds d1 c written.
Proof.
  intros Hf (Hcfg & t & Hst & Ht). unfold lock. simpl. rewrite Hst. simpl.
  unfold file_load. simpl. destruct Hf as [Hn|raw k Hk Hlt Hne Hd].
  - destruct t as [t|]; [done|].
    assert (exists f d1, open_file p d = (f, d1) /\ contents f = [] /\
      exists t, files d1 !! p = Some {| contents := []; mtime := t |}) as (f & d1 & -> & Hc & Hd1).
    { unfold open_file. destruct Hn as [Hn|[t Hn]]; rewrite Hn; do 2 eexists; split_and!; try done.
      - eexists. simpl. by rewrite lookup_insert_eq.
      - eauto. }
    rewrite Hc. simpl. do 3 eexists. split_and!; try done. constructor. by right.
  - unfold open_file. rewrite Hk. destruct t as [t|].
    + destruct Ht as [Hle Heq]. unfold newer. simpl. destruct (Z.ltb_spec t (os_time k)).
      * destruct raw; [done|]. rewrite Hd. simpl. do 3 eexists. split_and!; try done.
        by econstructor.
      * assert (t = os_time k) as -> by lia. do 3 eexists. split_and!; try done; simpl; auto.
        by econstructor.
    + simpl. destruct raw; [done|]. rewrite Hd. simpl. do 3 eexists. split_and!; try done.
      by econstructor.
Qed.

(** Dropping a guard taken for writing publishes the cache; others will see a
    later time than any they know. *)
Lemma unlock_writing {E} v d c written t :
  strict_clock -> file_holds d c written -> vault_config v = cfg ->
  store v = FileStoreBox {| fs_file := Some (p, true); fs_sync_time := t; fs_path := Some p |} ->
  exists v' d' w', unlock (E := E) {| lk_vault := v; lk_disk := d |} =
      Ret tt {| lk_vault := v'; lk_disk := d' |} /\
    cache v' = cache v /\ file_holds d' (cache v) (Some w') /\
    process_ok (cache v) (Some w') v' /\
    forall v0, process_ok c written v0 -> process_ok (cache v) (Some w') v0.
Proof.
  intros Hclock Hf Hcfg Hst. unfold unlock. simpl. rewrite Hst. simpl. unfold file_save. simpl.
  destruct (cache_roundtrip (cache v)) as (raw & Hser & Hne & Hde). rewrite Hser. simpl.
  do 3 eexists. split_and!; [done|done| | |].
  - eapply (holds_cache _ _ raw (ticks d)); simpl; [by rewrite lookup_insert_eq|lia|done|done].
  - split; [done|]. eexists. split; [done|]. simpl. split; [lia|done].
  - intros v0 (Hcfg0 & t0 & Hst0 & Ht0). split; [done|]. exists t0. split; [done|].
    destruct t0 as [t0|]; [|done]. destruct Hf as [|raw' k' Hk' Hlt]; [done|].
    assert (os_time k' < os_time (ticks d))%Z by by apply Hclock. split; [lia|lia].
Qed.

Lemma unlock_reading {E} v d t :
  vault_config v = cfg ->
  store v = FileStoreBox {| fs_file := Some (p, false); fs_sync_time := t; fs_path := Some p |} ->
  exists v', unlock (E := E) {| lk_vault := v; lk_disk := d |} =
      Ret tt {| lk_vault := v'; lk_disk := d |} /\
    cache v' = cache v /\ vault_config v' = cfg /\
    store v' = FileStoreBox {| fs_file := None; fs_sync_time := t; fs_path := Some p |}.
Proof. intros Hcfg Hst. unfold unlock. simpl. rewrite Hst. eexists. by split_and!. Qed.

(** * Running a block under the lock *)

(** The outcome of [m] on the locked vault, with the state after the guard is
    dropped. *)
Definition relocated {E A} (s : Locked) (o : outcome Vault E A) : outcome Locked E A :=
  match o with
  | Ret a _ => Ret a s
  | Fail e _ => Fail e s
  | Panic _ => Panic s
  | Pending _ => Pending s
  end.

Lemma with_lock_shared {E A} writing (m : M Vault E A) vs d c i v :
  strict_clock -> Shared vs d c -> vs !! i = Some v ->
  (forall v1, cache v1 = c -> store (final (m v1)) = store v1 /\
     vault_config (final (m v1)) = vault_config v1) ->
  (writing = false -> forall v1, cache v1 = c -> cache (final (m v1)) = c) ->
  exists v1 v' d', cache v1 = c /\ vault_config v1 = cfg /\
    with_lock writing m {| lk_vault := v; lk_disk := d |} =
      relocated {| lk_vault := v'; lk_disk := d' |} (m v1) /\
    cache v' = cache (final (m v1)) /\ Shared (<[i := v']> vs) d' (cache v').
Proof.
  intros Hclock (written & Hf & Hvs) Hi Hframe Hread.
  pose proof (Forall_lookup_1 _ _ _ _ Hvs Hi) as Hv.
  destruct (lock_shared (E := E) writing v d c written Hf Hv)
    as (v1 & d1 & t & Hlock & Hc1 & Hcfg1 & Hst1 & -> & Hf1).
  exists v1. destruct (Hframe v1 Hc1) as [Hst2 Hcfg2]. rewrite Hst1 in Hst2. rewrite Hcfg1 in Hcfg2.
  assert (exists v' d', unlock (E := E) {| lk_vault := final (m v1); lk_disk := d1 |} =
      Ret tt {| lk_vault := v'; lk_disk := d' |} /\ cache v' = cache (final (m v1)) /\
      Shared (<[i := v']> vs) d' (cache v')) as (v' & d' & Hun & Hc' & Hsh).
  { destruct writing.
    - destruct (unlock_writing (E := E) _ d1 c written _ Hclock Hf1 Hcfg2 Hst2)
        as (v' & d' & w' & Hun & Hc' & Hf' & Hok' & Hothers).
      exists v', d'. split_and!; [done|done|]. rewrite Hc'. exists (Some w'). split; [done|].
      apply Forall_insert; [|done]. eapply Forall_impl; [done|]. auto.
    - destruct (unlock_reading (E := E) _ d1 _ Hcfg2 Hst2) as (v' & Hun & Hc' & Hcfg' & Hst').
      exists v', d1. split_and!; [done|done|].
      rewrite Hc', (Hread eq_refl v1 Hc1) in *. exists written. split; [done|].
      apply Forall_insert; [done|]. split; [done|]. exists written. split; [done|].
      destruct written; [by split|done]. }
  exists v', d'. split_and!; try done. unfold with_lock. rewrite Hlock. simpl.
  destruct (m v1); simpl in *; by rewrite Hun.
Qed.
End invariant.

(** * Requests *)

Lemma vault_step_store r pk opk req v v' : vault_step r pk opk req v v' -> store v' = store v.
Proof. by destruct 1. Qed.

Lemma process_request_frame r msg v :
  vault_wf v ->
  store (final (process_request r msg v)) = store v /\
  vault_config (final (process_request r msg v)) = vault_config v.
Proof.
  intros Hwf. apply (process_request_invariant r msg v (fun v' =>
    store v' = store v /\ vault_config v' = vault_config v)); [done|done|].
  intros pk opk req mid sig v1 v2 _ _ _ [Hs Hc] Hstep.
  rewrite (vault_step_store _ _ _ _ _ _ Hstep), (vault_step_config _ _ _ _ _ _ Hstep). done.
Qed.

(** [vault_wf] is about the cache alone. *)
Lemma vault_wf_cache v v' : cache v' = cache v -> vault_wf v -> vault_wf v'.
Proof. intros Hc [? ? ? ?]. by split; rewrite Hc. Qed.

Lemma not_writing_readonly r req mid sig v :
  req <> ListAuthKeysAndVersion -> is_writing (MsgRequest req mid sig) = false ->
  final (process_request r (MsgRequest req mid sig) v) = v.
Proof.
  intros Hl Hw. assert (is_get req = true) as Hg.
  { destruct (is_get req) eqn:E; [done|]. simpl in Hw.
    destruct (get_type_mutating req E) as [Ht|Ht]; rewrite Ht in Hw; discriminate. }
  destruct (process_request_final r req mid sig v) as [|(pk & opk & ->)]; [done|].
  by apply dispatch_get_readonly.
Qed.

Lemma unwrapped_final {A} (m : M Vault SndError A) v :
  final ((let! r := attempt m in unwrap_result r : M Vault CoreError A) v) = final (m v).
Proof. unfold bind, attempt. by destruct (m v). Qed.


(** C40: modification times that do not distinguish writes lose updates.  When
    the file carries the time of a process's last synchronisation although
    another process has written it since, the process works on its old cache,
    whatever the file holds, and a write replaces the other's state by what it
    makes of the old one. *)
Theorem same_mtime_update_lost {A} p d raw t v (m : M Vault CoreError A) :
  files d !! p = Some {| contents := raw; mtime := t |} ->
  store v = FileStoreBox {| fs_file := None; fs_sync_time := Some t; fs_path := Some p |} ->
  (forall v1, store (final (m v1)) = store v1) ->
  exists v1 v' d' raw' t', cache v1 = cache v /\
    with_lock true m {| lk_vault := v; lk_disk := d |} =
      relocated {| lk_vault := v'; lk_disk := d' |} (m v1) /\
    files d' !! p = Some {| contents := raw'; mtime := t' |} /\
    deserialize_cache raw' = Some (cache (final (m v1))).
Proof.
  intros Hf Hst Hframe.
  set (v1 := with_store (FileStoreBox {| fs_file := Some (p, true); fs_sync_time := Some t;
    fs_path := Some p |}) v). exists v1. specialize (Hframe v1).
  assert (lock (E := CoreError) true {| lk_vault := v; lk_disk := d |} =
    Ret tt {| lk_vault := v1; lk_disk := d |}) as Hlock.
  { unfold lock. simpl. rewrite Hst. simpl. unfold file_load, open_file. simpl. rewrite Hf. simpl.
    by rewrite Z.ltb_irrefl. }
  destruct (cache_roundtrip (cache (final (m v1)))) as (raw' & Hser & Hne & Hde).
  assert (exists v', unlock (E := CoreError) {| lk_vault := final (m v1); lk_disk := d |} =
    Ret tt {| lk_vault := v'; lk_disk := write_file p raw' d |}) as [v' Hun].
  { unfold unlock. simpl. rewrite Hframe. simpl. unfold file_save. simpl. rewrite Hser. simpl.
    eauto. }
  exists v', (write_file p raw' d), raw', (os_time (ticks d)). split_and!; [done| | |done].
  - unfold with_lock. rewrite Hlock. simpl. destruct (m v1); simpl in *; by rewrite Hun.
  - simpl. by rewrite lookup_insert_eq.
Qed.
End shared.

(** * The theorems at work *)

Definition ex_path : string := "/tmp/SCL-Mock".
Definition ex_raw : bytes := [Z.pos (encode (cache_to_code (cache ex_vault)))].
Definition ex_disk : Disk :=
  {| files := {[ ex_path := {| contents := ex_raw; mtime := 0 |} ]}; ticks := 1 |}.
Definition ex_store (t : option Z) : Store :=
  FileStoreBox {| fs_file := None; fs_sync_time := t; fs_path := Some ex_path |}.

(** One process wrote the file, the other has just started. *)
Definition ex_writer : Vault := with_store (ex_store (Some 0%Z)) ex_vault.
Definition ex_starter : Vault := with_store (ex_store None) (Vault_new ex_config).

Lemma ex_shared : Shared ex_path ex_config [ex_writer; ex_starter] ex_disk (cache ex_vault).
Proof.
  exists (Some (os_time 0)). split.
  - eapply (holds_cache _ _ _ ex_raw 0); [done|simpl; lia|done|].
    unfold ex_raw. simpl. rewrite decode_encode. simpl. by rewrite cache_code_inv.
  - repeat constructor; eexists; (split; [reflexivity|]); simpl; auto. split; [lia|done].
Qed.


(** A third process believes it wrote the file last, at the same time. *)
Definition ex_stale : Vault := with_store (ex_store (Some 0%Z)) (Vault_new ex_config).

Example same_mtime_update_lost_witness :
  exists v1 v' d' raw' t', cache v1 = cache (Vault_new ex_config) /\
    with_lock true (ret tt : M Vault CoreError unit) {| lk_vault := ex_stale; lk_disk := ex_disk |} =
      relocated {| lk_vault := v'; lk_disk := d' |} ((ret tt : M Vault CoreError unit) v1) /\
    files d' !! ex_path = Some {| contents := raw'; mtime := t' |} /\
    deserialize_cache raw' = Some (cache (final ((ret tt : M Vault CoreError unit) v1))).
Proof.
  apply (same_mtime_update_lost ex_path ex_disk ex_raw 0 ex_stale (ret tt)).
  - vm_refl.
  - reflexivity.
  - reflexivity.
Defined.
