(* ===== verification/MockClient.v ===== *)
(** A client on the mock network: a call is the vault's handler, run on the
    client's behalf. *)
From S2P Require Import Prelude SafeNd SafeNdModel MockAccount MockVault.
From S2P Require Import MockVaultRequests MockVaultProcess MockVaultSpec.
From S2P Require Import MockVaultRefine MockVaultSafety MockVaultBehaviour MockVaultAccess.
From S2P Require Import CoreTypes ClientApi MockStore MockConnection MockShared.

Section mock_client.
Context `{ndt : !NdTypes, ndo : !NdOps, ndl : !NdLaws, host : !Host}.
Context `{core : !CoreExt, corel : !CoreExtLaws, lru : !LruOps}.
Context `{env : !StoreEnv, rnd : !RandomSource}.

Abbreviation cvault s := (lk_vault (vault (connection_manager s))).

(** The vault is in memory, and no test hook intercepts requests. *)
Definition in_memory (n : MockNet) : Prop :=
  store (lk_vault (vault n)) = MemoryStore /\ request_hook n = None.

(** The state after one message was composed and the vault has become [v']. *)
Definition after_request (v' : Vault) (s : ClientInner MockNet) : ClientInner MockNet :=
  let n := connection_manager s in
  set_cm (set_vault {| lk_vault := v'; lk_disk := lk_disk (vault n) |}
            (set_drawn (S (drawn n)) n)) s.

Lemma with_store_id v : with_store (store v) v = v.
Proof. by destruct v. Qed.

Lemma mock_send_memory pub msg n resp mid v' :
  in_memory n -> store v' = MemoryStore ->
  process_request pub msg (lk_vault (vault n)) = Ret (MsgResponse resp mid) v' ->
  mock_send pub msg n =
    Ret resp (set_vault {| lk_vault := v'; lk_disk := lk_disk (vault n) |} n).
Proof.
  intros [Hst Hh] Hst' Hp. unfold mock_send, bind, intercept_request. rewrite Hh.
  replace (match msg with MsgRequest _ _ _ => _ | _ => Ret None n end)
    with (Ret None n : outcome MockNet CoreError (option Response)) by by destruct msg.
  unfold on_vault, process_locked, with_lock, lock. rewrite Hst. simpl.
  rewrite <-Hst, with_store_id. unfold bind, attempt. rewrite Hp. simpl.
  unfold unlock. simpl. rewrite Hst'. simpl. by rewrite <-Hst', with_store_id.
Qed.

Lemma authenticate_request_public r req mid sig v pk opk :
  get_type req = PublicGet -> keys_of r pk opk ->
  authenticate_request r req mid sig v = Ret (pk, opk) v.
Proof.
  intros Ht Hk. unfold authenticate_request, bind. rewrite Ht.
  by destruct r; destruct Hk; subst.
Qed.

(** What a client sends, the vault authenticates: the answer is the handler's. *)
Lemma send_memory client req s pk opk resp v' :
  in_memory (connection_manager s) -> vault_wf (cvault s) ->
  keys_of (public_id client) pk opk -> pk = public_key client ->
  authorised (public_id client) pk (cvault s) ->
  dispatch (public_id client) pk opk req (cvault s) = Ret resp v' ->
  send client req s = Ret resp (after_request v' s).
Proof.
  intros Hmem Hwf Hk Hpk Hauth Hd.
  set (n1 := set_drawn (S (drawn (connection_manager s))) (connection_manager s)).
  set (mid := message_id_at (drawn (connection_manager s))).
  destruct (serialize_request_ok req mid) as [payload Hser].
  assert (forall sig, authenticate_request (public_id client) req mid sig (cvault s) =
      Ret (pk, opk) (cvault s) ->
    mock_send (public_id client) (MsgRequest req mid sig) n1 = Ret resp
      (set_vault {| lk_vault := v'; lk_disk := lk_disk (vault (connection_manager s)) |} n1))
    as Hsend.
  { intros sig Ha. assert (process_request (public_id client) (MsgRequest req mid sig) (cvault s) =
      Ret (MsgResponse resp mid) v') as Hp.
    { unfold process_request, bind, attempt. by rewrite Ha, Hd. }
    apply (mock_send_memory _ _ n1 resp mid v'); [done| |done]. destruct Hmem as [Hst _].
    destruct (process_request_frame (public_id client) (MsgRequest req mid sig) (cvault s) Hwf)
      as [Hst' _]. rewrite Hp in Hst'. simpl in Hst'. congruence. }
  unfold send, compose_message, bind, with_cm at 1. simpl. fold mid n1.
  destruct (decide (get_type req = PublicGet)) as [Ht|Ht].
  - rewrite bool_decide_eq_true_2 by done. simpl. unfold with_cm. simpl.
    rewrite Hsend; [done|]. by apply authenticate_request_public.
  - rewrite bool_decide_eq_false_2 by done. simpl. rewrite Hser. simpl. unfold with_cm. simpl.
    rewrite Hsend; [done|]. apply authenticate_request_ok; [done|done|].
    rewrite Hpk. by apply safe_key_sign_ok.
Qed.

Lemma client_handler_mutation client req s pk opk res v' :
  in_memory (connection_manager s) -> vault_wf (cvault s) ->
  keys_of (public_id client) pk opk -> pk = public_key client ->
  authorised (public_id client) pk (cvault s) ->
  dispatch (public_id client) pk opk req (cvault s) = Ret (RMutation res) v' ->
  send_mutation client req s =
    match res with
    | Ok u => Ret u (after_request v' s)
    | Err e => Fail (DataError e) (after_request v' s)
    end.
Proof.
  intros. unfold send_mutation, bind. erewrite send_memory by done. by destruct res.
Qed.
End mock_client.
