(* ===== verification/Recovery.v ===== *)
(** Requests that recover from errors ([safe_core/src/client/recovery.rs]).

    The functions retry a request up to [MAX_ATTEMPTS] times, correcting it by
    what the error says: the version the network expects, or the entries that
    turned out to exist or not.  A [loop_fn] of the source runs its body at most
    [S MAX_ATTEMPTS] times, which is the fuel given here. *)
From S2P Require Import Prelude SafeNd SafeNdModel MockAccount CoreTypes ClientApi.

Definition MAX_ATTEMPTS : nat := 10.
Definition RETRY_FUEL : nat := S MAX_ATTEMPTS.

Definition mdata_address_name (a : MDataAddress) : XorName :=
  match a with MSeq n _ | MUnseq n _ => n end.
Definition mdata_address_tag (a : MDataAddress) : Z :=
  match a with MSeq _ t | MUnseq _ t => t end.

Section recovery.
Context `{ndt : !NdTypes, ndo : !NdOps, core : !CoreExt, lru : !LruOps}.
Context {W : Type} `{net : !Network W}.
Abbreviation C A := (M (ClientInner W) CoreError A).

(** * Entry actions *)

(** The version of an [EntryError] wraps at its own width before it is widened. *)
Definition next_entry_version (current_version : Z) : Z :=
  ((current_version + 1) mod entry_version_modulus)%Z.

Definition fix_entry_action (action : MDataSeqEntryAction) (error : EntryError) :
    option MDataSeqEntryAction :=
  match action, error with
  | Ins value, EEntryExists current_version
  | Update value, EInvalidSuccessor current_version =>
      Some (Update {| seq_data := seq_data value;
                      seq_version := next_entry_version current_version |})
  | Update value, ENoSuchEntry => Some (Ins value)
  | Del _, ENoSuchEntry => None
  | Del _, EInvalidSuccessor current_version => Some (Del (next_entry_version current_version))
  | action, _ => Some action
  end.

Definition fix_entry_actions (actions : MDataSeqEntryActions) (errors : gmap bytes EntryError) :
    gmap bytes MDataSeqEntryAction :=
  map_imap (fun key action =>
    match errors !! key with
    | Some error => fix_entry_action action error
    | None => Some action
    end) (seq_into_actions actions).

(** * Permissions *)

Definition union_permission_sets (a b : MDataPermissionSet) : MDataPermissionSet :=
  foldl (fun set action =>
      if perms_is_allowed a action || perms_is_allowed b action then perms_allow set action
      else if negb (perms_is_allowed a action) || negb (perms_is_allowed b action)
           then perms_deny set action
           else set)
    perms_new [MInsert; MUpdate; MDelete; MManagePermissions].

(** * Loops *)

(** One iteration of the loop of [mutate_mdata_entries]. *)
Definition mutate_attempt (client : Client) (address : MDataAddress)
    (st : nat * MDataSeqEntryActions) : C (Loop unit (nat * MDataSeqEntryActions)) :=
  let '(attempts, actions) := st in
  or_else
    (mutate_seq_mdata_entries client (mdata_address_name address) (mdata_address_tag address)
       actions ;! ret (Break tt))
    (fun error =>
       match error with
       | DataError (InvalidEntryActions errors) =>
           if (attempts <? MAX_ATTEMPTS)%nat then
             ret (Continue (S attempts, seq_actions_from (fix_entry_actions actions errors)))
           else fail (DataError (InvalidEntryActions errors))
       | RequestTimeout =>
           if (attempts <? MAX_ATTEMPTS)%nat then ret (Continue (S attempts, actions))
           else fail RequestTimeout
       | error => fail error
       end).

Definition mutate_mdata_entries (client : Client) (address : MDataAddress)
    (actions : MDataSeqEntryActions) : C unit :=
  loop_fn RETRY_FUEL (0%nat, actions) (mutate_attempt client address).

(** The three loops that correct a version share their error handling. *)
Definition retry_version (attempts : nat) (version : Z) (error : CoreError) :
    C (Loop unit (nat * Z)) :=
  match error with
  | DataError (InvalidSuccessor current_version) =>
      if (attempts <? MAX_ATTEMPTS)%nat then
        ret (Continue (S attempts, u64_add current_version 1))
      else fail error
  | RequestTimeout =>
      if (attempts <? MAX_ATTEMPTS)%nat then ret (Continue (S attempts, version))
      else fail RequestTimeout
  | error => fail error
  end.

Definition set_mdata_user_permissions (client : Client) (address : MDataAddress)
    (user : PublicKey) (permissions : MDataPermissionSet) (version_ : Z) : C unit :=
  loop_fn RETRY_FUEL (0%nat, version_) (fun '(attempts, version_) =>
    or_else
      (ClientApi.set_mdata_user_permissions client address user permissions version_ ;!
       ret (Break tt))
      (retry_version attempts version_)).

Definition del_mdata_user_permissions (client : Client) (address : MDataAddress)
    (user : PublicKey) (version_ : Z) : C unit :=
  loop_fn RETRY_FUEL (0%nat, version_) (fun '(attempts, version_) =>
    or_else
      (ClientApi.del_mdata_user_permissions client address user version_ ;! ret (Break tt))
      (fun error =>
         match error with
         | DataError NoSuchKey => ret (Break tt)
         | error => retry_version attempts version_ error
         end)).

Definition ins_auth_key (client : Client) (key : PublicKey) (permissions : AppPermissions)
    (version_ : Z) : C unit :=
  loop_fn RETRY_FUEL (0%nat, version_) (fun '(attempts, version_) =>
    or_else
      (ClientApi.ins_auth_key client key permissions version_ ;! ret (Break tt))
      (retry_version attempts version_)).

(** * Putting data that may exist *)

Definition update_mdata_entries (client : Client) (address : MDataAddress)
    (current_entries desired_entries : MDataSeqEntries) : C unit :=
  let actions := map_imap (fun key value =>
    match current_entries !! key with
    | Some current_value =>
        if (seq_version current_value <=? seq_version value)%Z then Some (Update value) else None
    | None => Some (Ins value)
    end) desired_entries in
  mutate_mdata_entries client address (seq_actions_from actions).

Definition update_mdata_permissions (client : Client) (address : MDataAddress)
    (current_permissions desired_permissions : gmap PublicKey MDataPermissionSet)
    (version_ : Z) : C unit :=
  let permissions := map (fun '(user, desired_set) =>
    match current_permissions !! user with
    | Some current_set => (user, union_permission_sets current_set desired_set)
    | None => (user, desired_set)
    end) (btree_iter public_key_leb desired_permissions) in
  (* [Vec::pop] takes from the end *)
  loop_fn (S (length permissions)) (reverse permissions, version_)
    (fun '(permissions, version_) =>
       match permissions with
       | (user, set) :: permissions =>
           set_mdata_user_permissions client address user set version_ ;!
           ret (Continue (permissions, u64_add version_ 1))
       | [] => ret (Break tt)
       end).

Definition update_mdata (client : Client) (data : SeqMutableData) : C unit :=
  let address := mdata_address (MDSeq data) in
  let! f0 := attempt (list_seq_mdata_entries client (mdata_address_name address)
                        (mdata_address_tag address)) in
  let! f1 := attempt (list_mdata_permissions client address) in
  let! f2 := attempt (get_mdata_version client address) in
  let! entries := lift_result f0 in
  let! permissions := lift_result f1 in
  let! version_ := lift_result f2 in
  update_mdata_permissions client address permissions (mdata_permissions (MDSeq data))
    (u64_add version_ 1) ;!
  update_mdata_entries client address entries (seq_mdata_entries data).

Definition put_mdata (client : Client) (data : SeqMutableData) : C unit :=
  or_else (put_seq_mutable_data client data)
    (fun error =>
       match error with
       | DataError DataExists => update_mdata client data
       | error => fail error
       end).
End recovery.
