(* ===== verification/RecoveryProofs.v ===== *)
(** The recovery loops end, retry as often as they say, and repair what they
    are told is wrong. *)
From S2P Require Import Prelude SafeNd SafeNdModel MockAccount MockVault.
From S2P Require Import MockVaultSpec CoreTypes ClientApi MockStore MockConnection.
From S2P Require Import Recovery.

(** * Computations that come back *)

Definition responsive {S E A} (m : M S E A) : Prop :=
  forall s, match m s with Pending _ => False | _ => True end.

Section responsive.
Context {S E : Type}.

Lemma responsive_bind {A B} (m : M S E A) (k : A -> M S E B) :
  responsive m -> (forall a, responsive (k a)) -> responsive (bind m k).
Proof.
  intros Hm Hk s. specialize (Hm s). unfold bind. destruct (m s); try done. apply Hk.
Qed.

Lemma responsive_or_else {A F} (m : M S F A) (k : F -> M S E A) :
  responsive m ->
  (forall e, responsive (k e)) -> responsive (or_else m k).
Proof.
  intros Hm Hk s. specialize (Hm s). unfold or_else. destruct (m s); try done. apply Hk.
Qed.

Lemma responsive_attempt {A F} (m : M S F A) :
  responsive m -> responsive (E := E) (attempt m).
Proof. intros Hm s. specialize (Hm s). unfold attempt. by destruct (m s). Qed.

Lemma responsive_lift_result {A} (r : result A E) : responsive (S := S) (lift_result r).
Proof. by destruct r. Qed.

Lemma responsive_unwrap_result {A F} (r : result A F) : responsive (S := S) (E := E) (unwrap_result r).
Proof. by destruct r. Qed.

Lemma loop_fn_S {T L} (body : L -> M S E (Loop T L)) n l s :
  loop_fn (Datatypes.S n) l body s =
  (let! r := body l in match r with Break t => ret t | Continue l' => loop_fn n l' body end) s.
Proof. done. Qed.

Lemma loop_fn_break {T L} (body : L -> M S E (Loop T L)) l n t s s' :
  body l s = Ret (Break t) s' -> loop_fn (Datatypes.S n) l body s = Ret t s'.
Proof. intros Hb. rewrite loop_fn_S. unfold bind. by rewrite Hb. Qed.

Lemma loop_fn_continue {T L} (body : L -> M S E (Loop T L)) l l' s s' n o :
  body l s = Ret (Continue l') s' -> loop_fn n l' body s' = o ->
  loop_fn (Datatypes.S n) l body s = o.
Proof. intros Hb Ho. rewrite loop_fn_S. unfold bind. by rewrite Hb. Qed.

(** A loop ends when each iteration comes back and either stops or makes its
    state smaller, and the fuel exceeds the size it starts from. *)
Lemma responsive_loop_fn {T L} (mu : L -> nat) (body : L -> M S E (Loop T L)) fuel l :
  (forall l, responsive (body l)) ->
  (forall l s l' s', body l s = Ret (Continue l') s' -> (mu l' < mu l)%nat) ->
  (mu l < fuel)%nat -> responsive (loop_fn fuel l body).
Proof.
  intros Hb Hdec. revert l. induction fuel as [|n IH]; intros l Hlt s; [lia|]. simpl.
  unfold bind. specialize (Hb l s). destruct (body l s) as [[t|l'] s'| | |] eqn:Hr; try done.
  apply IH. specialize (Hdec _ _ _ _ Hr). lia.
Qed.

(** A loop whose iterations keep failing softly, in a state that moves by [f],
    until the attempts are used up. *)
Lemma loop_fn_exhausts {T L} (body : L -> M S E (Loop T L)) (st : nat -> L) (f : S -> S) e n s :
  (forall k s, (k < n)%nat -> body (st k) s = Ret (Continue (st (Datatypes.S k))) (f s)) ->
  (forall s, body (st n) s = Fail e (f s)) ->
  loop_fn (Datatypes.S n) (st 0%nat) body s = Fail e (Nat.iter (Datatypes.S n) f s).
Proof.
  intros Hc Hf.
  assert (forall k s, (k <= n)%nat ->
    loop_fn (Datatypes.S n - k) (st k) body s = Fail e (Nat.iter (Datatypes.S n - k) f s)) as H.
  { intros k. remember (n - k)%nat as j eqn:Hj. revert k Hj.
    induction j as [|j IH]; intros k Hj s' Hle.
    - assert (k = n) as -> by lia. replace (Datatypes.S n - n)%nat with 1%nat by lia. simpl.
      unfold bind. by rewrite Hf.
    - replace (Datatypes.S n - k)%nat with (Datatypes.S (Datatypes.S j)) by lia.
      rewrite loop_fn_S. unfold bind at 1. rewrite Hc by lia.
      specialize (IH (Datatypes.S k) ltac:(lia) (f s') ltac:(lia)).
      replace (Datatypes.S n - Datatypes.S k)%nat with (Datatypes.S j) in IH by lia.
      rewrite IH. by rewrite (Nat.iter_succ_r (Datatypes.S j)). }
  apply (H 0%nat). lia.
Qed.
End responsive.

Ltac responsive_tac :=
  repeat match goal with
  | |- responsive (bind _ _) => apply responsive_bind; [|intros ?]
  | |- responsive (or_else _ _) => apply responsive_or_else; [|intros ?]
  | |- responsive (attempt _) => apply responsive_attempt
  | |- responsive (lift_result _) => apply responsive_lift_result
  | |- responsive (unwrap_result _) => apply responsive_unwrap_result
  | |- responsive (match ?x with _ => _ end) => destruct x
  | |- responsive _ => solve [done | auto]
  end.

Section recovery_proofs.
Context `{ndt : !NdTypes, ndo : !NdOps, ndl : !NdLaws, core : !CoreExt, lru : !LruOps}.
Context {W : Type} `{net : !Network W}.

(** * Permission sets *)

Lemma union_step_allowed a b set action action' :
  perms_is_allowed
    (if perms_is_allowed a action || perms_is_allowed b action then perms_allow set action
     else if negb (perms_is_allowed a action) || negb (perms_is_allowed b action)
          then perms_deny set action
          else set) action' =
  if decide (action = action') then perms_is_allowed a action || perms_is_allowed b action
  else perms_is_allowed set action'.
Proof.
  destruct (perms_is_allowed a action), (perms_is_allowed b action); simpl;
    rewrite ?perms_allow_allowed, ?perms_deny_allowed;
    (destruct (decide (action = action')) as [->|];
     [by rewrite bool_decide_eq_true_2|by rewrite bool_decide_eq_false_2]).
Qed.

(** The union of two permission sets allows an insertion, an update, a
    deletion or the management of permissions exactly when one of the two does,
    but it never allows reading, even when both do. *)
Theorem union_permission_sets_spec a b action :
  perms_is_allowed (union_permission_sets a b) action =
  match action with
  | MRead => false
  | _ => perms_is_allowed a action || perms_is_allowed b action
  end.
Proof.
  unfold union_permission_sets. cbn [foldl]. rewrite !union_step_allowed, perms_new_allowed.
  by destruct action.
Qed.

(** * The loops end *)

(** The connection manager answers or fails, but does not leave the future
    pending for ever. *)
Definition network_responsive : Prop :=
  (forall id msg, responsive (cm_send id msg : M W CoreError Response)) /\
  responsive (new_message_id : M W CoreError MessageId).

Section ends.
Context (Hnet : network_responsive).

Lemma with_cm_responsive {A} (m : M W CoreError A) :
  responsive m -> responsive (with_cm m : M (ClientInner W) CoreError A).
Proof. intros Hm s. specialize (Hm (connection_manager s)). unfold with_cm. by destruct (m _). Qed.

Lemma send_responsive client req : responsive (send client req : M (ClientInner W) CoreError _).
Proof.
  destruct Hnet as [Hs Hm]. unfold send, compose_message. responsive_tac.
  all: apply with_cm_responsive; auto.
Qed.

Lemma data_result_responsive {A} (r : SndResult A) :
  responsive (data_result r : M (ClientInner W) CoreError A).
Proof. by destruct r. Qed.

Hint Resolve send_responsive data_result_responsive : core.

Lemma send_mutation_responsive client req :
  responsive (send_mutation client req : M (ClientInner W) CoreError unit).
Proof. unfold send_mutation. responsive_tac. Qed.

(** The attempts left. *)
Definition attempts_left {X} (st : nat * X) : nat := MAX_ATTEMPTS - st.1.

Lemma retry_version_decreases attempts v e l' (s s' : ClientInner W) :
  retry_version attempts v e s = Ret (Continue l') s' ->
  (attempts_left l' < attempts_left (attempts, v))%nat.
Proof.
  unfold retry_version, attempts_left. intros H.
  repeat (case_match; simplify_eq/=; try done);
    match goal with H : (_ <? _)%nat = true |- _ => apply Nat.ltb_lt in H end;
    unfold ret, MAX_ATTEMPTS in *; simplify_eq/=; lia.
Qed.

Lemma retry_version_responsive attempts v e :
  responsive (retry_version attempts v e : M (ClientInner W) CoreError _).
Proof. unfold retry_version. responsive_tac. Qed.

(** Every loop that corrects a version, whatever the operation it retries and
    the errors it takes as success. *)
Lemma version_loop_responsive (op : Z -> M (ClientInner W) CoreError unit)
    (done_ : CoreError -> bool) v :
  (forall v, responsive (op v)) ->
  responsive (loop_fn RETRY_FUEL (0%nat, v) (fun '(attempts, v) =>
    or_else (op v ;! ret (Break tt)) (fun e =>
      if done_ e then ret (Break tt) else retry_version attempts v e))).
Proof.
  intros Hop. apply (responsive_loop_fn attempts_left).
  - intros [attempts v']. responsive_tac; auto using retry_version_responsive.
  - intros [attempts v'] s l' s'. unfold or_else, bind. specialize (Hop v' s).
    destruct (op v' s) as [[]|e s1| |]; try done. destruct (done_ e); [done|].
    apply retry_version_decreases.
  - unfold attempts_left, RETRY_FUEL, MAX_ATTEMPTS. simpl. lia.
Qed.

Lemma set_mdata_user_permissions_responsive client a u p v :
  responsive (set_mdata_user_permissions client a u p v : M (ClientInner W) CoreError unit).
Proof.
  apply (version_loop_responsive (fun v => ClientApi.set_mdata_user_permissions client a u p v)
    (fun _ => false)). intros. apply send_mutation_responsive.
Qed.

Lemma mutate_attempt_decreases client a st l' (s s' : ClientInner W) :
  mutate_attempt client a st s = Ret (Continue l') s' ->
  (attempts_left l' < attempts_left st)%nat.
Proof.
  destruct st as [attempts acts]. unfold mutate_attempt, or_else, bind, attempts_left.
  destruct (mutate_seq_mdata_entries _ _ _ _ s) as [[]|e s1| |]; try done.
  intros H. repeat (case_match; simplify_eq/=; try done);
    match goal with H : (_ <? _)%nat = true |- _ => apply Nat.ltb_lt in H end;
    unfold ret, MAX_ATTEMPTS in *; simplify_eq/=; lia.
Qed.

Lemma mutate_mdata_entries_responsive client a acts :
  responsive (mutate_mdata_entries client a acts : M (ClientInner W) CoreError unit).
Proof.
  apply (responsive_loop_fn attempts_left).
  - intros [attempts acts']. unfold mutate_attempt, mutate_seq_mdata_entries.
    responsive_tac; auto using send_mutation_responsive.
  - intros l s l' s'. apply mutate_attempt_decreases.
  - unfold attempts_left, RETRY_FUEL, MAX_ATTEMPTS. simpl. lia.
Qed.

Lemma update_mdata_permissions_responsive client a cur des v :
  responsive (update_mdata_permissions client a cur des v : M (ClientInner W) CoreError unit).
Proof.
  unfold update_mdata_permissions. set (perms := map _ _).
  apply (responsive_loop_fn (fun st => length st.1)).
  - intros [ps v']. destruct ps as [|[u set] ps]; [done|]. responsive_tac.
    apply set_mdata_user_permissions_responsive.
  - intros [ps v'] s l' s'. destruct ps as [|[u set] ps]; [done|]. unfold bind.
    destruct (set_mdata_user_permissions _ _ _ _ _ _); [|done..].
    unfold ret. intros [= <- <-]. simpl. lia.
  - simpl. rewrite length_reverse. lia.
Qed.
End ends.

(** C22: recovering comes to an end.  Over a connection manager that answers or
    fails, putting mutable data returns or fails, through all its nested loops:
    the retries of each request, and the permissions it sets one by one. *)
Theorem put_mdata_terminates client data :
  network_responsive ->
  responsive (put_mdata client data : M (ClientInner W) CoreError unit).
Proof.
  intros Hnet. unfold put_mdata, update_mdata, update_mdata_entries, put_seq_mutable_data,
    list_seq_mdata_entries, list_mdata_permissions, get_mdata_version.
  responsive_tac;
    auto using send_mutation_responsive, send_responsive, data_result_responsive,
      update_mdata_permissions_responsive, mutate_mdata_entries_responsive.
Qed.

(** C23: a request that keeps timing out is sent exactly eleven times, with the
    same actions, before the timeout is reported. *)
Theorem timeouts_are_retried client a acts (f : ClientInner W -> ClientInner W) s :
  (forall s, mutate_seq_mdata_entries client (mdata_address_name a) (mdata_address_tag a) acts s =
     Fail RequestTimeout (f s)) ->
  mutate_mdata_entries client a acts s = Fail RequestTimeout (Nat.iter 11 f s).
Proof.
  intros Hop. unfold mutate_mdata_entries, RETRY_FUEL.
  apply (loop_fn_exhausts _ (fun k => (k, acts)) f).
  - intros k s' Hk. unfold mutate_attempt, or_else, bind. rewrite Hop.
    by rewrite (proj2 (Nat.ltb_lt k MAX_ATTEMPTS) Hk).
  - intros s'. unfold mutate_attempt, or_else, bind. by rewrite Hop.
Qed.
End recovery_proofs.

(** * The theorems at work *)

(** A network that never answers in time, and counts the messages it was sent. *)
Definition DeadNetwork : Network nat := {|
  cm_send _ _ := fun w => Fail RequestTimeout (S w);
  cm_bootstrap _ := ret tt;
  cm_disconnect _ := ret tt;
  new_message_id := ret ex_mid;
  rand_random := ret 0%Z;
|}.

Definition ex_full_id : ClientFullId := 1%Z.
Definition ex_owner_client : Client := {| full_id := SKClient ex_full_id; owner_key := ex_key 1 |}.
Definition ex_dead : ClientInner nat :=
  {| connection_manager := 0%nat; ci_cache := ([] : LruCache IDataAddress IData); timeout := 0 |}.
Definition ex_seq_data : SeqMutableData :=
  {| md_name := ex_name 50; md_tag := 15000; md_entries := ∅; md_perms := ∅; md_version := 0;
     md_owner := 1 |}.
Definition ex_acts : MDataSeqEntryActions :=
  <[ [1%Z] := Ins {| seq_data := [77%Z]; seq_version := 0 |} ]>
  ({[ [2%Z] := Del 5 ]} : gmap bytes MDataSeqEntryAction).

Example put_mdata_terminates_witness :
  responsive (put_mdata (net := DeadNetwork) ex_owner_client ex_seq_data
              : M (ClientInner nat) CoreError unit).
Proof.
  apply (put_mdata_terminates (net := DeadNetwork) ex_owner_client ex_seq_data).
  by split.
Defined.

Example timeouts_are_retried_witness :
  mutate_mdata_entries (net := DeadNetwork) ex_owner_client (MSeq (ex_name 50) 15000) ex_acts
    ex_dead =
  Fail RequestTimeout
    (Nat.iter 11 (fun s => set_cm (S (connection_manager s)) s) ex_dead).
Proof.
  apply (timeouts_are_retried (net := DeadNetwork) ex_owner_client (MSeq (ex_name 50) 15000) ex_acts
    (fun s => set_cm (S (connection_manager s)) s)).
  intros [w ? ?]. reflexivity.
Defined.
