(* ===== verification/RecoveryRepair.v ===== *)
(** Recovery at work on the mock network: the second attempt succeeds. *)
From S2P Require Import Prelude SafeNd SafeNdModel MockAccount MockVault.
From S2P Require Import MockVaultRequests MockVaultProcess MockVaultSpec.
From S2P Require Import MockVaultRefine MockVaultSafety MockVaultBehaviour MockVaultAccess.
From S2P Require Import CoreTypes ClientApi MockStore MockConnection MockShared.
From S2P Require Import MockClient Recovery RecoveryProofs.

(** * Entries of sequenced data *)

Section entries.
Context `{ndt : !NdTypes, ndo : !NdOps}.

(** What [safe_nd] documents of a bulk mutation: an insertion wants the entry to
    be missing, an update or a deletion wants it at the version before. *)
Definition entry_error (cur : option MDataSeqValue) (act : MDataSeqEntryAction) :
    option EntryError :=
  let narrow v := (v mod entry_version_modulus)%Z in
  match act, cur with
  | Ins _, None => None
  | Ins _, Some v => Some (EEntryExists (narrow (seq_version v)))
  | (Update _ | Del _), None => Some ENoSuchEntry
  | Update {| seq_version := n |}, Some v | Del n, Some v =>
      if (n =? seq_version v + 1)%Z then None
      else Some (EInvalidSuccessor (narrow (seq_version v)))
  end.

Definition entry_errors (entries : MDataSeqEntries) (acts : gmap bytes MDataSeqEntryAction) :
    gmap bytes EntryError :=
  map_imap (fun k act => entry_error (entries !! k) act) acts.

Definition entries_applied (entries : MDataSeqEntries) (acts : gmap bytes MDataSeqEntryAction) :
    MDataSeqEntries :=
  merge (fun cur act =>
    match act with
    | None => cur
    | Some (Ins v | Update v) => Some v
    | Some (Del _) => None
    end) entries acts.

(** The owner may make any mutation, all or nothing. *)
Class SeqMutateLaws := seq_mutate_owner d acts pk :
  mdata_owner (MDSeq d) = pk ->
  let errors := entry_errors (seq_mdata_entries d) (seq_into_actions acts) in
  match mdata_mutate_entries (MDSeq d) (ActSeq acts) pk with
  | Ok d' => errors = ∅ /\ exists x, d' = MDSeq x /\
      seq_mdata_entries x = entries_applied (seq_mdata_entries d) (seq_into_actions acts)
  | Err e => errors <> ∅ /\ e = InvalidEntryActions errors
  end.

(** What the caller wants of the entries: its values under its keys, none of the
    deleted ones, the rest as it was. *)
Definition mutated (entries : MDataSeqEntries) (acts : gmap bytes MDataSeqEntryAction)
    (entries' : MDataSeqEntries) : Prop :=
  forall k, match acts !! k with
  | Some (Ins v | Update v) => exists w, entries' !! k = Some w /\ seq_data w = seq_data v
  | Some (Del _) => entries' !! k = None
  | None => entries' !! k = entries !! k
  end.

(** Versions that the narrow integer of the error can count one beyond. *)
Definition versions_fit (entries : MDataSeqEntries) : Prop :=
  forall k v, entries !! k = Some v -> (0 <= seq_version v /\ seq_version v + 1 < entry_version_modulus)%Z.

Lemma applied_mutated entries acts : mutated entries acts (entries_applied entries acts).
Proof.
  intros k. unfold entries_applied. rewrite lookup_merge.
  destruct (acts !! k) as [[]|], (entries !! k); simpl; eauto.
Qed.

Lemma next_entry_version_fit v :
  (0 <= v /\ v + 1 < entry_version_modulus)%Z ->
  next_entry_version (v mod entry_version_modulus) = (v + 1)%Z.
Proof.
  intros [H1 H2]. unfold next_entry_version. rewrite (Z.mod_small v) by lia.
  apply Z.mod_small. lia.
Qed.

(** One action, corrected by the error it caused, causes none, and still does
    what was meant. *)
Lemma fix_entry_action_ok cur act e :
  (forall v, cur = Some v -> 0 <= seq_version v /\ seq_version v + 1 < entry_version_modulus)%Z ->
  entry_error cur act = Some e ->
  match fix_entry_action act e with
  | Some act' => entry_error cur act' = None /\
      match act, act' with
      | (Ins v | Update v), (Ins w | Update w) => seq_data w = seq_data v
      | Del _, Del _ => True
      | _, _ => False
      end
  | None => cur = None /\ exists n, act = Del n
  end.
Proof.
  intros Hfit. destruct act as [[d n]|[d n]|n], cur as [v|]; simpl; intros He;
    try (match type of He with context [(?a =? ?b)%Z] => destruct (a =? b)%Z end);
    simplify_eq; simpl; rewrite ?next_entry_version_fit by auto; rewrite ?Z.eqb_refl; eauto.
Qed.
End entries.

Section repair.
Context `{ndt : !NdTypes, ndo : !NdOps, ndl : !NdLaws}.

Lemma fix_entry_actions_lookup acts errors k :
  fix_entry_actions acts errors !! k =
  match seq_into_actions acts !! k, errors !! k with
  | Some act, Some e => fix_entry_action act e
  | act, _ => act
  end.
Proof.
  unfold fix_entry_actions. rewrite map_lookup_imap.
  destruct (seq_into_actions acts !! k); simpl; [by destruct (errors !! k)|done].
Qed.

(** The corrected actions apply, and mean the same. *)
Lemma fix_entry_actions_ok entries acts :
  versions_fit entries ->
  let errors := entry_errors entries (seq_into_actions acts) in
  let fixed := fix_entry_actions acts errors in
  entry_errors entries fixed = ∅ /\
  mutated entries (seq_into_actions acts) (entries_applied entries fixed).
Proof.
  intros Hfit errors fixed. assert (forall k, fixed !! k = match seq_into_actions acts !! k with
    | Some act => match entry_error (entries !! k) act with
                  | Some e => fix_entry_action act e | None => Some act end
    | None => None end) as Hk.
  { intros k. unfold fixed. rewrite fix_entry_actions_lookup. unfold errors, entry_errors.
    rewrite map_lookup_imap. by destruct (seq_into_actions acts !! k). }
  split.
  - apply map_empty. intros k. unfold entry_errors. rewrite map_lookup_imap, Hk.
    destruct (seq_into_actions acts !! k) as [act|]; [|done]. simpl.
    destruct (entry_error (entries !! k) act) as [e|] eqn:He; [|done].
    pose proof (fix_entry_action_ok _ _ _ (Hfit k) He) as Hok.
    destruct (fix_entry_action act e); [apply Hok|done].
  - intros k. unfold entries_applied. rewrite lookup_merge, Hk.
    destruct (seq_into_actions acts !! k) as [act|]; [|by destruct (entries !! k)].
    destruct (entry_error (entries !! k) act) as [e|] eqn:He.
    + pose proof (fix_entry_action_ok _ _ _ (Hfit k) He) as Hok.
      destruct (fix_entry_action act e) as [act'|].
      * destruct Hok as [_ Hact]. destruct act, act', (entries !! k); simpl in *; eauto; done.
      * destruct Hok as [-> [n ->]]. done.
    + destruct act, (entries !! k); simpl; eauto.
Qed.
End repair.

Section network.
Context `{ndt : !NdTypes, ndo : !NdOps, ndl : !NdLaws, host : !Host}.
Context `{core : !CoreExt, corel : !CoreExtLaws, lru : !LruOps}.
Context `{env : !StoreEnv, rnd : !RandomSource}.

Abbreviation cvault s := (lk_vault (vault (connection_manager s))).

(** A client with a key of its own (not an app). *)
Definition client_of (id : ClientFullId) : Client :=
  {| full_id := SKClient id;
     owner_key := client_public_key (client_full_public_id id) |}.

(** How an iteration moves the loop. *)
Lemma mutate_attempt_ok client name tag k acts s s' :
  send_mutation client (MutateMDataEntries (MSeq name tag) (ActSeq acts)) s = Ret tt s' ->
  mutate_attempt client (MSeq name tag) (k, acts) s =
    (Ret (Break tt) s' : outcome (ClientInner MockNet) CoreError _).
Proof.
  intros Hs. unfold mutate_attempt, or_else, bind, mutate_seq_mdata_entries. simpl.
  by rewrite Hs.
Qed.

Lemma mutate_attempt_retry client name tag k acts errors s s' :
  send_mutation client (MutateMDataEntries (MSeq name tag) (ActSeq acts)) s =
    Fail (DataError (InvalidEntryActions errors)) s' ->
  (k < MAX_ATTEMPTS)%nat ->
  mutate_attempt client (MSeq name tag) (k, acts) s =
    (Ret (Continue (S k, seq_actions_from (fix_entry_actions acts errors))) s'
     : outcome (ClientInner MockNet) CoreError _).
Proof.
  intros Hs Hk. unfold mutate_attempt, or_else, bind, mutate_seq_mdata_entries. simpl.
  rewrite Hs. by rewrite (proj2 (Nat.ltb_lt k MAX_ATTEMPTS) Hk).
Qed.

Section owner.
Context (id : ClientFullId).
Let c := client_full_public_id id.
Let n := public_id_name (PClient c).

Lemma client_mutation req s res v' :
  in_memory (connection_manager s) -> vault_wf (cvault s) ->
  dispatch (PClient c) (client_public_key c) (client_public_key c) req (cvault s) =
    Ret (RMutation res) v' ->
  send_mutation (client_of id) req s =
    match res with
    | Ok u => Ret u (after_request v' s)
    | Err e => Fail (DataError e) (after_request v' s)
    end.
Proof. intros Hmem Hwf Hd. by eapply client_handler_mutation. Qed.

(** The owner's bulk mutation, as the vault handles it. *)
Lemma owner_mutation d name tag acts v :
  nae_manager (cache v) !! DMutable (MSeq name tag) = Some (Mutable (MDSeq d)) ->
  mdata_address (MDSeq d) = MSeq name tag -> can_pay n v ->
  match mdata_mutate_entries (MDSeq d) (ActSeq acts) (client_public_key c) with
  | Ok d' => exists v', dispatch (PClient c) (client_public_key c) (client_public_key c)
      (MutateMDataEntries (MSeq name tag) (ActSeq acts)) v = Ret (RMutation (Ok tt)) v' /\
      nae_manager (cache v') !! DMutable (MSeq name tag) = Some (Mutable d')
  | Err e => dispatch (PClient c) (client_public_key c) (client_public_key c)
      (MutateMDataEntries (MSeq name tag) (ActSeq acts)) v = Ret (RMutation (Err e)) v
  end.
Proof.
  intros Hd Haddr Hpay.
  assert (get_mdata_at (MSeq name tag) (client_public_key c)
    (MutateMDataEntries (MSeq name tag) (ActSeq acts)) v = Ret (MDSeq d) v) as Hget.
  { unfold get_mdata_at, get_mdata, get_data, bind, gets. rewrite Hd. simpl.
    by rewrite decide_True. }
  simpl. unfold handle_MutateMDataEntries, respond, bind, attempt. rewrite Hget.
  destruct (mdata_mutate_entries _ _ _) as [d'|e]; simpl; [|done].
  destruct (returns_inv _ _ _ (returns_commit_mutation n (fun _ v' =>
    nae_manager (cache v') !! DMutable (MSeq name tag) = Some (Mutable d'))
    (put_data_at (DMutable (MSeq name tag)) (Mutable d') v) Hpay
    (fun _ => lookup_insert_eq _ _ _) (fun _ _ _ _ _ => lookup_insert_eq _ _ _)))
    as ([] & v' & Hc & Hv'). exists v'. fold n. unfold put_data_at in Hc. by rewrite Hc.
Qed.


(** Creating the empty account of a client keeps the vault well formed. *)
Lemma account_of_wf v : vault_wf v -> vault_wf (put_account n (account_of n v) v).
Proof.
  intros [Hd Hp Hb Ha]. split; simpl; [done..|]. apply map_Forall_insert_2; [|done].
  unfold account_of. destruct (client_manager (cache v) !! n) as [a|] eqn:E; simpl.
  - by eapply Ha.
  - by vm_compute.
Qed.

(** Authorising an app recovers from a wrong version.  Whatever version the
    client starts from, [ins_auth_key] ends up authorising the key with the
    permissions asked for, at the version after the current one. *)
Theorem ins_auth_key_recovers key perms ver s :
  in_memory (connection_manager s) -> vault_wf (cvault s) ->
  exists s', ins_auth_key (client_of id) key perms ver s = Ret tt s' /\
    let acc := account_of n (cvault s') in
    auth_keys acc !! key = Some perms /\
    version acc = u64_add (version (account_of n (cvault s))) 1.
Proof.
  intros Hmem Hwf. unfold ins_auth_key, RETRY_FUEL.
  pose proof (ins_auth_key_dispatch c key perms ver (cvault s)) as H1. cbv zeta in H1. fold n in H1.
  set (acc := account_of n (cvault s)) in *. case_decide as Hver.
  - exists (after_request (put_account n {| auth_keys := <[key := perms]> (auth_keys acc);
      version := ver; config := config acc |} (cvault s)) s). split.
    + apply (loop_fn_break _ _ 10). unfold or_else, bind, ClientApi.ins_auth_key.
      by rewrite (client_mutation _ _ _ _ Hmem Hwf H1).
    + simpl. rewrite account_of_put. simpl. by rewrite lookup_insert_eq.
  - set (s1 := after_request (put_account n acc (cvault s)) s).
    assert (account_of n (cvault s1) = acc) as Hacc by apply account_of_put.
    pose proof (ins_auth_key_dispatch c key perms (u64_add (version acc) 1) (cvault s1)) as H2.
    cbv zeta in H2. fold n in H2. rewrite Hacc, decide_True in H2 by done.
    match type of H2 with _ = Ret _ ?v => exists (after_request v s1) end. split.
    + apply (loop_fn_continue _ _ (1%nat, u64_add (version acc) 1) _ s1 10).
      * unfold or_else, bind, ClientApi.ins_auth_key.
        by rewrite (client_mutation _ _ _ _ Hmem Hwf H1).
      * apply (loop_fn_break _ _ 9). unfold or_else, bind, ClientApi.ins_auth_key.
        by rewrite (client_mutation _ s1 _ _ Hmem (account_of_wf _ Hwf) H2).
    + simpl. rewrite account_of_put. simpl. by rewrite lookup_insert_eq.
Qed.
End owner.
End network.

(** * The theorems at work *)

Lemma model_entry_error_eq cur act : model_entry_error model_modulus cur act = entry_error cur act.
Proof. by destruct act as [|[]|], cur. Qed.

Lemma model_errors_eq entries acts : model_errors model_modulus entries acts = entry_errors entries acts.
Proof.
  apply map_imap_ext. intros k. destruct (acts !! k); simpl; [|done]. by rewrite model_entry_error_eq.
Qed.

Lemma model_applied_eq entries acts : model_applied entries acts = entries_applied entries acts.
Proof.
  unfold model_applied, entries_applied. apply map_eq. intros k. rewrite !lookup_merge.
  by destruct (acts !! k) as [[]|], (entries !! k).
Qed.

#[export] Instance ModelSeqMutate : SeqMutateLaws.
Proof.
  intros d acts pk Ho. simpl in *. unfold model_mutate_seq. replace (forallb _ _) with true.
  2: { symmetry. apply forallb_forall. intros p _. unfold model_granted.
       by rewrite bool_decide_eq_true_2. }
  rewrite model_errors_eq. case_bool_decide; simpl; [|done]. split; [done|]. eexists. split; [done|].
  apply model_applied_eq.
Qed.

Definition ex_net : MockNet :=
  {| vault := {| lk_vault := ex_vault; lk_disk := {| files := ∅; ticks := 0 |} |};
     request_hook := None; response_hook := None; groups := ∅; net_tx := []; drawn := 0 |}.
Definition ex_inner : ClientInner MockNet :=
  {| connection_manager := ex_net; ci_cache := ([] : LruCache IDataAddress IData); timeout := 0 |}.
Definition ex_stored : SeqMutableData := {| md_name := ex_name 50; md_tag := 15000;
  md_entries := {[ [1%Z] := {| seq_data := [11%Z]; seq_version := 0 |} ]};
  md_perms := ∅; md_version := 0; md_owner := 1 |}.

Lemma ex_in_memory : in_memory ex_net.
Proof. by split. Qed.


Example ins_auth_key_recovers_witness :
  exists s', ins_auth_key (client_of ex_full_id) (ex_key 8) ex_perms 42 ex_inner = Ret tt s' /\
    let n := public_id_name (PClient (client_full_public_id ex_full_id)) in
    let acc := account_of n (lk_vault (vault (connection_manager s'))) in
    auth_keys acc !! ex_key 8 = Some ex_perms /\
    version acc =
      u64_add (version (account_of n (lk_vault (vault (connection_manager ex_inner))))) 1.
Proof.
  exact (ins_auth_key_recovers ex_full_id (ex_key 8) ex_perms 42 ex_inner ex_in_memory ex_vault_wf).
Defined.
