(* ===== verification/MDataInfo.v ===== *)
(** Symmetric encryption, random strings and the printing of bytes
    ([safe_core/src/utils/mod.rs], [crypto.rs]) and
    [MDataInfo] ([safe_core/src/client/mdata_info.rs]): how the entries of
    mutable data are encrypted, how a new key is phased in, and the C
    representation of the information.

    The cipher ([miscreant]), the hash ([tiny_keccak]), [bincode] and the random
    generator are parameters; [CryptoLaws] says what is relied upon. *)
From stdpp Require Import pretty.
From S2P Require Import Prelude RustText SafeNd SafeNdModel MockAccount CoreTypes Recovery.

Definition SYM_ENC_KEY_LEN : nat := 32.
Definition SYM_ENC_NONCE_LEN : nat := 16.
Definition SHA3_512_HASH_LEN : nat := 64.

Abbreviation SymEncKey := bytes.
Abbreviation SymEncNonce := bytes.

(** The struct [SymmetricEnc]. *)
Record SymmetricEnc := { enc_nonce : SymEncNonce; enc_cipher_text : bytes }.

Class Crypto `{!NdTypes, !CoreExt} := {
  (** [Aes128SivAead::new(key).seal(nonce, &[], plain)] and [.open(..)]. *)
  siv_seal : SymEncKey -> SymEncNonce -> bytes -> bytes;
  siv_open : SymEncKey -> SymEncNonce -> bytes -> option bytes;
  sha3_256 : bytes -> bytes;
  sha3_512 : bytes -> bytes;
  serialize_sym : SymmetricEnc -> result bytes SerialisationError;
  deserialize_sym : bytes -> result SymmetricEnc SerialisationError;
  (** The bytes [rand::random] yields, one draw after the other. *)
  random_bytes_at : nat -> nat -> bytes;
}.

Class CryptoLaws `{!NdTypes, !CoreExt, !Crypto} := {
  siv_open_seal k n p : siv_open k n (siv_seal k n p) = Some p;
  sym_roundtrip e : exists b, serialize_sym e = Ok b /\ deserialize_sym b = Ok e;
  random_bytes_length i len : length (random_bytes_at i len) = len;
}.

(** The cipher is authenticated: what was sealed under a key does not open under
    another. *)
Definition siv_authentic `{!NdTypes, !CoreExt, !Crypto} : Prop :=
  forall k k' n p, k <> k' -> siv_open k' n (siv_seal k n p) = None.

(** The state of the random generator. *)
Abbreviation Rng := nat.

Section crypto.
Context `{ndt : !NdTypes, core : !CoreExt, cr : !Crypto}.
Abbreviation G A := (M Rng CoreError A).

Definition random_bytes (len : nat) : G bytes := fun i => Ret (random_bytes_at i len) (S i).

Definition generate_sym_enc_key : G SymEncKey := random_bytes SYM_ENC_KEY_LEN.
Definition generate_nonce : G SymEncNonce := random_bytes SYM_ENC_NONCE_LEN.

Definition from_serialisation {A} (r : result A SerialisationError) : result A CoreError :=
  match r with Ok a => Ok a | Err e => Err (EncodeDecodeError e) end.

Definition symmetric_encrypt_with (plain_text : bytes) (secret_key : SymEncKey)
    (nonce : SymEncNonce) : result bytes CoreError :=
  let cipher_text := siv_seal secret_key nonce plain_text in
  from_serialisation (serialize_sym {| enc_nonce := nonce; enc_cipher_text := cipher_text |}).

Definition symmetric_encrypt (plain_text : bytes) (secret_key : SymEncKey)
    (nonce : option SymEncNonce) : G bytes :=
  let! nonce := match nonce with Some nonce => ret nonce | None => generate_nonce end in
  lift_result (symmetric_encrypt_with plain_text secret_key nonce).

Definition symmetric_decrypt (cipher_text : bytes) (secret_key : SymEncKey) :
    result bytes CoreError :=
  let? enc := from_serialisation (deserialize_sym cipher_text) in
  ok_or_r (siv_open secret_key (enc_nonce enc) (enc_cipher_text enc)) SymmetricDecipherFailure.

Definition derive_secrets (acc_locator acc_password : bytes) : bytes * bytes * bytes :=
  let locator_hash := sha3_512 acc_locator in
  let pin := sha3_512 (drop (SHA3_512_HASH_LEN / 2) locator_hash) in
  let keyword := locator_hash in
  let password := sha3_512 acc_password in
  (password, keyword, pin).

(** * [MDataInfo] *)

Record MDataInfo := {
  address : MDataAddress;
  enc_info : option (SymEncKey * SymEncNonce);
  new_enc_info : option (SymEncKey * SymEncNonce);
}.

#[export] Instance MDataInfo_eq : EqDecision MDataInfo.
Proof. solve_decision. Defined.

Definition new_private (address_ : MDataAddress) (enc_info_ : SymEncKey * SymEncNonce) :
    MDataInfo :=
  {| address := address_; enc_info := Some enc_info_; new_enc_info := None |}.

Definition new_public (address_ : MDataAddress) : MDataInfo :=
  {| address := address_; enc_info := None; new_enc_info := None |}.

Definition mdata_address_from_kind (kind : MDataKind) (name : XorName) (tag : Z) : MDataAddress :=
  match kind with MKSeq => MSeq name tag | MKUnseq => MUnseq name tag end.

(** The random name is a draw of the same generator; [XOR_NAME_LEN] is 32. *)
Definition random_private (kind : MDataKind) (type_tag : Z) : G MDataInfo :=
  let! name := random_bytes 32 in
  let! key := generate_sym_enc_key in
  let! nonce := generate_nonce in
  ret (new_private (mdata_address_from_kind kind (MkXorName name) type_tag) (key, nonce)).

Definition random_public (kind : MDataKind) (type_tag : Z) : G MDataInfo :=
  let! name := random_bytes 32 in
  ret (new_public (mdata_address_from_kind kind (MkXorName name) type_tag)).

(** The free function [enc_entry_key]: the nonce is a hash of the plain text and
    the seed, so equal keys encrypt equally. *)
Definition enc_entry_key_with (plain_text : bytes) (key : SymEncKey) (seed : SymEncNonce) :
    result bytes CoreError :=
  let nonce := take SYM_ENC_NONCE_LEN (sha3_256 (plain_text ++ seed)) in
  symmetric_encrypt_with plain_text key nonce.

Definition enc_entry_key (info : MDataInfo) (plain_text : bytes) : result bytes CoreError :=
  match new_enc_info info with
  | Some (key, seed) => enc_entry_key_with plain_text key seed
  | None =>
      match enc_info info with
      | Some (key, seed) => enc_entry_key_with plain_text key seed
      | None => Ok plain_text
      end
  end.

Definition enc_entry_value (info : MDataInfo) (plain_text : bytes) : G bytes :=
  match new_enc_info info with
  | Some (key, _) => symmetric_encrypt plain_text key None
  | None =>
      match enc_info info with
      | Some (key, _) => symmetric_encrypt plain_text key None
      | None => ret plain_text
      end
  end.

Definition decrypt (info : MDataInfo) (cipher : bytes) : result bytes CoreError :=
  let old :=
    match enc_info info with
    | Some (key, _) => symmetric_decrypt cipher key
    | None => Ok cipher
    end in
  match new_enc_info info with
  | Some (key, _) =>
      match symmetric_decrypt cipher key with
      | Ok plain => Ok plain
      | Err _ => old
      end
  | None => old
  end.

Definition start_new_enc_info (info : MDataInfo) : G MDataInfo :=
  match enc_info info, new_enc_info info with
  | Some _, None =>
      let! key := generate_sym_enc_key in
      let! nonce := generate_nonce in
      ret {| address := address info; enc_info := enc_info info;
             new_enc_info := Some (key, nonce) |}
  | _, _ => ret info
  end.

Definition commit_new_enc_info (info : MDataInfo) : MDataInfo :=
  match new_enc_info info with
  | Some new_enc_info =>
      {| address := address info; enc_info := Some new_enc_info; new_enc_info := None |}
  | None => info
  end.

(** * Entries *)

Definition encrypt_value (info : MDataInfo) (value : MDataSeqValue) : G MDataSeqValue :=
  let! data := enc_entry_value info (seq_data value) in
  ret {| seq_data := data; seq_version := seq_version value |}.

Definition decrypt_value (info : MDataInfo) (value : MDataSeqValue) :
    result MDataSeqValue CoreError :=
  let? data := decrypt info (seq_data value) in
  Ok {| seq_data := data; seq_version := seq_version value |}.

Definition encrypt_entries (info : MDataInfo) (entries : MDataSeqEntries) : G MDataSeqEntries :=
  fold_m (fun output '(key, value) =>
      let! encrypted_key := lift_result (enc_entry_key info key) in
      let! encrypted_value := encrypt_value info value in
      ret (<[encrypted_key := encrypted_value]> output))
    (btree_iter bytes_leb entries) ∅.

Definition encrypt_entry_actions (info : MDataInfo) (actions : gmap bytes MDataSeqEntryAction) :
    G (gmap bytes MDataSeqEntryAction) :=
  fold_m (fun output '(key, action) =>
      let! encrypted_key := lift_result (enc_entry_key info key) in
      let! encrypted_action :=
        match action with
        | Ins value => let! v := encrypt_value info value in ret (Ins v)
        | Update value => let! v := encrypt_value info value in ret (Update v)
        | Del version_ => ret (Del version_)
        end in
      ret (<[encrypted_key := encrypted_action]> output))
    (btree_iter bytes_leb actions) ∅.

Definition decrypt_entries (info : MDataInfo) (entries : MDataSeqEntries) :
    result MDataSeqEntries CoreError :=
  fold_r (fun output '(key, value) =>
      let? decrypted_key := decrypt info key in
      let? decrypted_value := decrypt_value info value in
      Ok (<[decrypted_key := decrypted_value]> output))
    (btree_iter bytes_leb entries) ∅.

(** [BTreeSet] iteration is in the order of the elements. *)
Definition decrypt_keys (info : MDataInfo) (keys : gset bytes) : result (gset bytes) CoreError :=
  fold_r (fun output key =>
      let? decrypted := decrypt info key in Ok ({[ decrypted ]} ∪ output))
    (merge_sort (fun x y => Is_true (bytes_leb x y)) (elements keys)) ∅.

Definition decrypt_values (info : MDataInfo) (values : list MDataSeqValue) :
    result (list MDataSeqValue) CoreError :=
  fold_r (fun output value =>
      let? decrypted := decrypt_value info value in Ok (output ++ [decrypted])) values [].

(** * The C representation *)

Record FfiMDataInfo := {
  ffi_seq : bool;
  ffi_name : bytes;
  ffi_type_tag : Z;
  has_enc_info : bool;
  ffi_enc_key : bytes;
  ffi_enc_nonce : bytes;
  has_new_enc_info : bool;
  ffi_new_enc_key : bytes;
  ffi_new_enc_nonce : bytes;
}.

Definition md_kind_into_repr_c (kind : MDataKind) : bool :=
  match kind with MKSeq => true | MKUnseq => false end.
Definition md_kind_clone_from_repr_c (seq : bool) : MDataKind := if seq then MKSeq else MKUnseq.

Definition enc_info_into_repr_c (info : option (SymEncKey * SymEncNonce)) :
    bool * bytes * bytes :=
  match info with
  | Some (key, nonce) => (true, key, nonce)
  | None => (false, replicate SYM_ENC_KEY_LEN 0%Z, replicate SYM_ENC_NONCE_LEN 0%Z)
  end.

Definition enc_info_from_repr_c (is_set : bool) (key nonce : bytes) :
    option (SymEncKey * SymEncNonce) :=
  if is_set then Some (key, nonce) else None.

Definition address_kind (a : MDataAddress) : MDataKind :=
  match a with MSeq _ _ => MKSeq | MUnseq _ _ => MKUnseq end.

Definition into_repr_c (info : MDataInfo) : FfiMDataInfo :=
  let '(has, key, nonce) := enc_info_into_repr_c (enc_info info) in
  let '(has_new, new_key, new_nonce) := enc_info_into_repr_c (new_enc_info info) in
  {| ffi_seq := md_kind_into_repr_c (address_kind (address info));
     ffi_name := xor_name_0 (mdata_address_name (address info));
     ffi_type_tag := mdata_address_tag (address info);
     has_enc_info := has; ffi_enc_key := key; ffi_enc_nonce := nonce;
     has_new_enc_info := has_new; ffi_new_enc_key := new_key; ffi_new_enc_nonce := new_nonce |}.

Definition clone_from_repr_c (c : FfiMDataInfo) : MDataInfo :=
  {| address := mdata_address_from_kind (md_kind_clone_from_repr_c (ffi_seq c))
                  (MkXorName (ffi_name c)) (ffi_type_tag c);
     enc_info := enc_info_from_repr_c (has_enc_info c) (ffi_enc_key c) (ffi_enc_nonce c);
     new_enc_info :=
       enc_info_from_repr_c (has_new_enc_info c) (ffi_new_enc_key c) (ffi_new_enc_nonce c) |}.
End crypto.

(** * Strings *)

Section strings.
Context `{ndt : !NdTypes, core : !CoreExt}.
(** What a generator gives at its draws: [gen::<char>()], [sample(Alphanumeric)], and
    [gen::<T>()]. *)
Context (char_at alphanumeric_at : Rng -> Z).

(** An endless iterator of characters, without the NULs, of which [length] are taken;
    the fuel bounds the draws. *)
Fixpoint take_chars (fuel length : nat) (rng : Rng) : option (Text * Rng) :=
  match length, fuel with
  | O, _ => Some ([], rng)
  | _, O => None
  | S rest, S fuel =>
      let c := char_at rng in
      if (c =? 0)%Z then take_chars fuel length (S rng)
      else (fun '(t, r) => (c :: t, r)) <$> take_chars fuel rest (S rng)
  end.

Definition generate_random_string_rng (fuel : nat) (rng : Rng) (length : nat) : option (Text * Rng) :=
  take_chars fuel length rng.
Definition generate_readable_string_rng (rng : Rng) (length : nat) : Text * Rng :=
  (map alphanumeric_at (seq rng length), rng + length).
Definition generate_random_vector_rng {T} (gen_at : Rng -> T) (rng : Rng) (length : nat) : list T * Rng :=
  (map gen_at (seq rng length), rng + length).

(** [OsRng::new()], when there is a generator. *)
Definition os_rng (r : option Rng) : result Rng CoreError :=
  match r with Some r => Ok r | None => Err RandomDataGenerationFailure end.

Definition generate_random_string (fuel : nat) (r : option Rng) (length : nat) : result (option Text) CoreError :=
  rmap (fun r => fst <$> generate_random_string_rng fuel r length) (os_rng r).
Definition generate_readable_string (r : option Rng) (length : nat) : result Text CoreError :=
  rmap (fun r => (generate_readable_string_rng r length).1) (os_rng r).
Definition generate_random_vector {T} (gen_at : Rng -> T) (r : option Rng) (length : nat) : result (list T) CoreError :=
  rmap (fun r => (generate_random_vector_rng gen_at r length).1) (os_rng r).

(** The draws that are not NUL, among the first [fuel]. *)
Definition drawn_chars (fuel : nat) (rng : Rng) : Text := base.filter (fun c => c <> 0%Z) (map char_at (seq rng fuel)).

(** A random string has the characters that were drawn, in their order, without the NULs;
    it is there as soon as enough of them were drawn. *)
Lemma random_string_ok fuel length_ rng :
  match generate_random_string_rng fuel rng length_ with
  | Some (t, r) => t = take length_ (drawn_chars fuel rng) /\ length t = length_ /\ rng <= r <= rng + fuel
  | None => length (drawn_chars fuel rng) < length_
  end.
Proof using Type.
  revert length_ rng. unfold generate_random_string_rng, drawn_chars.
  induction fuel as [|fuel IH]; intros [|n] rng; simpl; [split_and!; [done|done|lia..]|lia|split_and!; [done|done|lia..]|].
  rewrite list.filter_cons. destruct (Z.eqb_spec (char_at rng) 0) as [He|He].
  - rewrite decide_False by (intros H; by apply H). specialize (IH (S n) (S rng)).
    destruct (take_chars fuel (S n) (S rng)) as [[t r]|]; [|done]. destruct IH as (? & ? & ?). split_and!; [done|done|lia..].
  - rewrite decide_True by done. specialize (IH n (S rng)).
    destruct (take_chars fuel n (S rng)) as [[t r]|]; simpl.
    + destruct IH as (-> & Hl & ?). split_and!; [done|simpl; by rewrite Hl|lia..].
    + lia.
Qed.
End strings.

(** [{:02x}]. *)
Definition hex_digit (d : Z) : Z := if (d <? 10)%Z then (48 + d)%Z else (87 + d)%Z.
Definition hex_byte (b : Z) : Text := [hex_digit (b / 16); hex_digit (b mod 16)].
(** [{:?}] of a byte and of a slice of bytes. *)
Definition byte_debug (b : Z) : Text := lit (pretty b).
Fixpoint sep_by (sep : Text) (l : list Text) : Text :=
  match l with [] => [] | [t] => t | t :: l => t ++ sep ++ sep_by sep l end.
Definition bytes_debug (data : bytes) : Text := lit "[" ++ sep_by (lit ", ") (map byte_debug data) ++ lit "]".

Definition bin_data_format (data : bytes) : Text :=
  let len := length data in
  if decide (len < 8) then lit "[ " ++ bytes_debug data ++ lit " ]"
  else
    lit "[ " ++ sep_by (lit " ") (map (fun i => hex_byte (data !!! i)) [0; 1; 2; 3]) ++ lit ".." ++
    sep_by (lit " ") (map (fun i => hex_byte (data !!! i)) [len - 4; len - 3; len - 2; len - 1]) ++ lit " ]".

(** Long data is shown at one length, by its first and last four bytes. *)
Lemma bin_data_format_long first rest last :
  length first = 4 -> length last = 4 -> bin_data_format (first ++ rest ++ last) = bin_data_format (first ++ last) /\
  length (bin_data_format (first ++ rest ++ last)) = 28.
Proof.
  intros Hf Hl. assert (forall m i, i < 4 -> (first ++ m ++ last) !!! i = first !!! i) as Hfst.
  { intros m i Hi. apply lookup_total_app_l. lia. }
  assert (forall (m : bytes) i k, i + k = 4 -> 0 < k ->
    (first ++ m ++ last) !!! (length (first ++ m ++ last) - k) = last !!! i) as Hlst.
  { intros m i k Hi Hk. rewrite (assoc_L (++)), lookup_total_app_r; rewrite !length_app; [f_equal; lia|lia]. }
  assert (forall m : bytes, bin_data_format (first ++ m ++ last) =
    lit "[ " ++ sep_by (lit " ") (map (fun i => hex_byte (first !!! i)) [0; 1; 2; 3]) ++ lit ".." ++
    sep_by (lit " ") (map (fun i => hex_byte (last !!! i)) [0; 1; 2; 3]) ++ lit " ]") as Hb.
  { intros m. unfold bin_data_format. rewrite decide_False by (rewrite !length_app; lia). cbn [map].
    rewrite !Hfst by lia. rewrite (Hlst m 0 4), (Hlst m 1 3), (Hlst m 2 2), (Hlst m 3 1) by lia. done. }
  rewrite (Hb rest). split; [by rewrite <-(Hb [])|reflexivity].
Qed.
