(* ===== verification/MDataInfoProofs.v ===== *)
(** Encryption of mutable data entries: round trips, and the two-phase change of
    keys. *)
From S2P Require Import Prelude SafeNd SafeNdModel MockAccount CoreTypes Recovery.
From S2P Require Import RecoveryRepair MDataInfo.

Section proofs.
Context `{ndt : !NdTypes, core : !CoreExt, cr : !Crypto, crl : !CryptoLaws}.

(** * One cipher text *)

(** [c] is a cipher text of [p] under [k]. *)
Definition cipher_of (k : SymEncKey) (p c : bytes) : Prop :=
  exists n, symmetric_encrypt_with p k n = Ok c.

Lemma symmetric_encrypt_with_ok p k n : exists c, symmetric_encrypt_with p k n = Ok c.
Proof.
  unfold symmetric_encrypt_with.
  destruct (sym_roundtrip {| enc_nonce := n; enc_cipher_text := siv_seal k n p |}) as (b & -> & _).
  by exists b.
Qed.

Lemma cipher_of_deserialize k p c :
  cipher_of k p c ->
  exists n, deserialize_sym c = Ok {| enc_nonce := n; enc_cipher_text := siv_seal k n p |}.
Proof.
  intros [n Hc]. exists n. unfold symmetric_encrypt_with in Hc.
  destruct (sym_roundtrip {| enc_nonce := n; enc_cipher_text := siv_seal k n p |})
    as (b & Hb & Hd). rewrite Hb in Hc. by simplify_eq/=.
Qed.

Lemma symmetric_decrypt_ok k p c : cipher_of k p c -> symmetric_decrypt c k = Ok p.
Proof.
  intros [n Hd]%cipher_of_deserialize. unfold symmetric_decrypt. rewrite Hd. simpl.
  by rewrite siv_open_seal.
Qed.

Lemma symmetric_decrypt_wrong_key k k' p c :
  siv_authentic -> k <> k' -> cipher_of k p c ->
  symmetric_decrypt c k' = Err SymmetricDecipherFailure.
Proof.
  intros Hauth Hne [n Hd]%cipher_of_deserialize. unfold symmetric_decrypt. rewrite Hd. simpl.
  by rewrite (Hauth k k' n p Hne).
Qed.

Lemma symmetric_encrypt_ok p k i :
  exists c, symmetric_encrypt p k None i = Ret c (S i) /\ cipher_of k p c.
Proof.
  unfold symmetric_encrypt, bind. simpl.
  destruct (symmetric_encrypt_with_ok p k (random_bytes_at i SYM_ENC_NONCE_LEN)) as [c Hc].
  exists c. rewrite Hc. split; [done|]. by eexists.
Qed.

(** * Entry keys and values *)

(** The key entries are encrypted with, if they are. *)
Definition current_key (info : MDataInfo) : option SymEncKey :=
  match new_enc_info info, enc_info info with
  | Some (k, _), _ | None, Some (k, _) => Some k
  | None, None => None
  end.

(** [c] is what [info] makes of the plain text [p]. *)
Definition entry_cipher (info : MDataInfo) (p c : bytes) : Prop :=
  match current_key info with
  | Some k => cipher_of k p c
  | None => c = p
  end.

Lemma entry_cipher_decrypt info p c : entry_cipher info p c -> decrypt info c = Ok p.
Proof.
  unfold entry_cipher, current_key, decrypt.
  destruct (new_enc_info info) as [[k' n']|]; [|destruct (enc_info info) as [[k n]|]]; intros Hc.
  - by rewrite (symmetric_decrypt_ok k' p c).
  - by rewrite (symmetric_decrypt_ok k p c).
  - by rewrite Hc.
Qed.

Lemma enc_entry_key_ok info p : exists c, enc_entry_key info p = Ok c /\ entry_cipher info p c.
Proof.
  unfold enc_entry_key, entry_cipher, current_key, enc_entry_key_with.
  destruct (new_enc_info info) as [[k' n']|]; [|destruct (enc_info info) as [[k n]|]].
  - destruct (symmetric_encrypt_with_ok p k' (take SYM_ENC_NONCE_LEN (sha3_256 (p ++ n'))))
      as [c Hc]. exists c. split; [done|]. by eexists.
  - destruct (symmetric_encrypt_with_ok p k (take SYM_ENC_NONCE_LEN (sha3_256 (p ++ n))))
      as [c Hc]. exists c. split; [done|]. by eexists.
  - by exists p.
Qed.

Lemma enc_entry_value_ok info p i :
  exists c i', enc_entry_value info p i = Ret c i' /\ entry_cipher info p c.
Proof.
  unfold enc_entry_value, entry_cipher, current_key.
  destruct (new_enc_info info) as [[k' n']|]; [|destruct (enc_info info) as [[k n]|]].
  - destruct (symmetric_encrypt_ok p k' i) as (c & ? & ?). eauto.
  - destruct (symmetric_encrypt_ok p k i) as (c & ? & ?). eauto.
  - by exists p, i.
Qed.

(** Encryption never fails and decryption undoes it, for keys and for
    values, whether the data is public, private, or being re-encrypted. *)
Theorem entry_roundtrip info p i :
  exists ck cv i', enc_entry_key info p = Ok ck /\ decrypt info ck = Ok p /\
    enc_entry_value info p i = Ret cv i' /\ decrypt info cv = Ok p.
Proof.
  destruct (enc_entry_key_ok info p) as (ck & Hk & Hck).
  destruct (enc_entry_value_ok info p i) as (cv & i' & Hv & Hcv).
  exists ck, cv, i'. split_and!; auto using entry_cipher_decrypt.
Qed.

(** The two phases of a change of keys.  Once a new key has been generated,
    what was encrypted before and what is encrypted from now on both decrypt;
    once the change is committed, what was encrypted under the new key still
    decrypts, and what was left under the old one is refused. *)
Theorem reencryption_phases info k seed i p p' old :
  siv_authentic -> enc_info info = Some (k, seed) -> new_enc_info info = None ->
  random_bytes_at i SYM_ENC_KEY_LEN <> k -> entry_cipher info p old ->
  exists info1 i1, start_new_enc_info info i = Ret info1 i1 /\
    decrypt info1 old = Ok p /\
    decrypt (commit_new_enc_info info1) old = Err SymmetricDecipherFailure /\
    exists new i2, enc_entry_value info1 p' i1 = Ret new i2 /\
      decrypt info1 new = Ok p' /\ decrypt (commit_new_enc_info info1) new = Ok p'.
Proof.
  intros Hauth He Hn Hne Hold. unfold entry_cipher, current_key in Hold. rewrite Hn, He in Hold.
  unfold start_new_enc_info. rewrite He, Hn. unfold bind. simpl.
  set (k' := random_bytes_at i SYM_ENC_KEY_LEN) in *. set (n' := random_bytes_at (S i) _).
  set (info1 := {| address := address info; enc_info := Some (k, seed);
                   new_enc_info := Some (k', n') |}).
  assert (symmetric_decrypt old k' = Err SymmetricDecipherFailure) as Hrej.
  { apply (symmetric_decrypt_wrong_key k k' p); [done|congruence|done]. }
  exists info1, (S (S i)). split_and!; [done|..].
  - unfold decrypt. simpl. by rewrite Hrej, (symmetric_decrypt_ok k p old).
  - unfold decrypt. simpl. by rewrite Hrej.
  - destruct (enc_entry_value_ok info1 p' (S (S i))) as (new & i2 & Hv & Hc).
    exists new, i2. split_and!; [done|by apply entry_cipher_decrypt|].
    by apply entry_cipher_decrypt.
Qed.

(** * Maps of entries *)

(** The cipher text of a key. *)
Definition key_cipher (info : MDataInfo) (k : bytes) : bytes :=
  match enc_entry_key info k with Ok c => c | Err _ => k end.

Lemma key_cipher_ok info k :
  enc_entry_key info k = Ok (key_cipher info k) /\ decrypt info (key_cipher info k) = Ok k.
Proof.
  unfold key_cipher. destruct (enc_entry_key_ok info k) as (c & -> & Hc).
  split; [done|by apply entry_cipher_decrypt].
Qed.

#[local] Instance key_cipher_inj info : Inj (=) (=) (key_cipher info).
Proof.
  intros k k' Heq. destruct (key_cipher_ok info k) as [_ H1], (key_cipher_ok info k') as [_ H2].
  rewrite Heq in H1. congruence.
Qed.

(** [out] holds, under the cipher of each key of [m], something related to what
    [m] holds, and nothing else. *)
Definition encrypted_map {X} (info : MDataInfo) (R : X -> X -> Prop) (m out : gmap bytes X) : Prop :=
  (forall k x, m !! k = Some x -> exists y, out !! key_cipher info k = Some y /\ R x y) /\
  (forall c y, out !! c = Some y -> exists k x, m !! k = Some x /\ c = key_cipher info k /\ R x y).

Lemma encrypted_map_size {X} info (R : X -> X -> Prop) m out :
  encrypted_map info R m out -> size out = size m.
Proof.
  intros [Hmo Hom]. rewrite <-!size_dom.
  assert (dom out = set_map (key_cipher info) (dom m)) as ->.
  { apply set_eq. intros c. rewrite elem_of_map. setoid_rewrite elem_of_dom. split.
    - intros [y Hy]. destruct (Hom c y Hy) as (k & x & ? & -> & _). eauto.
    - intros (k & -> & x & Hk). destruct (Hmo k x Hk) as (y & ? & _). eauto. }
  unfold set_map. rewrite size_list_to_set, length_fmap; [done|].
  apply (NoDup_fmap_2 (key_cipher info)), NoDup_elements.
Qed.

(** The loops of [encrypt_entries] and [encrypt_entry_actions]. *)
Lemma encrypt_fold {X} (info : MDataInfo) (R : X -> X -> Prop) (enc : X -> M Rng CoreError X)
    (l : list (bytes * X)) (i : Rng)
    (out0 : gmap bytes X) :
  (forall x i, exists y i', enc x i = Ret y i' /\ R x y) ->
  exists out i', fold_m (fun (output : gmap bytes _) '(key, x) =>
      let! encrypted_key := lift_result (enc_entry_key info key) in
      let! y := enc x in
      ret (<[encrypted_key := y]> output)) l out0 i = Ret out i' /\
    exists l', Forall2 (fun p q => q.1 = key_cipher info p.1 /\ R p.2 q.2) l l' /\
      out = foldl (fun (m : gmap bytes _) p => <[p.1 := p.2]> m) out0 l'.
Proof.
  intros Henc. revert i out0. induction l as [|[k x] l IH]; intros i out0; simpl.
  - exists out0, i. split; [done|]. by exists [].
  - destruct (key_cipher_ok info k) as [Hk _]. destruct (Henc x i) as (y & i1 & Hy & HR).
    destruct (IH i1 (<[key_cipher info k := y]> out0)) as (out & i2 & Hf & l' & Hl & Hout).
    exists out, i2. split.
    + unfold bind. rewrite Hk. simpl. unfold bind. rewrite Hy. done.
    + exists ((key_cipher info k, y) :: l'). split; [by constructor|done].
Qed.

Lemma encrypt_fold_map {X} (info : MDataInfo) (R : X -> X -> Prop) (enc : X -> M Rng CoreError X)
    (m : gmap bytes X) (i : Rng) :
  (forall x i, exists y i', enc x i = Ret y i' /\ R x y) ->
  exists out i', fold_m (fun (output : gmap bytes _) '(key, x) =>
      let! encrypted_key := lift_result (enc_entry_key info key) in
      let! y := enc x in
      ret (<[encrypted_key := y]> output)) (btree_iter bytes_leb m) ∅ i = Ret out i' /\
    encrypted_map info R m out.
Proof.
  intros Henc.
  destruct (encrypt_fold info R enc (btree_iter bytes_leb m) i ∅ Henc)
    as (out & i' & Hf & l' & Hl & ->).
  do 2 eexists. split; [exact Hf|].
  assert (NoDup l'.*1) as Hnd.
  { replace l'.*1 with (map (key_cipher info) (btree_iter bytes_leb m).*1).
    - apply (NoDup_fmap_2 (key_cipher info)). apply NoDup_fst_btree_iter.
    - clear -Hl. induction Hl as [|p q l l' [H _] _ IH]; [done|]. csimpl. by rewrite H, <-IH. }
  assert (forall c y, foldl (fun (m : gmap bytes _) p => <[p.1 := p.2]> m) ∅ l' !! c = Some y <-> (c, y) ∈ l')
    as Hout.
  { intros c y. rewrite lookup_foldl_insert; [|done|done]. rewrite lookup_empty. naive_solver. }
  split.
  - intros k x Hk. apply (elem_of_btree_iter bytes_leb) in Hk.
    apply list_elem_of_lookup in Hk as [j Hj].
    destruct (Forall2_lookup_l _ _ _ _ _ Hl Hj) as ([c y] & Hj' & Hc & HR). simpl in *. subst.
    exists y. split; [|done]. apply Hout, list_elem_of_lookup. eauto.
  - intros c y Hc. apply Hout, list_elem_of_lookup in Hc as [j Hj].
    destruct (Forall2_lookup_r _ _ _ _ _ Hl Hj) as ([k x] & Hj' & Hc & HR). simpl in *. subst.
    exists k, x. split_and!; [|done|done]. apply (elem_of_btree_iter bytes_leb), list_elem_of_lookup.
    eauto.
Qed.

(** The loop of [decrypt_entries]. *)
Lemma decrypt_fold (info : MDataInfo) (l l' : list (bytes * MDataSeqValue)) (out0 : MDataSeqEntries) :
  Forall2 (fun p q => decrypt info p.1 = Ok q.1 /\ decrypt_value info p.2 = Ok q.2) l l' ->
  fold_r (fun output '(key, value) =>
      let? decrypted_key := decrypt info key in
      let? decrypted_value := decrypt_value info value in
      Ok (<[decrypted_key := decrypted_value]> output)) l out0 =
  Ok (foldl (fun (m : gmap bytes _) p => <[p.1 := p.2]> m) out0 l').
Proof.
  intros Hl. revert out0. induction Hl as [|[c y] [k x] l l' [Hk Hx] _ IH]; intros out0; [done|].
  simpl in *. rewrite Hk, Hx. simpl. apply IH.
Qed.

(** What is stored under the cipher texts of the keys decrypts to the map. *)
Lemma decrypt_entries_map info m out :
  encrypted_map info (fun x y => decrypt_value info y = Ok x) m out ->
  decrypt_entries info out = Ok m.
Proof.
  intros [Hmo Hom]. set (l := btree_iter bytes_leb out).
  assert (exists l', Forall2 (fun p q => decrypt info p.1 = Ok q.1 /\
      decrypt_value info p.2 = Ok q.2) l l' /\
      Forall2 (fun p q => p.1 = key_cipher info q.1 /\ m !! q.1 = Some q.2) l l')
    as (l' & Hdec & Hl').
  { assert (Forall (fun p => out !! p.1 = Some p.2) l) as Hall.
    { apply Forall_forall. intros [c y] Hin. apply list_elem_of_In in Hin.
      by apply (elem_of_btree_iter bytes_leb) in Hin. }
    clearbody l. induction Hall as [|[c y] l Hc _ (l' & IH1 & IH2)]; [by exists []|].
    simpl in Hc. destruct (Hom c y Hc) as (k & x & Hk & -> & Hd).
    exists ((k, x) :: l'). split; constructor; simpl; try done.
    split; [apply key_cipher_ok|done]. }
  unfold decrypt_entries. fold l. rewrite (decrypt_fold info l l' ∅ Hdec). f_equal.
  assert (NoDup l'.*1) as Hnd.
  { apply (NoDup_fmap_1 (key_cipher info)). replace (key_cipher info <$> l'.*1) with l.*1;
      [apply NoDup_fst_btree_iter|].
    clear -Hl'. induction Hl' as [|p q l l' [Hpq _] _ IH]; [done|]. csimpl. by rewrite Hpq, IH. }
  apply map_eq. intros k. apply option_eq. intros x.
  rewrite lookup_foldl_insert; [|done|done]. rewrite lookup_empty. split.
  - intros [[j Hj]%list_elem_of_lookup|?]; [|done].
    by destruct (Forall2_lookup_r _ _ _ _ _ Hl' Hj) as (? & _ & _ & ?).
  - intros Hk. left. destruct (Hmo k x Hk) as (y & Hy & _).
    apply (elem_of_btree_iter bytes_leb), list_elem_of_lookup in Hy as [j Hj].
    destruct (Forall2_lookup_l _ _ _ _ _ Hl' Hj) as ([k' x'] & Hj' & Hkk & Hx'). simpl in *.
    apply key_cipher_inj in Hkk as <-. rewrite Hk in Hx'. simplify_eq.
    apply list_elem_of_lookup. eauto.
Qed.

Lemma encrypt_value_ok info v i :
  exists c i', encrypt_value info v i = Ret c i' /\ decrypt_value info c = Ok v.
Proof.
  destruct (enc_entry_value_ok info (seq_data v) i) as (c & i' & Hc & He).
  exists {| seq_data := c; seq_version := seq_version v |}, i'. split.
  - unfold encrypt_value, bind. by rewrite Hc.
  - unfold decrypt_value. simpl. rewrite (entry_cipher_decrypt _ _ _ He). by destruct v.
Qed.

(** A map of entries survives encryption: [encrypt_entries] always returns,
    keeps distinct keys apart, and [decrypt_entries] gives the map back. *)
Theorem entries_roundtrip info entries i :
  exists out i', encrypt_entries info entries i = Ret out i' /\
    size out = size entries /\ decrypt_entries info out = Ok entries.
Proof.
  destruct (encrypt_fold_map info (fun x y => decrypt_value info y = Ok x) (encrypt_value info)
              entries i (encrypt_value_ok info)) as (out & i' & Hout & Hmap).
  exists out, i'. split_and!; [exact Hout|by eapply encrypted_map_size|by apply decrypt_entries_map].
Qed.

(** [y] is an encryption of the action [x]: the same action, with the same
    version, on a value that decrypts. *)
Definition encrypted_action (info : MDataInfo) (x y : MDataSeqEntryAction) : Prop :=
  match x, y with
  | Ins v, Ins w | Update v, Update w => decrypt_value info w = Ok v
  | Del n, Del n' => n = n'
  | _, _ => False
  end.

Lemma encrypt_entry_actions_map info actions i :
  exists out i', encrypt_entry_actions info actions i = Ret out i' /\
    encrypted_map info (encrypted_action info) actions out.
Proof.
  apply encrypt_fold_map. intros [v|v|n] j.
  - destruct (encrypt_value_ok info v j) as (c & i' & Hc & Hd). exists (Ins c), i'.
    by rewrite (bind_Ret _ _ _ _ _ Hc).
  - destruct (encrypt_value_ok info v j) as (c & i' & Hc & Hd). exists (Update c), i'.
    by rewrite (bind_Ret _ _ _ _ _ Hc).
  - by exists (Del n), j.
Qed.

Lemma encrypted_map_lookup {X} info (R : X -> X -> Prop) m out k :
  encrypted_map info R m out ->
  match m !! k, out !! key_cipher info k with
  | Some x, Some y => R x y
  | None, None => True
  | _, _ => False
  end.
Proof.
  intros [Hmo Hom]. destruct (m !! k) as [x|] eqn:Hk.
  - destruct (Hmo k x Hk) as (y & -> & HR). done.
  - destruct (out !! key_cipher info k) as [y|] eqn:Hc; [|done].
    destruct (Hom _ _ Hc) as (k' & x & Hk' & Heq & _). apply key_cipher_inj in Heq as <-.
    congruence.
Qed.

(** Applying encrypted actions to encrypted entries. *)
Lemma encrypted_map_applied info entries actions out outa :
  encrypted_map info (fun x y => decrypt_value info y = Ok x) entries out ->
  encrypted_map info (encrypted_action info) actions outa ->
  encrypted_map info (fun x y => decrypt_value info y = Ok x)
    (entries_applied entries actions) (entries_applied out outa).
Proof.
  intros He Ha. split.
  - intros k x. unfold entries_applied. rewrite !lookup_merge.
    pose proof (encrypted_map_lookup _ _ _ _ k He) as Hek.
    pose proof (encrypted_map_lookup _ _ _ _ k Ha) as Hak.
    destruct (actions !! k) as [[]|], (outa !! key_cipher info k) as [[]|];
      destruct (entries !! k), (out !! key_cipher info k); naive_solver.
  - intros c y. unfold entries_applied. rewrite lookup_merge. intros Hc.
    assert (exists k, c = key_cipher info k) as [k ->].
    { destruct (outa !! c) as [a|] eqn:Hac.
      - destruct (proj2 Ha _ _ Hac) as (k & ? & _ & ? & _). eauto.
      - destruct (out !! c) as [v|] eqn:Hoc; [|done].
        destruct (proj2 He _ _ Hoc) as (k & ? & _ & ? & _). eauto. }
    exists k. setoid_rewrite lookup_merge.
    pose proof (encrypted_map_lookup _ _ _ _ k He) as Hek.
    pose proof (encrypted_map_lookup _ _ _ _ k Ha) as Hak.
    destruct (actions !! k) as [[]|], (outa !! key_cipher info k) as [[]|];
      destruct (entries !! k), (out !! key_cipher info k); naive_solver.
Qed.

(** C20: a mutation of encrypted data is the encryption of the mutation: entry
    actions encrypted with the information the entries were encrypted with,
    applied to the encrypted entries, give data that decrypts to the plain
    actions applied to the plain entries. *)
Theorem encrypted_mutation_commutes info entries actions i j :
  exists out i' outa j', encrypt_entries info entries i = Ret out i' /\
    encrypt_entry_actions info actions j = Ret outa j' /\
    decrypt_entries info (entries_applied out outa) = Ok (entries_applied entries actions).
Proof.
  destruct (encrypt_fold_map info (fun x y => decrypt_value info y = Ok x) (encrypt_value info)
              entries i (encrypt_value_ok info)) as (out & i' & Hout & Hmap).
  destruct (encrypt_entry_actions_map info actions j) as (outa & j' & Houta & Hmapa).
  exists out, i', outa, j'. split_and!; [exact Hout|exact Houta|].
  by apply decrypt_entries_map, encrypted_map_applied.
Qed.

(** The C representation of the information loses nothing. *)
Lemma repr_c_roundtrip info : clone_from_repr_c (into_repr_c info) = info.
Proof.
  destruct info as [[[n] t|[n] t] [[k1 n1]|] [[k2 n2]|]]; reflexivity.
Qed.

End proofs.

(** * A concrete cipher *)

(** Two byte vectors in one, the first with its length. *)
Definition framed (a b : bytes) : bytes := Z.of_nat (length a) :: a ++ b.
Definition unframe (c : bytes) : option (bytes * bytes) :=
  match c with
  | n :: c => Some (take (Z.to_nat n) c, drop (Z.to_nat n) c)
  | [] => None
  end.

Lemma unframe_framed a b : unframe (framed a b) = Some (a, b).
Proof. unfold unframe, framed. by rewrite Nat2Z.id, take_app_length, drop_app_length. Qed.

(** Sealed text carries the key and the nonce it was sealed with, and opens under
    these only. *)
#[export] Instance ModelCrypto : Crypto := {|
  siv_seal k n p := framed k (framed n p);
  siv_open k n c :=
    match unframe c with
    | Some (k', c) =>
        match unframe c with
        | Some (n', p) => if bool_decide (k = k' /\ n = n') then Some p else None
        | None => None
        end
    | None => None
    end;
  sha3_256 b := b;
  sha3_512 b := b;
  serialize_sym e := Ok (framed (enc_nonce e) (enc_cipher_text e));
  deserialize_sym c :=
    match unframe c with
    | Some (n, t) => Ok {| enc_nonce := n; enc_cipher_text := t |}
    | None => Err ("malformed" : SerialisationError)
    end;
  random_bytes_at i len := replicate len (Z.of_nat i);
|}.

#[export] Instance ModelCryptoLaws : CryptoLaws.
Proof.
  split.
  - intros k n p. cbn [siv_open siv_seal ModelCrypto].
  rewrite !unframe_framed. by rewrite bool_decide_true.
  - intros [n t]. eexists. split; [done|].
    cbn [deserialize_sym ModelCrypto]. by rewrite unframe_framed.
  - intros i len. apply length_replicate.
Qed.

Lemma ModelCrypto_authentic : siv_authentic.
Proof.
  intros k k' n p Hne. cbn [siv_open siv_seal ModelCrypto].
  rewrite !unframe_framed. rewrite bool_decide_false; [done|].
  by intros [-> _].
Qed.

Definition ex_info : MDataInfo :=
  {| address := MSeq (MkXorName [50%Z]) 15000; enc_info := Some ([1; 2]%Z, [3]%Z);
     new_enc_info := None |}.
Definition ex_entries : MDataSeqEntries :=
  {[ [1%Z] := {| seq_data := [77%Z]; seq_version := 0 |};
     [2%Z] := {| seq_data := [78%Z]; seq_version := 4 |} ]}.
Definition ex_actions : gmap bytes MDataSeqEntryAction :=
  {[ [2%Z] := Del 5; [3%Z] := Ins {| seq_data := [79%Z]; seq_version := 0 |} ]}.

Example entry_roundtrip_witness :
  exists ck cv i', enc_entry_key ex_info [7%Z] = Ok ck /\ decrypt ex_info ck = Ok [7%Z] /\
    enc_entry_value ex_info [7%Z] 0%nat = Ret cv i' /\ decrypt ex_info cv = Ok [7%Z].
Proof. exact (entry_roundtrip ex_info [7%Z] 0%nat). Defined.

Example reencryption_phases_witness :
  exists info1 i1, start_new_enc_info ex_info 0%nat = Ret info1 i1 /\
    decrypt info1 (framed [5%Z] (framed [1; 2]%Z (framed [5%Z] [9%Z]))) = Ok [9%Z] /\
    decrypt (commit_new_enc_info info1)
      (framed [5%Z] (framed [1; 2]%Z (framed [5%Z] [9%Z]))) =
      Err SymmetricDecipherFailure /\
    exists new i2, enc_entry_value info1 [8%Z] i1 = Ret new i2 /\
      decrypt info1 new = Ok [8%Z] /\ decrypt (commit_new_enc_info info1) new = Ok [8%Z].
Proof.
  apply (reencryption_phases ex_info [1; 2]%Z [3]%Z 0%nat [9%Z] [8%Z]).
  - exact ModelCrypto_authentic.
  - reflexivity.
  - reflexivity.
  - done.
  - by exists [5%Z].
Defined.

Example entries_roundtrip_witness :
  exists out i', encrypt_entries ex_info ex_entries 0%nat = Ret out i' /\
    size out = size ex_entries /\ decrypt_entries ex_info out = Ok ex_entries.
Proof. exact (entries_roundtrip ex_info ex_entries 0%nat). Defined.

Example encrypted_mutation_commutes_witness :
  exists out i' outa j', encrypt_entries ex_info ex_entries 0%nat = Ret out i' /\
    encrypt_entry_actions ex_info ex_actions 9%nat = Ret outa j' /\
    decrypt_entries ex_info (entries_applied out outa) = Ok (entries_applied ex_entries ex_actions).
Proof. exact (encrypted_mutation_commutes ex_info ex_entries ex_actions 0%nat 9%nat). Defined.
