(* ===== verification/MockVaultLocal.v ===== *)
(** A request of the mock vault touches only the data it names. *)
From S2P Require Import Prelude SafeNd SafeNdModel MockAccount MockVault.
From S2P Require Import MockVaultRequests MockVaultProcess MockVaultSpec MockVaultRefine.
From S2P Require Import MockVaultSafety MockVaultBehaviour MockVaultAccess.

Section local.
Context `{ndt : !NdTypes, ndo : !NdOps, host : !Host}.

(** The data a request is about, if it may write data at all. *)
Definition written_data (req : Request) : option DataId :=
  match req with
  | PutIData d => Some (DImmutable (idata_address d))
  | DeleteUnpubIData a => Some (DImmutable a)
  | PutMData d => Some (DMutable (mdata_address d))
  | DeleteMData a | SetMDataUserPermissions a _ _ _ | DelMDataUserPermissions a _ _
  | MutateMDataEntries a _ => Some (DMutable a)
  | PutAData d => Some (DAppendOnly (adata_address d))
  | DeleteAData a | AddPubADataPermissions a _ _ | AddUnpubADataPermissions a _ _
  | SetADataOwner a _ _ => Some (DAppendOnly a)
  | AppendSeq op _ | AppendUnseq op => Some (DAppendOnly (append_address op))
  | _ => None
  end.

(** * Parts of the vault that coin operations leave alone *)

Section coins.
Context {X : Type} (f : Vault -> X).
Context (Hf : forall m v, f (set_coin_balances m v) = f v).

Lemma coin_balance_mut_at {A} n (m : M CoinBalance SndError A) none :
  preserves f none -> preserves f (get_coin_balance_mut n m none).
Proof using Hf.
  intros Hn v. unfold get_coin_balance_mut. destruct (coin_balances _ !! n) as [b|]; [|apply Hn].
  destruct (m b); apply Hf.
Qed.

Ltac coins := repeat (preserves_tac; try apply coin_balance_mut_at).

Lemma commit_mutation_at n : preserves f (commit_mutation n).
Proof using Hf. unfold commit_mutation. coins. Qed.

Lemma transfer_coins_at s d a t : preserves f (transfer_coins s d a t).
Proof using Hf. unfold transfer_coins. coins. Qed.

Lemma check_and_create_balance_at s d o a b :
  preserves f (check_and_create_balance s d o a b).
Proof using Hf.
  unfold check_and_create_balance, create_balance. coins. apply preserves_modify. auto.
Qed.

Lemma mock_create_balance_at o a : preserves f (mock_create_balance o a).
Proof using Hf. apply preserves_modify. auto. Qed.

Lemma authorise_operations_at ops o pk : preserves f (authorise_operations ops o pk).
Proof. apply preserves_readonly. auto with readonly. Qed.
End coins.

Hint Resolve commit_mutation_at transfer_coins_at check_and_create_balance_at
  mock_create_balance_at authorise_operations_at : preserves.
Hint Extern 1 (_ = _) => reflexivity : preserves.
Hint Resolve get_idata_readonly get_mdata_readonly get_mdata_at_readonly get_adata_readonly
  : readonly.

Ltac unfold_writes :=
  unfold handle_PutIData, handle_DeleteUnpubIData, handle_InsAuthKey, handle_DelAuthKey,
    handle_TransferCoins, handle_CreateBalance, handle_CreateLoginPacketFor,
    handle_CreateLoginPacket, handle_UpdateLoginPacket, handle_PutMData, handle_DeleteMData,
    handle_SetMDataUserPermissions, handle_DelMDataUserPermissions, handle_MutateMDataEntries,
    handle_PutAData, handle_DeleteAData, handle_AppendSeq, handle_AppendUnseq,
    handle_AddPubADataPermissions, handle_AddUnpubADataPermissions, handle_SetADataOwner,
    delete_idata, vault_ins_auth_key, vault_del_auth_key, ensure_account, insert_account,
    creation_perms, insert_login_packet, respond.

Ltac framed := repeat (preserves_tac; try (apply preserves_modify; intros; reflexivity)).

(** * Accounts *)

(** Only the requests about authorised keys change accounts. *)
Definition about_accounts (req : Request) : bool :=
  match req with
  | ListAuthKeysAndVersion | InsAuthKey _ _ _ | DelAuthKey _ _ => true
  | _ => false
  end.

Lemma dispatch_accounts r pk opk req :
  about_accounts req = false ->
  preserves (fun v => client_manager (cache v)) (dispatch r pk opk req).
Proof.
  intros Hreq. destruct (is_get req) eqn:Hg.
  - apply preserves_readonly, dispatch_get_readonly; [done|]. by intros ->.
  - destruct req; try done; simpl; unfold_writes;
      unfold put_data, commit_adata, insert_data, delete_data; framed.
Qed.

(** * Data *)

Section at_id.
Context (id : DataId).

Definition data_at (v : Vault) : option Data := nae_manager (cache v) !! id.

Lemma insert_data_at id' d : id' <> id -> preserves data_at (insert_data id' d).
Proof.
  intros Hne. apply preserves_modify. intros v. unfold data_at. simpl.
  by rewrite lookup_insert_ne.
Qed.

Lemma delete_data_at id' : id' <> id -> preserves data_at (delete_data id').
Proof.
  intros Hne. apply preserves_modify. intros v. unfold data_at. simpl.
  by rewrite lookup_delete_ne.
Qed.

Lemma account_mut_at {A} n (m : M Account SndError A) none :
  preserves data_at none -> preserves data_at (get_account_mut n m none).
Proof.
  intros Hn v. unfold get_account_mut. destruct (client_manager _ !! n) as [b|]; [|apply Hn].
  by destruct (m b).
Qed.

Ltac local := repeat (framed; try apply account_mut_at).

Lemma put_data_local id' d r : id' <> id -> preserves data_at (put_data id' d r).
Proof. intros Hne. unfold put_data. local. by apply insert_data_at. Qed.

Lemma commit_adata_local r id' d : id' <> id -> preserves data_at (commit_adata r id' d).
Proof. intros Hne. unfold commit_adata. local. by apply insert_data_at. Qed.

Lemma dispatch_local r pk opk req :
  written_data req <> Some id -> preserves data_at (dispatch r pk opk req).
Proof.
  intros Hne. destruct (is_get req) eqn:Hg.
  - destruct req; try (by apply preserves_readonly, dispatch_get_readonly).
    simpl. unfold handle_ListAuthKeysAndVersion, list_auth_keys_and_version, ensure_account,
      insert_account, respond. local.
  - destruct req; try done; simpl in Hne |- *; unfold_writes; local;
      first [apply put_data_local | apply delete_data_at | apply insert_data_at
            | apply commit_adata_local]; congruence.
Qed.

(** A request touches only the data it names.  Whatever the requester, the
    message and the outcome, data stored under an identifier other than the
    request's own is exactly as it was, present or absent. *)
Theorem request_locality r req mid sig v :
  written_data req <> Some id ->
  nae_manager (cache (final (process_request r (MsgRequest req mid sig) v))) !! id =
  nae_manager (cache v) !! id.
Proof.
  intros Hne. destruct (process_request_final r req mid sig v) as [->|(pk & opk & ->)]; [done|].
  by apply dispatch_local.
Qed.
End at_id.
End local.

Example request_locality_witness :
  nae_manager (cache (final (process_request alice
    (MsgRequest (DeleteUnpubIData (idata_address ex_unpub_idata)) ex_mid (Some (ex_sig 1))) ex_vault)))
    !! DImmutable (idata_address ex_pub_idata) =
  nae_manager (cache ex_vault) !! DImmutable (idata_address ex_pub_idata).
Proof.
  apply (request_locality (DImmutable (idata_address ex_pub_idata)) alice
    (DeleteUnpubIData (idata_address ex_unpub_idata)) ex_mid (Some (ex_sig 1)) ex_vault).
  discriminate.
Defined.
