(* ===== verification/SeqStore.v ===== *)
(** State kept in the entries of sequenced mutable data.

    The authenticator keeps its configuration and the access container in the
    entries of mutable data it owns.  [SeqMDataStore] is what its functions rely
    on: a client reads an entry, or mutates entries under the version rules of
    [safe_nd].  The mock network provides it to a client for the data it owns. *)
From S2P Require Import Prelude SafeNd SafeNdModel MockAccount MockVault.
From S2P Require Import MockVaultRequests MockVaultProcess MockVaultSpec.
From S2P Require Import MockVaultRefine MockVaultSafety MockVaultBehaviour MockVaultAccess.
From S2P Require Import CoreTypes ClientApi MockStore MockConnection MockShared.
From S2P Require Import MockClient MockVaultLocal Recovery RecoveryProofs RecoveryRepair.

(** * The interface *)

Section interface.
Context `{ndt : !NdTypes, ndo : !NdOps, core : !CoreExt, lru : !LruOps}.
Context {W : Type} `{net : !Network W}.

Class SeqMDataStore (client : Client) (name : XorName) (tag : Z) := {
  (** The data is stored with these entries, and the client can work on it. *)
  stored : MDataSeqEntries -> ClientInner W -> Prop;
  stored_get m k s : stored m s ->
    exists s', stored m s' /\
      get_seq_mdata_value client name tag k s =
        match m !! k with
        | Some v => Ret v s'
        | None => Fail (DataError NoSuchEntry) s'
        end;
  stored_mutate m acts s : stored m s ->
    let errors := entry_errors m (seq_into_actions acts) in
    exists s',
      (errors = ∅ /\ stored (entries_applied m (seq_into_actions acts)) s' /\
       mutate_seq_mdata_entries client name tag acts s = Ret tt s') \/
      (errors <> ∅ /\ stored m s' /\
       mutate_seq_mdata_entries client name tag acts s =
         Fail (DataError (InvalidEntryActions errors)) s');
}.
End interface.

(** * The mock network implements it *)

Section mock.
Context `{ndt : !NdTypes, ndo : !NdOps, ndl : !NdLaws, host : !Host}.
Context `{core : !CoreExt, corel : !CoreExtLaws, lru : !LruOps}.
Context `{env : !StoreEnv, rnd : !RandomSource}.

(** The owner may read, and the entries are what is read. *)
Class SeqReadLaws := {
  seq_owner_allowed d a pk :
    mdata_owner (MDSeq d) = pk -> mdata_check_permissions (MDSeq d) a pk = Ok tt;
  seq_get_entries d k : seq_mdata_get d k = seq_mdata_entries d !! k;
}.

Context `{seqm : !SeqMutateLaws, seqr : !SeqReadLaws}.
Context (id : ClientFullId).
Let c := client_full_public_id id.
Let pk := client_public_key c.

Abbreviation cvault s := (lk_vault (vault (connection_manager s))).

(** A vault the client can work with at no cost. *)
Definition serving (s : ClientInner MockNet) : Prop :=
  in_memory (connection_manager s) /\ vault_wf (cvault s) /\ ~ limited (cvault s).

(** The vault has processed the request of a call that came back. *)
Lemma client_processed req s resp v' :
  dispatch (PClient c) pk pk req (cvault s) = Ret resp v' ->
  exists mid sig, process_request (PClient c) (MsgRequest req mid sig) (cvault s) =
    Ret (MsgResponse resp mid) v'.
Proof.
  intros Hd. set (mid := message_id_at 0). destruct (serialize_request_ok req mid) as [b Hb].
  exists mid, (Some (safe_key_sign (SKClient id) b)).
  rewrite (client_request_eq c) by apply (safe_key_sign_ok (SKClient id) req mid b Hb). fold pk.
  unfold bind. by rewrite Hd.
Qed.

Lemma client_call req s resp v' :
  serving s -> dispatch (PClient c) pk pk req (cvault s) = Ret resp v' ->
  send (client_of id) req s = Ret resp (after_request v' s) /\ serving (after_request v' s) /\
  forall i, written_data req <> Some i ->
    nae_manager (cache v') !! i = nae_manager (cache (cvault s)) !! i.
Proof.
  intros (Hmem & Hwf & Hlim) Hd. destruct (client_processed req s resp v' Hd) as (mid & sig & Hp).
  pose proof (process_request_wf (PClient c) (MsgRequest req mid sig) _ Hwf) as Hwf'.
  pose proof (process_request_frame (PClient c) (MsgRequest req mid sig) _ Hwf) as [Hst Hcf].
  rewrite Hp in Hwf', Hst, Hcf. simpl in *. split_and!.
  - by apply (send_memory (client_of id) req s pk pk).
  - destruct Hmem as [Hm1 Hm2]. split_and!; [split; simpl; congruence|done|].
    unfold limited in *. simpl. by rewrite Hcf.
  - intros i Hi. pose proof (dispatch_local i (PClient c) pk pk req Hi (cvault s)) as Hl.
    by rewrite Hd in Hl.
Qed.

Context (name : XorName) (tag : Z).

Definition mock_stored (m : MDataSeqEntries) (s : ClientInner MockNet) : Prop :=
  serving s /\ exists d, nae_manager (cache (cvault s)) !! DMutable (MSeq name tag) =
    Some (Mutable (MDSeq d)) /\ mdata_owner (MDSeq d) = pk /\ seq_mdata_entries d = m.

(** Calls about other data leave the entries alone. *)
Lemma mock_stored_frame m req s resp v' :
  mock_stored m s -> dispatch (PClient c) pk pk req (cvault s) = Ret resp v' ->
  written_data req <> Some (DMutable (MSeq name tag)) -> mock_stored m (after_request v' s).
Proof.
  intros [Hs (d & Hd & Ho & Hm)] Hdis Hne. destruct (client_call req s resp v' Hs Hdis)
    as (_ & Hs' & Hloc). split; [done|]. exists d. simpl. by rewrite Hloc.
Qed.

Lemma mock_stored_get m k s :
  mock_stored m s ->
  exists s', mock_stored m s' /\
    get_seq_mdata_value (client_of id) name tag k s =
      match m !! k with
      | Some v => Ret v s'
      | None => Fail (DataError NoSuchEntry) s'
      end.
Proof.
  intros Hst. pose proof Hst as [Hs (d & Hd & Ho & Hm)].
  set (req := GetMDataValue (MSeq name tag) k).
  assert (dispatch (PClient c) pk pk req (cvault s) = Ret (RGetMDataValue
    (ok_or_r (VSeq <$> m !! k) NoSuchEntry)) (cvault s)) as Hdis.
  { simpl. unfold handle_GetMDataValue, get_mdata, get_data, respond, bind, attempt, gets.
    rewrite Hd. simpl. rewrite (seq_owner_allowed d MRead pk Ho). simpl. unfold match_mdata.
    rewrite (proj1 (mdata_address_kind_spec name tag)), seq_get_entries, Hm.
    by destruct (m !! k). }
  exists (after_request (cvault s) s). split; [by eapply mock_stored_frame|].
  unfold get_seq_mdata_value. rewrite (bind_Ret _ _ _ _ _ (proj1 (client_call req s _ _ Hs Hdis))).
  by destruct (m !! k).
Qed.

Lemma mock_stored_mutate m acts s :
  mock_stored m s ->
  let errors := entry_errors m (seq_into_actions acts) in
  exists s',
    (errors = ∅ /\ mock_stored (entries_applied m (seq_into_actions acts)) s' /\
     mutate_seq_mdata_entries (client_of id) name tag acts s = Ret tt s') \/
    (errors <> ∅ /\ mock_stored m s' /\
     mutate_seq_mdata_entries (client_of id) name tag acts s =
       Fail (DataError (InvalidEntryActions errors)) s').
Proof.
  intros Hst. pose proof Hst as [Hs (d & Hd & Ho & Hm)]. intros errors.
  pose proof Hs as (Hmem & Hwf & Hlim).
  assert (mdata_address (MDSeq d) = MSeq name tag) as Haddr.
  { pose proof (wf_data _ Hwf _ _ Hd) as Hid. by injection Hid. }
  pose proof (owner_mutation id d name tag acts (cvault s) Hd Haddr (or_introl Hlim)) as H1.
  pose proof (seq_mutate_owner d acts pk Ho) as L1. rewrite Hm in L1. fold c pk in H1.
  destruct (mdata_mutate_entries _ _ _) as [d1|e] eqn:Hmut.
  - destruct H1 as (v' & Hdis & Hv'), L1 as (Herr & x & -> & Hx). exists (after_request v' s). left.
    split_and!; [done| |by apply (client_mutation id _ _ (Ok tt))].
    destruct (client_call _ _ _ _ Hs Hdis) as (_ & Hs' & _). split; [done|]. exists x.
    split_and!; [done| |done].
    by rewrite (proj2 (mdata_mutate_entries_address _ _ _ _ Hmut)).
  - destruct L1 as [Hne ->]. exists (after_request (cvault s) s). right.
    split_and!; [done| |by apply (client_mutation id _ _ (Err (InvalidEntryActions errors)))].
    destruct (client_call _ _ _ _ Hs H1) as (_ & Hs' & _). split; [done|]. by exists d.
Qed.

#[export] Instance MockSeqStore : SeqMDataStore (client_of id) name tag := {|
  stored := mock_stored; stored_get := mock_stored_get; stored_mutate := mock_stored_mutate |}.
End mock.

#[export] Instance ModelSeqRead : SeqReadLaws.
Proof.
  split; [|done]. intros d a pk Ho. simpl in *. unfold model_granted.
  by rewrite bool_decide_eq_true_2.
Qed.
