(* ===== verification/AuthTypes.v ===== *)
(** The authenticator: its errors ([safe_authenticator/src/errors.rs]), its data
    ([safe_core/src/ipc/req], [safe_core/src/ipc/resp.rs],
    [safe_authenticator/src/config.rs]) and the state its functions run in.

    [AuthExt] holds what comes from other crates: the asymmetric keys, the
    iteration order of a [HashMap] and the string errors of [ffi_utils]. *)
From stdpp Require Import pretty.
From S2P Require Import Prelude SafeNd SafeNdModel MockAccount CoreTypes ClientApi.
From S2P Require Import Recovery MDataInfo.

(** The bytes of a string. *)
Definition as_bytes (s : string) : bytes :=
  map (fun a => Z.of_nat (Ascii.nat_of_ascii a)) (String.list_ascii_of_string s).

Class AuthExt `{!NdTypes, !CoreExt} := {
  StringErrorT : Type;
  EncPublicKey : Type;
  EncSecretKey : Type;
  (** [shared_box::gen_keypair] and [AppFullId::new_bls], one draw each. *)
  gen_keypair_at : nat -> EncPublicKey * EncSecretKey;
  new_bls_at : nat -> ClientPublicId -> AppFullId;
  (** The order in which a [HashMap] is iterated is unspecified. *)
  hash_iter {K V} `{Countable K} : gmap K V -> list (K * V);
}.

Class AuthExtLaws `{!NdTypes, !CoreExt, !AuthExt} := {
  hash_iter_perm {K V} `{Countable K} (m : gmap K V) : hash_iter m ≡ₚ map_to_list m;
}.

(** [Default::default()]: the collections start out empty. *)
Class RustDefault (T : Type) := default_of : T.
#[export] Instance hash_map_default {K V} `{Countable K} : RustDefault (gmap K V) := (∅ : gmap K V).
#[export] Instance vec_deque_default {X} : RustDefault (list X) := ([] : list X).

(** [bincode] at the types of the configuration entries. *)
Class Serial `{!NdTypes, !CoreExt} (T : Type) := {
  serialize_of : T -> result bytes SerialisationError;
  deserialize_of : bytes -> result T SerialisationError;
}.

Class SerialLaws `{!NdTypes, !CoreExt} (T : Type) `{!Serial T} :=
  serial_roundtrip t : exists b, serialize_of t = Ok b /\ b <> [] /\ deserialize_of b = Ok t.

(** [Debug] of [StringError] and of [XorName]. *)
Class AuthTexts `{!NdTypes, !CoreExt, !AuthExt} := {
  string_error_debug : StringErrorT -> string;
  xor_name_debug : XorName -> string;
}.

Section auth_types.
Context `{ndt : !NdTypes, ndo : !NdOps, core : !CoreExt, lru : !LruOps}.
Context `{cr : !Crypto, auth : !AuthExt}.

(** * Errors *)

Inductive IpcError :=
| AuthDenied
| ContainersDenied
| InvalidMsg
| IpcEncodeDecodeError
| IpcStringError (e : StringErrorT)
| AlreadyAuthorised
| UnknownApp
| ShareMDataDenied
| InvalidOwner (l : list (XorName * Z))
| IncompatibleMockStatus
| IpcUnexpected (msg : string).

Inductive NfsError :=
| NfsCoreError (e : CoreError)
| FileExists
| FileNotFound
| InvalidRange
| NfsUnexpected (msg : string)
| NfsEncodeDecodeError (e : SerialisationError)
| NfsSelfEncryption (e : SelfEncryptionError).

Inductive AuthError :=
| AuthUnexpected (msg : string)
| AuthCoreError (e : CoreError)
| AuthSndError (e : SndError)
| AuthIoError (e : IoErrorT)
| AuthNfsError (e : NfsError)
| AuthEncodeDecodeError
| AuthIpcError (e : IpcError)
| AccountContainersCreation (msg : string)
| NoSuchContainer (msg : string)
| PendingRevocation.

(** ** Their texts *)

Section texts.
Context `{ctxt : !CoreTexts, atxt : !AuthTexts}.

(** A derived [Debug]: the name of the constructor, with its field. *)
Definition debug_field (name field : string) : string := name +:+ "(" +:+ field +:+ ")".
Definition debug_list (l : list string) : string := "[" +:+ String.concat ", " l +:+ "]".

Definition ipc_error_debug (e : IpcError) : string :=
  match e with
  | AuthDenied => "AuthDenied"
  | ContainersDenied => "ContainersDenied"
  | InvalidMsg => "InvalidMsg"
  | IpcEncodeDecodeError => "EncodeDecodeError"
  | IpcStringError e => debug_field "StringError" (string_error_debug e)
  | AlreadyAuthorised => "AlreadyAuthorised"
  | UnknownApp => "UnknownApp"
  | ShareMDataDenied => "ShareMDataDenied"
  | InvalidOwner l =>
      debug_field "InvalidOwner"
        (debug_list (map (fun '(name, tag) => "(" +:+ xor_name_debug name +:+ ", " +:+ pretty tag +:+ ")") l))
  | IncompatibleMockStatus => "IncompatibleMockStatus"
  | IpcUnexpected msg => debug_field "Unexpected" (str_debug msg)
  end.

Definition nfs_error_display (e : NfsError) : string :=
  match e with
  | NfsCoreError error => "Client Errror: " +:+ core_error_display error
  | FileExists => "File already exists with the same name in a directory"
  | FileNotFound => "File not found"
  | InvalidRange => "Invalid byte range specified"
  | NfsUnexpected error => "Unexpected error - " +:+ str_debug error
  | NfsEncodeDecodeError error => "Unsuccessful Serialisation or Deserialisation: " +:+ serialisation_debug error
  | NfsSelfEncryption error => "Error while self-encrypting/-decrypting data: " +:+ self_encryption_debug error
  end.

Definition nfs_error_debug (e : NfsError) : string :=
  match e with
  | NfsCoreError error => "NfsError::CoreError -> " +:+ core_error_debug error
  | FileExists => "NfsError::FileExists"
  | FileNotFound => "NfsError::FileNotFound"
  | InvalidRange => "NfsError::InvalidRange"
  | NfsUnexpected error => "NfsError::Unexpected -> " +:+ str_debug error
  | NfsEncodeDecodeError error => "NfsError::EncodeDecodeError -> " +:+ serialisation_debug error
  | NfsSelfEncryption error => "NfsError::SelfEncrpytion -> " +:+ self_encryption_debug error
  end.

Definition auth_error_display (e : AuthError) : string :=
  match e with
  | AuthUnexpected error => "Unexpected (probably a logic error): " +:+ error
  | AuthCoreError error => "Core error: " +:+ core_error_display error
  | AuthSndError error => "Safe ND error: " +:+ snd_display error
  | AuthIoError error => "I/O error: " +:+ io_display error
  | AuthNfsError error => "NFS error: " +:+ nfs_error_debug error
  | AuthEncodeDecodeError => "Serialisation error"
  | AuthIpcError error => "IPC error: " +:+ ipc_error_debug error
  | AccountContainersCreation reason =>
      "Account containers creation error: " +:+ reason +:+ ". Login to attempt recovery."
  | NoSuchContainer name => "'" +:+ name +:+ "' not found in the access container"
  | PendingRevocation => "Couldn't authenticate app that is pending revocation"
  end.

(** [#[derive(Debug)]]. *)
Definition auth_error_debug (e : AuthError) : string :=
  match e with
  | AuthUnexpected error => debug_field "Unexpected" (str_debug error)
  | AuthCoreError error => debug_field "CoreError" (core_error_debug error)
  | AuthSndError error => debug_field "SndError" (snd_debug error)
  | AuthIoError error => debug_field "IoError" (io_debug error)
  | AuthNfsError error => debug_field "NfsError" (nfs_error_debug error)
  | AuthEncodeDecodeError => "EncodeDecodeError"
  | AuthIpcError error => debug_field "IpcError" (ipc_error_debug error)
  | AccountContainersCreation reason => debug_field "AccountContainersCreation" (str_debug reason)
  | NoSuchContainer name => debug_field "NoSuchContainer" (str_debug name)
  | PendingRevocation => "PendingRevocation"
  end.
End texts.

(** * Apps and permissions *)

Inductive Permission := PRead | PInsert | PUpdate | PDelete | PManagePermissions.

#[export] Instance Permission_eq : EqDecision Permission.
Proof. solve_decision. Defined.
#[export] Instance Permission_countable : Countable Permission.
Proof.
  refine (inj_countable'
    (fun p => match p with PRead => 0 | PInsert => 1 | PUpdate => 2 | PDelete => 3
              | PManagePermissions => 4 end)
    (fun n => match n with 0 => PRead | 1 => PInsert | 2 => PUpdate | 3 => PDelete
              | _ => PManagePermissions end) _). by intros [].
Defined.

Record AppExchangeInfo := {
  app_id : string; app_scope : option string; app_name : string; app_vendor : string }.

Record AppKeys := {
  app_full_id : AppFullId; app_enc_key : SymEncKey;
  app_enc_pk : EncPublicKey; app_enc_sk : EncSecretKey }.

Definition app_keys_public_key (keys : AppKeys) : PublicKey :=
  app_public_key (app_full_public_id (app_full_id keys)).

(** [AppInfo] of [config.rs]. *)
Record AppInfo := { info : AppExchangeInfo; keys : AppKeys }.

Definition app_container_name (app_id : string) : string := String.append "apps/" app_id.

(** * The client of the authenticator *)

(** [AuthClient]: a client, and the parts of the account packet its functions
    read. *)
Record AuthClient := {
  ac_client : Client;
  config_root_dir : MDataInfo;
  access_container : MDataInfo;
  secret_symmetric_key : SymEncKey;
}.

Context {W : Type} `{net : !Network W}.

Record AuthState := { inner : ClientInner W; auth_rng : Rng }.

Definition set_inner (i : ClientInner W) (s : AuthState) : AuthState :=
  {| inner := i; auth_rng := auth_rng s |}.
Definition set_auth_rng (r : Rng) (s : AuthState) : AuthState :=
  {| inner := inner s; auth_rng := r |}.

(** A call of the client, or a draw of the random generator, with the errors of
    [safe_core]. *)
Definition on_inner {A} (m : M (ClientInner W) CoreError A) : M AuthState CoreError A := fun s =>
  match m (inner s) with
  | Ret a i => Ret a (set_inner i s)
  | Fail e i => Fail e (set_inner i s)
  | Panic i => Panic (set_inner i s)
  | Pending i => Pending (set_inner i s)
  end.

Definition on_rng {A} (m : M Rng CoreError A) : M AuthState CoreError A := fun s =>
  match m (auth_rng s) with
  | Ret a r => Ret a (set_auth_rng r s)
  | Fail e r => Fail e (set_auth_rng r s)
  | Panic r => Panic (set_auth_rng r s)
  | Pending r => Pending (set_auth_rng r s)
  end.

(** [.map_err(AuthError::from)] on what [safe_core] returns. *)
Definition from_core {A} (m : M AuthState CoreError A) : M AuthState AuthError A :=
  map_err AuthCoreError m.

(** [From<SerialisationError> for AuthError]. *)
Definition auth_serialisation {A} (r : result A SerialisationError) : result A AuthError :=
  match r with Ok a => Ok a | Err _ => Err AuthEncodeDecodeError end.

Lemma on_inner_Ret {A} (m : M (ClientInner W) CoreError A) a i s :
  m (inner s) = Ret a i -> on_inner m s = Ret a (set_inner i s).
Proof. intros Hm. unfold on_inner. by rewrite Hm. Qed.

Lemma on_inner_Fail {A} (m : M (ClientInner W) CoreError A) e i s :
  m (inner s) = Fail e i -> on_inner m s = Fail e (set_inner i s).
Proof. intros Hm. unfold on_inner. by rewrite Hm. Qed.

Lemma on_rng_Ret {A} (m : M Rng CoreError A) a r s :
  m (auth_rng s) = Ret a r -> on_rng m s = Ret a (set_auth_rng r s).
Proof. intros Hm. unfold on_rng. by rewrite Hm. Qed.

Lemma from_core_Ret {A} (m : M AuthState CoreError A) a s s' :
  m s = Ret a s' -> from_core m s = Ret a s'.
Proof. intros Hm. unfold from_core, map_err, or_else. by rewrite Hm. Qed.

Lemma from_core_Fail {A} (m : M AuthState CoreError A) e s s' :
  m s = Fail e s' -> from_core m s = Fail (AuthCoreError e) s'.
Proof. intros Hm. unfold from_core, map_err, or_else. by rewrite Hm. Qed.

Lemma bind_from_core_ok {A B} (a : A) (k : A -> M AuthState AuthError B) s :
  bind (from_core (lift_result (Ok a))) k s = k a s.
Proof. done. Qed.

(** * Keys *)

(** [AppKeys::new]. *)
Definition app_keys_new (client_public_id : ClientPublicId) : M Rng CoreError AppKeys :=
  let! (enc_pk, enc_sk) := (fun i => Ret (gen_keypair_at i) (S i)) in
  let! app_full_id := (fun i => Ret (new_bls_at i client_public_id) (S i)) in
  let! enc_key := generate_sym_enc_key in
  ret {| app_full_id := app_full_id; app_enc_key := enc_key;
         app_enc_pk := enc_pk; app_enc_sk := enc_sk |}.

(** [access_container_enc_key] of [ipc/resp.rs]. *)
Definition access_container_enc_key (app_id : string) (app_enc_key : SymEncKey)
    (access_container_nonce : SymEncNonce) : result bytes CoreError :=
  let key := as_bytes app_id in
  let key_pt := key ++ access_container_nonce in
  let key_nonce := take SYM_ENC_NONCE_LEN (sha3_256 key_pt) in
  symmetric_encrypt_with key app_enc_key key_nonce.
End auth_types.

Abbreviation Apps := (gmap bytes AppInfo).
Abbreviation RevocationQueue := (list string).
Abbreviation ContainerPermissions := (gset Permission).
Abbreviation AccessContainerEntry := (gmap string (MDataInfo * ContainerPermissions)).

(** * Computations that keep an invariant of their state

    Whatever they do: closure under the combinators of [Prelude], with a tactic that
    walks through a program. *)

(** Whether it returns or fails, the invariant holds after; if it stops, [X]
    does: [X := fun _ => False] says it comes back. *)
Definition keeps {S E A} (X J : S -> Prop) (m : M S E A) : Prop :=
  forall s, J s -> wp m (fun _ => J) (fun _ => J) X s.
Abbreviation runs J m := (keeps (fun _ => False) J m).

Create HintDb keeps discriminated.

Section keeps.
Context {S E : Type} (X J : S -> Prop).

Lemma keeps_ret {A} (a : A) : keeps (E := E) X J (ret a).
Proof. by intros s Hs. Qed.
Lemma keeps_fail {A} (e : E) : keeps (A := A) X J (fail e).
Proof. by intros s Hs. Qed.
Lemma keeps_lift_result {A} (r : result A E) : keeps X J (lift_result r).
Proof. intros s Hs. by destruct r. Qed.
Lemma keeps_ok_or {A} (o : option A) (e : E) : keeps X J (ok_or o e).
Proof. intros s Hs. by destruct o. Qed.
Lemma keeps_bind {A B} (m : M S E A) (k : A -> M S E B) :
  keeps X J m -> (forall a, keeps X J (k a)) -> keeps X J (bind m k).
Proof. intros Hm Hk s Hs. apply wp_bind. eapply wp_mono; [by apply Hm|..]; done. Qed.
Lemma keeps_or_else {G A} (m : M S G A) (k : G -> M S E A) :
  keeps X J m -> (forall e, keeps X J (k e)) -> keeps X J (or_else m k).
Proof. intros Hm Hk s Hs. apply wp_or_else. eapply wp_mono; [by apply Hm|..]; done. Qed.
Lemma keeps_attempt {G A} (m : M S G A) : keeps X J m -> keeps (E := E) X J (attempt m).
Proof. intros Hm s Hs. apply wp_attempt. eapply wp_mono; [by apply Hm|..]; done. Qed.
Lemma keeps_for_each {Y} (l : list Y) (body : Y -> M S E unit) :
  (forall x, keeps X J (body x)) -> keeps X J (for_each l body).
Proof. intros Hb. induction l; simpl; [apply keeps_ret|by apply keeps_bind]. Qed.
Lemma keeps_fold_m {Y B} (f : B -> Y -> M S E B) (l : list Y) b :
  (forall b x, keeps X J (f b x)) -> keeps X J (fold_m f l b).
Proof. intros Hf. revert b. induction l; intros b; simpl; [apply keeps_ret|by apply keeps_bind]. Qed.

(** A loop that makes progress comes back when its iterations do. *)
Lemma keeps_loop_fn {T L} (mu : L -> nat) (body : L -> M S E (Loop T L)) fuel l :
  (forall l, keeps X J (body l)) ->
  (forall l s l' s', body l s = Ret (Continue l') s' -> (mu l' < mu l)%nat) ->
  (mu l < fuel)%nat -> keeps X J (loop_fn fuel l body).
Proof.
  intros Hb Hdec. revert l. induction fuel as [|n IH]; intros l Hlt s Hs; [lia|].
  simpl. apply wp_bind. specialize (Hb l s Hs). specialize (Hdec l s). unfold wp in *.
  destruct (body l s) as [[t|l'] s'| | |]; try done.
  apply IH; [|done]. specialize (Hdec l' s' eq_refl). lia.
Qed.

Lemma keeps_unwrap {A} (o : option A) : (forall s, J s -> X s) -> keeps (E := E) X J (unwrap o).
Proof. intros HX s Hs. destruct o; [done|by apply HX]. Qed.
End keeps.

(** A loop that may run out of fuel. *)
Lemma keeps_fuel {S E T L} (J : S -> Prop) (body : L -> M S E (Loop T L)) fuel l :
  (forall l, keeps J J (body l)) -> keeps J J (loop_fn fuel l body).
Proof. intros Hb s Hs. by apply wp_loop_fn. Qed.

#[export] Hint Resolve keeps_ret keeps_fail keeps_lift_result keeps_ok_or : keeps.

Ltac keeps_tac :=
  repeat match goal with
  | |- keeps _ _ (bind _ _) => apply keeps_bind; [|intros ?]
  | |- keeps _ _ (or_else _ _) => apply keeps_or_else; [|intros ?]
  | |- keeps _ _ (map_err _ _) => apply keeps_or_else; [|intros ?]
  | |- keeps _ _ (from_core _) => apply keeps_or_else; [|intros ?]
  | |- keeps _ _ (attempt _) => apply keeps_attempt
  | |- keeps _ _ (for_each _ _) => apply keeps_for_each; intros ?
  | |- keeps _ _ (fold_m _ _ _) => apply keeps_fold_m; intros ? ?
  | |- keeps _ _ (match ?x with _ => _ end) => destruct x
  | |- keeps _ _ _ => solve [auto with keeps]
  end.
