(* ===== verification/AuthConfig.v ===== *)
(** The configuration of the authenticator ([safe_authenticator/src/config.rs]):
    the list of apps and the revocation queue, each an entry of the mutable data
    of the configuration root, encrypted and versioned.

    [mutate_entry] of the source loops until its update is accepted; the fuel is
    an argument here. *)
From S2P Require Import Prelude SafeNd SafeNdModel MockAccount CoreTypes ClientApi Recovery.
From S2P Require Import MDataInfo AuthTypes.

Definition KEY_APPS : bytes := as_bytes "apps".
Definition KEY_APP_REVOCATION_QUEUE : bytes := as_bytes "revocation-queue".

Section config.
Context `{ndt : !NdTypes, ndo : !NdOps, core : !CoreExt, lru : !LruOps}.
Context `{cr : !Crypto, auth : !AuthExt}.
Context {W : Type} `{net : !Network W}.
Context `{sapps : !Serial Apps, squeue : !Serial RevocationQueue}.
Abbreviation A T := (M (AuthState (W := W)) AuthError T).

Definition next_version (version : option Z) : Z :=
  match version with Some v => u64_add v 1 | None => 0 end.

(** * Entries *)

Definition get_entry {T} `{!RustDefault T, !Serial T} (client : AuthClient) (key : bytes) : A (option Z * T) :=
  let parent := config_root_dir client in
  let! key := from_core (lift_result (enc_entry_key parent key)) in
  or_else
    (let! value := on_inner (get_seq_mdata_value (ac_client client)
                     (mdata_address_name (address parent)) (mdata_address_tag (address parent))
                     key) in
     let! decoded := lift_result (decrypt parent (seq_data value)) in
     let! decoded :=
       if negb (bool_decide (decoded = []))
       then lift_result (from_serialisation (deserialize_of decoded))
       else ret default_of in
     ret (Some (seq_version value), decoded))
    (fun error =>
       match error with
       | DataError NoSuchEntry => ret (None, default_of)
       | _ => fail (AuthCoreError error)
       end).

Definition update_entry {T} `{!Serial T} (client : AuthClient) (key : bytes) (content : T)
    (new_version : Z) : A unit :=
  let parent := config_root_dir client in
  let! key := from_core (lift_result (enc_entry_key parent key)) in
  let! encoded := lift_result (auth_serialisation (serialize_of content)) in
  let! encoded := from_core (on_rng (enc_entry_value parent encoded)) in
  let actions :=
    if (new_version =? 0)%Z then seq_actions_ins seq_actions_new key encoded 0
    else seq_actions_update seq_actions_new key encoded new_version in
  from_core
    (or_else
       (on_inner (mutate_seq_mdata_entries (ac_client client)
          (mdata_address_name (address parent)) (mdata_address_tag (address parent)) actions))
       (fun error =>
          match error with
          | DataError (InvalidEntryActions errors) =>
              match errors !! key with
              | Some (EInvalidSuccessor version_ | EEntryExists version_) =>
                  fail (DataError (InvalidSuccessor version_))
              | _ => fail error
              end
          | _ => fail error
          end)).

(** [f] mutates the item in place and says whether it changed it. *)
Definition mutate_attempt_entry {T} `{!RustDefault T, !Serial T} (client : AuthClient) (f : T -> T * bool)
    (st : bytes * Z * T) : A (Loop (Z * T) (bytes * Z * T)) :=
  let '(key, new_version, item) := st in
  let '(item, changed) := f item in
  if (changed : bool) then
    or_else
      (update_entry client key item new_version ;! ret (Break (new_version, item)))
      (fun error =>
         match error with
         | AuthCoreError (DataError (InvalidSuccessor _)) =>
             let! (version_, item) := get_entry client key in
             ret (Continue (key, next_version version_, item))
         | _ => fail error
         end)
  else ret (Break (u64_sub new_version 1, item)).

Definition mutate_entry {T} `{!RustDefault T, !Serial T} (fuel : nat) (client : AuthClient)
    (key : bytes) (item : T) (new_version : Z) (f : T -> T * bool) : A (Z * T) :=
  loop_fn fuel (key, new_version, item) (mutate_attempt_entry client f).

(** * Apps *)

Definition list_apps (client : AuthClient) : A (option Z * Apps) := get_entry client KEY_APPS.

Definition get_app (client : AuthClient) (app_id : string) : A AppInfo :=
  let app_id_hash := sha3_256 (as_bytes app_id) in
  let! (_, config) := list_apps client in
  ok_or (config !! app_id_hash) (AuthIpcError UnknownApp).

Definition insert_app_f (app : AppInfo) (apps : Apps) : Apps * bool :=
  let hash := sha3_256 (as_bytes (app_id (info app))) in
  (<[hash := app]> apps, bool_decide (apps !! hash = None)).

Definition insert_app (fuel : nat) (client : AuthClient) (apps : Apps) (new_version : Z)
    (app : AppInfo) : A (Z * Apps) :=
  mutate_entry fuel client KEY_APPS apps new_version (insert_app_f app).

Definition remove_app_f (app_id : string) (apps : Apps) : Apps * bool :=
  let hash := sha3_256 (as_bytes app_id) in
  (delete hash apps, bool_decide (is_Some (apps !! hash))).

Definition remove_app (fuel : nat) (client : AuthClient) (apps : Apps) (new_version : Z)
    (app_id : string) : A (Z * Apps) :=
  mutate_entry fuel client KEY_APPS apps new_version (remove_app_f app_id).

(** * The revocation queue *)

Definition get_app_revocation_queue (client : AuthClient) : A (option Z * RevocationQueue) :=
  get_entry client KEY_APP_REVOCATION_QUEUE.

Definition push_f (app_id : string) (queue : RevocationQueue) : RevocationQueue * bool :=
  if bool_decide (app_id ∉ queue) then (queue ++ [app_id], true) else (queue, false).

(** [queue.iter().position(..)]. *)
Definition position (app_id : string) (queue : RevocationQueue) : option nat :=
  fst <$> list_find (fun item => item = app_id) queue.

Definition remove_f (app_id : string) (queue : RevocationQueue) : RevocationQueue * bool :=
  match position app_id queue with
  | Some index => (delete index queue, true)
  | None => (queue, false)
  end.

Definition repush_f (app_id : string) (queue : RevocationQueue) : RevocationQueue * bool :=
  match position app_id queue with
  | Some index =>
      match queue !! index with
      | Some app_id => (delete index queue ++ [app_id], true)
      | None => (queue, false)
      end
  | None => (queue, false)
  end.

Definition push_to_app_revocation_queue (fuel : nat) (client : AuthClient)
    (queue : RevocationQueue) (new_version : Z) (app_id : string) : A (Z * RevocationQueue) :=
  mutate_entry fuel client KEY_APP_REVOCATION_QUEUE queue new_version (push_f app_id).

Definition remove_from_app_revocation_queue (fuel : nat) (client : AuthClient)
    (queue : RevocationQueue) (new_version : Z) (app_id : string) : A (Z * RevocationQueue) :=
  mutate_entry fuel client KEY_APP_REVOCATION_QUEUE queue new_version (remove_f app_id).

Definition repush_to_app_revocation_queue (fuel : nat) (client : AuthClient)
    (queue : RevocationQueue) (new_version : Z) (app_id : string) : A (Z * RevocationQueue) :=
  mutate_entry fuel client KEY_APP_REVOCATION_QUEUE queue new_version (repush_f app_id).
End config.
