(* ===== verification/AuthConfigProofs.v ===== *)
(** The configuration entries of the authenticator: reads see what was written,
    and a mutation made with a stale copy loses nothing. *)
From S2P Require Import Prelude SafeNd SafeNdModel MockAccount CoreTypes ClientApi Recovery.
From S2P Require Import RecoveryProofs RecoveryRepair SeqStore MDataInfo MDataInfoProofs AuthTypes AuthConfig.

(** * The queue *)

Section queue.
Implicit Types (q : RevocationQueue) (a : string).

Lemma position_cons a x q :
  position a (x :: q) = if decide (x = a) then Some 0 else S <$> position a q.
Proof.
  unfold position. simpl. case_decide; [done|].
  by destruct (list_find _ q) as [[i y]|].
Qed.

(** The queue without [a]. *)
Definition without a q : RevocationQueue := filter (fun x => x <> a) q.

Lemma without_notin a q : a ∉ q -> without a q = q.
Proof.
  induction q as [|x q IH]; intros Ha; [done|]. unfold without in *.
  rewrite filter_cons_True by set_solver. f_equal. apply IH. set_solver.
Qed.

Lemma position_spec a q :
  NoDup q ->
  match position a q with
  | Some i => a ∈ q /\ q !! i = Some a /\ delete i q = without a q
  | None => a ∉ q
  end.
Proof.
  induction q as [|x q IH]; intros Hnd; [by apply not_elem_of_nil|].
  apply list.NoDup_cons in Hnd as [Hx Hnd]. specialize (IH Hnd). rewrite position_cons.
  case_decide as Hxa; simpl.
  - subst x. split_and!; [set_solver|done|]. unfold without.
    rewrite filter_cons_False by auto. symmetry. by apply without_notin.
  - destruct (position a q) as [i|]; simpl; [|set_solver].
    destruct IH as (Hin & Hi & Hdel). split_and!; [set_solver|done|].
    unfold without in *. rewrite filter_cons_True by done. by f_equal.
Qed.

Lemma remove_f_spec a q :
  NoDup q -> remove_f a q = (without a q, bool_decide (a ∈ q)).
Proof.
  intros Hnd. unfold remove_f. pose proof (position_spec a q Hnd) as Hp.
  destruct (position a q) as [i|].
  - destruct Hp as (Hin & _ & ->). by rewrite bool_decide_eq_true_2.
  - by rewrite bool_decide_eq_false_2, without_notin.
Qed.

Lemma repush_f_spec a q :
  NoDup q ->
  repush_f a q = if decide (a ∈ q) then (without a q ++ [a], true) else (q, false).
Proof.
  intros Hnd. unfold repush_f. pose proof (position_spec a q Hnd) as Hp.
  destruct (position a q) as [i|].
  - destruct Hp as (Hin & -> & ->). by rewrite decide_True.
  - by rewrite decide_False.
Qed.

Lemma without_NoDup a q : NoDup q -> NoDup (without a q).
Proof. apply list.NoDup_filter. Qed.

Lemma elem_of_without a b q : b ∈ without a q <-> b ∈ q /\ b <> a.
Proof. unfold without. rewrite list_elem_of_filter. naive_solver. Qed.

Lemma snoc_NoDup a q : NoDup q -> a ∉ q -> NoDup (q ++ [a]).
Proof.
  intros Hnd Ha. apply list.NoDup_app. split_and!; [done| |apply NoDup_singleton]. set_solver.
Qed.

(** The queue of revocations holds each app at most once, and its three
    operations are those of a set with an order: pushing an app adds it at the
    back unless it waits already, removing it takes it out, and pushing it again
    moves it to the back; each says whether it changed the queue. *)
Theorem revocation_queue_operations a q :
  NoDup q ->
  (push_f a q = if decide (a ∈ q) then (q, false) else (q ++ [a], true)) /\
  remove_f a q = (without a q, bool_decide (a ∈ q)) /\
  repush_f a q = (if decide (a ∈ q) then (without a q ++ [a], true) else (q, false)) /\
  NoDup (push_f a q).1 /\ NoDup (remove_f a q).1 /\ NoDup (repush_f a q).1.
Proof.
  intros Hnd. rewrite remove_f_spec, repush_f_spec by done. unfold push_f.
  destruct (decide (a ∈ q)) as [Hin|Hin].
  - rewrite bool_decide_eq_false_2 by auto. split_and!; try done; simpl;
      [by apply without_NoDup|]. apply snoc_NoDup; [by apply without_NoDup|].
    rewrite elem_of_without. naive_solver.
  - rewrite bool_decide_eq_true_2 by done. split_and!; try done; simpl.
    + by apply snoc_NoDup.
    + by apply without_NoDup.
Qed.
End queue.

(** * Entries *)

(** Entry actions are maps, as [safe_nd] builds them. *)
Class SeqActionsLaws `{!NdTypes, !NdOps} := {
  seq_ins_into k d v :
    seq_into_actions (seq_actions_ins seq_actions_new k d v) =
    {[ k := Ins {| seq_data := d; seq_version := v |} ]};
  seq_update_into k d v :
    seq_into_actions (seq_actions_update seq_actions_new k d v) =
    {[ k := Update {| seq_data := d; seq_version := v |} ]};
  seq_del_into k v :
    seq_into_actions (seq_actions_del seq_actions_new k v) = {[ k := Del v ]};
}.

Section single.
Context `{ndt : !NdTypes, ndo : !NdOps}.

(** The errors and the effect of a mutation of one entry. *)
Lemma entry_errors_singleton m k act :
  entry_errors m {[ k := act ]} =
  match entry_error (m !! k) act with Some e => {[ k := e ]} | None => ∅ end.
Proof.
  apply map_eq. intros i. unfold entry_errors. rewrite map_lookup_imap.
  destruct (decide (i = k)) as [->|Hne].
  - rewrite lookup_singleton_eq. simpl. destruct (entry_error (m !! k) act).
    + by rewrite lookup_singleton_eq.
    + by rewrite lookup_empty.
  - rewrite lookup_singleton_ne by done. simpl.
    destruct (entry_error (m !! k) act); [by rewrite lookup_singleton_ne|by rewrite lookup_empty].
Qed.

Lemma entries_applied_singleton m k act i :
  entries_applied m {[ k := act ]} !! i =
  if decide (i = k) then match act with Ins v | Update v => Some v | Del _ => None end
  else m !! i.
Proof.
  unfold entries_applied. rewrite lookup_merge. case_decide as Hi.
  - subst. rewrite lookup_singleton_eq. by destruct (m !! k), act.
  - rewrite lookup_singleton_ne by done. by destruct (m !! i).
Qed.
End single.

Section entries.
Context `{ndt : !NdTypes, ndo : !NdOps, ndl : !NdLaws, core : !CoreExt, lru : !LruOps}.
Context `{cr : !Crypto, crl : !CryptoLaws, auth : !AuthExt, sal : !SeqActionsLaws}.
Context {W : Type} `{net : !Network W}.
Context (client : AuthClient).
Let parent := config_root_dir client.
Context `{store : !SeqMDataStore (ac_client client) (mdata_address_name (address parent))
                                 (mdata_address_tag (address parent))}.
Context {T : Type} `{dft : !RustDefault T, ser : !Serial T, serl : !SerialLaws T}.

(** The entry of [key] holds [item] at version [ov], or there is none. *)
Definition entry_is (key : bytes) (m : MDataSeqEntries) (ov : option Z) (item : T) : Prop :=
  match m !! key_cipher parent key with
  | None => ov = None /\ item = default_of
  | Some v => ov = Some (seq_version v) /\ exists plain, decrypt parent (seq_data v) = Ok plain /\
      (if decide (plain = []) then item = default_of else deserialize_of plain = Ok item)
  end.

Lemma get_entry_ok key m ov item (s : AuthState (W := W)) :
  stored m (inner s) -> entry_is key m ov item ->
  exists s', get_entry client key s = Ret (ov, item) s' /\ stored m (inner s').
Proof.
  intros Hst He. destruct (stored_get m (key_cipher parent key) (inner s) Hst) as (i' & Hi' & Hget).
  exists (set_inner i' s). split; [|done]. unfold get_entry. fold parent.
  rewrite (proj1 (key_cipher_ok parent key)), bind_from_core_ok.
  unfold entry_is in He. unfold or_else.
  destruct (m !! key_cipher parent key) as [v|].
  - destruct He as (-> & plain & Hdec & Hitem).
    rewrite (bind_Ret _ _ _ _ _ (on_inner_Ret _ _ _ _ Hget)), Hdec. simpl. unfold bind. simpl.
    case_decide as Hp; [rewrite bool_decide_eq_true_2 by done|rewrite bool_decide_eq_false_2 by done].
    + simpl. by rewrite Hitem.
    + simpl. by rewrite Hitem.
  - destruct He as [-> ->]. unfold bind. by rewrite (on_inner_Fail _ _ _ _ Hget).
Qed.

(** The version an update must carry, and whether there is room for it. *)
Definition version_ok (ov : option Z) : Prop :=
  match ov with Some v => (0 <= v /\ v + 1 < u64_modulus)%Z | None => True end.

(** The error of an insertion at version 0, or of an update at another. *)
Lemma put_action_error data ov n (cur : option MDataSeqValue) :
  ov = seq_version <$> cur -> version_ok ov -> (ov = None -> n = 0%Z) ->
  entry_error cur (if (n =? 0)%Z then Ins {| seq_data := data; seq_version := 0 |}
                   else Update {| seq_data := data; seq_version := n |}) =
  if decide (n = next_version ov) then None else
  match cur with
  | Some v => Some ((if (n =? 0)%Z then EEntryExists else EInvalidSuccessor)
                      (seq_version v mod entry_version_modulus)%Z)
  | None => None
  end.
Proof.
  intros -> Hver Hn0. destruct cur as [v|]; simpl in *.
  - rewrite u64_add_small by lia. destruct (Z.eqb_spec n 0) as [->|Hn]; simpl.
    + rewrite decide_False; [done|lia].
    + case_decide as Hnv; [by rewrite (proj2 (Z.eqb_eq _ _) Hnv)|].
      by rewrite (proj2 (Z.eqb_neq _ _) Hnv).
  - by rewrite (Hn0 eq_refl).
Qed.

Lemma update_entry_ok key m ov cur content n (s : AuthState (W := W)) :
  stored m (inner s) -> entry_is key m ov cur -> version_ok ov -> (ov = None -> n = 0%Z) ->
  if decide (n = next_version ov) then
    exists s' m', update_entry client key content n s = Ret tt s' /\ stored m' (inner s') /\
      entry_is key m' (Some n) content /\
      forall k, k <> key_cipher parent key -> m' !! k = m !! k
  else
    exists s' ver, update_entry client key content n s =
        Fail (AuthCoreError (DataError (InvalidSuccessor ver))) s' /\ stored m (inner s').
Proof.
  intros Hst He Hver Hn0. unfold update_entry. fold parent.
  rewrite (proj1 (key_cipher_ok parent key)), bind_from_core_ok.
  destruct (serial_roundtrip content) as (b & Hb & Hbne & Hdes). rewrite Hb. simpl auth_serialisation.
  rewrite bind_lift_ok.
  destruct (enc_entry_value_ok parent b (auth_rng s)) as (cipher & r' & Hc & Hcipher).
  rewrite (bind_Ret _ _ _ _ _ (from_core_Ret _ _ _ _ (on_rng_Ret _ _ _ _ Hc))).
  apply entry_cipher_decrypt in Hcipher.
  set (kc := key_cipher parent key) in *. set (s1 := set_auth_rng r' s).
  set (acts := if (n =? 0)%Z then _ else _).
  set (act := if (n =? 0)%Z then Ins {| seq_data := cipher; seq_version := 0 |}
              else Update {| seq_data := cipher; seq_version := n |}).
  assert (seq_into_actions acts = {[ kc := act ]}) as Hacts.
  { unfold acts, act. destruct (n =? 0)%Z; [apply seq_ins_into|apply seq_update_into]. }
  assert (match act with Ins v | Update v => Some v | Del _ => None end =
    Some {| seq_data := cipher; seq_version := n |}) as Hact.
  { unfold act. destruct (Z.eqb_spec n 0) as [->|]; done. }
  destruct (stored_mutate m acts (inner s1) Hst) as (i' & Hcase). rewrite Hacts in Hcase.
  rewrite entry_errors_singleton in Hcase.
  pose proof (put_action_error cipher ov n (m !! kc)) as Herr. fold act in Herr.
  assert (ov = seq_version <$> m !! kc) as Hov.
  { unfold entry_is in He. fold kc in He. destruct (m !! kc); by destruct He. }
  specialize (Herr Hov Hver Hn0).
  rewrite Herr in Hcase. case_decide as Hn.
  - destruct Hcase as [(_ & Hst' & Hmut)|[[] _]]; [|done].
    exists (set_inner i' s1), (entries_applied m {[ kc := act ]}). split_and!.
    + by apply from_core_Ret; unfold or_else; rewrite (on_inner_Ret _ _ _ _ Hmut).
    + done.
    + unfold entry_is. fold kc. rewrite entries_applied_singleton, decide_True, Hact by done. simpl.
      split; [done|]. exists b. by rewrite decide_False.
    + intros k Hk. by rewrite entries_applied_singleton, decide_False.
  - unfold entry_is in He. fold kc in He. destruct (m !! kc) as [v|]; last first.
    { destruct He as [-> _]. by destruct Hn; simpl; apply Hn0. }
    destruct Hcase as [(Hemp & _)|(_ & Hst' & Hmut)].
    { exfalso. exact (map_non_empty_singleton _ _ Hemp). }
    exists (set_inner i' s1), (seq_version v mod entry_version_modulus)%Z. split; [|done].
    apply from_core_Fail. unfold or_else. rewrite (on_inner_Fail _ _ _ _ Hmut).
    rewrite lookup_singleton_eq. by destruct (n =? 0)%Z.
Qed.
(** One iteration. *)
Lemma mutate_attempt_current key m ov cur f (s : AuthState (W := W)) :
  stored m (inner s) -> entry_is key m ov cur -> version_ok ov ->
  exists s' m', mutate_attempt_entry client f (key, next_version ov, cur) s =
      Ret (Break (if (f cur).2 then next_version ov else u64_sub (next_version ov) 1, (f cur).1)) s' /\
    stored m' (inner s') /\
    if (f cur).2 then entry_is key m' (Some (next_version ov)) (f cur).1 /\
      forall k, k <> key_cipher parent key -> m' !! k = m !! k
    else m' = m.
Proof.
  intros Hst He Hver. unfold mutate_attempt_entry. destruct (f cur) as [res [|]] eqn:Hf; simpl.
  - assert (ov = None -> next_version ov = 0%Z) as Hn0 by by intros ->.
    pose proof (update_entry_ok key m ov cur res (next_version ov) s Hst He Hver Hn0) as Hup.
    rewrite decide_True in Hup by done. destruct Hup as (s' & m' & Hup & Hst' & He' & Hk).
    exists s', m'. split_and!; [|done|done|done]. unfold or_else, bind. by rewrite Hup.
  - by exists s, m.
Qed.

(** C8: a mutation of a configuration entry is atomic.  Whatever copy and
    version the caller starts from (a copy that is stale must carry a stale
    version), [mutate_entry] comes back with its function applied to the item
    that was stored, at the next version; another client's change made since the
    copy was read is not lost, and no other entry is touched. *)
Theorem mutate_entry_atomic key m ov cur item n f fuel (s : AuthState (W := W)) :
  stored m (inner s) -> entry_is key m ov cur -> version_ok ov ->
  (n = next_version ov -> item = cur) -> (ov = None -> n = 0%Z) -> (f item).2 = true ->
  exists s' m', mutate_entry (S (S fuel)) client key item n f s =
      Ret (if (f cur).2 then next_version ov else u64_sub (next_version ov) 1, (f cur).1) s' /\
    stored m' (inner s') /\
    if (f cur).2 then entry_is key m' (Some (next_version ov)) (f cur).1 /\
      forall k, k <> key_cipher parent key -> m' !! k = m !! k
    else m' = m.
Proof.
  intros Hst He Hver Hcur Hn0 Hf. unfold mutate_entry.
  destruct (decide (n = next_version ov)) as [Hn|Hn].
  - rewrite (Hcur Hn), Hn. destruct (mutate_attempt_current key m ov cur f s Hst He Hver)
      as (s' & m' & Hatt & Hst' & Hm'). exists s', m'. split_and!; [|done|done].
    by apply loop_fn_break.
  - destruct (f item) as [res ch] eqn:Hfi. simpl in Hf. subst ch.
    pose proof (update_entry_ok key m ov cur res n s Hst He Hver Hn0) as Hup.
    rewrite decide_False in Hup by done. destruct Hup as (s1 & ver & Hup & Hst1).
    destruct (get_entry_ok key m ov cur s1 Hst1 He) as (s2 & Hget & Hst2).
    destruct (mutate_attempt_current key m ov cur f s2 Hst2 He Hver)
      as (s' & m' & Hatt & Hst' & Hm'). exists s', m'. split_and!; [|done|done].
    apply (loop_fn_continue _ _ (key, next_version ov, cur) _ s2 (S fuel)).
    + unfold mutate_attempt_entry. rewrite Hfi. unfold or_else, bind. rewrite Hup. by rewrite Hget.
    + by apply loop_fn_break.
Qed.
End entries.

Example revocation_queue_operations_witness :
  (push_f "b" ["a"; "b"; "c"] =
     if decide ("b" ∈ ["a"; "b"; "c"]) then (["a"; "b"; "c"], false)
     else (["a"; "b"; "c"] ++ ["b"], true)) /\
  remove_f "b" ["a"; "b"; "c"] = (without "b" ["a"; "b"; "c"], bool_decide ("b" ∈ ["a"; "b"; "c"])) /\
  repush_f "b" ["a"; "b"; "c"] =
    (if decide ("b" ∈ ["a"; "b"; "c"]) then (without "b" ["a"; "b"; "c"] ++ ["b"], true)
     else (["a"; "b"; "c"], false)) /\
  NoDup (push_f "b" ["a"; "b"; "c"]).1 /\ NoDup (remove_f "b" ["a"; "b"; "c"]).1 /\
  NoDup (repush_f "b" ["a"; "b"; "c"]).1.
Proof. apply (revocation_queue_operations "b" ["a"; "b"; "c"]). apply (bool_decide_unpack _). vm_cast_no_check I. Defined.
