(* ===== verification/AccessContainer.v ===== *)
(** The access container ([safe_authenticator/src/access_container.rs]): mutable
    data with one encrypted entry per app, which holds the containers the app may
    use, and one for the authenticator itself. *)
From S2P Require Import Prelude SafeNd SafeNdModel MockAccount CoreTypes ClientApi Recovery.
From S2P Require Import MDataInfo AuthTypes.

Definition AUTHENTICATOR_ENTRY : string := "authenticator".

Section access_container.
Context `{ndt : !NdTypes, ndo : !NdOps, core : !CoreExt, lru : !LruOps}.
Context `{cr : !Crypto, auth : !AuthExt}.
Context {W : Type} `{net : !Network W}.
Context `{sdirs : !Serial (gmap string MDataInfo), sentry : !Serial AccessContainerEntry}.
Abbreviation A T := (M (AuthState (W := W)) AuthError T).

Definition core_result {T} (r : result T CoreError) : result T AuthError :=
  match r with Ok a => Ok a | Err e => Err (AuthCoreError e) end.

Definition enc_key (access_container : MDataInfo) (app_id : string) (secret_key : SymEncKey) :
    result bytes AuthError :=
  let? nonce := ok_or_r (snd <$> enc_info access_container)
                  (AuthUnexpected "No valid nonce for access container") in
  core_result (access_container_enc_key app_id secret_key nonce).

(** Both kinds of entries are encoded the same way. *)
Definition decode_raw {T} `{!Serial T} (encoded : bytes) (enc_key : SymEncKey) :
    result T AuthError :=
  let? plaintext := core_result (symmetric_decrypt encoded enc_key) in
  auth_serialisation (deserialize_of plaintext).

Definition encode_raw {T} `{!Serial T} (decoded : T) (enc_key : SymEncKey) : A bytes :=
  let! plaintext := lift_result (auth_serialisation (serialize_of decoded)) in
  from_core (on_rng (symmetric_encrypt plaintext enc_key None)).

Definition decode_authenticator_entry (encoded : bytes) (enc_key : SymEncKey) :
    result (gmap string MDataInfo) AuthError := decode_raw encoded enc_key.
Definition encode_authenticator_entry (decoded : gmap string MDataInfo) (enc_key : SymEncKey) :
    A bytes := encode_raw decoded enc_key.
Definition decode_app_entry (encoded : bytes) (enc_key : SymEncKey) :
    result AccessContainerEntry AuthError := decode_raw encoded enc_key.
Definition encode_app_entry (decoded : AccessContainerEntry) (enc_key : SymEncKey) :
    A bytes := encode_raw decoded enc_key.

(** The action that stores a value at a version. *)
Definition put_actions (key data : bytes) (version_ : Z) : MDataSeqEntryActions :=
  if (version_ =? 0)%Z then seq_actions_ins seq_actions_new key data 0
  else seq_actions_update seq_actions_new key data version_.

Definition fetch_authenticator_entry (client : AuthClient) : A (Z * gmap string MDataInfo) :=
  let ac := access_container client in
  let sk := secret_symmetric_key client in
  let! key := lift_result (enc_key ac AUTHENTICATOR_ENTRY sk) in
  let! value := from_core (on_inner (get_seq_mdata_value (ac_client client)
                  (mdata_address_name (address ac)) (mdata_address_tag (address ac)) key)) in
  let! decoded := lift_result (decode_authenticator_entry (seq_data value) sk) in
  ret (seq_version value, decoded).

Definition put_authenticator_entry (client : AuthClient) (new_value : gmap string MDataInfo)
    (version_ : Z) : A unit :=
  let ac := access_container client in
  let sk := secret_symmetric_key client in
  let! key := lift_result (enc_key ac AUTHENTICATOR_ENTRY sk) in
  let! ciphertext := encode_authenticator_entry new_value sk in
  from_core (on_inner (Recovery.mutate_mdata_entries (ac_client client) (address ac)
    (put_actions key ciphertext version_))).

Definition fetch_entry (client : AuthClient) (app_id : string) (app_keys : AppKeys) :
    A (Z * option AccessContainerEntry) :=
  let ac := access_container client in
  let! key := lift_result (enc_key ac app_id (app_enc_key app_keys)) in
  let! result := attempt (on_inner (get_seq_mdata_value (ac_client client)
                   (mdata_address_name (address ac)) (mdata_address_tag (address ac)) key)) in
  match result with
  | Err (DataError NoSuchEntry) => ret (0%Z, None)
  | Err err => fail (AuthCoreError err)
  | Ok value =>
      let! decoded := lift_result (decode_app_entry (seq_data value) (app_enc_key app_keys)) in
      ret (seq_version value, Some decoded)
  end.

Definition put_entry (client : AuthClient) (app_id : string) (app_keys : AppKeys)
    (permissions : AccessContainerEntry) (version_ : Z) : A unit :=
  let ac := access_container client in
  let! key := lift_result (enc_key ac app_id (app_enc_key app_keys)) in
  let! ciphertext := encode_app_entry permissions (app_enc_key app_keys) in
  let app_pk := app_keys_public_key app_keys in
  let! shell_version := from_core (on_inner (get_mdata_version (ac_client client) (address ac))) in
  from_core (on_inner (ClientApi.set_mdata_user_permissions (ac_client client) (address ac) app_pk
    (perms_allow perms_new MRead) (u64_add shell_version 1))) ;!
  from_core (on_inner (Recovery.mutate_mdata_entries (ac_client client) (address ac)
    (put_actions key ciphertext version_))).

Definition delete_entry (client : AuthClient) (app_id : string) (app_keys : AppKeys)
    (version_ : Z) : A unit :=
  let ac := access_container client in
  let! key := lift_result (enc_key ac app_id (app_enc_key app_keys)) in
  let app_pk := app_keys_public_key app_keys in
  let! shell_version := from_core (on_inner (get_mdata_version (ac_client client) (address ac))) in
  from_core (on_inner (ClientApi.del_mdata_user_permissions (ac_client client) (address ac) app_pk
    (u64_add shell_version 1))) ;!
  from_core (on_inner (Recovery.mutate_mdata_entries (ac_client client) (address ac)
    (seq_actions_del seq_actions_new key version_))).
End access_container.
