(* ===== verification/AccessContainerProofs.v ===== *)
(** Entries of the access container: what is stored under a key of it, and that the
    action that stores the next version of an entry meets no error. *)
From S2P Require Import Prelude SafeNd SafeNdModel MockAccount CoreTypes ClientApi.
From S2P Require Import Recovery RecoveryProofs RecoveryRepair MDataInfo MDataInfoProofs AuthTypes.
From S2P Require Import AuthConfig AuthConfigProofs AccessContainer.

Section entries.
Context `{ndt : !NdTypes, ndo : !NdOps, core : !CoreExt, lru : !LruOps}.
Context `{cr : !Crypto, crl : !CryptoLaws, auth : !AuthExt, sal : !SeqActionsLaws}.
Context {W : Type} `{net : !Network W}.
Context {T : Type} `{ser : !Serial T, serl : !SerialLaws T}.
Abbreviation AS := (AuthState (W := W)).

(** What is stored under a key, encrypted with [sk], and its version; [None] when
    there is nothing. *)
Definition entry_at (sk : SymEncKey) (key : bytes) (m : MDataSeqEntries) (o : option (Z * T)) : Prop :=
  match m !! key, o with
  | None, None => True
  | Some v, Some (ver, e) => seq_version v = ver /\ decode_raw (seq_data v) sk = Ok e
  | _, _ => False
  end.

(** The version of an entry and the version that replaces it. *)
Definition entry_room (o : option (Z * T)) : Prop :=
  match o with Some (v, _) => (0 <= v /\ v + 1 < u64_modulus)%Z | None => True end.
Definition entry_next (o : option (Z * T)) : Z :=
  match o with Some (v, _) => u64_add v 1 | None => 0 end.

Lemma entry_at_same sk key m m' o : m' !! key = m !! key -> entry_at sk key m o -> entry_at sk key m' o.
Proof. intros Hk. unfold entry_at. by rewrite Hk. Qed.

Lemma entry_at_None sk key m : entry_at sk key m None <-> m !! key = None.
Proof. unfold entry_at. destruct (m !! key) eqn:Hm; naive_solver. Qed.

Lemma encode_raw_ok (e : T) k (s : AS) :
  exists ct, encode_raw e k s = Ret ct (set_auth_rng (S (auth_rng s)) s) /\ decode_raw ct k = Ok e.
Proof using crl serl.
  destruct (serial_roundtrip e) as (b & Hb & _ & Hde).
  destruct (symmetric_encrypt_ok b k (auth_rng s)) as (ct & Hct & Hcipher). exists ct. split.
  - unfold encode_raw. rewrite Hb. erewrite bind_Ret by reflexivity.
    apply from_core_Ret, on_rng_Ret, Hct.
  - unfold decode_raw. rewrite (symmetric_decrypt_ok _ _ _ Hcipher). cbn [core_result rbind].
    by rewrite Hde.
Qed.

(** The action that stores the next version meets no error. *)
Lemma put_actions_ok sk key m o data :
  entry_at sk key m o -> entry_room o ->
  entry_errors m (seq_into_actions (put_actions key data (entry_next o))) = ∅ /\
  forall k, entries_applied m (seq_into_actions (put_actions key data (entry_next o))) !! k =
    if decide (k = key) then Some {| seq_data := data; seq_version := entry_next o |} else m !! k.
Proof using sal.
  intros He Hr. unfold put_actions, entry_at in *.
  destruct (m !! key) as [v|] eqn:Hv, o as [[ver e]|]; try done; simpl in *.
  - destruct He as [Hver _]. rewrite (u64_add_small ver 1) by lia.
    rewrite (proj2 (Z.eqb_neq (ver + 1) 0)) by lia. rewrite seq_update_into. split.
    + rewrite entry_errors_singleton, Hv. simpl. by rewrite Hver, Z.eqb_refl.
    + intros k. by rewrite entries_applied_singleton.
  - rewrite seq_ins_into. split.
    + by rewrite entry_errors_singleton, Hv.
    + intros k. by rewrite entries_applied_singleton.
Qed.
End entries.

(** Keys of the access container, for a container that has a nonce. *)
Section keys.
Context `{ndt : !NdTypes, core : !CoreExt, cr : !Crypto, crl : !CryptoLaws, auth : !AuthExt}.

Lemma enc_key_ok (info : MDataInfo) a sk :
  is_Some (enc_info info) -> exists key, enc_key info a sk = Ok key.
Proof using crl.
  intros [[k nonce] Hn]. unfold enc_key, access_container_enc_key. rewrite Hn. cbn [fmap option_fmap option_map snd ok_or_r rbind].
  match goal with |- context [symmetric_encrypt_with ?p ?k ?n] =>
    destruct (symmetric_encrypt_with_ok p k n) as [key Hkey]; rewrite Hkey end.
  by exists key.
Qed.

(** The entries of an access container in which the authenticator's entry holds [dirs]. *)
Definition container_entry `{!Serial (gmap string MDataInfo)} (client : AuthClient)
    (dirs : gmap string MDataInfo) (ver : Z) (es : MDataSeqEntries) : Prop :=
  exists key,
    enc_key (access_container client) AUTHENTICATOR_ENTRY (secret_symmetric_key client) = Ok key /\
    entry_at (secret_symmetric_key client) key es (Some (ver, dirs)).
End keys.
