(* ===== verification/Revocation.v ===== *)
(** Revocation of apps ([safe_authenticator/src/revocation.rs]).

    Revocations wait in a queue kept in the configuration, so that one that was
    interrupted is taken up again.  [flush_app_revocation_queue_impl] loops until
    the queue is empty; [config_fuel] bounds the retries of each change of the
    queue and [fuel] the iterations of the loop. *)
From S2P Require Import Prelude SafeNd SafeNdModel MockAccount CoreTypes ClientApi.
From S2P Require Import Recovery MDataInfo AuthTypes AuthConfig AccessContainer.
From S2P Require Import RecoveryProofs RecoveryRepair MDataInfoProofs SeqStore.
From S2P Require Import AuthConfigProofs.

Section revocation.
Context `{ndt : !NdTypes, ndo : !NdOps, core : !CoreExt, lru : !LruOps}.
Context `{cr : !Crypto, auth : !AuthExt}.
Context {W : Type} `{net : !Network W}.
Context `{sapps : !Serial Apps, squeue : !Serial RevocationQueue}.
Context `{sentry : !Serial AccessContainerEntry}.
Context (config_fuel : nat).
Abbreviation A T := (M (AuthState (W := W)) AuthError T).

(** Delete the app's key from the client handlers. *)
Definition delete_app_auth_key (client : AuthClient) (key : PublicKey) : A unit :=
  or_else
    (let! (listed_keys, version_) := on_inner (list_auth_keys_and_version (ac_client client)) in
     if bool_decide (is_Some (listed_keys !! key))
     then on_inner (ClientApi.del_auth_key (ac_client client) key (u64_add version_ 1))
     else ret tt)
    (fun error =>
       match error with
       | DataError NoSuchKey => ret tt
       | error => fail (AuthCoreError error)
       end).

(** The futures of [join_all] are made first, which sends the request for the
    version of each container; they are then run in order, up to the first
    error. *)
Definition revoke_container_perms (client : AuthClient) (containers : gmap string MDataInfo)
    (pk : PublicKey) : A unit :=
  let infos := (hash_iter containers).*2 in
  let! versions := fold_m (fun versions mdata_info =>
      let! v := attempt (on_inner (get_mdata_version (ac_client client) (address mdata_info))) in
      ret (versions ++ [v])) infos [] in
  for_each (zip infos versions) (fun '(mdata_info, version_) =>
    let! version_ := from_core (lift_result version_) in
    from_core (on_inner (Recovery.del_mdata_user_permissions (ac_client client)
      (address mdata_info) pk (u64_add version_ 1)))).

Definition clear_from_access_container_entry (client : AuthClient) (app : AppInfo)
    (ac_entry_version : Z) (containers : gmap string MDataInfo) : A unit :=
  revoke_container_perms client containers (app_keys_public_key (keys app)) ;!
  delete_entry client (app_id (info app)) (keys app) (u64_add ac_entry_version 1).

Definition revoke_single_app (client : AuthClient) (app_id_ : string) : A unit :=
  let! app := get_app client app_id_ in
  delete_app_auth_key client (app_keys_public_key (keys app)) ;!
  let! (version_, ac_entry) := fetch_entry client (app_id (info app)) (keys app) in
  match ac_entry with
  | Some ac_entry => clear_from_access_container_entry client app version_ (fst <$> ac_entry)
  | None => ret tt
  end.

(** One iteration of the flush, over the revocation of one app. *)
Definition flush_attempt (revoke : string -> A unit) (client : AuthClient)
    (st : RevocationQueue * Z * list string) :
    A (Loop unit (RevocationQueue * Z * list string)) :=
  let '(queue, version_, moved_apps) := st in
  match queue with
  | app_id :: _ =>
      let! result := attempt (revoke app_id) in
      let! (version_, queue, moved_apps) :=
        match result with
        | Ok _ =>
            let! (version_, queue) :=
              remove_from_app_revocation_queue config_fuel client queue version_ app_id in
            ret (version_, queue, moved_apps)
        | Err (AuthCoreError SymmetricDecipherFailure) =>
            remove_from_app_revocation_queue config_fuel client queue version_ app_id ;!
            fail (AuthCoreError SymmetricDecipherFailure)
        | Err error =>
            if bool_decide (app_id ∈ moved_apps) then fail error
            else
              let moved_apps := moved_apps ++ [app_id] in
              let! (version_, queue) :=
                repush_to_app_revocation_queue config_fuel client queue version_ app_id in
              ret (version_, queue, moved_apps)
        end in
      ret (Continue (queue, u64_add version_ 1, moved_apps))
  | [] => ret (Break tt)
  end.

Definition flush_app_revocation_queue_impl (fuel : nat) (client : AuthClient)
    (queue : RevocationQueue) (version_ : Z) : A unit :=
  loop_fn fuel (queue, version_, []) (flush_attempt (revoke_single_app client) client).

Definition revoke_app (fuel : nat) (client : AuthClient) (app_id : string) : A unit :=
  let! (version_, queue) := get_app_revocation_queue client in
  let! (version_, queue) :=
    push_to_app_revocation_queue config_fuel client queue (next_version version_) app_id in
  flush_app_revocation_queue_impl fuel client queue (u64_add version_ 1).

Definition flush_app_revocation_queue (fuel : nat) (client : AuthClient) : A unit :=
  let! (version_, queue) := get_app_revocation_queue client in
  match version_ with
  | Some version_ => flush_app_revocation_queue_impl fuel client queue (u64_add version_ 1)
  | None => ret tt
  end.
End revocation.

(** * The flush

    It ends, leaves in the queue what could not be revoked, and nothing leaves the queue
    unrevoked. *)

Section flush.
Context `{ndt : !NdTypes, ndo : !NdOps, ndl : !NdLaws, core : !CoreExt, lru : !LruOps}.
Context `{cr : !Crypto, crl : !CryptoLaws, auth : !AuthExt, sal : !SeqActionsLaws}.
Context {W : Type} `{net : !Network W}.
Context `{squeue : !Serial RevocationQueue, squeuel : !SerialLaws RevocationQueue}.
Context (client : AuthClient).
Let parent := config_root_dir client.
Context `{store : !SeqMDataStore (ac_client client) (mdata_address_name (address parent))
                                 (mdata_address_tag (address parent))}.
Abbreviation A T := (M (AuthState (W := W)) AuthError T).

(** What the flush asks of the revocation of one app: in a configuration [cfg]
    (which does not depend on the queue) it comes back, it leaves the
    configuration alone, and once it has succeeded its effect [done] lasts,
    through the revocation of other apps and changes of the configuration. *)
Class RevokeSpec (revoke : string -> A unit) (cfg : MDataSeqEntries -> Prop)
    (done : string -> AuthState (W := W) -> Prop) := {
  cfg_keeps m m' :
    cfg m -> (forall k, k <> key_cipher parent KEY_APP_REVOCATION_QUEUE -> m' !! k = m !! k) ->
    cfg m';
  revoke_answers a m s : stored m (inner s) -> cfg m ->
    match revoke a s with
    | Ret _ s' => stored m (inner s') /\ done a s'
    | Fail _ s' => stored m (inner s')
    | _ => False
    end;
  revoke_keeps a b m s :
    stored m (inner s) -> cfg m -> done b s -> done b (final (revoke a s));
  config_keeps fuel (q : RevocationQueue) n f b m s :
    stored m (inner s) -> done b s ->
    done b (final (mutate_entry fuel client KEY_APP_REVOCATION_QUEUE q n f s));
}.

Context (revoke : string -> A unit) (cfg : MDataSeqEntries -> Prop).
Context (done : string -> AuthState (W := W) -> Prop).
Context `{rspec : !RevokeSpec revoke cfg done}.
Context (config_fuel : nat).

Abbreviation QKEY := KEY_APP_REVOCATION_QUEUE.

(** Iterations left: each app may be tried once more after it has been moved. *)
Definition tries (q moved : list string) : nat :=
  length q + length (filter (fun a => a ∉ moved) q).

(** The state of the loop agrees with the stored queue, and what has left the
    queue [q0] is revoked. *)
Definition flush_inv (q0 : RevocationQueue) (st : RevocationQueue * Z * list string)
    (s : AuthState (W := W)) : Prop :=
  let '(q, n, moved) := st in
  exists m v, stored m (inner s) /\ cfg m /\ entry_is client QKEY m (Some v) q /\ n = (v + 1)%Z /\
    NoDup q /\ (0 <= v)%Z /\ (v + Z.of_nat (tries q moved) + 1 < u64_modulus)%Z /\
    forall a, a ∈ q0 -> a ∈ q \/ done a s.

(** How the flush may end. *)
Definition flush_post (q0 : RevocationQueue) (o : outcome (AuthState (W := W)) AuthError unit) :
    Prop :=
  exists m v q, stored m (inner (final o)) /\ entry_is client QKEY m (Some v) q /\
    match o with
    | Ret _ s => q = [] /\ (forall a, a ∈ q0 -> done a s)
    | Fail (AuthCoreError SymmetricDecipherFailure) s =>
        exists b, (b ∉ q) /\ forall a, a ∈ q0 -> a = b \/ a ∈ q \/ done a s
    | Fail _ s => q <> [] /\ forall a, a ∈ q0 -> a ∈ q \/ done a s
    | _ => False
    end.

(** Changing the stored queue by [f], which changes it. *)
Lemma change_queue f q n m v s :
  stored m (inner s) -> cfg m -> entry_is client QKEY m (Some v) q -> n = (v + 1)%Z ->
  (0 <= v /\ v + 1 < u64_modulus)%Z -> (f q).2 = true ->
  exists s' m', mutate_entry (S config_fuel) client QKEY q n f s = Ret (n, (f q).1) s' /\
    stored m' (inner s') /\ cfg m' /\ entry_is client QKEY m' (Some n) (f q).1 /\
    forall a, done a s -> done a s'.
Proof.
  intros Hst Hcfg He -> Hv Hf.
  destruct (mutate_attempt_current client QKEY m (Some v) q f s Hst He Hv)
    as (s' & m' & Hatt & Hst' & Hm'). rewrite Hf in *. simpl in Hatt, Hm'.
  rewrite u64_add_small in Hatt, Hm' by lia. destruct Hm' as [He' Hk].
  assert (mutate_entry (S config_fuel) client QKEY q (v + 1) f s =
    Ret ((v + 1)%Z, (f q).1) s') as Hmut by by apply loop_fn_break.
  exists s', m'. split_and!; [done|done|by eapply cfg_keeps|done|]. intros a Ha.
  pose proof (config_keeps (S config_fuel) q (v + 1) f a m s Hst Ha) as Hd. by rewrite Hmut in Hd.
Qed.

Lemma tries_remove a q moved :
  NoDup (a :: q) -> (tries (without a (a :: q)) moved < tries (a :: q) moved)%nat.
Proof.
  intros [Ha _]%list.NoDup_cons. unfold without. rewrite filter_cons_False by auto.
  fold (without a q). rewrite without_notin by done. unfold tries. simpl.
  rewrite filter_cons. case_decide; simpl; lia.
Qed.

Lemma filter_moved (a : string) (q moved : list string) :
  (length (filter (fun b => b ∉ moved ++ [a]) q) <= length (filter (fun b => b ∉ moved) q))%nat.
Proof.
  induction q as [|b q IH]; [done|]. rewrite !filter_cons.
  destruct (decide (b ∉ moved ++ [a])), (decide (b ∉ moved)); simpl; [lia|set_solver|lia|lia].
Qed.

Lemma tries_repush a q moved :
  NoDup (a :: q) -> a ∉ moved ->
  (tries (without a (a :: q) ++ [a]) (moved ++ [a]) < tries (a :: q) moved)%nat.
Proof.
  intros [Ha _]%list.NoDup_cons Hm. unfold without. rewrite filter_cons_False by auto.
  fold (without a q). rewrite without_notin by done. unfold tries. rewrite length_app.
  rewrite list.filter_app, (filter_cons_False _ a []) by set_solver.
  rewrite (filter_cons_True _ a q) by done. rewrite filter_nil, app_nil_r. simpl.
  pose proof (filter_moved a q moved). lia.
Qed.

(** The queue changes by [f] and the loop goes on, with one try less. *)
Lemma flush_continue q0 f q n moved moved' s s1 m v :
  stored m (inner s1) -> cfg m -> entry_is client QKEY m (Some v) q -> n = (v + 1)%Z -> (0 <= v)%Z ->
  (v + Z.of_nat (tries q moved) + 1 < u64_modulus)%Z -> (forall b, done b s -> done b s1) ->
  (f q).2 = true -> NoDup (f q).1 -> (tries (f q).1 moved' < tries q moved)%nat ->
  (forall a, a ∈ q0 -> a ∈ q \/ done a s) -> (forall a, a ∈ q -> a ∈ (f q).1 \/ done a s1) ->
  exists s', mutate_entry (S config_fuel) client QKEY q n f s1 = Ret (n, (f q).1) s' /\
    flush_inv q0 ((f q).1, u64_add n 1, moved') s'.
Proof.
  intros Hst Hcfg He Hn Hv Hbound Hkeep Hf Hnd Hlt Hq0 Hq.
  destruct (change_queue f q n m v s1 Hst Hcfg He Hn ltac:(lia) Hf)
    as (s' & m' & Hmut & Hst' & Hcfg' & He' & Hd).
  exists s'. split; [done|]. exists m', n. rewrite u64_add_small by lia.
  split_and!; [done|done|done|done|done|lia|lia|]. intros b Hb.
  destruct (Hq0 b Hb) as [Hbq|Hbd]; [|by auto].
  destruct (Hq b Hbq) as [|]; auto.
Qed.

(** The error that ends the flush at once, and the others. *)
Lemma decipher_failure_cases (e : AuthError) :
  e = AuthCoreError SymmetricDecipherFailure \/
  forall X (x y : X),
    match e with AuthCoreError SymmetricDecipherFailure => x | _ => y end = y.
Proof. destruct e as [|[]| | | | | | | |]; auto. Qed.

Lemma flush_step q0 a q n moved s :
  flush_inv q0 (a :: q, n, moved) s ->
  match flush_attempt (S config_fuel) revoke client (a :: q, n, moved) s with
  | Ret (Continue st') s' => flush_inv q0 st' s' /\
      (tries st'.1.1 st'.2 < tries (a :: q) moved)%nat
  | Ret (Break _) _ => False
  | Fail e s' => flush_post q0 (Fail e s')
  | _ => False
  end.
Proof.
  intros (m & v & Hst & Hcfg & He & Hn & Hnd & Hv & Hbound & Hq0).
  assert (a ∈ a :: q) as Hin by set_solver.
  assert (remove_f a (a :: q) = (without a (a :: q), true)) as Hrem.
  { rewrite remove_f_spec by done. by rewrite bool_decide_eq_true_2. }
  unfold flush_attempt, remove_from_app_revocation_queue, repush_to_app_revocation_queue.
  unfold bind at 1. unfold attempt.
  pose proof (revoke_answers a m s Hst Hcfg) as Hans.
  assert (forall b, done b s -> done b (final (revoke a s))) as Hkeep
    by (intros b; by apply (revoke_keeps a b m)).
  destruct (revoke a s) as [[] s1|e s1|s1|s1]; simpl in Hkeep; try done.
  - destruct Hans as [Hst1 Hdone].
    destruct (flush_continue q0 (remove_f a) (a :: q) n moved moved s s1 m v)
      as (s' & Hmut & Hinv); rewrite ?Hrem; try done.
    + by apply without_NoDup.
    + by apply tries_remove.
    + intros b Hb. cbn [fst]. rewrite elem_of_without. destruct (decide (b = a)); naive_solver.
    + rewrite Hrem in Hmut, Hinv. unfold bind. rewrite Hmut. simpl.
      split; [done|by apply tries_remove].
  - destruct (decipher_failure_cases e) as [->|Hother].
    + destruct (change_queue (remove_f a) (a :: q) n m v s1) 
      as (s' & m' & Hmut & Hst' & _ & He' & Hd);
        rewrite ?Hrem; try done; [unfold tries in Hbound; simpl in Hbound; lia|].
      rewrite Hrem in Hmut, He'. unfold bind. rewrite Hmut. exists m', n, (without a (a :: q)).
      split_and!; [done|done|]. exists a. split; [rewrite elem_of_without; naive_solver|].
      intros b Hb. rewrite elem_of_without. destruct (Hq0 b Hb) as [|]; [|by auto].
      destruct (decide (b = a)); auto.
    + rewrite Hother. case_bool_decide as Hmoved.
      * exists m, v, (a :: q). split_and!; [done|done|]. rewrite Hother. split; [done|].
        intros b Hb. destruct (Hq0 b Hb); auto.
      * assert (repush_f a (a :: q) = (without a (a :: q) ++ [a], true)) as Hrep.
        { rewrite repush_f_spec by done. by rewrite decide_True. }
        destruct (flush_continue q0 (repush_f a) (a :: q) n moved (moved ++ [a]) s s1 m v)
          as (s' & Hmut & Hinv); rewrite ?Hrep; try done.
        { apply snoc_NoDup; [by apply without_NoDup|]. rewrite elem_of_without. naive_solver. }
        { by apply tries_repush. }
        { intros b Hb. left. cbn [fst]. rewrite elem_of_app, elem_of_without.
          destruct (decide (b = a)); set_solver. }
        rewrite Hrep in Hmut, Hinv. unfold bind. rewrite Hmut. simpl.
        split; [done|by apply tries_repush].
Qed.

Lemma flush_loop q0 fuel st s :
  flush_inv q0 st s -> (tries st.1.1 st.2 < fuel)%nat ->
  flush_post q0 (loop_fn fuel st (flush_attempt (S config_fuel) revoke client) s).
Proof.
  revert st s. induction fuel as [|fuel IH]; intros [[q n] moved] s Hinv Hlt; [lia|].
  rewrite loop_fn_S. destruct q as [|a q].
  - destruct Hinv as (m & v & Hst & _ & He & _ & _ & _ & _ & Hq0). exists m, v, [].
    split_and!; [done..|]. split; [done|]. intros b Hb. destruct (Hq0 b Hb); set_solver.
  - pose proof (flush_step q0 a q n moved s Hinv) as Hs. unfold bind.
    destruct (flush_attempt _ _ _ _ s) as [[|st'] s'|e s'|s'|s']; try done.
    destruct Hs as [Hinv' Hdec]. apply IH; [done|]. simpl in Hlt. lia.
Qed.
(** The version of the queue leaves room for the updates of a flush. *)
Definition queue_room (v : Z) (q : RevocationQueue) : Prop :=
  (0 <= v /\ v + 2 * Z.of_nat (length q) + 1 < u64_modulus)%Z.

Lemma flush_drains q v m fuel s :
  stored m (inner s) -> cfg m -> entry_is client QKEY m (Some v) q -> NoDup q ->
  queue_room v q -> (2 * length q < fuel)%nat ->
  flush_post q (loop_fn fuel (q, u64_add v 1, [])
    (flush_attempt (S config_fuel) revoke client) s).
Proof.
  intros Hst Hcfg He Hnd Hv Hfuel. unfold queue_room in Hv.
  assert (tries q [] <= 2 * length q)%nat as Ht.
  { unfold tries. pose proof (length_filter (fun a => a ∉ []) q). lia. }
  apply flush_loop; [|simpl; lia]. exists m, v. rewrite u64_add_small by lia.
  split_and!; [done|done|done|done|done|lia|lia|]. auto.
Qed.
End flush.

Section flush_app.
Context `{ndt : !NdTypes, ndo : !NdOps, ndl : !NdLaws, core : !CoreExt, lru : !LruOps}.
Context `{cr : !Crypto, crl : !CryptoLaws, auth : !AuthExt, sal : !SeqActionsLaws}.
Context {W : Type} `{net : !Network W}.
Context `{sapps : !Serial Apps, squeue : !Serial RevocationQueue}.
Context `{squeuel : !SerialLaws RevocationQueue, sentry : !Serial AccessContainerEntry}.
Context (client : AuthClient).
Let parent := config_root_dir client.
Context `{store : !SeqMDataStore (ac_client client) (mdata_address_name (address parent))
                                 (mdata_address_tag (address parent))}.
Context (cfg : MDataSeqEntries -> Prop) (done : string -> AuthState (W := W) -> Prop).
Context `{rspec : !RevokeSpec client (revoke_single_app client) cfg done}.
Context (config_fuel : nat).
Abbreviation QKEY := KEY_APP_REVOCATION_QUEUE.

(** C11: the flush of the revocation queue ends.  Twice the length of the queue is
    enough iterations, whatever the revocations answer.  If it succeeds, the
    stored queue is empty and every app is revoked; if it fails, an app left the
    stored queue only once revoked, except the one whose entry cannot be
    decrypted, which is dropped.  Without a stored queue there is nothing to do. *)
Theorem flush_drains_queue q ov m fuel s :
  stored m (inner s) -> cfg m -> entry_is client QKEY m ov q -> NoDup q ->
  queue_room (default 0%Z ov) q -> (2 * length q < fuel)%nat ->
  match ov with
  | Some _ =>
      flush_post client done q (flush_app_revocation_queue (S config_fuel) fuel client s)
  | None => exists s', flush_app_revocation_queue (S config_fuel) fuel client s = Ret tt s'
  end.
Proof.
  intros Hst Hcfg He Hnd Hroom Hfuel. unfold flush_app_revocation_queue, get_app_revocation_queue.
  destruct (get_entry_ok client QKEY m ov q s Hst He) as (s1 & Hget & Hst1).
  rewrite (bind_Ret _ _ _ _ _ Hget). destruct ov as [v|]; [|by exists s1].
  by eapply (flush_drains client (revoke_single_app client) cfg done).
Qed.

(** Pushing an app and flushing. *)
Lemma revoke_app_post a q ov m fuel s :
  stored m (inner s) -> cfg m -> entry_is client QKEY m ov q -> NoDup q ->
  (0 <= default 0%Z ov /\ default 0%Z ov + 2 * Z.of_nat (length q) + 4 < u64_modulus)%Z ->
  (2 * length q + 2 < fuel)%nat ->
  exists q', (forall b, b ∈ q' <-> b = a \/ b ∈ q) /\
    flush_post client done q' (revoke_app (S (S config_fuel)) fuel client a s).
Proof.
  intros Hst Hcfg He Hnd Hroom Hfuel. unfold revoke_app, get_app_revocation_queue, push_to_app_revocation_queue.
  destruct (get_entry_ok client QKEY m ov q s Hst He) as (s1 & Hget & Hst1).
  rewrite (bind_Ret _ _ _ _ _ Hget).
  assert (version_ok ov) as Hver by (destruct ov; simpl in *; [lia|done]).
  destruct (mutate_attempt_current client QKEY m ov q (push_f a) s1 Hst1 He Hver)
    as (s2 & m2 & Hatt & Hst2 & Hm2).
  rewrite (bind_Ret _ _ _ _ _ (loop_fn_break _ _ (S config_fuel) _ _ _ Hatt)). clear Hatt.
  unfold push_f in *. case_bool_decide as Ha; simpl in *.
  - destruct Hm2 as [He2 Hk]. exists (q ++ [a]). split; [set_solver|].
    assert (0 <= next_version ov /\ next_version ov <= default 0%Z ov + 1)%Z as Hnext.
    { destruct ov; simpl in *; [rewrite u64_add_small by lia|]; lia. }
    eapply (flush_drains client (revoke_single_app client) cfg done); [done| |done|..].
    + by eapply cfg_keeps.
    + by apply snoc_NoDup.
    + unfold queue_room. rewrite length_app. simpl. lia.
    + rewrite length_app. simpl. lia.
  - subst m2. exists q. split; [set_solver|].
    destruct ov as [v|]; last first.
    { exfalso. unfold entry_is in He. destruct (m !! _); destruct He as [? Hq]; [done|].
      rewrite Hq in Ha. set_solver. }
    simpl in *. rewrite (u64_add_small v 1) by lia.
    rewrite (u64_sub_small (v + 1) 1) by lia. replace (v + 1 - 1)%Z with v by lia.
    eapply (flush_drains client (revoke_single_app client) cfg done); [done|done|done|done|..].
    + unfold queue_room. lia.
    + lia.
Qed.
End flush_app.
