(* ===== verification/RevocationMock.v ===== *)
(** Revocation on the mock network: what one revocation does, and with it the
    flush of the queue from end to end. *)
From S2P Require Import Prelude SafeNd SafeNdModel MockAccount MockVault.
From S2P Require Import MockVaultRequests MockVaultProcess MockVaultSpec.
From S2P Require Import MockVaultRefine MockVaultSafety MockVaultBehaviour MockVaultTotality.
From S2P Require Import MockVaultAccess MockVaultLocal.
From S2P Require Import CoreTypes ClientApi MockStore MockConnection MockShared.
From S2P Require Import MockClient Recovery RecoveryProofs RecoveryRepair SeqStore.
From S2P Require Import MDataInfo MDataInfoProofs AuthTypes AuthConfig AuthConfigProofs.
From S2P Require Import AccessContainer Revocation.

Section mock.
Context `{ndt : !NdTypes, ndo : !NdOps, ndl : !NdLaws, host : !Host}.
Context `{core : !CoreExt, corel : !CoreExtLaws, lru : !LruOps}.
Context `{env : !StoreEnv, rnd : !RandomSource}.
Context `{seqm : !SeqMutateLaws, seqr : !SeqReadLaws}.

(** Changing permissions leaves the entries alone. *)
Class SeqPermsLaws := seq_del_perms d u v d' :
  mdata_del_user_permissions (MDSeq d) u v = Ok d' ->
  exists x, d' = MDSeq x /\ seq_mdata_entries x = seq_mdata_entries d.

Context `{seqp : !SeqPermsLaws}.
Context (id : ClientFullId) (name : XorName) (tag : Z).
Let c := client_full_public_id id.
Let pk := client_public_key c.
Let n := public_id_name (PClient c).

Abbreviation cvault s := (lk_vault (vault (connection_manager s))).

(** The data is stored with its entries, and these keys are not authorised. *)
Definition kept (m : MDataSeqEntries) (absent : PublicKey -> Prop) (s : ClientInner MockNet) :
    Prop :=
  mock_stored id name tag m s /\
  forall k, absent k -> auth_keys (account_of n (cvault s)) !! k = None.

(** The requests of a revocation: none authorises a key, and none but a change
    of permissions touches the data. *)
Definition harmless (req : Request) : Prop :=
  match req with
  | InsAuthKey _ _ _ => False
  | DelMDataUserPermissions _ _ _ => True
  | _ => written_data req <> Some (DMutable (MSeq name tag))
  end.

(** The data after a permission was taken away. *)
Lemma del_perms_stored m a u v s resp v' :
  mock_stored id name tag m s ->
  dispatch (PClient c) pk pk (DelMDataUserPermissions a u v) (cvault s) = Ret resp v' ->
  mock_stored id name tag m (after_request v' s).
Proof.
  intros Hst Hd. destruct (decide (a = MSeq name tag)) as [->|Hne].
  2: { eapply mock_stored_frame; [done|done|]. simpl. congruence. }
  destruct Hst as [Hs (d & Hdata & Ho & Hm)].
  destruct (client_call id _ _ _ _ Hs Hd) as (_ & Hs' & _). split; [done|]. clear Hs'.
  assert (mdata_address (MDSeq d) = MSeq name tag) as Haddr.
  { destruct Hs as (_ & Hwf & _). pose proof (wf_data _ Hwf _ _ Hdata) as Hid. by injection Hid. }
  assert (get_mdata_at (MSeq name tag) pk (DelMDataUserPermissions (MSeq name tag) u v)
    (cvault s) = Ret (MDSeq d) (cvault s)) as Hget.
  { unfold get_mdata_at, get_mdata, get_data, bind, gets. rewrite Hdata. simpl.
    rewrite (seq_owner_allowed d MManagePermissions pk Ho). simpl. by rewrite decide_True. }
  revert Hd. simpl. unfold handle_DelMDataUserPermissions, respond, bind, attempt. rewrite Hget.
  destruct (mdata_del_user_permissions _ u v) as [d'|e] eqn:Hdel; simpl;
    [|intros [= _ <-]; by exists d].
  destruct (seq_del_perms _ _ _ _ Hdel) as (x & -> & Hx).
  pose proof (commit_mutation_at (data_at (DMutable (MSeq name tag))) (fun _ _ => eq_refl)
    (public_id_name (PClient c)) (put_data_at (DMutable (MSeq name tag)) (Mutable (MDSeq x))
      (cvault s))) as Hc.
  unfold data_at in Hc. simpl in Hc. rewrite lookup_insert_eq in Hc. unfold put_data_at in Hc.
  intros Hd. exists x. rewrite (proj2 (mdata_del_user_permissions_address _ _ _ _ Hdel)).
  split_and!; [|done|congruence].
  destruct (commit_mutation _ _) as [[] v1|e v1|v1|v1]; unfold ret in Hd; simplify_eq/=; done.
Qed.

Lemma harmless_stored m req s resp v' :
  mock_stored id name tag m s -> harmless req ->
  dispatch (PClient c) pk pk req (cvault s) = Ret resp v' ->
  mock_stored id name tag m (after_request v' s).
Proof.
  intros Hst Hh Hd. assert (written_data req <> Some (DMutable (MSeq name tag)) \/
    exists a u v, req = DelMDataUserPermissions a u v) as [Hne|(a & u & v & ->)].
  - destruct req; simpl in Hh; eauto; by left.
  - by eapply mock_stored_frame.
  - by eapply del_perms_stored.
Qed.

(** The authorised keys after a request that authorises none. *)
Lemma auth_keys_lookup v k :
  auth_keys (account_of n v) !! k = client_manager (cache v) !! n ≫= fun a => auth_keys a !! k.
Proof. unfold account_of. by destruct (client_manager (cache v) !! n). Qed.

Definition no_new_key (req : Request) : Prop :=
  match req with InsAuthKey _ _ _ => False | _ => True end.

Lemma no_new_key_absent req v resp v' k :
  no_new_key req -> dispatch (PClient c) pk pk req v = Ret resp v' ->
  auth_keys (account_of n v) !! k = None -> auth_keys (account_of n v') !! k = None.
Proof.
  intros Hh Hd Hk. destruct (about_accounts req) eqn:Hab; last first.
  { rewrite auth_keys_lookup in *. pose proof (dispatch_accounts (PClient c) pk pk req Hab v) as Hp.
    rewrite Hd in Hp. simpl in Hp. by rewrite Hp. }
  destruct req; try done; simpl in Hd.
  - revert Hd. unfold handle_ListAuthKeysAndVersion, respond. rewrite decide_True by done.
    pose proof (list_auth_keys_final n v) as Hf. unfold bind, attempt. fold n.
    destruct (MockVaultRequests.list_auth_keys_and_version n v) as [r v1|e v1|v1|v1]; unfold ret; intros [= _ <-];
      simpl in Hf; subst; rewrite auth_keys_lookup in *; unfold account_listed;
      destruct (client_manager (cache v) !! n) eqn:Ha; rewrite ?Ha; try done; simpl;
      by rewrite lookup_insert_eq.
  - revert Hd. unfold handle_DelAuthKey, respond. rewrite decide_True by done.
    unfold vault_del_auth_key, bind at 1, attempt. fold n. rewrite account_update_eq, del_auth_key_eq.
    case_decide; [destruct (auth_keys (account_of n v) !! key) eqn:Hkey|];
      intros [= _ <-]; rewrite account_of_put; simpl; [|done..].
    rewrite lookup_delete_None. by right.
Qed.

(** A harmless request, sent and answered. *)
Lemma send_harmless m absent req s :
  kept m absent s -> harmless req ->
  exists resp s', send (client_of id) req s = Ret resp s' /\ kept m absent s'.
Proof.
  intros [Hst Hk] Hh. pose proof Hst as [Hs _]. pose proof Hs as (_ & _ & Hlim).
  pose proof (dispatch_answers (PClient c) pk pk req (cvault s) (or_introl Hlim)) as Ha.
  unfold wp in Ha. destruct (dispatch (PClient c) pk pk req (cvault s)) as [resp v'| | |] eqn:Hd;
    try done. exists resp, (after_request v' s).
  split; [by apply (client_call id)|]. split; [by eapply harmless_stored|].
  intros k Hab. apply (no_new_key_absent req (cvault s) resp v' k); [by destruct req|done|by auto].
Qed.

(** * Authorised keys *)

Abbreviation acc v := (account_of n v).

Lemma list_auth_keys_dispatch v :
  dispatch (PClient c) pk pk ListAuthKeysAndVersion v =
  Ret (RListAuthKeysAndVersion (Ok (auth_keys (acc v), version (acc v)))) (account_listed n v).
Proof.
  simpl. unfold handle_ListAuthKeysAndVersion, respond. rewrite decide_True by done.
  unfold MockVaultRequests.list_auth_keys_and_version, ensure_account, get_account, bind, attempt,
    gets, account_listed, account_of. fold n.
  destruct (client_manager (cache v) !! n) as [a|] eqn:Ha; simpl; [by rewrite Ha|].
  by rewrite lookup_insert_eq.
Qed.

Lemma del_auth_key_dispatch key ver v :
  dispatch (PClient c) pk pk (DelAuthKey key ver) v =
  if decide (ver = u64_add (version (acc v)) 1) then
    match auth_keys (acc v) !! key with
    | Some _ => Ret (RMutation (Ok tt))
        (put_account n {| auth_keys := delete key (auth_keys (acc v)); version := ver;
                          config := config (acc v) |} v)
    | None => Ret (RMutation (Err NoSuchKey)) (put_account n (acc v) v)
    end
  else Ret (RMutation (Err (InvalidSuccessor (version (acc v))))) (put_account n (acc v) v).
Proof.
  simpl. unfold handle_DelAuthKey, respond. rewrite decide_True by done.
  unfold vault_del_auth_key, bind at 1, attempt. fold n. rewrite account_update_eq, del_auth_key_eq.
  case_decide; [|done]. by destruct (auth_keys (acc v) !! key).
Qed.

(** A key that is listed as missing is missing; one whose deletion returns, or
    answers that there is no such key, is gone. *)
Lemma list_auth_keys_call s :
  serving s -> exists s', ClientApi.list_auth_keys_and_version (client_of id) s =
    Ret (auth_keys (acc (cvault s)), version (acc (cvault s))) s' /\ serving s' /\
    auth_keys (acc (cvault s')) = auth_keys (acc (cvault s)).
Proof.
  intros Hs. destruct (client_call id _ s _ _ Hs (list_auth_keys_dispatch (cvault s)))
    as (Hsend & Hs' & _). eexists. split_and!; [|done|].
  - unfold ClientApi.list_auth_keys_and_version. by rewrite (bind_Ret _ _ _ _ _ Hsend).
  - simpl. unfold account_of, account_listed.
    destruct (client_manager _ !! n) as [a|] eqn:Ha; [by rewrite Ha|]. simpl.
    by rewrite lookup_insert_eq.
Qed.

Lemma del_auth_key_call key ver s :
  serving s ->
  match ClientApi.del_auth_key (client_of id) key ver s with
  | Ret _ s' | Fail (DataError NoSuchKey) s' => auth_keys (acc (cvault s')) !! key = None
  | _ => True
  end.
Proof.
  intros Hs. unfold ClientApi.del_auth_key, send_mutation. pose proof (del_auth_key_dispatch key ver (cvault s)) as Hd.
  case_decide; [destruct (auth_keys (acc (cvault s)) !! key) eqn:Hk|];
    destruct (client_call id _ s _ _ Hs Hd) as (Hsend & Hs' & _);
    rewrite (bind_Ret _ _ _ _ _ Hsend); simpl; [| |done]; rewrite account_of_put; simpl;
    [apply lookup_delete_eq|done].
Qed.

(** * The calls of a revocation *)

Section calls.
Context (m : MDataSeqEntries) (absent : PublicKey -> Prop).
Abbreviation J := (kept m absent).

Lemma send_runs req : harmless req -> runs J (send (client_of id) req).
Proof.
  intros Hh s Hs. destruct (send_harmless m absent req s Hs Hh) as (resp & s' & Hsend & Hs').
  unfold wp. by rewrite Hsend.
Qed.

Lemma data_result_runs {A} (r : SndResult A) :
  runs J (data_result r : M (ClientInner MockNet) CoreError A).
Proof. intros s Hs. by destruct r. Qed.

Lemma send_mutation_runs req : harmless req -> runs J (send_mutation (client_of id) req).
Proof.
  intros Hh. unfold send_mutation. apply keeps_bind; [by apply send_runs|]. intros r.
  destruct r; auto using data_result_runs with keeps.
Qed.

Lemma get_seq_mdata_value_runs n' t k : runs J (get_seq_mdata_value (client_of id) n' t k).
Proof.
  unfold get_seq_mdata_value. apply keeps_bind; [by apply send_runs|]. intros r.
  destruct r; auto with keeps. apply keeps_bind; [apply data_result_runs|].
  intros []; auto with keeps.
Qed.

Lemma get_mdata_version_runs a : runs J (get_mdata_version (client_of id) a).
Proof.
  unfold get_mdata_version. apply keeps_bind; [by apply send_runs|]. intros r.
  destruct r; auto using data_result_runs with keeps.
Qed.

Lemma list_auth_keys_runs : runs J (ClientApi.list_auth_keys_and_version (client_of id)).
Proof.
  unfold ClientApi.list_auth_keys_and_version. apply keeps_bind; [by apply send_runs|]. intros r.
  destruct r; auto using data_result_runs with keeps.
Qed.

Lemma retry_version_runs attempts v e : runs J (retry_version attempts v e).
Proof. unfold retry_version. keeps_tac. Qed.

Lemma recover_del_perms_runs a u v :
  runs J (Recovery.del_mdata_user_permissions (client_of id) a u v).
Proof.
  unfold Recovery.del_mdata_user_permissions. apply (keeps_loop_fn _ _ attempts_left).
  - intros [attempts v']. apply keeps_or_else.
    + apply keeps_bind; [by apply send_mutation_runs|]. auto with keeps.
    + intros e. repeat case_match; auto using retry_version_runs with keeps.
  - intros [attempts v'] s l' s'. unfold or_else, bind.
    destruct (ClientApi.del_mdata_user_permissions _ _ _ _ s) as [[]|e s1| |]; try done.
    repeat case_match; try done; apply retry_version_decreases.
  - unfold attempts_left, RETRY_FUEL, MAX_ATTEMPTS. simpl. lia.
Qed.

Lemma recover_mutate_runs a acts :
  a <> MSeq name tag -> (forall n' t, a <> MUnseq n' t) ->
  runs J (Recovery.mutate_mdata_entries (client_of id) a acts).
Proof.
  intros Hne Hseq. unfold Recovery.mutate_mdata_entries. apply (keeps_loop_fn _ _ attempts_left).
  - intros [attempts acts']. unfold mutate_attempt. apply keeps_or_else.
    + apply keeps_bind; [|auto with keeps]. apply send_mutation_runs. simpl.
      destruct a as [n' t|n' t]; [|by destruct (Hseq n' t)]. simpl. congruence.
    + intros e. repeat case_match; auto with keeps.
  - intros l s l' s'. apply mutate_attempt_decreases.
  - unfold attempts_left, RETRY_FUEL, MAX_ATTEMPTS. simpl. lia.
Qed.
End calls.
End mock.

(** * One revocation *)

Section revoke.
Context `{ndt : !NdTypes, ndo : !NdOps, ndl : !NdLaws, host : !Host}.
Context `{core : !CoreExt, corel : !CoreExtLaws, lru : !LruOps}.
Context `{env : !StoreEnv, rnd : !RandomSource}.
Context `{seqm : !SeqMutateLaws, seqr : !SeqReadLaws, seqp : !SeqPermsLaws}.
Context `{cr : !Crypto, crl : !CryptoLaws, auth : !AuthExt, sal : !SeqActionsLaws}.
Context `{sapps : !Serial Apps, squeue : !Serial RevocationQueue}.
Context `{sappsl : !SerialLaws Apps, squeuel : !SerialLaws RevocationQueue}.
Context `{sentry : !Serial AccessContainerEntry}.
Context (id : ClientFullId) (config_dir access : MDataInfo) (sk : SymEncKey).

Definition mock_auth_client : AuthClient :=
  {| ac_client := client_of id; config_root_dir := config_dir; access_container := access;
     secret_symmetric_key := sk |}.

Let name := mdata_address_name (address config_dir).
Let tag := mdata_address_tag (address config_dir).
Let n := public_id_name (PClient (client_full_public_id id)).
Abbreviation cvault s := (lk_vault (vault (connection_manager s))).
Abbreviation AS := (AuthState (W := MockNet)).
Abbreviation kept := (kept id name tag).
Abbreviation stored := (mock_stored id name tag).

(** The access container is sequenced data, apart from the configuration. *)
Definition access_apart : Prop :=
  address access <> MSeq name tag /\ forall n' t, address access <> MUnseq n' t.
Context (Hac : access_apart).

Lemma on_inner_keeps {A} (X J : ClientInner MockNet -> Prop) (m : M (ClientInner MockNet) CoreError A) :
  keeps X J m -> keeps (fun s : AS => X (inner s)) (fun s => J (inner s)) (on_inner m).
Proof. intros Hm s Hs. specialize (Hm (inner s) Hs). unfold wp, on_inner in *. by destruct (m _). Qed.

Section invariant.
Context (m : MDataSeqEntries) (absent : PublicKey -> Prop).
Abbreviation J := (fun s : AS => kept m absent (inner s)).

Lemma calls_run {A} (f : M (ClientInner MockNet) CoreError A) :
  runs (kept m absent) f -> runs J (on_inner f).
Proof. apply (on_inner_keeps (fun _ => False)). Qed.

Lemma get_app_runs a : runs J (get_app mock_auth_client a).
Proof.
  unfold get_app, list_apps, get_entry. keeps_tac. all: apply calls_run, get_seq_mdata_value_runs.
Qed.

Lemma delete_app_auth_key_runs k : runs J (delete_app_auth_key mock_auth_client k).
Proof.
  unfold delete_app_auth_key. keeps_tac; apply calls_run; [apply list_auth_keys_runs|].
  by apply send_mutation_runs.
Qed.

Lemma fetch_entry_runs a ks : runs J (fetch_entry mock_auth_client a ks).
Proof. unfold fetch_entry. keeps_tac. apply calls_run, get_seq_mdata_value_runs. Qed.

Lemma clear_entry_runs app v cs :
  runs J (clear_from_access_container_entry mock_auth_client app v cs).
Proof.
  unfold clear_from_access_container_entry, revoke_container_perms, delete_entry. keeps_tac.
  all: apply calls_run; first [apply get_mdata_version_runs | apply recover_del_perms_runs
    | by apply send_mutation_runs | by apply recover_mutate_runs; apply Hac].
Qed.

Lemma revoke_single_app_runs a : runs J (revoke_single_app mock_auth_client a).
Proof.
  unfold revoke_single_app. keeps_tac; auto using get_app_runs, delete_app_auth_key_runs,
    fetch_entry_runs, clear_entry_runs.
Qed.
End invariant.

(** Deleting the key of an app leaves it unauthorised. *)
Lemma delete_app_auth_key_absent k s s' u :
  serving (inner s) -> delete_app_auth_key mock_auth_client k s = Ret u s' ->
  auth_keys (account_of n (cvault (inner s'))) !! k = None.
Proof.
  intros Hs. destruct (list_auth_keys_call id (inner s) Hs) as (s1 & Hlist & Hs1 & Hsame).
  unfold delete_app_auth_key, or_else, bind. change (ac_client mock_auth_client) with (client_of id).
  rewrite (on_inner_Ret _ _ _ s Hlist).
  case_bool_decide as Hin.
  - pose proof (del_auth_key_call id k (u64_add (version (account_of n (cvault (inner s)))) 1) s1 Hs1)
      as Hdel. unfold on_inner. simpl.
    destruct (ClientApi.del_auth_key _ _ _ s1) as [u1 s2|e s2|s2|s2]; try done.
    + intros [= _ <-]. done.
    + repeat case_match; try done. intros [= _ <-]. done.
  - intros [= _ <-]. simpl. fold n in Hsame. rewrite Hsame. by apply eq_None_not_Some.
Qed.
(** * The flush *)

Context (apps : Apps) (apps_version : option Z).

(** The configuration registers these apps. *)
Definition registered (m : MDataSeqEntries) : Prop :=
  entry_is mock_auth_client KEY_APPS m apps_version apps.

(** The key an app is registered with. *)
Definition key_of_app (a : string) (k : PublicKey) : Prop :=
  exists app, apps !! sha3_256 (as_bytes a) = Some app /\ k = app_keys_public_key (keys app).

(** The app's key is not authorised any more. *)
Definition revoked (a : string) (s : AS) : Prop :=
  serving (inner s) /\
  forall k, key_of_app a k -> auth_keys (account_of n (cvault (inner s))) !! k = None.

Lemma revoked_kept a m s :
  stored m (inner s) -> revoked a s <-> kept m (key_of_app a) (inner s).
Proof. intros Hst. unfold revoked. split; [intros [_ H]|intros [[Hs _] H]]; by split. Qed.

Lemma apps_queue_apart :
  key_cipher config_dir KEY_APPS <> key_cipher config_dir KEY_APP_REVOCATION_QUEUE.
Proof. intros H%key_cipher_inj. discriminate. Qed.

(** Nothing a change of the queue sends authorises a key. *)
Section queue_changes.
Context (absent : PublicKey -> Prop).
Definition unauthorised (s : ClientInner MockNet) : Prop :=
  serving s /\ forall k, absent k -> auth_keys (account_of n (cvault s)) !! k = None.
Abbreviation J := (fun s : AS => unauthorised (inner s)).

Lemma send_unauthorised req :
  no_new_key req -> keeps unauthorised unauthorised (send (client_of id) req).
Proof.
  intros Hreq s [Hs Hk]. pose proof Hs as (_ & _ & Hlim).
  set (c := client_full_public_id id). set (pk := client_public_key c).
  pose proof (dispatch_answers (PClient c) pk pk req (cvault s) (or_introl Hlim)) as Ha.
  unfold wp in Ha. destruct (dispatch (PClient c) pk pk req (cvault s)) as [resp v'| | |] eqn:Hd;
    try done.
  destruct (client_call id req s resp v' Hs Hd) as (Hsend & Hs' & _).
  unfold wp. rewrite Hsend. split; [done|]. intros k Hab.
  eapply (no_new_key_absent id); [done|done|by auto].
Qed.

Lemma data_result_unauthorised {A} (r : SndResult A) :
  keeps unauthorised unauthorised (data_result r : M (ClientInner MockNet) CoreError A).
Proof. intros s Hs. by destruct r. Qed.

Lemma on_rng_keeps {A} (f : M Rng CoreError A) : keeps J J (on_rng f).
Proof. intros s Hs. unfold wp, on_rng. by destruct (f _). Qed.

Lemma mutate_entry_keeps {T} `{!RustDefault T, !Serial T} fuel key (item : T) v f :
  keeps J J (mutate_entry fuel mock_auth_client key item v f).
Proof.
  assert (forall st, keeps J J (mutate_attempt_entry mock_auth_client f st)) as Hbody.
  { intros [[key' v'] item']. unfold mutate_attempt_entry, update_entry, get_entry.
    destruct (f item') as [item'' []]; [|apply keeps_ret]. keeps_tac.
    all: try apply on_rng_keeps.
    all: apply (on_inner_keeps unauthorised unauthorised); apply keeps_bind;
      [by apply send_unauthorised|]; intros r; destruct r;
      auto using data_result_unauthorised with keeps.
    all: apply keeps_bind; [apply data_result_unauthorised|]; intros []; auto with keeps. }
  intros s Hs. by apply wp_loop_fn.
Qed.
End queue_changes.

(** What follows the deletion of the key. *)
Definition revoke_rest (app : AppInfo) : M AS AuthError unit :=
  let! (version_, ac_entry) := fetch_entry mock_auth_client (app_id (info app)) (keys app) in
  match ac_entry with
  | Some ac_entry =>
      clear_from_access_container_entry mock_auth_client app version_ (fst <$> ac_entry)
  | None => ret tt
  end.

Lemma revoke_rest_runs m absent app :
  runs (fun s : AS => kept m absent (inner s)) (revoke_rest app).
Proof. unfold revoke_rest. keeps_tac; auto using fetch_entry_runs, clear_entry_runs. Qed.

Lemma revoke_single_app_eq a m (s : AS) :
  stored m (inner s) -> registered m ->
  exists s1, stored m (inner s1) /\
    revoke_single_app mock_auth_client a s =
    match apps !! sha3_256 (as_bytes a) with
    | Some app => (delete_app_auth_key mock_auth_client (app_keys_public_key (keys app)) ;!
                   revoke_rest app) s1
    | None => Fail (AuthIpcError UnknownApp) s1
    end.
Proof.
  intros Hst Hr. destruct (get_entry_ok mock_auth_client (store := MockSeqStore id name tag) KEY_APPS
    m apps_version apps s Hst Hr) as (s1 & Hget & Hst1). exists s1. split; [done|].
  assert (get_app mock_auth_client a s = match apps !! sha3_256 (as_bytes a) with
    | Some app => Ret app s1 | None => Fail (AuthIpcError UnknownApp) s1 end) as Happ.
  { unfold get_app, list_apps. rewrite (bind_Ret _ _ _ _ _ Hget). by destruct (apps !! _). }
  unfold revoke_single_app. destruct (apps !! sha3_256 (as_bytes a)) as [app|].
  - by rewrite (bind_Ret _ _ _ _ _ Happ).
  - unfold bind. by rewrite Happ.
Qed.

Lemma revoke_single_app_revokes a m s s' u :
  stored m (inner s) -> registered m -> revoke_single_app mock_auth_client a s = Ret u s' ->
  revoked a s'.
Proof.
  intros Hst Hr. destruct (revoke_single_app_eq a m s Hst Hr) as (s1 & Hst1 & ->).
  destruct (apps !! sha3_256 (as_bytes a)) as [app|] eqn:Happ; [|done].
  assert (kept m (fun _ => False) (inner s1)) as Hkept1 by by split.
  pose proof (delete_app_auth_key_runs m (fun _ => False) (app_keys_public_key (keys app)) s1 Hkept1)
    as Hdel. unfold wp in Hdel. unfold bind.
  destruct (delete_app_auth_key _ _ s1) as [u2 s2|e s2|s2|s2] eqn:Hk; try done.
  destruct Hdel as [Hst2 _]. assert (kept m (key_of_app a) (inner s2)) as Hkept2.
  { split; [done|]. intros k (app' & Happ' & ->). rewrite Happ in Happ'. simplify_eq.
    by eapply (delete_app_auth_key_absent _ s1 s2); [destruct Hst1|]. }
  pose proof (revoke_rest_runs m (key_of_app a) app s2 Hkept2) as Hrest. unfold wp in Hrest.
  intros Hrev. rewrite Hrev in Hrest. apply (revoked_kept a m s'); [by destruct Hrest|done].
Qed.

#[export] Instance mock_revoke_spec :
  RevokeSpec mock_auth_client (store := MockSeqStore id name tag)
    (revoke_single_app mock_auth_client) registered revoked.
Proof.
  split.
  - intros m m' Hr Hk. unfold registered, entry_is in *. rewrite Hk; [done|]. apply apps_queue_apart.
  - intros a m s Hst Hr. assert (kept m (fun _ => False) (inner s)) as Hkept by by split.
    pose proof (revoke_single_app_runs m (fun _ => False) a s Hkept) as Hrun. unfold wp in Hrun.
    destruct (revoke_single_app mock_auth_client a s) as [u s'|e s'|s'|s'] eqn:Hrev; try done;
      destruct Hrun as [Hst' _]; [|done].
    split; [done|]. exact (revoke_single_app_revokes a m s s' u Hst Hr Hrev).
  - intros a b m s Hst Hr Hd. apply (revoked_kept b m s Hst) in Hd.
    pose proof (revoke_single_app_runs m (key_of_app b) a s Hd) as Hrun. unfold wp in Hrun.
    destruct (revoke_single_app mock_auth_client a s) as [u s'|e s'|s'|s']; try done;
      apply (revoked_kept b m s'); try done; by destruct Hrun.
  - intros fuel q v f b m s Hst Hd.
    pose proof (mutate_entry_keeps (key_of_app b) fuel KEY_APP_REVOCATION_QUEUE q v f s Hd) as Hw.
    by apply wp_final in Hw.
Qed.
(** C12: revoking an app on the mock network, from end to end.  The call comes
    back within the stated number of iterations.  If it succeeds, the stored
    queue is empty, and neither the app nor any that was waiting in the queue has
    a key that is still authorised; if it fails, whatever is not revoked still
    waits in the stored queue, except an app whose entry cannot be decrypted. *)
Theorem revoke_app_revokes a q ov m config_fuel fuel s :
  stored m (inner s) -> registered m ->
  entry_is mock_auth_client KEY_APP_REVOCATION_QUEUE m ov q -> NoDup q ->
  (0 <= default 0%Z ov /\ default 0%Z ov + 2 * Z.of_nat (length q) + 4 < u64_modulus)%Z ->
  (2 * length q + 2 < fuel)%nat ->
  let o := revoke_app (S (S config_fuel)) fuel mock_auth_client a s in
  exists m' v' q', stored m' (inner (final o)) /\
    entry_is mock_auth_client KEY_APP_REVOCATION_QUEUE m' (Some v') q' /\
    match o with
    | Ret _ s' => q' = [] /\ forall b, b = a \/ b ∈ q -> revoked b s'
    | Fail e s' => exists dropped, (e <> AuthCoreError SymmetricDecipherFailure -> dropped = []) /\
        forall b, b = a \/ b ∈ q -> b ∈ dropped \/ b ∈ q' \/ revoked b s'
    | _ => False
    end.
Proof.
  intros Hst Hr He Hnd Hroom Hfuel o.
  destruct (revoke_app_post mock_auth_client (store := MockSeqStore id name tag) registered revoked
    config_fuel a q ov m fuel s Hst Hr He Hnd Hroom Hfuel)
    as (q0 & Hq0 & m' & v' & q' & Hst' & He' & Hpost).
  exists m', v', q'. split_and!; [done..|]. fold o in Hpost. destruct o as [u s'|e s'|s'|s']; try done.
  - destruct Hpost as [-> Hd]. split; [done|]. intros b Hb. by apply Hd, Hq0.
  - destruct (decipher_failure_cases e) as [->|Hother].
    + destruct Hpost as (b0 & _ & Hd). exists [b0]. split; [done|]. intros b Hb.
      destruct (Hd b (proj2 (Hq0 b) Hb)) as [->|]; [left; set_solver|auto].
    + rewrite Hother in Hpost. destruct Hpost as [_ Hd]. exists []. split; [done|]. intros b Hb.
      right. by apply Hd, Hq0.
Qed.
End revoke.
