(* ===== verification/AuthModel.v ===== *)
(** A concrete authenticator for the witnesses: a client of the mock network with
    unlimited coins, its configuration and its access container, two registered
    apps, one of them authorised, the other waiting to be revoked. *)
From S2P Require Import Prelude SafeNd SafeNdModel MockAccount MockVault.
From S2P Require Import MockVaultRequests MockVaultProcess MockVaultSpec.
From S2P Require Import MockVaultRefine MockVaultSafety MockVaultBehaviour MockVaultAccess.
From S2P Require Import CoreTypes ClientApi MockStore MockConnection MockShared.
From S2P Require Import MockClient Recovery RecoveryProofs RecoveryRepair SeqStore.
From S2P Require Import MDataInfo MDataInfoProofs AuthTypes AuthConfig AuthConfigProofs.
From S2P Require Import AccessContainer Revocation RevocationMock.

#[export] Instance ModelAuth : AuthExt := {|
  StringErrorT := string; EncPublicKey := Z; EncSecretKey := Z;
  gen_keypair_at i := (Z.of_nat i, Z.of_nat i);
  new_bls_at i c := ((Z.of_nat i, c) : AppFullId);
  hash_iter K V _ _ m := map_to_list m;
|}.

#[export] Instance ModelAuthTexts : AuthTexts := {|
  string_error_debug e := e; xor_name_debug _ := "XorName" |}.

#[export] Instance ModelAuthLaws : AuthExtLaws.
Proof. split. done. Qed.

#[export] Instance ModelSeqActions : SeqActionsLaws.
Proof. split; done. Qed.

#[export] Instance ModelSeqPerms : SeqPermsLaws.
Proof.
  intros d u v d'. simpl. unfold model_del_perms, rmap.
  repeat case_match; intros; simplify_eq/=; eauto.
Qed.

(** Serialisation by way of an encoding of the type. *)
Definition countable_serial (T : Type) `{Countable T} : Serial T := {|
  serialize_of t := Ok [Z.pos (encode t)];
  deserialize_of b :=
    match b with
    | [Z.pos p] => match decode p with Some t => Ok t | None => Err ("malformed" : SerialisationError) end
    | _ => Err ("malformed" : SerialisationError)
    end |}.

Lemma countable_serial_laws (T : Type) `{Countable T} : @SerialLaws _ _ T (countable_serial T).
Proof. intros t. eexists. split_and!; [done|done|]. simpl. by rewrite decode_encode. Qed.

#[export] Instance AppExchangeInfo_eq : EqDecision AppExchangeInfo.
Proof. solve_decision. Defined.
#[export] Instance AppExchangeInfo_countable : Countable AppExchangeInfo.
Proof.
  refine (inj_countable' (fun a => (app_id a, app_scope a, app_name a, app_vendor a))
    (fun '(i, s, n, v) => {| app_id := i; app_scope := s; app_name := n; app_vendor := v |}) _).
  by_fields.
Defined.

Definition app_info_code : Type := AppExchangeInfo * (Z * Z) * list Z * Z * Z.
Definition app_info_to (a : AppInfo) : app_info_code :=
  (info a, app_full_id (keys a) : Z * Z, app_enc_key (keys a),
   app_enc_pk (keys a) : Z, app_enc_sk (keys a) : Z).
Definition app_info_of (t : app_info_code) : AppInfo :=
  let '(i, f, k, p, s) := t in
  {| info := i; keys := {| app_full_id := (f : AppFullId); app_enc_key := k;
                           app_enc_pk := (p : EncPublicKey); app_enc_sk := (s : EncSecretKey) |} |}.

Lemma app_info_inv a : app_info_of (app_info_to a) = a.
Proof. by destruct a as [i [f k p s]]. Qed.

#[export] Instance SerialQueue : Serial RevocationQueue := countable_serial (list string).
#[export] Instance SerialQueueLaws : SerialLaws RevocationQueue := countable_serial_laws (list string).

#[export] Instance SerialApps : Serial Apps := {|
  serialize_of t := Ok [Z.pos (encode (app_info_to <$> t : gmap bytes app_info_code))];
  deserialize_of b :=
    match b with
    | [Z.pos p] =>
        match (decode p : option (gmap bytes app_info_code)) with
        | Some t => Ok (app_info_of <$> t)
        | None => Err ("malformed" : SerialisationError)
        end
    | _ => Err ("malformed" : SerialisationError)
    end |}.
#[export] Instance SerialAppsLaws : SerialLaws Apps.
Proof.
  intros t. eexists. split_and!; [done|done|]. simpl. rewrite decode_encode. f_equal.
  apply fmap_inv, app_info_inv.
Qed.

#[export] Instance MDataInfo_countable : Countable MDataInfo.
Proof.
  refine (inj_countable' (fun i => (address i, enc_info i, new_enc_info i))
    (fun '(a, e, n) => {| address := a; enc_info := e; new_enc_info := n |}) _).
  by_fields.
Defined.

#[export] Instance SerialEntry : Serial AccessContainerEntry :=
  countable_serial (gmap string (MDataInfo * gset Permission)).
#[export] Instance SerialEntryLaws : SerialLaws AccessContainerEntry :=
  countable_serial_laws (gmap string (MDataInfo * gset Permission)).
#[export] Instance SerialDirs : Serial (gmap string MDataInfo) :=
  countable_serial (gmap string MDataInfo).
#[export] Instance SerialDirsLaws : SerialLaws (gmap string MDataInfo) :=
  countable_serial_laws (gmap string MDataInfo).

(** * An account *)

Definition ex_config_dir : MDataInfo :=
  {| address := MSeq (ex_name 70) 15000; enc_info := Some ([1]%Z, [2]%Z); new_enc_info := None |}.
Definition ex_access : MDataInfo :=
  {| address := MSeq (ex_name 71) 15000; enc_info := Some ([3]%Z, [4]%Z); new_enc_info := None |}.
Definition ex_sk : SymEncKey := [5%Z].
Definition ex_auth_client : AuthClient := mock_auth_client ex_full_id ex_config_dir ex_access ex_sk.

Definition ex_app_info (name : string) (k : Z) : AppInfo :=
  {| info := {| app_id := name; app_scope := None; app_name := name; app_vendor := "v" |};
     keys := {| app_full_id := ((k, 1%Z) : AppFullId); app_enc_key := [k];
                app_enc_pk := (k : EncPublicKey); app_enc_sk := (k : EncSecretKey) |} |}.
Definition ex_apps : Apps :=
  {[ sha3_256 (as_bytes "app") := ex_app_info "app" 7;
     sha3_256 (as_bytes "old") := ex_app_info "old" 8 ]}.

(** The stored form of an entry. *)
Definition ex_stored_value {T} `{!Serial T} (t : T) (v : Z) : MDataSeqValue :=
  {| seq_data :=
       match serialize_of t with
       | Ok b => match enc_entry_value ex_config_dir b 0%nat with Ret c _ => c | _ => [] end
       | Err _ => []
       end;
     seq_version := v |}.
Definition ex_config_entries : MDataSeqEntries :=
  {[ key_cipher ex_config_dir KEY_APPS := ex_stored_value ex_apps 0;
     key_cipher ex_config_dir KEY_APP_REVOCATION_QUEUE := ex_stored_value ["old"] 3 ]}.

Definition ex_config_data : SeqMutableData := {| md_name := ex_name 70; md_tag := 15000;
  md_entries := ex_config_entries; md_perms := ∅; md_version := 0; md_owner := 1 |}.
Definition ex_access_data : SeqMutableData := {| md_name := ex_name 71; md_tag := 15000;
  md_entries := ∅; md_perms := ∅; md_version := 0; md_owner := 1 |}.

Definition ex_free_config : Config := {|
  quic_p2p := tt : QuicP2pConfig;
  dev := Some {| mock_unlimited_coins := true; mock_in_memory_storage := true;
                 mock_vault_path_opt := None |} |}.

Definition ex_auth_vault : Vault := {|
  cache := {|
    coin_balances := <[ex_name 1 := ex_balance 1 100]> ∅;
    client_manager :=
      <[ex_name 1 := {| auth_keys := {[ ex_key 7 := ex_perms ]};
                        version := 1; config := ex_free_config |}]> ∅;
    login_packets := ∅;
    nae_manager :=
      <[DMutable (MSeq (ex_name 70) 15000) := Mutable (MDSeq ex_config_data)]>
      (<[DMutable (MSeq (ex_name 71) 15000) := Mutable (MDSeq ex_access_data)]> ∅) |};
  vault_config := ex_free_config;
  store := init_vault_store ex_free_config |}.

Lemma ex_auth_vault_wf : vault_wf ex_auth_vault.
Proof.
  split; simpl; repeat (apply map_Forall_insert_2; [|]);
    try reflexivity; try apply map_Forall_empty; unfold balance_wf, is_u64, u64_modulus; simpl; lia.
Qed.

Definition ex_auth_net : MockNet :=
  {| vault := {| lk_vault := ex_auth_vault; lk_disk := {| files := ∅; ticks := 0 |} |};
     request_hook := None; response_hook := None; groups := ∅; net_tx := []; drawn := 0 |}.
Definition ex_auth_state : AuthState (W := MockNet) :=
  {| inner := {| connection_manager := ex_auth_net;
                 ci_cache := ([] : LruCache IDataAddress IData); timeout := 0 |};
     auth_rng := 0%nat |}.

Lemma ex_config_stored :
  mock_stored ex_full_id (ex_name 70) 15000 ex_config_entries (inner ex_auth_state).
Proof.
  split.
  - split_and!; [by split|exact ex_auth_vault_wf|done].
  - exists ex_config_data. split_and!; [|done|done].
    change (nae_manager _) with (nae_manager (cache ex_auth_vault)). apply lookup_insert_eq.
Qed.

Lemma ex_entry_is {T} `{!RustDefault T, !Serial T} key (t : T) v plain :
  ex_config_entries !! key_cipher ex_config_dir key = Some v ->
  decrypt ex_config_dir (seq_data v) = Ok plain -> plain <> [] -> deserialize_of plain = Ok t ->
  entry_is ex_auth_client key ex_config_entries (Some (seq_version v)) t.
Proof.
  intros Hv Hdec Hne Hdes. unfold entry_is. simpl. rewrite Hv. split; [done|].
  exists plain. by rewrite decide_False.
Qed.

Lemma ex_registered : registered ex_full_id ex_config_dir ex_access ex_sk ex_apps (Some 0%Z)
  ex_config_entries.
Proof.
  apply (ex_entry_is KEY_APPS ex_apps (ex_stored_value ex_apps 0)
    [Z.pos (encode (app_info_to <$> ex_apps : gmap bytes app_info_code))]).
  - vm_refl.
  - vm_refl.
  - done.
  - vm_refl.
Qed.

Lemma ex_queue_is :
  entry_is ex_auth_client KEY_APP_REVOCATION_QUEUE ex_config_entries (Some 3%Z) ["old"].
Proof.
  apply (ex_entry_is KEY_APP_REVOCATION_QUEUE ["old"] (ex_stored_value ["old"] 3)
    [Z.pos (encode ["old"])]).
  - vm_refl.
  - vm_refl.
  - done.
  - vm_refl.
Qed.

(** * The theorems at work *)

Example mutate_entry_atomic_witness :
  let f := push_f "new" in
  exists s' m', mutate_entry 2 ex_auth_client KEY_APP_REVOCATION_QUEUE ([] : RevocationQueue) 1 f
      ex_auth_state =
      Ret (if (f ["old"]).2 then next_version (Some 3%Z) else u64_sub (next_version (Some 3%Z)) 1,
           (f ["old"]).1) s' /\
    mock_stored ex_full_id (ex_name 70) 15000 m' (inner s') /\
    if (f ["old"]).2 then
      entry_is ex_auth_client KEY_APP_REVOCATION_QUEUE m' (Some (next_version (Some 3%Z))) (f ["old"]).1 /\
      forall k, k <> key_cipher ex_config_dir KEY_APP_REVOCATION_QUEUE ->
        m' !! k = ex_config_entries !! k
    else m' = ex_config_entries.
Proof.
  intros f.
  apply (mutate_entry_atomic ex_auth_client (store := MockSeqStore ex_full_id (ex_name 70) 15000)
    KEY_APP_REVOCATION_QUEUE ex_config_entries (Some 3%Z) ["old"] [] 1 f 0 ex_auth_state).
  - exact ex_config_stored.
  - exact ex_queue_is.
  - unfold version_ok, u64_modulus. lia.
  - discriminate.
  - discriminate.
  - reflexivity.
Defined.

Lemma ex_access_apart : access_apart ex_config_dir ex_access.
Proof. by split. Qed.

Example flush_drains_queue_witness :
  flush_post ex_auth_client (store := MockSeqStore ex_full_id (ex_name 70) 15000)
    (revoked ex_full_id ex_apps) ["old"]
    (flush_app_revocation_queue 1 3 ex_auth_client ex_auth_state).
Proof.
  apply (flush_drains_queue ex_auth_client (store := MockSeqStore ex_full_id (ex_name 70) 15000)
    (registered ex_full_id ex_config_dir ex_access ex_sk ex_apps (Some 0%Z))
    (revoked ex_full_id ex_apps)
    (rspec := mock_revoke_spec ex_full_id ex_config_dir ex_access ex_sk ex_access_apart
                ex_apps (Some 0%Z))
    0 ["old"] (Some 3%Z) ex_config_entries 3 ex_auth_state).
  - exact ex_config_stored.
  - exact ex_registered.
  - exact ex_queue_is.
  - apply NoDup_singleton.
  - unfold queue_room, u64_modulus. simpl. lia.
  - simpl. lia.
Defined.

Example revoke_app_revokes_witness :
  let o := revoke_app 2 5 ex_auth_client "app" ex_auth_state in
  exists m' v' q', mock_stored ex_full_id (ex_name 70) 15000 m' (inner (final o)) /\
    entry_is ex_auth_client KEY_APP_REVOCATION_QUEUE m' (Some v') q' /\
    match o with
    | Ret _ s' => q' = [] /\ forall b, b = "app" \/ b ∈ ["old"] -> revoked ex_full_id ex_apps b s'
    | Fail e s' => exists dropped, (e <> AuthCoreError SymmetricDecipherFailure -> dropped = []) /\
        forall b, b = "app" \/ b ∈ ["old"] ->
          b ∈ dropped \/ b ∈ q' \/ revoked ex_full_id ex_apps b s'
    | _ => False
    end.
Proof.
  apply (revoke_app_revokes ex_full_id ex_config_dir ex_access ex_sk ex_access_apart ex_apps
    (Some 0%Z) "app" ["old"] (Some 3%Z) ex_config_entries 0 5 ex_auth_state).
  - exact ex_config_stored.
  - exact ex_registered.
  - exact ex_queue_is.
  - apply NoDup_singleton.
  - unfold u64_modulus. simpl. lia.
  - simpl. lia.
Defined.

(** What the model does there: both apps are revoked, and the queue is empty. *)
Example revoke_app_runs :
  let o := revoke_app 2 5 ex_auth_client "app" ex_auth_state in
  match o with
  | Ret _ s' =>
      auth_keys (account_of (ex_name 1) (lk_vault (vault (connection_manager (inner s'))))) = ∅
  | _ => False
  end.
Proof. vm_compute. reflexivity. Qed.
