(* ===== verification/AppAuth.v ===== *)
(** Registration of apps: [safe_authenticator/src/app_auth.rs],
    [app_container.rs], [apps.rs] and [update_container_perms] of [ipc.rs], with
    [create_dir] of [safe_core/src/nfs/dir.rs].

    An app is registered in the configuration, given a key in the client's
    account, permissions on containers and an entry in the access container. *)
From S2P Require Import Prelude SafeNd SafeNdModel MockAccount CoreTypes ClientApi.
From S2P Require Import Recovery MDataInfo AuthTypes AuthConfig AccessContainer.
From S2P Require Import MockVaultSpec MockStore MockConnection MockClient RecoveryProofs.
From S2P Require Import RecoveryRepair MDataInfoProofs SeqStore AuthConfigProofs.
From S2P Require Import RevocationMock AuthModel.

Definition DIR_TAG : Z := 15000.

Class AppAuthExt `{!NdTypes, !CoreExt} := {
  BootstrapConfig : Type;
  (** [client::bootstrap_config()], read from the configuration file. *)
  bootstrap_config : result BootstrapConfig CoreError;
  (** [SeqMutableData::new_with_data]. *)
  seq_new_with_data : XorName -> Z -> MDataSeqEntries -> gmap PublicKey MDataPermissionSet ->
    PublicKey -> SeqMutableData;
}.

Section app_auth.
Context `{ndt : !NdTypes, ndo : !NdOps, core : !CoreExt, lru : !LruOps}.
Context `{cr : !Crypto, auth : !AuthExt, aa : !AppAuthExt}.
Context {W : Type} `{net : !Network W}.
Context `{sapps : !Serial Apps, squeue : !Serial RevocationQueue}.
Context `{sdirs : !Serial (gmap string MDataInfo), sentry : !Serial AccessContainerEntry}.
Context (config_fuel : nat).
Abbreviation A T := (M (AuthState (W := W)) AuthError T).

(** * Messages *)

Record AuthReq := {
  req_app : AppExchangeInfo;
  req_app_container : bool;
  req_app_permissions : AppPermissions;
  req_containers : gmap string ContainerPermissions;
}.

Record AccessContInfo := { aci_id : XorName; aci_tag : Z; aci_nonce : SymEncNonce }.

Definition from_mdata_info (md : MDataInfo) : result AccessContInfo AuthError :=
  match enc_info md with
  | Some (_, nonce) => Ok {| aci_id := mdata_address_name (address md);
                             aci_tag := mdata_address_tag (address md); aci_nonce := nonce |}
  | None => Err (AuthIpcError (IpcUnexpected "MDataInfo doesn't contain nonce"))
  end.

Record AuthGranted := {
  granted_keys : AppKeys;
  granted_bootstrap : BootstrapConfig;
  granted_access_info : AccessContInfo;
  granted_entry : AccessContainerEntry;
}.

Definition permission_action (p : Permission) : MDataAction :=
  match p with
  | PRead => MRead | PInsert => MInsert | PUpdate => MUpdate
  | PDelete => MDelete | PManagePermissions => MManagePermissions
  end.

(** [container_perms_into_permission_set] of [ipc/req/mod.rs]. *)
Definition container_perms_into_permission_set (permissions : list Permission) :
    MDataPermissionSet :=
  foldl (fun ps access => perms_allow ps (permission_action access)) perms_new permissions.

(** The iteration of a [BTreeSet<Permission>]. *)
Definition permissions_iter (access : ContainerPermissions) : list Permission :=
  filter (fun p => p ∈ access) [PRead; PInsert; PUpdate; PDelete; PManagePermissions].

(** * Dedicated containers *)

Definition all_permissions : ContainerPermissions :=
  {[ PRead; PInsert; PUpdate; PDelete; PManagePermissions ]}.
Definition full_permission_set : MDataPermissionSet :=
  perms_allow (perms_allow (perms_allow (perms_allow (perms_allow perms_new
    MRead) MInsert) MUpdate) MDelete) MManagePermissions.

(** [nfs::create_dir]. *)
Definition create_dir (client : AuthClient) (dir : MDataInfo) (contents : MDataSeqEntries)
    (perms : gmap PublicKey MDataPermissionSet) : M (AuthState (W := W)) NfsError unit :=
  let pub_key := owner_key (ac_client client) in
  let dir_md := seq_new_with_data (mdata_address_name (address dir))
                  (mdata_address_tag (address dir)) contents perms pub_key in
  map_err NfsCoreError
    (or_else (on_inner (put_seq_mutable_data (ac_client client) dir_md))
       (fun err =>
          match err with
          | DataError DataExists => ret tt
          | e => fail e
          end)).

Definition create (client : AuthClient) (app_pk : PublicKey) : A MDataInfo :=
  let! dir := from_core (on_rng (random_private MKSeq DIR_TAG)) in
  map_err AuthNfsError (create_dir client dir ∅ {[ app_pk := full_permission_set ]}) ;!
  ret dir.

Definition fetch_or_create (client : AuthClient) (app_id : string) (app_pk : PublicKey) :
    A MDataInfo :=
  let app_cont_name := app_container_name app_id in
  let! (ac_entry_version, ac_entries) := fetch_authenticator_entry client in
  match ac_entries !! app_cont_name with
  | Some mdata_info =>
      let! version_ := from_core (on_inner (get_mdata_version (ac_client client)
                         (address mdata_info))) in
      from_core (on_inner (ClientApi.set_mdata_user_permissions (ac_client client)
        (address mdata_info) app_pk full_permission_set (u64_add version_ 1))) ;!
      ret mdata_info
  | None =>
      let! md_info := create client app_pk in
      let ac_entries := <[app_cont_name := md_info]> ac_entries in
      put_authenticator_entry client ac_entries (u64_add ac_entry_version 1) ;!
      ret md_info
  end.

(** [app_container::remove]. *)
Definition remove (client : AuthClient) (app_id : string) : A bool :=
  let app_cont_name := app_container_name app_id in
  let! (ac_entry_version, ac_entries) := fetch_authenticator_entry client in
  match ac_entries !! app_cont_name with
  | None => ret false
  | Some mdata_info =>
      let ac_entries := delete app_cont_name ac_entries in
      let name := mdata_address_name (address mdata_info) in
      let tag := mdata_address_tag (address mdata_info) in
      let! entries := from_core (on_inner (list_seq_mdata_entries (ac_client client) name tag)) in
      let actions := foldl (fun actions '(entry_name, val) =>
          seq_actions_del actions entry_name (u64_add (seq_version val) 1))
        seq_actions_new (btree_iter bytes_leb entries) in
      from_core (on_inner (mutate_seq_mdata_entries (ac_client client) name tag actions)) ;!
      put_authenticator_entry client ac_entries (u64_add ac_entry_version 1) ;!
      ret true
  end.

(** * The state of an app *)

Inductive AppState := Authenticated | Revoked | NotAuthenticated.

Definition app_state (client : AuthClient) (apps : Apps) (app_id : string) : A AppState :=
  let app_id_hash := sha3_256 (as_bytes app_id) in
  match apps !! app_id_hash with
  | Some app =>
      let! (_, entry) := fetch_entry client app_id (keys app) in
      match entry with
      | Some _ => ret Authenticated
      | None => ret Revoked
      end
  | None => ret NotAuthenticated
  end.

Definition app_container_exists (permissions : AccessContainerEntry) (app_id : string) : bool :=
  match permissions !! app_container_name app_id with
  | Some (_, access) => bool_decide (access = all_permissions)
  | None => false
  end.

Definition insert_app_container (permissions : AccessContainerEntry) (app_id : string)
    (app_container_info : MDataInfo) : AccessContainerEntry :=
  <[app_container_name app_id := (app_container_info, all_permissions)]> permissions.

Definition update_access_container (client : AuthClient) (app : AppInfo)
    (permissions : AccessContainerEntry) : A unit :=
  let! (version_, entry) := fetch_entry client (app_id (info app)) (keys app) in
  let version_ := match entry with Some _ => u64_add version_ 1 | None => 0%Z end in
  put_entry client (app_id (info app)) (keys app) permissions version_.

Definition check_revocation (client : AuthClient) (app_id : string) : A unit :=
  let! (_, queue) := get_app_revocation_queue client in
  if bool_decide (app_id ∈ queue) then fail PendingRevocation else ret tt.

(** * Authentication *)

(** The containers are looked up, and the requests for their versions sent, one
    by one; then the permissions are set in the same order. *)
Definition update_container_perms (client : AuthClient)
    (permissions : gmap string ContainerPermissions) (app_pk : PublicKey) :
    A AccessContainerEntry :=
  let! (_, root_containers) := fetch_authenticator_entry client in
  let! (reqs, _) := fold_m (fun '(reqs, root_containers) '(container_key, access) =>
      let! mdata_info := ok_or (root_containers !! container_key) (NoSuchContainer container_key) in
      let! version_ := attempt (on_inner (get_mdata_version (ac_client client)
                         (address mdata_info))) in
      ret (reqs ++ [(container_key, mdata_info, access, version_)],
           delete container_key root_containers))
    (hash_iter permissions) ([], root_containers) in
  fold_m (fun entry '(container_key, mdata_info, access, version_) =>
      let! version_ := from_core (lift_result version_) in
      from_core (on_inner (Recovery.set_mdata_user_permissions (ac_client client)
        (address mdata_info) app_pk
        (container_perms_into_permission_set (permissions_iter access)) (u64_add version_ 1))) ;!
      ret (<[container_key := (mdata_info, access)]> entry)) reqs ∅.

Definition authenticated_app (client : AuthClient) (app : AppInfo) (app_id : string)
    (app_container : bool) : A AuthGranted :=
  let! bootstrap := from_core (lift_result bootstrap_config) in
  let! (_, perms) := fetch_entry client app_id (keys app) in
  let perms := default ∅ perms in
  let! perms :=
    if app_container && negb (app_container_exists perms app_id) then
      let! mdata_info := fetch_or_create client app_id (app_keys_public_key (keys app)) in
      let perms := insert_app_container perms app_id mdata_info in
      update_access_container client app perms ;! ret perms
    else ret perms in
  let! access_info := lift_result (from_mdata_info (access_container client)) in
  ret {| granted_keys := keys app; granted_bootstrap := bootstrap;
         granted_access_info := access_info; granted_entry := perms |}.

Definition authenticate_new_app (client : AuthClient) (app : AppInfo) (app_container : bool)
    (app_permissions : AppPermissions) (permissions : gmap string ContainerPermissions) :
    A AuthGranted :=
  let app_pk := app_keys_public_key (keys app) in
  let! (_, version_) := from_core (on_inner (ClientApi.list_auth_keys_and_version
                          (ac_client client))) in
  from_core (on_inner (Recovery.ins_auth_key (ac_client client) app_pk app_permissions
    (u64_add version_ 1))) ;!
  let! perms :=
    if bool_decide (permissions = ∅) then ret ∅
    else update_container_perms client permissions app_pk in
  let! perms :=
    if (app_container : bool) then
      let! mdata_info := fetch_or_create client (app_id (info app)) app_pk in
      ret (insert_app_container perms (app_id (info app)) mdata_info)
    else ret perms in
  update_access_container client app perms ;!
  let! access_info := lift_result (from_mdata_info (access_container client)) in
  let! bootstrap := from_core (lift_result bootstrap_config) in
  ret {| granted_keys := keys app; granted_bootstrap := bootstrap;
         granted_access_info := access_info; granted_entry := perms |}.

(** Both futures of the [join] have sent their request when it is made; the error
    of the first one is looked at first. *)
Definition authenticate (client : AuthClient) (auth_req : AuthReq) : A AuthGranted :=
  let app_id := app_id (req_app auth_req) in
  let! listed := attempt (list_apps client) in
  let! checked := attempt (check_revocation client app_id) in
  let! (apps_version, apps) := lift_result listed in
  lift_result checked ;!
  let! state := app_state client apps app_id in
  let! app :=
    match state with
    | NotAuthenticated =>
        let! public_id := unwrap match public_id (ac_client client) with
                                 | PClient id => Some id | _ => None end in
        let! keys := from_core (on_rng (app_keys_new public_id)) in
        let app := {| info := req_app auth_req; keys := keys |} in
        insert_app config_fuel client apps (next_version apps_version) app ;!
        ret app
    | Authenticated | Revoked =>
        ok_or (apps !! sha3_256 (as_bytes app_id))
          (AuthUnexpected "Logical error - couldn't find a revoked app in config")
    end in
  match state with
  | Authenticated => authenticated_app client app app_id (req_app_container auth_req)
  | NotAuthenticated | Revoked =>
      authenticate_new_app client app (req_app_container auth_req)
        (req_app_permissions auth_req) (req_containers auth_req)
  end.
(** * Listing and removing apps *)

Definition remove_revoked_app (client : AuthClient) (app_id : string) : A unit :=
  let! (apps_version, apps) := list_apps client in
  let! state := app_state client apps app_id in
  match state with
  | Revoked => ret tt
  | Authenticated => fail (AuthUnexpected "App is not revoked")
  | NotAuthenticated => fail (AuthIpcError UnknownApp)
  end ;!
  remove_app config_fuel client apps (next_version apps_version) app_id ;!
  remove client app_id ;!
  ret tt.

(** The entries of the access container, and the nonce of its entry keys. *)
Definition access_entries (client : AuthClient) : A MDataSeqEntries :=
  let ac := access_container client in
  from_core (on_inner (list_seq_mdata_entries (ac_client client)
    (mdata_address_name (address ac)) (mdata_address_tag (address ac)))).
Definition access_nonce (client : AuthClient) : result SymEncNonce AuthError :=
  ok_or_r (snd <$> enc_info (access_container client))
    (AuthUnexpected "No nonce on access container's MDataInfo").

Definition list_revoked (client : AuthClient) : A (list AppExchangeInfo) :=
  let! (_, auth_cfg) := list_apps client in
  let! entries := access_entries client in
  let! nonce := lift_result (access_nonce client) in
  fold_m (fun apps app =>
      let! key := lift_result (core_result
        (access_container_enc_key (app_id (info app)) (app_enc_key (keys app)) nonce)) in
      let revoked :=
        match entries !! key with
        | Some entry => bool_decide (seq_data entry = [])
        | None => true
        end in
      ret (if (revoked : bool) then apps ++ [info app] else apps))
    (hash_iter auth_cfg).*2 [].

Record RegisteredApp := {
  reg_info : AppExchangeInfo; reg_containers : gmap string ContainerPermissions }.

Definition list_registered (client : AuthClient) : A (list RegisteredApp) :=
  let! (_, auth_cfg) := list_apps client in
  let! entries := access_entries client in
  let! nonce := lift_result (access_nonce client) in
  fold_m (fun apps app =>
      let! key := lift_result (core_result
        (access_container_enc_key (app_id (info app)) (app_enc_key (keys app)) nonce)) in
      match entries !! key with
      | Some entry =>
          if bool_decide (seq_data entry = []) then ret apps
          else
            let! app_access := lift_result (decode_app_entry (seq_data entry)
                                 (app_enc_key (keys app))) in
            ret (apps ++ [{| reg_info := info app; reg_containers := snd <$> app_access |}])
      | None => ret apps
      end)
    (hash_iter auth_cfg).*2 [].

Record AppAccess := {
  acc_sign_key : PublicKey; acc_permissions : MDataPermissionSet;
  acc_name : option string; acc_app_id : option string }.

(** The two futures of the [join] send their request when they are made. *)
Definition apps_accessing_mutable_data (client : AuthClient) (name : XorName) (type_tag : Z) :
    A (list AppAccess) :=
  let! permissions := attempt (from_core (on_inner (list_mdata_permissions (ac_client client)
                        (MSeq name type_tag)))) in
  let! apps := attempt (list_apps client) in
  let! permissions := lift_result permissions in
  let! (_, apps) := lift_result apps in
  let apps := foldl (fun (by_key : gmap PublicKey AppExchangeInfo) '(_, app) =>
      <[app_keys_public_key (keys app) := info app]> by_key) ∅ (hash_iter apps) in
  ret (map (fun '(user, perm_set) =>
      match apps !! user with
      | Some app_info => {| acc_sign_key := user; acc_permissions := perm_set;
                            acc_name := Some (app_name app_info);
                            acc_app_id := Some (app_id app_info) |}
      | None => {| acc_sign_key := user; acc_permissions := perm_set;
                   acc_name := None; acc_app_id := None |}
      end) (btree_iter public_key_leb permissions)).
End app_auth.

(** * Registration of apps

    The permissions that are granted, and the refusal of an app that waits to be
    revoked. *)

(** * Permissions *)

Section permissions.
Context `{ndt : !NdTypes, ndo : !NdOps, ndl : !NdLaws}.

Lemma permission_fold_allowed l ps a :
  perms_is_allowed (foldl (fun ps access => perms_allow ps (permission_action access)) ps l) a =
  perms_is_allowed ps a || bool_decide (a ∈ map permission_action l).
Proof.
  revert ps. induction l as [|p l IH]; intros ps; simpl.
  - by rewrite orb_false_r.
  - rewrite IH, perms_allow_allowed. destruct (decide (permission_action p = a)) as [Heq|Hne].
    + rewrite (bool_decide_eq_true_2 (permission_action p = a)) by done.
      rewrite (bool_decide_eq_true_2 (a ∈ _ :: _)) by set_solver. by rewrite orb_true_r.
    + rewrite (bool_decide_eq_false_2 (permission_action p = a)) by done. simpl. f_equal.
      apply bool_decide_ext. set_solver.
Qed.

#[local] Instance permission_action_inj : Inj (=) (=) permission_action.
Proof. by intros [] []. Qed.

(** An app is granted on a container exactly the actions it asked for: the
    set of permissions made of the request allows an action if and only if the
    request names the corresponding permission. *)
Theorem container_permissions_exact (access : ContainerPermissions) (p : Permission) :
  perms_is_allowed (container_perms_into_permission_set (permissions_iter access))
    (permission_action p) = bool_decide (p ∈ access).
Proof.
  unfold container_perms_into_permission_set. rewrite permission_fold_allowed, perms_new_allowed.
  simpl. apply bool_decide_ext. change map with (@fmap list _). rewrite list_elem_of_fmap.
  unfold permissions_iter. setoid_rewrite list_elem_of_filter. split.
  - intros (q & ->%(inj permission_action) & Hq & _). done.
  - intros Hp. exists p. split_and!; [done|done|]. destruct p; set_solver.
Qed.

End permissions.

(** * Authentication of an app that waits to be revoked *)

Section proofs.
Context `{ndt : !NdTypes, ndo : !NdOps, ndl : !NdLaws, core : !CoreExt, lru : !LruOps}.
Context `{cr : !Crypto, crl : !CryptoLaws, auth : !AuthExt, aa : !AppAuthExt}.
Context {W : Type} `{net : !Network W}.
Context `{sapps : !Serial Apps, squeue : !Serial RevocationQueue}.
Context `{sappsl : !SerialLaws Apps, squeuel : !SerialLaws RevocationQueue}.
Context `{sdirs : !Serial (gmap string MDataInfo), sentry : !Serial AccessContainerEntry}.

Context (client : AuthClient).
Let parent := config_root_dir client.
Context `{store : !SeqMDataStore (ac_client client) (mdata_address_name (address parent))
                                 (mdata_address_tag (address parent))}.

(** An app that waits in the revocation queue is not authenticated: the
    request is refused with [PendingRevocation] and the configuration is left as
    it was, whatever the state of the app and whatever it asks for. *)
Theorem pending_app_refused (config_fuel : nat) (req : AuthReq) (m : MDataSeqEntries) (ov : option Z) (apps : Apps)
    (ov' : option Z) (q : RevocationQueue) (s : AuthState (W := W)) :
  stored m (inner s) -> entry_is client KEY_APPS m ov apps ->
  entry_is client KEY_APP_REVOCATION_QUEUE m ov' q -> app_id (req_app req) ∈ q ->
  exists s', authenticate config_fuel client req s = Fail PendingRevocation s' /\
    stored m (inner s').
Proof.
  intros Hst Ha Hq Hin. unfold authenticate.
  destruct (get_entry_ok client KEY_APPS m ov apps s Hst Ha) as (s1 & Hlist & Hst1).
  destruct (get_entry_ok client KEY_APP_REVOCATION_QUEUE m ov' q s1 Hst1 Hq) as (s2 & Hget & Hst2).
  exists s2. split; [|done].
  assert (check_revocation client (app_id (req_app req)) s1 = Fail PendingRevocation s2) as Hcheck.
  { unfold check_revocation, get_app_revocation_queue. rewrite (bind_Ret _ _ _ _ _ Hget).
    by rewrite bool_decide_eq_true_2. }
  assert (attempt (F := AuthError) (list_apps client) s = Ret (Ok (ov, apps)) s1) as H1.
  { unfold attempt, list_apps. by rewrite Hlist. }
  assert (attempt (F := AuthError) (check_revocation client (app_id (req_app req))) s1 =
    Ret (Err PendingRevocation) s2) as H2 by (unfold attempt; by rewrite Hcheck).
  rewrite (bind_Ret _ _ _ _ _ H1). by rewrite (bind_Ret _ _ _ _ _ H2).
Qed.
End proofs.

#[export] Instance ModelAppAuth : AppAuthExt := {|
  BootstrapConfig := unit;
  bootstrap_config := Ok tt;
  seq_new_with_data n t es ps o := ({| md_name := n; md_tag := t; md_entries := es; md_perms := ps;
                                      md_version := 0; md_owner := o |} : SeqMutableData);
|}.

Definition ex_auth_req (name : string) : AuthReq :=
  {| req_app := {| app_id := name; app_scope := None; app_name := name; app_vendor := "v" |};
     req_app_container := true; req_app_permissions := ex_perms; req_containers := ∅ |}.

Example pending_app_refused_witness :
  exists s', authenticate 2 ex_auth_client (ex_auth_req "old") ex_auth_state =
      Fail PendingRevocation s' /\
    mock_stored ex_full_id (ex_name 70) 15000 ex_config_entries (inner s').
Proof.
  apply (pending_app_refused ex_auth_client (store := MockSeqStore ex_full_id (ex_name 70) 15000)
    2 (ex_auth_req "old") ex_config_entries (Some 0%Z) ex_apps (Some 3%Z) ["old"] ex_auth_state).
  - exact ex_config_stored.
  - exact ex_registered.
  - exact ex_queue_is.
  - apply list_elem_of_here.
Defined.
