(* ===== verification/AppErrors.v ===== *)
(** The errors of [safe_app] ([safe_app/src/errors.rs]): the codes reported over
    the C interface, the error type, and how the errors of the other layers are
    turned into it. *)
From S2P Require Import Prelude SafeNd SafeNdModel MockAccount CoreTypes ClientApi Recovery.
From S2P Require Import MDataInfo AuthTypes.

(** * Codes *)

#[local] Open Scope Z_scope.

Definition ERR_ENCODE_DECODE_ERROR : Z := -1.
Definition ERR_ASYMMETRIC_DECIPHER_FAILURE : Z := -2.
Definition ERR_SYMMETRIC_DECIPHER_FAILURE : Z := -3.
Definition ERR_RECEIVED_UNEXPECTED_DATA : Z := -4.
Definition ERR_RECEIVED_UNEXPECTED_EVENT : Z := -5.
Definition ERR_VERSION_CACHE_MISS : Z := -6.
Definition ERR_ROOT_DIRECTORY_EXISTS : Z := -7.
Definition ERR_RANDOM_DATA_GENERATION_FAILURE : Z := -8.
Definition ERR_OPERATION_FORBIDDEN : Z := -9.
Definition ERR_UNSUPPORTED_SALT_SIZE_FOR_PW_HASH : Z := -10.
Definition ERR_UNSUCCESSFUL_PW_HASH : Z := -11.
Definition ERR_OPERATION_ABORTED : Z := -12.
Definition ERR_SELF_ENCRYPTION : Z := -13.
Definition ERR_REQUEST_TIMEOUT : Z := -14.
Definition ERR_CONFIG_FILE : Z := -15.
Definition ERR_IO : Z := -16.
Definition ERR_ACCESS_DENIED : Z := -100.
Definition ERR_NO_SUCH_ACCOUNT : Z := -101.
Definition ERR_ACCOUNT_EXISTS : Z := -102.
Definition ERR_NO_SUCH_DATA : Z := -103.
Definition ERR_DATA_EXISTS : Z := -104.
Definition ERR_DATA_TOO_LARGE : Z := -105.
Definition ERR_NO_SUCH_ENTRY : Z := -106.
Definition ERR_INVALID_ENTRY_ACTIONS : Z := -107.
Definition ERR_TOO_MANY_ENTRIES : Z := -108.
Definition ERR_NO_SUCH_KEY : Z := -109.
Definition ERR_INVALID_OWNERS : Z := -110.
Definition ERR_INVALID_SUCCESSOR : Z := -111.
Definition ERR_INVALID_OPERATION : Z := -112.
Definition ERR_LOW_BALANCE : Z := -113.
Definition ERR_NETWORK_FULL : Z := -114.
Definition ERR_NETWORK_OTHER : Z := -115.
Definition ERR_INVALID_INVITATION : Z := -116.
Definition ERR_INVITATION_ALREADY_CLAIMED : Z := -117.
Definition ERR_DUPLICATE_MSG_ID : Z := -118.
Definition ERR_DUPLICATE_ENTRY_KEYS : Z := -119.
Definition ERR_KEYS_EXIST : Z := -120.
Definition ERR_AUTH_DENIED : Z := -200.
Definition ERR_CONTAINERS_DENIED : Z := -201.
Definition ERR_INVALID_MSG : Z := -202.
Definition ERR_ALREADY_AUTHORISED : Z := -203.
Definition ERR_UNKNOWN_APP : Z := -204.
Definition ERR_STRING_ERROR : Z := -205.
Definition ERR_SHARE_MDATA_DENIED : Z := -206.
Definition ERR_INVALID_OWNER : Z := -207.
Definition ERR_INCOMPATIBLE_MOCK_STATUS : Z := -208.
Definition ERR_FILE_EXISTS : Z := -300.
Definition ERR_FILE_NOT_FOUND : Z := -301.
Definition ERR_INVALID_RANGE : Z := -302.
Definition ERR_NO_SUCH_CONTAINER : Z := -1002.
Definition ERR_INVALID_CIPHER_OPT_HANDLE : Z := -1003.
Definition ERR_INVALID_ENCRYPT_PUB_KEY_HANDLE : Z := -1004.
Definition ERR_INVALID_MDATA_INFO_HANDLE : Z := -1005.
Definition ERR_INVALID_MDATA_ENTRIES_HANDLE : Z := -1006.
Definition ERR_INVALID_MDATA_ENTRY_ACTIONS_HANDLE : Z := -1007.
Definition ERR_INVALID_MDATA_PERMISSIONS_HANDLE : Z := -1008.
Definition ERR_INVALID_MDATA_PERMISSION_SET_HANDLE : Z := -1009.
Definition ERR_INVALID_SELF_ENCRYPTOR_HANDLE : Z := -1010.
Definition ERR_INVALID_SIGN_PUB_KEY_HANDLE : Z := -1011.
Definition ERR_INVALID_SELF_ENCRYPTOR_READ_OFFSETS : Z := -1012.
Definition ERR_IO_ERROR : Z := -1013.
Definition ERR_INVALID_ENCRYPT_SEC_KEY_HANDLE : Z := -1014.
Definition ERR_INVALID_FILE_CONTEXT_HANDLE : Z := -1015.
Definition ERR_INVALID_FILE_MODE : Z := -1016.
Definition ERR_INVALID_SIGN_SEC_KEY_HANDLE : Z := -1017.
Definition ERR_UNREGISTERED_CLIENT_ACCESS : Z := -1018.
Definition ERR_INVALID_PUB_KEY_HANDLE : Z := -1019.
Definition ERR_UNEXPECTED : Z := -2000.
Definition ERR_INVALID_OWNERS_SUCCESSOR : Z := -3001.
Definition ERR_INVALID_PERMISSIONS_SUCCESSOR : Z := -3002.
Definition ERR_SIGN_KEYTYPE_MISMATCH : Z := -3003.
Definition ERR_INVALID_SIGNATURE : Z := -3004.
Definition ERR_LOSS_OF_PRECISION : Z := -4000.
Definition ERR_EXCESSIVE_VALUE : Z := -4001.
Definition ERR_FAILED_TO_PARSE : Z := -4002.
Definition ERR_TRANSACTION_ID_EXISTS : Z := -4003.
Definition ERR_INSUFFICIENT_BALANCE : Z := -4004.
Definition ERR_BALANCE_EXISTS : Z := -4005.
Definition ERR_NO_SUCH_BALANCE : Z := -4006.
Definition ERR_EXCEEDED_SIZE : Z := -5001.
Definition ERR_NO_SUCH_LOGIN_PACKET : Z := -5002.
Definition ERR_LOGIN_PACKET_EXISTS : Z := -5003.
Definition ERR_QUIC_P2P : Z := -6000.

Section app_errors.
Context `{ndt : !NdTypes, core : !CoreExt, auth : !AuthExt}.

Inductive AppError :=
| AppCoreError (e : CoreError)
| AppIpcError (e : IpcError)
| AppNfsError (e : NfsError)
| AppEncodeDecodeError
| AppOperationForbidden
| AppNoSuchContainer (name : string)
| InvalidFileMode
| UnregisteredClientAccess
| InvalidCipherOptHandle
| InvalidEncryptPubKeyHandle
| InvalidEncryptSecKeyHandle
| InvalidMDataEntriesHandle
| InvalidMDataEntryActionsHandle
| InvalidMDataPermissionsHandle
| InvalidSelfEncryptorHandle
| InvalidSignPubKeyHandle
| InvalidSignSecKeyHandle
| InvalidPubKeyHandle
| InvalidFileContextHandle
| AppSelfEncryption (e : SelfEncryptionError)
| InvalidSelfEncryptorReadOffsets
| AppIoError (e : IoErrorT)
| AppUnexpected (msg : string).

(** [Display]. *)
Definition app_error_display `{!CoreTexts, !AuthTexts} (e : AppError) : string :=
  match e with
  | AppCoreError error => "Core error: " +:+ core_error_display error
  | AppIpcError error => "IPC error: " +:+ ipc_error_debug error
  | AppNfsError error => "NFS error: " +:+ nfs_error_display error
  | AppEncodeDecodeError => "Serialisation error"
  | AppOperationForbidden => "Forbidden operation"
  | AppNoSuchContainer name => "'" +:+ name +:+ "' not found in the access container"
  | InvalidCipherOptHandle => "Invalid CipherOpt handle"
  | InvalidFileMode => "Invalid file mode (e.g. trying to write when file is opened for reading only)"
  | UnregisteredClientAccess => "Tried to access a client key from an unregistered client"
  | InvalidEncryptPubKeyHandle => "Invalid encrypt (threshold_crypto) key handle"
  | InvalidMDataEntriesHandle => "Invalid MutableData entries handle"
  | InvalidMDataEntryActionsHandle => "Invalid MutableData entry actions handle"
  | InvalidMDataPermissionsHandle => "Invalid MutableData permissions handle"
  | InvalidSelfEncryptorHandle => "Invalid Self Encryptor handle"
  | InvalidSignPubKeyHandle => "Invalid sign public key handle"
  | InvalidSignSecKeyHandle => "Invalid sign secret key handle"
  | InvalidPubKeyHandle => "Invalid public key handle"
  | InvalidEncryptSecKeyHandle => "Invalid secret key handle"
  | InvalidFileContextHandle => "Invalid file context handle"
  | AppSelfEncryption error => "Self-encryption error: " +:+ self_encryption_display error
  | InvalidSelfEncryptorReadOffsets =>
      "Invalid offsets (from-position and length combination) provided for " +:+
      "reading form SelfEncryptor. Would have probably caused an overflow."
  | AppIoError error => "I/O error: " +:+ io_display error
  | AppUnexpected error => "Unexpected (probably a logic error): " +:+ error
  end.

(** * Conversions *)

(** [From<CoreError> for AppError]. *)
Definition app_from_core (err : CoreError) : AppError :=
  match err with
  | Unexpected reason => AppUnexpected reason
  | _ => AppCoreError err
  end.

(** [From<IpcError> for AppError]. *)
Definition app_from_ipc (err : IpcError) : AppError :=
  match err with
  | IpcEncodeDecodeError => AppEncodeDecodeError
  | IpcUnexpected reason => AppUnexpected reason
  | _ => AppIpcError err
  end.

(** [From<NfsError> for AppError]. *)
Definition app_from_nfs (err : NfsError) : AppError :=
  match err with
  | NfsCoreError err => AppCoreError err
  | NfsEncodeDecodeError _ => AppEncodeDecodeError
  | NfsSelfEncryption err => AppSelfEncryption err
  | NfsUnexpected reason => AppUnexpected reason
  | _ => AppNfsError err
  end.

(** [From<SerialisationError>], [From<StringError>], [From<SelfEncryptionError>],
    [From<IoError>] and [From<&str>] for [AppError]. *)
Definition app_from_serialisation (_ : SerialisationError) : AppError := AppEncodeDecodeError.
Definition app_from_string_error (_ : StringErrorT) : AppError := AppEncodeDecodeError.
Definition app_from_self_encryption (err : SelfEncryptionError) : AppError :=
  AppSelfEncryption err.
Definition app_from_io (err : IoErrorT) : AppError := AppIoError err.
Definition app_from_str (s : string) : AppError := AppUnexpected s.

(** * The codes of errors *)

(** The arm of [DataError] of [core_error_code]. *)
Definition data_error_code (err : SndError) : Z :=
  match err with
  | AccessDenied => ERR_ACCESS_DENIED
  | NoSuchLoginPacket => ERR_NO_SUCH_LOGIN_PACKET
  | LoginPacketExists => ERR_LOGIN_PACKET_EXISTS
  | NoSuchData => ERR_NO_SUCH_DATA
  | DataExists => ERR_DATA_EXISTS
  | NoSuchEntry => ERR_NO_SUCH_ENTRY
  | TooManyEntries => ERR_TOO_MANY_ENTRIES
  | InvalidEntryActions _ => ERR_INVALID_ENTRY_ACTIONS
  | NoSuchKey => ERR_NO_SUCH_KEY
  | KeysExist _ => ERR_KEYS_EXIST
  | DuplicateEntryKeys => ERR_DUPLICATE_ENTRY_KEYS
  | DuplicateMessageId => ERR_DUPLICATE_MSG_ID
  | InvalidOwners => ERR_INVALID_OWNERS
  | InvalidSuccessor _ => ERR_INVALID_SUCCESSOR
  | InvalidOperation => ERR_INVALID_OPERATION
  | NetworkOther _ => ERR_NETWORK_OTHER
  | InvalidOwnersSuccessor _ => ERR_INVALID_OWNERS_SUCCESSOR
  | InvalidPermissionsSuccessor _ => ERR_INVALID_PERMISSIONS_SUCCESSOR
  | SigningKeyTypeMismatch => ERR_SIGN_KEYTYPE_MISMATCH
  | InvalidSignature => ERR_INVALID_SIGNATURE
  | LossOfPrecision => ERR_LOSS_OF_PRECISION
  | ExcessiveValue => ERR_EXCESSIVE_VALUE
  | NoSuchBalance => ERR_NO_SUCH_BALANCE
  | BalanceExists => ERR_BALANCE_EXISTS
  | FailedToParse _ => ERR_FAILED_TO_PARSE
  | TransactionIdExists => ERR_TRANSACTION_ID_EXISTS
  | InsufficientBalance => ERR_INSUFFICIENT_BALANCE
  | ExceededSize => ERR_EXCEEDED_SIZE
  end.

Definition core_error_code (err : CoreError) : Z :=
  match err with
  | EncodeDecodeError _ => ERR_ENCODE_DECODE_ERROR
  | AsymmetricDecipherFailure => ERR_ASYMMETRIC_DECIPHER_FAILURE
  | SymmetricDecipherFailure => ERR_SYMMETRIC_DECIPHER_FAILURE
  | ReceivedUnexpectedData => ERR_RECEIVED_UNEXPECTED_DATA
  | ReceivedUnexpectedEvent => ERR_RECEIVED_UNEXPECTED_EVENT
  | VersionCacheMiss => ERR_VERSION_CACHE_MISS
  | RootDirectoryExists => ERR_ROOT_DIRECTORY_EXISTS
  | RandomDataGenerationFailure => ERR_RANDOM_DATA_GENERATION_FAILURE
  | OperationForbidden => ERR_OPERATION_FORBIDDEN
  | DataError err => data_error_code err
  | QuicP2p _ => ERR_QUIC_P2P
  | UnsupportedSaltSizeForPwHash => ERR_UNSUPPORTED_SALT_SIZE_FOR_PW_HASH
  | UnsuccessfulPwHash => ERR_UNSUCCESSFUL_PW_HASH
  | OperationAborted => ERR_OPERATION_ABORTED
  | SelfEncryption _ => ERR_SELF_ENCRYPTION
  | RequestTimeout => ERR_REQUEST_TIMEOUT
  | ConfigError _ => ERR_CONFIG_FILE
  | IoError _ => ERR_IO
  | Unexpected _ => ERR_UNEXPECTED
  end.

(** [ErrorCode for AppError]. *)
Definition error_code (err : AppError) : Z :=
  match err with
  | AppCoreError err => core_error_code err
  | AppIpcError err =>
      match err with
      | AuthDenied => ERR_AUTH_DENIED
      | ContainersDenied => ERR_CONTAINERS_DENIED
      | InvalidMsg => ERR_INVALID_MSG
      | IpcEncodeDecodeError => ERR_ENCODE_DECODE_ERROR
      | AlreadyAuthorised => ERR_ALREADY_AUTHORISED
      | UnknownApp => ERR_UNKNOWN_APP
      | IpcUnexpected _ => ERR_UNEXPECTED
      | IpcStringError _ => ERR_STRING_ERROR
      | ShareMDataDenied => ERR_SHARE_MDATA_DENIED
      | InvalidOwner _ => ERR_INVALID_OWNER
      | IncompatibleMockStatus => ERR_INCOMPATIBLE_MOCK_STATUS
      end
  | AppNfsError err =>
      match err with
      | NfsCoreError err => core_error_code err
      | FileExists => ERR_FILE_EXISTS
      | FileNotFound => ERR_FILE_NOT_FOUND
      | InvalidRange => ERR_INVALID_RANGE
      | NfsEncodeDecodeError _ => ERR_ENCODE_DECODE_ERROR
      | NfsSelfEncryption _ => ERR_SELF_ENCRYPTION
      | NfsUnexpected _ => ERR_UNEXPECTED
      end
  | AppEncodeDecodeError => ERR_ENCODE_DECODE_ERROR
  | AppOperationForbidden => ERR_OPERATION_FORBIDDEN
  | AppNoSuchContainer _ => ERR_NO_SUCH_CONTAINER
  | InvalidCipherOptHandle => ERR_INVALID_CIPHER_OPT_HANDLE
  | InvalidEncryptPubKeyHandle => ERR_INVALID_ENCRYPT_PUB_KEY_HANDLE
  | InvalidMDataEntriesHandle => ERR_INVALID_MDATA_ENTRIES_HANDLE
  | InvalidMDataEntryActionsHandle => ERR_INVALID_MDATA_ENTRY_ACTIONS_HANDLE
  | InvalidMDataPermissionsHandle => ERR_INVALID_MDATA_PERMISSIONS_HANDLE
  | InvalidSelfEncryptorHandle => ERR_INVALID_SELF_ENCRYPTOR_HANDLE
  | InvalidSignPubKeyHandle => ERR_INVALID_SIGN_PUB_KEY_HANDLE
  | InvalidSignSecKeyHandle => ERR_INVALID_SIGN_SEC_KEY_HANDLE
  | InvalidEncryptSecKeyHandle => ERR_INVALID_ENCRYPT_SEC_KEY_HANDLE
  | InvalidPubKeyHandle => ERR_INVALID_PUB_KEY_HANDLE
  | InvalidFileContextHandle => ERR_INVALID_FILE_CONTEXT_HANDLE
  | InvalidFileMode => ERR_INVALID_FILE_MODE
  | UnregisteredClientAccess => ERR_UNREGISTERED_CLIENT_ACCESS
  | AppSelfEncryption _ => ERR_SELF_ENCRYPTION
  | InvalidSelfEncryptorReadOffsets => ERR_INVALID_SELF_ENCRYPTOR_READ_OFFSETS
  | AppIoError _ => ERR_IO_ERROR
  | AppUnexpected _ => ERR_UNEXPECTED
  end.
End app_errors.
