(* ===== verification/AuthErrors.v ===== *)
(** The error codes of the authenticator ([safe_authenticator/src/errors.rs]; the
    error type itself is in [AuthTypes]). *)
From S2P Require Import Prelude SafeNd SafeNdModel MockAccount CoreTypes ClientApi.
From S2P Require Import Recovery MDataInfo AuthTypes AppErrors.

(** * Codes *)

#[local] Open Scope Z_scope.

Definition ERR_ENCODE_DECODE_ERROR : Z := -1.
Definition ERR_ASYMMETRIC_DECIPHER_FAILURE : Z := -2.
Definition ERR_SYMMETRIC_DECIPHER_FAILURE : Z := -3.
Definition ERR_RECEIVED_UNEXPECTED_DATA : Z := -4.
Definition ERR_RECEIVED_UNEXPECTED_EVENT : Z := -5.
Definition ERR_VERSION_CACHE_MISS : Z := -6.
Definition ERR_ROOT_DIRECTORY_EXISTS : Z := -7.
Definition ERR_RANDOM_DATA_GENERATION_FAILURE : Z := -8.
Definition ERR_OPERATION_FORBIDDEN : Z := -9.
Definition ERR_UNSUPPORTED_SALT_SIZE_FOR_PW_HASH : Z := -10.
Definition ERR_UNSUCCESSFUL_PW_HASH : Z := -11.
Definition ERR_OPERATION_ABORTED : Z := -12.
Definition ERR_SELF_ENCRYPTION : Z := -13.
Definition ERR_REQUEST_TIMEOUT : Z := -14.
Definition ERR_CONFIG_FILE : Z := -15.
Definition ERR_IO : Z := -16.
Definition ERR_ACCESS_DENIED : Z := -100.
Definition ERR_NO_SUCH_DATA : Z := -101.
Definition ERR_DATA_EXISTS : Z := -102.
Definition ERR_NO_SUCH_ENTRY : Z := -103.
Definition ERR_TOO_MANY_ENTRIES : Z := -104.
Definition ERR_NO_SUCH_KEY : Z := -105.
Definition ERR_INVALID_OWNERS : Z := -106.
Definition ERR_INVALID_SUCCESSOR : Z := -107.
Definition ERR_INVALID_OPERATION : Z := -108.
Definition ERR_NETWORK_OTHER : Z := -109.
Definition ERR_INVALID_ENTRY_ACTIONS : Z := -110.
Definition ERR_DUPLICATE_MSG_ID : Z := -111.
Definition ERR_DUPLICATE_ENTRY_KEYS : Z := -112.
Definition ERR_KEYS_EXIST : Z := -113.
Definition ERR_AUTH_DENIED : Z := -200.
Definition ERR_CONTAINERS_DENIED : Z := -201.
Definition ERR_INVALID_MSG : Z := -202.
Definition ERR_ALREADY_AUTHORISED : Z := -203.
Definition ERR_UNKNOWN_APP : Z := -204.
Definition ERR_STRING_ERROR : Z := -205.
Definition ERR_SHARE_MDATA_DENIED : Z := -206.
Definition ERR_INVALID_OWNER : Z := -207.
Definition ERR_INCOMPATIBLE_MOCK_STATUS : Z := -208.
Definition ERR_FILE_EXISTS : Z := -300.
Definition ERR_FILE_NOT_FOUND : Z := -301.
Definition ERR_INVALID_RANGE : Z := -302.
Definition ERR_IO_ERROR : Z := -1013.
Definition ERR_ACCOUNT_CONTAINERS_CREATION : Z := -1014.
Definition ERR_NO_SUCH_CONTAINER : Z := -1015.
Definition ERR_PENDING_REVOCATION : Z := -1016.
Definition ERR_UNEXPECTED : Z := -2000.
Definition ERR_INVALID_OWNERS_SUCCESSOR : Z := -3001.
Definition ERR_INVALID_PERMISSIONS_SUCCESSOR : Z := -3002.
Definition ERR_SIGN_KEYTYPE_MISMATCH : Z := -3003.
Definition ERR_INVALID_SIGNATURE : Z := -3004.
Definition ERR_LOSS_OF_PRECISION : Z := -4000.
Definition ERR_EXCESSIVE_VALUE : Z := -4001.
Definition ERR_FAILED_TO_PARSE : Z := -4002.
Definition ERR_TRANSACTION_ID_EXISTS : Z := -4003.
Definition ERR_INSUFFICIENT_BALANCE : Z := -4004.
Definition ERR_BALANCE_EXISTS : Z := -4005.
Definition ERR_NO_SUCH_BALANCE : Z := -4006.
Definition ERR_EXCEEDED_SIZE : Z := -5001.
Definition ERR_NO_SUCH_LOGIN_PACKET : Z := -5002.
Definition ERR_LOGIN_PACKET_EXISTS : Z := -5003.
Definition ERR_QUIC_P2P : Z := -6000.

Section auth_errors.
Context `{ndt : !NdTypes, core : !CoreExt, auth : !AuthExt}.

(** * Conversions *)

(** [Into<IpcError> for AuthError]. *)
Definition auth_into_ipc `{!CoreTexts, !AuthTexts} (err : AuthError) : IpcError :=
  match err with
  | AuthUnexpected desc => IpcUnexpected desc
  | AuthIpcError err => err
  | err => IpcUnexpected (auth_error_debug err)
  end.

(** [From<CoreError>], [From<SndError>], [From<IpcError>], [From<NfsError>],
    [From<IoError>], [From<&str>] and [From<SerialisationError>] for [AuthError]. *)
Definition auth_from_core (error : CoreError) : AuthError := AuthCoreError error.
Definition auth_from_snd (error : SndError) : AuthError := AuthSndError error.
Definition auth_from_ipc (error : IpcError) : AuthError := AuthIpcError error.
Definition auth_from_nfs (error : NfsError) : AuthError := AuthNfsError error.
Definition auth_from_io (error : IoErrorT) : AuthError := AuthIoError error.
Definition auth_from_str (error : string) : AuthError := AuthUnexpected error.
Definition auth_from_serialisation (_ : SerialisationError) : AuthError := AuthEncodeDecodeError.
Definition auth_from_string_error (_ : StringErrorT) : AuthError := AuthEncodeDecodeError.

(** * The codes of errors *)

Definition safe_nd_error_core (err : SndError) : Z :=
  match err with
  | AccessDenied => ERR_ACCESS_DENIED
  | NoSuchLoginPacket => ERR_NO_SUCH_LOGIN_PACKET
  | LoginPacketExists => ERR_LOGIN_PACKET_EXISTS
  | NoSuchData => ERR_NO_SUCH_DATA
  | DataExists => ERR_DATA_EXISTS
  | NoSuchEntry => ERR_NO_SUCH_ENTRY
  | TooManyEntries => ERR_TOO_MANY_ENTRIES
  | InvalidEntryActions _ => ERR_INVALID_ENTRY_ACTIONS
  | NoSuchKey => ERR_NO_SUCH_KEY
  | KeysExist _ => ERR_KEYS_EXIST
  | DuplicateEntryKeys => ERR_DUPLICATE_ENTRY_KEYS
  | DuplicateMessageId => ERR_DUPLICATE_MSG_ID
  | InvalidOwners => ERR_INVALID_OWNERS
  | InvalidSuccessor _ => ERR_INVALID_SUCCESSOR
  | InvalidOperation => ERR_INVALID_OPERATION
  | NetworkOther _ => ERR_NETWORK_OTHER
  | InvalidOwnersSuccessor _ => ERR_INVALID_OWNERS_SUCCESSOR
  | InvalidPermissionsSuccessor _ => ERR_INVALID_PERMISSIONS_SUCCESSOR
  | SigningKeyTypeMismatch => ERR_SIGN_KEYTYPE_MISMATCH
  | InvalidSignature => ERR_INVALID_SIGNATURE
  | LossOfPrecision => ERR_LOSS_OF_PRECISION
  | ExcessiveValue => ERR_EXCESSIVE_VALUE
  | NoSuchBalance => ERR_NO_SUCH_BALANCE
  | BalanceExists => ERR_BALANCE_EXISTS
  | FailedToParse _ => ERR_FAILED_TO_PARSE
  | TransactionIdExists => ERR_TRANSACTION_ID_EXISTS
  | InsufficientBalance => ERR_INSUFFICIENT_BALANCE
  | ExceededSize => ERR_EXCEEDED_SIZE
  end.

Definition auth_core_error_code (err : CoreError) : Z :=
  match err with
  | EncodeDecodeError _ => ERR_ENCODE_DECODE_ERROR
  | AsymmetricDecipherFailure => ERR_ASYMMETRIC_DECIPHER_FAILURE
  | SymmetricDecipherFailure => ERR_SYMMETRIC_DECIPHER_FAILURE
  | ReceivedUnexpectedData => ERR_RECEIVED_UNEXPECTED_DATA
  | ReceivedUnexpectedEvent => ERR_RECEIVED_UNEXPECTED_EVENT
  | VersionCacheMiss => ERR_VERSION_CACHE_MISS
  | RootDirectoryExists => ERR_ROOT_DIRECTORY_EXISTS
  | RandomDataGenerationFailure => ERR_RANDOM_DATA_GENERATION_FAILURE
  | OperationForbidden => ERR_OPERATION_FORBIDDEN
  | DataError err => safe_nd_error_core err
  | QuicP2p _ => ERR_QUIC_P2P
  | UnsupportedSaltSizeForPwHash => ERR_UNSUPPORTED_SALT_SIZE_FOR_PW_HASH
  | UnsuccessfulPwHash => ERR_UNSUCCESSFUL_PW_HASH
  | OperationAborted => ERR_OPERATION_ABORTED
  | SelfEncryption _ => ERR_SELF_ENCRYPTION
  | RequestTimeout => ERR_REQUEST_TIMEOUT
  | ConfigError _ => ERR_CONFIG_FILE
  | IoError _ => ERR_IO
  | Unexpected _ => ERR_UNEXPECTED
  end.

(** [ErrorCode for AuthError]. *)
Definition auth_error_code (err : AuthError) : Z :=
  match err with
  | AuthCoreError err => auth_core_error_code err
  | AuthSndError err => safe_nd_error_core err
  | AuthIpcError err =>
      match err with
      | AuthDenied => ERR_AUTH_DENIED
      | ContainersDenied => ERR_CONTAINERS_DENIED
      | InvalidMsg => ERR_INVALID_MSG
      | IpcEncodeDecodeError => ERR_ENCODE_DECODE_ERROR
      | AlreadyAuthorised => ERR_ALREADY_AUTHORISED
      | UnknownApp => ERR_UNKNOWN_APP
      | IpcUnexpected _ => ERR_UNEXPECTED
      | IpcStringError _ => ERR_STRING_ERROR
      | ShareMDataDenied => ERR_SHARE_MDATA_DENIED
      | InvalidOwner _ => ERR_INVALID_OWNER
      | IncompatibleMockStatus => ERR_INCOMPATIBLE_MOCK_STATUS
      end
  | AuthNfsError err =>
      match err with
      | NfsCoreError err => auth_core_error_code err
      | FileExists => ERR_FILE_EXISTS
      | FileNotFound => ERR_FILE_NOT_FOUND
      | InvalidRange => ERR_INVALID_RANGE
      | NfsEncodeDecodeError _ => ERR_ENCODE_DECODE_ERROR
      | NfsSelfEncryption _ => ERR_SELF_ENCRYPTION
      | NfsUnexpected _ => ERR_UNEXPECTED
      end
  | AuthEncodeDecodeError => ERR_ENCODE_DECODE_ERROR
  | AuthIoError _ => ERR_IO_ERROR
  | AccountContainersCreation _ => ERR_ACCOUNT_CONTAINERS_CREATION
  | NoSuchContainer _ => ERR_NO_SUCH_CONTAINER
  | PendingRevocation => ERR_PENDING_REVOCATION
  | AuthUnexpected _ => ERR_UNEXPECTED
  end.
End auth_errors.

(** * The error codes of [safe_app] and [safe_authenticator], compared *)

Section error_codes.
Context `{ndt : !NdTypes, core : !CoreExt, auth : !AuthExt}.
#[local] Open Scope Z_scope.

(** The variant of an error, its payload left out. *)
Definition snd_variant (e : SndError) : nat :=
  match e with
  | AccessDenied => 0 | NoSuchLoginPacket => 1 | LoginPacketExists => 2 | NoSuchData => 3
  | DataExists => 4 | NoSuchEntry => 5 | TooManyEntries => 6 | InvalidEntryActions _ => 7
  | NoSuchKey => 8 | KeysExist _ => 9 | DuplicateEntryKeys => 10 | DuplicateMessageId => 11
  | InvalidOwners => 12 | InvalidSuccessor _ => 13 | InvalidOperation => 14
  | NetworkOther _ => 15 | InvalidOwnersSuccessor _ => 16 | InvalidPermissionsSuccessor _ => 17
  | SigningKeyTypeMismatch => 18 | InvalidSignature => 19 | LossOfPrecision => 20
  | ExcessiveValue => 21 | NoSuchBalance => 22 | BalanceExists => 23 | FailedToParse _ => 24
  | TransactionIdExists => 25 | InsufficientBalance => 26 | ExceededSize => 27
  end.

Definition core_variant (e : CoreError) : nat * nat :=
  match e with
  | EncodeDecodeError _ => (0, 0) | AsymmetricDecipherFailure => (1, 0)
  | SymmetricDecipherFailure => (2, 0) | ReceivedUnexpectedData => (3, 0)
  | ReceivedUnexpectedEvent => (4, 0) | VersionCacheMiss => (5, 0)
  | RootDirectoryExists => (6, 0) | RandomDataGenerationFailure => (7, 0)
  | OperationForbidden => (8, 0) | Unexpected _ => (9, 0)
  | DataError e => (10, snd_variant e)
  | UnsupportedSaltSizeForPwHash => (11, 0) | UnsuccessfulPwHash => (12, 0)
  | OperationAborted => (13, 0) | SelfEncryption _ => (14, 0) | RequestTimeout => (15, 0)
  | ConfigError _ => (16, 0) | IoError _ => (17, 0) | QuicP2p _ => (18, 0)
  end%nat.

(** The data errors that the two libraries number differently. *)
Definition renumbered (e : SndError) : bool :=
  match e with
  | NoSuchData | DataExists | NoSuchEntry | TooManyEntries | InvalidEntryActions _ | NoSuchKey
  | KeysExist _ | DuplicateEntryKeys | DuplicateMessageId | InvalidOwners | InvalidSuccessor _
  | InvalidOperation | NetworkOther _ => true
  | _ => false
  end.

(** Split an error of [safe_core] into its variants, those of [safe_nd] included. *)
Ltac core_cases e := destruct e as [| | | | | | | | | |[]| | | | | | | |].

Lemma app_core_code_variant e e' :
  core_error_code e = core_error_code e' -> core_variant e = core_variant e'.
Proof. core_cases e; core_cases e'; first [discriminate | reflexivity]. Qed.

Lemma auth_core_code_variant e e' :
  auth_core_error_code e = auth_core_error_code e' -> core_variant e = core_variant e'.
Proof. core_cases e; core_cases e'; first [discriminate | reflexivity]. Qed.

Lemma core_codes_agree e :
  core_error_code e = auth_core_error_code e <->
    match e with DataError d => renumbered d = false | _ => True end.
Proof. core_cases e; by vm_compute. Qed.

(** An [i32] that is not the code of success. *)
Definition failure_code (c : Z) : Prop := -2147483648 <= c < 0.

Lemma core_code_failure e : failure_code (core_error_code e) /\ failure_code (auth_core_error_code e).
Proof. core_cases e; by vm_compute. Qed.

Lemma app_code_failure e : failure_code (error_code e).
Proof.
  destruct e as [e|e|[e| | | | | | ]| | | | | | | | | | | | | | | | | | | |];
    try apply core_code_failure; try (by vm_compute). by destruct e.
Qed.

Lemma auth_code_failure e : failure_code (auth_error_code e).
Proof.
  destruct e as [|e|e| |[e| | | | | | ]| |e| | |]; try apply core_code_failure;
    try (by vm_compute).
  - apply (core_code_failure (DataError e)).
  - by destruct e.
Qed.

(** Over the C interface no error is reported as a success; an error of
    [safe_core], of IPC or of the file layer has one code, however it was wrapped on
    its way to [AppError]; and in each library two errors of [safe_core] with one
    code are the same variant.  The libraries give an error of [safe_core] one code
    except for thirteen data errors, for which the same number means different
    errors: what an app knows as [NoSuchData] is [NoSuchEntry] to the
    authenticator. *)
Theorem error_codes_consistent :
  (forall e, failure_code (error_code e)) /\ (forall e, failure_code (auth_error_code e)) /\
  (forall e, error_code (app_from_core e) = core_error_code e) /\
  (forall e, error_code (app_from_ipc e) = error_code (AppIpcError e)) /\
  (forall e, error_code (app_from_nfs e) = error_code (AppNfsError e)) /\
  (forall e e', core_error_code e = core_error_code e' -> core_variant e = core_variant e') /\
  (forall e e', auth_core_error_code e = auth_core_error_code e' ->
     core_variant e = core_variant e') /\
  (forall e, core_error_code e = auth_core_error_code e <->
     match e with DataError d => renumbered d = false | _ => True end) /\
  safe_nd_error_core NoSuchEntry = data_error_code NoSuchData.
Proof.
  split_and!; [apply app_code_failure|apply auth_code_failure|by intros []|by intros []|by intros []
    |apply app_core_code_variant|apply auth_core_code_variant|apply core_codes_agree|done].
Qed.
End error_codes.
