(* ===== verification/Ipc.v ===== *)
(** The messages between apps and the authenticator ([safe_core/src/ipc/mod.rs],
    [ipc/req], [ipc/resp.rs]) and their C representations
    ([safe_core/src/ffi/ipc/req.rs], [ffi/ipc/resp.rs]).

    A C string is an [option string]: [None] is the null pointer.  Memory behind a
    pointer and a length is what [ffi_utils] makes of a vector ([FfiUtils]); freeing
    it is not modelled.  [bincode], base32 and the key types are parameters. *)
From Stdlib Require Import Ascii.
From S2P Require Import Prelude SafeNd SafeNdModel MockAccount CoreTypes ClientApi Recovery.
From S2P Require Import MDataInfo AuthTypes AuthConfig AccessContainer AppAuth.

Definition METADATA_KEY : bytes := as_bytes "_metadata".
Definition METADATA_KEY_LEN : Z := 9.

(** [CString::new]: a string with a zero byte is refused. *)
Fixpoint has_nul (s : string) : bool :=
  match s with
  | EmptyString => false
  | String c s => bool_decide (c = Ascii.zero) || has_nul s
  end.
Record NulError := { nul_text : string }.
Definition CString_new (s : string) : result string NulError :=
  if has_nul s then Err {| nul_text := s |} else Ok s.

(** * What other crates provide *)

Class FfiUtils `{!NdTypes, !CoreExt, !AuthExt} := {
  (** Memory that holds a vector of [T]s, to be used with its length. *)
  RawVec : Type -> Type;
  vec_into_raw_parts {T} : list T -> RawVec T * nat;
  vec_clone_from_raw_parts {T} : RawVec T -> nat -> list T;
  (** [String::clone_from_repr_c]; reading through the null pointer is undefined. *)
  string_clone_from_repr_c : option string -> result string StringErrorT;
  (** [StringError::from(NulError)]. *)
  string_error_from_nul : NulError -> StringErrorT;
}.

Class FfiUtilsLaws `{!NdTypes, !CoreExt, !AuthExt, !FfiUtils} := {
  raw_parts_roundtrip {T} (l : list T) :
    vec_clone_from_raw_parts (vec_into_raw_parts l).1 (vec_into_raw_parts l).2 = l;
  string_clone_spec s : string_clone_from_repr_c (Some s) = Ok s;
}.

Class IpcExt `{!NdTypes, !CoreExt, !AuthExt} := {
  (** [BASE32_NOPAD]. *)
  base32_encode : bytes -> string;
  base32_decode : string -> option bytes;
  (** [threshold_crypto::PublicKey::to_bytes], [from_bytes] (with the text of its
      error), and the keys of [safe_nd] that are of that kind. *)
  enc_pk_to_bytes : EncPublicKey -> bytes;
  enc_pk_from_bytes : bytes -> result EncPublicKey string;
  bls_to_bytes : PublicKey -> option bytes;
  bls_from_bytes : bytes -> option PublicKey;
}.

Class IpcExtLaws `{!NdTypes, !CoreExt, !AuthExt, !IpcExt} := {
  base32_roundtrip b : base32_decode (base32_encode b) = Some b;
  enc_pk_roundtrip pk : enc_pk_from_bytes (enc_pk_to_bytes pk) = Ok pk;
  bls_roundtrip pk b : bls_to_bytes pk = Some b -> bls_from_bytes b = Some pk;
}.

(** [iter().map(f).collect::<Result<Vec<_>, _>>()], and the same into a [HashMap]:
    a later entry with the same key wins. *)
Definition collect_r {X Y E} (f : X -> result Y E) (l : list X) : result (list Y) E :=
  fold_r (fun acc x => let? y := f x in Ok (acc ++ [y])) l [].
Definition collect_map_r {X V E} (f : X -> result (string * V) E) (l : list X) :
    result (gmap string V) E :=
  fold_r (fun acc x => let? p := f x in Ok (<[p.1 := p.2]> acc)) l ∅.

Section ipc.
Context `{ndt : !NdTypes, ndo : !NdOps, core : !CoreExt}.
Context `{cr : !Crypto, auth : !AuthExt, aa : !AppAuthExt, ffi : !FfiUtils, ipc : !IpcExt}.

Abbreviation R T := (result T IpcError).

(** [?] on a [NulError], a [StringError] and a [bincode] error. *)
Definition from_nul {T} (r : result T NulError) : R T :=
  match r with Ok t => Ok t | Err _ => Err (IpcUnexpected "nul byte found in data") end.
Definition from_string_error {T} (r : result T StringErrorT) : R T :=
  match r with Ok t => Ok t | Err e => Err (IpcStringError e) end.
Definition ipc_serialisation {T} (r : result T SerialisationError) : R T :=
  match r with Ok t => Ok t | Err _ => Err IpcEncodeDecodeError end.

(** [CString::new(s).map_err(StringError::from)?.into_raw()]. *)
Definition cstring_into_raw (s : string) : R (option string) :=
  match CString_new s with
  | Ok c => Ok (Some c)
  | Err e => Err (IpcStringError (string_error_from_nul e))
  end.
Definition string_from_raw (p : option string) : R string :=
  from_string_error (string_clone_from_repr_c p).


(** * Permissions *)

Record FfiPermissionSet := {
  fp_read : bool; fp_insert : bool; fp_update : bool; fp_delete : bool;
  fp_manage_permissions : bool;
}.

Definition ffi_permission_set_default : FfiPermissionSet :=
  {| fp_read := false; fp_insert := false; fp_update := false; fp_delete := false;
     fp_manage_permissions := false |}.

Definition ffi_permission_set (output : FfiPermissionSet) (perm : Permission) : FfiPermissionSet :=
  let '{| fp_read := r; fp_insert := i; fp_update := u; fp_delete := d;
          fp_manage_permissions := m |} := output in
  match perm with
  | PRead => {| fp_read := true; fp_insert := i; fp_update := u; fp_delete := d;
                fp_manage_permissions := m |}
  | PInsert => {| fp_read := r; fp_insert := true; fp_update := u; fp_delete := d;
                  fp_manage_permissions := m |}
  | PUpdate => {| fp_read := r; fp_insert := i; fp_update := true; fp_delete := d;
                  fp_manage_permissions := m |}
  | PDelete => {| fp_read := r; fp_insert := i; fp_update := u; fp_delete := true;
                  fp_manage_permissions := m |}
  | PManagePermissions => {| fp_read := r; fp_insert := i; fp_update := u; fp_delete := d;
                             fp_manage_permissions := true |}
  end.

Definition container_perms_into_repr_c (perms : ContainerPermissions) : FfiPermissionSet :=
  foldl ffi_permission_set ffi_permission_set_default (permissions_iter perms).

Definition container_perms_from_repr_c (perms : FfiPermissionSet) : R ContainerPermissions :=
  let ins (b : bool) (p : Permission) (output : ContainerPermissions) :=
    if b then {[ p ]} ∪ output else output in
  let output := ins (fp_read perms) PRead ∅ in
  let output := ins (fp_insert perms) PInsert output in
  let output := ins (fp_update perms) PUpdate output in
  let output := ins (fp_delete perms) PDelete output in
  let output := ins (fp_manage_permissions perms) PManagePermissions output in
  if decide (output = ∅) then Err (IpcUnexpected "No permissions were provided") else Ok output.

Definition permission_set_into_repr_c (perms : MDataPermissionSet) : FfiPermissionSet :=
  {| fp_read := perms_is_allowed perms MRead;
     fp_insert := perms_is_allowed perms MInsert;
     fp_update := perms_is_allowed perms MUpdate;
     fp_delete := perms_is_allowed perms MDelete;
     fp_manage_permissions := perms_is_allowed perms MManagePermissions |}.

(** [impl CallbackArgs for PermissionSet]. *)
Definition ffi_permission_set_callback_default : FfiPermissionSet :=
  permission_set_into_repr_c perms_new.

Definition permission_set_clone_from_repr_c (perms : FfiPermissionSet) : R MDataPermissionSet :=
  if fp_read perms && negb (fp_insert perms) && negb (fp_update perms) &&
     negb (fp_delete perms) && negb (fp_manage_permissions perms) then
    Err (IpcUnexpected "Can't convert only the read permission")
  else
    let allow (b : bool) (a : MDataAction) (pm : MDataPermissionSet) :=
      if b then perms_allow pm a else pm in
    let pm := allow (fp_read perms) MRead perms_new in
    let pm := allow (fp_insert perms) MInsert pm in
    let pm := allow (fp_update perms) MUpdate pm in
    let pm := allow (fp_delete perms) MDelete pm in
    Ok (allow (fp_manage_permissions perms) MManagePermissions pm).

Record FfiContainerPermissions := { fc_cont_name : option string; fc_access : FfiPermissionSet }.

Definition containers_into_vec (containers : list (string * ContainerPermissions)) :
    result (list FfiContainerPermissions) NulError :=
  collect_r (fun '(cont_name, access) =>
      let? c := CString_new cont_name in
      Ok {| fc_cont_name := Some c; fc_access := container_perms_into_repr_c access |}) containers.

Definition containers_from_repr_c (raw : RawVec FfiContainerPermissions) (len : nat) :
    R (gmap string ContainerPermissions) :=
  collect_map_r (fun raw =>
      let? name := string_from_raw (fc_cont_name raw) in
      let? access := container_perms_from_repr_c (fc_access raw) in
      Ok (name, access)) (vec_clone_from_raw_parts raw len).

(** [containers_into_vec(..).map_err(StringError::from)?]. *)
Definition containers_into_raw (containers : gmap string ContainerPermissions) :
    R (RawVec FfiContainerPermissions * nat) :=
  match containers_into_vec (hash_iter containers) with
  | Ok v => Ok (vec_into_raw_parts v)
  | Err e => Err (IpcStringError (string_error_from_nul e))
  end.

(** * Requests *)

Record FfiAppExchangeInfo := {
  fa_id : option string; fa_scope : option string; fa_name : option string;
  fa_vendor : option string;
}.

Definition app_exchange_info_into_repr_c (app : AppExchangeInfo) : R FfiAppExchangeInfo :=
  let? id := cstring_into_raw (app_id app) in
  let? scope := match app_scope app with
                | Some scope => cstring_into_raw scope
                | None => Ok None
                end in
  let? name := cstring_into_raw (app_name app) in
  let? vendor := cstring_into_raw (app_vendor app) in
  Ok {| fa_id := id; fa_scope := scope; fa_name := name; fa_vendor := vendor |}.

(** A string, unless the pointer is null. *)
Definition opt_string_from_raw (p : option string) : R (option string) :=
  match p with
  | None => Ok None
  | Some s => let? s := string_from_raw (Some s) in Ok (Some s)
  end.

Definition app_exchange_info_clone_from_repr_c (c : FfiAppExchangeInfo) : R AppExchangeInfo :=
  let? id := string_from_raw (fa_id c) in
  let? scope := opt_string_from_raw (fa_scope c) in
  let? name := string_from_raw (fa_name c) in
  let? vendor := string_from_raw (fa_vendor c) in
  Ok {| app_id := id; app_scope := scope; app_name := name; app_vendor := vendor |}.

Record FfiAuthReq := {
  far_app : FfiAppExchangeInfo;
  far_app_container : bool;
  app_permission_transfer_coins : bool;
  app_permission_perform_mutations : bool;
  app_permission_get_balance : bool;
  far_containers : RawVec FfiContainerPermissions;
  far_containers_len : nat;
}.

Definition auth_req_into_repr_c (req : AuthReq) : R FfiAuthReq :=
  let? (containers_ptr, containers_len) := containers_into_raw (req_containers req) in
  let? app := app_exchange_info_into_repr_c (req_app req) in
  Ok {| far_app := app; far_app_container := req_app_container req;
        app_permission_transfer_coins := transfer_coins_perm (req_app_permissions req);
        app_permission_perform_mutations := perform_mutations (req_app_permissions req);
        app_permission_get_balance := get_balance_perm (req_app_permissions req);
        far_containers := containers_ptr; far_containers_len := containers_len |}.

Definition auth_req_clone_from_repr_c (c : FfiAuthReq) : R AuthReq :=
  let? app := app_exchange_info_clone_from_repr_c (far_app c) in
  let? containers := containers_from_repr_c (far_containers c) (far_containers_len c) in
  Ok {| req_app := app; req_app_container := far_app_container c;
        req_app_permissions :=
          {| transfer_coins_perm := app_permission_transfer_coins c;
             perform_mutations := app_permission_perform_mutations c;
             get_balance_perm := app_permission_get_balance c |};
        req_containers := containers |}.

Record ContainersReq := { creq_app : AppExchangeInfo; creq_containers : gmap string ContainerPermissions }.
Record FfiContainersReq := {
  fcr_app : FfiAppExchangeInfo;
  fcr_containers : RawVec FfiContainerPermissions;
  fcr_containers_len : nat;
}.

Definition containers_req_into_repr_c (req : ContainersReq) : R FfiContainersReq :=
  let? (containers_ptr, containers_len) := containers_into_raw (creq_containers req) in
  let? app := app_exchange_info_into_repr_c (creq_app req) in
  Ok {| fcr_app := app; fcr_containers := containers_ptr; fcr_containers_len := containers_len |}.

Definition containers_req_clone_from_repr_c (c : FfiContainersReq) : R ContainersReq :=
  let? app := app_exchange_info_clone_from_repr_c (fcr_app c) in
  let? containers := containers_from_repr_c (fcr_containers c) (fcr_containers_len c) in
  Ok {| creq_app := app; creq_containers := containers |}.

Record ShareMData := { sm_type_tag : Z; sm_name : XorName; sm_perms : MDataPermissionSet }.
Record ShareMDataReq := { smr_app : AppExchangeInfo; smr_mdata : list ShareMData }.
Record FfiShareMData := { fsm_type_tag : Z; fsm_name : bytes; fsm_perms : FfiPermissionSet }.
Record FfiShareMDataReq := {
  fsr_app : FfiAppExchangeInfo; fsr_mdata : RawVec FfiShareMData; fsr_mdata_len : nat }.

Definition share_mdata_into_repr_c (m : ShareMData) : R FfiShareMData :=
  Ok {| fsm_type_tag := sm_type_tag m; fsm_name := xor_name_0 (sm_name m);
        fsm_perms := permission_set_into_repr_c (sm_perms m) |}.

Definition share_mdata_clone_from_repr_c (c : FfiShareMData) : R ShareMData :=
  let? perms := permission_set_clone_from_repr_c (fsm_perms c) in
  Ok {| sm_type_tag := fsm_type_tag c; sm_name := MkXorName (fsm_name c); sm_perms := perms |}.

Definition share_mdata_req_into_repr_c (req : ShareMDataReq) : R FfiShareMDataReq :=
  let? mdata_repr_c := collect_r share_mdata_into_repr_c (smr_mdata req) in
  let '(mdata, mdata_len) := vec_into_raw_parts mdata_repr_c in
  let? app := app_exchange_info_into_repr_c (smr_app req) in
  Ok {| fsr_app := app; fsr_mdata := mdata; fsr_mdata_len := mdata_len |}.

Definition share_mdata_req_clone_from_repr_c (c : FfiShareMDataReq) : R ShareMDataReq :=
  let? app := app_exchange_info_clone_from_repr_c (fsr_app c) in
  let? mdata := collect_r share_mdata_clone_from_repr_c
                  (vec_clone_from_raw_parts (fsr_mdata c) (fsr_mdata_len c)) in
  Ok {| smr_app := app; smr_mdata := mdata |}.

Inductive IpcReq :=
| ReqAuth (r : AuthReq)
| ReqContainers (r : ContainersReq)
| ReqUnregistered (extra_data : bytes)
| ReqShareMData (r : ShareMDataReq).

(** * Responses *)

Inductive IpcResp :=
| RespAuth (r : R AuthGranted)
| RespContainers (r : R unit)
| RespUnregistered (r : R BootstrapConfig)
| RespShareMData (r : R unit).

Record FfiAccessContInfo := { fac_id : bytes; fac_tag : Z; fac_nonce : bytes }.

Definition access_cont_info_into_repr_c (i : AccessContInfo) : FfiAccessContInfo :=
  {| fac_id := xor_name_0 (aci_id i); fac_tag := aci_tag i; fac_nonce := aci_nonce i |}.

Definition access_cont_info_clone_from_repr_c (c : FfiAccessContInfo) : R AccessContInfo :=
  Ok {| aci_id := MkXorName (fac_id c); aci_tag := fac_tag c; aci_nonce := fac_nonce c |}.

Definition into_mdata_info (i : AccessContInfo) (enc_key : SymEncKey) : MDataInfo :=
  new_private (MSeq (aci_id i) (aci_tag i)) (enc_key, aci_nonce i).

Record FfiContainerInfo := {
  fci_name : option string; fci_mdata_info : FfiMDataInfo; fci_permissions : FfiPermissionSet }.
Record FfiAccessContainerEntry := {
  face_containers : RawVec FfiContainerInfo; face_containers_len : nat }.

Definition access_container_entry_into_repr_c (entry : AccessContainerEntry) :
    result FfiAccessContainerEntry NulError :=
  let? vec := collect_r (fun '(name, (mdata_info, permissions)) =>
      let? c := CString_new name in
      Ok {| fci_name := Some c; fci_mdata_info := into_repr_c mdata_info;
            fci_permissions := container_perms_into_repr_c permissions |}) (hash_iter entry) in
  let '(containers, containers_len) := vec_into_raw_parts vec in
  Ok {| face_containers := containers; face_containers_len := containers_len |}.

Definition access_container_entry_clone_from_repr_c (c : FfiAccessContainerEntry) :
    R AccessContainerEntry :=
  collect_map_r (fun container =>
      let? name := string_from_raw (fci_name container) in
      let mdata_info := clone_from_repr_c (fci_mdata_info container) in
      let? permissions := container_perms_from_repr_c (fci_permissions container) in
      Ok (name, (mdata_info, permissions)))
    (vec_clone_from_raw_parts (face_containers c) (face_containers_len c)).

(** ** Keys *)

Context `{sfull : !Serial AppFullId, ssk : !Serial EncSecretKey, sboot : !Serial BootstrapConfig}.

Definition app_safe_key (keys : AppKeys) : SafeKey := SKApp (app_full_id keys).

Record FfiAppKeys := {
  fk_full_id : RawVec Z; fk_full_id_len : nat;
  fk_enc_key : bytes; fk_enc_pk : bytes;
  fk_enc_sk : RawVec Z; fk_enc_sk_len : nat;
}.

Definition app_keys_into_repr_c (keys : AppKeys) : R FfiAppKeys :=
  let? app_full_id := ipc_serialisation (serialize_of (app_full_id keys)) in
  let '(full_id, full_id_len) := vec_into_raw_parts app_full_id in
  let? asym_sk := ipc_serialisation (serialize_of (app_enc_sk keys)) in
  let '(sk, enc_sk_len) := vec_into_raw_parts asym_sk in
  Ok {| fk_full_id := full_id; fk_full_id_len := full_id_len; fk_enc_key := app_enc_key keys;
        fk_enc_pk := enc_pk_to_bytes (app_enc_pk keys); fk_enc_sk := sk;
        fk_enc_sk_len := enc_sk_len |}.

Definition app_keys_clone_from_repr_c (c : FfiAppKeys) : R AppKeys :=
  let raw_full_id := vec_clone_from_raw_parts (fk_full_id c) (fk_full_id_len c) in
  let? app_full_id := ipc_serialisation (deserialize_of raw_full_id) in
  let raw_sk := vec_clone_from_raw_parts (fk_enc_sk c) (fk_enc_sk_len c) in
  let? enc_sk := ipc_serialisation (deserialize_of raw_sk) in
  let? enc_pk := match enc_pk_from_bytes (fk_enc_pk c) with
                 | Ok pk => Ok pk
                 | Err text => Err (IpcUnexpected text)
                 end in
  Ok {| app_full_id := app_full_id; app_enc_key := fk_enc_key c; app_enc_pk := enc_pk;
        app_enc_sk := enc_sk |}.

Record FfiAuthGranted := {
  fg_app_keys : FfiAppKeys;
  fg_access_container_info : FfiAccessContInfo;
  fg_access_container_entry : FfiAccessContainerEntry;
  fg_bootstrap_config : RawVec Z;
  fg_bootstrap_config_len : nat;
}.

Definition auth_granted_into_repr_c (g : AuthGranted) : R FfiAuthGranted :=
  let? bootstrap_config := ipc_serialisation (serialize_of (granted_bootstrap g)) in
  let '(ptr, len) := vec_into_raw_parts bootstrap_config in
  let? app_keys := app_keys_into_repr_c (granted_keys g) in
  let access_container_info := access_cont_info_into_repr_c (granted_access_info g) in
  let? entry := from_nul (access_container_entry_into_repr_c (granted_entry g)) in
  Ok {| fg_app_keys := app_keys; fg_access_container_info := access_container_info;
        fg_access_container_entry := entry; fg_bootstrap_config := ptr;
        fg_bootstrap_config_len := len |}.

Definition auth_granted_clone_from_repr_c (c : FfiAuthGranted) : R AuthGranted :=
  let bootstrap_config :=
    vec_clone_from_raw_parts (fg_bootstrap_config c) (fg_bootstrap_config_len c) in
  let? bootstrap_config := ipc_serialisation (deserialize_of bootstrap_config) in
  let? app_keys := app_keys_clone_from_repr_c (fg_app_keys c) in
  let? info := access_cont_info_clone_from_repr_c (fg_access_container_info c) in
  let? entry := access_container_entry_clone_from_repr_c (fg_access_container_entry c) in
  Ok {| granted_keys := app_keys; granted_bootstrap := bootstrap_config;
        granted_access_info := info; granted_entry := entry |}.

(** ** Access of apps, metadata and entries *)

Record FfiAppAccess := {
  fcc_sign_key : bytes; fcc_permissions : FfiPermissionSet; fcc_name : option string;
  fcc_app_id : option string }.

Definition app_access_into_repr_c (a : AppAccess) : R FfiAppAccess :=
  let opt (s : option string) :=
    match s with Some s => cstring_into_raw s | None => Ok None end in
  let? name := opt (acc_name a) in
  let? app_id := opt (acc_app_id a) in
  let? sign_key := ok_or_r (bls_to_bytes (acc_sign_key a)) (IpcUnexpected "Unsupported key type") in
  Ok {| fcc_sign_key := sign_key; fcc_permissions := permission_set_into_repr_c (acc_permissions a);
        fcc_name := name; fcc_app_id := app_id |}.

(** The application id is read when the pointer to the name is not null. *)
Definition app_access_clone_from_repr_c (c : FfiAppAccess) : R AppAccess :=
  let? sign_key := ok_or_r (bls_from_bytes (fcc_sign_key c)) IpcEncodeDecodeError in
  let? permissions := permission_set_clone_from_repr_c (fcc_permissions c) in
  let? name := match fcc_name c with
               | None => Ok None
               | Some _ => let? s := string_from_raw (fcc_name c) in Ok (Some s)
               end in
  let? app_id := match fcc_name c with
                 | None => Ok None
                 | Some _ => let? s := string_from_raw (fcc_app_id c) in Ok (Some s)
                 end in
  Ok {| acc_sign_key := sign_key; acc_permissions := permissions; acc_name := name;
        acc_app_id := app_id |}.

Record UserMetadata := { um_name : option string; um_description : option string }.
Record MetadataResponse := {
  mr_name : option string; mr_description : option string; mr_xor_name : bytes; mr_type_tag : Z }.

(** [MetadataResponse::invalid]. *)
Definition metadata_response_invalid : MetadataResponse :=
  {| mr_name := None; mr_description := None; mr_xor_name := replicate 32 0%Z; mr_type_tag := 0 |}.

Definition into_md_response (m : UserMetadata) (xor_name : XorName) (type_tag : Z) :
    result MetadataResponse NulError :=
  let opt (s : option string) : result (option string) NulError :=
    match s with Some s => let? c := CString_new s in Ok (Some c) | None => Ok None end in
  let? name := opt (um_name m) in
  let? description := opt (um_description m) in
  Ok {| mr_name := name; mr_description := description; mr_xor_name := xor_name_0 xor_name;
        mr_type_tag := type_tag |}.

Definition user_metadata_clone_from_repr_c (c : MetadataResponse) : R UserMetadata :=
  let? name := opt_string_from_raw (mr_name c) in
  let? description := opt_string_from_raw (mr_description c) in
  Ok {| um_name := name; um_description := description |}.

Record FfiMDataKey := { fmk_key : RawVec Z; fmk_key_len : nat }.
Record IpcMDataValue := { mv_content : bytes; mv_entry_version : Z }.
Record FfiMDataValue := { fmv_content : RawVec Z; fmv_content_len : nat; fmv_entry_version : Z }.
Record IpcMDataEntry := { me_key : bytes; me_value : IpcMDataValue }.
Record FfiMDataEntry := { fme_key : FfiMDataKey; fme_value : FfiMDataValue }.

Definition mdata_key_into_repr_c (key : bytes) : FfiMDataKey :=
  let '(key, key_len) := vec_into_raw_parts key in {| fmk_key := key; fmk_key_len := key_len |}.
Definition mdata_key_clone_from_repr_c (c : FfiMDataKey) : bytes :=
  vec_clone_from_raw_parts (fmk_key c) (fmk_key_len c).

(** [MDataValue::from_routing]. *)
Definition from_routing (value : MDataSeqValue) : IpcMDataValue :=
  {| mv_content := seq_data value; mv_entry_version := seq_version value |}.
Definition mdata_value_into_repr_c (v : IpcMDataValue) : FfiMDataValue :=
  let '(content, content_len) := vec_into_raw_parts (mv_content v) in
  {| fmv_content := content; fmv_content_len := content_len;
     fmv_entry_version := mv_entry_version v |}.
Definition mdata_value_clone_from_repr_c (c : FfiMDataValue) : IpcMDataValue :=
  {| mv_content := vec_clone_from_raw_parts (fmv_content c) (fmv_content_len c);
     mv_entry_version := fmv_entry_version c |}.

Definition mdata_entry_into_repr_c (e : IpcMDataEntry) : FfiMDataEntry :=
  {| fme_key := mdata_key_into_repr_c (me_key e); fme_value := mdata_value_into_repr_c (me_value e) |}.
Definition mdata_entry_clone_from_repr_c (c : FfiMDataEntry) : IpcMDataEntry :=
  {| me_key := mdata_key_clone_from_repr_c (fme_key c);
     me_value := mdata_value_clone_from_repr_c (fme_value c) |}.

(** * Messages *)

Inductive IpcMsg :=
| MReq (req_id : Z) (req : IpcReq)
| MResp (req_id : Z) (resp : IpcResp)
| MRevoked (app_id : string)
| MErr (e : IpcError).

Context `{smsg : !Serial (IpcMsg * bool)} (mock_network : bool).

Definition encode_msg (msg : IpcMsg) : R string :=
  let? b := ipc_serialisation (serialize_of (msg, mock_network)) in
  Ok (String.append "b" (base32_encode b)).

Definition decode_msg (encoded : string) : R IpcMsg :=
  let? decoded :=
    match encoded with
    | EmptyString => Err InvalidMsg
    | String c chars =>
        match c with
        | "b"%char | "B"%char => ok_or_r (base32_decode chars) IpcEncodeDecodeError
        | _ => Err IpcEncodeDecodeError
        end
    end in
  let? (msg, mock) := ipc_serialisation (deserialize_of decoded) in
  if xorb mock mock_network then Err IncompatibleMockStatus else Ok msg.

(** [gen_req_id]: one more than a number drawn below [u32::MAX]. *)
Definition gen_req_id (drawn : Z) : Z := (drawn + 1)%Z.
End ipc.
