(* ===== verification/IpcProofs.v ===== *)
(** IPC messages and their C representations: what survives the way there and
    back. *)
From S2P Require Import Prelude SafeNd SafeNdModel MockAccount CoreTypes ClientApi Recovery.
From S2P Require Import MDataInfo MDataInfoProofs AuthTypes AuthConfig AccessContainer AppAuth Ipc.

(** * Loops that build a list or a map *)

Section loops.
Context {E X Y : Type}.

Lemma fold_r_push (g : X -> result Y E) (f : X -> Y) l acc :
  Forall (fun x => g x = Ok (f x)) l ->
  fold_r (fun acc x => let? y := g x in Ok (acc ++ [y])) l acc = Ok (acc ++ map f l).
Proof.
  revert acc. induction l as [|x l IH]; intros acc Hl; simpl; [by rewrite app_nil_r|].
  inversion_clear Hl as [|?? Hx Hl']. rewrite Hx. simpl. rewrite IH by done. by rewrite <-app_assoc.
Qed.

Lemma fold_r_push_err (g : X -> result Y E) l acc (P : E -> Prop) :
  (forall x e, x ∈ l -> g x = Err e -> P e) -> Exists (not ∘ (fun x => is_ok (g x) = true)) l ->
  exists e, fold_r (fun acc x => let? y := g x in Ok (acc ++ [y])) l acc = Err e /\ P e.
Proof.
  intros HP Hex. revert acc HP. induction Hex as [x l Hx|x l Hex IH]; intros acc HP; simpl.
  - destruct (g x) as [y|e] eqn:Hg; [exfalso; apply Hx; by rewrite Hg|].
    exists e. split; [done|]. eapply HP; [|done]. set_solver.
  - destruct (g x) as [y|e] eqn:Hg; simpl.
    + apply IH. intros y' e Hy. apply HP. set_solver.
    + exists e. split; [done|]. eapply HP; [|done]. set_solver.
Qed.
End loops.

Lemma fold_r_insert {E X V K} `{Countable K} (g : X -> result (K * V) E) (l : list X) (kv : list (K * V))
    (m : gmap K V) :
  Forall2 (fun x p => g x = Ok p) l kv ->
  fold_r (fun acc x => let? p := g x in Ok (<[p.1 := p.2]> acc)) l m =
    Ok (foldl (fun m p => <[p.1 := p.2]> m) m kv).
Proof.
  intros Hl. revert m. induction Hl as [|x p l kv Hx Hl IH]; intros m; simpl; [done|].
  rewrite Hx. simpl. apply IH.
Qed.

(** The entries of a map in any order, inserted one by one, give it back. *)
Lemma foldl_insert_perm {K V} `{Countable K} (m : gmap K V) (l : list (K * V)) :
  l ≡ₚ map_to_list m -> foldl (fun m p => <[p.1 := p.2]> m) ∅ l = m.
Proof.
  intros Hp. apply map_eq. intros k. apply option_eq. intros v.
  rewrite lookup_foldl_insert.
  - rewrite Hp, elem_of_map_to_list, lookup_empty. naive_solver.
  - rewrite Hp. apply NoDup_fst_map_to_list.
  - intros. apply lookup_empty.
Qed.

(** * Permissions *)

Section permissions.
Context `{ndt : !NdTypes, core : !CoreExt, auth : !AuthExt}.

Lemma container_perms_into_repr_c_spec perms :
  container_perms_into_repr_c perms =
    {| fp_read := bool_decide (PRead ∈ perms); fp_insert := bool_decide (PInsert ∈ perms);
       fp_update := bool_decide (PUpdate ∈ perms); fp_delete := bool_decide (PDelete ∈ perms);
       fp_manage_permissions := bool_decide (PManagePermissions ∈ perms) |}.
Proof.
  unfold container_perms_into_repr_c, permissions_iter. rewrite !filter_cons, filter_nil.
  unfold bool_decide. by repeat case_decide.
Qed.

Lemma elem_of_union_if (b : bool) (p q : Permission) (X : ContainerPermissions) :
  p ∈ (if b then {[ q ]} ∪ X else X) <-> (b = true /\ p = q) \/ p ∈ X.
Proof. destruct b; set_solver. Qed.

(** A set of permissions survives, unless it is empty. *)
Lemma container_perms_roundtrip (perms : ContainerPermissions) :
  container_perms_from_repr_c (container_perms_into_repr_c perms) =
    if decide (perms = ∅) then Err (IpcUnexpected "No permissions were provided") else Ok perms.
Proof.
  rewrite container_perms_into_repr_c_spec. unfold container_perms_from_repr_c. simpl.
  match goal with |- (if decide (?X = ∅) then _ else _) = _ => assert (X = perms) as -> end; [|done].
  apply set_eq. intros p. rewrite !elem_of_union_if, !bool_decide_eq_true.
  destruct p; set_solver.
Qed.
End permissions.

Section mdata_permissions.
Context `{ndt : !NdTypes, ndo : !NdOps, ndl : !NdLaws, core : !CoreExt, auth : !AuthExt}.

Lemma perms_allow_if_allowed (b : bool) ps a a' :
  perms_is_allowed (if b then perms_allow ps a else ps) a' =
    (b && bool_decide (a = a')) || perms_is_allowed ps a'.
Proof. destruct b; [by rewrite perms_allow_allowed|done]. Qed.

(** Permissions on mutable data survive, unless they are to read only. *)
Lemma permission_set_roundtrip ps :
  match permission_set_clone_from_repr_c (permission_set_into_repr_c ps) with
  | Ok ps' => forall a, perms_is_allowed ps' a = perms_is_allowed ps a
  | Err e => forall a, perms_is_allowed ps a = bool_decide (a = MRead)
  end.
Proof.
  unfold permission_set_clone_from_repr_c, permission_set_into_repr_c. simpl.
  destruct (_ && _) eqn:Hb.
  - rewrite !andb_true_iff, !negb_true_iff in Hb. destruct Hb as ((((Hr & Hi) & Hu) & Hd) & Hm).
    by intros [].
  - intros a. rewrite !perms_allow_if_allowed, perms_new_allowed.
    destruct a; simpl; rewrite ?andb_false_r, ?andb_true_r, ?orb_false_r; done.
Qed.
End mdata_permissions.

(** * Collections of named things *)

Section collections.
Context `{ndt : !NdTypes, core : !CoreExt, auth : !AuthExt, authl : !AuthExtLaws}.
Context {V C : Type} (ser : string * V -> result C NulError) (de : C -> result (string * V) IpcError).
Context (c : string * V -> C) (good : V -> Prop) `{!forall v, Decision (good v)} (e0 : IpcError).
Hypothesis ser_spec : forall p, ser p = if has_nul p.1 then Err {| nul_text := p.1 |} else Ok (c p).
Hypothesis de_spec : forall p, de (c p) = if decide (good p.2) then Ok p else Err e0.

Definition names_ok (m : gmap string V) : Prop := map_Forall (fun name _ => has_nul name = false) m.

Lemma hash_iter_Forall (P : string * V -> Prop) (m : gmap string V) :
  Forall P (hash_iter m) <-> map_Forall (fun k v => P (k, v)) m.
Proof.
  rewrite (hash_iter_perm m), map_Forall_to_list. apply Forall_iff. by intros [].
Qed.

Lemma collect_ser (m : gmap string V) :
  match collect_r ser (hash_iter m) with
  | Ok v => names_ok m /\ v = map c (hash_iter m)
  | Err _ => ~ names_ok m
  end.
Proof.
  destruct (decide (names_ok m)) as [Hok|Hno].
  - unfold collect_r. rewrite (fold_r_push ser c); [done|].
    apply hash_iter_Forall. intros k v Hk. rewrite ser_spec. simpl. by rewrite (Hok k v Hk).
  - destruct (fold_r_push_err ser (hash_iter m) [] (fun _ => True)) as (e & He & _); [done| |].
    + apply not_Forall_Exists; [apply _|]. intros Hall. apply Hno. apply hash_iter_Forall in Hall. intros k v Hk.
      specialize (Hall k v Hk). simpl in Hall. rewrite ser_spec in Hall. simpl in Hall.
      destruct (has_nul k); done.
    + unfold collect_r. by rewrite He.
Qed.

Lemma collect_de_good (m : gmap string V) :
  map_Forall (fun _ v => good v) m -> collect_map_r de (map c (hash_iter m)) = Ok m.
Proof.
  intros Hg. unfold collect_map_r.
  rewrite (fold_r_insert de _ (hash_iter m)).
  - f_equal. by apply foldl_insert_perm, hash_iter_perm.
  - assert (Forall (fun p => good p.2) (hash_iter m)) as Hall by by apply hash_iter_Forall.
    change map with (@fmap list _). induction Hall as [|p l Hp Hl IH]; simpl; constructor; [|done].
    rewrite de_spec. by case_decide.
Qed.

Lemma collect_de_bad (acc : gmap string V) l :
  Exists (not ∘ (fun p => good p.2)) l ->
  fold_r (fun acc x => let? p := de x in Ok (<[p.1 := p.2]> acc)) (map c l) acc = Err e0.
Proof.
  intros Hex. revert acc. induction Hex as [p l Hp|p l Hex IH]; intros acc; simpl; rewrite de_spec.
  - by rewrite decide_False.
  - case_decide; simpl; [apply IH|done].
Qed.

Lemma collect_de (m : gmap string V) :
  collect_map_r de (map c (hash_iter m)) =
    if decide (map_Forall (fun _ v => good v) m) then Ok m else Err e0.
Proof.
  case_decide as Hg; [by apply collect_de_good|].
  apply collect_de_bad. apply not_Forall_Exists; [apply _|]. by rewrite hash_iter_Forall.
Qed.
End collections.

(** * Requests and grants *)

Section requests.
Context `{ndt : !NdTypes, core : !CoreExt, cr : !Crypto, auth : !AuthExt, authl : !AuthExtLaws}.
Context `{aa : !AppAuthExt, ffi : !FfiUtils, ffil : !FfiUtilsLaws}.

Abbreviation nonempty := (fun a : ContainerPermissions => a <> ∅).
Definition no_permissions : IpcError := IpcUnexpected "No permissions were provided".

Lemma string_from_raw_Some s : string_from_raw (Some s) = Ok s.
Proof. unfold string_from_raw. by rewrite string_clone_spec. Qed.

Lemma opt_string_from_raw_spec o : opt_string_from_raw o = Ok o.
Proof. destruct o; simpl; [by rewrite string_from_raw_Some|done]. Qed.

Lemma containers_roundtrip (m : gmap string ContainerPermissions) :
  match containers_into_raw m with
  | Ok (ptr, len) => names_ok m /\ containers_from_repr_c ptr len =
      if decide (map_Forall (fun _ a => nonempty a) m) then Ok m else Err no_permissions
  | Err e => ~ names_ok m /\ exists s, e = IpcStringError s
  end.
Proof.
  set (c := fun p : string * ContainerPermissions =>
    {| fc_cont_name := Some p.1; fc_access := container_perms_into_repr_c p.2 |}).
  unfold containers_into_raw, containers_into_vec.
  match goal with |- context [collect_r ?f _] => pose proof (collect_ser f c) as Hs end.
  specialize (Hs ltac:(intros [n a]; unfold CString_new; simpl; by destruct (has_nul n)) m).
  destruct (collect_r _ _) as [v|e]; [|eauto]. destruct Hs as [Hok ->].
  pose proof (raw_parts_roundtrip (map c (hash_iter m))) as Hraw.
  destruct (vec_into_raw_parts _) as [ptr len]. split; [done|].
  unfold containers_from_repr_c. simpl in Hraw. rewrite Hraw.
  apply (collect_de _ c nonempty no_permissions).
  intros [n a]. simpl. rewrite string_from_raw_Some. simpl. rewrite container_perms_roundtrip.
  by repeat case_decide.
Qed.

(** Strings C can hold. *)
Definition app_strings_ok (app : AppExchangeInfo) : bool :=
  negb (has_nul (app_id app) || has_nul (default EmptyString (app_scope app)) ||
        has_nul (app_name app) || has_nul (app_vendor app)).

Lemma app_exchange_info_roundtrip app :
  match app_exchange_info_into_repr_c app with
  | Ok c => app_strings_ok app = true /\ app_exchange_info_clone_from_repr_c c = Ok app
  | Err e => app_strings_ok app = false /\ exists s, e = IpcStringError s
  end.
Proof.
  destruct app as [i sc n v]. unfold app_exchange_info_into_repr_c, app_strings_ok, cstring_into_raw,
    CString_new. simpl.
  destruct (has_nul i); simpl; [eauto|].
  destruct sc as [sc|]; simpl; [destruct (has_nul sc); simpl; [eauto|]|];
    destruct (has_nul n); simpl; eauto; destruct (has_nul v); simpl; eauto;
    (split; [done|]); unfold app_exchange_info_clone_from_repr_c; simpl;
    by rewrite !string_from_raw_Some.
Qed.

(** A request for authorisation survives its C representation: it can be
    represented exactly when none of its strings holds a zero byte (otherwise a
    string error is reported), and reading it back gives the same request, except
    that a request with an empty set of permissions for some container is refused. *)
Theorem auth_req_repr_roundtrip (req : AuthReq) :
  let representable := app_strings_ok (req_app req) = true /\ names_ok (req_containers req) in
  match auth_req_into_repr_c req with
  | Ok c => representable /\ auth_req_clone_from_repr_c c =
      if decide (map_Forall (fun _ a => nonempty a) (req_containers req))
      then Ok req else Err no_permissions
  | Err e => ~ representable /\ exists s, e = IpcStringError s
  end.
Proof.
  unfold auth_req_into_repr_c. pose proof (containers_roundtrip (req_containers req)) as Hc.
  destruct (containers_into_raw _) as [[ptr len]|e]; simpl; [|naive_solver].
  destruct Hc as [Hok Hc]. pose proof (app_exchange_info_roundtrip (req_app req)) as Ha.
  destruct (app_exchange_info_into_repr_c _) as [a|e]; simpl;
    [|destruct Ha as [Hs Ha]; split; [intros [Hs' _]; congruence|done]].
  destruct Ha as [Hs Ha]. split; [done|]. unfold auth_req_clone_from_repr_c. simpl. rewrite Ha, Hc.
  simpl. destruct req as [app cont [t p g] cs]. simpl. by repeat case_decide.
Qed.

Lemma containers_req_repr_roundtrip (req : ContainersReq) c :
  containers_req_into_repr_c req = Ok c ->
  containers_req_clone_from_repr_c c =
    if decide (map_Forall (fun _ a => nonempty a) (creq_containers req))
    then Ok req else Err no_permissions.
Proof.
  unfold containers_req_into_repr_c. pose proof (containers_roundtrip (creq_containers req)) as Hc.
  destruct (containers_into_raw _) as [[ptr len]|e]; simpl; [|done]. destruct Hc as [_ Hc].
  pose proof (app_exchange_info_roundtrip (creq_app req)) as Ha.
  destruct (app_exchange_info_into_repr_c _) as [a|e]; simpl; [|done]. destruct Ha as [_ Ha].
  intros [= <-]. unfold containers_req_clone_from_repr_c. simpl. rewrite Ha, Hc. simpl.
  destruct req. simpl. by repeat case_decide.
Qed.
End requests.

Section grants.
Context `{ndt : !NdTypes, core : !CoreExt, cr : !Crypto, auth : !AuthExt, authl : !AuthExtLaws}.
Context `{aa : !AppAuthExt, ffi : !FfiUtils, ffil : !FfiUtilsLaws, ipc : !IpcExt, ipcl : !IpcExtLaws}.
Context `{sfull : !Serial AppFullId, ssk : !Serial EncSecretKey, sboot : !Serial BootstrapConfig}.
Context `{sfulll : !SerialLaws AppFullId, sskl : !SerialLaws EncSecretKey}.
Context `{sbootl : !SerialLaws BootstrapConfig}.

Lemma app_keys_repr_roundtrip keys :
  exists c, app_keys_into_repr_c keys = Ok c /\ app_keys_clone_from_repr_c c = Ok keys.
Proof.
  unfold app_keys_into_repr_c.
  destruct (serial_roundtrip (app_full_id keys)) as (b & -> & _ & Hb). simpl.
  pose proof (raw_parts_roundtrip b) as Hraw. destruct (vec_into_raw_parts b) as [p l]. simpl.
  destruct (serial_roundtrip (app_enc_sk keys)) as (b' & -> & _ & Hb'). simpl.
  pose proof (raw_parts_roundtrip b') as Hraw'. destruct (vec_into_raw_parts b') as [p' l'].
  eexists. split; [done|]. unfold app_keys_clone_from_repr_c. simpl in *.
  rewrite Hraw, Hb, Hraw', Hb'. simpl. rewrite enc_pk_roundtrip. by destruct keys.
Qed.

Lemma access_container_entry_roundtrip (entry : AccessContainerEntry) :
  match access_container_entry_into_repr_c entry with
  | Ok c => names_ok entry /\ access_container_entry_clone_from_repr_c c =
      if decide (map_Forall (fun _ v => v.2 <> ∅) entry) then Ok entry else Err no_permissions
  | Err e => ~ names_ok entry
  end.
Proof.
  set (c := fun p : string * (MDataInfo * ContainerPermissions) =>
    {| fci_name := Some p.1; fci_mdata_info := into_repr_c p.2.1;
       fci_permissions := container_perms_into_repr_c p.2.2 |}).
  unfold access_container_entry_into_repr_c.
  match goal with |- context [collect_r ?f _] => pose proof (collect_ser f c) as Hs end.
  specialize (Hs ltac:(intros [n [i a]]; unfold CString_new; simpl; by destruct (has_nul n)) entry).
  destruct (collect_r _ _) as [v|e]; simpl; [|done]. destruct Hs as [Hok ->].
  pose proof (raw_parts_roundtrip (map c (hash_iter entry))) as Hraw.
  destruct (vec_into_raw_parts _) as [ptr len]. split; [done|].
  unfold access_container_entry_clone_from_repr_c. simpl in *. rewrite Hraw.
  apply (collect_de _ c (fun v => v.2 <> ∅) no_permissions).
  intros [n [i a]]. simpl. rewrite string_from_raw_Some. simpl.
  rewrite repr_c_roundtrip, container_perms_roundtrip. by repeat case_decide.
Qed.

(** What the authenticator grants survives its C representation: keys,
    bootstrap configuration and access information always, the access container
    entry unless the name of a container holds a zero byte, in which case it cannot
    be represented, or a container has no permissions, in which case it cannot be
    read back. *)
Theorem auth_granted_repr_roundtrip (g : AuthGranted) :
  match auth_granted_into_repr_c g with
  | Ok c => names_ok (granted_entry g) /\ auth_granted_clone_from_repr_c c =
      if decide (map_Forall (fun _ v => v.2 <> ∅) (granted_entry g)) then Ok g else Err no_permissions
  | Err e => ~ names_ok (granted_entry g)
  end.
Proof.
  unfold auth_granted_into_repr_c.
  destruct (serial_roundtrip (granted_bootstrap g)) as (b & -> & _ & Hb). simpl.
  pose proof (raw_parts_roundtrip b) as Hraw. destruct (vec_into_raw_parts b) as [p l].
  destruct (app_keys_repr_roundtrip (granted_keys g)) as (k & -> & Hk). simpl.
  pose proof (access_container_entry_roundtrip (granted_entry g)) as He.
  destruct (access_container_entry_into_repr_c _) as [c|e]; simpl; [|done].
  destruct He as [Hok He]. split; [done|]. unfold auth_granted_clone_from_repr_c. simpl in *.
  rewrite Hraw, Hb. simpl. rewrite Hk. simpl. rewrite He.
  destruct g as [ks bs [[i] t n] en]. simpl. by repeat case_decide.
Qed.
End grants.

(** * The application id of an [AppAccess] *)

Section app_access.
Context `{ndt : !NdTypes, ndo : !NdOps, core : !CoreExt, cr : !Crypto, auth : !AuthExt}.
Context `{aa : !AppAuthExt, ffi : !FfiUtils, ffil : !FfiUtilsLaws, ipc : !IpcExt}.

(** [AppAccess::clone_from_repr_c] tests the pointer to the name where it should
    test the pointer to the application id: an id without a name is lost. *)
Lemma app_access_id_without_name_lost a c a' :
  app_access_into_repr_c a = Ok c -> app_access_clone_from_repr_c c = Ok a' ->
  acc_name a = None -> acc_app_id a' = None.
Proof.
  unfold app_access_into_repr_c, app_access_clone_from_repr_c. intros Hc Ha Hn. rewrite Hn in Hc.
  simpl in Hc. destruct (match acc_app_id a with Some _ => _ | None => _ end); simpl in Hc; [|done].
  destruct (bls_to_bytes _); simpl in *; [|done]. injection Hc as <-. simpl in Ha.
  destruct (bls_from_bytes _); simpl in Ha; [|done].
  destruct (permission_set_clone_from_repr_c _); simpl in Ha; [|done]. by injection Ha as <-.
Qed.

(** And a name without an id makes it read through the null pointer. *)
Lemma app_access_name_without_id_reads_null a c a' :
  app_access_into_repr_c a = Ok c -> app_access_clone_from_repr_c c = Ok a' ->
  acc_name a <> None -> acc_app_id a = None ->
  exists s, string_clone_from_repr_c None = Ok s /\ acc_app_id a' = Some s.
Proof.
  unfold app_access_into_repr_c, app_access_clone_from_repr_c. intros Hc Ha Hn Hi. rewrite Hi in Hc.
  destruct (acc_name a) as [n|]; [|done]. unfold cstring_into_raw, CString_new in Hc.
  destruct (has_nul n); simpl in Hc; [done|]. destruct (bls_to_bytes _); simpl in *; [|done].
  injection Hc as <-. simpl in Ha. destruct (bls_from_bytes _); simpl in Ha; [|done].
  destruct (permission_set_clone_from_repr_c _); simpl in Ha; [|done].
  rewrite string_from_raw_Some in Ha. unfold string_from_raw, from_string_error in Ha. simpl in Ha.
  destruct (string_clone_from_repr_c None) as [s|]; simpl in Ha; [|done].
  exists s. by injection Ha as <-.
Qed.
End app_access.

(** * Messages *)

Section messages.
Context `{ndt : !NdTypes, core : !CoreExt, cr : !Crypto, auth : !AuthExt}.
Context `{aa : !AppAuthExt, ipc : !IpcExt, ipcl : !IpcExtLaws}.
Context `{smsg : !Serial (IpcMsg * bool), smsgl : !SerialLaws (IpcMsg * bool)}.

(** Every message can be encoded; decoding gives it back, with the prefix in
    either case, and a build for the other kind of network (mock or real) refuses
    it. *)
Theorem ipc_msg_roundtrip (mock : bool) (msg : IpcMsg) :
  exists text, encode_msg mock msg = Ok (String.append "b" text) /\
    decode_msg mock (String.append "b" text) = Ok msg /\
    decode_msg mock (String.append "B" text) = Ok msg /\
    decode_msg (negb mock) (String.append "b" text) = Err IncompatibleMockStatus.
Proof.
  unfold encode_msg. destruct (serial_roundtrip (msg, mock)) as (b & -> & _ & Hb). simpl.
  exists (base32_encode b). split; [done|]. unfold decode_msg. simpl.
  change (String.append EmptyString (base32_encode b)) with (base32_encode b).
  rewrite base32_roundtrip. simpl. rewrite Hb. simpl. split_and!; by destruct mock.
Qed.
End messages.
