(* ===== verification/IpcModel.v ===== *)
(** Concrete IPC messages for the witnesses: raw memory is the vector itself, base32
    is hexadecimal text, and messages are serialised by way of an encoding. *)
From Stdlib Require Import Ascii.
From S2P Require Import Prelude SafeNd SafeNdModel MockAccount MockVaultSpec CoreTypes ClientApi.
From S2P Require Import Recovery MDataInfo MDataInfoProofs AuthTypes AuthConfig AccessContainer.
From S2P Require Import AuthModel AppAuth Ipc IpcProofs.

#[export] Instance ModelFfi : FfiUtils := {|
  RawVec := list;
  vec_into_raw_parts T l := (l, length l);
  vec_clone_from_raw_parts T l n := take n l;
  string_clone_from_repr_c p := match p with Some s => Ok s | None => Err ("null" : StringErrorT) end;
  string_error_from_nul e := ("nul" : StringErrorT);
|}.

#[export] Instance ModelFfiLaws : FfiUtilsLaws.
Proof. split; [|done]. intros T l. simpl. apply firstn_all. Qed.

(** Text for a list of numbers: each one's binary digits, [a] and [b], after a sign. *)
Fixpoint pos_text (p : positive) : string :=
  match p with
  | xH => ";"
  | xO p => String "a" (pos_text p)
  | xI p => String "b" (pos_text p)
  end.
Definition number_text (z : Z) : string :=
  match z with
  | Z0 => "0"
  | Zpos p => String "+" (pos_text p)
  | Zneg p => String "-" (pos_text p)
  end.
Definition bytes_text (b : bytes) : string := foldr (fun z s => String.append (number_text z) s) EmptyString b.

Fixpoint pos_of_text (s : string) : option (positive * string) :=
  match s with
  | String c s =>
      match c with
      | ";"%char => Some (xH, s)
      | "a"%char => '(p, s) ← pos_of_text s; Some (xO p, s)
      | "b"%char => '(p, s) ← pos_of_text s; Some (xI p, s)
      | _ => None
      end
  | EmptyString => None
  end.
Fixpoint bytes_of_text (fuel : nat) (s : string) : option bytes :=
  match fuel, s with
  | _, EmptyString => Some []
  | S fuel, String c s =>
      match c with
      | "0"%char => b ← bytes_of_text fuel s; Some (0%Z :: b)
      | "+"%char => '(p, s) ← pos_of_text s; b ← bytes_of_text fuel s; Some (Zpos p :: b)
      | "-"%char => '(p, s) ← pos_of_text s; b ← bytes_of_text fuel s; Some (Zneg p :: b)
      | _ => None
      end
  | O, _ => None
  end.

Lemma append_empty s : String.append EmptyString s = s.
Proof. done. Qed.

Lemma pos_of_text_spec p rest : pos_of_text (String.append (pos_text p) rest) = Some (p, rest).
Proof. induction p as [p IH|p IH|]; simpl; [by rewrite IH|by rewrite IH|done]. Qed.

Lemma bytes_of_text_spec b fuel : length b <= fuel -> bytes_of_text fuel (bytes_text b) = Some b.
Proof.
  revert fuel. induction b as [|z b IH]; intros fuel Hf; simpl in *; [by destruct fuel|].
  destruct fuel as [|fuel]; [lia|]. destruct z as [|p|p]; simpl.
  - rewrite append_empty. unfold bytes_text in IH. by rewrite IH by lia.
  - rewrite pos_of_text_spec. simpl. unfold bytes_text in IH. by rewrite IH by lia.
  - rewrite pos_of_text_spec. simpl. unfold bytes_text in IH. by rewrite IH by lia.
Qed.

Lemma number_text_length z s : String.length s < String.length (String.append (number_text z) s).
Proof.
  destruct z as [|p|p]; simpl; rewrite ?append_empty; [lia| |]; induction p; simpl in *;
    rewrite ?append_empty; lia.
Qed.
Lemma bytes_text_length b : length b <= String.length (bytes_text b).
Proof.
  induction b as [|z b IH]; simpl; [lia|]. pose proof (number_text_length z (bytes_text b)).
  unfold bytes_text in *. lia.
Qed.

#[export] Instance ModelIpc : IpcExt := {|
  base32_encode := bytes_text;
  base32_decode s := bytes_of_text (String.length s) s;
  enc_pk_to_bytes pk := [(pk : Z)];
  enc_pk_from_bytes b := match b with [z] => Ok (z : EncPublicKey) | _ => Err "malformed" end;
  bls_to_bytes pk := Some [(pk : Z)];
  bls_from_bytes b := match b with [z] => Some (z : PublicKey) | _ => None end;
|}.

#[export] Instance ModelIpcLaws : IpcExtLaws.
Proof.
  split; simpl.
  - intros b. apply bytes_of_text_spec, bytes_text_length.
  - done.
  - by intros pk b [= <-].
Qed.

#[export] Instance SerialFullId : Serial AppFullId := countable_serial (Z * Z).
#[export] Instance SerialFullIdLaws : SerialLaws AppFullId := countable_serial_laws (Z * Z).
#[export] Instance SerialSecret : Serial EncSecretKey := countable_serial Z.
#[export] Instance SerialSecretLaws : SerialLaws EncSecretKey := countable_serial_laws Z.
#[export] Instance SerialBootstrap : Serial BootstrapConfig := countable_serial unit.
#[export] Instance SerialBootstrapLaws : SerialLaws BootstrapConfig := countable_serial_laws unit.

(** * Messages *)

(** Serialisation by way of an encoding of another type. *)
Section code.
Context {T C : Type} `{Countable C} (to : T -> C) (back : C -> T) (inv : forall t, back (to t) = t).

Definition code_serial : Serial T := {|
  serialize_of t := Ok [Z.pos (encode (to t))];
  deserialize_of b :=
    match b with
    | [Z.pos p] => match decode p with Some c => Ok (back c) | None => Err ("malformed" : SerialisationError) end
    | _ => Err ("malformed" : SerialisationError)
    end |}.

Lemma code_serial_laws : @SerialLaws _ _ T code_serial.
Proof using inv.
  intros t. eexists. split_and!; [done|done|]. simpl. by rewrite decode_encode, inv.
Qed.
End code.

Definition ipc_error_code : Type := nat + string + string + list (XorName * Z).
Definition ipc_error_to (e : IpcError) : ipc_error_code :=
  match e with
  | AuthDenied => inl (inl (inl 0)) | ContainersDenied => inl (inl (inl 1))
  | InvalidMsg => inl (inl (inl 2)) | IpcEncodeDecodeError => inl (inl (inl 3))
  | AlreadyAuthorised => inl (inl (inl 4)) | UnknownApp => inl (inl (inl 5))
  | ShareMDataDenied => inl (inl (inl 6)) | IncompatibleMockStatus => inl (inl (inl 7))
  | IpcStringError e => inl (inl (inr (e : string))) | IpcUnexpected s => inl (inr s)
  | InvalidOwner l => inr l
  end.
Definition ipc_error_of (c : ipc_error_code) : IpcError :=
  match c with
  | inl (inl (inl 0)) => AuthDenied | inl (inl (inl 1)) => ContainersDenied
  | inl (inl (inl 2)) => InvalidMsg | inl (inl (inl 3)) => IpcEncodeDecodeError
  | inl (inl (inl 4)) => AlreadyAuthorised | inl (inl (inl 5)) => UnknownApp
  | inl (inl (inl 6)) => ShareMDataDenied | inl (inl (inl _)) => IncompatibleMockStatus
  | inl (inl (inr e)) => IpcStringError (e : StringErrorT) | inl (inr s) => IpcUnexpected s
  | inr l => InvalidOwner l
  end.
Lemma ipc_error_inv e : ipc_error_of (ipc_error_to e) = e.
Proof. by destruct e. Qed.

Definition auth_req_code : Type :=
  AppExchangeInfo * bool * (bool * bool * bool) * gmap string (gset Permission).
Definition auth_req_to (r : AuthReq) : auth_req_code :=
  let p := req_app_permissions r in
  (req_app r, req_app_container r,
   (transfer_coins_perm p, perform_mutations p, get_balance_perm p), req_containers r).
Definition auth_req_of (c : auth_req_code) : AuthReq :=
  let '(a, b, (x, y, z), m) := c in
  {| req_app := a; req_app_container := b;
     req_app_permissions := {| transfer_coins_perm := x; perform_mutations := y; get_balance_perm := z |};
     req_containers := m |}.
Lemma auth_req_inv r : auth_req_of (auth_req_to r) = r.
Proof. by destruct r as [? ? [] ?]. Qed.

Definition share_code : Type := Z * XorName * (bool * bool * bool * bool * bool).
Definition share_to (m : ShareMData) : share_code :=
  let p := (sm_perms m : model_perms) in
  (sm_type_tag m, sm_name m, (pr p, pin p, pu p, pd p, pm p)).
Definition share_of (c : share_code) : ShareMData :=
  let '(t, n, (r, i, u, d, m)) := c in
  {| sm_type_tag := t; sm_name := n;
     sm_perms := ({| pr := r; pin := i; pu := u; pd := d; pm := m |} : MDataPermissionSet) |}.
Lemma share_inv m : share_of (share_to m) = m.
Proof. by destruct m as [? ? []]. Qed.

Arguments auth_req_to : simpl never.
Arguments auth_req_of : simpl never.
Arguments share_to : simpl never.
Arguments share_of : simpl never.

Definition ipc_req_code : Type :=
  auth_req_code + AppExchangeInfo * gmap string (gset Permission) + list Z +
  AppExchangeInfo * list share_code.
Definition ipc_req_to (r : IpcReq) : ipc_req_code :=
  match r with
  | ReqAuth r => inl (inl (inl (auth_req_to r)))
  | ReqContainers r => inl (inl (inr (creq_app r, creq_containers r)))
  | ReqUnregistered b => inl (inr b)
  | ReqShareMData r => inr (smr_app r, map share_to (smr_mdata r))
  end.
Definition ipc_req_of (c : ipc_req_code) : IpcReq :=
  match c with
  | inl (inl (inl r)) => ReqAuth (auth_req_of r)
  | inl (inl (inr (a, m))) => ReqContainers {| creq_app := a; creq_containers := m |}
  | inl (inr b) => ReqUnregistered b
  | inr (a, l) => ReqShareMData {| smr_app := a; smr_mdata := map share_of l |}
  end.
Lemma ipc_req_inv r : ipc_req_of (ipc_req_to r) = r.
Proof.
  destruct r as [r|[a m]|b|[a l]]; simpl; [by rewrite auth_req_inv|done|done|].
  do 2 f_equal. rewrite map_map. induction l as [|x l IH]; simpl; [done|]. by rewrite share_inv, IH.
Qed.

Definition granted_code : Type :=
  (Z * Z) * list Z * Z * Z * unit * (XorName * Z * list Z) *
  gmap string (MDataInfo * gset Permission).
Definition granted_to (g : AuthGranted) : granted_code :=
  let k := granted_keys g in let i := granted_access_info g in
  (app_full_id k : Z * Z, app_enc_key k, app_enc_pk k : Z, app_enc_sk k : Z,
   granted_bootstrap g : unit, (aci_id i, aci_tag i, aci_nonce i), granted_entry g).
Definition granted_of (c : granted_code) : AuthGranted :=
  let '(f, e, p, s, b, (i, t, n), m) := c in
  {| granted_keys := {| app_full_id := (f : AppFullId); app_enc_key := e;
                        app_enc_pk := (p : EncPublicKey); app_enc_sk := (s : EncSecretKey) |};
     granted_bootstrap := (b : BootstrapConfig);
     granted_access_info := {| aci_id := i; aci_tag := t; aci_nonce := n |};
     granted_entry := m |}.
Lemma granted_inv g : granted_of (granted_to g) = g.
Proof. by destruct g as [[] ? [] ?]. Qed.

Arguments granted_to : simpl never.
Arguments granted_of : simpl never.
Arguments ipc_req_to : simpl never.
Arguments ipc_req_of : simpl never.
Arguments ipc_error_to : simpl never.
Arguments ipc_error_of : simpl never.

Definition sum_to {X Y} (to : X -> Y) (r : result X IpcError) : Y + ipc_error_code :=
  match r with Ok x => inl (to x) | Err e => inr (ipc_error_to e) end.
Definition sum_of {X Y} (back : Y -> X) (c : Y + ipc_error_code) : result X IpcError :=
  match c with inl y => Ok (back y) | inr e => Err (ipc_error_of e) end.
Lemma sum_inv {X Y} (to : X -> Y) (back : Y -> X) r :
  (forall x, back (to x) = x) -> sum_of back (sum_to to r) = r.
Proof. intros Hinv. unfold sum_of, sum_to. destruct r; [by rewrite Hinv|by rewrite ipc_error_inv]. Qed.

Arguments sum_to : simpl never.
Arguments sum_of : simpl never.

Abbreviation rcode Y := (Y + ipc_error_code)%type.
Definition ipc_msg_code : Type :=
  Z * ipc_req_code + Z * (rcode granted_code + rcode unit + rcode unit + rcode unit) +
  string + ipc_error_code.
Definition ipc_msg_to (m : IpcMsg) : ipc_msg_code :=
  match m with
  | MReq i r => inl (inl (inl (i, ipc_req_to r)))
  | MResp i r => inl (inl (inr (i,
      match r with
      | RespAuth r => inl (inl (inl (sum_to granted_to r)))
      | RespContainers r => inl (inl (inr (sum_to id r)))
      | RespUnregistered r => inl (inr (sum_to (fun b => (b : unit)) r))
      | RespShareMData r => inr (sum_to id r)
      end)))
  | MRevoked s => inl (inr s)
  | MErr e => inr (ipc_error_to e)
  end.
Definition ipc_msg_of (c : ipc_msg_code) : IpcMsg :=
  match c with
  | inl (inl (inl (i, r))) => MReq i (ipc_req_of r)
  | inl (inl (inr (i, r))) => MResp i
      match r with
      | inl (inl (inl r)) => RespAuth (sum_of granted_of r)
      | inl (inl (inr r)) => RespContainers (sum_of id r)
      | inl (inr r) => RespUnregistered (sum_of (fun b : unit => (b : BootstrapConfig)) r)
      | inr r => RespShareMData (sum_of id r)
      end
  | inl (inr s) => MRevoked s
  | inr e => MErr (ipc_error_of e)
  end.
Lemma ipc_msg_inv m : ipc_msg_of (ipc_msg_to m) = m.
Proof.
  destruct m as [i r|i [r|r|r|r]|s|e]; simpl; [by rewrite ipc_req_inv|..|done|by rewrite ipc_error_inv];
    do 2 f_equal; apply sum_inv; [apply granted_inv|done..].
Qed.

#[export] Instance SerialIpc : Serial (IpcMsg * bool) :=
  code_serial (fun p => (ipc_msg_to p.1, p.2)) (fun c => (ipc_msg_of c.1, c.2)).
#[export] Instance SerialIpcLaws : SerialLaws (IpcMsg * bool).
Proof. apply code_serial_laws. intros [m b]. simpl. by rewrite ipc_msg_inv. Qed.

(** * The theorems at work *)

Definition ex_containers : gmap string ContainerPermissions :=
  {[ "_documents" := {[ PRead; PInsert ]}; "_music" := {[ PRead ]} ]}.
Definition ex_ipc_req : AuthReq :=
  {| req_app := {| app_id := "app"; app_scope := Some "s"; app_name := "App"; app_vendor := "v" |};
     req_app_container := true; req_app_permissions := ex_perms; req_containers := ex_containers |}.

Example auth_req_repr_roundtrip_witness :
  match auth_req_into_repr_c ex_ipc_req with
  | Ok c => auth_req_clone_from_repr_c c = Ok ex_ipc_req
  | Err _ => False
  end.
Proof.
  pose proof (auth_req_repr_roundtrip ex_ipc_req) as H. simpl in H.
  destruct (auth_req_into_repr_c ex_ipc_req) as [c|e] eqn:He.
  - destruct H as [_ ->]. rewrite decide_True; [done|].
    apply map_Forall_insert_2; [discriminate|]. apply map_Forall_singleton. discriminate.
  - destruct H as [H _]. apply H. split; [done|].
    apply map_Forall_insert_2; [done|]. by apply map_Forall_singleton.
Defined.

Definition ex_granted : AuthGranted :=
  {| granted_keys := keys (ex_app_info "app" 7); granted_bootstrap := (tt : BootstrapConfig);
     granted_access_info := {| aci_id := ex_name 71; aci_tag := 15000; aci_nonce := [4%Z] |};
     granted_entry := {[ "_music" := (ex_config_dir, {[ PRead ]}) ]} |}.

Example auth_granted_repr_roundtrip_witness :
  match auth_granted_into_repr_c ex_granted with
  | Ok c => auth_granted_clone_from_repr_c c = Ok ex_granted
  | Err _ => False
  end.
Proof.
  pose proof (auth_granted_repr_roundtrip ex_granted) as H.
  destruct (auth_granted_into_repr_c ex_granted) as [c|e] eqn:He.
  - destruct H as [_ ->]. rewrite decide_True; [done|]. apply map_Forall_singleton. discriminate.
  - apply H. by apply map_Forall_singleton.
Defined.

Example ipc_msg_roundtrip_witness :
  exists text, encode_msg true (MReq 7 (ReqAuth ex_ipc_req)) = Ok (String.append "b" text) /\
    decode_msg true (String.append "b" text) = Ok (MReq 7 (ReqAuth ex_ipc_req)) /\
    decode_msg true (String.append "B" text) = Ok (MReq 7 (ReqAuth ex_ipc_req)) /\
    decode_msg (negb true) (String.append "b" text) = Err IncompatibleMockStatus.
Proof. apply ipc_msg_roundtrip. Defined.

(** An id without a name does not survive. *)
Example app_access_runs :
  let a := {| acc_sign_key := ex_key 7; acc_permissions := perms_allow perms_new MInsert;
              acc_name := None; acc_app_id := Some "app" |} in
  (let? c := app_access_into_repr_c a in let? a' := app_access_clone_from_repr_c c in
   Ok (acc_app_id a')) = Ok None.
Proof. reflexivity. Qed.
