(* ===== verification/ConnectionGroup.v ===== *)
(** The connection to the real network ([safe_core/src/connection_manager.rs],
    [connection_manager/connection_group.rs]): a group of connections to the elder
    vaults that serve one identity, driven by the events of [quic_p2p], and the
    manager of the groups.

    A [oneshot] channel is a cell of the state that its sender fills once; a sender
    that is dropped cancels it.  What is handed to [quic_p2p] is a log.  An event
    handler that panics poisons the group's mutex. *)
From S2P Require Import Prelude EventLoop SafeNd SafeNdModel MockAccount CoreTypes ClientApi Recovery.
From S2P Require Import MDataInfo AuthTypes.

Definition REQUEST_TIMEOUT_SECS : Z := 180.
Definition CONNECTION_TIMEOUT_SECS : Z := 30.

Class Quic `{!NdTypes, !CoreExt} := {
  SocketAddr : Type;
  SocketAddr_eq :: EqDecision SocketAddr;
  SocketAddr_countable :: Countable SocketAddr;
  NodeInfo : Type;
  node_peer_addr : NodeInfo -> SocketAddr;
  (** [QuicP2pError::ConnectionCancelled]. *)
  is_connection_cancelled : QuicP2pError -> bool;
  (** The tokens drawn at random. *)
  token_at : nat -> Z;
}.

(** [safe_nd::Challenge]. *)
Inductive Challenge `{!NdTypes} :=
| ChRequest (id : PublicId) (challenge : bytes)
| ChResponse (client_id : PublicId) (signature : Signature) (request_section_info : bool).

Section group.
Context `{ndt : !NdTypes, ndo : !NdOps, core : !CoreExt, quic : !Quic}.
Context `{!EqDecision MessageId, !Countable MessageId}.
Context `{smsg : !Serial Message, schal : !Serial Challenge}.

(** * State *)

(** [Peer::Node]. *)
Record Peer := { peer_node_info : NodeInfo }.
Definition peer_addr (p : Peer) : SocketAddr := node_peer_addr (peer_node_info p).

Record Elder := { elder_peer : Peer; elder_public_id : option NodePublicId }.
Definition Elder_new (node_info : NodeInfo) : Elder :=
  {| elder_peer := {| peer_node_info := node_info |}; elder_public_id := None |}.

(** The receiving end of a [oneshot] channel. *)
Inductive Channel (T : Type) := Waiting | Done (t : T) | Canceled.
Arguments Waiting {T}.
Arguments Done {T} t.
Arguments Canceled {T}.

Inductive QuicCall :=
| QBootstrap
| QSend (peer : Peer) (msg : bytes) (token : Z)
| QDisconnectFrom (addr : SocketAddr).

(** [Inner], with the receiving ends of its channels: those of the requests with
    the message they were made for, that of the connection, those of [close]. *)
Record Inner := {
  quic_p2p_calls : list QuicCall;
  group_full_id : SafeKey;
  elders : gmap SocketAddr Elder;
  hooks : gmap MessageId nat;
  connection_hook : bool;
  disconnect_tx : option nat;
  group_id : Z;
  tokens_drawn : nat;
  requests : list (MessageId * Channel Response);
  connected : Channel (result unit CoreError);
  closings : list (Channel unit);
}.

Abbreviation G A := (M Inner CoreError A).

Definition set_calls (c : list QuicCall) (k : nat) (s : Inner) : Inner :=
  {| quic_p2p_calls := c; group_full_id := group_full_id s; elders := elders s; hooks := hooks s;
     connection_hook := connection_hook s; disconnect_tx := disconnect_tx s;
     group_id := group_id s; tokens_drawn := k; requests := requests s;
     connected := connected s; closings := closings s |}.
Definition set_elders (e : gmap SocketAddr Elder) (s : Inner) : Inner :=
  {| quic_p2p_calls := quic_p2p_calls s; group_full_id := group_full_id s; elders := e;
     hooks := hooks s; connection_hook := connection_hook s; disconnect_tx := disconnect_tx s;
     group_id := group_id s; tokens_drawn := tokens_drawn s; requests := requests s;
     connected := connected s; closings := closings s |}.
Definition set_requests (h : gmap MessageId nat) (r : list (MessageId * Channel Response))
    (s : Inner) : Inner :=
  {| quic_p2p_calls := quic_p2p_calls s; group_full_id := group_full_id s; elders := elders s;
     hooks := h; connection_hook := connection_hook s; disconnect_tx := disconnect_tx s;
     group_id := group_id s; tokens_drawn := tokens_drawn s; requests := r;
     connected := connected s; closings := closings s |}.
Definition set_connected (hook : bool) (c : Channel (result unit CoreError)) (s : Inner) : Inner :=
  {| quic_p2p_calls := quic_p2p_calls s; group_full_id := group_full_id s; elders := elders s;
     hooks := hooks s; connection_hook := hook; disconnect_tx := disconnect_tx s;
     group_id := group_id s; tokens_drawn := tokens_drawn s; requests := requests s;
     connected := c; closings := closings s |}.
Definition set_closings (tx : option nat) (c : list (Channel unit)) (s : Inner) : Inner :=
  {| quic_p2p_calls := quic_p2p_calls s; group_full_id := group_full_id s; elders := elders s;
     hooks := hooks s; connection_hook := connection_hook s; disconnect_tx := tx;
     group_id := group_id s; tokens_drawn := tokens_drawn s; requests := requests s;
     connected := connected s; closings := c |}.

(** Filling or dropping the [i]-th of a list of channels. *)
Definition resolve {T} (i : nat) (c : Channel T) (l : list (Channel T)) : list (Channel T) :=
  alter (fun old => match old with Waiting => c | _ => old end) i l.
Definition resolve_request (i : nat) (c : Channel Response)
    (l : list (MessageId * Channel Response)) : list (MessageId * Channel Response) :=
  alter (fun p => match p with (mid, Waiting) => (mid, c) | _ => p end) i l.

Definition quic_send (peer : Peer) (msg : bytes) : G unit :=
  modify (fun s => set_calls (quic_p2p_calls s ++ [QSend peer msg (token_at (tokens_drawn s))])
                             (S (tokens_drawn s)) s).

(** The iteration order of the map of elders is unspecified. *)
Context (elders_iter : gmap SocketAddr Elder -> list (SocketAddr * Elder)).
Definition elder_peers (s : Inner) : list Peer := map (fun e => elder_peer e.2) (elders_iter (elders s)).

(** * Calls *)

(** [ConnectionGroup::new], once the builder has succeeded; the counter of groups
    gives the id. *)
Definition ConnectionGroup_new (full_id : SafeKey) (elders_ : list NodeInfo) (counter : Z) : Inner :=
  {| quic_p2p_calls := [QBootstrap]; group_full_id := full_id;
     elders := foldl (fun m n => <[node_peer_addr n := Elder_new n]> m) ∅ elders_;
     hooks := ∅; connection_hook := true; disconnect_tx := None; group_id := counter;
     tokens_drawn := 0; requests := []; connected := Waiting; closings := [] |}.

Definition terminate : G unit :=
  modify (fun s => set_calls (quic_p2p_calls s ++
    map (fun peer => QDisconnectFrom (peer_addr peer)) (elder_peers s)) (tokens_drawn s) s).

(** [Inner::send]: the index of the channel on which the response is awaited, for
    [REQUEST_TIMEOUT_SECS].  Replacing a hook drops its sender. *)
Definition group_send (msg_id : MessageId) (msg : Message) : G nat :=
  let! n := gets (fun s => length (requests s)) in
  modify (fun s =>
    let requests' := match hooks s !! msg_id with
                     | Some old => resolve_request old Canceled (requests s)
                     | None => requests s
                     end in
    set_requests (<[msg_id := n]> (hooks s)) (requests' ++ [(msg_id, Waiting)]) s) ;!
  let! bytes_ := unwrap_result (serialize_of msg) in
  let! peers := gets elder_peers in
  for_each peers (fun peer => quic_send peer bytes_) ;!
  ret n.

(** [Inner::close]: the index of the channel that says when it is done. *)
Definition group_close : G nat :=
  terminate ;!
  let! n := gets (fun s => length (closings s)) in
  modify (fun s =>
    let closings' := match disconnect_tx s with
                     | Some old => resolve old Canceled (closings s)
                     | None => closings s
                     end in
    set_closings (Some n) (closings' ++ [Waiting]) s) ;!
  ret n.

(** [self.connection_hook.take().map(|hook| hook.send(r))]. *)
Definition send_connected (r : result unit CoreError) : G unit :=
  modify (fun s => if connection_hook s then set_connected false (Done r) s else s).

(** * Events *)

Inductive Event :=
| BootstrapFailure
| BootstrappedTo (node : NodeInfo)
| SentUserMessage (addr : SocketAddr) (msg : bytes) (token : Z)
| UnsentUserMessage (addr : SocketAddr) (msg : bytes) (token : Z)
| NewMessage (addr : SocketAddr) (msg : bytes)
| Finish
| ConnectionFailure (addr : SocketAddr) (err : QuicP2pError)
| ConnectedTo (peer : Peer).

Definition handle_bootstrapped_to (node_info : NodeInfo) : G unit :=
  modify (fun s => set_elders (<[node_peer_addr node_info := Elder_new node_info]> (elders s)) s).

Definition handle_bootstrap_failure : G unit :=
  send_connected (Err (Unexpected "Bootstrap failure")).

Definition handle_unsent_request (addr : SocketAddr) (request : Request) (message_id : MessageId)
    (token : Z) : G unit := ret tt.

Definition handle_sent_user_message (addr : SocketAddr) (msg : bytes) (token : Z) : G unit := ret tt.

Definition handle_unsent_user_message (addr : SocketAddr) (msg : bytes) (token : Z) : G unit :=
  match deserialize_of msg : result Message SerialisationError with
  | Ok (MsgRequest request message_id _) => handle_unsent_request addr request message_id token
  | Ok _ | Err _ => ret tt
  end.

Definition handle_response (sender_addr : SocketAddr) (msg_id : MessageId) (response : Response) :
    G unit :=
  modify (fun s =>
    match hooks s !! msg_id with
    | Some n => set_requests (delete msg_id (hooks s)) (resolve_request n (Done response) (requests s)) s
    | None => s
    end).

Definition handle_challenge (sender_addr : SocketAddr) (sender_id : NodePublicId)
    (challenge : bytes) : G unit :=
  let! found := gets (fun s => elders s !! sender_addr) in
  let! elder := unwrap found in
  modify (fun s => set_elders (<[sender_addr := {| elder_peer := elder_peer elder;
                                                   elder_public_id := Some sender_id |}]> (elders s)) s) ;!
  let! full_id := gets group_full_id in
  let response := ChResponse (safe_key_public_id full_id) (safe_key_sign full_id challenge) false in
  let! msg := unwrap_result (serialize_of response) in
  quic_send (elder_peer elder) msg ;!
  send_connected (Ok tt).

Definition have_handled_challenge (addr : SocketAddr) (s : Inner) : bool :=
  match elders s !! addr with
  | Some elder => bool_decide (is_Some (elder_public_id elder))
  | None => false
  end.

Definition handle_new_message (addr : SocketAddr) (msg : bytes) : G unit :=
  let! handled := gets (have_handled_challenge addr) in
  if (handled : bool) then
    match deserialize_of msg : result Message SerialisationError with
    | Ok (MsgResponse response message_id) => handle_response addr message_id response
    | Ok _ | Err _ => ret tt
    end
  else
    match deserialize_of msg : result Challenge SerialisationError with
    | Ok (ChRequest (PNode node_public_id) challenge) => handle_challenge addr node_public_id challenge
    | Ok _ | Err _ => ret tt
    end.

Definition handle_connection_failure (addr : SocketAddr) (err : QuicP2pError) : G unit :=
  if is_connection_cancelled err then
    modify (fun s =>
      match disconnect_tx s with
      | Some n => set_closings None (resolve n (Done tt) (closings s)) s
      | None => s
      end)
  else ret tt.

Definition handle_quic_p2p_event (event : Event) : G unit :=
  match event with
  | BootstrapFailure => handle_bootstrap_failure
  | BootstrappedTo node => handle_bootstrapped_to node
  | SentUserMessage addr msg token => handle_sent_user_message addr msg token
  | UnsentUserMessage addr msg token => handle_unsent_user_message addr msg token
  | NewMessage addr msg => handle_new_message addr msg
  | Finish => ret tt
  | ConnectionFailure addr err => handle_connection_failure addr err
  | ConnectedTo _ => ret tt
  end.

(** [setup_quic_p2p_event_loop]: events are handled until [Finish]. *)
Fixpoint event_loop (events : list Event) : G unit :=
  match events with
  | [] => ret tt
  | Finish :: _ => ret tt
  | event :: events => handle_quic_p2p_event event ;! event_loop events
  end.

(** * What the callers await *)

(** The future of a new connection: every error, that of the group and that of a dropped
    sender among them, becomes a timeout, as does waiting for [CONNECTION_TIMEOUT_SECS]. *)
Definition connection_result (c : Channel (result unit CoreError)) : result unit CoreError :=
  match c with Done (Ok tt) => Ok tt | Done (Err _) | Canceled | Waiting => Err RequestTimeout end.

(** The future of a request, by the end of [REQUEST_TIMEOUT_SECS]. *)
Definition request_result (c : Channel Response) : result Response CoreError :=
  match c with Done r => Ok r | Canceled | Waiting => Err RequestTimeout end.

(** The future of a call of [close], which has no timer: [None] while it waits. *)
Definition close_result (c : Channel unit) : option (result unit CoreError) :=
  match c with
  | Done _ => Some (Ok tt)
  | Canceled => Some (Err (Unexpected "oneshot canceled"))
  | Waiting => None
  end.

(** [Drop]: the peers are disconnected once more. *)
Definition Inner_drop : G unit := terminate.

(** * The connection manager *)

(** A group in a manager is reached through its mutex. *)
Record Manager := { mgr_groups : gmap PublicId Inner; group_counter : Z }.

Definition set_mgr_groups (g : gmap PublicId Inner) (m : Manager) : Manager :=
  {| mgr_groups := g; group_counter := group_counter m |}.

Definition mgr_has_connection_to (pub_id : PublicId) (m : Manager) : bool :=
  bool_decide (is_Some (mgr_groups m !! pub_id)).

(** Whether the caller awaits the channel [connected] of the new group, for
    [CONNECTION_TIMEOUT_SECS]; [built] is the outcome of the builder. *)
Definition mgr_bootstrap (built : result unit CoreError) (full_id : SafeKey) :
    M Manager CoreError bool :=
  let! existing := gets (fun m => mgr_groups m !! safe_key_public_id full_id) in
  match existing with
  | None =>
      lift_result built ;!
      modify (fun m =>
        {| mgr_groups := <[safe_key_public_id full_id :=
                            ConnectionGroup_new full_id [] (group_counter m)]> (mgr_groups m);
           group_counter := u64_add (group_counter m) 1 |}) ;!
      ret true
  | Some _ => ret false
  end.

Definition mgr_send (pub_id : PublicId) (msg : Message) : M Manager CoreError nat :=
  match msg with
  | MsgRequest _ message_id _ =>
      let! group := gets (fun m => mgr_groups m !! pub_id) in
      match group with
      | None =>
          fail (Unexpected "No connection group found - did you call `bootstrap`?")
      | Some group => fun m =>
          let put g := set_mgr_groups (<[pub_id := g]> (mgr_groups m)) m in
          match group_send message_id msg group with
          | Ret n g => Ret n (put g)
          | Fail e g => Fail e (put g)
          | Panic g => Panic (put g)
          | Pending g => Pending (put g)
          end
      end
  | _ => fail (Unexpected "Not a Request")
  end.

(** The event loop of a group changes it through its mutex. *)
Definition mgr_event (pub_id : PublicId) (event : Event) : M Manager CoreError unit := fun m =>
  match mgr_groups m !! pub_id with
  | None => Ret tt m
  | Some group =>
      let put g := set_mgr_groups (<[pub_id := g]> (mgr_groups m)) m in
      match handle_quic_p2p_event event group with
      | Ret u g => Ret u (put g)
      | Fail e g => Fail e (put g)
      | Panic g => Panic (put g)
      | Pending g => Pending (put g)
      end
  end.

(** The group that is closing, and the channel the caller awaits; [None] when
    there was no group. *)
Definition mgr_disconnect (pub_id : PublicId) : M Manager CoreError (option (nat * Inner)) :=
  let! group := gets (fun m => mgr_groups m !! pub_id) in
  modify (fun m => set_mgr_groups (delete pub_id (mgr_groups m)) m) ;!
  match group with
  | None => ret None
  | Some group => fun m =>
      match group_close group with
      | Ret n g => Ret (Some (n, g)) m
      | Fail e _ => Fail e m
      | Panic _ => Panic m
      | Pending _ => Pending m
      end
  end.
(** [restart_network], which is [unimplemented!()]. *)
Definition mgr_restart_network : M Manager CoreError unit := panic.

(** [Drop for Inner] of the manager, on the channel of network events. *)
Definition Manager_drop (net_tx : list NetworkEvent) : list NetworkEvent := net_tx ++ [Disconnected].
End group.
Arguments Waiting {T}.
Arguments Done {T} t.
Arguments Canceled {T}.
