(* ===== verification/ConnectionGroupProofs.v ===== *)
(** Sessions of a connection group: which responses the requests of a client get. *)
From S2P Require Import Prelude SafeNd SafeNdModel MockAccount CoreTypes ClientApi Recovery.
From S2P Require Import MDataInfo AuthTypes MockVaultSpec MDataInfoProofs AuthModel ConnectionGroup.

Section proofs.
Context `{ndt : !NdTypes, ndo : !NdOps, core : !CoreExt, quic : !Quic}.
Context `{!EqDecision MessageId, !Countable MessageId}.
Context `{smsg : !Serial Message, schal : !Serial Challenge}.
Context (elders_iter : gmap SocketAddr Elder -> list (SocketAddr * Elder)).
#[local] Set Default Proof Using "Type".

(** * Sessions *)

(** A session interleaves the calls of the client with the events of [quic_p2p]. *)
Inductive Step :=
| StSend (msg_id : MessageId) (msg : Message)
| StClose
| StEvent (e : Event).

Definition returned {A} (o : outcome Inner CoreError A) : option Inner :=
  match o with Ret _ s => Some s | _ => None end.

(** The state a step leaves, unless it panics. *)
Definition run_step (st : Step) (s : Inner) : option Inner :=
  match st with
  | StSend msg_id msg => returned (group_send elders_iter msg_id msg s)
  | StClose => returned (group_close elders_iter s)
  | StEvent e => returned (handle_quic_p2p_event e s)
  end.

Fixpoint run_steps (l : list Step) (s : Inner) : option Inner :=
  match l with
  | [] => Some s
  | st :: l => s' ← run_step st s; run_steps l s'
  end.

Lemma run_steps_app l l' s : run_steps (l ++ l') s = s' ← run_steps l s; run_steps l' s'.
Proof.
  revert s. induction l as [|st l IH]; intros s; simpl; [done|].
  destruct (run_step st s); simpl; [apply IH|done].
Qed.

(** * What a step does to the requests *)

Abbreviation request_part s := (hooks s, requests s, elders s).

Lemma quic_send_preserves peer b : preserves (fun s => request_part s) (quic_send peer b).
Proof. by intros s. Qed.
Hint Resolve quic_send_preserves : preserves.

Lemma send_connected_preserves r : preserves (fun s => request_part s) (send_connected r).
Proof. intros s. unfold send_connected, modify. simpl. by destruct (connection_hook s). Qed.
Hint Resolve send_connected_preserves : preserves.

(** The hooks are the requests that wait for a response. *)
Definition hooks_inv (s : Inner) : Prop :=
  forall mid n, hooks s !! mid = Some n <-> requests s !! n = Some (mid, Waiting).

Definition sent_requests (mid : MessageId) (s : Inner) : list (MessageId * Channel Response) :=
  match hooks s !! mid with
  | Some old => resolve_request old Canceled (requests s)
  | None => requests s
  end ++ [(mid, Waiting)].

Lemma group_send_requests mid msg s n s' :
  group_send elders_iter mid msg s = Ret n s' ->
  n = length (requests s) /\ hooks s' = <[mid := n]> (hooks s) /\ requests s' = sent_requests mid s /\
  elders s' = elders s.
Proof.
  unfold group_send, bind, gets, modify. intros Hs.
  match type of Hs with context [unwrap_result _ ?st] => set (s1 := st) in Hs end.
  destruct (serialize_of msg) as [b|e]; simpl in Hs; [|done].
  pose proof (preserves_for_each (fun s => request_part s) (elder_peers elders_iter s1)
    (fun peer => quic_send peer b) (fun _ => quic_send_preserves _ b) s1) as Hp.
  destruct (for_each _ _ s1) as [[] s2| | |]; simpl in *; [|done..].
  injection Hs as <- <-. by injection Hp as -> -> ->.
Qed.

Lemma group_close_requests s n s' :
  group_close elders_iter s = Ret n s' -> request_part s' = request_part s.
Proof. unfold group_close, terminate, bind, gets, modify. simpl. by intros [= _ <-]. Qed.

(** [lookup] in [resolve_request]. *)
Lemma lookup_resolve_request i c l n :
  resolve_request i c l !! n =
    (fun p => if decide (n = i) then match p with (mid, Waiting) => (mid, c) | _ => p end else p)
      <$> l !! n.
Proof.
  unfold resolve_request. destruct (decide (n = i)) as [->|Hne].
  - by rewrite list_lookup_alter_eq.
  - rewrite list_lookup_alter_ne by done. by destruct (l !! n).
Qed.

Lemma hooks_inv_send mid msg s n s' :
  hooks_inv s -> group_send elders_iter mid msg s = Ret n s' -> hooks_inv s'.
Proof.
  intros Hinv (-> & Hh & Hr & _)%group_send_requests mid' k. rewrite Hh, Hr. unfold sent_requests.
  set (l := match hooks s !! mid with Some old => _ | None => _ end).
  assert (length l = length (requests s)) as Hlen.
  { unfold l. destruct (hooks s !! mid); [apply length_alter|done]. }
  destruct (decide (k = length (requests s))) as [->|Hk].
  - rewrite <-Hlen, list_lookup_middle by done. destruct (decide (mid = mid')) as [->|Hne].
    + by rewrite lookup_insert_eq.
    + rewrite lookup_insert_ne by done. split; [|by intros [= ?]].
      intros Hin%Hinv. apply lookup_lt_Some in Hin. lia.
  - assert ((l ++ [(mid, Waiting)]) !! k = l !! k) as ->.
    { destruct (decide (k < length l)); [by apply lookup_app_l|].
      rewrite !lookup_ge_None_2; [done|lia|rewrite length_app; simpl; lia]. }
    destruct (decide (mid = mid')) as [<-|Hne].
    + rewrite lookup_insert_eq. split; [congruence|]. unfold l.
      destruct (hooks s !! mid) as [old|] eqn:Hold.
      * rewrite lookup_resolve_request. pose proof Hold as Ho. apply Hinv in Ho.
        destruct (requests s !! k) as [[mid1 c1]|] eqn:Hk1; simpl; [|done].
        case_decide as Hd; [destruct c1; [done..]|]. intros [= -> ->].
        apply Hinv in Hk1. congruence.
      * intros Hk1%Hinv. congruence.
    + rewrite lookup_insert_ne by done. rewrite (Hinv mid' k). unfold l.
      destruct (hooks s !! mid) as [old|] eqn:Hold; [|done]. rewrite lookup_resolve_request.
      apply Hinv in Hold. destruct (requests s !! k) as [[mid1 c1]|] eqn:Hk1; simpl; [|done].
      case_decide as Hd; [|done]. subst old. rewrite Hold in Hk1. injection Hk1 as <- <-.
      split; congruence.
Qed.

Lemma hooks_inv_response addr mid r s s' :
  hooks_inv s -> handle_response addr mid r s = Ret tt s' -> hooks_inv s'.
Proof.
  intros Hinv. unfold handle_response, modify. intros [= <-].
  destruct (hooks s !! mid) as [n|] eqn:Hn; [|done]. intros mid' k. simpl.
  pose proof Hn as Hw. apply Hinv in Hw. rewrite lookup_resolve_request.
  destruct (decide (mid' = mid)) as [->|Hne].
  - rewrite lookup_delete_eq. split; [done|]. case_decide as Hd.
    + subst k. rewrite Hw. simpl. by intros [= ?].
    + intros Hk. destruct (requests s !! k) as [[mid1 c1]|] eqn:Hk1; simpl in Hk; [|done].
      injection Hk as -> ->. apply Hinv in Hk1. congruence.
  - rewrite lookup_delete_ne by done. rewrite (Hinv mid' k). case_decide as Hd.
    + subst k. rewrite Hw. simpl. split; congruence.
    + by destruct (requests s !! k).
Qed.

(** How a request may look after a step. *)
Inductive request_step (s : Inner) (n : nat) : Step -> MessageId * Channel Response -> Prop :=
| rs_same st p : requests s !! n = Some p -> request_step s n st p
| rs_new mid msg : n = length (requests s) -> request_step s n (StSend mid msg) (mid, Waiting)
| rs_replaced mid msg : requests s !! n = Some (mid, Waiting) ->
    request_step s n (StSend mid msg) (mid, Canceled)
| rs_response addr msg mid r : have_handled_challenge addr s = true ->
    deserialize_of msg = Ok (MsgResponse r mid) -> requests s !! n = Some (mid, Waiting) ->
    request_step s n (StEvent (NewMessage addr msg)) (mid, Done r).

(** How the elders that have been challenged may. *)
Definition challenged_by (addr : SocketAddr) (st : Step) : Prop :=
  exists msg id challenge, st = StEvent (NewMessage addr msg) /\
    deserialize_of msg = Ok (ChRequest (PNode id) challenge).

Record step_ok (s : Inner) (st : Step) (s' : Inner) : Prop := {
  so_inv : hooks_inv s';
  so_length : length (requests s) <= length (requests s');
  so_requests n p : requests s' !! n = Some p -> request_step s n st p;
  so_elders addr : have_handled_challenge addr s' = true ->
    have_handled_challenge addr s = true \/ challenged_by addr st;
}.

Lemma step_ok_frame s st s' :
  hooks_inv s -> request_part s' = request_part s -> step_ok s st s'.
Proof.
  intros Hinv [= Hh Hr He]. split.
  - intros mid n. rewrite Hh, Hr. apply Hinv.
  - by rewrite Hr.
  - intros n p. rewrite Hr. apply rs_same.
  - intros addr. unfold have_handled_challenge. rewrite He. by left.
Qed.

Lemma send_step_ok mid msg s n s' :
  hooks_inv s -> group_send elders_iter mid msg s = Ret n s' -> step_ok s (StSend mid msg) s'.
Proof.
  intros Hinv Hs. pose proof (group_send_requests _ _ _ _ _ Hs) as (_ & _ & Hr & He). split.
  - by eapply hooks_inv_send.
  - rewrite Hr. unfold sent_requests, resolve_request. rewrite length_app.
    destruct (hooks s !! mid); rewrite ?length_alter; lia.
  - intros k p. rewrite Hr. unfold sent_requests. destruct (hooks s !! mid) as [old|] eqn:Hold.
    + apply Hinv in Hold. intros [Hk|[Hk Hk']]%lookup_app_Some.
      * rewrite lookup_resolve_request in Hk. destruct (requests s !! k) as [q|] eqn:Hq; simpl in Hk; [|done].
        injection Hk as <-. case_decide; [|by apply rs_same]. subst k. rewrite Hold in Hq.
        injection Hq as <-. by apply rs_replaced.
      * unfold resolve_request in *. rewrite length_alter in *. apply list_lookup_singleton_Some in Hk'
          as [Hk' <-]. apply rs_new. lia.
    + intros [Hk|[Hk Hk']]%lookup_app_Some; [by apply rs_same|].
      apply list_lookup_singleton_Some in Hk' as [Hk' <-]. apply rs_new. lia.
  - intros addr. unfold have_handled_challenge. rewrite He. by left.
Qed.

Lemma response_step_ok addr msg mid r s s' :
  hooks_inv s -> have_handled_challenge addr s = true ->
  deserialize_of msg = Ok (MsgResponse r mid) -> handle_response addr mid r s = Ret tt s' ->
  step_ok s (StEvent (NewMessage addr msg)) s'.
Proof.
  intros Hinv Hch Hmsg Hr. pose proof (hooks_inv_response _ _ _ _ _ Hinv Hr) as Hinv'.
  unfold handle_response, modify in Hr. injection Hr as <-. split; [done| | |].
  - destruct (hooks s !! mid); simpl; [|done]. unfold resolve_request. by rewrite length_alter.
  - intros k p. destruct (hooks s !! mid) as [n|] eqn:Hn; [|apply rs_same]. simpl.
    apply Hinv in Hn. rewrite lookup_resolve_request.
    destruct (requests s !! k) as [q|] eqn:Hq; simpl; [|done]. intros [= <-].
    case_decide; [|by apply rs_same]. subst k. rewrite Hn in Hq. injection Hq as <-.
    by eapply rs_response.
  - intros a. by destruct (hooks s !! mid); left.
Qed.

Lemma challenge_step_ok addr id c msg s s' :
  hooks_inv s -> deserialize_of msg = Ok (ChRequest (PNode id) c) ->
  handle_challenge addr id c s = Ret tt s' -> step_ok s (StEvent (NewMessage addr msg)) s'.
Proof.
  intros Hinv Hmsg. unfold handle_challenge, bind, gets, unwrap.
  destruct (elders s !! addr) as [elder|]; simpl; [|done]. unfold modify.
  destruct (serialize_of _) as [b|e]; simpl; [|done]. unfold send_connected, modify. intros [= <-].
  match goal with |- step_ok _ _ (if ?b then _ else _) => destruct b end;
    (split; simpl; [exact Hinv|done|intros n p Hp; by apply rs_same|]);
    (intros a; unfold have_handled_challenge; simpl;
     destruct (decide (addr = a)) as [<-|Hne];
     [intros _; right; by exists msg, id, c|rewrite lookup_insert_ne by done; by left]).
Qed.

Lemma new_message_step_ok addr msg s s' :
  hooks_inv s -> handle_new_message addr msg s = Ret tt s' ->
  step_ok s (StEvent (NewMessage addr msg)) s'.
Proof.
  intros Hinv. unfold handle_new_message, bind, gets.
  destruct (have_handled_challenge addr s) eqn:Hch.
  - destruct (deserialize_of msg) as [[| r mid |]|] eqn:Hmsg; try (intros [= <-]; by apply step_ok_frame).
    by apply response_step_ok.
  - destruct (deserialize_of msg) as [[[| |id] c|]|] eqn:Hmsg; try (intros [= <-]; by apply step_ok_frame).
    intros Hh. by eapply (challenge_step_ok addr id c).
Qed.

Lemma event_step_ok e s s' :
  hooks_inv s -> handle_quic_p2p_event e s = Ret tt s' -> step_ok s (StEvent e) s'.
Proof.
  intros Hinv. destruct e as [|node|a b t|a b t|a b| |a err|p]; simpl.
  - unfold handle_bootstrap_failure, send_connected, modify. intros [= <-].
    by destruct (connection_hook s); apply step_ok_frame.
  - unfold handle_bootstrapped_to, modify. intros [= <-]. split; [done|done|intros n p Hp; by apply rs_same|].
    intros a. unfold have_handled_challenge. simpl.
    destruct (decide (node_peer_addr node = a)) as [->|Hne].
    + by rewrite lookup_insert_eq.
    + rewrite lookup_insert_ne by done. by left.
  - intros [= <-]. by apply step_ok_frame.
  - unfold handle_unsent_user_message, handle_unsent_request.
    destruct (deserialize_of b) as [[]|]; intros [= <-]; by apply step_ok_frame.
  - by apply new_message_step_ok.
  - intros [= <-]. by apply step_ok_frame.
  - unfold handle_connection_failure, modify. destruct (is_connection_cancelled err); intros [= <-];
      [|by apply step_ok_frame]. destruct (disconnect_tx s); by apply step_ok_frame.
  - intros [= <-]. by apply step_ok_frame.
Qed.

Lemma run_step_ok st s s' : hooks_inv s -> run_step st s = Some s' -> step_ok s st s'.
Proof.
  intros Hinv. destruct st as [mid msg| |e]; simpl.
  - destruct (group_send elders_iter mid msg s) as [n s1| | |] eqn:Hs; simpl; [|done..]. intros [= <-].
    by eapply send_step_ok.
  - destruct (group_close elders_iter s) as [n s1| | |] eqn:Hs; simpl; [|done..]. intros [= <-].
    apply step_ok_frame; [done|]. by eapply group_close_requests.
  - destruct (handle_quic_p2p_event e s) as [[] s1| | |] eqn:He; simpl; [|done..]. intros [= <-].
    by apply event_step_ok.
Qed.

(** * Whole sessions *)

Lemma new_group_inv full_id nodes counter : hooks_inv (ConnectionGroup_new full_id nodes counter).
Proof. intros mid n. simpl. rewrite lookup_empty. by split. Qed.

Lemma new_group_unchallenged full_id nodes counter addr :
  have_handled_challenge addr (ConnectionGroup_new full_id nodes counter) = false.
Proof.
  unfold have_handled_challenge. simpl.
  assert (forall m : gmap SocketAddr Elder, map_Forall (fun _ e => elder_public_id e = None) m ->
    map_Forall (fun _ e => elder_public_id e = None)
      (foldl (fun m n => <[node_peer_addr n := Elder_new n]> m) m nodes)) as Hall.
  { induction nodes as [|n nodes IH]; intros m Hm; simpl; [done|]. apply IH.
    by apply map_Forall_insert_2. }
  destruct (_ !! addr) as [e|] eqn:He; [|done].
  specialize (Hall ∅ (map_Forall_empty _) addr e He). simpl in Hall. by rewrite Hall.
Qed.

(** An address that has been challenged was challenged by a step of the session. *)
Lemma session_inv full_id nodes counter l s :
  run_steps l (ConnectionGroup_new full_id nodes counter) = Some s ->
  hooks_inv s /\ forall addr, have_handled_challenge addr s = true -> Exists (challenged_by addr) l.
Proof.
  revert s. induction l as [|st l IH] using rev_ind; intros s Hs.
  - injection Hs as <-. split; [apply new_group_inv|]. intros addr. by rewrite new_group_unchallenged.
  - rewrite run_steps_app in Hs. apply bind_Some in Hs as (s1 & Hl & Hst). simpl in Hst.
    apply bind_Some in Hst as (s2 & Hst & [= <-]). destruct (IH s1 Hl) as [Hinv Hch].
    destruct (run_step_ok st s1 s2 Hinv Hst) as [Hinv' _ _ Hel]. split; [done|].
    intros addr [Hb|Hb]%Hel; apply Exists_app; [left; by apply Hch|right; by constructor].
Qed.

(** A response stays. *)
Lemma response_stays l s s' n mid r :
  hooks_inv s -> run_steps l s = Some s' -> requests s !! n = Some (mid, Done r) ->
  requests s' !! n = Some (mid, Done r).
Proof.
  revert s. induction l as [|st l IH]; intros s Hinv Hs Hn; simpl in Hs; [by injection Hs as <-|].
  apply bind_Some in Hs as (s1 & Hst & Hl).
  destruct (run_step_ok st s s1 Hinv Hst) as [Hinv1 Hlen Hreq _]. apply (IH s1); [done|done|].
  pose proof (lookup_lt_Some _ _ _ Hn) as Hlt.
  destruct (lookup_lt_is_Some_2 (requests s1) n) as [p Hp]; [lia|]. rewrite Hp.
  pose proof (Hreq n p Hp) as Hr.
  inversion Hr as [? ? Hsame|? ? Heq|? ? Hw|? ? ? ? _ _ Hw]; subst; [congruence|lia|congruence..].
Qed.

Lemma response_origin full_id nodes counter l s n mid r :
  run_steps l (ConnectionGroup_new full_id nodes counter) = Some s ->
  requests s !! n = Some (mid, Done r) ->
  exists pre addr msg post s1,
    l = pre ++ StEvent (NewMessage addr msg) :: post /\
    deserialize_of msg = Ok (MsgResponse r mid) /\ Exists (challenged_by addr) pre /\
    run_steps pre (ConnectionGroup_new full_id nodes counter) = Some s1 /\
    requests s1 !! n = Some (mid, Waiting).
Proof.
  revert s. induction l as [|st l IH] using rev_ind; intros s Hs Hn.
  - by injection Hs as <-.
  - rewrite run_steps_app in Hs. apply bind_Some in Hs as (s1 & Hl & Hst). simpl in Hst.
    apply bind_Some in Hst as (s2 & Hst & [= <-]).
    destruct (session_inv _ _ _ _ _ Hl) as [Hinv Hch].
    destruct (run_step_ok st s1 s2 Hinv Hst) as [_ _ Hreq _].
    pose proof (Hreq n _ Hn) as Hr. inversion Hr as [? ? Hsame| | |addr msg ? ? Hc Hmsg Hw]; subst.
    + destruct (IH s1 Hl Hsame) as (pre & addr & msg & post & s3 & -> & Hrest).
      exists pre, addr, msg, (post ++ [st]), s3. split; [|done]. by rewrite <-app_assoc.
    + exists l, addr, msg, [], s1. split_and!; [done|done|by apply Hch|done|done].
Qed.

(** C1: in a session of a new connection group, whatever calls and events it
    consists of, a request that has got a response got it from a message that holds
    that response for the identifier of the request, sent by a peer that had gone
    through the challenge of this session before; until that message the request was
    waiting, and afterwards it keeps the response. *)
Theorem responses_are_authentic full_id nodes counter l s n mid r :
  run_steps l (ConnectionGroup_new full_id nodes counter) = Some s ->
  requests s !! n = Some (mid, Done r) ->
  exists pre addr msg post s1,
    l = pre ++ StEvent (NewMessage addr msg) :: post /\
    deserialize_of msg = Ok (MsgResponse r mid) /\ Exists (challenged_by addr) pre /\
    run_steps pre (ConnectionGroup_new full_id nodes counter) = Some s1 /\
    requests s1 !! n = Some (mid, Waiting) /\
    forall l' s', run_steps l' s = Some s' -> requests s' !! n = Some (mid, Done r).
Proof.
  intros Hl Hdone. destruct (response_origin _ _ _ _ _ _ _ _ Hl Hdone) as
    (pre & addr & msg & post & s1 & ? & ? & ? & ? & ?). exists pre, addr, msg, post, s1.
  split_and!; [done..|]. intros l' s' Hs'. eapply response_stays; [|done|done].
  by apply (session_inv _ _ _ _ _ Hl).
Qed.
(** The message that answers a request is the only one that does. *)
Lemma response_resolves_request s addr msg mid r n :
  hooks_inv s -> have_handled_challenge addr s = true ->
  deserialize_of msg = Ok (MsgResponse r mid) -> requests s !! n = Some (mid, Waiting) ->
  exists s', handle_new_message addr msg s = Ret tt s' /\ requests s' !! n = Some (mid, Done r) /\
    hooks s' = delete mid (hooks s) /\ forall k, k <> n -> requests s' !! k = requests s !! k.
Proof.
  intros Hinv Hch Hmsg Hn. unfold handle_new_message, bind, gets. rewrite Hch, Hmsg.
  unfold handle_response, modify. pose proof Hn as Hh. apply Hinv in Hh. rewrite Hh.
  eexists. split; [done|]. simpl. split_and!; [|done|].
  - rewrite lookup_resolve_request, Hn. simpl. by case_decide.
  - intros k Hk. rewrite lookup_resolve_request. case_decide; [done|]. by destruct (requests s !! k).
Qed.

(** [handle_challenge] unwraps an elder that [handle_new_message] has not found: a
    challenge from an unknown address panics, and poisons the mutex of the group. *)
Lemma unknown_peer_challenge_panics s addr msg id c :
  elders s !! addr = None -> deserialize_of msg = Ok (ChRequest (PNode id) c) ->
  handle_quic_p2p_event (NewMessage addr msg) s = Panic s.
Proof.
  intros Hno Hmsg. simpl. unfold handle_new_message, bind, gets, have_handled_challenge. rewrite Hno.
  simpl. rewrite Hmsg. unfold handle_challenge, bind, gets. by rewrite Hno.
Qed.

(** * The manager *)

(** Groups are apart: what is done with one leaves the others as they are. *)
Definition only_group (id : PublicId) (m m' : Manager) : Prop :=
  forall other, other <> id -> mgr_groups m' !! other = mgr_groups m !! other.

Lemma only_group_set id g m : only_group id m (set_mgr_groups (<[id := g]> (mgr_groups m)) m).
Proof. intros other Hne. simpl. by rewrite lookup_insert_ne. Qed.

Lemma only_group_trans id m1 m2 m3 : only_group id m1 m2 -> only_group id m2 m3 -> only_group id m1 m3.
Proof. intros H1 H2 other Hne. by rewrite (H2 other Hne), (H1 other Hne). Qed.

(** A group that knows no elder sends nothing, and its requests wait. *)
Lemma group_send_nobody mid msg b g :
  elders_iter ∅ = [] -> elders g = ∅ -> serialize_of msg = Ok b ->
  exists g', group_send elders_iter mid msg g = Ret (length (requests g)) g' /\
    quic_p2p_calls g' = quic_p2p_calls g /\ requests g' !! length (requests g) = Some (mid, Waiting).
Proof.
  intros Hit He Hb. unfold group_send, elder_peers. do 2 (erewrite bind_Ret by reflexivity). rewrite Hb.
  do 2 (erewrite bind_Ret by reflexivity). cbn [elders set_requests]. rewrite He, Hit.
  eexists. split; [reflexivity|]. split; [done|]. cbn [requests set_requests].
  rewrite lookup_app_r; [|by destruct (hooks g !! mid); unfold resolve_request; rewrite ?length_alter].
  replace (length _ - length _) with 0; [done|].
  destruct (hooks g !! mid); unfold resolve_request; rewrite ?length_alter; lia.
Qed.

(** C25: a connection that failed stays with the manager.  When the bootstrap of a new
    group fails, its caller is told of a timeout; the group is kept, so that
    bootstrapping the same identity again, for want of a connection, succeeds at once
    without trying; and a request is then taken, is sent to nobody, and waits for its own
    timeout.  The groups of other identities are not touched. *)
Theorem failed_bootstrap_sticks full_id m :
  let id := safe_key_public_id full_id in
  mgr_groups m !! id = None -> elders_iter ∅ = [] ->
  exists m1 m2, mgr_bootstrap (Ok tt) full_id m = Ret true m1 /\
    mgr_event id BootstrapFailure m1 = Ret tt m2 /\ only_group id m m2 /\
    (exists g, mgr_groups m2 !! id = Some g /\ connected g = Done (Err (Unexpected "Bootstrap failure")) /\
       connection_result (connected g) = Err RequestTimeout) /\
    mgr_has_connection_to id m2 = true /\ mgr_bootstrap (Ok tt) full_id m2 = Ret false m2 /\
    forall req mid sig b, serialize_of (MsgRequest req mid sig) = Ok b ->
      exists n m3 g, mgr_send elders_iter id (MsgRequest req mid sig) m2 = Ret n m3 /\
        only_group id m m3 /\ mgr_groups m3 !! id = Some g /\ quic_p2p_calls g = [QBootstrap] /\
        requests g !! n = Some (mid, Waiting).
Proof.
  intros id Hno Hit. set (g0 := ConnectionGroup_new full_id [] (group_counter m)).
  set (g1 := set_connected false (Done (Err (Unexpected "Bootstrap failure"))) g0).
  set (m1 := {| mgr_groups := <[id := g0]> (mgr_groups m); group_counter := u64_add (group_counter m) 1 |}).
  set (m2 := set_mgr_groups (<[id := g1]> (mgr_groups m1)) m1).
  assert (Hg1 : mgr_groups m2 !! id = Some g1) by apply lookup_insert_eq.
  assert (Hon : only_group id m m2).
  { apply only_group_trans with m1; [exact (only_group_set id g0 m)|apply only_group_set]. }
  exists m1, m2. split_and!; [| |exact Hon|by exists g1| | |].
  - unfold mgr_bootstrap, bind, gets. fold id. by rewrite Hno.
  - unfold mgr_event, m1. cbn [mgr_groups]. by rewrite lookup_insert_eq.
  - unfold mgr_has_connection_to. by rewrite Hg1.
  - unfold mgr_bootstrap, bind, gets. fold id. by rewrite Hg1.
  - intros req mid sig b Hb. destruct (group_send_nobody mid _ b g1 Hit eq_refl Hb) as (g2 & Hs & Hc & Hr).
    exists 0, (set_mgr_groups (<[id := g2]> (mgr_groups m2)) m2), g2. split_and!; [| | |exact Hc|exact Hr].
    + unfold mgr_send, bind, gets. rewrite Hg1, Hs. reflexivity.
    + apply only_group_trans with m2; [exact Hon|apply only_group_set].
    + apply lookup_insert_eq.
Qed.
End proofs.

(** * A concrete session *)

#[export] Instance ModelQuic : Quic := {|
  SocketAddr := Z; NodeInfo := Z; node_peer_addr n := n;
  is_connection_cancelled e := bool_decide ((e : string) = "cancelled");
  token_at := Z.of_nat;
|}.

(** Messages as numbers: responses are [1; identifier], challenges [2; node]. *)
#[local] Instance ex_serial_message : Serial Message := {|
  serialize_of _ := Ok [0%Z];
  deserialize_of b :=
    match b with
    | [1%Z; mid] => Ok (MsgResponse (RMutation (Ok tt)) (mid : MessageId))
    | _ => Err ("malformed" : SerialisationError)
    end |}.
#[local] Instance ex_serial_challenge : Serial Challenge := {|
  serialize_of _ := Ok [0%Z];
  deserialize_of b :=
    match b with
    | [2%Z; id] => Ok (ChRequest (PNode (id : NodePublicId)) [])
    | _ => Err ("malformed" : SerialisationError)
    end |}.

#[export] Instance ModelMessageId_eq : EqDecision MessageId := Z.eq_dec.
#[export] Instance ModelMessageId_countable : Countable MessageId := _ : Countable Z.

Definition ex_group_key : SafeKey := SKClient (3%Z : ClientFullId).
Definition ex_session : list Step :=
  [StEvent (BootstrappedTo (5%Z : NodeInfo));
   StSend (9%Z : MessageId) (MsgRequest ListAuthKeysAndVersion (9%Z : MessageId) None);
   StEvent (NewMessage (5%Z : SocketAddr) [1; 9]%Z);
   StEvent (NewMessage (5%Z : SocketAddr) [2; 77]%Z);
   StEvent (NewMessage (5%Z : SocketAddr) [1; 9]%Z)].

Definition ex_group : Inner := ConnectionGroup_new ex_group_key ([] : list NodeInfo) 0.
Definition ex_group_end : Inner := default ex_group (run_steps map_to_list ex_session ex_group).

Lemma ex_session_runs : run_steps map_to_list ex_session ex_group = Some ex_group_end.
Proof.
  assert (is_Some_b : bool_decide (is_Some (run_steps map_to_list ex_session ex_group)) = true) by vm_refl.
  apply bool_decide_eq_true in is_Some_b as [s Hs]. unfold ex_group_end. by rewrite Hs.
Qed.

Lemma ex_session_requests : requests ex_group_end = [((9%Z : MessageId), Done (RMutation (Ok tt)))].
Proof. vm_refl. Qed.

Example responses_are_authentic_witness :
  exists pre addr msg post s1, ex_session = pre ++ StEvent (NewMessage addr msg) :: post /\
    deserialize_of (T := Message) msg = Ok (MsgResponse (RMutation (Ok tt)) (9%Z : MessageId)) /\
    Exists (challenged_by addr) pre /\ run_steps map_to_list pre ex_group = Some s1 /\
    requests s1 !! 0 = Some ((9%Z : MessageId), Waiting) /\
    forall l' s', run_steps map_to_list l' ex_group_end = Some s' ->
      requests s' !! 0 = Some ((9%Z : MessageId), Done (RMutation (Ok tt))).
Proof.
  apply (responses_are_authentic map_to_list ex_group_key [] 0 ex_session ex_group_end).
  - exact ex_session_runs.
  - by rewrite ex_session_requests.
Defined.

Example failed_bootstrap_sticks_witness :
  exists m1 m2, mgr_bootstrap (Ok tt) ex_group_key {| mgr_groups := ∅; group_counter := 0 |} = Ret true m1 /\
    mgr_event (safe_key_public_id ex_group_key) BootstrapFailure m1 = Ret tt m2 /\
    mgr_bootstrap (Ok tt) ex_group_key m2 = Ret false m2.
Proof.
  destruct (failed_bootstrap_sticks map_to_list ex_group_key {| mgr_groups := ∅; group_counter := 0 |})
    as (m1 & m2 & H1 & H2 & _ & _ & _ & H3 & _).
  - apply lookup_empty.
  - apply map_to_list_empty.
  - exact (ex_intro _ m1 (ex_intro _ m2 (conj H1 (conj H2 H3)))).
Defined.
