(* ===== verification/AccountPacket.v ===== *)
(** The account packet ([safe_core/src/client/account.rs]): what a user's account
    holds, and how it is encrypted under the user's credentials.

    The key derivation ([pbkdf2]) and the generation of keys are parameters, with
    what is relied upon of them in [AccountExtLaws]. *)
From S2P Require Import Prelude SafeNd SafeNdModel MockAccount CoreTypes ClientApi Recovery.
From S2P Require Import MDataInfo AuthTypes AppAuth.

Class AccountExt `{!NdTypes, !NdOps, !CoreExt} := {
  (** [pbkdf2::<Hmac<Sha3_256>>(input, salt, iterations, output)] fills an output
      of the given length. *)
  pbkdf2 : bytes -> bytes -> nat -> nat -> bytes;
  (** [ClientFullId::new_bls], drawn from the generator of the thread, or from the
      [StdRng] of a seed. *)
  client_new_bls_at : nat -> ClientFullId;
  client_new_bls_seeded : bytes -> ClientFullId;
  (** [LoginPacket::new] and [PublicKey::verify] of [safe_nd]. *)
  max_login_packet_bytes : nat;
  LoginPacket_new : XorName -> PublicKey -> bytes -> Signature -> SndResult LoginPacket;
  pk_verify : PublicKey -> Signature -> bytes -> SndResult unit;
}.

Class AccountExtLaws `{!NdTypes, !NdOps, !CoreExt, !AccountExt} := {
  pbkdf2_length input salt iterations len : length (pbkdf2 input salt iterations len) = len;
  (** A packet is refused only for its size. *)
  login_packet_new_spec loc pk data sig :
    length data <= max_login_packet_bytes ->
    exists p, LoginPacket_new loc pk data sig = Ok p /\ login_destination p = loc /\
      login_authorised_getter p = pk /\ login_data p = data /\ login_signature p = sig;
  pk_verify_sign id data :
    pk_verify (client_public_key (client_full_public_id id)) (client_sign id data) data = Ok tt;
}.

Definition ITERATIONS : nat := Z.to_nat 10000.

Section account.
Context `{ndt : !NdTypes, ndo : !NdOps, core : !CoreExt, cr : !Crypto, auth : !AuthExt}.
Context `{aext : !AccountExt}.
Abbreviation R A := (M Rng CoreError A).

(** * Keys *)

Record ClientKeys := {
  client_id : ClientFullId;
  ck_enc_key : SymEncKey;
  ck_enc_pk : EncPublicKey;
  ck_enc_sk : EncSecretKey;
}.

Definition set_client_id (id : ClientFullId) (k : ClientKeys) : ClientKeys :=
  {| client_id := id; ck_enc_key := ck_enc_key k; ck_enc_pk := ck_enc_pk k;
     ck_enc_sk := ck_enc_sk k |}.

(** [ClientKeys::new]: only the signing keys come from the generator [rng] the
    caller passes, a seeded one or the thread's. *)
Definition ClientKeys_new (rng : option bytes) : R ClientKeys :=
  let! (enc_pk, enc_sk) := (fun i => Ret (gen_keypair_at i) (S i)) in
  let! enc_key := generate_sym_enc_key in
  let! client_id := match rng with
                    | Some seed => ret (client_new_bls_seeded seed)
                    | None => fun i => Ret (client_new_bls_at i) (S i)
                    end in
  ret {| client_id := client_id; ck_enc_key := enc_key; ck_enc_pk := enc_pk;
         ck_enc_sk := enc_sk |}.

Definition client_safe_key (k : ClientKeys) : SafeKey := SKClient (client_id k).

Definition client_keys_public_key (k : ClientKeys) : PublicKey :=
  client_public_key (client_full_public_id (client_id k)).

(** * The account *)

Record Account := {
  maid_keys : ClientKeys;
  acc_access_container : MDataInfo;
  acc_config_root : MDataInfo;
  root_dirs_created : bool;
}.

Definition Account_new (maid_keys_ : ClientKeys) : R Account :=
  let! access_container_ := random_private MKSeq DIR_TAG in
  let! config_root_ := random_private MKSeq DIR_TAG in
  ret {| maid_keys := maid_keys_; acc_access_container := access_container_;
         acc_config_root := config_root_; root_dirs_created := false |}.

Definition derive_key (output_len : nat) (input user_salt : bytes) : bytes :=
  let salt := sha3_256 user_salt in
  pbkdf2 input salt ITERATIONS output_len.

(** [XOR_NAME_LEN] is 32. *)
Definition generate_network_id (keyword pin : bytes) : result XorName CoreError :=
  Ok (MkXorName (derive_key 32 keyword pin)).

(** The slices have the lengths of their targets, [pbkdf2_length]: [try_into] does
    not fail. *)
Definition generate_crypto_keys (password pin : bytes) :
    result (SymEncKey * SymEncNonce) CoreError :=
  let output := derive_key (SYM_ENC_KEY_LEN + SYM_ENC_NONCE_LEN) password pin in
  Ok (take SYM_ENC_KEY_LEN output, drop SYM_ENC_KEY_LEN output).

Context `{sacc : !Serial Account}.

Definition account_encrypt (acc : Account) (password pin : bytes) : result bytes CoreError :=
  let? serialised_self := from_serialisation (serialize_of acc) in
  let? (key, nonce) := generate_crypto_keys password pin in
  Ok (siv_seal key nonce serialised_self).

Definition account_decrypt (encrypted_self password pin : bytes) : result Account CoreError :=
  let? (key, nonce) := generate_crypto_keys password pin in
  let? decrypted_self := ok_or_r (siv_open key nonce encrypted_self) SymmetricDecipherFailure in
  from_serialisation (deserialize_of decrypted_self).
End account.

Section account_proofs.
Context `{ndt : !NdTypes, ndo : !NdOps, core : !CoreExt, cr : !Crypto, crl : !CryptoLaws}.
Context `{auth : !AuthExt, aext : !AccountExt, aextl : !AccountExtLaws}.

Lemma crypto_keys_lengths password pin k n :
  generate_crypto_keys password pin = Ok (k, n) ->
  length k = SYM_ENC_KEY_LEN /\ length n = SYM_ENC_NONCE_LEN.
Proof.
  intros [= <- <-]. unfold derive_key.
  by rewrite length_take, length_drop, !pbkdf2_length.
Qed.

Context `{sacc : !Serial Account, saccl : !SerialLaws Account}.

Lemma account_roundtrip acc password pin :
  exists b, account_encrypt acc password pin = Ok b /\
    account_decrypt b password pin = Ok acc.
Proof.
  destruct (serial_roundtrip acc) as (p & Hs & _ & Hd). unfold account_encrypt, account_decrypt.
  rewrite Hs. simpl. eexists. split; [done|]. rewrite siv_open_seal. simpl. by rewrite Hd.
Qed.

(** With a password or pin whose derived key and nonce differ, the packet does not
    open: the nonce is authenticated too. *)
Lemma account_wrong_credentials acc password pin password' pin' b :
  (forall k n k' n' p, (k, n) <> (k', n') -> siv_open k' n' (siv_seal k n p) = None) ->
  generate_crypto_keys password pin <> generate_crypto_keys password' pin' ->
  account_encrypt acc password pin = Ok b ->
  account_decrypt b password' pin' = Err SymmetricDecipherFailure.
Proof.
  intros Hauth Hne Hb. unfold account_encrypt, account_decrypt in *.
  destruct (from_serialisation _) as [p|]; simpl in *; simplify_eq.
  rewrite Hauth; [done|]. intros Heq. apply Hne. exact (f_equal Ok Heq).
Qed.
End account_proofs.
