(* ===== verification/AuthLogin.v ===== *)
(** The client of the authenticator ([safe_authenticator/src/client.rs]): creation of
    an account, login, and the update of the account packet on the network.

    The world of a registration or a login is the connection manager the call
    creates, and the generator of the thread. *)
From stdpp Require Import pretty.
From S2P Require Import Prelude SafeNd SafeNdModel MockAccount CoreTypes ClientApi Recovery.
From S2P Require Import MDataInfo AuthTypes AppAuth AuthErrors AccountPacket.

Section auth_client.
Context `{ndt : !NdTypes, ndo : !NdOps, core : !CoreExt, lru : !LruOps, cr : !Crypto}.
Context `{auth : !AuthExt, aext : !AccountExt, sacc : !Serial Account}.
Context {W : Type} `{net : !Network W}.

(** * State *)

Record UserCred := { cred_pin : bytes; cred_password : bytes }.

Record AuthInner := { acc : Account; acc_loc : XorName; user_cred : UserCred }.

Definition set_acc (a : Account) (i : AuthInner) : AuthInner :=
  {| acc := a; acc_loc := acc_loc i; user_cred := user_cred i |}.

(** [AuthClient], whose two fields are shared by its clones. *)
Record Login := { login_inner : ClientInner W; auth_inner : AuthInner }.

Record Boot := { boot_cm : W; boot_rng : Rng }.

Definition on_cm {A} (m : M W CoreError A) : M Boot AuthError A := fun s =>
  match m (boot_cm s) with
  | Ret a w => Ret a {| boot_cm := w; boot_rng := boot_rng s |}
  | Fail e w => Fail (auth_from_core e) {| boot_cm := w; boot_rng := boot_rng s |}
  | Panic w => Panic {| boot_cm := w; boot_rng := boot_rng s |}
  | Pending w => Pending {| boot_cm := w; boot_rng := boot_rng s |}
  end.

Definition on_boot_rng {A} (m : M Rng CoreError A) : M Boot AuthError A := fun s =>
  match m (boot_rng s) with
  | Ret a r => Ret a {| boot_cm := boot_cm s; boot_rng := r |}
  | Fail e r => Fail (auth_from_core e) {| boot_cm := boot_cm s; boot_rng := r |}
  | Panic r => Panic {| boot_cm := boot_cm s; boot_rng := r |}
  | Pending r => Pending {| boot_cm := boot_cm s; boot_rng := r |}
  end.

(** [?] on results of [safe_core] and of [safe_nd]. *)
Definition core_try {S A} (r : result A CoreError) : M S AuthError A :=
  match r with Ok a => ret a | Err e => fail (auth_from_core e) end.
Definition snd_try {S A} (r : SndResult A) : M S AuthError A :=
  match r with Ok a => ret a | Err e => fail (auth_from_snd e) end.

(** * Registration and login *)

Definition create_client_id (seeder : bytes) : ClientFullId :=
  let seed := sha3_256 seeder in
  client_new_bls_seeded seed.

(** [ClientInner::new], with the timeout of both calls. *)
Definition new_client_inner (cm : W) : ClientInner W :=
  {| connection_manager := cm; ci_cache := lru_new IMMUT_DATA_CACHE_SIZE; timeout := 180 |}.

(** [seed] is the seed of the generator, for a registration with a seed. *)
Definition registered_impl (acc_locator acc_password : bytes) (client_id_ : ClientFullId)
    (seed : option bytes) (connection_manager_wrapper_fn : W -> W) : M Boot AuthError Login :=
  let '(password, keyword, pin) := derive_secrets acc_locator acc_password in
  let! acc_locator := core_try (generate_network_id keyword pin) in
  let user_cred_ := {| cred_pin := pin; cred_password := password |} in
  let! maid_keys_ := on_boot_rng (ClientKeys_new seed) in
  let maid_keys_ := set_client_id client_id_ maid_keys_ in
  let balance_full_id := SKClient client_id_ in
  let client_safe_key_ := client_safe_key maid_keys_ in
  let! acc_ := on_boot_rng (Account_new maid_keys_) in
  let! acc_ciphertext :=
    core_try (account_encrypt acc_ (cred_password user_cred_) (cred_pin user_cred_)) in
  let transient_id := create_client_id (xor_name_0 acc_locator) in
  let sig := client_sign transient_id acc_ciphertext in
  let transient_pk := client_public_key (client_full_public_id transient_id) in
  let! new_login_packet := snd_try (LoginPacket_new acc_locator transient_pk acc_ciphertext sig) in
  modify (fun s => {| boot_cm := connection_manager_wrapper_fn (boot_cm s);
                      boot_rng := boot_rng s |}) ;!
  on_cm (cm_bootstrap balance_full_id) ;!
  let! response := on_cm (req (CreateLoginPacket new_login_packet) balance_full_id) in
  match response with
  | RMutation res => snd_try res
  | _ => fail (auth_from_str "Unexpected response")
  end ;!
  on_cm (cm_disconnect (safe_key_public_id balance_full_id)) ;!
  on_cm (cm_bootstrap client_safe_key_) ;!
  let! cm := gets boot_cm in
  ret {| login_inner := new_client_inner cm;
         auth_inner := {| acc := acc_; acc_loc := acc_locator; user_cred := user_cred_ |} |}.

Definition registered (acc_locator acc_password : string) (client_id_ : ClientFullId) :
    M Boot AuthError Login :=
  registered_impl (as_bytes acc_locator) (as_bytes acc_password) client_id_ None (fun cm => cm).

Definition registered_with_hook (acc_locator acc_password : string) (client_id_ : ClientFullId)
    (connection_manager_wrapper_fn : W -> W) : M Boot AuthError Login :=
  registered_impl (as_bytes acc_locator) (as_bytes acc_password) client_id_ None
    connection_manager_wrapper_fn.

Definition login_impl (acc_locator acc_password : bytes)
    (connection_manager_wrapper_fn : W -> W) : M Boot AuthError Login :=
  let '(password, keyword, pin) := derive_secrets acc_locator acc_password in
  let! acc_locator := core_try (generate_network_id keyword pin) in
  let client_full_id := create_client_id (xor_name_0 acc_locator) in
  let client_pk := client_public_key (client_full_public_id client_full_id) in
  let client_full_id := SKClient client_full_id in
  let user_cred_ := {| cred_pin := pin; cred_password := password |} in
  modify (fun s => {| boot_cm := connection_manager_wrapper_fn (boot_cm s);
                      boot_rng := boot_rng s |}) ;!
  on_cm (cm_bootstrap client_full_id) ;!
  let! response := on_cm (req (GetLoginPacket acc_locator) client_full_id) in
  on_cm (cm_disconnect (safe_key_public_id client_full_id)) ;!
  let! (account_buffer, signature) :=
    match response with
    | RGetLoginPacket res => snd_try res
    | _ => fail (auth_from_str "Unexpected response")
    end in
  snd_try (pk_verify client_pk signature account_buffer) ;!
  let! acc_ :=
    core_try (account_decrypt account_buffer (cred_password user_cred_) (cred_pin user_cred_)) in
  let id_packet := client_safe_key (maid_keys acc_) in
  on_cm (cm_bootstrap id_packet) ;!
  let! cm := gets boot_cm in
  ret {| login_inner := new_client_inner cm;
         auth_inner := {| acc := acc_; acc_loc := acc_locator; user_cred := user_cred_ |} |}.

Definition login (acc_locator acc_password : string) : M Boot AuthError Login :=
  login_impl (as_bytes acc_locator) (as_bytes acc_password) (fun routing => routing).

Definition login_with_hook (acc_locator acc_password : string)
    (connection_manager_wrapper_fn : W -> W) : M Boot AuthError Login :=
  login_impl (as_bytes acc_locator) (as_bytes acc_password) connection_manager_wrapper_fn.

(** ** Accounts of a seed *)

Definition SEED_SUBPARTS : nat := 4.

(** [divide_seed] of [test_utils.rs]: what is left over after the last part is dropped. *)
Definition divide_seed (seed : string) : result (list bytes) AuthError :=
  let seed := as_bytes seed in
  if decide (length seed < SEED_SUBPARTS) then
    Err (AuthUnexpected (String.append "Improper Seed length of "
      (String.append (pretty (length seed)) ". Please supply bigger Seed.")))
  else
    let interval := length seed / SEED_SUBPARTS in
    Ok (map (fun i => take (interval * (i + 1) - interval * i) (drop (interval * i) seed)) (seq 0 SEED_SUBPARTS)).

Definition registered_with_seed (seed : string) (client_id_ : ClientFullId) : M Boot AuthError Login :=
  let! arr := lift_result (divide_seed seed) in
  let seed := sha3_256 (as_bytes seed) in
  registered_impl (arr !!! 0) (arr !!! 1) client_id_ (Some seed) (fun cm => cm).

Definition login_with_seed (seed : string) : M Boot AuthError Login :=
  let! arr := lift_result (divide_seed seed) in
  login_impl (arr !!! 0) (arr !!! 1) (fun routing => routing).

(** * The session *)

(** What the client of the session offers to the functions of the authenticator:
    [full_id], [owner_key], [config_root_dir], [access_container],
    [secret_symmetric_key]. *)
Definition auth_client_of (i : AuthInner) : AuthClient :=
  {| ac_client := {| full_id := client_safe_key (maid_keys (acc i));
                     owner_key := safe_key_public_key (client_safe_key (maid_keys (acc i))) |};
     config_root_dir := acc_config_root (acc i);
     access_container := acc_access_container (acc i);
     secret_symmetric_key := ck_enc_key (maid_keys (acc i)) |}.

Definition set_config_root_dir (dir : MDataInfo) (i : AuthInner) : bool * AuthInner :=
  let a := acc i in
  if decide (acc_config_root a = dir) then (false, i)
  else (true, set_acc {| maid_keys := maid_keys a; acc_access_container := acc_access_container a;
                         acc_config_root := dir; root_dirs_created := root_dirs_created a |} i).

Definition set_access_container (dir : MDataInfo) (i : AuthInner) : bool * AuthInner :=
  let a := acc i in
  if decide (acc_access_container a = dir) then (false, i)
  else (true, set_acc {| maid_keys := maid_keys a; acc_access_container := dir;
                         acc_config_root := acc_config_root a;
                         root_dirs_created := root_dirs_created a |} i).

Definition std_dirs_created (i : AuthInner) : bool := root_dirs_created (acc i).

Definition set_std_dirs_created (val : bool) (i : AuthInner) : AuthInner :=
  let a := acc i in
  set_acc {| maid_keys := maid_keys a; acc_access_container := acc_access_container a;
             acc_config_root := acc_config_root a; root_dirs_created := val |} i.

Definition prepare_account_packet_update {S} (acc_loc_ : XorName) (account : Account)
    (keys_ : UserCred) (full_id_ : SafeKey) : M S AuthError LoginPacket :=
  let! encrypted_account := core_try (account_encrypt account (cred_password keys_) (cred_pin keys_)) in
  let sig := safe_key_sign full_id_ encrypted_account in
  let! client_pk := match safe_key_public_id full_id_ with
                    | PClient id => ret (client_public_key id)
                    | _ => panic
                    end in
  snd_try (LoginPacket_new acc_loc_ client_pk encrypted_account sig).

(** The future is lazy: the message is composed at the call, and sent when it runs.
    Nothing disconnects the group when the request fails. *)
Definition update_account_packet (i : AuthInner) : M (ClientInner W) AuthError unit :=
  let account_packet_id := SKClient (create_client_id (xor_name_0 (acc_loc i))) in
  let account_pub_id := safe_key_public_id account_packet_id in
  let! updated_packet :=
    prepare_account_packet_update (acc_loc i) (acc i) (user_cred i) account_packet_id in
  let! message_id := map_err auth_from_core (with_cm new_message_id) in
  let request := UpdateLoginPacket updated_packet in
  let! payload := unwrap_result (serialize_request request message_id) in
  let signature := safe_key_sign account_packet_id payload in
  map_err auth_from_core
    (with_cm (cm_bootstrap account_packet_id) ;!
     let! resp := with_cm (cm_send account_pub_id (MsgRequest request message_id (Some signature))) in
     match resp with
     | RMutation res => data_result res
     | _ => fail (Unexpected "Unexpected response")
     end ;!
     with_cm (cm_disconnect account_pub_id)).
End auth_client.
Arguments Login {_ _ _ _} W.
Arguments Boot W : clear implicits.
