(* ===== verification/AuthLoginProofs.v ===== *)
(** Registration, login and the update of the account packet on the mock network:
    what is registered is what a login gives back, whatever the vault was asked by
    others in between, and an update replaces it. *)
From S2P Require Import Prelude EventLoop SafeNd SafeNdModel MockAccount MockVault.
From S2P Require Import MockVaultRequests MockVaultProcess MockVaultSpec.
From S2P Require Import MockVaultRefine MockVaultSafety MockVaultBehaviour MockVaultAccess.
From S2P Require Import CoreTypes ClientApi MockStore MockConnection MockShared.
From S2P Require Import MockClient Recovery MDataInfo MDataInfoProofs AuthTypes AppAuth AuthErrors.
From S2P Require Import RevocationMock AuthModel.
From S2P Require Import AccountPacket AuthLogin.

Section login_proofs.
Context `{ndt : !NdTypes, ndo : !NdOps, ndl : !NdLaws, host : !Host}.
Context `{core : !CoreExt, corel : !CoreExtLaws, lru : !LruOps}.
Context `{cr : !Crypto, crl : !CryptoLaws, auth : !AuthExt, aext : !AccountExt}.
Context `{aextl : !AccountExtLaws, sacc : !Serial Account, saccl : !SerialLaws Account}.
Context `{env : !StoreEnv, rnd : !RandomSource}.

Abbreviation nvault n := (lk_vault (vault n)).

Abbreviation returns m v Q := (wp m Q (fun _ _ => False) (fun _ => False) v).

(** * Requests of throw-away clients *)

(** The manager after a request that left the vault as [v']. *)
Definition answered (v' : Vault) (n : MockNet) : MockNet :=
  set_vault {| lk_vault := v'; lk_disk := lk_disk (vault n) |} (set_drawn (S (drawn n)) n).

Lemma signed_send_memory id request n resp v' payload :
  let key := SKClient id in
  let pk := client_public_key (client_full_public_id id) in
  let mid := message_id_at (drawn n) in
  in_memory n -> vault_wf (nvault n) -> serialize_request request mid = Ok payload ->
  dispatch (safe_key_public_id key) pk pk request (nvault n) = Ret resp v' ->
  forall n1, vault n1 = vault n -> request_hook n1 = None ->
  mock_send (safe_key_public_id key) (MsgRequest request mid (Some (safe_key_sign key payload))) n1 =
    Ret resp (set_vault {| lk_vault := v'; lk_disk := lk_disk (vault n) |} n1).
Proof.
  intros key pk mid [Hst _] Hwf Hser Hd n1 Hv1 Hh1.
  assert (authenticate_request (safe_key_public_id key) request mid
    (Some (safe_key_sign key payload)) (nvault n) = Ret (pk, pk) (nvault n)) as Ha.
  { apply authenticate_request_ok; [done|done|]. by apply (safe_key_sign_ok key). }
  assert (process_request (safe_key_public_id key)
    (MsgRequest request mid (Some (safe_key_sign key payload))) (nvault n) =
      Ret (MsgResponse resp mid) v') as Hp.
  { unfold process_request, bind, attempt. by rewrite Ha, Hd. }
  rewrite <-Hv1. apply (mock_send_memory _ _ n1 resp mid v').
  - split; [by rewrite Hv1|done].
  - destruct (process_request_frame (safe_key_public_id key)
      (MsgRequest request mid (Some (safe_key_sign key payload))) (nvault n) Hwf) as [Hst' _].
    rewrite Hp in Hst'. simpl in Hst'. congruence.
  - by rewrite Hv1.
Qed.

Lemma req_memory id request n resp v' :
  let pk := client_public_key (client_full_public_id id) in
  in_memory n -> vault_wf (nvault n) ->
  dispatch (PClient (client_full_public_id id)) pk pk request (nvault n) = Ret resp v' ->
  req request (SKClient id) n = Ret resp (answered v' n).
Proof.
  intros pk Hmem Hwf Hd. unfold req, bind. simpl.
  destruct (serialize_request_ok request (message_id_at (drawn n))) as [payload Hser].
  rewrite Hser. simpl.
  apply (signed_send_memory id request n resp v' payload Hmem Hwf Hser Hd); [done|apply Hmem].
Qed.

(** * What the vault keeps of an account *)

Definition packet_location (locator : bytes) : XorName :=
  let locator_hash := sha3_512 locator in
  MkXorName (derive_key 32 locator_hash (sha3_512 (drop (SHA3_512_HASH_LEN / 2) locator_hash))).

Definition credentials (locator password : bytes) : UserCred :=
  {| cred_pin := sha3_512 (drop (SHA3_512_HASH_LEN / 2) (sha3_512 locator));
     cred_password := sha3_512 password |}.

(** The key that owns the packet, known to whoever knows the locator. *)
Definition packet_id (loc : XorName) : ClientFullId := create_client_id (xor_name_0 loc).
Definition packet_key (loc : XorName) : PublicKey :=
  client_public_key (client_full_public_id (packet_id loc)).

(** The vault holds the account [a] at [loc], under the credentials. *)
Inductive holds_account (loc : XorName) (cred : UserCred) (a : Account) (v : Vault) : Prop :=
| HoldsAccount b p :
    account_encrypt a (cred_password cred) (cred_pin cred) = Ok b ->
    login_packets (cache v) !! loc = Some p ->
    login_authorised_getter p = packet_key loc -> login_data p = b ->
    login_signature p = client_sign (packet_id loc) b ->
    holds_account loc cred a v.

(** Every account, encrypted, fits into a login packet. *)
Definition accounts_fit (cred : UserCred) : Prop :=
  forall a b, account_encrypt a (cred_password cred) (cred_pin cred) = Ok b ->
    length b <= max_login_packet_bytes.

Lemma account_packet_for loc cred a :
  accounts_fit cred ->
  exists b p, account_encrypt a (cred_password cred) (cred_pin cred) = Ok b /\
    LoginPacket_new loc (packet_key loc) b (client_sign (packet_id loc) b) = Ok p /\
    login_destination p = loc /\
    forall v, login_packets (cache v) !! loc = Some p -> holds_account loc cred a v.
Proof.
  intros Hfit. destruct (account_roundtrip a (cred_password cred) (cred_pin cred)) as (b & Hb & _).
  destruct (login_packet_new_spec loc (packet_key loc) b (client_sign (packet_id loc) b))
    as (p & Hp & Hdest & Hget & Hdata & Hsig); [by eapply Hfit|].
  exists b, p. split_and!; [done..|]. intros v Hv. by apply (HoldsAccount _ _ _ _ b p).
Qed.

(** The packet is the business of its key: nobody else changes it. *)
Lemma holds_account_run loc cred a l v :
  vault_wf v -> holds_account loc cred a v ->
  Forall (fun m => ~ exists opk, keys_of m.1 (packet_key loc) opk) l ->
  holds_account loc cred a (run l v) /\ vault_wf (run l v).
Proof.
  intros Hwf Hold Hl.
  eapply (run_invariant _ l v (holds_account loc cred a)); [done|done|exact Hl|].
  intros r req mid sig pk opk v1 v2 Hno Hk _ [b p Hb Hp Hget Hdata Hsig] Hs.
  apply (HoldsAccount _ _ _ _ b p); [done| |done..]. eapply vault_step_packet; [|done..].
  rewrite Hget. intros <-. apply Hno. by exists opk.
Qed.

(** * Registration *)

Lemma create_login_packet_ok id p b v :
  let c := client_full_public_id id in
  coin_balances (cache v) !! xor_name_from (client_public_key c) = Some b ->
  (limited v -> (1 <= as_nano (value b))%Z) ->
  login_packets (cache v) !! login_destination p = None ->
  exists v', dispatch (PClient c) (client_public_key c) (client_public_key c) (CreateLoginPacket p) v =
      Ret (RMutation (Ok tt)) v' /\
    login_packets (cache v') = <[login_destination p := p]> (login_packets (cache v)) /\
    (~ limited v -> v' = set_login_packets (<[login_destination p := p]> (login_packets (cache v))) v) /\
    (limited v -> exists b', paid b b' /\
      coin_balances (cache v') = <[xor_name_from (client_public_key c) := b']> (coin_balances (cache v))).
Proof.
  intros c Hb Hle Hno. set (src := xor_name_from _) in *.
  assert (Hfund : ~ limited v \/ (1 <= as_nano (value b))%Z).
  { unfold limited in *. destruct (unlimited_coins _); [by left|right; auto]. }
  assert (Hpay : returns (commit_mutation src) v (fun _ v' => login_packets (cache v') = login_packets (cache v) /\
    (~ limited v -> v' = v) /\ (limited v -> exists b', paid b b' /\
      coin_balances (cache v') = <[src := b']> (coin_balances (cache v))))).
  { apply returns_commit_mutation; [|by intros Hun; split_and!|].
    - destruct Hfund; [by left|right; by exists b].
    - intros b0 b' Hlim Hb0 Hpaid. split_and!; [done|by intros []|]. intros _. exists b'. by simplify_eq. }
  apply returns_inv in Hpay as ([] & v1 & Hc & Hl1 & Hv1 & Hb1). destruct COST_OF_PUT_spec as (cost & Hcost & H1).
  assert (Hauth : authorise_operations [OpMutation] src (client_public_key c) v = Ret tt v).
  { apply authorise_operations_spec; [done|]. exists b. split; [done|]. constructor; [|constructor].
    split; [by left|]. by intros _. }
  eexists. split.
  - simpl. unfold handle_CreateLoginPacket, respond, bind, attempt. fold src. rewrite Hauth.
    unfold gets, get_login_packet. rewrite Hno. unfold MockVault.get_balance, bind, gets, get_coin_balance. rewrite Hb. simpl.
    rewrite Hcost. simpl. rewrite (proj2 (sufficient_spec _ _ _)) by (unfold balance; rewrite H1; auto).
    simpl. rewrite Hc. reflexivity.
  - split_and!; simpl; [by rewrite Hl1| |exact Hb1]. intros Hun. by rewrite (Hv1 Hun).
Qed.

Lemma client_keys_new_ret seed rng : exists k r, ClientKeys_new seed rng = Ret k r /\ rng <= r.
Proof.
  unfold ClientKeys_new, bind. destruct (gen_keypair_at rng). simpl.
  destruct seed; simpl; eexists _, _; (split; [done|lia]).
Qed.

Lemma account_new_ret k rng :
  exists a r, AccountPacket.Account_new k rng = Ret a r /\ maid_keys a = k /\ root_dirs_created a = false.
Proof. eexists _, _. split; [reflexivity|done]. Qed.

Lemma on_boot_rng_Ret {A} (m : M Rng CoreError A) a r s :
  m (boot_rng s) = Ret a r ->
  on_boot_rng (W := MockNet) m s = Ret a {| boot_cm := boot_cm s; boot_rng := r |}.
Proof. intros Hm. unfold on_boot_rng. by rewrite Hm. Qed.

Lemma on_cm_Ret {A} (m : M MockNet CoreError A) a w s :
  m (boot_cm s) = Ret a w -> on_cm m s = Ret a {| boot_cm := w; boot_rng := boot_rng s |}.
Proof. intros Hm. unfold on_cm. by rewrite Hm. Qed.

Lemma in_memory_groups g k n : in_memory n -> in_memory (set_groups g k n).
Proof. done. Qed.

(** What the manager is after a throw-away client has been served and the client of
    the session is connected. *)
Lemma dispatch_wf id request n resp v' :
  let pk := client_public_key (client_full_public_id id) in
  in_memory n -> vault_wf (nvault n) ->
  dispatch (PClient (client_full_public_id id)) pk pk request (nvault n) = Ret resp v' ->
  vault_wf v' /\ store v' = MemoryStore.
Proof.
  intros pk [Hst _] Hwf Hd. destruct (serialize_request_ok request (message_id_at 0)) as [payload Hser].
  set (msg := MsgRequest request (message_id_at 0) (Some (client_sign id payload))).
  assert (process_request (PClient (client_full_public_id id)) msg (nvault n) =
    Ret (MsgResponse resp (message_id_at 0)) v') as Hp.
  { unfold process_request, bind, attempt. simpl.
    erewrite (authenticate_request_ok _ _ _ _ _ pk pk);
      [|done|done|by apply (safe_key_sign_ok (SKClient id))]. by rewrite Hd. }
  split.
  - pose proof (process_request_wf (PClient (client_full_public_id id)) msg _ Hwf) as Hw.
    by rewrite Hp in Hw.
  - destruct (process_request_frame (PClient (client_full_public_id id)) msg _ Hwf) as [Hs _].
    rewrite Hp in Hs. simpl in Hs. congruence.
Qed.

(** A connection to the groups of one account, after one loss of the connection was
    reported. *)
Definition connected_after (a : Account) (n n' : MockNet) : Prop :=
  groups n' = {[ PClient (client_full_public_id (client_id (maid_keys a))) ]} /\ net_tx n' = net_tx n ++ [Disconnected].

(** A throw-away connection, and the one of the account after it. *)
Lemma connected_only (a : Account) tmp n n' :
  let g := ({[ tmp ]} ∪ groups n) ∖ {[ tmp ]} in
  groups n = ∅ ->
  groups n' = {[ PClient (client_full_public_id (client_id (maid_keys a))) ]} ∪ g ->
  net_tx n' = (if decide (g = ∅) then net_tx n ++ [Disconnected] else net_tx n) ->
  connected_after a n n'.
Proof.
  intros g Hg Hgr Htx. assert (g = ∅) as He by (unfold g; set_solver).
  split; [rewrite Hgr; set_solver|]. by rewrite Htx, decide_True.
Qed.

Lemma registered_stores locator password seed id n rng b :
  let loc := packet_location locator in
  let cred := credentials locator password in
  in_memory n -> vault_wf (nvault n) -> accounts_fit cred ->
  coin_balances (cache (nvault n)) !! xor_name_from (client_public_key (client_full_public_id id)) = Some b ->
  (limited (nvault n) -> (1 <= as_nano (value b))%Z) ->
  login_packets (cache (nvault n)) !! loc = None ->
  exists a s, registered_impl locator password id seed (fun cm => cm) {| boot_cm := n; boot_rng := rng |} =
      Ret {| login_inner := new_client_inner (boot_cm s);
             auth_inner := {| acc := a; acc_loc := loc; user_cred := cred |} |} s /\
    client_id (maid_keys a) = id /\ root_dirs_created a = false /\
    in_memory (boot_cm s) /\ vault_wf (nvault (boot_cm s)) /\
    holds_account loc cred a (nvault (boot_cm s)) /\
    (exists k r, rng <= r /\ AccountPacket.Account_new k r = Ret a (boot_rng s)) /\
    (~ limited (nvault n) -> exists p, nvault (boot_cm s) =
      set_login_packets (<[loc := p]> (login_packets (cache (nvault n)))) (nvault n)) /\
    (groups n = ∅ -> connected_after a n (boot_cm s)).
Proof.
  intros loc cred Hmem Hwf Hfit Hb Hle Hno.
  destruct (client_keys_new_ret seed rng) as (k & r1 & Hk & Hr1).
  destruct (account_new_ret (set_client_id id k) r1) as (a & r2 & Ha & Hak & Hdirs).
  destruct (account_packet_for loc cred a Hfit) as (ct & p & Hct & Hp & Hdest & Hheld).
  destruct (create_login_packet_ok id p b (nvault n) Hb Hle) as (v' & Hd & Hl' & Hv' & _); [by rewrite Hdest|].
  set (c := client_full_public_id id) in *.
  pose proof (in_memory_groups ({[ PClient c ]} ∪ groups n) (net_tx n) n Hmem) as Hmem'.
  destruct (dispatch_wf id (CreateLoginPacket p) n _ v' Hmem Hwf Hd) as [Hwf' Hst'].
  eexists a, _. split.
  - unfold registered_impl, derive_secrets, generate_network_id, core_try at 1.
    erewrite bind_Ret by reflexivity. fold (packet_location locator). fold loc.
    erewrite bind_Ret by (apply on_boot_rng_Ret; exact Hk).
    erewrite bind_Ret by (apply on_boot_rng_Ret; exact Ha). cbn [cred_password cred_pin].
    change (account_encrypt a _ _) with (account_encrypt a (cred_password cred) (cred_pin cred)).
    rewrite Hct. erewrite bind_Ret by reflexivity.
    change (LoginPacket_new loc _ _ _) with
      (LoginPacket_new loc (packet_key loc) ct (client_sign (packet_id loc) ct)). rewrite Hp.
    erewrite bind_Ret by reflexivity. erewrite bind_Ret by reflexivity.
    erewrite bind_Ret by reflexivity. cbn [boot_cm boot_rng].
    erewrite bind_Ret by (apply on_cm_Ret, req_memory; [exact Hmem'|exact Hwf|exact Hd]).
    erewrite bind_Ret by reflexivity. erewrite bind_Ret by reflexivity.
    erewrite bind_Ret by reflexivity. erewrite bind_Ret by reflexivity. reflexivity.
  - split_and!; [by rewrite Hak|done| | | | | |].
    + split; [exact Hst'|apply Hmem].
    + exact Hwf'.
    + apply Hheld. simpl. rewrite Hl', Hdest. apply lookup_insert_eq.
    + by exists (set_client_id id k), r1.
    + intros Hun. exists p. rewrite <-Hdest. exact (Hv' Hun).
    + intros Hg. by eapply connected_only; [exact Hg|rewrite Hak|].
Qed.

(** * Login and update *)

Lemma login_reads locator password a n rng :
  let loc := packet_location locator in
  let cred := credentials locator password in
  in_memory n -> vault_wf (nvault n) -> holds_account loc cred a (nvault n) ->
  exists s, login_impl locator password (fun routing => routing) {| boot_cm := n; boot_rng := rng |} =
      Ret {| login_inner := new_client_inner (boot_cm s);
             auth_inner := {| acc := a; acc_loc := loc; user_cred := cred |} |} s /\
    vault (boot_cm s) = vault n /\ request_hook (boot_cm s) = None /\ boot_rng s = rng /\
    (groups n = ∅ -> connected_after a n (boot_cm s)).
Proof.
  intros loc cred Hmem Hwf [ct p Hct Hp Hget Hdata Hsig].
  assert (Hd : dispatch (PClient (client_full_public_id (packet_id loc))) (packet_key loc)
    (packet_key loc) (GetLoginPacket loc) (nvault n) =
    Ret (RGetLoginPacket (Ok (ct, client_sign (packet_id loc) ct))) (nvault n)).
  { simpl. unfold handle_GetLoginPacket, respond, bind, attempt, gets, get_login_packet. rewrite Hp.
    rewrite decide_True by done. by rewrite <-Hdata at 1; rewrite Hdata, Hsig. }
  destruct (account_roundtrip a (cred_password cred) (cred_pin cred)) as (ct' & Hct' & Hdec).
  assert (ct' = ct) as -> by congruence. set (c := client_full_public_id (packet_id loc)) in *.
  pose proof (in_memory_groups ({[ PClient c ]} ∪ groups n) (net_tx n) n Hmem) as Hmem'.
  eexists. split.
  - unfold login_impl, derive_secrets, generate_network_id, core_try at 1.
    erewrite bind_Ret by reflexivity. fold (packet_location locator). fold loc.
    erewrite bind_Ret by reflexivity. erewrite bind_Ret by reflexivity. cbn [boot_cm boot_rng].
    erewrite bind_Ret by (apply on_cm_Ret, req_memory; [exact Hmem'|exact Hwf|exact Hd]).
    erewrite bind_Ret by reflexivity. erewrite bind_Ret by reflexivity.
    change (create_client_id (xor_name_0 loc)) with (packet_id loc).
    cbv beta iota. rewrite pk_verify_sign. erewrite bind_Ret by reflexivity. cbn [cred_password cred_pin].
    change (account_decrypt ct _ _) with (account_decrypt ct (cred_password cred) (cred_pin cred)).
    rewrite Hdec. erewrite bind_Ret by reflexivity. erewrite bind_Ret by reflexivity.
    erewrite bind_Ret by reflexivity. reflexivity.
  - split_and!; [simpl; by destruct (vault n)|apply Hmem|done|].
    intros Hg. by eapply connected_only.
Qed.

Lemma update_stores i a0 (s : ClientInner MockNet) :
  in_memory (connection_manager s) -> vault_wf (nvault (connection_manager s)) ->
  holds_account (acc_loc i) (user_cred i) a0 (nvault (connection_manager s)) ->
  accounts_fit (user_cred i) ->
  exists s', update_account_packet i s = Ret tt s' /\
    in_memory (connection_manager s') /\ vault_wf (nvault (connection_manager s')) /\
    holds_account (acc_loc i) (user_cred i) (acc i) (nvault (connection_manager s')) /\
    exists p, nvault (connection_manager s') =
      set_login_packets (<[acc_loc i := p]> (login_packets (cache (nvault (connection_manager s)))))
        (nvault (connection_manager s)).
Proof.
  intros Hmem Hwf [ct0 p0 _ Hp0 Hget0 _ _] Hfit. set (n := connection_manager s) in *.
  destruct (account_packet_for (acc_loc i) (user_cred i) (acc i) Hfit)
    as (ct & p & Hct & Hp & Hdest & Hheld).
  set (v' := set_login_packets (<[acc_loc i := p]> (login_packets (cache (nvault n)))) (nvault n)).
  assert (Hd : dispatch (PClient (client_full_public_id (packet_id (acc_loc i))))
    (packet_key (acc_loc i)) (packet_key (acc_loc i)) (UpdateLoginPacket p) (nvault n) =
    Ret (RMutation (Ok tt)) v').
  { simpl. unfold handle_UpdateLoginPacket, respond, bind, attempt, gets, get_login_packet.
    rewrite Hdest, Hp0, decide_True by done. unfold insert_login_packet, modify. by rewrite Hdest. }
  destruct (dispatch_wf _ _ n _ v' Hmem Hwf Hd) as [Hwf' Hst'].
  destruct (serialize_request_ok (UpdateLoginPacket p) (message_id_at (drawn n))) as [payload Hser].
  pose proof (signed_send_memory _ _ n _ v' payload Hmem Hwf Hser Hd) as Hsend.
  eexists. split.
  - unfold update_account_packet, prepare_account_packet_update.
    change (create_client_id (xor_name_0 (acc_loc i))) with (packet_id (acc_loc i)).
    rewrite Hct. erewrite bind_Ret.
    2: { erewrite bind_Ret by reflexivity. erewrite bind_Ret by reflexivity.
         change (LoginPacket_new _ _ _ _) with (LoginPacket_new (acc_loc i) (packet_key (acc_loc i)) ct
           (client_sign (packet_id (acc_loc i)) ct)). rewrite Hp. reflexivity. }
    erewrite bind_Ret by reflexivity. fold n. rewrite Hser. erewrite bind_Ret by reflexivity.
    unfold map_err, or_else. erewrite bind_Ret by reflexivity.
    unfold with_cm at 1. erewrite bind_Ret.
    2: { cbn [cm_send MockNetwork connection_manager set_cm]. fold n. rewrite Hsend; [reflexivity|done|apply Hmem]. }
    erewrite bind_Ret by reflexivity. reflexivity.
  - split_and!; [split; [exact Hst'|apply Hmem]|exact Hwf'| |by exists p].
    apply Hheld. simpl. apply lookup_insert_eq.
Qed.

(** C2: an account can be registered by whoever owns a coin balance that pays for it,
    and is then available by locator and password alone: after any session of
    requests that does not come from the key of the packet, on any connection, a login
    succeeds, leaves the vault as it is, and gives the session the very account,
    location and credentials the registration gave. *)
Theorem login_returns_account locator password id n rng b :
  let loc := packet_location (as_bytes locator) in
  in_memory n -> vault_wf (nvault n) ->
  accounts_fit (credentials (as_bytes locator) (as_bytes password)) ->
  coin_balances (cache (nvault n)) !! xor_name_from (client_public_key (client_full_public_id id)) = Some b ->
  (limited (nvault n) -> (1 <= as_nano (value b))%Z) ->
  login_packets (cache (nvault n)) !! loc = None ->
  exists account s, registered locator password id {| boot_cm := n; boot_rng := rng |} = Ret account s /\
    client_id (maid_keys (acc (auth_inner account))) = id /\
    forall l n' rng', request_hook n' = None ->
      store (nvault n') = MemoryStore -> nvault n' = run l (nvault (boot_cm s)) ->
      Forall (fun m => ~ exists opk, keys_of m.1 (packet_key loc) opk) l ->
      exists s', login locator password {| boot_cm := n'; boot_rng := rng' |} =
          Ret {| login_inner := new_client_inner (boot_cm s'); auth_inner := auth_inner account |} s' /\
        vault (boot_cm s') = vault n'.
Proof.
  intros loc Hmem Hwf Hfit Hb Hle Hno.
  destruct (registered_stores (as_bytes locator) (as_bytes password) None id n rng b Hmem Hwf Hfit Hb Hle Hno)
    as (a & s & Hreg & Hid & _ & Hmem1 & Hwf1 & Hheld & _).
  eexists _, s. split_and!; [exact Hreg|exact Hid|]. intros l n' rng' Hh Hst Hv Hl.
  destruct (login_reads (as_bytes locator) (as_bytes password) a n' rng') as (s' & Hlog & Hv' & _);
    [done|rewrite Hv; by eapply holds_account_run..|]. eauto.
Qed.

(** ** Accounts of a seed *)

(** What the account of a seed comes from: its first half, where each quarter of the
    seed is rounded down. *)
Definition seed_half (seed : string) : bytes :=
  take (2 * (length (as_bytes seed) / SEED_SUBPARTS)) (as_bytes seed).

Definition seed_locator (seed : string) : bytes := take (length (seed_half seed) / 2) (seed_half seed).
Definition seed_password (seed : string) : bytes := drop (length (seed_half seed) / 2) (seed_half seed).

Lemma divide_seed_ok seed :
  SEED_SUBPARTS <= length (as_bytes seed) ->
  exists arr, divide_seed seed = Ok arr /\
    arr !!! 0 = seed_locator seed /\
    arr !!! 1 = seed_password seed.
Proof.
  intros Hlen. unfold divide_seed. rewrite decide_False by lia. eexists. split; [reflexivity|].
  unfold seed_locator, seed_password, seed_half. set (b := as_bytes seed) in *. set (q := length b / SEED_SUBPARTS).
  assert (SEED_SUBPARTS * q <= length b) as Hq by (apply Nat.Div0.mul_div_le). unfold SEED_SUBPARTS in Hq.
  rewrite length_take, Nat.min_l by lia. rewrite Nat.mul_comm, Nat.div_mul by done. simpl.
  rewrite Nat.mul_1_r, Nat.mul_0_r, Nat.sub_0_r, drop_0. split.
  - rewrite take_take. f_equal. lia.
  - rewrite take_drop_commute. do 2 f_equal. lia.
Qed.

Lemma with_seed_ok seed id (s : Boot MockNet) :
  SEED_SUBPARTS <= length (as_bytes seed) ->
  registered_with_seed seed id s = registered_impl (seed_locator seed) (seed_password seed) id
    (Some (sha3_256 (as_bytes seed))) (fun cm => cm) s /\
  login_with_seed seed s = login_impl (seed_locator seed) (seed_password seed) (fun routing => routing) s.
Proof.
  intros Hlen. destruct (divide_seed_ok seed Hlen) as (arr & Harr & H0 & H1).
  unfold registered_with_seed, login_with_seed. rewrite Harr, <-H0, <-H1. done.
Qed.

(** The generator of the seed makes the signing keys, which [client_id_] replaces. *)
Lemma registered_impl_seed locator password id r r' f (b : Boot MockNet) :
  registered_impl locator password id (Some r) f b = registered_impl locator password id (Some r') f b.
Proof.
  assert (exists k k' r1, ClientKeys_new (Some r) (boot_rng b) = Ret k r1 /\
    ClientKeys_new (Some r') (boot_rng b) = Ret k' r1 /\ set_client_id id k = set_client_id id k')
    as (k & k' & r1 & Hk & Hk' & Heq).
  { unfold ClientKeys_new, bind. destruct (gen_keypair_at (boot_rng b)). by eexists _, _, _. }
  unfold registered_impl, derive_secrets, generate_network_id. erewrite bind_Ret by reflexivity.
  rewrite (bind_Ret _ _ _ _ _ (on_boot_rng_Ret _ _ _ b Hk)), Heq. symmetry. erewrite bind_Ret by reflexivity.
  by rewrite (bind_Ret _ _ _ _ _ (on_boot_rng_Ret _ _ _ b Hk')).
Qed.


(** [update_account_packet] replaces the account on the network by the one of the
    session: it succeeds, and every login after it, whatever others asked of the vault
    in between, gives the changed account back. *)
Theorem updated_account_returned locator password i a0 (s : ClientInner MockNet) :
  let cred := credentials (as_bytes locator) (as_bytes password) in
  in_memory (connection_manager s) -> vault_wf (nvault (connection_manager s)) ->
  acc_loc i = packet_location (as_bytes locator) -> user_cred i = cred -> accounts_fit cred ->
  holds_account (acc_loc i) cred a0 (nvault (connection_manager s)) ->
  exists s', update_account_packet i s = Ret tt s' /\
    forall l n' rng', request_hook n' = None ->
      store (nvault n') = MemoryStore -> nvault n' = run l (nvault (connection_manager s')) ->
      Forall (fun m => ~ exists opk, keys_of m.1 (packet_key (acc_loc i)) opk) l ->
      exists s1, login locator password {| boot_cm := n'; boot_rng := rng' |} =
        Ret {| login_inner := new_client_inner (boot_cm s1); auth_inner := i |} s1.
Proof.
  intros cred Hmem Hwf Hloc Hcred Hfit Hold. destruct i as [a loc cr0]. simpl in *. subst loc cr0.
  destruct (update_stores {| acc := a; acc_loc := packet_location (as_bytes locator); user_cred := cred |}
    a0 s Hmem Hwf Hold Hfit) as (s' & Hup & Hmem' & Hwf' & Hheld & _). simpl in Hheld.
  exists s'. split; [exact Hup|]. intros l n' rng' Hh Hst Hv Hl.
  destruct (login_reads (as_bytes locator) (as_bytes password) a n' rng') as (s1 & Hlog & _);
    [done|rewrite Hv; by eapply holds_account_run..|]. eauto.
Qed.

(** Without the packet of a registration, a login fails and nothing changes. *)
Lemma login_unknown_account locator password n rng :
  in_memory n -> vault_wf (nvault n) ->
  login_packets (cache (nvault n)) !! packet_location (as_bytes locator) = None ->
  exists s, login locator password {| boot_cm := n; boot_rng := rng |} =
      Fail (AuthSndError NoSuchLoginPacket) s /\ vault (boot_cm s) = vault n.
Proof.
  set (loc := packet_location _). intros Hmem Hwf Hno.
  assert (Hd : dispatch (PClient (client_full_public_id (packet_id loc))) (packet_key loc)
    (packet_key loc) (GetLoginPacket loc) (nvault n) =
    Ret (RGetLoginPacket (Err NoSuchLoginPacket)) (nvault n)).
  { simpl. unfold handle_GetLoginPacket, respond, bind, attempt, gets, get_login_packet. by rewrite Hno. }
  eexists. split.
  - unfold login, login_impl, derive_secrets, generate_network_id, core_try at 1.
    erewrite bind_Ret by reflexivity. fold (packet_location (as_bytes locator)). fold loc.
    erewrite bind_Ret by reflexivity. erewrite bind_Ret by reflexivity. cbn [boot_cm boot_rng].
    erewrite bind_Ret by (apply on_cm_Ret, req_memory; [by apply in_memory_groups|exact Hwf|exact Hd]).
    erewrite bind_Ret by reflexivity. reflexivity.
  - simpl. by destruct (vault n).
Qed.
End login_proofs.

(** * A concrete account *)

#[export] Instance ModelAccountExt : AccountExt := {|
  pbkdf2 input salt _ len := take len (input ++ salt ++ replicate len 0%Z);
  client_new_bls_at i := (Z.of_nat i : ClientFullId);
  client_new_bls_seeded seed := (Z.pos (encode seed) : ClientFullId);
  max_login_packet_bytes := 1000;
  LoginPacket_new loc pk data sig :=
    if decide (length data <= 1000) then
      Ok ({| lp_dest := loc; lp_getter := pk; lp_data := data; lp_sig := sig |} : LoginPacket)
    else Err ExceededSize;
  pk_verify pk sig _ := if ((sig : Z) =? pk)%Z then Ok tt else Err InvalidSignature;
|}.

#[export] Instance ModelAccountExtLaws : AccountExtLaws.
Proof.
  split.
  - intros. cbn [pbkdf2 ModelAccountExt]. rewrite length_take, !length_app, length_replicate. lia.
  - intros loc pk data sig Hlen. cbn [LoginPacket_new ModelAccountExt] in *.
    rewrite decide_True by done. by eexists.
  - intros id data. simpl. by rewrite Z.eqb_refl.
Qed.

Definition account_code : Type := Z * bytes * Z * Z * MDataInfo * MDataInfo * bool.
Definition account_to (a : Account) : account_code :=
  let k := maid_keys a in
  (client_id k : Z, ck_enc_key k, ck_enc_pk k : Z, ck_enc_sk k : Z,
   acc_access_container a, acc_config_root a, root_dirs_created a).
Definition account_of (t : account_code) : Account :=
  let '(i, k, p, s, ac, cr, d) := t in
  {| maid_keys := {| client_id := (i : ClientFullId); ck_enc_key := k; ck_enc_pk := (p : EncPublicKey);
                     ck_enc_sk := (s : EncSecretKey) |};
     acc_access_container := ac; acc_config_root := cr; root_dirs_created := d |}.

#[export] Instance SerialAccount : Serial Account := {|
  serialize_of a := serialize_of (Serial := countable_serial account_code) (account_to a);
  deserialize_of b := rmap account_of (deserialize_of (Serial := countable_serial account_code) b);
|}.
#[export] Instance SerialAccountLaws : SerialLaws Account.
Proof.
  intros a. eexists. split_and!; [done|done|]. simpl. rewrite decode_encode. by destruct a as [[]].
Qed.

Lemma ex_accounts_fit cred : accounts_fit cred.
Proof.
  intros a b Hb. unfold account_encrypt in Hb. cbn [rbind] in Hb.
  destruct (generate_crypto_keys (cred_password cred) (cred_pin cred)) as [[k n]|] eqn:Hk; [|done].
  destruct (crypto_keys_lengths _ _ _ _ Hk) as [Hlk Hln].
  assert (length (siv_seal k n [Z.pos (encode (account_to a))]) = 51) as Hlen.
  { cbn [siv_seal ModelCrypto]. unfold framed. cbn [length]. rewrite !length_app. cbn [length].
    rewrite length_app, Hlk, Hln. reflexivity. }
  assert (b = siv_seal k n [Z.pos (encode (account_to a))]) as -> by (by injection Hb as <-).
  rewrite Hlen. cbn [max_login_packet_bytes ModelAccountExt]. lia.
Qed.

Definition ex_user_id : ClientFullId := 1%Z.

Example login_returns_account_witness :
  exists account s, registered "alice" "secret" ex_user_id
      {| boot_cm := ex_auth_net; boot_rng := 0%nat |} = Ret account s /\
    client_id (maid_keys (acc (auth_inner account))) = ex_user_id /\
    forall l n' rng', request_hook n' = None ->
      store (lk_vault (vault n')) = MemoryStore ->
      lk_vault (vault n') = run l (lk_vault (vault (boot_cm s))) ->
      Forall (fun m => ~ exists opk, keys_of m.1 (packet_key (packet_location (as_bytes "alice"))) opk) l ->
      exists s', login "alice" "secret" {| boot_cm := n'; boot_rng := rng' |} =
          Ret {| login_inner := new_client_inner (boot_cm s'); auth_inner := auth_inner account |} s' /\
        vault (boot_cm s') = vault n'.
Proof.
  apply (login_returns_account "alice" "secret" ex_user_id ex_auth_net 0%nat (ex_balance 1 100)).
  - by split.
  - exact ex_auth_vault_wf.
  - apply ex_accounts_fit.
  - reflexivity.
  - intros _. simpl. lia.
  - reflexivity.
Defined.


Definition ex_user_account : Account :=
  {| maid_keys := {| client_id := ex_user_id; ck_enc_key := [5%Z];
                     ck_enc_pk := (2%Z : EncPublicKey); ck_enc_sk := (2%Z : EncSecretKey) |};
     acc_access_container := ex_access; acc_config_root := ex_config_dir; root_dirs_created := false |}.
Definition ex_cred : UserCred := credentials (as_bytes "alice") (as_bytes "secret").
Definition ex_loc : XorName := packet_location (as_bytes "alice").
Definition ex_ciphertext : bytes :=
  match account_encrypt ex_user_account (cred_password ex_cred) (cred_pin ex_cred) with
  | Ok b => b | Err _ => [] end.
Definition ex_login_packet : LoginPacket :=
  {| lp_dest := ex_loc; lp_getter := packet_id ex_loc; lp_data := ex_ciphertext;
     lp_sig := packet_id ex_loc |}.
Definition ex_login_vault : Vault :=
  set_login_packets (<[ex_loc := ex_login_packet]> ∅) ex_auth_vault.
Lemma ex_login_vault_wf : vault_wf ex_login_vault.
Proof.
  destruct ex_auth_vault_wf. split; try done. simpl. apply map_Forall_insert_2; [done|].
  apply map_Forall_empty.
Qed.

Definition ex_login_state : ClientInner MockNet :=
  new_client_inner (set_vault {| lk_vault := ex_login_vault; lk_disk := lk_disk (vault ex_auth_net) |}
                              ex_auth_net).

Example updated_account_returned_witness :
  let i := set_std_dirs_created true
             {| acc := ex_user_account; acc_loc := ex_loc; user_cred := ex_cred |} in
  exists s', update_account_packet i ex_login_state = Ret tt s' /\
    forall l n' rng', request_hook n' = None ->
      store (lk_vault (vault n')) = MemoryStore ->
      lk_vault (vault n') = run l (lk_vault (vault (connection_manager s'))) ->
      Forall (fun m => ~ exists opk, keys_of m.1 (packet_key (acc_loc i)) opk) l ->
      exists s1, login "alice" "secret" {| boot_cm := n'; boot_rng := rng' |} =
        Ret {| login_inner := new_client_inner (boot_cm s1); auth_inner := i |} s1.
Proof.
  apply (updated_account_returned "alice" "secret" _ ex_user_account ex_login_state).
  - by split.
  - exact ex_login_vault_wf.
  - reflexivity.
  - reflexivity.
  - apply ex_accounts_fit.
  - by apply (HoldsAccount _ _ _ _ ex_ciphertext ex_login_packet).
Defined.
