(* ===== verification/SelfEncryption.v ===== *)
(** Self-encrypted data: the storage of chunks
    ([safe_core/src/self_encryption_storage.rs]) and immutable data that holds values
    of any size ([safe_core/src/immutable_data.rs]).

    The chunking is that of the [self_encryption] crate.  [SelfEnc] holds its
    functions, over any storage; [SelfEncLaws] says that what was written to an
    encryptor is read back from its data map, over a storage that gives back what was
    put. *)
From S2P Require Import Prelude SafeNd SafeNdModel MockAccount CoreTypes ClientApi Recovery.
From S2P Require Import MDataInfo AuthTypes.

(** The trait [Storage], with the state [S] its futures run in. *)
Record Storage `{!NdTypes, !CoreExt} (S : Type) := {
  st_get : bytes -> M S CoreError bytes;
  st_put : bytes -> bytes -> M S CoreError unit;
  st_generate_address : bytes -> bytes;
}.
Arguments st_get {_ _ S} _ _.
Arguments st_put {_ _ S} _ _ _.
Arguments st_generate_address {_ _ S} _ _.

(** [SelfEncryptor], [SequentialEncryptor] and [DataMap]. *)
Class SelfEnc `{!NdTypes, !CoreExt} := {
  DataMap : Type;
  data_map_none : DataMap;
  Encryptor : Type;
  enc_new : DataMap -> result Encryptor SelfEncryptionError;
  enc_len : Encryptor -> Z;
  enc_write {S} : Storage S -> Encryptor -> bytes -> Z -> M S SelfEncryptionError Encryptor;
  enc_read {S} : Storage S -> Encryptor -> Z -> Z -> M S SelfEncryptionError bytes;
  enc_close {S} : Storage S -> Encryptor -> M S SelfEncryptionError DataMap;
  SeqEncryptor : Type;
  seq_new {S} : Storage S -> option DataMap -> M S SelfEncryptionError SeqEncryptor;
  seq_len : SeqEncryptor -> Z;
  seq_write {S} : Storage S -> SeqEncryptor -> bytes -> M S SelfEncryptionError SeqEncryptor;
  seq_close {S} : Storage S -> SeqEncryptor -> M S SelfEncryptionError DataMap;
}.

(** The methods of immutable data of [safe_nd] that only these files use. *)
Class IDataExt `{!NdTypes} := {
  pub_idata_new : bytes -> PubImmutableData;
  unpub_idata_new : bytes -> PublicKey -> UnpubImmutableData;
  idata_value : IData -> bytes;
  idata_validate_size : IData -> bool;
}.

Definition idata_is_pub `{!NdTypes} (d : IData) : bool :=
  match d with IDPub _ => true | IDUnpub _ => false end.

Definition idata_name `{!NdTypes, !NdOps} (d : IData) : XorName :=
  match idata_address d with IPub name | IUnpub name => name end.

(** What a storage that can be relied on does, in the states [Inv], as they evolve by
    [le]: it takes data under its own address, and gives it back from then on. *)
Record reliable `{!NdTypes, !CoreExt} {S} (st : Storage S) (Inv : S -> Prop)
    (le : S -> S -> Prop) : Prop := {
  rel_preorder : PreOrder le;
  rel_put data s : Inv s -> exists s', st_put st (st_generate_address st data) data s = Ret tt s' /\
    Inv s' /\ le s s' /\
    forall s1, Inv s1 -> le s' s1 ->
      exists s2, st_get st (st_generate_address st data) s1 = Ret data s2 /\ Inv s2 /\ le s1 s2;
}.

(** [dm] stands for [value] in the states that evolve from [s]: an encryptor over it
    has the length of the value and reads every part of it. *)
Definition maps_to `{!NdTypes, !CoreExt, !SelfEnc} {S} (st : Storage S) (Inv : S -> Prop)
    (le : S -> S -> Prop) (dm : DataMap) (value : bytes) (s : S) : Prop :=
  exists e, enc_new dm = Ok e /\ enc_len e = Z.of_nat (length value) /\
    forall s1 pos len, Inv s1 -> le s s1 -> pos + len <= length value ->
      exists s2, enc_read st e (Z.of_nat pos) (Z.of_nat len) s1 =
          Ret (take len (drop pos value)) s2 /\ Inv s2 /\ le s1 s2.

Class SelfEncLaws `{!NdTypes, !CoreExt, !SelfEnc} := {
  enc_new_none : exists e, enc_new data_map_none = Ok e;
  enc_write_close {S} (st : Storage S) Inv le e value s :
    reliable st Inv le -> enc_new data_map_none = Ok e -> Inv s ->
    exists e' s1 dm s2, enc_write st e value 0 s = Ret e' s1 /\
      enc_close st e' s1 = Ret dm s2 /\ Inv s2 /\ le s s2 /\ maps_to st Inv le dm value s2;
}.

(** A sequential encryptor stands for what was written to it, after what the data map
    it started from stands for. *)
Class SeqEncLaws `{!NdTypes, !CoreExt, !SelfEnc} := {
  seq_holds {S} : Storage S -> (S -> Prop) -> (S -> S -> Prop) -> SeqEncryptor -> bytes -> S -> Prop;
  seq_new_ok {S} (st : Storage S) Inv le start value s :
    reliable st Inv le -> Inv s ->
    match start with None => value = [] | Some dm => maps_to st Inv le dm value s end ->
    exists q s', seq_new st start s = Ret q s' /\ Inv s' /\ le s s' /\ seq_holds st Inv le q value s';
  seq_write_ok {S} (st : Storage S) Inv le q value data s :
    reliable st Inv le -> Inv s -> seq_holds st Inv le q value s ->
    exists q' s', seq_write st q data s = Ret q' s' /\ Inv s' /\ le s s' /\
      seq_holds st Inv le q' (value ++ data) s';
  seq_len_ok {S} (st : Storage S) Inv le q value s :
    seq_holds st Inv le q value s -> seq_len q = Z.of_nat (length value);
  seq_close_ok {S} (st : Storage S) Inv le q value s :
    reliable st Inv le -> Inv s -> seq_holds st Inv le q value s ->
    exists dm s', seq_close st q s = Ret dm s' /\ Inv s' /\ le s s' /\ maps_to st Inv le dm value s';
}.

Section idata.
Context `{ndt : !NdTypes, ndo : !NdOps, core : !CoreExt, lru : !LruOps, cr : !Crypto}.
Context `{auth : !AuthExt, se : !SelfEnc, ide : !IDataExt}.
Context {W : Type} `{net : !Network W}.
Context (client : Client).

Abbreviation S := (AuthState (W := W)).

(** * [SelfEncryptionStorage] *)

Definition storage_idata (published : bool) (data : bytes) : IData :=
  if published then IDPub (pub_idata_new data)
  else IDUnpub (unpub_idata_new data (public_key client)).

Definition storage_get (published : bool) (name : bytes) : M S CoreError bytes :=
  if negb (length name =? 32) then fail (Unexpected "Requested `name` is incorrect size.")
  else
    let name := MkXorName name in
    let address := if published then IPub name else IUnpub name in
    let! data := on_inner (get_idata client address) in
    ret (idata_value data).

Definition storage_put (published : bool) (_ data : bytes) : M S CoreError unit :=
  on_inner (put_idata client (storage_idata published data)).

Definition storage_generate_address (published : bool) (data : bytes) : bytes :=
  xor_name_0 (idata_name (storage_idata published data)).

Definition SelfEncryptionStorage (published : bool) : Storage S :=
  {| st_get := storage_get published; st_put := storage_put published;
     st_generate_address := storage_generate_address published |}.

(** [map_err(From::from)] on the errors of the encryptors. *)
Definition core_self_encryption {A} (m : M S SelfEncryptionError A) : M S CoreError A :=
  map_err SelfEncryption m.
Definition core_self_encryption_r {A} (r : result A SelfEncryptionError) : M S CoreError A :=
  match r with Ok a => ret a | Err e => fail (SelfEncryption e) end.

(** * [immutable_data] *)

Inductive DataTypeEncoding := Serialised (b : bytes) | DTDataMap (m : DataMap).

Context `{sdm : !Serial DataMap, sdt : !Serial DataTypeEncoding, sid : !Serial IData}.

(** A new encryptor, one write of everything, and its data map. *)
Definition encrypt_all (published : bool) (value : bytes) : M S CoreError DataMap :=
  let storage := SelfEncryptionStorage published in
  let! self_encryptor := core_self_encryption_r (enc_new data_map_none) in
  core_self_encryption
    (let! self_encryptor := enc_write storage self_encryptor value 0 in
     enc_close storage self_encryptor).

(** The recursion ends when the data fits; the fuel bounds it. *)
Fixpoint pack (fuel : nat) (value : bytes) (published : bool) : M S CoreError IData :=
  match fuel with
  | O => fun s => Pending s
  | Datatypes.S fuel =>
      let data := storage_idata published value in
      let! serialised_data := lift_result (from_serialisation (serialize_of data)) in
      if negb (idata_validate_size data) then
        let! data_map := encrypt_all published serialised_data in
        let! value := lift_result (from_serialisation (serialize_of (DTDataMap data_map))) in
        pack fuel value published
      else ret data
  end.

Definition create (fuel : nat) (value : bytes) (published : bool)
    (encryption_key : option SymEncKey) : M S CoreError IData :=
  let! data_map := encrypt_all published value in
  let! serialised_data_map := lift_result (from_serialisation (serialize_of data_map)) in
  let! value :=
    match encryption_key with
    | Some key =>
        let! cipher_text := on_rng (symmetric_encrypt serialised_data_map key None) in
        lift_result (from_serialisation (serialize_of (Serialised cipher_text)))
    | None => lift_result (from_serialisation (serialize_of (Serialised serialised_data_map)))
    end in
  pack fuel value published.

(** Everything an encryptor over the data map reads. *)
Definition decrypt_all (published : bool) (data_map : DataMap) : M S CoreError bytes :=
  let storage := SelfEncryptionStorage published in
  let! self_encryptor := core_self_encryption_r (enc_new data_map) in
  let length_ := enc_len self_encryptor in
  core_self_encryption (enc_read storage self_encryptor 0 length_).

Fixpoint unpack (fuel : nat) (data : IData) : M S CoreError bytes :=
  match fuel with
  | O => fun s => Pending s
  | Datatypes.S fuel =>
      let published := idata_is_pub data in
      let! encoding := lift_result (from_serialisation (deserialize_of (idata_value data))) in
      match encoding with
      | Serialised value => ret value
      | DTDataMap data_map =>
          let! serialised_data := decrypt_all published data_map in
          let! data := lift_result (from_serialisation (deserialize_of serialised_data)) in
          unpack fuel data
      end
  end.

Definition extract_value (fuel : nat) (data : IData) (decryption_key : option SymEncKey) :
    M S CoreError bytes :=
  let published := idata_is_pub data in
  let! value := unpack fuel data in
  let! data_map :=
    match decryption_key with
    | Some key =>
        let! plain_text := lift_result (symmetric_decrypt value key) in
        lift_result (from_serialisation (deserialize_of plain_text))
    | None => lift_result (from_serialisation (deserialize_of value))
    end in
  decrypt_all published data_map.

Definition get_value (fuel : nat) (address : IDataAddress) (decryption_key : option SymEncKey) :
    M S CoreError bytes :=
  let! data := on_inner (get_idata client address) in
  extract_value fuel data decryption_key.
End idata.
