(* ===== verification/SelfEncryptionProofs.v ===== *)
(** Values of any size in immutable data: what [create] makes, [extract_value] gives
    back, over any network that keeps immutable data. *)
From S2P Require Import Prelude SafeNd SafeNdModel MockAccount CoreTypes ClientApi Recovery.
From S2P Require Import MDataInfo AuthTypes SelfEncryption.

(** What is relied upon of immutable data: it holds its value, and has a name of 32
    bytes. *)
Class IDataLaws `{!NdTypes, !NdOps, !IDataExt} := {
  pub_idata_value b : idata_value (IDPub (pub_idata_new b)) = b;
  unpub_idata_value b pk : idata_value (IDUnpub (unpub_idata_new b pk)) = b;
  unpub_idata_owner_new b pk : unpub_idata_owner (unpub_idata_new b pk) = pk;
  pub_idata_address b : exists n, length n = 32 /\
    idata_address (IDPub (pub_idata_new b)) = IPub (MkXorName n);
  unpub_idata_address b pk : exists n, length n = 32 /\
    idata_address (IDUnpub (unpub_idata_new b pk)) = IUnpub (MkXorName n);
}.

Section idata_proofs.
Context `{ndt : !NdTypes, ndo : !NdOps, core : !CoreExt, lru : !LruOps}.
Context `{cr : !Crypto, auth : !AuthExt}.
Context `{se : !SelfEnc, ide : !IDataExt, idl : !IDataLaws}.
Context {W : Type} `{net : !Network W}.
Context (client : Client) (published : bool).

Abbreviation S := (AuthState (W := W)).
Implicit Types (s : S) (value : bytes).

(** * Networks that keep immutable data *)

(** In the states [Inv], as they evolve by [le], the client can put the immutable data
    of its storage, and get it from then on.  Draws of the generator are part of the
    evolution. *)
Record keeps_idata (Inv : S -> Prop) (le : S -> S -> Prop) : Prop := {
  keeps_preorder : PreOrder le;
  keeps_rng s r : Inv s -> Inv (set_auth_rng r s) /\ le s (set_auth_rng r s);
  keeps_put value s : Inv s ->
    let d := storage_idata client published value in
    exists s', on_inner (put_idata client d) s = Ret tt s' /\ Inv s' /\ le s s' /\
      forall s1, Inv s1 -> le s' s1 ->
        exists s2, on_inner (get_idata client (idata_address d)) s1 = Ret d s2 /\ Inv s2 /\ le s1 s2;
}.

Lemma storage_idata_value value : idata_value (storage_idata client published value) = value.
Proof. unfold storage_idata. destruct published; [apply pub_idata_value|apply unpub_idata_value]. Qed.

Lemma storage_idata_is_pub value : idata_is_pub (storage_idata client published value) = published.
Proof. unfold storage_idata. by destruct published. Qed.

Lemma storage_idata_address value :
  exists n, length n = 32 /\ storage_generate_address client published value = n /\
    idata_address (storage_idata client published value) =
      if published then IPub (MkXorName n) else IUnpub (MkXorName n).
Proof.
  unfold storage_generate_address, storage_idata, idata_name. destruct published.
  - destruct (pub_idata_address value) as (n & Hn & ->). by exists n.
  - destruct (unpub_idata_address value (public_key client)) as (n & Hn & ->). by exists n.
Qed.

Context (Inv : S -> Prop) (le : S -> S -> Prop) (Hkeeps : keeps_idata Inv le).

#[local] Instance le_preorder : PreOrder le := keeps_preorder _ _ Hkeeps.

Lemma storage_reliable : reliable (SelfEncryptionStorage client published) Inv le.
Proof.
  split; [apply le_preorder|]. intros data s Hs.
  destruct (keeps_put _ _ Hkeeps data s Hs) as (s' & Hput & Hs' & Hle & Hget).
  exists s'. split_and!; [exact Hput|done|done|]. intros s1 Hs1 Hle1.
  destruct (Hget s1 Hs1 Hle1) as (s2 & Hg & Hs2 & Hle2). exists s2. split_and!; [|done|done].
  simpl. destruct (storage_idata_address data) as (n & Hn & -> & Haddr).
  unfold storage_get. rewrite Hn. simpl. rewrite <-Haddr, (bind_Ret _ _ _ _ _ Hg).
  by rewrite storage_idata_value.
Qed.

(** * Encryption of everything *)

Context `{sel : !SelfEncLaws}.
Abbreviation st := (SelfEncryptionStorage client published).

(** [dm] is what the encryption of [value] can end in. *)
Definition encrypts_to (value : bytes) (dm : DataMap) : Prop :=
  exists e e' s s1 s2, enc_new data_map_none = Ok e /\ enc_write st e value 0 s = Ret e' s1 /\
    enc_close st e' s1 = Ret dm s2.

Lemma encrypt_all_ok value s :
  Inv s -> exists dm s', encrypt_all client published value s = Ret dm s' /\ Inv s' /\ le s s' /\
    maps_to st Inv le dm value s' /\ encrypts_to value dm.
Proof.
  intros Hs. destruct enc_new_none as [e He].
  destruct (enc_write_close st Inv le e value s storage_reliable He Hs)
    as (e' & s1 & dm & s2 & Hw & Hc & Hs2 & Hle & Hm).
  exists dm, s2. split_and!; [|done..|by exists e, e', s, s1, s2].
  unfold encrypt_all. rewrite He. simpl. unfold core_self_encryption, map_err, or_else.
  rewrite (bind_Ret _ _ _ _ _ eq_refl). by rewrite (bind_Ret _ _ _ _ _ Hw), Hc.
Qed.

Lemma maps_to_later dm value s s' :
  le s s' -> maps_to st Inv le dm value s -> maps_to st Inv le dm value s'.
Proof.
  intros Hle (e & He & Hlen & Hread). exists e. split_and!; [done..|].
  intros s1 pos len Hs1 Hle1 Hrange. apply Hread; [done|by trans s'|done].
Qed.

Lemma decrypt_all_ok dm value s :
  maps_to st Inv le dm value s -> Inv s ->
  exists s', decrypt_all client published dm s = Ret value s' /\ Inv s' /\ le s s'.
Proof.
  intros (e & He & Hlen & Hread) Hs.
  destruct (Hread s 0 (length value) Hs) as (s' & Hr & Hs' & Hle); [done|lia|].
  exists s'. split_and!; [|done|done]. unfold decrypt_all. rewrite He. simpl.
  rewrite (bind_Ret _ _ _ _ _ eq_refl). rewrite Hlen. unfold core_self_encryption, map_err, or_else.
  change (Z.of_nat 0) with 0%Z in Hr. rewrite Hr. by rewrite drop_0, firstn_all.
Qed.

(** * Packing *)

Context `{sdm : !Serial DataMap, sdml : !SerialLaws DataMap}.
Context `{sdt : !Serial DataTypeEncoding, sdtl : !SerialLaws DataTypeEncoding}.
Context `{sid : !Serial IData, sidl : !SerialLaws IData}.

(** The data map of data that is too large is smaller than the data. *)
Definition data_maps_shrink : Prop :=
  forall value ser dm v, idata_validate_size (storage_idata client published value) = false ->
    serialize_of (storage_idata client published value) = Ok ser -> encrypts_to ser dm ->
    serialize_of (DTDataMap dm) = Ok v -> length v < length value.

(** [unpack] of data that holds [v] gives [b], in the states that evolve from [s]. *)
Definition unpacks (fuel : nat) (v b : bytes) (s : S) : Prop :=
  forall d s1, idata_value d = v -> idata_is_pub d = published -> Inv s1 -> le s s1 ->
    exists s2, unpack client fuel d s1 = Ret b s2 /\ Inv s2 /\ le s1 s2.

Lemma unpacks_serialised fuel v b s :
  deserialize_of v = Ok (Serialised b) -> unpacks (Datatypes.S fuel) v b s.
Proof.
  intros Hv d s1 Hd _ Hs1 Hle. exists s1. split_and!; [|done|done]. simpl. by rewrite Hd, Hv.
Qed.

Lemma unpacks_data_map fuel v dm v' b s :
  deserialize_of v = Ok (DTDataMap dm) ->
  (exists ser, serialize_of (storage_idata client published v') = Ok ser /\
    deserialize_of ser = Ok (storage_idata client published v') /\ maps_to st Inv le dm ser s) ->
  unpacks fuel v' b s -> unpacks (Datatypes.S fuel) v b s.
Proof.
  intros Hv (ser & _ & Hdes & Hm) Hun d s1 Hd Hpub Hs1 Hle.
  destruct (decrypt_all_ok dm ser s1) as (s2 & Hdec & Hs2 & Hle2); [by eapply maps_to_later|done|].
  destruct (Hun (storage_idata client published v') s2) as (s3 & Hu & Hs3 & Hle3);
    [apply storage_idata_value|apply storage_idata_is_pub|done|by trans s1|].
  exists s3. split_and!; [|done|by trans s2].
  cbn [unpack]. rewrite Hd, Hv, Hpub. cbn [from_serialisation]. rewrite bind_lift_ok.
  rewrite (bind_Ret _ _ _ _ _ Hdec), Hdes. cbn [from_serialisation]. by rewrite bind_lift_ok.
Qed.

Lemma unpack_mono k n d s b s' :
  unpack client k d s = Ret b s' -> unpack client (k + n) d s = Ret b s'.
Proof.
  revert d s. induction k as [|k IH]; intros d s; [done|]. simpl.
  unfold bind at 1 4. destruct (lift_result _ s) as [[v|dm] s1|e s1|s1|s1]; try done.
  unfold bind at 1 3. destruct (decrypt_all _ _ _ s1) as [ser s2|e s2|s2|s2]; try done.
  unfold bind. destruct (lift_result _ s2) as [d' s3|e s3|s3|s3]; try done. apply IH.
Qed.

Lemma unpacks_mono k n v b s : unpacks k v b s -> unpacks (k + n) v b s.
Proof.
  intros Hun d s1 Hd Hpub Hs1 Hle. destruct (Hun d s1 Hd Hpub Hs1 Hle) as (s2 & Hu & Hrest).
  exists s2. split; [|done]. by apply unpack_mono.
Qed.

(** Packing ends, within as many rounds as the value has bytes, in data that fits, and
    that unpacks to what the value was the encoding of. *)
Lemma pack_ok value fuel s :
  data_maps_shrink -> Inv s -> length value < fuel ->
  exists v s', pack client fuel value published s = Ret (storage_idata client published v) s' /\
    idata_validate_size (storage_idata client published v) = true /\ Inv s' /\ le s s' /\
    forall b k, unpacks k value b s' -> unpacks (k + fuel) v b s'.
Proof.
  intros Hshrink. revert value s. induction fuel as [|fuel IH]; intros value s Hs Hlen; [lia|].
  cbn [pack]. destruct (serial_roundtrip (storage_idata client published value)) as (ser & Hser & _ & Hdes).
  rewrite Hser. cbn [from_serialisation]. rewrite bind_lift_ok.
  destruct (idata_validate_size (storage_idata client published value)) eqn:Hsize; cbn [negb].
  { exists value, s. split_and!; [done..|]. intros b k. apply unpacks_mono. }
  destruct (encrypt_all_ok ser s Hs) as (dm & s1 & Henc & Hs1 & Hle1 & Hm & Hto).
  rewrite (bind_Ret _ _ _ _ _ Henc).
  destruct (serial_roundtrip (DTDataMap dm)) as (v1 & Hv1 & _ & Hd1). rewrite Hv1.
  cbn [from_serialisation]. rewrite bind_lift_ok.
  pose proof (Hshrink value ser dm v1 Hsize Hser Hto Hv1) as Hlt.
  destruct (IH v1 s1 Hs1) as (v & s' & Hpack & Hfit & Hs' & Hle' & Hun); [lia|].
  exists v, s'. split_and!; [done|done|done|by trans s1|]. intros b k Hk.
  replace (k + Datatypes.S fuel) with (Datatypes.S k + fuel) by lia. apply Hun.
  eapply unpacks_data_map; [done| |done]. exists ser. split_and!; [done|done|by eapply maps_to_later].
Qed.

(** * [create] and [extract_value] *)

Lemma get_value_mono k n addr key s b s' :
  get_value client k addr key s = Ret b s' -> get_value client (k + n) addr key s = Ret b s'.
Proof.
  unfold get_value, extract_value. unfold bind at 1 5. destruct (on_inner _ s) as [d s1|e s1|s1|s1]; try done.
  unfold bind at 1 4. destruct (unpack client k d s1) as [v s2|e s2|s2|s2] eqn:Hu; try done.
  by rewrite (unpack_mono k n d s1 v s2 Hu).
Qed.

Context `{crl : !CryptoLaws}.

(** The value that [create] packs, and how [extract_value] reads it. *)
Lemma sealed_data_map dm (key : option SymEncKey) s :
  Inv s ->
  exists v b s', Inv s' /\ le s s' /\ deserialize_of v = Ok (Serialised b) /\
    (let! ser := lift_result (from_serialisation (serialize_of dm)) in
     match key with
     | Some key =>
         let! cipher_text := on_rng (symmetric_encrypt ser key None) in
         lift_result (from_serialisation (serialize_of (Serialised cipher_text)))
     | None => lift_result (from_serialisation (serialize_of (Serialised ser)))
     end) s = Ret v s' /\
    forall s1, (match key with
      | Some key =>
          let! plain_text := lift_result (symmetric_decrypt b key) in
          lift_result (from_serialisation (deserialize_of plain_text))
      | None => lift_result (from_serialisation (deserialize_of b))
      end : M S CoreError DataMap) s1 = Ret dm s1.
Proof.
  intros Hs. destruct (serial_roundtrip dm) as (ser & Hser & _ & Hdes). destruct key as [key|].
  - set (nonce := random_bytes_at (auth_rng s) SYM_ENC_NONCE_LEN).
    destruct (sym_roundtrip {| enc_nonce := nonce; enc_cipher_text := siv_seal key nonce ser |})
      as (ct & Hct & Hdct).
    destruct (serial_roundtrip (Serialised ct)) as (v & Hv & _ & Hdv).
    destruct (keeps_rng _ _ Hkeeps s (Datatypes.S (auth_rng s)) Hs) as [Hs' Hle].
    exists v, ct, (set_auth_rng (Datatypes.S (auth_rng s)) s). split_and!; [done..| |].
    + rewrite Hser. cbn [from_serialisation]. rewrite bind_lift_ok. erewrite bind_Ret; [by rewrite Hv|].
      unfold on_rng, symmetric_encrypt, generate_nonce, random_bytes, symmetric_encrypt_with, bind.
      fold nonce. rewrite Hct. reflexivity.
    + intros s1. unfold symmetric_decrypt. rewrite Hdct. simpl. rewrite siv_open_seal. cbn [ok_or_r].
      rewrite bind_lift_ok. by rewrite Hdes.
  - destruct (serial_roundtrip (Serialised ser)) as (v & Hv & _ & Hdv).
    exists v, ser, s. split_and!; [done..| |].
    + rewrite Hser. cbn [from_serialisation]. rewrite bind_lift_ok. by rewrite Hv.
    + intros s1. by rewrite Hdes.
Qed.

Lemma pack_mono k n value s d s' :
  pack client k value published s = Ret d s' -> pack client (k + n) value published s = Ret d s'.
Proof.
  revert value s. induction k as [|k IH]; intros value s; [done|]. cbn [pack Nat.add].
  unfold bind at 1 4. destruct (lift_result _ s) as [ser s1|e s1|s1|s1]; try done.
  destruct (idata_validate_size _); cbn [negb]; [done|].
  unfold bind at 1 3. destruct (encrypt_all _ _ _ s1) as [dm s2|e s2|s2|s2]; try done.
  unfold bind. destruct (lift_result _ s2) as [v s3|e s3|s3|s3]; try done. apply IH.
Qed.

Lemma create_extract value key s :
  data_maps_shrink -> Inv s ->
  exists F v s', idata_validate_size (storage_idata client published v) = true /\ Inv s' /\ le s s' /\
    forall fuel, F <= fuel ->
      create client fuel value published key s = Ret (storage_idata client published v) s' /\
      forall s1, Inv s1 -> le s' s1 ->
        exists s2, extract_value client fuel (storage_idata client published v) key s1 = Ret value s2 /\
          Inv s2 /\ le s1 s2.
Proof.
  intros Hshrink Hs. destruct (encrypt_all_ok value s Hs) as (dm & s1 & Henc & Hs1 & Hle1 & Hm & _).
  destruct (sealed_data_map dm key s1 Hs1) as (v0 & b & s2 & Hs2 & Hle2 & Hv0 & Hseal & Hopen).
  destruct (pack_ok v0 (Datatypes.S (length v0)) s2 Hshrink Hs2) as
    (v & s' & Hpack & Hfit & Hs' & Hle' & Hun); [lia|].
  specialize (Hun b 1 (unpacks_serialised 0 v0 b s' Hv0)).
  exists (1 + Datatypes.S (length v0)), v, s'. split_and!; [done|done|by trans s1; [|trans s2]|].
  intros fuel HF. split.
  - unfold create. rewrite (bind_Ret _ _ _ _ _ Henc). unfold bind in Hseal |- *.
    destruct (lift_result (from_serialisation (serialize_of dm)) s1) as [ser s3|? ?|?|?]; try done.
    rewrite Hseal. replace fuel with (Datatypes.S (length v0) + (fuel - Datatypes.S (length v0))) by lia.
    by apply pack_mono.
  - intros s3 Hs3 Hle3.
    destruct (unpacks_mono _ (fuel - (1 + Datatypes.S (length v0))) _ _ _ Hun
      (storage_idata client published v) s3) as (s4 & Hu & Hs4 & Hle4);
      [apply storage_idata_value|apply storage_idata_is_pub|done..|].
    destruct (decrypt_all_ok dm value s4) as (s5 & Hdec & Hs5 & Hle5);
      [|done|exists s5; split_and!; [|done|by trans s4]].
    { eapply maps_to_later; [|exact Hm]. trans s2; [done|]. trans s'; [done|]. by trans s3. }
    unfold extract_value. rewrite storage_idata_is_pub. rewrite Nat.add_sub_assoc in Hu by lia.
    replace (1 + Datatypes.S (length v0) + fuel - (1 + Datatypes.S (length v0))) with fuel in Hu by lia.
    rewrite (bind_Ret _ _ _ _ _ Hu). by rewrite (bind_Ret _ _ _ _ _ (Hopen s4)).
Qed.

(** C18: immutable data holds values of any size.  Whatever the value and the key,
    [create] ends in data of an acceptable size, and from then on [extract_value] with
    the same key gives the value back, as does [get_value] once the data is stored. *)
Theorem idata_roundtrip value key s :
  data_maps_shrink -> Inv s ->
  exists F d s', idata_validate_size d = true /\ idata_is_pub d = published /\ Inv s' /\ le s s' /\
    forall fuel, F <= fuel ->
      create client fuel value published key s = Ret d s' /\
      (forall s1, Inv s1 -> le s' s1 ->
         exists s2, extract_value client fuel d key s1 = Ret value s2 /\ Inv s2 /\ le s1 s2) /\
      exists s1, on_inner (put_idata client d) s' = Ret tt s1 /\ Inv s1 /\ le s' s1 /\
        forall s2, Inv s2 -> le s1 s2 ->
          exists s3, get_value client fuel (idata_address d) key s2 = Ret value s3 /\ Inv s3 /\ le s2 s3.
Proof.
  intros Hshrink Hs. destruct (create_extract value key s Hshrink Hs)
    as (F & v & s' & Hfit & Hs' & Hle & Hall).
  exists F, (storage_idata client published v), s'.
  split_and!; [done|apply storage_idata_is_pub|done|done|]. intros fuel HF.
  destruct (Hall fuel HF) as [Hcreate Hext]. split_and!; [done|done|].
  destruct (keeps_put _ _ Hkeeps v s' Hs') as (s1 & Hput & Hs1 & Hle1 & Hget).
  exists s1. split_and!; [done..|]. intros s2 Hs2 Hle2.
  destruct (Hget s2 Hs2 Hle2) as (s3 & Hg & Hs3 & Hle3).
  destruct (Hext s3 Hs3) as (s4 & He & Hs4 & Hle4); [trans s1; [done|by trans s2]|].
  exists s4. split_and!; [|done|by trans s3]. unfold get_value. by rewrite (bind_Ret _ _ _ _ _ Hg).
Qed.
End idata_proofs.
