(* ===== verification/SelfEncryptionMock.v ===== *)
(** The mock network keeps published immutable data: what the self-encryption relies
    on, provided to a client of a vault with unlimited coins. *)
From S2P Require Import Prelude SafeNd SafeNdModel MockAccount MockVault.
From S2P Require Import MockVaultRequests MockVaultProcess MockVaultSpec.
From S2P Require Import MockVaultRefine MockVaultSafety MockVaultBehaviour MockVaultAccess.
From S2P Require Import CoreTypes ClientApi MockStore MockConnection MockShared.
From S2P Require Import MockClient MockVaultLocal Recovery RecoveryProofs RecoveryRepair SeqStore.
From S2P Require Import MDataInfo MDataInfoProofs AuthTypes RevocationMock AuthModel.
From S2P Require Import SelfEncryption SelfEncryptionProofs.

Section mock.
Context `{ndt : !NdTypes, ndo : !NdOps, ndl : !NdLaws, host : !Host}.
Context `{core : !CoreExt, corel : !CoreExtLaws, lru : !LruOps, lrul : !LruLaws}.
Context `{env : !StoreEnv, rnd : !RandomSource, ide : !IDataExt}.
Context (id : ClientFullId).
Let c := client_full_public_id id.
Let pk := client_public_key c.

(** The name of published data is a hash of its content: no two data share it. *)
Definition content_addressed : Prop :=
  forall b d, idata_address d = idata_address (IDPub (pub_idata_new b)) -> d = IDPub (pub_idata_new b).

Abbreviation S := (AuthState (W := MockNet)).
Abbreviation cvault s := (lk_vault (vault (connection_manager s))).
Abbreviation held a d s := (nae_manager (cache (cvault s)) !! DImmutable a = Some (Immutable d)).

(** The vault serves the client at no cost, and its cache agrees with the vault. *)
Record idata_inv (s : S) : Prop := {
  ii_serving : serving (inner s);
  ii_balance : is_Some (coin_balances (cache (cvault (inner s))) !! xor_name_from pk);
  ii_cache : forall a d, lru_map (ci_cache (inner s)) !! a = Some d -> held a d (inner s);
}.

(** Published data stays. *)
Definition idata_le (s s' : S) : Prop :=
  forall a d, idata_is_pub d = true -> held a d (inner s) -> held a d (inner s').

#[export] Instance idata_le_preorder : PreOrder idata_le.
Proof. split; [intros x a d; auto|intros x y z Hxy Hyz a d Hd; eauto]. Qed.

Lemma put_pub_idata_dispatch b (v : Vault) :
  content_addressed -> vault_wf v -> ~ limited v ->
  is_Some (coin_balances (cache v) !! xor_name_from pk) ->
  let d := IDPub (pub_idata_new b) in
  let v' := put_data_at (DImmutable (idata_address d)) (Immutable d) v in
  dispatch (PClient c) pk pk (PutIData d) v = Ret (RMutation (Ok tt)) v'.
Proof.
  intros Hca Hwf Hlim [bal Hbal] d v'. simpl. unfold handle_PutIData, respond, put_data.
  assert (Hauth : authorise_operations [OpMutation] (client_name c) pk v = Ret tt v).
  { apply authorise_operations_spec; [done|]. exists bal. rewrite client_name_spec.
    split; [done|]. constructor; [|constructor]. split; [by left|]. intros _. by left. }
  assert (Hcommit : forall v1, vault_config v1 = vault_config v ->
    commit_mutation (public_id_name (PClient c)) v1 = Ret tt v1).
  { intros v1 Hcf. unfold commit_mutation, bind, gets. rewrite Hcf.
    unfold limited in Hlim. by destruct (unlimited_coins _). }
  unfold bind, attempt, ret at 1. fold pk. cbn iota. unfold d at 1. cbv beta iota. rewrite Hauth. unfold gets, contains_data.
  destruct (nae_manager (cache v) !! DImmutable (idata_address d)) as [d0|] eqn:Hd0.
  - rewrite bool_decide_eq_true_2 by done.
    destruct (idata_address d) as [n|n] eqn:Ha; [|by pose proof (idata_address_kind d); rewrite Ha in *].
    rewrite (proj1 (idata_address_is_pub_spec n)), Hcommit by done.
    unfold v', put_data_at. rewrite insert_id; [by destruct v as [[]]|].
    pose proof (wf_data _ Hwf _ _ Hd0) as Hid. destruct d0 as [d0|?|?]; [|done|done].
    simpl in Hid. rewrite Hd0. do 2 f_equal. apply Hca. trans (IPub n); [congruence|exact (eq_sym Ha)].
  - rewrite bool_decide_eq_false_2 by (by intros []). unfold insert_data, modify. by rewrite Hcommit.
Qed.

Lemma held_insert a d id' d' (v : Vault) :
  nae_manager (cache v) !! DImmutable a = Some (Immutable d) ->
  (id' = DImmutable a -> d' = Immutable d) ->
  nae_manager (cache (put_data_at id' d' v)) !! DImmutable a = Some (Immutable d).
Proof.
  intros Hd Heq. simpl. destruct (decide (id' = DImmutable a)) as [->|Hne].
  - by rewrite Heq, lookup_insert_eq.
  - by rewrite lookup_insert_ne.
Qed.

Lemma mock_put_pub b s :
  content_addressed -> idata_inv s ->
  let d := IDPub (pub_idata_new b) in
  exists s', on_inner (put_idata (client_of id) d) s = Ret tt s' /\ idata_inv s' /\ idata_le s s' /\
    held (idata_address d) d (inner s').
Proof.
  intros Hca [Hserv Hbal Hcache] d. pose proof Hserv as (Hmem & Hwf & Hlim).
  pose proof (put_pub_idata_dispatch b (cvault (inner s)) Hca Hwf Hlim Hbal) as Hd. simpl in Hd. fold d in Hd.
  set (v' := put_data_at _ _ _) in Hd.
  assert (Hkeep : forall a d0, held a d0 (inner s) ->
    nae_manager (cache v') !! DImmutable a = Some (Immutable d0)).
  { intros a d0 Hh. apply held_insert; [done|]. intros [= Ha]. f_equal.
    pose proof (wf_data _ Hwf _ _ Hh) as [= Hid]. symmetry. apply Hca. by rewrite Hid. }
  destruct (client_call id (PutIData d) (inner s) _ _ Hserv Hd) as (_ & Hserv' & _).
  exists (set_inner (after_request v' (inner s)) s). split_and!.
  - apply on_inner_Ret. by apply (client_mutation id _ _ (Ok tt)).
  - split; [done|done|]. intros a d0 Ha. apply Hkeep. by apply Hcache.
  - intros a d0 _. apply Hkeep.
  - apply lookup_insert_eq.
Qed.

Lemma mock_get_pub b s :
  idata_inv s ->
  let d := IDPub (pub_idata_new b) in
  held (idata_address d) d (inner s) ->
  exists s', on_inner (get_idata (client_of id) (idata_address d)) s = Ret d s' /\
    idata_inv s' /\ idata_le s s'.
Proof.
  intros [Hserv Hbal Hcache] d Hh. set (a := idata_address d) in *.
  destruct (lru_get_mut_spec a (ci_cache (inner s))) as [Hget Hmap].
  set (s1 := set_ci_cache (lru_get_mut a (ci_cache (inner s))).2 (inner s)).
  assert (Hs1 : idata_inv (set_inner s1 s)).
  { split; [done|done|]. intros a' d' Ha'. simpl in Ha'. rewrite Hmap in Ha'. by apply Hcache. }
  destruct (lru_map (ci_cache (inner s)) !! a) as [d'|] eqn:Hc.
  - assert (d' = d) as -> by (specialize (Hcache _ _ Hc); congruence).
    exists (set_inner s1 s). split_and!; [|done|by intros ?].
    apply on_inner_Ret. unfold get_idata, bind. destruct (lru_get_mut _ _) as [o c'] eqn:Hl.
    simpl in Hget. by rewrite Hget.
  - assert (Hd : dispatch (PClient c) pk pk (GetIData a) (cvault s1) =
      Ret (RGetIData (Ok d)) (cvault s1)).
    { simpl. unfold handle_GetIData, respond, MockVaultRequests.get_idata, get_data, bind, attempt, gets.
      simpl. by rewrite Hh. }
    destruct (client_call id (GetIData a) s1 _ _ Hserv Hd) as (Hsend & Hserv' & _).
    set (s2 := after_request (cvault s1) s1) in *.
    exists (set_inner (set_ci_cache (lru_insert a d (ci_cache s2)) s2) s). split_and!.
    + apply on_inner_Ret. unfold get_idata, bind at 1. destruct (lru_get_mut _ _) as [o c'] eqn:Hl.
      simpl in Hget. subst o. fold s1. change (set_ci_cache c' (inner s)) with s1.
      rewrite (bind_Ret _ _ _ _ _ Hsend). reflexivity.
    + split; [done|done|]. intros a' d' Ha'. simpl in Ha'.
      pose proof (lru_insert_spec a d (ci_cache s2)) as Hsub.
      pose proof (lookup_weaken _ _ _ _ Ha' Hsub) as Hl. simpl in Hl. rewrite Hmap in Hl.
      apply lookup_insert_Some in Hl as [[<- <-]|[_ Hl]]; [exact Hh|by apply Hcache].
    + by intros ?.
Qed.

(** The mock network keeps published immutable data, for any client of it. *)
Lemma mock_keeps_idata :
  content_addressed -> keeps_idata (client_of id) true idata_inv idata_le.
Proof.
  intros Hca. split; [apply _| |].
  - intros s r [Hserv Hbal Hcache]. split; [by split|]. by intros ?.
  - intros b s Hs. destruct (mock_put_pub b s Hca Hs) as (s' & Hput & Hs' & Hle & Hh).
    exists s'. split_and!; [done..|]. intros s1 Hs1 Hle1. apply mock_get_pub; [done|by apply Hle1].
Qed.

(** The storage of an app makes unpublished data the property of the app's own key,
    while the vault wants it to be the owner's: an app cannot store unpublished data
    of its own making. *)
Lemma app_unpublished_refused `{idl : !IDataLaws} (client : Client) a name b s :
  full_id client = SKApp a -> in_memory (connection_manager (inner s)) ->
  vault_wf (cvault (inner s)) ->
  authorised (public_id client) (app_public_key (app_full_public_id a)) (cvault (inner s)) ->
  app_public_key (app_full_public_id a) <> client_public_key (app_owner (app_full_public_id a)) ->
  exists s', storage_put client false name b s = Fail (DataError InvalidOwners) s'.
Proof.
  intros Hid Hmem Hwf Hauth Hne.
  assert (Hpk : public_key client = app_public_key (app_full_public_id a))
    by (unfold public_key; by rewrite Hid).
  assert (Hpid : public_id client = PApp (app_full_public_id a))
    by (unfold public_id; by rewrite Hid).
  set (v := cvault (inner s)) in *. eexists. unfold storage_put. apply on_inner_Fail.
  unfold put_idata, storage_idata.
  erewrite (client_handler_mutation client _ _ (app_public_key (app_full_public_id a))
    (client_public_key (app_owner (app_full_public_id a))) (Err InvalidOwners) v);
    [reflexivity|done|done|by rewrite Hpid|done|done|].
  simpl. unfold handle_PutIData, respond, bind, attempt. rewrite unpub_idata_owner_new, Hpk.
  by rewrite bool_decide_eq_true_2 by congruence.
Qed.
End mock.

(** * A concrete crate *)

#[export] Instance ModelIData : IDataExt := {|
  pub_idata_new b := (b : PubImmutableData);
  unpub_idata_new b pk := ((b, pk) : UnpubImmutableData);
  idata_value d := match d with IDPub b => b | IDUnpub p => p.1 end;
  idata_validate_size d := match d with IDPub b => length b <=? 3 | IDUnpub p => length p.1 <=? 3 end;
|}.

#[export] Instance ModelIDataLaws : IDataLaws.
Proof.
  split; try done.
  - intros b. eexists. split; [|reflexivity]. reflexivity.
  - intros b pk. eexists. split; [|reflexivity]. reflexivity.
Qed.

Lemma model_content_addressed : content_addressed.
Proof.
  intros b [d|d] Ha; simpl in Ha; [|done]. injection Ha as Ha. by apply (inj encode) in Ha as ->.
Qed.

(** A data map is empty, holds the content, or the name of its only chunk. *)
Inductive model_map := MapNone | MapContent (b : bytes) | MapChunk (name : bytes) (len : Z).

Section model_self_enc.
Context {S : Type} (st : Storage S).
Definition model_storage_err (_ : CoreError) : SelfEncryptionError := "storage".
Definition model_content (e : model_map * option bytes) : M S SelfEncryptionError bytes :=
  match e with
  | (_, Some b) => ret b
  | (MapNone, None) => ret []
  | (MapContent b, None) => ret b
  | (MapChunk name _, None) => map_err model_storage_err (st_get st name)
  end.
Definition model_len (e : model_map * option bytes) : Z :=
  match e with
  | (_, Some b) => Z.of_nat (length b)
  | (MapNone, None) => 0
  | (MapContent b, None) => Z.of_nat (length b)
  | (MapChunk _ len, None) => len
  end.
Definition model_read (e : model_map * option bytes) (pos len : Z) : M S SelfEncryptionError bytes :=
  let! b := model_content e in ret (take (Z.to_nat len) (drop (Z.to_nat pos) b)).
Definition model_store (b : bytes) : M S SelfEncryptionError model_map :=
  if length b <? 4 then ret (MapContent b)
  else
    let name := st_generate_address st b in
    map_err model_storage_err (st_put st name b) ;!
    ret (MapChunk name (Z.of_nat (length b))).
End model_self_enc.

#[export] Instance ModelSelfEnc : SelfEnc := {|
  DataMap := model_map; data_map_none := MapNone;
  Encryptor := model_map * option bytes;
  enc_new dm := Ok (dm, None);
  enc_len := model_len;
  enc_write S st e data pos :=
    let! old := model_content st e in
    let pos := Z.to_nat pos in
    ret (e.1, Some (take pos (old ++ replicate pos 0%Z) ++ data ++ drop (pos + length data) old));
  enc_read S st := model_read st;
  enc_close S st e := match e with (_, Some b) => model_store st b | (dm, None) => ret dm end;
  SeqEncryptor := bytes;
  seq_new S st dm :=
    match dm with
    | None => ret []
    | Some dm => model_read st (dm, None) 0 (model_len (dm, None))
    end;
  seq_len q := Z.of_nat (length q);
  seq_write S st q data := ret (q ++ data);
  seq_close S st q := model_store st q;
|}.

Lemma model_store_ok {S} (st : Storage S) Inv le b s :
  reliable st Inv le -> Inv s ->
  exists dm s', model_store st b s = Ret dm s' /\ Inv s' /\ le s s' /\
    maps_to st Inv le dm b s'.
Proof.
  intros [Hpre Hput] Hs. unfold model_store. destruct (length b <? 4).
  - exists (MapContent b), s. split_and!; [done|done|done|]. exists (MapContent b, None).
    split_and!; [done|done|]. intros s1 pos len Hs1 _ _. exists s1. simpl.
    unfold model_read, bind. simpl. by rewrite !Nat2Z.id.
  - destruct (Hput b s Hs) as (s' & Hp & Hs' & Hle & Hget).
    eexists (MapChunk _ _), s'. split_and!; [|done|done|].
    { unfold map_err, or_else, bind. by rewrite Hp. }
    eexists (MapChunk _ _, None). split_and!; [done|done|]. intros s1 pos len Hs1 Hle1 _.
    destruct (Hget s1 Hs1 Hle1) as (s2 & Hg & Hs2 & Hle2). exists s2. split_and!; [|done|done].
    cbn [enc_read ModelSelfEnc]. unfold model_read, model_content, map_err, or_else, bind. rewrite Hg.
    by rewrite !Nat2Z.id.
Qed.

#[export] Instance ModelSelfEncLaws : SelfEncLaws.
Proof.
  split; [by exists (MapNone, None)|]. intros S st Inv le e value s Hrel [= <-] Hs.
  destruct (model_store_ok st Inv le value s Hrel Hs) as (dm & s' & Hst & Hrest).
  exists (MapNone, Some (value ++ [])), s, dm, s'. split; [|split; [|exact Hrest]].
  - simpl. unfold bind, ret. simpl. by rewrite drop_nil.
  - simpl. by rewrite app_nil_r.
Qed.

#[export] Instance ModelSeqEncLaws : SeqEncLaws.
Proof.
  refine {| seq_holds S st Inv le q value s := q = value |}.
  - intros S st Inv le [dm|] value s Hrel Hs Hm; simpl.
    + destruct Hm as (e & [= <-] & Hlen & Hread).
      destruct (Hread s 0 (length value) Hs) as (s' & Hr & Hs' & Hle); [apply Hrel|lia|].
      exists value, s'. split_and!; [|done|done|done]. simpl in Hlen, Hr.
      change (Z.of_nat 0) with 0%Z in Hr. by rewrite Hlen, Hr, drop_0, firstn_all.
    + subst. exists [], s. split_and!; [done|done|apply Hrel|done].
  - intros S st Inv le q value data s Hrel Hs ->. exists (value ++ data), s.
    split_and!; [done|done|apply Hrel|done].
  - by intros S st Inv le q value s ->.
  - intros S st Inv le q value s Hrel Hs ->. by apply model_store_ok.
Defined.

#[export] Instance model_map_eq : EqDecision model_map.
Proof. solve_decision. Defined.
#[export] Instance model_map_countable : Countable model_map.
Proof.
  refine (inj_countable' (fun m => match m with
      | MapNone => None | MapContent b => Some (inl b) | MapChunk n l => Some (inr (n, l)) end)
    (fun t => match t with
      | None => MapNone | Some (inl b) => MapContent b | Some (inr (n, l)) => MapChunk n l end) _).
  by_fields.
Defined.

#[export] Instance SerialDataMap : Serial DataMap := countable_serial model_map.
#[export] Instance SerialDataMapLaws : SerialLaws DataMap := countable_serial_laws model_map.

#[export] Instance SerialEncoding : Serial DataTypeEncoding := {|
  serialize_of e := match e with
    | Serialised b => Ok (1%Z :: b) | DTDataMap m => Ok [2%Z; Z.pos (encode (m : model_map))] end;
  deserialize_of b := match b with
    | 1%Z :: b => Ok (Serialised b)
    | [2%Z; Z.pos p] => match decode p with Some m => Ok (DTDataMap m) | None => Err ("malformed" : SerialisationError) end
    | _ => Err ("malformed" : SerialisationError) end |}.
#[export] Instance SerialEncodingLaws : SerialLaws DataTypeEncoding.
Proof. intros [b|m]; eexists; (split_and!; [done|done|]); simpl; [done|by rewrite decode_encode]. Qed.

#[export] Instance SerialIData : Serial IData := {|
  serialize_of d := match d with
    | IDPub b => Ok (1%Z :: b) | IDUnpub p => Ok (2%Z :: p.2 :: p.1) end;
  deserialize_of b := match b with
    | 1%Z :: b => Ok (IDPub (b : PubImmutableData))
    | 2%Z :: o :: b => Ok (IDUnpub ((b, o) : UnpubImmutableData))
    | _ => Err ("malformed" : SerialisationError) end |}.
#[export] Instance SerialIDataLaws : SerialLaws IData.
Proof. by intros [b|[b o]]; eexists. Qed.

Lemma model_data_maps_shrink client published : data_maps_shrink (W := MockNet) client published.
Proof.
  intros value ser dm v Hsize _ _ [= <-]. simpl. unfold storage_idata in Hsize.
  destruct published; simpl in Hsize; apply Nat.leb_gt in Hsize; lia.
Qed.

Definition ex_value : bytes := [1; 2; 3; 4; 5; 6]%Z.
Definition ex_enc_key : SymEncKey := [9; 9]%Z.

Lemma ex_auth_idata_inv : idata_inv ex_full_id ex_auth_state.
Proof. split; [split_and!; [by split|exact ex_auth_vault_wf|done]|by eexists|done]. Qed.

(** The value is too large for one chunk, and so is the encryption of its data map. *)
Example idata_roundtrip_witness :
  exists F d s', idata_validate_size d = true /\ idata_is_pub d = true /\
    idata_inv ex_full_id s' /\ idata_le ex_auth_state s' /\
    forall fuel, F <= fuel ->
      create (client_of ex_full_id) fuel ex_value true (Some ex_enc_key) ex_auth_state = Ret d s' /\
      (forall s1, idata_inv ex_full_id s1 -> idata_le s' s1 ->
         exists s2, extract_value (client_of ex_full_id) fuel d (Some ex_enc_key) s1 = Ret ex_value s2 /\
           idata_inv ex_full_id s2 /\ idata_le s1 s2) /\
      exists s1, on_inner (put_idata (client_of ex_full_id) d) s' = Ret tt s1 /\
        idata_inv ex_full_id s1 /\ idata_le s' s1 /\
        forall s2, idata_inv ex_full_id s2 -> idata_le s1 s2 ->
          exists s3, get_value (client_of ex_full_id) fuel (idata_address d) (Some ex_enc_key) s2 =
            Ret ex_value s3 /\ idata_inv ex_full_id s3 /\ idata_le s2 s3.
Proof.
  apply (idata_roundtrip (client_of ex_full_id) true (idata_inv ex_full_id) idata_le).
  1: exact (mock_keeps_idata ex_full_id model_content_addressed).
  all: try apply _.
  - apply model_data_maps_shrink.
  - exact ex_auth_idata_inv.
Defined.
