(* ===== verification/Nfs.v ===== *)
(** Files ([safe_core/src/nfs]): the metadata of a file and its C representation
    ([file.rs], [ffi/nfs.rs]), readers and writers of its contents ([reader.rs],
    [writer.rs], [data_map.rs]), and directories, which keep files in the entries of
    sequenced mutable data ([file_helper.rs]).

    Times are those of the [chrono] crate; the clock is read like the random
    generator, one reading after the other. *)
From S2P Require Import Prelude SafeNd SafeNdModel MockAccount CoreTypes ClientApi Recovery.
From S2P Require Import MDataInfo AuthTypes SelfEncryption.

Class Chrono := {
  DateTime : Type;
  utc_now_at : nat -> DateTime;
  timestamp : DateTime -> Z;
  timestamp_subsec_nanos : DateTime -> Z;
  (** [NaiveDateTime::from_timestamp_opt], as a time in UTC. *)
  from_timestamp_opt : Z -> Z -> option DateTime;
}.

Class ChronoLaws `{!Chrono} :=
  timestamp_roundtrip t : from_timestamp_opt (timestamp t) (timestamp_subsec_nanos t) = Some t.

(** * Files *)

Section file.
Context `{chr : !Chrono}.

Record File := {
  size : Z;
  created : DateTime;
  modified : DateTime;
  user_metadata : bytes;
  data_map_name : XorName;
  published : bool;
}.

Definition set_size (n : Z) (f : File) : File :=
  {| size := n; created := created f; modified := modified f; user_metadata := user_metadata f;
     data_map_name := data_map_name f; published := published f |}.
Definition set_created_time (t : DateTime) (f : File) : File :=
  {| size := size f; created := t; modified := modified f; user_metadata := user_metadata f;
     data_map_name := data_map_name f; published := published f |}.
Definition set_modified_time (t : DateTime) (f : File) : File :=
  {| size := size f; created := created f; modified := t; user_metadata := user_metadata f;
     data_map_name := data_map_name f; published := published f |}.
Definition set_data_map_name (n : XorName) (f : File) : File :=
  {| size := size f; created := created f; modified := modified f; user_metadata := user_metadata f;
     data_map_name := n; published := published f |}.
Definition set_user_metadata (m : bytes) (f : File) : File :=
  {| size := size f; created := created f; modified := modified f; user_metadata := m;
     data_map_name := data_map_name f; published := published f |}.

Definition data_address (f : File) : IDataAddress :=
  if published f then IPub (data_map_name f) else IUnpub (data_map_name f).

Definition utc_now {E} : M Rng E DateTime := fun i => Ret (utc_now_at i) (S i).

(** [XorName::default] has [XOR_NAME_LEN] zero bytes. *)
Definition File_new {E} (user_metadata_ : bytes) (published_ : bool) : M Rng E File :=
  let! created_ := utc_now in
  let! modified_ := utc_now in
  ret {| size := 0; created := created_; modified := modified_; user_metadata := user_metadata_;
         data_map_name := MkXorName (replicate 32 0%Z); published := published_ |}.

(** [ffi::nfs::File]; a vector and its length are the vector. *)
Record FfiFile := {
  ff_size : Z;
  ff_created_sec : Z;
  ff_created_nsec : Z;
  ff_modified_sec : Z;
  ff_modified_nsec : Z;
  ff_user_metadata : bytes;
  ff_data_map_name : bytes;
  ff_published : bool;
}.

Definition file_into_repr_c (f : File) : FfiFile :=
  {| ff_size := size f;
     ff_created_sec := timestamp (created f);
     ff_created_nsec := timestamp_subsec_nanos (created f);
     ff_modified_sec := timestamp (modified f);
     ff_modified_nsec := timestamp_subsec_nanos (modified f);
     ff_user_metadata := user_metadata f;
     ff_data_map_name := xor_name_0 (data_map_name f);
     ff_published := published f |}.
End file.

Section nfs.
Context `{ndt : !NdTypes, ndo : !NdOps, core : !CoreExt, lru : !LruOps, cr : !Crypto}.
Context `{auth : !AuthExt, se : !SelfEnc, ide : !IDataExt, chr : !Chrono}.
Context {W : Type} `{net : !Network W}.
Context `{sdm : !Serial DataMap, sdt : !Serial DataTypeEncoding, sid : !Serial IData}.
Context `{sfile : !Serial File}.

Abbreviation S := (AuthState (W := W)).
Abbreviation N A := (M S NfsError A).

Definition convert_date_time {S0} (sec nsec : Z) : M S0 NfsError DateTime :=
  ok_or (from_timestamp_opt sec nsec) (NfsUnexpected "Invalid date format").

Definition file_clone_from_repr_c (c : FfiFile) : M Rng NfsError File :=
  let! created_ := convert_date_time (ff_created_sec c) (ff_created_nsec c) in
  let! modified_ := convert_date_time (ff_modified_sec c) (ff_modified_nsec c) in
  let! file := File_new (ff_user_metadata c) (ff_published c) in
  ret (set_data_map_name (MkXorName (ff_data_map_name c))
    (set_modified_time modified_ (set_created_time created_ (set_size (ff_size c) file)))).

(** [map_err(NfsError::from)]. *)
Definition nfs_from_core {A} (m : M S CoreError A) : N A := map_err NfsCoreError m.
Definition nfs_self_encryption {A} (m : M S SelfEncryptionError A) : N A := map_err NfsSelfEncryption m.

Definition on_clock {A} (m : M Rng NfsError A) : N A := fun s =>
  match m (auth_rng s) with
  | Ret a r => Ret a (set_auth_rng r s)
  | Fail e r => Fail e (set_auth_rng r s)
  | Panic r => Panic (set_auth_rng r s)
  | Pending r => Pending (set_auth_rng r s)
  end.

(** * Data maps *)

Definition data_map_get (fuel : nat) (client : Client) (address_ : IDataAddress)
    (encryption_key : option SymEncKey) : N DataMap :=
  let! content := nfs_from_core (get_value client fuel address_ encryption_key) in
  match deserialize_of content with
  | Ok data_map => ret data_map
  | Err e => fail (NfsEncodeDecodeError e)
  end.

Definition data_map_put (fuel : nat) (client : Client) (data_map : DataMap) (published_ : bool)
    (encryption_key : option SymEncKey) : N XorName :=
  nfs_from_core
    (let! encoded := lift_result (from_serialisation (serialize_of data_map)) in
     let! data := create client fuel encoded published_ encryption_key in
     let name := idata_name data in
     on_inner (put_idata client data) ;!
     ret name).

(** * Readers *)

(** The storage of a reader or a writer is that of the file's kind. *)
Record Reader := { rd_published : bool; rd_self_encryptor : Encryptor }.

Definition Reader_new (fuel : nat) (client : Client) (file : File)
    (encryption_key : option SymEncKey) : N Reader :=
  let! data_map := data_map_get fuel client (data_address file) encryption_key in
  match enc_new data_map with
  | Ok self_encryptor => ret {| rd_published := published file; rd_self_encryptor := self_encryptor |}
  | Err e => fail (NfsSelfEncryption e)
  end.

Definition reader_size (r : Reader) : Z := enc_len (rd_self_encryptor r).

(** The sum of position and length wraps. *)
Definition reader_read (client : Client) (r : Reader) (position length_ : Z) : N bytes :=
  if (reader_size r <? u64_add position length_)%Z then fail InvalidRange
  else nfs_self_encryption
    (enc_read (SelfEncryptionStorage client (rd_published r)) (rd_self_encryptor r) position length_).

(** * Writers *)

Inductive Mode := Overwrite | Append.

Record Writer := {
  wr_file : File;
  wr_self_encryptor : SeqEncryptor;
  wr_encryption_key : option SymEncKey;
}.

Definition Writer_new (fuel : nat) (client : Client) (file : File) (mode : Mode)
    (encryption_key : option SymEncKey) : N Writer :=
  let fut :=
    match mode with
    | Append =>
        let! data_map := data_map_get fuel client (data_address file) encryption_key in
        ret (Some data_map)
    | Overwrite => ret None
    end in
  let! data_map := or_else fut (fun err =>
    match err with
    | NfsCoreError (DataError NoSuchData) => ret None
    | _ => fail err
    end) in
  let! self_encryptor :=
    nfs_self_encryption (seq_new (SelfEncryptionStorage client (published file)) data_map) in
  ret {| wr_file := file; wr_self_encryptor := self_encryptor; wr_encryption_key := encryption_key |}.

(** The encryptor of a writer changes in place. *)
Definition writer_write (client : Client) (w : Writer) (data : bytes) : N Writer :=
  let! self_encryptor := nfs_self_encryption
    (seq_write (SelfEncryptionStorage client (published (wr_file w))) (wr_self_encryptor w) data) in
  ret {| wr_file := wr_file w; wr_self_encryptor := self_encryptor;
         wr_encryption_key := wr_encryption_key w |}.

Definition writer_close (fuel : nat) (client : Client) (w : Writer) : N File :=
  let file := wr_file w in
  let size_ := seq_len (wr_self_encryptor w) in
  let published_ := published file in
  let! data_map := nfs_self_encryption
    (seq_close (SelfEncryptionStorage client published_) (wr_self_encryptor w)) in
  let! data_map_name_ := data_map_put fuel client data_map published_ (wr_encryption_key w) in
  let! now := on_clock utc_now in
  ret (set_size size_ (set_modified_time now (set_data_map_name data_map_name_ file))).

(** * Directories *)

Inductive Version := GetNext | Custom (v : Z).

Definition convert_error (err : CoreError) : NfsError :=
  match err with
  | DataError NoSuchEntry => FileNotFound
  | _ => NfsCoreError err
  end.

Definition parent_name (parent : MDataInfo) : XorName := mdata_address_name (address parent).
Definition parent_tag (parent : MDataInfo) : Z := mdata_address_tag (address parent).

(** The entry that [insert] and [update] store. *)
Definition file_entry (parent : MDataInfo) (name : string) (file : File) :
    M S CoreError (bytes * bytes) :=
  let! encoded := lift_result (from_serialisation (serialize_of file)) in
  let! key := lift_result (enc_entry_key parent (as_bytes name)) in
  let! value := on_rng (enc_entry_value parent encoded) in
  ret (key, value).

Definition insert (client : Client) (parent : MDataInfo) (name : string) (file : File) : N unit :=
  nfs_from_core
    (let! (key, value) := file_entry parent name file in
     on_inner (mutate_seq_mdata_entries client (parent_name parent) (parent_tag parent)
       (seq_actions_ins seq_actions_new key value 0))).

Definition fetch (client : Client) (parent : MDataInfo) (name : string) : N (Z * File) :=
  map_err convert_error
    (let! key := lift_result (enc_entry_key parent (as_bytes name)) in
     let! value := on_inner (get_seq_mdata_value client (parent_name parent) (parent_tag parent) key) in
     let! plaintext := lift_result (decrypt parent (seq_data value)) in
     let! file := lift_result (from_serialisation (deserialize_of plaintext)) in
     ret (seq_version value, file)).

Definition read (fuel : nat) (client : Client) (file : File) (encryption_key : option SymEncKey) :
    N Reader :=
  Reader_new fuel client file encryption_key.

(** The next version of an entry; the addition wraps. *)
Definition next_file_version (client : Client) (parent : MDataInfo) (key : bytes) :
    M S CoreError Z :=
  let! value := on_inner (get_seq_mdata_value client (parent_name parent) (parent_tag parent) key) in
  ret (u64_add (seq_version value) 1).

Definition delete (client : Client) (parent : MDataInfo) (name : string) (published_ : bool)
    (version_ : Version) : N Z :=
  let! key := nfs_from_core (lift_result (enc_entry_key parent (as_bytes name))) in
  let! version_ := nfs_from_core
    match version_ with
    | GetNext => next_file_version client parent key
    | Custom version_ => ret version_
    end in
  let! version_ :=
    if negb published_ then
      let! (_, file) := fetch client parent name in
      nfs_from_core (on_inner (del_unpub_idata client (data_map_name file))) ;!
      ret version_
    else ret version_ in
  map_err convert_error
    (on_inner (mutate_seq_mdata_entries client (parent_name parent) (parent_tag parent)
       (seq_actions_del seq_actions_new key version_))) ;!
  ret version_.

Definition update (client : Client) (parent : MDataInfo) (name : string) (file : File)
    (version_ : Version) : N Z :=
  map_err convert_error
    (let! (key, content) := file_entry parent name file in
     let! version_ :=
       match version_ with
       | GetNext => next_file_version client parent key
       | Custom version_ => ret version_
       end in
     on_inner (mutate_seq_mdata_entries client (parent_name parent) (parent_tag parent)
       (seq_actions_update seq_actions_new key content version_)) ;!
     ret version_).

Definition write (fuel : nat) (client : Client) (file : File) (mode : Mode)
    (encryption_key : option SymEncKey) : N Writer :=
  Writer_new fuel client file mode encryption_key.
End nfs.
