(* ===== verification/NfsProofs.v ===== *)
(** Directories and files: a directory behaves as a map from names to versioned files,
    and what is written to a file is read from it. *)
From S2P Require Import Prelude SafeNd SafeNdModel MockAccount CoreTypes ClientApi Recovery.
From S2P Require Import RecoveryProofs RecoveryRepair SeqStore MDataInfo MDataInfoProofs AuthTypes.
From S2P Require Import AuthConfig AuthConfigProofs SelfEncryption SelfEncryptionProofs Nfs.

(** * The abstract directory *)

Section spec.
Context `{ndt : !NdTypes, ndo : !NdOps, chr : !Chrono}.

Abbreviation Dir := (gmap string (Z * File)).

Inductive DirOp :=
| OpInsert (name : string) (file : File)
| OpUpdate (name : string) (file : File) (version_ : Version)
| OpDelete (name : string) (version_ : Version).

Definition op_name (op : DirOp) : string :=
  match op with OpInsert name _ | OpUpdate name _ _ | OpDelete name _ => name end.

Inductive DirAnswer := DirOk (v : Z) | DirMissing | DirRefused (e : EntryError).

Definition narrow (v : Z) : Z := (v mod entry_version_modulus)%Z.

(** A change of the entry of [name] that carries a version. *)
Definition dir_change (D : Dir) (name : string) (version_ : Version) (change : Z -> Dir) :
    DirAnswer * Dir :=
  match D !! name, version_ with
  | None, GetNext => (DirMissing, D)
  | None, Custom _ => (DirRefused ENoSuchEntry, D)
  | Some (v, _), GetNext => (DirOk (v + 1), change (v + 1)%Z)
  | Some (v, _), Custom w =>
      if decide (w = v + 1)%Z then (DirOk w, change w)
      else (DirRefused (EInvalidSuccessor (narrow v)), D)
  end.

Definition dir_step (op : DirOp) (D : Dir) : DirAnswer * Dir :=
  match op with
  | OpInsert name file =>
      match D !! name with
      | None => (DirOk 0, <[name := (0%Z, file)]> D)
      | Some (v, _) => (DirRefused (EEntryExists (narrow v)), D)
      end
  | OpUpdate name file version_ => dir_change D name version_ (fun v => <[name := (v, file)]> D)
  | OpDelete name version_ => dir_change D name version_ (fun _ => base.delete name D)
  end.

(** There is room for another version of every file. *)
Definition dir_room (D : Dir) : Prop :=
  map_Forall (fun _ p => 0 <= p.1 /\ p.1 + 1 < u64_modulus)%Z D.
End spec.

Lemma as_bytes_inj : Inj (=) (=) as_bytes.
Proof.
  intros s1 s2 Heq. unfold as_bytes in Heq.
  rewrite <-(String.string_of_list_ascii_of_string s1), <-(String.string_of_list_ascii_of_string s2).
  f_equal. revert Heq. generalize (String.list_ascii_of_string s1), (String.list_ascii_of_string s2).
  intros l1. induction l1 as [|a l1 IH]; intros [|b l2] Heq; simpl in Heq; try done.
  injection Heq as Hab Hl. f_equal; [|by apply IH].
  rewrite <-(Ascii.ascii_nat_embedding a), <-(Ascii.ascii_nat_embedding b). f_equal. lia.
Qed.

(** * Directories *)

Section directory.
Context `{ndt : !NdTypes, ndo : !NdOps, ndl : !NdLaws, core : !CoreExt, lru : !LruOps}.
Context `{cr : !Crypto, crl : !CryptoLaws, auth : !AuthExt, sal : !SeqActionsLaws}.
Context `{chr : !Chrono, sfile : !Serial File, sfilel : !SerialLaws File}.
Context {W : Type} `{net : !Network W}.
Context (client : Client) (parent : MDataInfo).
Context `{store : !SeqMDataStore client (parent_name parent) (parent_tag parent)}.

Abbreviation S := (AuthState (W := W)).
Abbreviation Dir := (gmap string (Z * File)).
Implicit Types (s : S) (D : Dir) (m : MDataSeqEntries).

Definition file_key (name : string) : bytes := key_cipher parent (as_bytes name).

Lemma file_key_inj name name' : file_key name = file_key name' -> name = name'.
Proof. intros Heq. apply as_bytes_inj. by apply (key_cipher_inj parent). Qed.

Lemma file_key_ok name : enc_entry_key parent (as_bytes name) = Ok (file_key name).
Proof. apply key_cipher_ok. Qed.

(** An entry value that holds a file at a version. *)
Definition holds_file (v : MDataSeqValue) (p : Z * File) : Prop :=
  seq_version v = p.1 /\ exists plain, decrypt parent (seq_data v) = Ok plain /\
    deserialize_of plain = Ok p.2.

(** The entries [m] are those of the directory [D]. *)
Definition dir_rep D m : Prop :=
  forall name, match m !! file_key name, D !! name with
               | Some v, Some p => holds_file v p
               | None, None => True
               | _, _ => False
               end.

Lemma dir_rep_change D m name act (op : option (Z * File)) :
  dir_rep D m ->
  match act, op with
  | (Ins v | Update v), Some p => holds_file v p
  | Del _, None => True
  | _, _ => False
  end ->
  dir_rep (partial_alter (fun _ => op) name D) (entries_applied m {[ file_key name := act ]}).
Proof.
  intros Hrep Hact name'. rewrite entries_applied_singleton. destruct (decide (name' = name)) as [->|Hne].
  - rewrite decide_True by done. rewrite lookup_partial_alter_eq. by destruct act, op.
  - rewrite decide_False by (intros ?%file_key_inj; done). rewrite lookup_partial_alter_ne by done.
    apply Hrep.
Qed.

Lemma file_entry_ok name file s :
  exists data r, file_entry parent name file s = Ret (file_key name, data) (set_auth_rng r s) /\
    forall v, holds_file {| seq_data := data; seq_version := v |} (v, file).
Proof.
  destruct (serial_roundtrip file) as (plain & Hser & _ & Hdes).
  destruct (enc_entry_value_ok parent plain (auth_rng s)) as (data & r & Henc & Hdec).
  exists data, r. split.
  - unfold file_entry. rewrite Hser. cbn [from_serialisation]. rewrite bind_lift_ok, file_key_ok, bind_lift_ok.
    by rewrite (bind_Ret _ _ _ _ _ (on_rng_Ret _ _ _ _ Henc)).
  - intros v. split; [done|]. exists plain. split; [|done]. by apply entry_cipher_decrypt.
Qed.

(** One mutation of one entry, against the abstract change. *)
Lemma mutate_one m act key acts s :
  stored m (inner s) -> seq_into_actions acts = {[ key := act ]} ->
  exists s', match entry_error (m !! key) act with
    | None => stored (entries_applied m {[ key := act ]}) (inner s') /\
        on_inner (mutate_seq_mdata_entries client (parent_name parent) (parent_tag parent) acts) s = Ret tt s'
    | Some e => stored m (inner s') /\
        on_inner (mutate_seq_mdata_entries client (parent_name parent) (parent_tag parent) acts) s =
          Fail (DataError (InvalidEntryActions {[ key := e ]})) s'
    end.
Proof.
  intros Hst Hacts. destruct (stored_mutate m acts (inner s) Hst) as [i Hi]. exists (set_inner i s).
  rewrite Hacts, entry_errors_singleton in Hi. destruct (entry_error (m !! key) act) as [e|].
  - destruct Hi as [(He & _)|(_ & Hm & Hcall)]; [by apply map_non_empty_singleton in He|].
    split; [done|]. by apply on_inner_Fail.
  - destruct Hi as [(_ & Hm & Hcall)|(Hne & _)]; [|done]. split; [done|]. by apply on_inner_Ret.
Qed.

Lemma fetch_ok D m name s :
  stored m (inner s) -> dir_rep D m ->
  exists s', stored m (inner s') /\
    fetch client parent name s =
      match D !! name with Some p => Ret p s' | None => Fail FileNotFound s' end.
Proof.
  intros Hst Hrep. destruct (stored_get m (file_key name) (inner s) Hst) as (i & Hi & Hget).
  exists (set_inner i s). split; [done|]. unfold fetch, map_err, or_else.
  rewrite file_key_ok, bind_lift_ok. specialize (Hrep name).
  destruct (m !! file_key name) as [v|], (D !! name) as [[ver f]|]; try done.
  - rewrite (bind_Ret _ _ _ _ _ (on_inner_Ret _ _ _ _ Hget)).
    destruct Hrep as (Hver & plain & Hdec & Hdes). rewrite Hdec, bind_lift_ok, Hdes.
    cbn [from_serialisation]. rewrite bind_lift_ok. simpl in *. by rewrite Hver.
  - unfold bind. by rewrite (on_inner_Fail _ _ _ _ Hget).
Qed.

(** The calls of the helper that change a directory, of published files. *)
Definition dir_call (op : DirOp) : M S NfsError Z :=
  match op with
  | OpInsert name file => insert client parent name file ;! ret 0%Z
  | OpUpdate name file version_ => update client parent name file version_
  | OpDelete name version_ => delete client parent name true version_
  end.

(** How the answer of the abstract directory shows: a deletion without a file fails
    with another error than the other calls. *)
Definition answer (op : DirOp) (a : DirAnswer) (s' : S) : outcome S NfsError Z :=
  match a with
  | DirOk v => Ret v s'
  | DirMissing =>
      Fail match op with OpDelete _ _ => NfsCoreError (DataError NoSuchEntry) | _ => FileNotFound end s'
  | DirRefused e =>
      Fail (NfsCoreError (DataError (InvalidEntryActions {[ file_key (op_name op) := e ]}))) s'
  end.

Lemma insert_refines D m name file s :
  stored m (inner s) -> dir_rep D m ->
  let op := OpInsert name file in
  exists s' m', dir_call op s = answer op (dir_step op D).1 s' /\ stored m' (inner s') /\
    dir_rep (dir_step op D).2 m'.
Proof.
  intros Hst Hrep op. destruct (file_entry_ok name file s) as (data & r & Hent & Hheld).
  set (act := Ins {| seq_data := data; seq_version := 0 |}).
  destruct (mutate_one m act (file_key name) (seq_actions_ins seq_actions_new (file_key name) data 0)
    (set_auth_rng r s) Hst) as [s' Hs']; [apply seq_ins_into|].
  pose proof (dir_rep_change D m name act (Some (0%Z, file)) Hrep (Hheld 0%Z)) as Hnew.
  exists s'. simpl. unfold insert, nfs_from_core, map_err, or_else, bind at 1.
  rewrite (bind_Ret _ _ _ _ _ Hent). specialize (Hrep name) as Hname.
  destruct (m !! file_key name) as [v|] eqn:Hm, (D !! name) as [[ver f]|]; try done; simpl in Hs'.
  - destruct Hs' as [Hst' ->]. exists m. destruct Hname as [Hver _]. simpl in Hver. rewrite Hver. split_and!; [|done|done]. reflexivity.
  - destruct Hs' as [Hst' ->]. exists (entries_applied m {[ file_key name := act ]}). done.
Qed.

Lemma next_version_ok D m name s :
  stored m (inner s) -> dir_rep D m -> dir_room D ->
  exists s', stored m (inner s') /\
    next_file_version client parent (file_key name) s =
      match D !! name with
      | Some (v, _) => Ret (v + 1)%Z s'
      | None => Fail (DataError NoSuchEntry) s'
      end.
Proof.
  intros Hst Hrep Hroom. destruct (stored_get m (file_key name) (inner s) Hst) as (i & Hi & Hget).
  exists (set_inner i s). split; [done|]. unfold next_file_version. specialize (Hrep name).
  destruct (m !! file_key name) as [v|], (D !! name) as [[ver f]|] eqn:HD; try done.
  - rewrite (bind_Ret _ _ _ _ _ (on_inner_Ret _ _ _ _ Hget)). destruct Hrep as [Hver _].
    simpl in Hver. rewrite Hver. specialize (Hroom name _ HD). simpl in Hroom.
    by rewrite u64_add_small by lia.
  - unfold bind. by rewrite (on_inner_Fail _ _ _ _ Hget).
Qed.

(** A mutation that carries a version, against the abstract change. *)
Lemma versioned_change D m name act new acts s w :
  stored m (inner s) -> dir_rep D m ->
  seq_into_actions acts = {[ file_key name := act ]} ->
  match act, new with
  | Update v, Some p => seq_version v = w /\ holds_file v p
  | Del n, None => n = w
  | _, _ => False
  end ->
  let change := partial_alter (fun _ => new) name D in
  exists s' m', stored m' (inner s') /\
    match dir_change D name (Custom w) (fun _ => change) with
    | (DirOk _, D') => D' = change /\ dir_rep D' m' /\
        on_inner (mutate_seq_mdata_entries client (parent_name parent) (parent_tag parent) acts) s = Ret tt s'
    | (DirRefused e, D') => D' = D /\ m' = m /\
        on_inner (mutate_seq_mdata_entries client (parent_name parent) (parent_tag parent) acts) s =
          Fail (DataError (InvalidEntryActions {[ file_key name := e ]})) s'
    | (DirMissing, _) => False
    end.
Proof.
  intros Hst Hrep Hacts Hact change. destruct (mutate_one m act (file_key name) acts s Hst Hacts) as [s' Hs'].
  assert (Hnew : dir_rep change (entries_applied m {[ file_key name := act ]}))
    by (apply dir_rep_change; [done|]; destruct act, new; naive_solver).
  specialize (Hrep name) as Hname. unfold dir_change.
  destruct (m !! file_key name) as [v|] eqn:Hm, (D !! name) as [[ver f]|] eqn:HD; try done.
  - destruct Hname as [Hver _]. simpl in Hver.
    assert (Herr : entry_error (Some v) act = if decide (w = ver + 1)%Z then None
      else Some (EInvalidSuccessor (narrow ver))).
    { destruct act as [?|[d n]|n], new as [p|]; try done; simpl in *; [destruct Hact as [<- _]|subst n];
        rewrite Hver; case_decide as Hw; [by rewrite (proj2 (Z.eqb_eq _ _) Hw)|
          by rewrite (proj2 (Z.eqb_neq _ _) Hw)|by rewrite (proj2 (Z.eqb_eq _ _) Hw)|
          by rewrite (proj2 (Z.eqb_neq _ _) Hw)]. }
    rewrite Herr in Hs'. exists s'. case_decide; destruct Hs' as [Hst' Hcall]; eauto 10.
  - assert (Herr : entry_error None act = Some ENoSuchEntry) by (destruct act as [?|[] |?], new; done).
    rewrite Herr in Hs'. destruct Hs' as [Hst' Hcall]. eauto 10.
Qed.

Lemma nfs_from_core_Ret {A} (m0 : M S CoreError A) a s s' : m0 s = Ret a s' -> nfs_from_core m0 s = Ret a s'.
Proof. intros Hm. unfold nfs_from_core, map_err, or_else. by rewrite Hm. Qed.

Lemma nfs_from_core_Fail {A} (m0 : M S CoreError A) e s s' :
  m0 s = Fail e s' -> nfs_from_core m0 s = Fail (NfsCoreError e) s'.
Proof. intros Hm. unfold nfs_from_core, map_err, or_else. by rewrite Hm. Qed.

Lemma versioned_update D m name data f s w :
  stored m (inner s) -> dir_rep D m -> holds_file {| seq_data := data; seq_version := w |} (w, f) ->
  let op := OpUpdate name f (Custom w) in
  exists s' m', stored m' (inner s') /\ dir_rep (dir_step op D).2 m' /\
    map_err convert_error
      (on_inner (mutate_seq_mdata_entries client (parent_name parent) (parent_tag parent)
         (seq_actions_update seq_actions_new (file_key name) data w)) ;! ret w) s =
      answer op (dir_step op D).1 s'.
Proof.
  intros Hst Hrep Hheld op.
  destruct (versioned_change D m name (Update {| seq_data := data; seq_version := w |}) (Some (w, f))
    (seq_actions_update seq_actions_new (file_key name) data w) s w Hst Hrep) as (s' & m' & Hst' & Hch);
    [apply seq_update_into|done|].
  exists s', m'. split; [done|]. unfold op. cbn [dir_step]. unfold dir_change in *.
  unfold map_err, or_else, bind. destruct (D !! name) as [[ver g]|]; [case_decide|].
  - destruct Hch as (_ & Hrep' & Hcall). by rewrite Hcall.
  - destruct Hch as (_ & -> & Hcall). by rewrite Hcall.
  - destruct Hch as (_ & -> & Hcall). by rewrite Hcall.
Qed.

(** A chosen version behaves as the version it stands for. *)
Lemma dir_change_next D name v f (change : Z -> Dir) :
  D !! name = Some (v, f) ->
  dir_change D name GetNext change = dir_change D name (Custom (v + 1)) change.
Proof. intros HD. unfold dir_change. rewrite HD. by rewrite decide_True. Qed.

Lemma update_refines D m name file version_ s :
  stored m (inner s) -> dir_rep D m -> dir_room D ->
  let op := OpUpdate name file version_ in
  exists s' m', dir_call op s = answer op (dir_step op D).1 s' /\ stored m' (inner s') /\
    dir_rep (dir_step op D).2 m'.
Proof.
  intros Hst Hrep Hroom op. destruct (file_entry_ok name file s) as (data & r & Hent & Hheld).
  unfold op. cbn [dir_call]. unfold update, map_err, or_else. rewrite (bind_Ret _ _ _ _ _ Hent).
  destruct version_ as [|w].
  - destruct (next_version_ok D m name (set_auth_rng r s) Hst Hrep Hroom) as (s1 & Hst1 & Hnext).
    destruct (D !! name) as [[v f]|] eqn:HD.
    + rewrite (bind_Ret _ _ _ _ _ Hnext). cbn [dir_step]. rewrite (dir_change_next D name v f _ HD).
      destruct (versioned_update D m name data file s1 (v + 1) Hst1 Hrep (Hheld _)) as (s' & m' & H1 & H2 & H3).
      exists s', m'. split_and!; [exact H3|done|done].
    + exists s1, m. split_and!; [|done|by cbn [dir_step]; unfold dir_change; rewrite HD].
      unfold bind. rewrite Hnext. cbn [dir_step]. unfold dir_change. by rewrite HD.
  - erewrite bind_Ret by reflexivity.
    destruct (versioned_update D m name data file (set_auth_rng r s) w Hst Hrep (Hheld _)) as (s' & m' & H1 & H2 & H3).
    exists s', m'. split_and!; [exact H3|done|done].
Qed.

Lemma versioned_delete D m name s w :
  stored m (inner s) -> dir_rep D m ->
  let op := OpDelete name (Custom w) in
  exists s' m', stored m' (inner s') /\ dir_rep (dir_step op D).2 m' /\
    (map_err convert_error
      (on_inner (mutate_seq_mdata_entries client (parent_name parent) (parent_tag parent)
         (seq_actions_del seq_actions_new (file_key name) w))) ;! ret w) s =
      answer op (dir_step op D).1 s'.
Proof.
  intros Hst Hrep op.
  destruct (versioned_change D m name (Del w) None
    (seq_actions_del seq_actions_new (file_key name) w) s w Hst Hrep) as (s' & m' & Hst' & Hch);
    [apply seq_del_into|done|].
  exists s', m'. split; [done|]. unfold op. cbn [dir_step]. unfold dir_change in *.
  unfold map_err, or_else, bind. destruct (D !! name) as [[ver g]|]; [case_decide|].
  - destruct Hch as (_ & Hrep' & Hcall). by rewrite Hcall.
  - destruct Hch as (_ & -> & Hcall). by rewrite Hcall.
  - destruct Hch as (_ & -> & Hcall). by rewrite Hcall.
Qed.

Lemma delete_refines D m name version_ s :
  stored m (inner s) -> dir_rep D m -> dir_room D ->
  let op := OpDelete name version_ in
  exists s' m', dir_call op s = answer op (dir_step op D).1 s' /\ stored m' (inner s') /\
    dir_rep (dir_step op D).2 m'.
Proof.
  intros Hst Hrep Hroom op. unfold op. cbn [dir_call]. unfold delete.
  rewrite file_key_ok. erewrite bind_Ret by reflexivity. cbn [negb]. destruct version_ as [|w].
  - destruct (next_version_ok D m name s Hst Hrep Hroom) as (s1 & Hst1 & Hnext).
    destruct (D !! name) as [[v f]|] eqn:HD.
    + rewrite (bind_Ret _ _ _ _ _ (nfs_from_core_Ret _ _ _ _ Hnext)). erewrite bind_Ret by reflexivity.
      cbn [dir_step]. rewrite (dir_change_next D name v f _ HD).
      destruct (versioned_delete D m name s1 (v + 1) Hst1 Hrep) as (s' & m' & H1 & H2 & H3).
      exists s', m'. split_and!; [exact H3|done|done].
    + exists s1, m. split_and!; [|done|by cbn [dir_step]; unfold dir_change; rewrite HD].
      unfold bind. rewrite (nfs_from_core_Fail _ _ _ _ Hnext). cbn [dir_step]. unfold dir_change. by rewrite HD.
  - erewrite bind_Ret by reflexivity. erewrite bind_Ret by reflexivity.
    destruct (versioned_delete D m name s w Hst Hrep) as (s' & m' & H1 & H2 & H3).
    exists s', m'. split_and!; [exact H3|done|done].
Qed.


(** A deletion of an unpublished file takes its data map away first, so that a
    deletion with a version that is then refused leaves an entry without data. *)
Lemma delete_unpublished_order name w ver f s s1 s2 e s3 :
  fetch client parent name s = Ret (ver, f) s1 ->
  on_inner (del_unpub_idata client (data_map_name f)) s1 = Ret tt s2 ->
  on_inner (mutate_seq_mdata_entries client (parent_name parent) (parent_tag parent)
    (seq_actions_del seq_actions_new (file_key name) w)) s2 = Fail e s3 ->
  delete client parent name false (Custom w) s = Fail (convert_error e) s3.
Proof.
  intros Hf Hdel Hmut. unfold delete. rewrite file_key_ok. erewrite bind_Ret by reflexivity.
  erewrite bind_Ret by reflexivity. cbn [negb]. erewrite bind_Ret.
  2: { rewrite (bind_Ret _ _ _ _ _ Hf). rewrite (bind_Ret _ _ _ _ _ (nfs_from_core_Ret _ _ _ _ Hdel)).
       reflexivity. }
  unfold bind, map_err, or_else. by rewrite Hmut.
Qed.
End directory.

(** * The contents of files *)

Section contents.
Context `{ndt : !NdTypes, ndo : !NdOps, core : !CoreExt, lru : !LruOps}.
Context `{cr : !Crypto, crl : !CryptoLaws, auth : !AuthExt}.
Context `{se : !SelfEnc, sel : !SelfEncLaws, sql : !SeqEncLaws, ide : !IDataExt, idl : !IDataLaws}.
Context `{chr : !Chrono}.
Context {W : Type} `{net : !Network W}.
Context `{sdm : !Serial DataMap, sdml : !SerialLaws DataMap}.
Context `{sdt : !Serial DataTypeEncoding, sdtl : !SerialLaws DataTypeEncoding}.
Context `{sid : !Serial IData, sidl : !SerialLaws IData}.
Context (client : Client) (pub : bool).

Abbreviation S := (AuthState (W := W)).
Implicit Types (s : S) (value : bytes) (file : File).

Context (Inv : S -> Prop) (le : S -> S -> Prop) (Hkeeps : keeps_idata client pub Inv le).
Context (Hshrink : data_maps_shrink client pub).
Abbreviation st := (SelfEncryptionStorage client pub).

#[local] Instance contents_preorder : PreOrder le := keeps_preorder _ _ _ _ Hkeeps.

(** The data map of the file can be got, and stands for [value]. *)
Definition file_holds (file : File) (key : option SymEncKey) (value : bytes) (s : S) : Prop :=
  exists F, forall s1, Inv s1 -> le s s1 ->
    exists dm s2, data_map_get F client (data_address file) key s1 = Ret dm s2 /\ Inv s2 /\ le s1 s2 /\
      maps_to st Inv le dm value s2.

Lemma data_map_get_mono k n addr key s dm s' :
  data_map_get k client addr key s = Ret dm s' -> data_map_get (k + n) client addr key s = Ret dm s'.
Proof.
  unfold data_map_get, nfs_from_core, map_err, or_else, bind.
  destruct (get_value client k addr key s) as [b s1|e s1|s1|s1] eqn:Hg; try done.
  by rewrite (get_value_mono client k n addr key s b s1 Hg).
Qed.

Lemma maps_to_evolves dm value s s' : le s s' -> maps_to st Inv le dm value s -> maps_to st Inv le dm value s'.
Proof. by apply (maps_to_later client pub Inv le Hkeeps). Qed.

(** A data map is stored so that files with its name hold what it stands for. *)
Lemma data_map_put_ok dm value key s :
  Inv s -> maps_to st Inv le dm value s ->
  exists F name s', Inv s' /\ le s s' /\
    (forall fuel, F <= fuel -> data_map_put fuel client dm pub key s = Ret name s') /\
    forall file, data_map_name file = name -> published file = pub -> file_holds file key value s'.
Proof.
  intros Hs Hm. destruct (serial_roundtrip dm) as (enc & Henc & _ & Hdes).
  destruct (create_extract client pub Inv le Hkeeps enc key s Hshrink Hs)
    as (F & v & s1 & _ & Hs1 & Hle1 & Hall).
  set (d := storage_idata client pub v) in *.
  destruct (keeps_put _ _ _ _ Hkeeps v s1 Hs1) as (s2 & Hput & Hs2 & Hle2 & Hget). fold d in Hput, Hget.
  exists F, (idata_name d), s2. split_and!; [done|by trans s1| |].
  - intros fuel HF. destruct (Hall fuel HF) as [Hcreate _]. unfold data_map_put. apply nfs_from_core_Ret.
    rewrite Henc. cbn [from_serialisation]. rewrite bind_lift_ok, (bind_Ret _ _ _ _ _ Hcreate).
    by rewrite (bind_Ret _ _ _ _ _ Hput).
  - intros file Hname Hpub. exists F. intros s3 Hs3 Hle3.
    destruct (Hget s3 Hs3 Hle3) as (s4 & Hg & Hs4 & Hle4).
    destruct (Hall F ltac:(done)) as [_ Hext].
    destruct (Hext s4 Hs4) as (s5 & He & Hs5 & Hle5); [trans s2; [done|by trans s3]|].
    exists dm, s5. split_and!; [|done|by trans s4|].
    + assert (data_address file = idata_address d) as ->.
      { unfold data_address. rewrite Hname, Hpub. destruct (storage_idata_address client pub v)
          as (n & _ & Hn & Haddr). fold d in Haddr. unfold idata_name. rewrite Haddr. by destruct pub. }
      unfold data_map_get. erewrite bind_Ret.
      2: { apply nfs_from_core_Ret. unfold get_value. by rewrite (bind_Ret _ _ _ _ _ Hg). }
      by rewrite Hdes.
    + eapply maps_to_evolves; [|exact Hm]. trans s1; [done|]. trans s2; [done|]. trans s3; [done|]. by trans s4.
Qed.

(** * Writing and reading *)

Fixpoint write_all (w : Writer) (chunks : list bytes) : M S NfsError Writer :=
  match chunks with
  | [] => ret w
  | chunk :: chunks => let! w := writer_write client w chunk in write_all w chunks
  end.

(** A writer, its writes and its end. *)
Definition write_file (fuel : nat) (file : File) (mode : Mode) (key : option SymEncKey)
    (chunks : list bytes) : M S NfsError File :=
  let! w := write fuel client file mode key in
  let! w := write_all w chunks in
  writer_close fuel client w.

(** What the file holds before it is written in a mode. *)
Definition starts_with (file : File) (mode : Mode) (key : option SymEncKey) (value : bytes) (s : S) :
    Prop :=
  match mode with Overwrite => value = [] | Append => file_holds file key value s end.

Definition writer_holds (w : Writer) (value : bytes) (s : S) : Prop :=
  seq_holds st Inv le (wr_self_encryptor w) value s.

Lemma nfs_self_encryption_Ret {A} (m0 : M S SelfEncryptionError A) a s s' :
  m0 s = Ret a s' -> nfs_self_encryption m0 s = Ret a s'.
Proof. intros Hm. unfold nfs_self_encryption, map_err, or_else. by rewrite Hm. Qed.

Lemma writer_new_ok file mode key value s :
  Inv s -> published file = pub -> starts_with file mode key value s ->
  exists F w s', (forall fuel, F <= fuel -> write fuel client file mode key s = Ret w s') /\
    Inv s' /\ le s s' /\ wr_file w = file /\ wr_encryption_key w = key /\ writer_holds w value s'.
Proof.
  intros Hs Hpub Hstart. pose proof (storage_reliable client pub Inv le Hkeeps) as Hrel.
  assert (exists F start s1, (forall fuel, F <= fuel ->
      or_else match mode with
        | Append => let! data_map := data_map_get fuel client (data_address file) key in ret (Some data_map)
        | Overwrite => ret None
        end (fun err => match err with NfsCoreError (DataError NoSuchData) => ret None | _ => fail err end) s
        = Ret start s1) /\ Inv s1 /\ le s s1 /\
      match start with None => value = [] | Some dm => maps_to st Inv le dm value s1 end)
    as (F & start & s1 & Hdm & Hs1 & Hle1 & Hval).
  { destruct mode.
    - exists 0, None, s. split_and!; [done|done|done|done].
    - destruct Hstart as [F Hget]. destruct (Hget s Hs) as (dm & s1 & Hg & Hs1 & Hle1 & Hm); [done|].
      exists F, (Some dm), s1. split_and!; [|done|done|done]. intros fuel HF.
      replace fuel with (F + (fuel - F)) by lia. unfold or_else.
      rewrite (bind_Ret _ _ _ _ _ (data_map_get_mono F (fuel - F) _ _ _ _ _ Hg)). reflexivity. }
  destruct (seq_new_ok st Inv le start value s1 Hrel Hs1 Hval) as (q & s2 & Hq & Hs2 & Hle2 & Hholds).
  exists F, {| wr_file := file; wr_self_encryptor := q; wr_encryption_key := key |}, s2.
  split_and!; [|done|by trans s1|done..]. intros fuel HF. unfold write, Writer_new. rewrite Hpub.
  rewrite (bind_Ret _ _ _ _ _ (Hdm fuel HF)).
  by rewrite (bind_Ret _ _ _ _ _ (nfs_self_encryption_Ret _ _ _ _ Hq)).
Qed.

Lemma write_all_ok chunks w value s :
  Inv s -> published (wr_file w) = pub -> writer_holds w value s ->
  exists w' s', write_all w chunks s = Ret w' s' /\ Inv s' /\ le s s' /\ wr_file w' = wr_file w /\
    wr_encryption_key w' = wr_encryption_key w /\ writer_holds w' (value ++ concat chunks) s'.
Proof.
  revert w value s. induction chunks as [|chunk chunks IH]; intros w value s Hs Hpub Hw; simpl.
  - exists w, s. rewrite app_nil_r. by split_and!.
  - pose proof (storage_reliable client pub Inv le Hkeeps) as Hrel.
    destruct (seq_write_ok st Inv le _ value chunk s Hrel Hs Hw) as (q & s1 & Hq & Hs1 & Hle1 & Hholds).
    set (w1 := {| wr_file := wr_file w; wr_self_encryptor := q; wr_encryption_key := wr_encryption_key w |}).
    destruct (IH w1 (value ++ chunk) s1 Hs1 Hpub Hholds) as (w' & s' & Hall & Hs' & Hle' & Hf & Hk & Hh).
    exists w', s'. rewrite app_assoc. split_and!; [|done|by trans s1|done..].
    erewrite bind_Ret; [exact Hall|]. unfold writer_write. rewrite Hpub.
    by rewrite (bind_Ret _ _ _ _ _ (nfs_self_encryption_Ret _ _ _ _ Hq)).
Qed.

Lemma writer_close_ok w value s :
  Inv s -> published (wr_file w) = pub -> writer_holds w value s ->
  exists F file s', (forall fuel, F <= fuel -> writer_close fuel client w s = Ret file s') /\
    Inv s' /\ le s s' /\ size file = Z.of_nat (length value) /\ published file = pub /\
    created file = created (wr_file w) /\ user_metadata file = user_metadata (wr_file w) /\
    file_holds file (wr_encryption_key w) value s'.
Proof.
  intros Hs Hpub Hw. pose proof (storage_reliable client pub Inv le Hkeeps) as Hrel.
  pose proof (seq_len_ok st Inv le _ _ _ Hw) as Hlen.
  destruct (seq_close_ok st Inv le _ value s Hrel Hs Hw) as (dm & s1 & Hc & Hs1 & Hle1 & Hm).
  destruct (data_map_put_ok dm value (wr_encryption_key w) s1 Hs1 Hm)
    as (F & name & s2 & Hs2 & Hle2 & Hput & Hfile).
  destruct (keeps_rng _ _ _ _ Hkeeps s2 (Datatypes.S (auth_rng s2)) Hs2) as [Hs3 Hle3].
  eexists F, _, (set_auth_rng (Datatypes.S (auth_rng s2)) s2). split_and!; [|done| |..].
  - intros fuel HF. unfold writer_close. rewrite Hpub.
    rewrite (bind_Ret _ _ _ _ _ (nfs_self_encryption_Ret _ _ _ _ Hc)).
    rewrite (bind_Ret _ _ _ _ _ (Hput fuel HF)). reflexivity.
  - trans s1; [done|by trans s2].
  - done.
  - done.
  - done.
  - done.
  - destruct (Hfile (set_data_map_name name (wr_file w)) eq_refl Hpub) as [F' HF']. exists F'.
    intros s4 Hs4 Hle4. apply HF'; [done|by etrans].
Qed.

(** A reader of the file reads every range inside it, and no other. *)
Lemma reader_ok file key value s :
  published file = pub -> file_holds file key value s -> Inv s ->
  exists F, forall fuel s1, F <= fuel -> Inv s1 -> le s s1 ->
    exists r s2, read fuel client file key s1 = Ret r s2 /\ Inv s2 /\ le s1 s2 /\
      reader_size r = Z.of_nat (length value) /\
      forall pos len s3, Inv s3 -> le s2 s3 -> (Z.of_nat (pos + len) < u64_modulus)%Z ->
        if decide (pos + len <= length value) then
          exists s4, reader_read client r (Z.of_nat pos) (Z.of_nat len) s3 =
            Ret (take len (drop pos value)) s4 /\ Inv s4 /\ le s3 s4
        else reader_read client r (Z.of_nat pos) (Z.of_nat len) s3 = Fail InvalidRange s3.
Proof.
  intros Hpub [F Hget] Hs. exists F. intros fuel s1 HF Hs1 Hle1.
  destruct (Hget s1 Hs1 Hle1) as (dm & s2 & Hg & Hs2 & Hle2 & (e & He & Hlen & Hread)).
  exists {| rd_published := published file; rd_self_encryptor := e |}, s2. split_and!; [|done|done|done|].
  - unfold read, Reader_new. replace fuel with (F + (fuel - F)) by lia.
    rewrite (bind_Ret _ _ _ _ _ (data_map_get_mono F (fuel - F) _ _ _ _ _ Hg)). by rewrite He.
  - intros pos len s3 Hs3 Hle3 Hfit. unfold reader_read, reader_size. cbn [rd_self_encryptor rd_published].
    rewrite Hlen, u64_add_small by lia. rewrite Hpub. case_decide as Hr.
    + destruct (Hread s3 pos len Hs3 Hle3 Hr) as (s4 & Hrd & Hs4 & Hle4). exists s4.
      split_and!; [|done|done]. rewrite (proj2 (Z.ltb_ge _ _)) by lia. by apply nfs_self_encryption_Ret.
    + by rewrite (proj2 (Z.ltb_lt _ _)) by lia.
Qed.

End contents.

(** The check of the range adds in 64 bits: a range whose end wraps passes it. *)
Lemma reader_range_wraps `{!NdTypes, !NdOps, !CoreExt, !LruOps, !SelfEnc, !IDataExt} {W : Type} `{net : !Network W}
    (client : Client) (r : Reader) (s : AuthState (W := W)) :
  (0 <= reader_size r)%Z ->
  reader_read client r u64_max 1 s =
    nfs_self_encryption (enc_read (SelfEncryptionStorage client (rd_published r)) (rd_self_encryptor r) u64_max 1) s.
Proof. intros Hsz. unfold reader_read. by rewrite (proj2 (Z.ltb_ge _ _)). Qed.
