(* ===== verification/NfsMock.v ===== *)
(** Directories and files on the mock network: the witnesses. *)
From S2P Require Import Prelude SafeNd SafeNdModel MockAccount MockVault.
From S2P Require Import MockVaultRequests MockVaultProcess MockVaultSpec.
From S2P Require Import MockVaultRefine MockVaultSafety MockVaultBehaviour MockVaultAccess.
From S2P Require Import CoreTypes ClientApi MockStore MockConnection MockShared.
From S2P Require Import MockClient MockVaultLocal Recovery RecoveryProofs RecoveryRepair SeqStore.
From S2P Require Import MDataInfo MDataInfoProofs AuthTypes AuthConfigProofs RevocationMock AuthModel.
From S2P Require Import SelfEncryption SelfEncryptionProofs SelfEncryptionMock Nfs NfsProofs.

(** A file survives its C representation. *)
Lemma file_repr_roundtrip `{!NdTypes, !CoreExt, !Chrono, !ChronoLaws} (f : File) rng :
  exists rng', file_clone_from_repr_c (file_into_repr_c f) rng = Ret f rng'.
Proof.
  unfold file_clone_from_repr_c, convert_date_time. simpl. rewrite !timestamp_roundtrip.
  eexists. unfold bind. simpl. destruct f as [sz c md um [n] p]. reflexivity.
Qed.

#[export] Instance ModelChrono : Chrono := {|
  DateTime := Z * Z; utc_now_at i := (Z.of_nat i, 0%Z);
  timestamp := fst; timestamp_subsec_nanos := snd;
  from_timestamp_opt sec nsec := Some (sec, nsec);
|}.
#[export] Instance ModelChronoLaws : ChronoLaws.
Proof. by intros []. Qed.

Definition file_code : Type := Z * (Z * Z) * (Z * Z) * bytes * XorName * bool.
Definition file_to (f : File) : file_code :=
  (size f, (created f : Z * Z), (modified f : Z * Z), user_metadata f, data_map_name f, published f).
Definition file_of (t : file_code) : File :=
  let '(s, c, m, u, d, p) := t in
  {| size := s; created := (c : DateTime); modified := (m : DateTime); user_metadata := u;
     data_map_name := d; published := p |}.
#[export] Instance SerialFile : Serial File := {|
  serialize_of f := serialize_of (Serial := countable_serial file_code) (file_to f);
  deserialize_of b := rmap file_of (deserialize_of (Serial := countable_serial file_code) b);
|}.
#[export] Instance SerialFileLaws : SerialLaws File.
Proof.
  intros f. eexists. split_and!; [done|done|]. simpl. rewrite decode_encode. by destruct f.
Qed.

Definition ex_file : File :=
  {| size := 0; created := ((1, 0)%Z : DateTime); modified := ((2, 0)%Z : DateTime); user_metadata := [7%Z];
     data_map_name := MkXorName (replicate 32 0%Z); published := true |}.

Lemma ex_access_stored :
  mock_stored ex_full_id (ex_name 71) 15000 ∅ (inner ex_auth_state).
Proof.
  split.
  - split_and!; [by split|exact ex_auth_vault_wf|done].
  - exists ex_access_data. split_and!; [|done|done]. vm_refl.
Qed.

Definition ex_dir : gmap string (Z * File) := <["notes" := (0%Z, ex_file)]> ∅.


