(* ===== verification/AppObjects.v ===== *)
(** What an app keeps between the calls of its C interface: the cache of objects
    that handles stand for ([safe_app/src/object_cache.rs], [ffi/object_cache.rs]), the
    context of the app ([lib.rs]) and its client ([client.rs]), cipher options
    ([cipher_opt.rs]) and permissions of users ([permissions.rs]).

    The thirteen stores of the cache are one store per kind of object, with the type
    of its values computed from the kind.  [AppExt] holds the asymmetric cipher of
    [threshold_crypto] and what only these files use of [safe_nd]. *)
From S2P Require Import Prelude SafeNd SafeNdModel MockAccount CoreTypes ClientApi Recovery.
From S2P Require Import MDataInfo AuthTypes AppAuth AppErrors Ipc SelfEncryption Nfs.
From S2P Require Import AccountPacket AuthLogin.

Class AppExt `{!NdTypes, !CoreExt, !AuthExt, !AppAuthExt} := {
  Ciphertext : Type;
  (** [PublicKey::encrypt], which draws from the generator of the thread, and
      [SecretKey::decrypt]. *)
  pk_encrypt_at : nat -> EncPublicKey -> bytes -> Ciphertext;
  sk_decrypt : EncSecretKey -> Ciphertext -> option bytes;
  (** [MDataSeqEntryActions::add_action]. *)
  seq_add_action : MDataSeqEntryActions -> bytes -> MDataSeqEntryAction -> MDataSeqEntryActions;
  (** [IData::serialised_size], and [bincode::serialized_size] of mutable data. *)
  idata_serialised_size_of : IData -> Z;
  seq_mdata_serialized_size : SeqMutableData -> result Z SerialisationError;
  (** The contacts of the configuration file and the union of two sets of contacts. *)
  config_contacts : BootstrapConfig;
  contacts_union : BootstrapConfig -> BootstrapConfig -> BootstrapConfig;
}.

Class AppExtLaws `{!NdTypes, !CoreExt, !AuthExt, !AppAuthExt, !AppExt} := {
  (** What is encrypted to the public key of a pair is decrypted by its secret key. *)
  keypair_decrypts i j plain :
    sk_decrypt (gen_keypair_at i).2 (pk_encrypt_at j (gen_keypair_at i).1 plain) = Some plain;
}.

Definition NULL_OBJECT_HANDLE : Z := 0.
Abbreviation ObjectHandle := Z.

(** * Handles and stores *)

(** [HandleGenerator]: the last handle it gave; the counter wraps. *)
Definition handle_gen_new : ObjectHandle := NULL_OBJECT_HANDLE.
Definition handle_gen_gen (g : ObjectHandle) : ObjectHandle := u64_add g 1.

Inductive CipherOpt `{!NdTypes, !CoreExt, !AuthExt} :=
| PlainText
| Symmetric
| Asymmetric (peer_encrypt_key : EncPublicKey).

Section objects.
Context `{ndt : !NdTypes, ndo : !NdOps, core : !CoreExt, lru : !LruOps, cr : !Crypto}.
Context `{auth : !AuthExt, aa : !AppAuthExt, se : !SelfEnc, ide : !IDataExt, chr : !Chrono}.
Context `{ffi : !FfiUtils, ipc : !IpcExt, ax : !AppExt, aext : !AccountExt}.

(** [FileContext] of [ffi/nfs.rs]. *)
Record FileContext := {
  reader : option Reader;
  writer : option Writer;
  original_file : File;
}.

(** An encryptor owns its storage, whose only field besides the client is whether the
    data is published. *)
Record SeReader := { ser_published : bool; ser_encryptor : Encryptor }.
Record SeWriter := { sew_published : bool; sew_encryptor : SeqEncryptor }.

Inductive Kind :=
| KCipherOpt | KEncryptKey | KSecretKey | KSeqEntries | KUnseqEntries | KSeqActions
| KUnseqActions | KPermissions | KSeReader | KSeWriter | KPubSignKey | KSecSignKey | KFile.

#[export] Instance Kind_eq : EqDecision Kind.
Proof. solve_decision. Defined.

Definition kind_type (k : Kind) : Type :=
  match k with
  | KCipherOpt => CipherOpt
  | KEncryptKey => EncPublicKey
  | KSecretKey => EncSecretKey
  | KSeqEntries => MDataSeqEntries
  | KUnseqEntries => MDataUnseqEntries
  | KSeqActions => MDataSeqEntryActions
  | KUnseqActions => MDataUnseqEntryActions
  | KPermissions => gmap PublicKey MDataPermissionSet
  | KSeReader => SeReader
  | KSeWriter => SeWriter
  | KPubSignKey => PublicKey
  | KSecSignKey => ClientFullId
  | KFile => FileContext
  end.

(** The error of each instance of [impl_cache!]. *)
Definition kind_error (k : Kind) : AppError :=
  match k with
  | KCipherOpt => InvalidCipherOptHandle
  | KEncryptKey => InvalidEncryptPubKeyHandle
  | KSecretKey => InvalidEncryptSecKeyHandle
  | KSeqEntries => InvalidMDataEntriesHandle
  | KSeqActions => InvalidMDataEntryActionsHandle
  | KUnseqEntries => InvalidMDataEntriesHandle
  | KUnseqActions => InvalidMDataEntryActionsHandle
  | KPermissions => InvalidMDataPermissionsHandle
  | KSeReader => InvalidSelfEncryptorHandle
  | KSeWriter => InvalidSelfEncryptorHandle
  | KPubSignKey => InvalidSignPubKeyHandle
  | KSecSignKey => InvalidSignSecKeyHandle
  | KFile => InvalidFileContextHandle
  end.

Abbreviation Store k := (gmap ObjectHandle (kind_type k)).

(** [ObjectCache]: the generator and the stores. *)
Record ObjectCache := { handle_gen : ObjectHandle; stores : forall k, Store k }.

Definition ObjectCache_new : ObjectCache := {| handle_gen := handle_gen_new; stores := fun _ => ∅ |}.

Definition set_store (k : Kind) (m : Store k) (c : ObjectCache) : ObjectCache :=
  {| handle_gen := handle_gen c;
     stores := fun k' => match decide (k = k') with
                         | left H => eq_rect k (fun k => Store k) m k' H
                         | right _ => stores c k'
                         end |}.

(** [reset] and the clearing of every store. *)
Definition cache_reset (_ : ObjectCache) : ObjectCache :=
  {| handle_gen := handle_gen_new; stores := fun _ => ∅ |}.

(** The methods [impl_cache!] defines for each kind.  [cache_put] is an assignment
    through the reference that [get] returns. *)
Definition cache_insert (k : Kind) (value : kind_type k) (c : ObjectCache) :
    ObjectHandle * ObjectCache :=
  let handle := handle_gen_gen (handle_gen c) in
  let c := {| handle_gen := handle; stores := stores c |} in
  (handle, set_store k (<[handle := value]> (stores c k)) c).

Definition cache_get (k : Kind) (handle : ObjectHandle) (c : ObjectCache) :
    result (kind_type k) AppError :=
  ok_or_r (stores c k !! handle) (kind_error k).

Definition cache_remove (k : Kind) (handle : ObjectHandle) (c : ObjectCache) :
    result (kind_type k) AppError * ObjectCache :=
  (ok_or_r (stores c k !! handle) (kind_error k),
   set_store k (base.delete handle (stores c k)) c).

Definition cache_put (k : Kind) (handle : ObjectHandle) (value : kind_type k) (c : ObjectCache) :
    ObjectCache :=
  set_store k (alter (fun _ => value) handle (stores c k)) c.

(** * The client of an app *)

(** [AppInner]. *)
Record AppInner := {
  ai_keys : AppKeys;
  ai_owner_key : PublicKey;
  ai_config : option BootstrapConfig;
}.

(** What [AppClient] gives to the functions of the trait [Client]: [full_id] and
    [owner_key]; the encryption keys are those of [ai_keys]. *)
Definition app_client_of (i : AppInner) : Client :=
  {| full_id := app_safe_key (ai_keys i); owner_key := ai_owner_key i |}.

Definition public_encryption_key (i : AppInner) : EncPublicKey := app_enc_pk (ai_keys i).
Definition secret_encryption_key (i : AppInner) : EncSecretKey := app_enc_sk (ai_keys i).
Definition app_secret_symmetric_key (i : AppInner) : SymEncKey := app_enc_key (ai_keys i).

(** * The context of an app *)

Record Registered := {
  reg_object_cache : ObjectCache;
  reg_app_id : string;
  reg_sym_enc_key : SymEncKey;
  access_container_info : AccessContInfo;
  access_info : AccessContainerEntry;
}.

Inductive AppContext :=
| CtxUnregistered (c : ObjectCache)
| CtxRegistered (r : Registered).

Definition context_unregistered : AppContext := CtxUnregistered ObjectCache_new.

Definition context_registered (app_id_ : string) (sym_enc_key_ : SymEncKey)
    (access_container_info_ : AccessContInfo) : AppContext :=
  CtxRegistered {| reg_object_cache := ObjectCache_new; reg_app_id := app_id_;
    reg_sym_enc_key := sym_enc_key_; access_container_info := access_container_info_;
    access_info := ∅ |}.

Definition object_cache (ctx : AppContext) : ObjectCache :=
  match ctx with CtxUnregistered c => c | CtxRegistered r => reg_object_cache r end.

Definition as_registered (ctx : AppContext) : result Registered AppError :=
  match ctx with
  | CtxRegistered a => Ok a
  | CtxUnregistered _ => Err AppOperationForbidden
  end.

Definition sym_enc_key (ctx : AppContext) : result SymEncKey AppError :=
  let? r := as_registered ctx in Ok (reg_sym_enc_key r).

Definition set_object_cache (c : ObjectCache) (ctx : AppContext) : AppContext :=
  match ctx with
  | CtxUnregistered _ => CtxUnregistered c
  | CtxRegistered r =>
      CtxRegistered {| reg_object_cache := c; reg_app_id := reg_app_id r;
        reg_sym_enc_key := reg_sym_enc_key r; access_container_info := access_container_info r;
        access_info := access_info r |}
  end.

Definition set_access_info (e : AccessContainerEntry) (ctx : AppContext) : AppContext :=
  match ctx with
  | CtxUnregistered c => CtxUnregistered c
  | CtxRegistered r =>
      CtxRegistered {| reg_object_cache := reg_object_cache r; reg_app_id := reg_app_id r;
        reg_sym_enc_key := reg_sym_enc_key r; access_container_info := access_container_info r;
        access_info := e |}
  end.

(** * The session of an app *)

Context {W : Type} `{net : !Network W}.

(** What the event loop of an app owns: the inner client and the context. *)
Record AppSession := { core_state : AuthState (W := W); context : AppContext }.

Abbreviation A T := (M AppSession AppError T).

Definition set_core_state (c : AuthState) (s : AppSession) : AppSession :=
  {| core_state := c; context := context s |}.
Definition set_context (ctx : AppContext) (s : AppSession) : AppSession :=
  {| core_state := core_state s; context := ctx |}.

(** A future of [safe_core], with [map_err(AppError::from)]. *)
Definition on_core {E T} (conv : E -> AppError) (m : M AuthState E T) : A T := fun s =>
  match m (core_state s) with
  | Ret a c => Ret a (set_core_state c s)
  | Fail e c => Fail (conv e) (set_core_state c s)
  | Panic c => Panic (set_core_state c s)
  | Pending c => Pending (set_core_state c s)
  end.

Definition of_result {E T} (conv : E -> AppError) (r : result T E) : A T :=
  match r with Ok t => ret t | Err e => fail (conv e) end.

Definition insert_obj (k : Kind) (value : kind_type k) : A ObjectHandle := fun s =>
  let '(h, c) := cache_insert k value (object_cache (context s)) in
  Ret h (set_context (set_object_cache c (context s)) s).

Definition get_obj (k : Kind) (handle : ObjectHandle) : A (kind_type k) := fun s =>
  match cache_get k handle (object_cache (context s)) with
  | Ok v => Ret v s
  | Err e => Fail e s
  end.

Definition remove_obj (k : Kind) (handle : ObjectHandle) : A (kind_type k) := fun s =>
  let '(r, c) := cache_remove k handle (object_cache (context s)) in
  let s' := set_context (set_object_cache c (context s)) s in
  match r with Ok v => Ret v s' | Err e => Fail e s' end.

Definition put_obj (k : Kind) (handle : ObjectHandle) (value : kind_type k) : A unit :=
  modify (fun s =>
    set_context (set_object_cache (cache_put k handle value (object_cache (context s)))
      (context s)) s).

Definition reset_objects : A unit :=
  modify (fun s =>
    set_context (set_object_cache (cache_reset (object_cache (context s))) (context s)) s).

(** ** The access container *)

Context `{sentry : !Serial AccessContainerEntry}.

(** The function [refresh_access_info], on a registered context. *)
Definition refresh_access_info_of (client : AppInner) (reg : Registered) : A unit :=
  let! entry_key := of_result app_from_core
    (access_container_enc_key (reg_app_id reg) (reg_sym_enc_key reg)
      (aci_nonce (access_container_info reg))) in
  let! value := on_core app_from_core
    (on_inner (get_seq_mdata_value (app_client_of client) (aci_id (access_container_info reg))
      (aci_tag (access_container_info reg)) entry_key)) in
  let! encoded := of_result app_from_core (symmetric_decrypt (seq_data value) (reg_sym_enc_key reg)) in
  let! decoded := of_result app_from_serialisation (deserialize_of encoded) in
  modify (fun s => set_context (set_access_info decoded (context s)) s).

(** The function [fetch_access_info]: only an empty copy is refreshed. *)
Definition fetch_access_info (client : AppInner) (reg : Registered) : A unit :=
  if decide (access_info reg = ∅) then refresh_access_info_of client reg else ret tt.

(** The methods of [AppContext]. *)
Definition refresh_access_info (client : AppInner) : A unit :=
  let! ctx := gets context in
  let! reg := of_result id (as_registered ctx) in
  refresh_access_info_of client reg.

Definition get_access_info (client : AppInner) : A AccessContainerEntry :=
  let! ctx := gets context in
  let! reg := of_result id (as_registered ctx) in
  fetch_access_info client reg ;!
  let! ctx := gets context in
  let! reg := of_result id (as_registered ctx) in
  ret (access_info reg).

(** ** Cipher options *)

Inductive WireFormat :=
| WPlain (plain_text : bytes)
| WSymmetric (nonce cipher_text : bytes)
| WAsymmetric (c : Ciphertext).

Context `{swire : !Serial WireFormat}.

Definition pk_encrypt (pk : EncPublicKey) (plain_text : bytes) : M Rng CoreError Ciphertext :=
  fun i => Ret (pk_encrypt_at i pk plain_text) (S i).

Definition cipher_opt_encrypt (opt : CipherOpt) (plain_text : bytes) : A bytes :=
  match opt with
  | PlainText => of_result app_from_serialisation (serialize_of (WPlain plain_text))
  | Symmetric =>
      let! nonce := on_core app_from_core (on_rng generate_nonce) in
      let! app_ctx := gets context in
      let! key := of_result id (sym_enc_key app_ctx) in
      let cipher_text := siv_seal key nonce plain_text in
      of_result app_from_serialisation (serialize_of (WSymmetric nonce cipher_text))
  | Asymmetric peer_encrypt_key =>
      let! cipher_text := on_core app_from_core (on_rng (pk_encrypt peer_encrypt_key plain_text)) in
      of_result app_from_serialisation (serialize_of (WAsymmetric cipher_text))
  end.

Definition cipher_opt_decrypt (cipher_text : bytes) (client : AppInner) : A bytes :=
  match cipher_text with
  | [] => ret []
  | _ =>
      let! wire := of_result app_from_serialisation (deserialize_of cipher_text) in
      match wire with
      | WPlain plain_text => ret plain_text
      | WSymmetric nonce cipher_text =>
          let! app_ctx := gets context in
          let! key := of_result id (sym_enc_key app_ctx) in
          ok_or (siv_open key nonce cipher_text) (app_from_core SymmetricDecipherFailure)
      | WAsymmetric cipher_text =>
          ok_or (sk_decrypt (secret_encryption_key client) cipher_text)
            (app_from_core AsymmetricDecipherFailure)
      end
  end.

(** ** Permissions of users *)

Record UserPermissionSet := { user_h : ObjectHandle; perm_set : MDataPermissionSet }.
Record FfiUserPermissionSet := { fup_user_h : ObjectHandle; fup_perm_set : FfiPermissionSet }.

Definition user_permission_set_into_repr_c (u : UserPermissionSet) : FfiUserPermissionSet :=
  {| fup_user_h := user_h u; fup_perm_set := permission_set_into_repr_c (perm_set u) |}.

Definition user_permission_set_clone_from_repr_c (c : FfiUserPermissionSet) :
    result UserPermissionSet IpcError :=
  let? perm_set_ := permission_set_clone_from_repr_c (fup_perm_set c) in
  Ok {| user_h := fup_user_h c; perm_set := perm_set_ |}.

(** * Creation of apps *)

(** [ConnectionManager::new] for a set of contacts. *)
Context (connection_manager_new : BootstrapConfig -> result W CoreError).

(** The creation of a client draws from the generator of the thread; a call of the
    connection manager it creates gives back the manager. *)
Abbreviation B T := (M Rng AppError T).

Definition on_manager {T} (m : M W CoreError T) (cm : W) : B (result T CoreError * W) := fun r =>
  match m cm with
  | Ret a cm => Ret (Ok a, cm) r
  | Fail e cm => Ret (Err e, cm) r
  | Panic _ => Panic r
  | Pending _ => Pending r
  end.

Definition boot_result {E T} (conv : E -> AppError) (r : result T E) : B T :=
  match r with Ok t => ret t | Err e => fail (conv e) end.

Definition app_client_unregistered (config : option BootstrapConfig) :
    B (AppInner * ClientInner W) :=
  let! client_id_ := (fun i => Ret (client_new_bls_at i) (S i)) in
  let! app_keys := map_err app_from_core (app_keys_new (client_full_public_id client_id_)) in
  let pk := app_keys_public_key app_keys in
  let contacts := match config with
                  | Some additional_contacts => contacts_union config_contacts additional_contacts
                  | None => config_contacts
                  end in
  let! connection_manager_ := boot_result app_from_core (connection_manager_new contacts) in
  let! (res, connection_manager_) :=
    on_manager (cm_bootstrap (app_safe_key app_keys)) connection_manager_ in
  boot_result app_from_core res ;!
  ret ({| ai_keys := app_keys; ai_owner_key := pk; ai_config := config |},
       new_client_inner connection_manager_).

(** What [bootstrap] returns is dropped. *)
Definition from_keys_impl (keys_ : AppKeys) (owner : PublicKey) (config : BootstrapConfig)
    (connection_manager_wrapper_fn : W -> W) : B (AppInner * ClientInner W) :=
  let contacts := contacts_union config_contacts config in
  let! connection_manager_ := boot_result app_from_core (connection_manager_new contacts) in
  let! (_, connection_manager_) :=
    on_manager (cm_bootstrap (app_safe_key keys_)) connection_manager_ in
  let connection_manager_ := connection_manager_wrapper_fn connection_manager_ in
  ret ({| ai_keys := keys_; ai_owner_key := owner; ai_config := Some config |},
       new_client_inner connection_manager_).

Definition from_keys (keys_ : AppKeys) (owner : PublicKey) (config : BootstrapConfig) :
    B (AppInner * ClientInner W) :=
  from_keys_impl keys_ owner config (fun routing => routing).

(** [App::new]: what the event loop of the new app runs with. *)
Definition App_new (setup : B ((AppInner * ClientInner W) * AppContext)) :
    B (AppInner * AppSession) :=
  let! (client, ctx) := setup in
  let '(app_inner, inner_) := client in
  let! rng := (fun r => Ret r r) in
  ret (app_inner, {| core_state := {| inner := inner_; auth_rng := rng |}; context := ctx |}).

Definition App_unregistered (config : option BootstrapConfig) : B (AppInner * AppSession) :=
  App_new
    (let! client := app_client_unregistered config in
     ret (client, context_unregistered)).

(** The key of the owner of the app. *)
Definition granted_owner_key (auth_granted : AuthGranted) : PublicKey :=
  client_public_key (app_owner (app_full_public_id (app_full_id (granted_keys auth_granted)))).

Definition App_registered_impl (app_id_ : string) (auth_granted : AuthGranted) :
    B (AppInner * AppSession) :=
  let app_keys := granted_keys auth_granted in
  App_new
    (let! client := from_keys app_keys (granted_owner_key auth_granted)
                      (granted_bootstrap auth_granted) in
     ret (client, context_registered app_id_ (app_enc_key app_keys)
                    (granted_access_info auth_granted))).

Definition App_registered_with_hook (app_id_ : string) (auth_granted : AuthGranted)
    (connection_manager_wrapper_fn : W -> W) : B (AppInner * AppSession) :=
  let app_keys := granted_keys auth_granted in
  App_new
    (let! client := from_keys_impl app_keys (granted_owner_key auth_granted)
                      (granted_bootstrap auth_granted) connection_manager_wrapper_fn in
     ret (client, context_registered app_id_ (app_enc_key app_keys)
                    (granted_access_info auth_granted))).
End objects.
