(* ===== verification/AppFfi.v ===== *)
(** The C interface of apps ([safe_app/src/ffi]): one definition per exported
    function.  A function converts its arguments, runs on the client and the context
    of the app, and calls back with what the definition returns: the arguments of the
    callback, or the error.  Vectors and strings that a function only passes on are
    the vectors and strings themselves.

    [fuel] bounds the nesting of data maps, as in [SelfEncryption]. *)
From S2P Require Import Prelude SafeNd SafeNdModel MockAccount CoreTypes ClientApi.
From S2P Require Import Recovery MDataInfo AuthTypes AppAuth AppErrors Ipc.
From S2P Require Import SelfEncryption Nfs AccountPacket AuthLogin AppObjects.

Section ffi.
Context `{ndt : !NdTypes, ndo : !NdOps, core : !CoreExt, lru : !LruOps, cr : !Crypto}.
Context `{auth : !AuthExt, aa : !AppAuthExt, se : !SelfEnc, ide : !IDataExt, chr : !Chrono}.
Context `{ffi : !FfiUtils, ipc : !IpcExt, ax : !AppExt, aext : !AccountExt}.
Context {W : Type} `{net : !Network W}.
Context (fuel : nat) (client : AppInner).

Abbreviation A T := (M (AppSession (W := W)) AppError T).
Let c : Client := app_client_of client.

(** [From<NulError> for AppError], with the text of the error. *)
Definition app_from_nul (_ : NulError) : AppError := app_from_str "nul byte found in data".

(** Calls of [safe_core], with the conversion of their errors. *)
Abbreviation core_call m := (on_core app_from_core (on_inner m)).
Abbreviation ipc_result r := (of_result app_from_ipc r).
Abbreviation serialised r := (of_result app_from_serialisation r).

(** * Apps ([ffi/mod.rs]) *)

Definition app_is_mock (mock_network : bool) : bool := mock_network.

Definition app_reset_object_cache : A unit := reset_objects.

(** [app_container_name], on the string an app passes. *)
Definition ffi_app_container_name (app_id_ : string) : result string AppError :=
  match CString_new (app_container_name app_id_) with
  | Ok name => Ok name
  | Err e => Err (app_from_nul e)
  end.

(** * The access container ([ffi/access_container.rs]) *)

Section access.
Context `{sentry : !Serial AccessContainerEntry}.

Definition access_container_refresh_access_info : A unit := refresh_access_info client.

Definition access_container_fetch : A (list FfiContainerPermissions) :=
  let! containers := get_access_info client in
  of_result app_from_nul (containers_into_vec (map (fun '(key, (_, value)) => (key, value)) (hash_iter containers))).

Definition access_container_get_container_mdata_info (name : option string) : A FfiMDataInfo :=
  let! name := of_result app_from_string_error (string_clone_from_repr_c name) in
  let! containers := get_access_info client in
  match (containers : AccessContainerEntry) !! name with
  | Some (mdata_info, _) => ret (into_repr_c mdata_info)
  | None => fail (AppNoSuchContainer name)
  end.
End access.

(** * Cipher options ([ffi/cipher_opt.rs]) *)

Definition cipher_opt_new_plaintext : A ObjectHandle := insert_obj KCipherOpt PlainText.
Definition cipher_opt_new_symmetric : A ObjectHandle := insert_obj KCipherOpt Symmetric.
Definition cipher_opt_new_asymmetric (peer_encrypt_key_h : ObjectHandle) : A ObjectHandle :=
  let! pk := get_obj KEncryptKey peer_encrypt_key_h in
  insert_obj KCipherOpt (Asymmetric pk).
Definition cipher_opt_free (handle : ObjectHandle) : A unit :=
  let! _ := remove_obj KCipherOpt handle in ret tt.

(** * Keys and signatures ([ffi/crypto.rs]) *)

Definition SIGN_WITH_APP : ObjectHandle := NULL_OBJECT_HANDLE.
Definition VERIFY_WITH_APP : ObjectHandle := NULL_OBJECT_HANDLE.

Section crypto.
Context `{spk : !Serial PublicKey, sid : !Serial ClientFullId, ssig : !Serial Signature}.
Context `{ssk : !Serial EncSecretKey, sct : !Serial Ciphertext}.

Definition app_pub_sign_key : A ObjectHandle := insert_obj KPubSignKey (public_key c).

Definition sign_generate_key_pair : A (ObjectHandle * ObjectHandle) :=
  let! full_id_ := on_core app_from_core (on_rng (fun i => Ret (client_new_bls_at i) (S i))) in
  let public_key_ := client_public_key (client_full_public_id full_id_) in
  let! pk_h := insert_obj KPubSignKey public_key_ in
  let! sk_h := insert_obj KSecSignKey full_id_ in
  ret (pk_h, sk_h).

(** The bytes are unwrapped: malformed ones panic. *)
Definition sign_pub_key_new (data : bytes) : A ObjectHandle :=
  let! key := unwrap_result (deserialize_of data) in
  insert_obj KPubSignKey key.

Definition sign_pub_key_get (handle : ObjectHandle) : A bytes :=
  let! key := get_obj KPubSignKey handle in
  serialised (serialize_of (key : PublicKey)).

Definition sign_pub_key_free (handle : ObjectHandle) : A unit :=
  let! _ := remove_obj KPubSignKey handle in ret tt.

Definition sign_sec_key_new (data : bytes) : A ObjectHandle :=
  let! full_id_ := serialised (deserialize_of data) in
  insert_obj KSecSignKey full_id_.

Definition sign_sec_key_get (handle : ObjectHandle) : A bytes :=
  let! sign_sk := get_obj KSecSignKey handle in
  serialised (serialize_of (sign_sk : ClientFullId)).

Definition sign_sec_key_free (handle : ObjectHandle) : A unit :=
  let! _ := remove_obj KSecSignKey handle in ret tt.

Definition app_pub_enc_key : A ObjectHandle := insert_obj KEncryptKey (public_encryption_key client).

Definition enc_generate_key_pair : A (ObjectHandle * ObjectHandle) :=
  let! (ourpk, oursk) := on_core app_from_core (on_rng (fun i => Ret (gen_keypair_at i) (S i))) in
  let! pk_h := insert_obj KEncryptKey ourpk in
  let! sk_h := insert_obj KSecretKey oursk in
  ret (pk_h, sk_h).

(** A null pointer is refused. *)
Definition enc_pub_key_new (data : option bytes) : A ObjectHandle :=
  let! raw := ok_or data AppEncodeDecodeError in
  let! key := of_result (fun _ => AppEncodeDecodeError) (enc_pk_from_bytes raw) in
  insert_obj KEncryptKey key.

Definition enc_pub_key_get (handle : ObjectHandle) : A bytes :=
  let! key := get_obj KEncryptKey handle in
  ret (enc_pk_to_bytes key).

Definition enc_pub_key_free (handle : ObjectHandle) : A unit :=
  let! _ := remove_obj KEncryptKey handle in ret tt.

Definition enc_secret_key_new (sk : bytes) : A ObjectHandle :=
  let! key := of_result (fun _ => AppEncodeDecodeError) (from_serialisation (deserialize_of sk)) in
  insert_obj KSecretKey key.

Definition enc_secret_key_get (handle : ObjectHandle) : A bytes :=
  let! key := get_obj KSecretKey handle in
  of_result (fun _ => AppEncodeDecodeError) (serialize_of (key : EncSecretKey)).

Definition enc_secret_key_free (handle : ObjectHandle) : A unit :=
  let! _ := remove_obj KSecretKey handle in ret tt.

Definition sign (data : bytes) (sign_sk_h : ObjectHandle) : A bytes :=
  let! signature :=
    if (sign_sk_h =? SIGN_WITH_APP)%Z then ret (safe_key_sign (full_id c) data)
    else
      let! sign_sk := get_obj KSecSignKey sign_sk_h in
      ret (client_sign sign_sk data) in
  serialised (serialize_of signature).

Definition verify (signed signature_array : bytes) (sign_pk_h : ObjectHandle) : A Z :=
  let! signature := serialised (deserialize_of signature_array) in
  let! sign_pk :=
    if (sign_pk_h =? VERIFY_WITH_APP)%Z then ret (public_key c)
    else get_obj KPubSignKey sign_pk_h in
  let result_ := pk_verify sign_pk signature signed in
  ret (if is_ok result_ then 1 else 0)%Z.

Definition encrypt_sealed_box (data : bytes) (public_key_h : ObjectHandle) : A bytes :=
  let! pk := get_obj KEncryptKey public_key_h in
  let! ciphertext := on_core app_from_core (on_rng (pk_encrypt pk data)) in
  serialised (serialize_of ciphertext).

Definition decrypt_sealed_box (data : bytes) (secret_key_h : ObjectHandle) : A bytes :=
  let! deserialized := serialised (deserialize_of data) in
  let! sk := get_obj KSecretKey secret_key_h in
  ok_or (sk_decrypt sk deserialized) AppEncodeDecodeError.

Definition sha3_hash (data : bytes) : A bytes := ret (sha3_256 data).
End crypto.

(** * Immutable data ([ffi/immutable_data.rs]) *)

Section idata.
Context `{sdm : !Serial DataMap, sdt : !Serial DataTypeEncoding, sidata : !Serial IData}.
Context `{swire : !Serial WireFormat}.

(** Futures of the encryptors. *)
Abbreviation se_call m := (on_core app_from_self_encryption m).

Definition idata_new_self_encryptor (published_ : bool) : A ObjectHandle :=
  let se_storage := SelfEncryptionStorage c published_ in
  let! se_ := se_call (seq_new se_storage None) in
  insert_obj KSeWriter {| sew_published := published_; sew_encryptor := se_ |}.

Definition idata_write_to_self_encryptor (se_h : ObjectHandle) (data : bytes) : A unit :=
  let! w := get_obj KSeWriter se_h in
  let! se_ := se_call
    (seq_write (SelfEncryptionStorage c (sew_published w)) (sew_encryptor w) data) in
  put_obj KSeWriter se_h {| sew_published := sew_published w; sew_encryptor := se_ |}.

(** The writer is removed first, and is lost when a later step fails. *)
Definition idata_close_self_encryptor (se_h cipher_opt_h : ObjectHandle) (published_ : bool) :
    A bytes :=
  let! w := remove_obj KSeWriter se_h in
  let! data_map := se_call
    (seq_close (SelfEncryptionStorage c (sew_published w)) (sew_encryptor w)) in
  let! ser_data_map := serialised (serialize_of data_map) in
  let! cipher_opt := get_obj KCipherOpt cipher_opt_h in
  let! enc_data_map := cipher_opt_encrypt cipher_opt ser_data_map in
  let! data := on_core app_from_core (SelfEncryption.create c fuel enc_data_map published_ None) in
  let name := idata_name data in
  core_call (put_idata c data) ;!
  ret (xor_name_0 name).

(** [IDataAddress::from_kind(IDataKind::from_flag(published), name)]. *)
Definition idata_address_of (published_ : bool) (name : bytes) : IDataAddress :=
  if published_ then IPub (MkXorName name) else IUnpub (MkXorName name).

Definition idata_fetch_self_encryptor (name : bytes) (published_ : bool) : A ObjectHandle :=
  let! enc_data_map := on_core app_from_core
    (get_value c fuel (idata_address_of published_ name) None) in
  let! ser_data_map := cipher_opt_decrypt enc_data_map client in
  let! data_map := serialised (deserialize_of ser_data_map) in
  let! se_reader := of_result app_from_self_encryption (enc_new data_map) in
  insert_obj KSeReader {| ser_published := published_; ser_encryptor := se_reader |}.

Definition idata_serialised_size (name : bytes) (published_ : bool) : A Z :=
  let! idata := core_call (get_idata c (idata_address_of published_ name)) in
  ret (idata_serialised_size_of idata).

Definition idata_size (se_h : ObjectHandle) : A Z :=
  let! r := get_obj KSeReader se_h in
  ret (enc_len (ser_encryptor r)).

(** The sum of position and length wraps. *)
Definition idata_read_from_self_encryptor (se_h : ObjectHandle) (from_pos len : Z) : A bytes :=
  let! r := get_obj KSeReader se_h in
  if (enc_len (ser_encryptor r) <? u64_add from_pos len)%Z
  then fail InvalidSelfEncryptorReadOffsets
  else se_call (enc_read (SelfEncryptionStorage c (ser_published r)) (ser_encryptor r) from_pos len).

Definition idata_self_encryptor_writer_free (handle : ObjectHandle) : A unit :=
  let! _ := remove_obj KSeWriter handle in ret tt.
Definition idata_self_encryptor_reader_free (handle : ObjectHandle) : A unit :=
  let! _ := remove_obj KSeReader handle in ret tt.
End idata.

(** * Files ([ffi/nfs.rs]) *)

Definition GET_NEXT_VERSION : Z := 0.
Definition OPEN_MODE_OVERWRITE : Z := 1.
Definition OPEN_MODE_APPEND : Z := 2.
Definition OPEN_MODE_READ : Z := 4.
Definition FILE_READ_TO_END : Z := 0.

Section nfs.
Context `{sdm : !Serial DataMap, sdt : !Serial DataTypeEncoding, sidata : !Serial IData}.
Context `{sfile : !Serial File}.

Abbreviation nfs_call m := (on_core app_from_nfs m).
Abbreviation string_arg s := (of_result app_from_string_error (string_clone_from_repr_c s)).
Abbreviation file_arg f := (nfs_call (on_clock (file_clone_from_repr_c f))).

Definition version_arg (version_ : Z) : Version :=
  if (version_ =? GET_NEXT_VERSION)%Z then GetNext else Custom version_.

Definition dir_fetch_file (parent_info : FfiMDataInfo) (file_name : option string) :
    A (FfiFile * Z) :=
  let parent_info := clone_from_repr_c parent_info in
  let! file_name := string_arg file_name in
  let! (version_, file) := nfs_call (fetch c parent_info file_name) in
  ret (file_into_repr_c file, version_).

Definition dir_insert_file (parent_info : FfiMDataInfo) (file_name : option string)
    (file : FfiFile) : A unit :=
  let parent_info := clone_from_repr_c parent_info in
  let! file := file_arg file in
  let! file_name := string_arg file_name in
  nfs_call (Nfs.insert c parent_info file_name file).

Definition dir_update_file (parent_info : FfiMDataInfo) (file_name : option string)
    (file : FfiFile) (version_ : Z) : A Z :=
  let parent_info := clone_from_repr_c parent_info in
  let! file := file_arg file in
  let! file_name := string_arg file_name in
  nfs_call (update c parent_info file_name file (version_arg version_)).

Definition dir_delete_file (parent_info : FfiMDataInfo) (file_name : option string)
    (published_ : bool) (version_ : Z) : A Z :=
  let parent_info := clone_from_repr_c parent_info in
  let! file_name := string_arg file_name in
  nfs_call (Nfs.delete c parent_info file_name published_ (version_arg version_)).

(** [MDataInfo::enc_key]. *)
Definition info_enc_key (info_ : MDataInfo) : option SymEncKey := fst <$> enc_info info_.

(** The futures of the reader and of the writer are made before they are joined. *)
Definition file_open (parent_info : FfiMDataInfo) (file : FfiFile) (open_mode : Z) :
    A ObjectHandle :=
  let parent_info := clone_from_repr_c parent_info in
  let! file := file_arg file in
  let! reader_ := attempt
    (if negb (Z.land open_mode OPEN_MODE_READ =? 0)%Z then
       let! r := nfs_call (Nfs.read fuel c file (info_enc_key parent_info)) in ret (Some r)
     else ret None) in
  let! writer_ := attempt
    (if negb (Z.land open_mode (Z.lor OPEN_MODE_OVERWRITE OPEN_MODE_APPEND) =? 0)%Z then
       let writer_mode := if negb (Z.land open_mode OPEN_MODE_APPEND =? 0)%Z then Append
                          else Overwrite in
       let! w := nfs_call (Nfs.write fuel c file writer_mode (info_enc_key parent_info)) in
       ret (Some w)
     else ret None) in
  let! reader_ := lift_result reader_ in
  let! writer_ := lift_result writer_ in
  insert_obj KFile {| reader := reader_; writer := writer_; original_file := file |}.

Definition file_size (file_h : ObjectHandle) : A Z :=
  let! file_ctx := get_obj KFile file_h in
  match reader file_ctx with
  | Some reader_ => ret (reader_size reader_)
  | None => fail InvalidFileMode
  end.

(** The length up to the end of the file wraps when the position is beyond it. *)
Definition file_read (file_h : ObjectHandle) (position len : Z) : A bytes :=
  let! file_ctx := get_obj KFile file_h in
  match reader file_ctx with
  | Some reader_ =>
      let len := if (len =? FILE_READ_TO_END)%Z then u64_sub (reader_size reader_) position
                 else len in
      nfs_call (reader_read c reader_ position len)
  | None => fail InvalidFileMode
  end.

Definition file_write (file_h : ObjectHandle) (data : bytes) : A unit :=
  let! file_ctx := get_obj KFile file_h in
  match writer file_ctx with
  | Some writer_ =>
      let! writer_ := nfs_call (writer_write c writer_ data) in
      put_obj KFile file_h {| reader := reader file_ctx; writer := Some writer_;
                              original_file := original_file file_ctx |}
  | None => fail InvalidFileMode
  end.

Definition file_close (file_h : ObjectHandle) : A FfiFile :=
  let! file_ctx := remove_obj KFile file_h in
  match writer file_ctx with
  | Some writer_ =>
      let! file := nfs_call (writer_close fuel c writer_) in
      ret (file_into_repr_c file)
  | None => ret (file_into_repr_c (original_file file_ctx))
  end.
End nfs.
End ffi.

(** * Creation of apps ([ffi/mod.rs]) *)

Section creation.
Context `{ndt : !NdTypes, ndo : !NdOps, core : !CoreExt, lru : !LruOps, cr : !Crypto}.
Context `{auth : !AuthExt, aa : !AppAuthExt, se : !SelfEnc, chr : !Chrono}.
Context `{ffi : !FfiUtils, ipc : !IpcExt, ax : !AppExt, aext : !AccountExt}.
Context `{sboot : !Serial BootstrapConfig, sfull : !Serial AppFullId, ssk : !Serial EncSecretKey}.
Context {W : Type} `{net : !Network W}.
Context (connection_manager_new : BootstrapConfig -> result W CoreError).

(** A null pointer, or a length of zero, is no configuration. *)
Definition app_unregistered (bootstrap_config_ : option bytes) :
    M Rng AppError (AppInner * AppSession (W := W)) :=
  let! config := match bootstrap_config_ with
                 | None | Some [] => ret None
                 | Some config_serialised =>
                     let! config := boot_result app_from_serialisation (deserialize_of config_serialised) in
                     ret (Some config)
                 end in
  App_unregistered connection_manager_new config.

Definition app_registered (app_id_ : option string) (auth_granted : FfiAuthGranted) :
    M Rng AppError (AppInner * AppSession (W := W)) :=
  let! app_id_ := boot_result app_from_string_error (string_clone_from_repr_c app_id_) in
  let! auth_granted := boot_result app_from_ipc (auth_granted_clone_from_repr_c auth_granted) in
  App_registered_impl connection_manager_new app_id_ auth_granted.
End creation.

(** * What needs no app

    Information about mutable data ([safe_app/src/ffi/mdata_info.rs]), its metadata
    ([ffi/mutable_data/metadata.rs]), and the messages between apps and the
    authenticator ([ffi/ipc.rs]). *)

Section mdata_info.
Context `{ndt : !NdTypes, ndo : !NdOps, core : !CoreExt, lru : !LruOps, cr : !Crypto}.
Context `{auth : !AuthExt, aa : !AppAuthExt, ffi : !FfiUtils, ipc : !IpcExt}.

Abbreviation G T := (M Rng AppError T).

Definition app_result {S E T} (conv : E -> AppError) (r : result T E) : M S AppError T :=
  match r with Ok t => ret t | Err e => fail (conv e) end.

(** * Information about mutable data *)

Definition mdata_info_new_private (md_seq : bool) (name : bytes) (type_tag : Z)
    (secret_key nonce : bytes) : G FfiMDataInfo :=
  let md_kind := md_kind_clone_from_repr_c md_seq in
  let address_ := mdata_address_from_kind md_kind (MkXorName name) type_tag in
  ret (into_repr_c (new_private address_ (secret_key, nonce))).

Definition mdata_info_random_public (md_seq : bool) (type_tag : Z) : G FfiMDataInfo :=
  let md_kind := md_kind_clone_from_repr_c md_seq in
  let! info_ := map_err app_from_core (random_public md_kind type_tag) in
  ret (into_repr_c info_).

Definition mdata_info_random_private (md_seq : bool) (type_tag : Z) : G FfiMDataInfo :=
  let md_kind := md_kind_clone_from_repr_c md_seq in
  let! info_ := map_err app_from_core (random_private md_kind type_tag) in
  ret (into_repr_c info_).

Definition mdata_info_encrypt_entry_key (info_ : FfiMDataInfo) (input : bytes) : G bytes :=
  app_result app_from_core (enc_entry_key (clone_from_repr_c info_) input).

Definition mdata_info_encrypt_entry_value (info_ : FfiMDataInfo) (input : bytes) : G bytes :=
  map_err app_from_core (enc_entry_value (clone_from_repr_c info_) input).

Definition mdata_info_decrypt (info_ : FfiMDataInfo) (input : bytes) : G bytes :=
  app_result app_from_core (decrypt (clone_from_repr_c info_) input).

Context `{sinfo : !Serial MDataInfo, smeta : !Serial UserMetadata}.

Definition mdata_info_serialise (info_ : FfiMDataInfo) : G bytes :=
  app_result app_from_serialisation (serialize_of (clone_from_repr_c info_)).

Definition mdata_info_deserialise (encoded : bytes) : G FfiMDataInfo :=
  let! info_ := app_result app_from_serialisation (deserialize_of encoded) in
  ret (into_repr_c (info_ : MDataInfo)).

Definition mdata_encode_metadata (metadata : MetadataResponse) : G bytes :=
  let! metadata := app_result app_from_ipc (user_metadata_clone_from_repr_c metadata) in
  app_result app_from_serialisation (serialize_of metadata).
End mdata_info.

Section ipc_msgs.
Context `{ndt : !NdTypes, ndo : !NdOps, core : !CoreExt, lru : !LruOps, cr : !Crypto}.
Context `{auth : !AuthExt, aa : !AppAuthExt, ffi : !FfiUtils, ipc : !IpcExt}.
Context `{smsg : !Serial (IpcMsg * bool)} (mock_network : bool).
Context `{sfull : !Serial AppFullId, ssk : !Serial EncSecretKey, sboot : !Serial BootstrapConfig}.

Abbreviation R T := (result T AppError).

Definition map_err_r {T E F} (f : E -> F) (r : result T E) : result T F :=
  match r with Ok t => Ok t | Err e => Err (f e) end.

(** * Requests of apps *)

(** [drawn] is the random number [gen_req_id] starts from. *)

Definition encode_ipc (req_id : Z) (req : IpcReq) : R string :=
  let? encoded := map_err_r app_from_ipc (encode_msg mock_network (MReq req_id req)) in
  map_err_r app_from_nul (CString_new encoded).

Definition encode_auth_req (drawn : Z) (req : FfiAuthReq) : R (Z * string) :=
  let req_id := gen_req_id drawn in
  let? req := map_err_r app_from_ipc (auth_req_clone_from_repr_c req) in
  let? encoded := encode_ipc req_id (ReqAuth req) in
  Ok (req_id, encoded).

Definition encode_containers_req (drawn : Z) (req : FfiContainersReq) : R (Z * string) :=
  let req_id := gen_req_id drawn in
  let? req := map_err_r app_from_ipc (containers_req_clone_from_repr_c req) in
  let? encoded := encode_ipc req_id (ReqContainers req) in
  Ok (req_id, encoded).

Definition encode_unregistered_req (drawn : Z) (extra_data : bytes) : R (Z * string) :=
  let req_id := gen_req_id drawn in
  let? encoded := encode_ipc req_id (ReqUnregistered extra_data) in
  Ok (req_id, encoded).

Definition encode_share_mdata_req (drawn : Z) (req : FfiShareMDataReq) : R (Z * string) :=
  let req_id := gen_req_id drawn in
  let? req := map_err_r app_from_ipc (share_mdata_req_clone_from_repr_c req) in
  let? encoded := encode_ipc req_id (ReqShareMData req) in
  Ok (req_id, encoded).

(** * Answers to apps *)

(** The callbacks of [decode_ipc_msg]. *)
Inductive Answer :=
| OAuth (req_id : Z) (auth_granted : FfiAuthGranted)
| OUnregistered (req_id : Z) (serialised_cfg : bytes)
| OContainers (req_id : Z)
| OShareMData (req_id : Z)
| ORevoked
| OErr (error_code : Z) (description : string) (req_id : Z).

(** [ffi_error!]: the code of an error, and its text. *)
Context `{ctxt : !CoreTexts, atxt : !AuthTexts}.

Definition error_answer (req_id : Z) (e : AppError) : R Answer :=
  let? description := map_err_r (fun n => app_from_string_error (string_error_from_nul n))
                        (CString_new (app_error_display e)) in
  Ok (OErr (AppErrors.error_code e) description req_id).

Definition decode_ipc_msg_impl (msg : IpcMsg) : R Answer :=
  match msg with
  | MResp req_id (RespAuth res) =>
      match res with
      | Ok auth_granted =>
          match auth_granted_into_repr_c auth_granted with
          | Ok auth_granted => Ok (OAuth req_id auth_granted)
          | Err err => error_answer req_id (app_from_ipc err)
          end
      | Err err => error_answer req_id (app_from_ipc err)
      end
  | MResp req_id (RespContainers res) =>
      match res with
      | Ok _ => Ok (OContainers req_id)
      | Err err => error_answer req_id (app_from_ipc err)
      end
  | MResp req_id (RespUnregistered res) =>
      match res with
      | Ok bootstrap_cfg =>
          let? serialised_cfg := map_err_r app_from_serialisation (serialize_of bootstrap_cfg) in
          Ok (OUnregistered req_id serialised_cfg)
      | Err err => error_answer req_id (app_from_ipc err)
      end
  | MResp req_id (RespShareMData res) =>
      match res with
      | Ok _ => Ok (OShareMData req_id)
      | Err err => error_answer req_id (app_from_ipc err)
      end
  | MRevoked _ => Ok ORevoked
  | _ => Err (app_from_ipc InvalidMsg)
  end.

Definition decode_ipc_msg (msg : option string) : R Answer :=
  let? msg := map_err_r app_from_string_error (string_clone_from_repr_c msg) in
  let? msg := map_err_r app_from_ipc (decode_msg mock_network msg) in
  decode_ipc_msg_impl msg.
End ipc_msgs.
