(* ===== verification/AppFfiMData.v ===== *)
(** The C interface of apps for mutable data ([safe_app/src/ffi/mutable_data],
    [ffi/mdata_info.rs]) and for the messages between apps and the authenticator
    ([ffi/ipc.rs]), with the conventions of [AppFfi]. *)
From S2P Require Import Prelude SafeNd SafeNdModel MockAccount CoreTypes ClientApi Recovery.
From S2P Require Import MDataInfo AuthTypes AppAuth AppErrors Ipc SelfEncryption Nfs.
From S2P Require Import AccountPacket AuthLogin AppObjects AppFfi.

Section mdata.
Context `{ndt : !NdTypes, ndo : !NdOps, core : !CoreExt, lru : !LruOps, cr : !Crypto}.
Context `{auth : !AuthExt, aa : !AppAuthExt, se : !SelfEnc, ide : !IDataExt, chr : !Chrono}.
Context `{ffi : !FfiUtils, ipc : !IpcExt, ax : !AppExt, aext : !AccountExt}.
Context {W : Type} `{net : !Network W}.
Context (client : AppInner).

Abbreviation A T := (M (AppSession (W := W)) AppError T).
Let c : Client := app_client_of client.

Abbreviation core_call m := (on_core app_from_core (on_inner m)).

Definition info_name (info_ : MDataInfo) : XorName := mdata_address_name (address info_).
Definition info_type_tag (info_ : MDataInfo) : Z := mdata_address_tag (address info_).

(** * Helpers ([mutable_data/helper.rs]) *)

Definition get_user (handle : ObjectHandle) : A PublicKey := get_obj KPubSignKey handle.
Definition insert_permissions (permissions : gmap PublicKey MDataPermissionSet) : A ObjectHandle :=
  insert_obj KPermissions permissions.
Definition get_permissions (handle : ObjectHandle) : A (gmap PublicKey MDataPermissionSet) :=
  get_obj KPermissions handle.

(** * Mutable data ([mutable_data/mod.rs]) *)

Definition PERMISSIONS_EMPTY : ObjectHandle := NULL_OBJECT_HANDLE.
Definition ENTRIES_EMPTY : ObjectHandle := NULL_OBJECT_HANDLE.

Definition mdata_put (info_ : FfiMDataInfo) (permissions_h entries_h : ObjectHandle) : A unit :=
  let info_ := clone_from_repr_c info_ in
  let owner_key_ := owner_key c in
  let! permissions := if negb (permissions_h =? PERMISSIONS_EMPTY)%Z
                      then get_permissions permissions_h else ret ∅ in
  let! entries := if negb (entries_h =? ENTRIES_EMPTY)%Z
                  then get_obj KSeqEntries entries_h else ret (∅ : MDataSeqEntries) in
  let data := seq_new_with_data (info_name info_) (info_type_tag info_) entries permissions
                owner_key_ in
  core_call (put_seq_mutable_data c data).

Definition ffi_mdata_get_version (info_ : FfiMDataInfo) : A Z :=
  core_call (get_mdata_version c (address (clone_from_repr_c info_))).

Definition mdata_serialised_size (info_ : FfiMDataInfo) : A Z :=
  let info_ := clone_from_repr_c info_ in
  let! mdata := core_call (get_seq_mdata c (info_name info_) (info_type_tag info_)) in
  of_result app_from_serialisation (seq_mdata_serialized_size mdata).

Definition mdata_get_value (info_ : FfiMDataInfo) (key : bytes) : A (bytes * Z) :=
  let info_ := clone_from_repr_c info_ in
  let! value := core_call (get_seq_mdata_value c (info_name info_) (info_type_tag info_) key) in
  ret (seq_data value, seq_version value).

Definition ffi_mdata_entries (info_ : FfiMDataInfo) : A ObjectHandle :=
  let info_ := clone_from_repr_c info_ in
  let! entries := core_call (list_seq_mdata_entries c (info_name info_) (info_type_tag info_)) in
  insert_obj KSeqEntries entries.

Definition mdata_list_keys (info_ : FfiMDataInfo) : A (list FfiMDataKey) :=
  let! keys := core_call (list_mdata_keys c (address (clone_from_repr_c info_))) in
  ret (map mdata_key_into_repr_c
    (merge_sort (fun x y => Is_true (bytes_leb x y)) (elements keys))).

Definition seq_mdata_list_values (info_ : FfiMDataInfo) : A (list FfiMDataValue) :=
  let info_ := clone_from_repr_c info_ in
  let! values := core_call (list_seq_mdata_values c (info_name info_) (info_type_tag info_)) in
  ret (map (fun value => mdata_value_into_repr_c (from_routing value)) values).

Definition mdata_mutate_entries (info_ : FfiMDataInfo) (actions_h : ObjectHandle) : A unit :=
  let info_ := clone_from_repr_c info_ in
  let! actions := get_obj KSeqActions actions_h in
  core_call (mutate_seq_mdata_entries c (info_name info_) (info_type_tag info_) actions).

Definition mdata_list_permissions (info_ : FfiMDataInfo) : A ObjectHandle :=
  let! perms := core_call (list_mdata_permissions c (address (clone_from_repr_c info_))) in
  insert_permissions perms.

Definition ffi_mdata_list_user_permissions (info_ : FfiMDataInfo) (user_h_ : ObjectHandle) :
    A FfiPermissionSet :=
  let info_ := clone_from_repr_c info_ in
  let! user := get_user user_h_ in
  let! set := core_call (list_mdata_user_permissions c (address info_) user) in
  ret (permission_set_into_repr_c set).

Definition ffi_mdata_set_user_permissions (info_ : FfiMDataInfo) (user_h_ : ObjectHandle)
    (permission_set : FfiPermissionSet) (version_ : Z) : A unit :=
  let info_ := clone_from_repr_c info_ in
  let! user := get_user user_h_ in
  let! permission_set := unwrap_result (permission_set_clone_from_repr_c permission_set) in
  core_call (set_mdata_user_permissions c (address info_) user permission_set version_).

Definition ffi_mdata_del_user_permissions (info_ : FfiMDataInfo) (user_h_ : ObjectHandle)
    (version_ : Z) : A unit :=
  let info_ := clone_from_repr_c info_ in
  let! user := get_user user_h_ in
  core_call (del_mdata_user_permissions c (address info_) user version_).

(** * Entries ([mutable_data/entries.rs]) *)

(** [with_entries]: the function [f] works on the entries in place. *)
Definition with_entries {T} (entries_h : ObjectHandle)
    (f : MDataSeqEntries -> result T AppError * MDataSeqEntries) : A T :=
  let! entries := get_obj KSeqEntries entries_h in
  let '(res, entries) := f entries in
  put_obj KSeqEntries entries_h entries ;!
  lift_result res.

Definition seq_mdata_entries_new : A ObjectHandle := insert_obj KSeqEntries (∅ : MDataSeqEntries).

Definition seq_mdata_entries_insert (entries_h : ObjectHandle) (key value : bytes) : A unit :=
  with_entries entries_h (fun entries =>
    (Ok tt, <[key := {| seq_data := value; seq_version := 0 |}]> entries)).

Definition seq_mdata_entries_len (entries_h : ObjectHandle) : A nat :=
  with_entries entries_h (fun entries => (Ok (base.size entries), entries)).

Definition seq_mdata_entries_get (entries_h : ObjectHandle) (key : bytes) : A (bytes * Z) :=
  let! entries := get_obj KSeqEntries entries_h in
  let! value := ok_or ((entries : MDataSeqEntries) !! key) (app_from_core (DataError NoSuchEntry)) in
  ret (seq_data value, seq_version value).

Definition seq_mdata_list_entries (entries_h : ObjectHandle) : A (list FfiMDataEntry) :=
  let! entries := get_obj KSeqEntries entries_h in
  ret (map (fun '(key, value) =>
      mdata_entry_into_repr_c {| me_key := key; me_value := from_routing value |})
    (btree_iter bytes_leb (entries : MDataSeqEntries))).

Definition seq_mdata_entries_free (entries_h : ObjectHandle) : A unit :=
  let! _ := remove_obj KSeqEntries entries_h in ret tt.

(** * Entry actions ([mutable_data/entry_actions.rs]) *)

Definition add_action (actions_h : ObjectHandle) (key : bytes) (f : MDataSeqEntryAction) : A unit :=
  let! actions := get_obj KSeqActions actions_h in
  put_obj KSeqActions actions_h (seq_add_action actions key f).

Definition mdata_entry_actions_new : A ObjectHandle := insert_obj KSeqActions seq_actions_new.
Definition mdata_entry_actions_insert (actions_h : ObjectHandle) (key value : bytes) : A unit :=
  add_action actions_h key (Ins {| seq_data := value; seq_version := 0 |}).
Definition mdata_entry_actions_update (actions_h : ObjectHandle) (key value : bytes)
    (version_ : Z) : A unit :=
  add_action actions_h key (Update {| seq_data := value; seq_version := version_ |}).
Definition mdata_entry_actions_delete (actions_h : ObjectHandle) (key : bytes) (version_ : Z) :
    A unit :=
  add_action actions_h key (Del version_).
Definition mdata_entry_actions_free (actions_h : ObjectHandle) : A unit :=
  let! _ := remove_obj KSeqActions actions_h in ret tt.

(** * Permissions ([mutable_data/permissions.rs]) *)

Definition USER_ANYONE : ObjectHandle := NULL_OBJECT_HANDLE.

Definition mdata_permissions_new : A ObjectHandle := insert_obj KPermissions ∅.

Definition mdata_permissions_len (permissions_h : ObjectHandle) : A nat :=
  let! permissions := get_obj KPermissions permissions_h in
  ret (base.size (permissions : gmap PublicKey MDataPermissionSet)).

Definition mdata_permissions_get (permissions_h user_h_ : ObjectHandle) : A FfiPermissionSet :=
  let! permissions := get_obj KPermissions permissions_h in
  let! user := get_user user_h_ in
  let! permission_set :=
    ok_or ((permissions : gmap PublicKey MDataPermissionSet) !! user) InvalidSignPubKeyHandle in
  ret (permission_set_into_repr_c permission_set).

Definition mdata_list_permission_sets (permissions_h : ObjectHandle) :
    A (list FfiUserPermissionSet) :=
  let! permissions := get_obj KPermissions permissions_h in
  fold_m (fun sets '(user_key, permission_set) =>
      let! user_h_ := insert_obj KPubSignKey user_key in
      ret (sets ++ [user_permission_set_into_repr_c
                      {| user_h := user_h_; perm_set := permission_set |}]))
    (btree_iter public_key_leb (permissions : gmap PublicKey MDataPermissionSet)) [].

Definition mdata_permissions_insert (permissions_h user_h_ : ObjectHandle)
    (permission_set : FfiPermissionSet) : A unit :=
  let! permissions := get_obj KPermissions permissions_h in
  let! user := get_user user_h_ in
  let! set := of_result app_from_ipc (permission_set_clone_from_repr_c permission_set) in
  put_obj KPermissions permissions_h (<[user := set]> (permissions : gmap PublicKey MDataPermissionSet)).

Definition mdata_permissions_free (permissions_h : ObjectHandle) : A unit :=
  let! _ := remove_obj KPermissions permissions_h in ret tt.
End mdata.
