(* ===== verification/AppCacheProofs.v ===== *)
(** Handles of the C interface of apps.

    Every call takes the object cache through insertions, removals, assignments and
    resets ([cache_step]).  In a cache made that way, while the counter has not
    wrapped, a handle stands for at most one object, of one kind, and the null handle
    for none; so a handle passed for the wrong kind is refused. *)
From S2P Require Import Prelude SafeNd SafeNdModel MockAccount CoreTypes ClientApi Recovery.
From S2P Require Import MDataInfo AuthTypes AppAuth AppErrors Ipc SelfEncryption Nfs.
From S2P Require Import AccountPacket AuthLogin AppObjects AppFfi AppFfiMData.

Section cache.
Context `{ndt : !NdTypes, ndo : !NdOps, core : !CoreExt, auth : !AuthExt}.
Context `{se : !SelfEnc, chr : !Chrono}.

(** * The stores *)

Lemma stores_set_store k m c : stores (set_store k m c) k = m.
Proof.
  simpl. destruct (decide (k = k)) as [e|]; [|done].
  by rewrite (Eqdep_dec.UIP_dec (decide_rel eq) e eq_refl).
Qed.

Lemma stores_set_store_ne k k' m c : k <> k' -> stores (set_store k m c) k' = stores c k'.
Proof. intros Hne. simpl. by destruct (decide (k = k')). Qed.

(** [h] is the handle of an object of kind [k]. *)
Definition holds (c : ObjectCache) (k : Kind) (h : ObjectHandle) : Prop := is_Some (stores c k !! h).

Lemma holds_empty g k h : ~ holds {| handle_gen := g; stores := fun _ => ∅ |} k h.
Proof. intros [v Hv]. simpl in Hv. by rewrite lookup_empty in Hv. Qed.

Record cache_wf (c : ObjectCache) : Prop := {
  wf_gen : (0 <= handle_gen c <= u64_max)%Z;
  wf_range k h : holds c k h -> (NULL_OBJECT_HANDLE < h <= handle_gen c)%Z;
  wf_unique k k' h : holds c k h -> holds c k' h -> k = k';
}.

(** * Steps, with the number of handles they make *)

Inductive cache_step : Z -> ObjectCache -> ObjectCache -> Prop :=
| step_insert k v c : cache_step 1 c (cache_insert k v c).2
| step_remove k h c : cache_step 0 c (cache_remove k h c).2
| step_put k h v c : cache_step 0 c (cache_put k h v c)
| step_reset c : cache_step 0 c (cache_reset c).

Inductive cache_steps : Z -> ObjectCache -> ObjectCache -> Prop :=
| steps_refl c : cache_steps 0 c c
| steps_cons n m c c' c'' : cache_step n c c' -> cache_steps m c' c'' -> cache_steps (n + m) c c''.

Lemma steps_one n c c' : cache_step n c c' -> cache_steps n c c'.
Proof. intros Hs. rewrite <- (Z.add_0_r n). eapply steps_cons; [done|apply steps_refl]. Qed.

Lemma steps_trans n m c c' c'' :
  cache_steps n c c' -> cache_steps m c' c'' -> cache_steps (n + m) c c''.
Proof.
  intros H1 H2. induction H1 as [|n1 n2]; [done|]. rewrite <- Z.add_assoc.
  eapply steps_cons; eauto.
Qed.

Lemma steps_nonneg n c c' : cache_steps n c c' -> (0 <= n)%Z.
Proof. induction 1 as [|? ? ? ? ? Hs]; [lia|]. inversion Hs; lia. Qed.

Lemma handle_gen_small c :
  (0 <= handle_gen c)%Z -> (handle_gen c + 1 <= u64_max)%Z ->
  handle_gen_gen (handle_gen c) = (handle_gen c + 1)%Z.
Proof.
  intros H0 H. unfold handle_gen_gen, u64_add. apply Z.mod_small.
  unfold u64_max, u64_modulus in *. lia.
Qed.

(** What a step leaves, or makes. *)
Lemma holds_set_store_insert c k v h0 k' h :
  holds (set_store k (<[h0 := v]> (stores c k)) c) k' h <-> holds c k' h \/ (k' = k /\ h = h0).
Proof.
  unfold holds. destruct (decide (k' = k)) as [->|Hne].
  - rewrite stores_set_store. destruct (decide (h = h0)) as [->|Hh].
    + rewrite lookup_insert_eq. naive_solver.
    + rewrite lookup_insert_ne by done. naive_solver.
  - rewrite stores_set_store_ne by done. naive_solver.
Qed.

Lemma holds_cache_remove c k h0 k' h : holds (cache_remove k h0 c).2 k' h -> holds c k' h.
Proof.
  unfold holds. simpl. destruct (decide (k = k')) as [->|Hne]; simpl.
  - intros [v Hv]. apply lookup_delete_Some in Hv as [_ Hv]. eauto.
  - done.
Qed.

Lemma holds_cache_put c k h0 v k' h : holds (cache_put k h0 v c) k' h <-> holds c k' h.
Proof.
  unfold holds, cache_put. destruct (decide (k = k')) as [->|Hne].
  - rewrite stores_set_store. apply lookup_alter_is_Some.
  - by rewrite stores_set_store_ne.
Qed.

Lemma step_wf n c c' :
  cache_step n c c' -> cache_wf c -> (handle_gen c + n <= u64_max)%Z ->
  cache_wf c' /\ (handle_gen c' <= handle_gen c + n)%Z.
Proof.
  intros Hs [Hg Hr Hu] Hn. destruct Hs as [k v c|k h c|k h v c|c].
  - pose proof (handle_gen_small c (proj1 Hg) Hn) as Hgen. simpl in *. unfold cache_insert. simpl.
    rewrite Hgen. set (c1 := {| handle_gen := handle_gen c + 1; stores := stores c |}).
    assert (Hc1 : forall k' h, holds c1 k' h <-> holds c k' h) by done.
    split; [|simpl; lia]. split; [simpl; lia|..].
    + intros k' h [H|[_ ->]]%(holds_set_store_insert c1); simpl; unfold NULL_OBJECT_HANDLE in *; [|lia].
      specialize (Hr k' h H). lia.
    + intros k1 k2 h [H1|[-> ->]]%(holds_set_store_insert c1) [H2|[-> H2]]%(holds_set_store_insert c1);
        [by eapply Hu|..|done].
      * subst. specialize (Hr _ _ H1). lia.
      * specialize (Hr _ _ H2). lia.
  - split; [|simpl; lia]. split; [done|..].
    + intros k' h' H%holds_cache_remove. by apply (Hr k').
    + intros k1 k2 h' H1%holds_cache_remove H2%holds_cache_remove. by eapply Hu.
  - split; [|simpl; lia]. split; [done|..].
    + intros k' h' H%holds_cache_put. by apply (Hr k').
    + intros k1 k2 h' H1%holds_cache_put H2%holds_cache_put. by eapply Hu.
  - split; [|unfold cache_reset, handle_gen_new, NULL_OBJECT_HANDLE; simpl; lia].
    split; [unfold u64_max; simpl; unfold handle_gen_new, NULL_OBJECT_HANDLE; lia|..].
    + by intros k h Hv%holds_empty.
    + by intros k k' h Hv%holds_empty.
Qed.

Lemma steps_wf n c c' :
  cache_steps n c c' -> cache_wf c -> (handle_gen c + n <= u64_max)%Z ->
  cache_wf c' /\ (handle_gen c' <= handle_gen c + n)%Z.
Proof.
  induction 1 as [|n m c c' c'' Hs Hss IH]; intros Hwf Hn; [split; [done|lia]|].
  pose proof (steps_nonneg _ _ _ Hss).
  destruct (step_wf n c c' Hs Hwf) as [Hwf' Hg]; [lia|].
  destruct (IH Hwf') as [Hwf'' Hg']; [lia|]. split; [done|lia].
Qed.

Lemma new_cache_wf : cache_wf ObjectCache_new.
Proof.
  split.
  - unfold u64_max, ObjectCache_new, handle_gen_new, NULL_OBJECT_HANDLE. simpl. lia.
  - by intros k h Hv%holds_empty.
  - by intros k k' h Hv%holds_empty.
Qed.
End cache.

(** * Calls *)

Section calls.
Context `{ndt : !NdTypes, ndo : !NdOps, core : !CoreExt, lru : !LruOps, cr : !Crypto}.
Context `{auth : !AuthExt, aa : !AppAuthExt, se : !SelfEnc, ide : !IDataExt, chr : !Chrono}.
Context `{ffi : !FfiUtils, ipc : !IpcExt, ax : !AppExt, aext : !AccountExt}.
Context {W : Type} `{net : !Network W}.

Abbreviation A T := (M (AppSession (W := W)) AppError T).

Definition session_cache (s : AppSession (W := W)) : ObjectCache := object_cache (context s).

(** On every path, the call takes the cache through steps. *)
Definition caches {E T} (m : M (AppSession (W := W)) E T) : Prop :=
  forall s, exists n, cache_steps n (session_cache s) (session_cache (final (m s))).

Lemma caches_preserves {E T} (m : M _ E T) : preserves session_cache m -> caches m.
Proof. intros Hm s. rewrite Hm. exists 0%Z. constructor. Qed.

Lemma caches_readonly {E T} (m : M _ E T) : readonly m -> caches m.
Proof. intros Hm. by apply caches_preserves, preserves_readonly. Qed.

Lemma caches_bind {E T U} (m : M _ E T) (k : T -> M _ E U) :
  caches m -> (forall t, caches (k t)) -> caches (bind m k).
Proof.
  intros Hm Hk s. unfold bind. destruct (Hm s) as [n Hn].
  destruct (m s) as [t s'|e s'|s'|s'] eqn:Hs; simpl in Hn; [|by exists n..].
  destruct (Hk t s') as [n' Hn']. exists (n + n')%Z. by eapply steps_trans.
Qed.

Lemma caches_attempt {E F T} (m : M _ E T) : caches m -> caches (@attempt _ E F T m).
Proof. intros Hm s. specialize (Hm s). unfold attempt. by destruct (m s). Qed.

Lemma caches_fold_m {E X Y} (f : Y -> X -> M _ E Y) l y :
  (forall y x, caches (f y x)) -> caches (fold_m f l y).
Proof.
  intros Hf. revert y. induction l as [|x l IH]; intros y; simpl; [by apply caches_readonly|].
  by apply caches_bind.
Qed.

Lemma caches_on_core {E T} conv (m : M (AuthState (W := W)) E T) : caches (on_core conv m).
Proof.
  apply caches_preserves. intros s. unfold on_core. by destruct (m (core_state s)).
Qed.

Lemma caches_of_result {E T} conv (r : result T E) : caches (of_result (W := W) conv r).
Proof. apply caches_readonly. by destruct r. Qed.

Lemma session_cache_set c (s : AppSession (W := W)) :
  session_cache (set_context (set_object_cache c (context s)) s) = c.
Proof. unfold session_cache. simpl. by destruct (context s). Qed.

Lemma caches_insert_obj k v : caches (insert_obj k v).
Proof.
  intros s. exists 1%Z. cbn. rewrite session_cache_set. apply steps_one, (step_insert k v).
Qed.

Lemma caches_get_obj k h : caches (get_obj k h).
Proof. apply caches_readonly. intros s. unfold get_obj. by destruct cache_get. Qed.

Lemma caches_remove_obj k h : caches (remove_obj k h).
Proof.
  intros s. exists 0%Z. unfold remove_obj, cache_remove.
  destruct (ok_or_r _ _); cbn; rewrite session_cache_set; apply steps_one, (step_remove k h).
Qed.

Lemma caches_put_obj k h v : caches (put_obj k h v).
Proof.
  intros s. exists 0%Z. cbn. rewrite session_cache_set. apply steps_one, (step_put k h v).
Qed.

Lemma caches_reset_objects : caches reset_objects.
Proof. intros s. exists 0%Z. cbn. rewrite session_cache_set. apply steps_one, step_reset. Qed.

Lemma caches_set_access_info e :
  caches (modify (fun s => set_context (set_access_info e (context s)) s) : A unit).
Proof. apply caches_preserves, preserves_modify. intros s. unfold session_cache. simpl. by destruct (context s). Qed.
End calls.

Create HintDb caches discriminated.
#[export] Hint Resolve caches_on_core caches_of_result caches_insert_obj caches_get_obj
  caches_remove_obj caches_put_obj caches_reset_objects caches_set_access_info : caches.

Ltac get_head t := match t with ?f _ => get_head f | _ => t end.

(** Follow the text of a call, down to the methods of the cache. *)
Ltac caches_tac :=
  repeat match goal with
  | |- caches (bind _ _) => apply caches_bind; [|intros ?]
  | |- caches (attempt _) => apply caches_attempt
  | |- caches (fold_m _ _ _) => apply caches_fold_m; intros ? ?
  | |- caches (match ?x with _ => _ end) => destruct x
  | |- caches _ => solve [auto with caches]
  | |- caches (get_obj ?k ?h) => exact (caches_get_obj k h)
  | |- caches _ => solve [apply caches_readonly; auto with readonly]
  end.

Section interface.
Context `{ndt : !NdTypes, ndo : !NdOps, core : !CoreExt, lru : !LruOps, cr : !Crypto}.
Context `{auth : !AuthExt, aa : !AppAuthExt, se : !SelfEnc, ide : !IDataExt, chr : !Chrono}.
Context `{ffi : !FfiUtils, ipc : !IpcExt, ax : !AppExt, aext : !AccountExt}.
Context {W : Type} `{net : !Network W}.
Context `{sentry : !Serial AccessContainerEntry, swire : !Serial WireFormat}.
Context `{spk : !Serial PublicKey, sid : !Serial ClientFullId, ssig : !Serial Signature}.
Context `{ssk : !Serial EncSecretKey, sct : !Serial Ciphertext}.
Context `{sdm : !Serial DataMap, sdt : !Serial DataTypeEncoding, sidata : !Serial IData}.
Context `{sfile : !Serial File}.
Context (fuel : nat) (client : AppInner).

(** The calls of the interface that run on an app. *)
Inductive ffi_call : AppSession (W := W) -> AppSession (W := W) -> Prop :=
| call_app_reset_object_cache s : ffi_call s (final (app_reset_object_cache s))
| call_access_container_refresh_access_info s : ffi_call s (final (access_container_refresh_access_info client s))
| call_access_container_fetch s : ffi_call s (final (access_container_fetch client s))
| call_access_container_get_container_mdata_info name s : ffi_call s (final (access_container_get_container_mdata_info client name s))
| call_cipher_opt_new_plaintext s : ffi_call s (final (cipher_opt_new_plaintext s))
| call_cipher_opt_new_symmetric s : ffi_call s (final (cipher_opt_new_symmetric s))
| call_cipher_opt_new_asymmetric h s : ffi_call s (final (cipher_opt_new_asymmetric h s))
| call_cipher_opt_free h s : ffi_call s (final (cipher_opt_free h s))
| call_app_pub_sign_key s : ffi_call s (final (app_pub_sign_key client s))
| call_sign_generate_key_pair s : ffi_call s (final (sign_generate_key_pair s))
| call_sign_pub_key_new data s : ffi_call s (final (sign_pub_key_new data s))
| call_sign_pub_key_get h s : ffi_call s (final (sign_pub_key_get h s))
| call_sign_pub_key_free h s : ffi_call s (final (sign_pub_key_free h s))
| call_sign_sec_key_new data s : ffi_call s (final (sign_sec_key_new data s))
| call_sign_sec_key_get h s : ffi_call s (final (sign_sec_key_get h s))
| call_sign_sec_key_free h s : ffi_call s (final (sign_sec_key_free h s))
| call_app_pub_enc_key s : ffi_call s (final (app_pub_enc_key client s))
| call_enc_generate_key_pair s : ffi_call s (final (enc_generate_key_pair s))
| call_enc_pub_key_new key s : ffi_call s (final (enc_pub_key_new key s))
| call_enc_pub_key_get h s : ffi_call s (final (enc_pub_key_get h s))
| call_enc_pub_key_free h s : ffi_call s (final (enc_pub_key_free h s))
| call_enc_secret_key_new data s : ffi_call s (final (enc_secret_key_new data s))
| call_enc_secret_key_get h s : ffi_call s (final (enc_secret_key_get h s))
| call_enc_secret_key_free h s : ffi_call s (final (enc_secret_key_free h s))
| call_sign data h s : ffi_call s (final (sign client data h s))
| call_verify data sig h s : ffi_call s (final (verify client data sig h s))
| call_encrypt_sealed_box data h s : ffi_call s (final (encrypt_sealed_box data h s))
| call_decrypt_sealed_box data h s : ffi_call s (final (decrypt_sealed_box data h s))
| call_sha3_hash data s : ffi_call s (final (sha3_hash data s))
| call_idata_new_self_encryptor pub s : ffi_call s (final (idata_new_self_encryptor client pub s))
| call_idata_write_to_self_encryptor h data s : ffi_call s (final (idata_write_to_self_encryptor client h data s))
| call_idata_close_self_encryptor h h' pub s : ffi_call s (final (idata_close_self_encryptor fuel client h h' pub s))
| call_idata_fetch_self_encryptor name pub s : ffi_call s (final (idata_fetch_self_encryptor fuel client name pub s))
| call_idata_serialised_size name pub s : ffi_call s (final (idata_serialised_size client name pub s))
| call_idata_size h s : ffi_call s (final (idata_size h s))
| call_idata_read_from_self_encryptor h pos len s : ffi_call s (final (idata_read_from_self_encryptor client h pos len s))
| call_idata_self_encryptor_writer_free h s : ffi_call s (final (idata_self_encryptor_writer_free h s))
| call_idata_self_encryptor_reader_free h s : ffi_call s (final (idata_self_encryptor_reader_free h s))
| call_dir_fetch_file info name s : ffi_call s (final (dir_fetch_file client info name s))
| call_dir_insert_file info name file s : ffi_call s (final (dir_insert_file client info name file s))
| call_dir_update_file info name file v s : ffi_call s (final (dir_update_file client info name file v s))
| call_dir_delete_file info name pub v s : ffi_call s (final (dir_delete_file client info name pub v s))
| call_file_open info file mode s : ffi_call s (final (file_open fuel client info file mode s))
| call_file_size h s : ffi_call s (final (file_size h s))
| call_file_read h pos len s : ffi_call s (final (file_read client h pos len s))
| call_file_write h data s : ffi_call s (final (file_write client h data s))
| call_file_close h s : ffi_call s (final (file_close fuel client h s))
| call_mdata_put info h h' s : ffi_call s (final (mdata_put client info h h' s))
| call_mdata_get_version info s : ffi_call s (final (ffi_mdata_get_version client info s))
| call_mdata_serialised_size info s : ffi_call s (final (mdata_serialised_size client info s))
| call_mdata_get_value info key s : ffi_call s (final (mdata_get_value client info key s))
| call_mdata_entries info s : ffi_call s (final (ffi_mdata_entries client info s))
| call_mdata_list_keys info s : ffi_call s (final (mdata_list_keys client info s))
| call_seq_mdata_list_values info s : ffi_call s (final (seq_mdata_list_values client info s))
| call_mdata_mutate_entries info h s : ffi_call s (final (mdata_mutate_entries client info h s))
| call_mdata_list_permissions info s : ffi_call s (final (mdata_list_permissions client info s))
| call_mdata_list_user_permissions info h s : ffi_call s (final (ffi_mdata_list_user_permissions client info h s))
| call_mdata_set_user_permissions info h perms v s : ffi_call s (final (ffi_mdata_set_user_permissions client info h perms v s))
| call_mdata_del_user_permissions info h v s : ffi_call s (final (ffi_mdata_del_user_permissions client info h v s))
| call_seq_mdata_entries_new s : ffi_call s (final (seq_mdata_entries_new s))
| call_seq_mdata_entries_insert h key value s : ffi_call s (final (seq_mdata_entries_insert h key value s))
| call_seq_mdata_entries_len h s : ffi_call s (final (seq_mdata_entries_len h s))
| call_seq_mdata_entries_get h key s : ffi_call s (final (seq_mdata_entries_get h key s))
| call_seq_mdata_list_entries h s : ffi_call s (final (seq_mdata_list_entries h s))
| call_seq_mdata_entries_free h s : ffi_call s (final (seq_mdata_entries_free h s))
| call_mdata_entry_actions_new s : ffi_call s (final (mdata_entry_actions_new s))
| call_mdata_entry_actions_insert h key value s : ffi_call s (final (mdata_entry_actions_insert h key value s))
| call_mdata_entry_actions_update h key value v s : ffi_call s (final (mdata_entry_actions_update h key value v s))
| call_mdata_entry_actions_delete h key v s : ffi_call s (final (mdata_entry_actions_delete h key v s))
| call_mdata_entry_actions_free h s : ffi_call s (final (mdata_entry_actions_free h s))
| call_mdata_permissions_new s : ffi_call s (final (mdata_permissions_new s))
| call_mdata_permissions_len h s : ffi_call s (final (mdata_permissions_len h s))
| call_mdata_permissions_get h h' s : ffi_call s (final (mdata_permissions_get h h' s))
| call_mdata_list_permission_sets h s : ffi_call s (final (mdata_list_permission_sets h s))
| call_mdata_permissions_insert h h' perms s : ffi_call s (final (mdata_permissions_insert h h' perms s))
| call_mdata_permissions_free h s : ffi_call s (final (mdata_permissions_free h s)).

Lemma caches_get_access_info : caches (get_access_info (W := W) client).
Proof.
  unfold get_access_info, fetch_access_info, refresh_access_info_of. caches_tac.
Qed.

Lemma caches_cipher_opt_encrypt opt plain : caches (cipher_opt_encrypt (W := W) opt plain).
Proof. unfold cipher_opt_encrypt. caches_tac. Qed.

Lemma caches_cipher_opt_decrypt b : caches (cipher_opt_decrypt (W := W) b client).
Proof. unfold cipher_opt_decrypt. caches_tac. Qed.

Hint Resolve caches_get_access_info caches_cipher_opt_encrypt caches_cipher_opt_decrypt : caches.

Lemma caches_refresh_access_info : caches (refresh_access_info (W := W) client).
Proof. unfold refresh_access_info, refresh_access_info_of. caches_tac. Qed.

Lemma caches_get_user h : caches (get_user (W := W) h).
Proof. exact (caches_get_obj KPubSignKey h). Qed.

Lemma caches_get_permissions h : caches (get_permissions (W := W) h).
Proof. exact (caches_get_obj KPermissions h). Qed.

Lemma caches_insert_permissions p : caches (insert_permissions (W := W) p).
Proof. exact (caches_insert_obj KPermissions p). Qed.

Lemma caches_with_entries {T} (h : ObjectHandle) (f : MDataSeqEntries -> result T AppError * MDataSeqEntries) :
  caches (with_entries (W := W) h f).
Proof. unfold with_entries. caches_tac. Qed.

Lemma caches_add_action h key act : caches (add_action (W := W) h key act).
Proof. unfold add_action. caches_tac. Qed.

Hint Resolve caches_refresh_access_info caches_get_user caches_get_permissions
  caches_insert_permissions caches_with_entries caches_add_action : caches.

Lemma ffi_call_steps s s' :
  ffi_call s s' -> exists n, cache_steps n (session_cache s) (session_cache s').
Proof.
  destruct 1;
    match goal with |- context [final (?m ?s)] => enough (Hc : caches m) by apply Hc end;
    match goal with |- caches ?m => let f := get_head m in unfold f end; caches_tac.
Qed.

(** Sessions of an app, with the number of handles made in them. *)
Inductive reachable (s0 : AppSession (W := W)) : Z -> AppSession (W := W) -> Prop :=
| reach_start : reachable s0 0 s0
| reach_call n m s s' : reachable s0 n s -> ffi_call s s' ->
    cache_steps m (session_cache s) (session_cache s') -> reachable s0 (n + m) s'.

Lemma reachable_steps s0 n s :
  reachable s0 n s -> cache_steps n (session_cache s0) (session_cache s).
Proof.
  induction 1 as [|n m s s' Hr IH Hc Hm]; [constructor|]. by eapply steps_trans.
Qed.

Lemma reachable_wf s0 n s :
  session_cache s0 = ObjectCache_new -> reachable s0 n s -> (n <= u64_max)%Z ->
  cache_wf (session_cache s).
Proof.
  intros H0 Hr%reachable_steps Hn. rewrite H0 in Hr.
  eapply steps_wf; [done|apply new_cache_wf|]. simpl. unfold handle_gen_new, NULL_OBJECT_HANDLE. lia.
Qed.

End interface.
