(* ===== verification/AppProofs.v ===== *)
(** What an app can rely on when it uses its interface: cipher options, key pairs,
    stored data and the access container, each through the calls that work on handles. *)
From S2P Require Import Prelude SafeNd SafeNdModel MockAccount CoreTypes ClientApi Recovery.
From S2P Require Import MDataInfo AuthTypes AccessContainer AppAuth AppErrors Ipc SelfEncryption.
From S2P Require Import SelfEncryptionProofs Nfs AccountPacket AuthLogin AppObjects AppFfi.
From S2P Require Import AppFfiMData AppCacheProofs.

Section session.
Context `{ndt : !NdTypes, ndo : !NdOps, core : !CoreExt, lru : !LruOps, cr : !Crypto}.
Context `{auth : !AuthExt, aa : !AppAuthExt, se : !SelfEnc, ide : !IDataExt, chr : !Chrono}.
Context {W : Type}.

Abbreviation T := (AppSession (W := W)).
Implicit Types s : T.

(** The object of kind [k] with handle [h]. *)
Definition obj s (k : Kind) (h : ObjectHandle) : option (kind_type k) := stores (session_cache s) k !! h.

(** The client state and the keys of the app, which no operation on objects changes. *)
Definition same_app s s' : Prop :=
  core_state s' = core_state s /\ sym_enc_key (context s') = sym_enc_key (context s).

Lemma same_app_trans s s' s'' : same_app s s' -> same_app s' s'' -> same_app s s''.
Proof. intros [] []. split; congruence. Qed.

Lemma same_app_set_cache c s : same_app s (set_context (set_object_cache c (context s)) s).
Proof. split; [done|]. simpl. by destruct (context s). Qed.

Lemma get_obj_Ret k h v s : obj s k h = Some v -> get_obj k h s = Ret v s.
Proof. intros H. unfold get_obj, cache_get. fold (session_cache s). unfold obj in H. by rewrite H. Qed.

Lemma get_obj_Fail k h s : obj s k h = None -> get_obj k h s = Fail (kind_error k) s.
Proof. intros H. unfold get_obj, cache_get. fold (session_cache s). unfold obj in H. by rewrite H. Qed.

Lemma insert_obj_ok k v s :
  exists s', insert_obj k v s = Ret (handle_gen_gen (handle_gen (session_cache s))) s' /\
    same_app s s' /\ obj s' k (handle_gen_gen (handle_gen (session_cache s))) = Some v /\
    handle_gen (session_cache s') = handle_gen_gen (handle_gen (session_cache s)) /\
    forall k' h, k' <> k \/ h <> handle_gen_gen (handle_gen (session_cache s)) ->
      obj s' k' h = obj s k' h.
Proof.
  eexists. split; [reflexivity|]. cbn beta. set (h0 := handle_gen_gen _).
  split_and!; [apply same_app_set_cache|..]; unfold obj; rewrite session_cache_set.
  - rewrite stores_set_store. apply lookup_insert_eq.
  - done.
  - intros k' h Hne. destruct (decide (k = k')) as [<-|Hk].
    + rewrite stores_set_store. destruct Hne as [|Hne]; [done|]. by rewrite lookup_insert_ne.
    + by rewrite stores_set_store_ne.
Qed.

Lemma put_obj_ok k h v v0 s :
  obj s k h = Some v0 ->
  exists s', put_obj k h v s = Ret tt s' /\ same_app s s' /\ obj s' k h = Some v /\
    forall k' h', k' <> k -> obj s' k' h' = obj s k' h'.
Proof.
  intros Hv0. eexists. split; [reflexivity|]. split_and!; [apply same_app_set_cache|..];
    unfold obj in *; rewrite session_cache_set; unfold cache_put.
  - rewrite stores_set_store, lookup_alter_eq. fold (session_cache s). by rewrite Hv0.
  - intros k' h' Hne. by rewrite stores_set_store_ne.
Qed.

Lemma remove_obj_ok k h v s :
  obj s k h = Some v ->
  exists s', remove_obj k h s = Ret v s' /\ same_app s s' /\ obj s' k h = None /\
    forall k' h', k' <> k -> obj s' k' h' = obj s k' h'.
Proof.
  intros Hv. unfold remove_obj, cache_remove. fold (session_cache s). unfold obj in Hv. rewrite Hv.
  eexists. split; [reflexivity|]. split_and!; [apply same_app_set_cache|..];
    unfold obj; rewrite session_cache_set.
  - rewrite stores_set_store. apply lookup_delete_eq.
  - intros k' h' Hne. by rewrite stores_set_store_ne.
Qed.

Lemma on_core_Ret {E X} conv (m : M (AuthState (W := W)) E X) a c' s :
  m (core_state s) = Ret a c' -> on_core conv m s = Ret a (set_core_state c' s).
Proof. intros Hm. unfold on_core. by rewrite Hm. Qed.

Lemma on_core_Fail {E X} conv (m : M (AuthState (W := W)) E X) e c' s :
  m (core_state s) = Fail e c' -> on_core conv m s = Fail (conv e) (set_core_state c' s).
Proof. intros Hm. unfold on_core. by rewrite Hm. Qed.

(** After a reset, the handles start again from the first: those of removed objects come
    to stand for new ones. *)
Lemma reset_reuses_handles s k v :
  exists s1 s2, reset_objects s = Ret tt s1 /\ insert_obj k v s1 = Ret 1%Z s2 /\ obj s2 k 1 = Some v.
Proof.
  set (s1 := set_context (set_object_cache (cache_reset (object_cache (context s))) (context s)) s).
  destruct (insert_obj_ok k v s1) as (s2 & Hins & _ & Hobj & _). exists s1, s2.
  assert (Hg : handle_gen_gen (handle_gen (session_cache s1)) = 1%Z).
  { unfold s1. by rewrite session_cache_set. }
  rewrite Hg in *. by split_and!.
Qed.
End session.

(** * Cipher options *)

Section cipher_options.
Context `{ndt : !NdTypes, ndo : !NdOps, core : !CoreExt, lru : !LruOps, cr : !Crypto, crl : !CryptoLaws}.
Context `{auth : !AuthExt, aa : !AppAuthExt, se : !SelfEnc, chr : !Chrono}.
Context `{ax : !AppExt, axl : !AppExtLaws, swire : !Serial WireFormat, swirel : !SerialLaws WireFormat}.
Context {W : Type}.

Abbreviation T := (AppSession (W := W)).
Implicit Types s : T.

(** The client can decrypt what the option encrypts: with the symmetric key of a
    registered app, or with the secret key of the pair the option has the public key of. *)
Definition can_decrypt (client : AppInner) (opt : CipherOpt) (ctx : AppContext) : Prop :=
  match opt with
  | PlainText => True
  | Symmetric => exists r, ctx = CtxRegistered r
  | Asymmetric pk => exists i, gen_keypair_at i = (pk, secret_encryption_key client)
  end.

Lemma decrypt_wire (wire : WireFormat) b client s :
  b <> [] -> deserialize_of b = Ok wire ->
  cipher_opt_decrypt b client s =
    match wire with
    | WPlain plain_text => ret plain_text s
    | WSymmetric nonce cipher_text =>
        bind (of_result id (sym_enc_key (context s))) (fun key =>
          ok_or (siv_open key nonce cipher_text) (app_from_core SymmetricDecipherFailure)) s
    | WAsymmetric cipher_text =>
        ok_or (sk_decrypt (secret_encryption_key client) cipher_text)
          (app_from_core AsymmetricDecipherFailure) s
    end.
Proof.
  intros Hb Hw. destruct b as [|x b]; [done|]. unfold cipher_opt_decrypt. rewrite Hw.
  unfold bind at 1. simpl. by destruct wire.
Qed.

Lemma encrypt_decrypt opt client plain s :
  can_decrypt client opt (context s) ->
  exists b r, cipher_opt_encrypt opt plain s = Ret b (set_core_state (set_auth_rng r (core_state s)) s) /\
    b <> [] /\
    forall s2, sym_enc_key (context s2) = sym_enc_key (context s) ->
      cipher_opt_decrypt b client s2 = Ret plain s2.
Proof.
  destruct opt as [| |pk]; simpl.
  - intros _. destruct (serial_roundtrip (WPlain plain)) as (b & Hb & Hne & Hd).
    exists b, (auth_rng (core_state s)). split_and!; [|done|intros s2 _; by rewrite (decrypt_wire (WPlain plain))].
    unfold cipher_opt_encrypt. rewrite Hb. by destruct s as [[]].
  - intros [r Hr]. set (nonce := random_bytes_at (auth_rng (core_state s)) SYM_ENC_NONCE_LEN).
    destruct (serial_roundtrip (WSymmetric nonce (siv_seal (reg_sym_enc_key r) nonce plain)))
      as (b & Hb & Hne & Hd).
    exists b, (S (auth_rng (core_state s))). split_and!; [|done|].
    + unfold cipher_opt_encrypt. erewrite bind_Ret by (apply on_core_Ret, on_rng_Ret; reflexivity).
      fold nonce. unfold bind at 1, gets. simpl. rewrite Hr. unfold bind. simpl. by rewrite Hb.
    + intros s2 Hk. rewrite (decrypt_wire _ b client s2 Hne Hd), Hk, Hr. unfold bind. simpl.
      by rewrite siv_open_seal.
  - intros [i Hi]. set (j := auth_rng (core_state s)).
    destruct (serial_roundtrip (WAsymmetric (pk_encrypt_at j pk plain))) as (b & Hb & Hne & Hd).
    exists b, (S j). split_and!; [|done|].
    + unfold cipher_opt_encrypt. erewrite bind_Ret by (apply on_core_Ret, on_rng_Ret; reflexivity).
      fold j. by rewrite Hb.
    + intros s2 _. rewrite (decrypt_wire _ b client s2 Hne Hd).
      pose proof (keypair_decrypts i j plain) as Hk. rewrite Hi in Hk. simpl in Hk. by rewrite Hk.
Qed.
End cipher_options.

(** * Stored data *)

Section stored_data.
Context `{ndt : !NdTypes, ndo : !NdOps, core : !CoreExt, lru : !LruOps, cr : !Crypto, crl : !CryptoLaws}.
Context `{auth : !AuthExt, aa : !AppAuthExt, ide : !IDataExt, idl : !IDataLaws, chr : !Chrono}.
Context `{ffi : !FfiUtils, ipc : !IpcExt}.
Context `{ax : !AppExt, axl : !AppExtLaws, swire : !Serial WireFormat, swirel : !SerialLaws WireFormat}.
Context `{se : !SelfEnc, sel : !SelfEncLaws, seql : !SeqEncLaws}.
Context {W : Type} `{net : !Network W}.
Context `{sdm : !Serial DataMap, sdml : !SerialLaws DataMap}.
Context `{sdt : !Serial DataTypeEncoding, sdtl : !SerialLaws DataTypeEncoding}.
Context `{sid : !Serial IData, sidl : !SerialLaws IData}.
Context (client : AppInner) (pub : bool).
Let c : Client := app_client_of client.
Abbreviation S := (AuthState (W := W)).
Context (Inv : S -> Prop) (le : S -> S -> Prop).
Context (Hkeeps : keeps_idata c pub Inv le) (Hshrink : data_maps_shrink (W := W) c pub).
Abbreviation T := (AppSession (W := W)).
Abbreviation st := (SelfEncryptionStorage c pub).
Implicit Types s : T.

#[local] Instance le_preorder : PreOrder le := keeps_preorder _ _ _ _ Hkeeps.
#[local] Definition Hrel : reliable st Inv le := storage_reliable c pub Inv le Hkeeps.

(** The calls that store data: a new encryptor, the chunks, and its end. *)
Definition store_data (fuel : nat) (chunks : list bytes) (cipher_opt_h : ObjectHandle) :
    M T AppError bytes :=
  let! h := idata_new_self_encryptor client pub in
  for_each chunks (idata_write_to_self_encryptor client h) ;!
  idata_close_self_encryptor fuel client h cipher_opt_h pub.

(** The writer of handle [h] has been given [value]. *)
Definition writer_has s (h : ObjectHandle) (value : bytes) : Prop :=
  exists q, obj s KSeWriter h = Some {| sew_published := pub; sew_encryptor := q |} /\
    seq_holds st Inv le q value (core_state s).

(** The session evolves: its keys and its other objects stay. *)
Definition evolves s s' : Prop :=
  Inv (core_state s') /\ le (core_state s) (core_state s') /\
  sym_enc_key (context s') = sym_enc_key (context s) /\
  forall h, obj s' KCipherOpt h = obj s KCipherOpt h.

Lemma evolves_trans s s' s'' : evolves s s' -> evolves s' s'' -> evolves s s''.
Proof.
  intros (_ & Hl & Hk & Ho) (Hi & Hl' & Hk' & Ho'). split_and!; [done|by trans (core_state s')|congruence|].
  intros h. by rewrite Ho'.
Qed.

Lemma evolves_core s c' : Inv c' -> le (core_state s) c' -> evolves s (set_core_state c' s).
Proof. by intros. Qed.

Lemma evolves_objects s s' :
  Inv (core_state s) -> same_app s s' -> (forall h, obj s' KCipherOpt h = obj s KCipherOpt h) ->
  evolves s s'.
Proof. intros Hi [Hc Hk] Ho. unfold evolves. rewrite Hc. by split_and!. Qed.

Lemma new_encryptor_ok s :
  Inv (core_state s) ->
  exists h s', idata_new_self_encryptor client pub s = Ret h s' /\ evolves s s' /\ writer_has s' h [].
Proof.
  intros Hs. destruct (seq_new_ok st Inv le None [] (core_state s) Hrel Hs eq_refl)
    as (q & c1 & Hnew & Hc1 & Hle1 & Hq).
  set (s1 := set_core_state c1 s).
  destruct (insert_obj_ok KSeWriter {| sew_published := pub; sew_encryptor := q |} s1)
    as (s' & Hins & Happ & Hobj & _ & Hoth).
  eexists _, s'. split_and!.
  - unfold idata_new_self_encryptor. fold c. erewrite bind_Ret by (by apply on_core_Ret). exact Hins.
  - eapply evolves_trans; [by apply evolves_core|]. apply evolves_objects; [done|done|].
    intros h. apply Hoth. by left.
  - exists q. split; [done|]. by destruct Happ as [-> _].
Qed.

Lemma write_ok s h value data :
  Inv (core_state s) -> writer_has s h value ->
  exists s', idata_write_to_self_encryptor client h data s = Ret tt s' /\ evolves s s' /\
    writer_has s' h (value ++ data).
Proof.
  intros Hs (q & Hobj & Hq).
  destruct (seq_write_ok st Inv le q value data (core_state s) Hrel Hs Hq) as (q' & c1 & Hw & Hc1 & Hle1 & Hq').
  set (s1 := set_core_state c1 s).
  destruct (put_obj_ok KSeWriter h {| sew_published := pub; sew_encryptor := q' |} _ s1 Hobj)
    as (s' & Hput & Happ & Hobj' & Hoth).
  exists s'. split_and!.
  - unfold idata_write_to_self_encryptor. fold c.
    rewrite (bind_Ret _ _ _ _ _ (get_obj_Ret _ _ _ _ Hobj)). cbn [sew_published sew_encryptor].
    erewrite bind_Ret by (by apply on_core_Ret). exact Hput.
  - eapply evolves_trans; [by apply evolves_core|]. apply evolves_objects; [done|done|].
    intros h'. by apply Hoth.
  - exists q'. split; [done|]. by destruct Happ as [-> _].
Qed.

Lemma write_chunks_ok chunks s h value :
  Inv (core_state s) -> writer_has s h value ->
  exists s', for_each chunks (idata_write_to_self_encryptor client h) s = Ret tt s' /\ evolves s s' /\
    writer_has s' h (value ++ concat chunks).
Proof.
  revert s value. induction chunks as [|chunk chunks IH]; intros s value Hs Hw; simpl.
  - exists s. rewrite app_nil_r. split_and!; [done|by apply evolves_core|done].
  - destruct (write_ok s h value chunk Hs Hw) as (s1 & Hw1 & Hev1 & Hh1).
    destruct (IH s1 _ (proj1 Hev1) Hh1) as (s2 & Hw2 & Hev2 & Hh2). exists s2.
    rewrite <- app_assoc in Hh2. split_and!; [|by eapply evolves_trans|done].
    by rewrite (bind_Ret _ _ _ _ _ Hw1).
Qed.

(** The data of this name is read through a reader of [value], from [s] on. *)
Definition fetches (fuel : nat) (name : bytes) (key : result SymEncKey AppError) (value : bytes)
    (c0 : S) : Prop :=
  forall s, Inv (core_state s) -> le c0 (core_state s) -> sym_enc_key (context s) = key ->
    exists h s', idata_fetch_self_encryptor fuel client name pub s = Ret h s' /\ evolves s s'  /\
      idata_size h s' = Ret (Z.of_nat (length value)) s' /\
      forall pos len, pos + len <= length value -> (Z.of_nat (pos + len) < u64_modulus)%Z ->
        exists s2, idata_read_from_self_encryptor client h (Z.of_nat pos) (Z.of_nat len) s' =
          Ret (take len (drop pos value)) s2 /\ Inv (core_state s2).

(** What is stored under the name of [d] can be fetched. *)
Lemma fetch_data_ok fuel v b ser dm value key c0 :
  let d := storage_idata c pub v in
  (forall c1, Inv c1 -> le c0 c1 ->
    exists c2, get_value c fuel (idata_address d) None c1 = Ret b c2 /\ Inv c2 /\ le c1 c2) ->
  (forall s, sym_enc_key (context s) = key -> cipher_opt_decrypt b client s = Ret ser s) ->
  deserialize_of ser = Ok dm -> maps_to st Inv le dm value c0 ->
  fetches fuel (xor_name_0 (idata_name d)) key value c0.
Proof.
  intros d Hget Hdec Hdm (e & He & Hlen & Hread) s Hs Hle Hkey.
  destruct (Hget (core_state s) Hs Hle) as (c2 & Hg & Hc2 & Hle2).
  destruct (storage_idata_address c pub v) as (n & Hn & Hname & Haddr). fold d in Haddr.
  set (s1 := set_core_state c2 s).
  destruct (insert_obj_ok KSeReader {| ser_published := pub; ser_encryptor := e |} s1)
    as (s' & Hins & Happ & Hobj & _ & Hoth).
  set (h := handle_gen_gen _) in *. pose proof (get_obj_Ret _ _ _ _ Hobj) as Hgo.
  exists h, s'. split_and!.
  - unfold idata_fetch_self_encryptor. fold c. change (xor_name_0 (idata_name d)) with
      (storage_generate_address c pub v). rewrite Hname.
    replace (idata_address_of pub n) with (idata_address d) by (by rewrite Haddr).
    erewrite bind_Ret by (by apply on_core_Ret). fold s1.
    rewrite (bind_Ret _ _ _ _ _ (Hdec s1 Hkey)), Hdm. unfold bind at 1. simpl. rewrite He. exact Hins.
  - eapply evolves_trans; [by apply evolves_core|]. apply evolves_objects; [done|done|].
    intros h'. apply Hoth. by left.
  - unfold idata_size. rewrite (bind_Ret _ _ _ _ _ Hgo). cbn [ser_encryptor]. by rewrite Hlen.
  - intros pos len Hpl Hsmall. destruct Happ as [Hcs _].
    destruct (Hread (core_state s') pos len) as (c3 & Hr & Hc3 & _); [rewrite Hcs..|done|].
    { done. } { by trans (core_state s). }
    exists (set_core_state c3 s'). split; [|done].
    unfold idata_read_from_self_encryptor. rewrite (bind_Ret _ _ _ _ _ Hgo).
    cbn [ser_encryptor ser_published]. rewrite Hlen, u64_add_small by lia.
    rewrite (proj2 (Z.ltb_ge _ _)) by lia. fold c. by apply on_core_Ret.
Qed.

Lemma close_ok s h ch opt value :
  Inv (core_state s) -> writer_has s h value -> obj s KCipherOpt ch = Some opt ->
  can_decrypt client opt (context s) ->
  exists F name s', evolves s s' /\ forall fuel, F <= fuel ->
    idata_close_self_encryptor fuel client h ch pub s = Ret name s'  /\
    fetches fuel name (sym_enc_key (context s)) value (core_state s').
Proof.
  intros Hs (q & Hobj & Hq) Hopt Hcan.
  destruct (remove_obj_ok KSeWriter h _ s Hobj) as (s1 & Hrem & [Hcs1 Hk1] & _ & Hoth1).
  destruct (seq_close_ok st Inv le q value (core_state s1) Hrel) as (dm & c2 & Hclose & Hc2 & Hle2 & Hm);
    [by rewrite Hcs1..|].
  set (s2 := set_core_state c2 s1). destruct (serial_roundtrip dm) as (ser & Hser & _ & Hdes).
  assert (Hopt2 : obj s2 KCipherOpt ch = Some opt) by (rewrite <- Hopt; by apply Hoth1).
  assert (Hcan2 : can_decrypt client opt (context s2)).
  { destruct opt; [done| |done]. destruct Hcan as [r Hr]. unfold sym_enc_key in Hk1. rewrite Hr in Hk1.
    simpl in *. destruct (context s1) as [|r']; [done|]. by exists r'. }
  destruct (encrypt_decrypt opt client ser s2 Hcan2) as (b & r & Henc & _ & Hdec).
  destruct (keeps_rng _ _ _ _ Hkeeps c2 r Hc2) as [Hc3 Hle3]. set (c3 := set_auth_rng r c2) in *.
  destruct (create_extract c pub Inv le Hkeeps b None c3 Hshrink Hc3)
    as (F & v & c4 & _ & Hc4 & Hle4 & Hall).
  destruct (keeps_put _ _ _ _ Hkeeps v c4 Hc4) as (c5 & Hput & Hc5 & Hle5 & Hgetd).
  assert (Hle25 : le c2 c5) by (trans c3; [done|]; by trans c4).
  exists F, (xor_name_0 (idata_name (storage_idata c pub v))), (set_core_state c5 s2). split.
  { split_and!; [done| |done|].
    - simpl. rewrite <- Hcs1. by trans c2.
    - intros h'. change (obj s1 KCipherOpt h' = obj s KCipherOpt h'). by apply Hoth1. }
  intros fuel HF. destruct (Hall fuel HF) as [Hcreate Hext]. split.
  - unfold idata_close_self_encryptor. fold c. rewrite (bind_Ret _ _ _ _ _ Hrem).
    cbn [sew_published sew_encryptor]. erewrite bind_Ret by (by apply on_core_Ret). fold s2.
    rewrite Hser. unfold bind at 1. cbn [of_result ret].
    rewrite (bind_Ret _ _ _ _ _ (get_obj_Ret _ _ _ _ Hopt2)), (bind_Ret _ _ _ _ _ Henc).
    erewrite bind_Ret by (by apply on_core_Ret). by erewrite bind_Ret by (by apply on_core_Ret).
  - apply (fetch_data_ok fuel v b ser dm); [|by rewrite <- Hk1|done|by eapply (maps_to_later c pub)].
    intros c6 Hc6 Hle6. destruct (Hgetd c6 Hc6 Hle6) as (c7 & Hg & Hc7 & Hle7).
    destruct (Hext c7 Hc7) as (c8 & He & Hc8 & Hle8); [trans c5; [done|]; by trans c6|].
    exists c8. split_and!; [|done|by trans c7]. unfold get_value. by rewrite (bind_Ret _ _ _ _ _ Hg).
Qed.

(** C13: data stored through handles is read back.  Chunks written to a new
    encryptor and closed with any cipher option the app can decrypt (the handle of
    which stays usable) give a name; from then on, as the network evolves and while
    the app keeps its symmetric key, fetching the name gives a reader that has the
    length of the chunks together and reads every part of them. *)
Theorem stored_data_roundtrip s chunks cipher_opt_h opt :
  Inv (core_state s) -> obj s KCipherOpt cipher_opt_h = Some opt ->
  can_decrypt client opt (context s) ->
  exists F name s', evolves s s' /\ forall fuel, F <= fuel ->
    store_data fuel chunks cipher_opt_h s = Ret name s'  /\
    fetches fuel name (sym_enc_key (context s)) (concat chunks) (core_state s').
Proof.
  intros Hs Hopt Hcan. destruct (new_encryptor_ok s Hs) as (h & s1 & Hnew & Hev1 & Hw1).
  destruct (write_chunks_ok chunks s1 h [] (proj1 Hev1) Hw1) as (s2 & Hwr & Hev2 & Hw2).
  assert (Hev : evolves s s2) by by eapply evolves_trans. pose proof Hev as (Hs2 & _ & Hk2 & Ho2).
  destruct (close_ok s2 h cipher_opt_h opt (concat chunks) Hs2 Hw2) as (F & name & s' & Hev' & Hclose).
  { by rewrite Ho2. }
  { destruct opt; [done| |done]. destruct Hcan as [r Hr]. unfold sym_enc_key in Hk2. rewrite Hr in Hk2.
    simpl in *. destruct (context s2) as [|r']; [done|]. by exists r'. }
  exists F, name, s'. split; [by eapply evolves_trans|]. intros fuel HF.
  destruct (Hclose fuel HF) as [Hc Hf]. rewrite Hk2 in Hf. split; [|done].
  unfold store_data. by rewrite (bind_Ret _ _ _ _ _ Hnew), (bind_Ret _ _ _ _ _ Hwr).
Qed.
End stored_data.

(** * The access container *)

Section access.
Context `{ndt : !NdTypes, ndo : !NdOps, core : !CoreExt, lru : !LruOps, cr : !Crypto, crl : !CryptoLaws}.
Context `{auth : !AuthExt, aa : !AppAuthExt, se : !SelfEnc, chr : !Chrono}.
Context `{ffi : !FfiUtils, ffil : !FfiUtilsLaws}.
Context `{sentry : !Serial AccessContainerEntry, sentryl : !SerialLaws AccessContainerEntry}.
Context {W : Type} `{net : !Network W} {W' : Type}.

(** What the authenticator encodes is what the app decodes. *)
Lemma encode_app_entry_decrypts perms key ciphertext (a a' : AuthState (W := W')) :
  encode_app_entry perms key a = Ret ciphertext a' ->
  exists encoded, symmetric_decrypt ciphertext key = Ok encoded /\ deserialize_of encoded = Ok perms.
Proof.
  unfold encode_app_entry, encode_raw. destruct (serial_roundtrip perms) as (b & Hb & _ & Hd).
  rewrite Hb. cbn [auth_serialisation]. rewrite bind_lift_ok. intros H. exists b. split; [|done].
  revert H. unfold from_core, map_err, or_else, on_rng, symmetric_encrypt, generate_nonce,
    random_bytes, symmetric_encrypt_with, bind. simpl.
  set (nonce := random_bytes_at _ _).
  destruct (sym_roundtrip {| enc_nonce := nonce; enc_cipher_text := siv_seal key nonce b |})
    as (ct & Hct & Hdct). rewrite Hct. simpl. intros [= <- _].
  unfold symmetric_decrypt. rewrite Hdct. simpl. by rewrite siv_open_seal.
Qed.

Lemma enc_key_of_info ac info app_id_ key_ k :
  from_mdata_info ac = Ok info -> AccessContainer.enc_key ac app_id_ key_ = Ok k ->
  access_container_enc_key app_id_ key_ (aci_nonce info) = Ok k.
Proof.
  unfold from_mdata_info, AccessContainer.enc_key. destruct (enc_info ac) as [[k0 n]|]; [|done].
  intros [= <-]. simpl. unfold core_result. by destruct access_container_enc_key; [intros [= <-]|].
Qed.

(** Where the network gives the app the value of its entry, it reads what the value was
    made of, and keeps it. *)
Lemma reads_entry client info app_id_ key_ k value encoded perms i' (s : AppSession (W := W)) :
  access_container_enc_key app_id_ key_ (aci_nonce info) = Ok k ->
  context s = context_registered app_id_ key_ info ->
  get_seq_mdata_value (app_client_of client) (aci_id info) (aci_tag info) k (inner (core_state s)) =
    Ret value i' ->
  symmetric_decrypt (seq_data value) key_ = Ok encoded -> deserialize_of encoded = Ok perms ->
  let s1 := set_core_state (set_inner i' (core_state s)) s in
  let s' := set_context (set_access_info perms (context s1)) s1 in
  (forall reg, context s = CtxRegistered reg -> refresh_access_info_of client reg s = Ret tt s') /\
  get_access_info client s = Ret perms s'.
Proof.
  intros Hek Hctx Hget Hdec Hdes s1 s'.
  assert (Href : forall reg, context s = CtxRegistered reg -> refresh_access_info_of client reg s = Ret tt s').
  { intros reg Hreg. rewrite Hctx in Hreg. injection Hreg as <-. unfold refresh_access_info_of.
    cbn [reg_app_id reg_sym_enc_key access_container_info]. rewrite Hek. unfold bind at 1. cbn [of_result ret].
    erewrite bind_Ret by (by apply on_core_Ret, on_inner_Ret). fold s1. rewrite Hdec.
    unfold bind at 1. cbn [of_result ret]. rewrite Hdes. unfold bind. cbn [of_result ret]. done. }
  split; [exact Href|]. unfold context_registered in Hctx.
  unfold get_access_info, bind at 1, gets. rewrite Hctx. unfold bind at 1. cbn [as_registered of_result ret].
  unfold fetch_access_info. cbn [access_info]. rewrite decide_True by done.
  rewrite (bind_Ret _ _ _ _ _ (Href _ Hctx)). unfold s', bind, gets. simpl. by rewrite Hctx.
Qed.

(** An app reads in the access container what the authenticator wrote there for
    it.  The app was registered with the information about the container and the key
    that it was granted; the authenticator encrypted the entry [perms] under its name
    for the app; then, on a network that gives the app the value of that entry, the app
    gets [perms], keeps them, answers later questions from its copy when there is
    something in it, and gives the containers in it by their names. *)
Theorem app_reads_granted_entry client ac info app_id_ key_ k perms ciphertext
    (a a' : AuthState (W := W')) value i' (s : AppSession (W := W)) :
  from_mdata_info ac = Ok info ->
  AccessContainer.enc_key ac app_id_ key_ = Ok k ->
  encode_app_entry perms key_ a = Ret ciphertext a' ->
  context s = context_registered app_id_ key_ info ->
  get_seq_mdata_value (app_client_of client) (aci_id info) (aci_tag info) k (inner (core_state s)) =
    Ret value i' ->
  seq_data value = ciphertext ->
  exists s', get_access_info client s = Ret perms s' /\ inner (core_state s') = i' /\
    access_container_refresh_access_info client s = Ret tt s' /\
    (perms <> ∅ -> get_access_info client s' = Ret perms s' /\
     forall name,
       access_container_get_container_mdata_info client (Some name) s' =
         match perms !! name with
         | Some (info_, _) => Ret (into_repr_c info_) s'
         | None => Fail (AppNoSuchContainer name) s'
         end).
Proof.
  intros Hinfo Hk Henc Hctx Hget Hv.
  destruct (encode_app_entry_decrypts _ _ _ _ _ Henc) as (encoded & Hdec & Hdes).
  pose proof (enc_key_of_info _ _ _ _ _ Hinfo Hk) as Hek.
  rewrite <-Hv in Hdec.
  destruct (reads_entry client _ _ _ _ _ _ _ _ s Hek Hctx Hget Hdec Hdes) as [Href Hfirst].
  set (s' := set_context _ _) in *. exists s'. unfold context_registered in Hctx.
  split_and!; [exact Hfirst|done|..].
  - unfold access_container_refresh_access_info, refresh_access_info, bind at 1, gets.
    rewrite Hctx. unfold bind at 1. cbn [as_registered of_result ret]. by apply Href.
  - intros Hne. assert (Hagain : get_access_info client s' = Ret perms s').
    { unfold get_access_info, bind at 1, gets, s'. simpl. rewrite Hctx. simpl. unfold bind at 1.
      cbn [of_result ret]. unfold fetch_access_info. cbn [access_info].
      by rewrite decide_False by done. }
    split; [done|]. intros name. unfold access_container_get_container_mdata_info.
    rewrite string_clone_spec. unfold bind at 1. cbn [of_result ret]. rewrite (bind_Ret _ _ _ _ _ Hagain).
    by destruct (perms !! name) as [[]|].
Qed.
End access.

(** * Key pairs *)

Section key_pairs.
Context `{ndt : !NdTypes, ndo : !NdOps, core : !CoreExt, lru : !LruOps, cr : !Crypto}.
Context `{auth : !AuthExt, aa : !AppAuthExt, se : !SelfEnc, chr : !Chrono}.
Context `{ffi : !FfiUtils, ipc : !IpcExt, ax : !AppExt, axl : !AppExtLaws, aext : !AccountExt, aextl : !AccountExtLaws}.
Context `{ssig : !Serial Signature, ssigl : !SerialLaws Signature}.
Context `{sct : !Serial Ciphertext, sctl : !SerialLaws Ciphertext}.
Context {W : Type}.
Abbreviation T := (AppSession (W := W)).
Implicit Types s : T.

(** Two insertions, of a public and of a secret key. *)
Lemma insert_pair_ok k1 k2 (v1 : kind_type k1) (v2 : kind_type k2) s :
  k1 <> k2 -> cache_wf (session_cache s) -> (handle_gen (session_cache s) + 2 <= u64_max)%Z ->
  exists h1 h2 s', (let! a := insert_obj k1 v1 in let! b := insert_obj k2 v2 in ret (a, b)) s = Ret (h1, h2) s' /\
    obj s' k1 h1 = Some v1 /\ obj s' k2 h2 = Some v2 /\ h1 <> NULL_OBJECT_HANDLE /\
    h2 <> NULL_OBJECT_HANDLE /\ h1 <> h2.
Proof.
  intros Hne [Hg _ _] Hroom.
  destruct (insert_obj_ok k1 v1 s) as (s1 & Hi1 & _ & Ho1 & Hg1 & _).
  destruct (insert_obj_ok k2 v2 s1) as (s2 & Hi2 & _ & Ho2 & _ & Hoth).
  rewrite handle_gen_small in Hi1, Ho1, Hg1 by lia.
  assert (Hg2 : handle_gen_gen (handle_gen (session_cache s1)) = (handle_gen (session_cache s) + 2)%Z).
  { rewrite handle_gen_small; rewrite Hg1; lia. }
  rewrite Hg2 in *. eexists _, _, s2. rewrite (bind_Ret _ _ _ _ _ Hi1), (bind_Ret _ _ _ _ _ Hi2).
  unfold NULL_OBJECT_HANDLE. split_and!; [done| |done|lia..]. rewrite <- Ho1. apply Hoth. by left.
Qed.

(** A signing pair that was generated signs, and verifies what it signed; an encryption
    pair decrypts what it encrypted; as long as the handles of the keys are kept. *)
Lemma generated_pairs_work client s :
  cache_wf (session_cache s) -> (handle_gen (session_cache s) + 2 <= u64_max)%Z ->
  (exists pk_h sk_h s', sign_generate_key_pair s = Ret (pk_h, sk_h) s' /\
    forall data s1, obj s1 KPubSignKey pk_h = obj s' KPubSignKey pk_h ->
      obj s1 KSecSignKey sk_h = obj s' KSecSignKey sk_h ->
      exists sig, sign client data sk_h s1 = Ret sig s1 /\ verify client data sig pk_h s1 = Ret 1%Z s1) /\
  (exists pk_h sk_h s', enc_generate_key_pair s = Ret (pk_h, sk_h) s' /\
    forall data s1, obj s1 KEncryptKey pk_h = obj s' KEncryptKey pk_h ->
      obj s1 KSecretKey sk_h = obj s' KSecretKey sk_h ->
      exists box s2, encrypt_sealed_box data pk_h s1 = Ret box s2 /\
        decrypt_sealed_box box sk_h s2 = Ret data s2).
Proof.
  intros Hwf Hroom. split.
  - set (i := auth_rng (core_state s)). set (id_ := client_new_bls_at i).
    set (s0 := set_core_state (set_auth_rng (S i) (core_state s)) s).
    destruct (insert_pair_ok KPubSignKey KSecSignKey (client_public_key (client_full_public_id id_)) id_ s0)
      as (h1 & h2 & s' & Hins & Ho1 & Ho2 & Hn1 & Hn2 & _); [done..|].
    exists h1, h2, s'. split; [exact Hins|]. intros data s1 Hp Hs.
    rewrite Ho1 in Hp. rewrite Ho2 in Hs. destruct (serial_roundtrip (client_sign id_ data)) as (sig & Hsig & _ & Hd).
    exists sig. split.
    + unfold sign, SIGN_WITH_APP. rewrite (proj2 (Z.eqb_neq _ _) Hn2). unfold bind at 1.
      rewrite (bind_Ret _ _ _ _ _ (get_obj_Ret _ _ _ _ Hs)). cbn [ret]. by rewrite Hsig.
    + unfold verify. rewrite Hd. unfold bind at 1. cbn [of_result ret]. unfold VERIFY_WITH_APP.
      rewrite (proj2 (Z.eqb_neq _ _) Hn1). rewrite (bind_Ret _ _ _ _ _ (get_obj_Ret _ _ _ _ Hp)).
      by rewrite pk_verify_sign.
  - set (i := auth_rng (core_state s)).
    set (s0 := set_core_state (set_auth_rng (S i) (core_state s)) s).
    destruct (insert_pair_ok KEncryptKey KSecretKey (gen_keypair_at i).1 (gen_keypair_at i).2 s0)
      as (h1 & h2 & s' & Hins & Ho1 & Ho2 & _); [done..|].
    exists h1, h2, s'. split.
    { rewrite <- Hins. unfold enc_generate_key_pair.
      erewrite bind_Ret by (apply on_core_Ret, on_rng_Ret; reflexivity). fold i. fold s0.
      by destruct (gen_keypair_at i). }
    intros data s1 Hp Hs. rewrite Ho1 in Hp. rewrite Ho2 in Hs. set (j := auth_rng (core_state s1)).
    destruct (serial_roundtrip (pk_encrypt_at j (gen_keypair_at i).1 data)) as (box & Hbox & _ & Hd).
    exists box, (set_core_state (set_auth_rng (S j) (core_state s1)) s1). split.
    + unfold encrypt_sealed_box. rewrite (bind_Ret _ _ _ _ _ (get_obj_Ret _ _ _ _ Hp)).
      erewrite bind_Ret by (apply on_core_Ret, on_rng_Ret; reflexivity). fold j. by rewrite Hbox.
    + unfold decrypt_sealed_box. rewrite Hd. unfold bind at 1. cbn [of_result ret].
      erewrite bind_Ret by (apply get_obj_Ret; exact Hs). by rewrite keypair_decrypts.
Qed.
End key_pairs.

(** * Two surprises *)

Section surprises.
Context `{ndt : !NdTypes, ndo : !NdOps, core : !CoreExt, lru : !LruOps}.
Context `{auth : !AuthExt, aa : !AppAuthExt, se : !SelfEnc, ide : !IDataExt, chr : !Chrono}.
Context {W : Type} `{net : !Network W}.
Implicit Types s : AppSession (W := W).

(** [USER_ANYONE] is the null handle, for which no call finds a key. *)
Lemma user_anyone_refused s :
  cache_wf (session_cache s) -> get_user USER_ANYONE s = Fail InvalidSignPubKeyHandle s.
Proof.
  intros [_ Hr _]. apply (get_obj_Fail KPubSignKey). apply eq_None_not_Some.
  intros H. specialize (Hr KPubSignKey _ H). unfold USER_ANYONE in Hr. lia.
Qed.

(** A read up to the end of a file from beyond its end passes the check of the range, with
    a length of nearly 2^64. *)
Lemma file_read_past_end_unchecked client h ctx r position s :
  obj s KFile h = Some ctx -> reader ctx = Some r ->
  (0 <= reader_size r < position)%Z -> (position < u64_modulus)%Z ->
  file_read client h position FILE_READ_TO_END s =
    on_core app_from_nfs (nfs_self_encryption
      (enc_read (SelfEncryptionStorage (app_client_of client) (rd_published r)) (rd_self_encryptor r)
        position (reader_size r - position + u64_modulus))) s.
Proof.
  intros Hobj Hr Hpos Hmax. unfold file_read. rewrite (bind_Ret _ _ _ _ _ (get_obj_Ret _ _ _ _ Hobj)).
  rewrite Hr. cbn [Z.eqb FILE_READ_TO_END].
  assert (Hsub : u64_sub (reader_size r) position = (reader_size r - position + u64_modulus)%Z).
  { unfold u64_sub. symmetry. apply (Z.mod_unique _ _ (-1)); unfold u64_modulus in *; lia. }
  rewrite Hsub. unfold reader_read, u64_add.
  replace (position + (reader_size r - position + u64_modulus))%Z
    with (reader_size r + 1 * u64_modulus)%Z by lia.
  rewrite Z.mod_add, Z.mod_small by (unfold u64_modulus in *; lia). by rewrite Z.ltb_irrefl.
Qed.
End surprises.
