(* ===== verification/AppModel.v ===== *)
(** A concrete app for the witnesses: a registered app on a network that keeps immutable
    data and the entries of the access container. *)
From S2P Require Import Prelude SafeNd SafeNdModel MockAccount MockVaultSpec MockConnection.
From S2P Require Import CoreTypes ClientApi Recovery MDataInfo MDataInfoProofs.
From S2P Require Import AuthTypes AccessContainer AuthModel AppAuth AppErrors Ipc IpcModel.
From S2P Require Import SelfEncryption SelfEncryptionProofs SelfEncryptionMock Nfs NfsMock.
From S2P Require Import AccountPacket AuthLogin AuthLoginProofs AppObjects AppFfi AppFfiMData.
From S2P Require Import AppCacheProofs AppProofs.

#[export] Instance ModelApp : AppExt := {|
  Ciphertext := Z * bytes;
  pk_encrypt_at _ pk plain := ((pk : Z), plain);
  sk_decrypt sk c := if ((sk : Z) =? c.1)%Z then Some c.2 else None;
  seq_add_action a k act := seq_actions_from (<[k := act]> (seq_into_actions a));
  idata_serialised_size_of d := Z.of_nat (length (idata_value d));
  seq_mdata_serialized_size d := Ok (Z.of_nat (base.size (seq_mdata_entries d)));
  config_contacts := tt;
  contacts_union _ _ := tt;
|}.

#[export] Instance ModelAppLaws : AppExtLaws.
Proof. split. intros i j plain. simpl. by rewrite Z.eqb_refl. Qed.

#[export] Instance SerialPublicKey : Serial PublicKey := countable_serial Z.
#[export] Instance SerialClientId : Serial ClientFullId := countable_serial Z.
#[export] Instance SerialSignature : Serial Signature := countable_serial Z.
#[export] Instance SerialCiphertext : Serial Ciphertext := countable_serial (Z * bytes).

Definition wire_code : Type := bytes + bytes * bytes + Z * bytes.
Definition wire_to (w : WireFormat) : wire_code :=
  match w with
  | WPlain b => inl (inl b)
  | WSymmetric n b => inl (inr (n, b))
  | WAsymmetric b => inr (b : Z * bytes)
  end.
Definition wire_of (t : wire_code) : WireFormat :=
  match t with
  | inl (inl b) => WPlain b
  | inl (inr (n, b)) => WSymmetric n b
  | inr b => WAsymmetric (b : Ciphertext)
  end.
#[export] Instance SerialWire : Serial WireFormat := {|
  serialize_of w := serialize_of (Serial := countable_serial wire_code) (wire_to w);
  deserialize_of b := rmap wire_of (deserialize_of (Serial := countable_serial wire_code) b);
|}.
#[export] Instance SerialWireLaws : SerialLaws WireFormat.
Proof.
  intros w. eexists. split_and!; [done|done|]. simpl. rewrite decode_encode. by destruct w.
Qed.

(** * A network *)

Record PlainNet := { pn_idata : gmap IDataAddress IData; pn_entries : MDataSeqEntries }.

#[export] Instance PlainNetwork : Network PlainNet := {|
  cm_send _ msg := fun n =>
    match msg with
    | MsgRequest (PutIData d) _ _ =>
        Ret (RMutation (Ok tt)) {| pn_idata := <[idata_address d := d]> (pn_idata n);
                                   pn_entries := pn_entries n |}
    | MsgRequest (GetIData a) _ _ =>
        Ret (RGetIData (ok_or_r (pn_idata n !! a) NoSuchData)) n
    | MsgRequest (GetMDataValue _ k) _ _ =>
        Ret (RGetMDataValue (rmap VSeq (ok_or_r (pn_entries n !! k) NoSuchEntry))) n
    | _ => Fail ReceivedUnexpectedEvent n
    end;
  cm_bootstrap _ := ret tt; cm_disconnect _ := ret tt;
  new_message_id := ret (0%Z : MessageId); rand_random := ret 0%Z;
|}.

Abbreviation PS := (AuthState (W := PlainNet)).
Abbreviation pnet s := (pn_idata (connection_manager (inner s))).

Record plain_inv (s : PS) : Prop := {
  pi_names : forall a d, pnet s !! a = Some d -> idata_address d = a;
  pi_cache : forall a d, lru_map (ci_cache (inner s)) !! a = Some d -> pnet s !! a = Some d;
}.
Definition plain_le (s s' : PS) : Prop := pnet s ⊆ pnet s'.

Lemma plain_le_same (s s' : PS) : pnet s' = pnet s -> plain_le s s'.
Proof. unfold plain_le. by intros ->. Qed.

Lemma plain_inv_cached (s : PS) a d c c' :
  plain_inv s -> pnet s !! a = Some d -> lru_map c = lru_map (ci_cache (inner s)) ->
  lru_map c' ⊆ <[a := d]> (lru_map c) -> plain_inv (set_inner (set_ci_cache c' (inner s)) s).
Proof.
  intros [Hn Hc] Hd Hlc Hsub. split; [exact Hn|]. cbn [inner set_inner ci_cache set_ci_cache].
  intros a' x Hx. apply (lookup_weaken _ _ _ _ Hx) in Hsub. rewrite Hlc in Hsub.
  destruct (decide (a' = a)) as [->|Hne].
  - rewrite lookup_insert_eq in Hsub. by injection Hsub as <-.
  - rewrite lookup_insert_ne in Hsub by done. by apply Hc.
Qed.

Lemma plain_get client d (s : PS) :
  plain_inv s -> pnet s !! idata_address d = Some d ->
  exists s', on_inner (get_idata client (idata_address d)) s = Ret d s' /\ plain_inv s' /\ plain_le s s'.
Proof.
  intros Hs Hd. pose proof (lru_get_mut_spec (idata_address d) (ci_cache (inner s))) as [Hl1 Hl2].
  unfold get_idata, on_inner, bind at 1.
  destruct (lru_get_mut (idata_address d) (ci_cache (inner s))) as [o c'] eqn:Hl.
  cbn [fst snd] in Hl1, Hl2. destruct o as [d'|].
  - pose proof (eq_trans (eq_sym Hd) (pi_cache s Hs _ _ (eq_sym Hl1))) as [= <-].
    eexists. split_and!; [reflexivity| |by apply plain_le_same]. eapply plain_inv_cached; [done|exact Hd|done|].
    rewrite Hl2. by rewrite insert_id by exact (eq_sym Hl1).
  - exists (set_inner (set_ci_cache (lru_insert (idata_address d) d c') (inner s)) s).
    split_and!; [| |by apply plain_le_same].
    + assert (Hsend : send client (GetIData (idata_address d)) (set_ci_cache c' (inner s)) =
        Ret (RGetIData (Ok d)) (set_ci_cache c' (inner s))).
      { unfold send, compose_message, with_cm, bind. cbn [new_message_id PlainNetwork ret].
        destruct (negb _); cbn -[idata_address]; rewrite Hd; by destruct s as [[]]. }
      by rewrite (bind_Ret _ _ _ _ _ Hsend).
    + eapply plain_inv_cached; [done|exact Hd|exact Hl2|apply lru_insert_spec].
Qed.

Lemma plain_keeps_idata client : keeps_idata client true plain_inv plain_le.
Proof.
  split.
  - split; [intros x; by apply plain_le_same|]. intros x y z Hxy Hyz. unfold plain_le in *. by trans (pnet y).
  - intros s r [Hn Hc]. split; [by split|by apply plain_le_same].
  - intros value s [Hn Hc] d.
    set (n' := {| pn_idata := <[idata_address d := d]> (pnet s);
                  pn_entries := pn_entries (connection_manager (inner s)) |}).
    assert (Hsub : pnet s ⊆ pn_idata n').
    { apply map_subseteq_spec. intros a x Hx. simpl. destruct (decide (a = idata_address d)) as [->|Hne].
      - rewrite lookup_insert_eq. f_equal. symmetry. apply model_content_addressed. by apply Hn.
      - by rewrite lookup_insert_ne. }
    exists (set_inner (set_cm n' (inner s)) s). split_and!; [|split|done|].
    + unfold on_inner, put_idata, send_mutation, send, compose_message, with_cm, bind. simpl. reflexivity.
    + simpl. intros a x. destruct (decide (a = idata_address d)) as [->|Hne].
      * rewrite lookup_insert_eq. by intros [= <-].
      * rewrite lookup_insert_ne by done. apply Hn.
    + simpl. intros a x Hx. eapply lookup_weaken; [by apply Hc|done].
    + intros s1 Hs1 Hle. apply plain_get; [done|]. eapply lookup_weaken; [|exact Hle].
      simpl. apply lookup_insert_eq.
Qed.

(** Data maps of the model are small on any network. *)
Lemma plain_data_maps_shrink client published : data_maps_shrink (W := PlainNet) client published.
Proof.
  intros value ser dm v Hsize _ _ [= <-]. simpl. unfold storage_idata in Hsize.
  destruct published; simpl in Hsize; apply Nat.leb_gt in Hsize; lia.
Qed.

(** * An app *)

Definition ex_app_keys : AppKeys := keys (ex_app_info "app" 7).
Definition ex_app : AppInner := {| ai_keys := ex_app_keys; ai_owner_key := (1%Z : PublicKey); ai_config := None |}.

(** The access container of [AuthModel], with the entry the authenticator makes for the
    app. *)
Definition ex_aci : AccessContInfo := {| aci_id := ex_name 71; aci_tag := 15000; aci_nonce := [4]%Z |}.
Definition ex_entry : AccessContainerEntry :=
  {[ "_documents" := (ex_config_dir, {[ PRead ]} : ContainerPermissions) ]}.
Definition ex_entry_key : bytes :=
  match AccessContainer.enc_key ex_access "app" [7%Z] with Ok k => k | Err _ => [] end.
Definition ex_entry_text : bytes :=
  match encode_app_entry ex_entry [7%Z] ex_auth_state with Ret c _ => c | _ => [] end.

Definition ex_app_session : AppSession (W := PlainNet) :=
  {| core_state := {| inner := new_client_inner {| pn_idata := ∅;
         pn_entries := {[ ex_entry_key := {| seq_data := ex_entry_text; seq_version := 0 |} ]} |};
       auth_rng := 0 |};
     context := context_registered "app" [7%Z] ex_aci |}.

(** The session in which a cipher option has been made. *)
Definition ex_cipher_session : AppSession (W := PlainNet) := final (cipher_opt_new_symmetric ex_app_session).


Lemma ex_plain_inv : plain_inv (core_state ex_cipher_session).
Proof. by split. Qed.

Example stored_data_roundtrip_witness :
  exists F name s', evolves plain_inv plain_le ex_cipher_session s' /\ forall fuel, F <= fuel ->
    store_data ex_app true fuel [[1; 2; 3]; [4; 5]]%Z 1 ex_cipher_session = Ret name s' /\
    fetches ex_app true plain_inv plain_le fuel name (Ok [7%Z]) [1; 2; 3; 4; 5]%Z (core_state s').
Proof.
  apply (stored_data_roundtrip ex_app true plain_inv plain_le (plain_keeps_idata (app_client_of ex_app))
    (plain_data_maps_shrink (app_client_of ex_app) true) ex_cipher_session [[1; 2; 3]; [4; 5]]%Z 1 Symmetric).
  - exact ex_plain_inv.
  - reflexivity.
  - by eexists.
Defined.

Example app_reads_granted_entry_witness :
  exists s', get_access_info ex_app ex_app_session = Ret ex_entry s' /\
    inner (core_state s') = inner (core_state ex_app_session) /\
    access_container_refresh_access_info ex_app ex_app_session = Ret tt s' /\
    (ex_entry <> ∅ -> get_access_info ex_app s' = Ret ex_entry s' /\
     forall name,
       access_container_get_container_mdata_info ex_app (Some name) s' =
         match ex_entry !! name with
         | Some (info_, _) => Ret (into_repr_c info_) s'
         | None => Fail (AppNoSuchContainer name) s'
         end).
Proof.
  apply (app_reads_granted_entry ex_app ex_access ex_aci "app" [7%Z] ex_entry_key ex_entry ex_entry_text
    ex_auth_state (set_auth_rng 1 ex_auth_state) {| seq_data := ex_entry_text; seq_version := 0 |}
    (inner (core_state ex_app_session)) ex_app_session).
  - reflexivity.
  - vm_refl.
  - vm_refl.
  - reflexivity.
  - vm_refl.
  - reflexivity.
Defined.
