(* ===== verification/StdDirs.v ===== *)
(** The standard containers of an account ([safe_authenticator/src/std_dirs.rs]) and
    the entry points of the authenticator ([safe_authenticator/src/lib.rs]): the
    creation of an account from end to end, and the login that makes up for an
    interrupted creation.

    A session is what the event loop of an [Authenticator] owns: the client with the
    generator of its thread, and the account.  Futures of a [join_all] send their first
    requests when they are made, in order; the first error, in order, is the result. *)
From S2P Require Import Prelude SafeNd SafeNdModel MockAccount CoreTypes ClientApi Recovery.
From S2P Require Import MDataInfo AuthTypes AuthConfig AccessContainer AppAuth AuthErrors.
From S2P Require Import AccountPacket AuthLogin.

Definition DEFAULT_PRIVATE_DIRS : list string :=
  ["_documents"; "_downloads"; "_music"; "_pictures"; "_videos"; "_publicNames"].
Definition DEFAULT_PUBLIC_DIRS : list string := ["_public"].

Section std_dirs.
Context `{ndt : !NdTypes, ndo : !NdOps, core : !CoreExt, lru : !LruOps, cr : !Crypto}.
Context `{auth : !AuthExt, aa : !AppAuthExt, aext : !AccountExt, sacc : !Serial Account}.
Context {W : Type} `{net : !Network W}.
Context `{sdirs : !Serial (gmap string MDataInfo)}.
Abbreviation A T := (M (AuthState (W := W)) AuthError T).

(** * Directories *)

(** [future::join_all] of futures that have run: the first error, if any. *)
Definition join_all {S E T} (results : list (result T E)) : M S E (list T) :=
  fold_m (fun done r => let! t := lift_result r in ret (done ++ [t])) results [].

(** [Iterator::map] with a function that sends a request at each call. *)
Definition start_all {S E F X T} (f : X -> M S E T) (l : list X) : M S F (list (result T E)) :=
  fold_m (fun started x => let! r := attempt (f x) in ret (started ++ [r])) l [].

Definition random_std_dirs : M Rng CoreError (list (string * MDataInfo)) :=
  let! priv_dirs := fold_m (fun dirs name =>
      let! dir := random_private MKSeq DIR_TAG in ret (dirs ++ [(name, dir)]))
    DEFAULT_PRIVATE_DIRS [] in
  fold_m (fun dirs name =>
      let! dir := random_public MKSeq DIR_TAG in ret (dirs ++ [(name, dir)]))
    DEFAULT_PUBLIC_DIRS priv_dirs.

Definition create_std_dirs (client : AuthClient) (md_infos : gmap string MDataInfo) : A unit :=
  let! creations := start_all (fun '(_, md_info) =>
      map_err auth_from_nfs (create_dir client md_info ∅ ∅)) (hash_iter md_infos) in
  join_all creations ;!
  ret tt.

Definition create_config_dir (client : AuthClient) (config_dir : MDataInfo) : A unit :=
  let config_dir_entries : MDataSeqEntries :=
    {[ KEY_APPS := {| seq_data := []; seq_version := 0 |} ]} in
  let! config_dir_entries := from_core (on_rng (encrypt_entries config_dir config_dir_entries)) in
  map_err auth_from_nfs (create_dir client config_dir config_dir_entries ∅).

Definition create_access_container (client : AuthClient) (access_container : MDataInfo)
    (default_entries : gmap string MDataInfo) : A unit :=
  let enc_key := secret_symmetric_key client in
  let! nonce := ok_or (snd <$> enc_info access_container)
    (auth_from_str "Expected to have nonce on access container MDataInfo") in
  let! authenticator_key := core_try (access_container_enc_key AUTHENTICATOR_ENTRY enc_key nonce) in
  let! plain := lift_result (auth_serialisation (serialize_of default_entries)) in
  let! access_cont_value := from_core (on_rng (symmetric_encrypt plain enc_key None)) in
  map_err auth_from_nfs
    (create_dir client access_container
       {[ authenticator_key := {| seq_data := access_cont_value; seq_version := 0 |} ]} ∅).

(** The continuation of [create] once the authenticator's entry was asked for. *)
Definition create_containers (client : AuthClient)
    (res : result (Z * gmap string MDataInfo) AuthError) : A unit :=
  match res with
  | Ok (_, default_containers) => create_std_dirs client default_containers
  | Err (AuthCoreError (DataError NoSuchData)) =>
      let! dirs := from_core (on_rng random_std_dirs) in
      let access_cont_value := foldl (fun m '(name, md_info) => <[name := md_info]> m) ∅ dirs in
      let! std_dirs_res := attempt (create_std_dirs client access_cont_value) in
      let! access_cont_res :=
        attempt (create_access_container client (access_container client) access_cont_value) in
      join_all [std_dirs_res; access_cont_res] ;!
      ret tt
  | Err e => fail e
  end.

(** * Sessions *)

Record Session := { ses_state : AuthState (W := W); ses_auth : AuthInner }.

Definition set_ses_state (st : AuthState (W := W)) (s : Session) : Session :=
  {| ses_state := st; ses_auth := ses_auth s |}.
Definition set_ses_auth (i : AuthInner) (s : Session) : Session :=
  {| ses_state := ses_state s; ses_auth := i |}.

(** A function of the authenticator, called with the client of the session. *)
Definition with_client {T} (f : AuthClient -> A T) : M Session AuthError T := fun s =>
  match f (auth_client_of (ses_auth s)) (ses_state s) with
  | Ret a st => Ret a (set_ses_state st s)
  | Fail e st => Fail e (set_ses_state st s)
  | Panic st => Panic (set_ses_state st s)
  | Pending st => Pending (set_ses_state st s)
  end.

(** [update_account_packet] on the client of the session. *)
Definition session_update_account_packet : M Session AuthError unit := fun s =>
  let st := ses_state s in
  let back i := set_ses_state (set_inner i st) s in
  match update_account_packet (ses_auth s) (inner st) with
  | Ret a i => Ret a (back i)
  | Fail e i => Fail e (back i)
  | Panic i => Panic (back i)
  | Pending i => Pending (back i)
  end.

(** [std_dirs::create].  The request for the entry and the one that creates the
    configuration are sent before the answer to the first is looked at. *)
Definition create : M Session AuthError unit :=
  let! fetched := attempt (with_client fetch_authenticator_entry) in
  let! config_res := attempt (with_client (fun client =>
    create_config_dir client (config_root_dir client))) in
  let! access_cont_res := attempt (with_client (fun client => create_containers client fetched)) in
  join_all [access_cont_res; config_res] ;!
  modify (fun s => set_ses_auth (set_std_dirs_created true (ses_auth s)) s) ;!
  session_update_account_packet.

(** * The authenticator *)

(** The world of an entry point, in which a session that has been started runs
    [m]; the event loop is shut down when [m] fails. *)
Definition run_session (l : Login W) (m : M Session AuthError unit) : M (Boot W) AuthError Session :=
  fun b =>
    let s := {| ses_state := {| inner := login_inner l; auth_rng := boot_rng b |};
                ses_auth := auth_inner l |} in
    let back s := {| boot_cm := connection_manager (inner (ses_state s));
                     boot_rng := auth_rng (ses_state s) |} in
    match m s with
    | Ret _ s => Ret s (back s)
    | Fail e s => Fail e (back s)
    | Panic s => Panic (back s)
    | Pending s => Pending (back s)
    end.

Context `{ctxt : !CoreTexts, atxt : !AuthTexts}.

Definition create_acc_impl (create_client_fn : M (Boot W) AuthError (Login W)) :
    M (Boot W) AuthError Session :=
  let! client := create_client_fn in
  run_session client
    (map_err (fun error => AccountContainersCreation (auth_error_display error)) create).

Definition create_acc (locator password : string) (client_id_ : ClientFullId) :
    M (Boot W) AuthError Session :=
  create_acc_impl (registered locator password client_id_).

Definition login_impl (create_client_fn : M (Boot W) AuthError (Login W)) :
    M (Boot W) AuthError Session :=
  let! client := create_client_fn in
  if negb (std_dirs_created (auth_inner client)) then run_session client create
  else run_session client (ret tt).

Definition login (locator password : string) : M (Boot W) AuthError Session :=
  login_impl (AuthLogin.login locator password).

(** [create_acc_with_seed], with the identity of [gen_client_id]: the directories are
    made as at a login. *)
Definition create_acc_with_seed (seed : string) (client_id_ : ClientFullId) : M (Boot W) AuthError Session :=
  login_impl (registered_with_seed seed client_id_).

Definition login_with_seed (seed : string) : M (Boot W) AuthError Session :=
  login_impl (AuthLogin.login_with_seed seed).

Definition create_acc_with_hook (locator password : string) (client_id_ : ClientFullId)
    (connection_manager_wrapper_fn : W -> W) : M (Boot W) AuthError Session :=
  create_acc_impl (registered_with_hook locator password client_id_ connection_manager_wrapper_fn).

Definition login_with_hook (locator password : string) (connection_manager_wrapper_fn : W -> W) :
    M (Boot W) AuthError Session :=
  login_impl (AuthLogin.login_with_hook locator password connection_manager_wrapper_fn).
End std_dirs.
Arguments Session {_ _ _ _} W.
