(* ===== verification/OwnNet.v ===== *)
(** What a client of the network can do with its own data and with the keys it
    authorises.

    [OwnNet] says what each of those requests answers and changes, on a view of the
    network: the sequenced mutable data at certain addresses, and the list of
    authorised keys.  The proofs about whole sessions of the authenticator are made
    against it; the mock network implements it. *)
From S2P Require Import Prelude SafeNd SafeNdModel MockAccount CoreTypes ClientApi.
From S2P Require Import Recovery RecoveryProofs RecoveryRepair SeqStore.
From S2P Require Import MDataInfo MDataInfoProofs AuthTypes AuthConfig AuthConfigProofs AccessContainer AppAuth.

Section view.
Context `{ndt : !NdTypes}.

(** Sequenced mutable data of the client. *)
Record Slot := {
  slot_entries : MDataSeqEntries;
  slot_perms : gmap PublicKey MDataPermissionSet;
  slot_version : Z;
}.

(** At an address of [ov_data] there is data of the client's own; at any other address
    of [ov_free] there is nothing; of the rest the view says nothing. *)
Record OwnView := {
  ov_data : gmap (XorName * Z) Slot;
  ov_free : XorName * Z -> Prop;
  ov_keys : gmap PublicKey AppPermissions;
  ov_keys_version : Z;
}.

Definition set_entries (m : MDataSeqEntries) (d : Slot) : Slot :=
  {| slot_entries := m; slot_perms := slot_perms d; slot_version := slot_version d |}.
Definition grant (u : PublicKey) (p : MDataPermissionSet) (d : Slot) : Slot :=
  {| slot_entries := slot_entries d; slot_perms := <[u := p]> (slot_perms d);
     slot_version := slot_version d + 1 |}.
Definition ungrant (u : PublicKey) (d : Slot) : Slot :=
  {| slot_entries := slot_entries d; slot_perms := delete u (slot_perms d);
     slot_version := slot_version d + 1 |}.

Definition put_slot (a : XorName * Z) (d : Slot) (v : OwnView) : OwnView :=
  {| ov_data := <[a := d]> (ov_data v); ov_free := ov_free v; ov_keys := ov_keys v; ov_keys_version := ov_keys_version v |}.
Definition set_keys (k : gmap PublicKey AppPermissions) (v : OwnView) : OwnView :=
  {| ov_data := ov_data v; ov_free := ov_free v; ov_keys := k; ov_keys_version := ov_keys_version v + 1 |}.

Definition holds (v : OwnView) (a : XorName * Z) (d : Slot) : Prop := ov_data v !! a = Some d.
Definition vacant (v : OwnView) (a : XorName * Z) : Prop := ov_data v !! a = None /\ ov_free v a.

Lemma holds_put v a d : holds (put_slot a d v) a d.
Proof. apply lookup_insert_eq. Qed.
Lemma holds_put_ne v a b d d' : a <> b -> holds (put_slot a d v) b d' <-> holds v b d'.
Proof. intros Hne. unfold holds. simpl. by rewrite lookup_insert_ne. Qed.
Lemma put_slot_twice a d d' v : put_slot a d (put_slot a d' v) = put_slot a d v.
Proof. unfold put_slot. simpl. by rewrite insert_insert_eq. Qed.
Lemma put_slot_same a d v : holds v a d -> put_slot a d v = v.
Proof. intros Hv. destruct v. unfold put_slot. simpl in *. by rewrite insert_id. Qed.
End view.

#[export] Hint Resolve holds_put : core.

(** * The interface *)

Section interface.
Context `{ndt : !NdTypes, ndo : !NdOps, core : !CoreExt, lru : !LruOps}.
Context `{cr : !Crypto, auth : !AuthExt, aa : !AppAuthExt}.
Context {W : Type} `{net : !Network W}.

Class OwnNet (client : Client) := {
  shows : OwnView -> ClientInner W -> Prop;
  net_get v n t d k s : shows v s -> holds v (n, t) d ->
    exists s', shows v s' /\
      get_seq_mdata_value client n t k s =
        match slot_entries d !! k with
        | Some x => Ret x s'
        | None => Fail (DataError NoSuchEntry) s'
        end;
  net_mutate v n t d acts s : shows v s -> holds v (n, t) d ->
    let errors := entry_errors (slot_entries d) (seq_into_actions acts) in
    exists s',
      (errors = ∅ /\
       shows (put_slot (n, t) (set_entries (entries_applied (slot_entries d) (seq_into_actions acts)) d) v) s' /\
       mutate_seq_mdata_entries client n t acts s = Ret tt s') \/
      (errors <> ∅ /\ shows v s' /\
       mutate_seq_mdata_entries client n t acts s = Fail (DataError (InvalidEntryActions errors)) s');
  net_version v n t d s : shows v s -> holds v (n, t) d ->
    exists s', shows v s' /\ get_mdata_version client (MSeq n t) s = Ret (slot_version d) s';
  net_grant v n t d u p s : shows v s -> holds v (n, t) d ->
    exists s', shows (put_slot (n, t) (grant u p d) v) s' /\
      ClientApi.set_mdata_user_permissions client (MSeq n t) u p (slot_version d + 1) s = Ret tt s';
  net_ungrant v n t d u s : shows v s -> holds v (n, t) d ->
    exists s',
      (is_Some (slot_perms d !! u) /\ shows (put_slot (n, t) (ungrant u d) v) s' /\
       ClientApi.del_mdata_user_permissions client (MSeq n t) u (slot_version d + 1) s = Ret tt s') \/
      (slot_perms d !! u = None /\ shows v s' /\
       ClientApi.del_mdata_user_permissions client (MSeq n t) u (slot_version d + 1) s =
         Fail (DataError NoSuchKey) s');
  net_create v n t es ps s : shows v s -> vacant v (n, t) ->
    exists s',
      shows (put_slot (n, t) {| slot_entries := es; slot_perms := ps; slot_version := 0 |} v) s' /\
      put_seq_mutable_data client (seq_new_with_data n t es ps (owner_key client)) s = Ret tt s';
  net_list_keys v s : shows v s ->
    exists s', shows v s' /\
      ClientApi.list_auth_keys_and_version client s = Ret (ov_keys v, ov_keys_version v) s';
  net_ins_key v k p s : shows v s -> (0 <= ov_keys_version v /\ ov_keys_version v + 1 < u64_modulus)%Z ->
    exists s', shows (set_keys (<[k := p]> (ov_keys v)) v) s' /\
      ClientApi.ins_auth_key client k p (ov_keys_version v + 1) s = Ret tt s';
  net_del_key v k s : shows v s -> (0 <= ov_keys_version v /\ ov_keys_version v + 1 < u64_modulus)%Z ->
    is_Some (ov_keys v !! k) ->
    exists s', shows (set_keys (delete k (ov_keys v)) v) s' /\
      ClientApi.del_auth_key client k (ov_keys_version v + 1) s = Ret tt s';
}.

(** * Each piece of data is a store *)

(** The data at one address, while everything else in the view stays as it is. *)
Section store.
Context (client : Client) `{own : !OwnNet client}.
Context (v : OwnView) (name : XorName) (tag : Z) (d : Slot).

Definition slot_stored (m : MDataSeqEntries) (s : ClientInner W) : Prop :=
  shows (put_slot (name, tag) (set_entries m d) v) s.

Definition SlotStore : SeqMDataStore client name tag.
Proof.
  refine {| stored := slot_stored |}.
  - intros m k s Hs.
    destruct (net_get _ name tag (set_entries m d) k s Hs (holds_put _ _ _)) as (s' & Hs' & Hg).
    by exists s'.
  - intros m acts s Hs errors.
    destruct (net_mutate _ name tag (set_entries m d) acts s Hs (holds_put _ _ _))
      as (s' & [(He & Hs' & Hm)|(He & Hs' & Hm)]); exists s'; [left|right]; split_and!; try done.
    by rewrite put_slot_twice in Hs'.
Defined.
End store.

(** * The loops of recovery do not loop *)

Section calls.
Context (client : Client) `{own : !OwnNet client}.

Lemma recovery_break {T} (body : nat * Z -> M (ClientInner W) CoreError (Loop T (nat * Z))) n s s' t :
  body (0%nat, n) s = Ret (Break t) s' -> loop_fn RETRY_FUEL (0%nat, n) body s = Ret t s'.
Proof. apply (loop_fn_break body (0%nat, n) MAX_ATTEMPTS). Qed.

Lemma recover_grant v n t d u p s :
  shows v s -> holds v (n, t) d ->
  exists s', shows (put_slot (n, t) (grant u p d) v) s' /\
    Recovery.set_mdata_user_permissions client (MSeq n t) u p (slot_version d + 1) s = Ret tt s'.
Proof.
  intros Hs Hd. destruct (net_grant v n t d u p s Hs Hd) as (s' & Hs' & Hg). exists s'. split; [done|].
  apply recovery_break. unfold or_else, bind. by rewrite Hg.
Qed.

(** Taking permissions away, whether there are any or not. *)
Lemma recover_ungrant v n t d u s :
  shows v s -> holds v (n, t) d ->
  exists s' d', shows (put_slot (n, t) d' v) s' /\
    slot_entries d' = slot_entries d /\ slot_perms d' = delete u (slot_perms d) /\
    (slot_version d <= slot_version d' <= slot_version d + 1)%Z /\
    Recovery.del_mdata_user_permissions client (MSeq n t) u (slot_version d + 1) s = Ret tt s'.
Proof.
  intros Hs Hd. destruct (net_ungrant v n t d u s Hs Hd)
    as (s' & [(_ & Hs' & Hg)|(Hno & Hs' & Hg)]).
  - exists s', (ungrant u d). split_and!; [done..|simpl; lia|simpl; lia|].
    apply recovery_break. unfold or_else, bind. by rewrite Hg.
  - exists s', d. split_and!; [by rewrite put_slot_same|done| |lia|lia|].
    + by rewrite delete_id.
    + apply recovery_break. unfold or_else, bind. by rewrite Hg.
Qed.

Lemma recover_ins_key v k p s :
  shows v s -> (0 <= ov_keys_version v /\ ov_keys_version v + 1 < u64_modulus)%Z ->
  exists s', shows (set_keys (<[k := p]> (ov_keys v)) v) s' /\
    Recovery.ins_auth_key client k p (ov_keys_version v + 1) s = Ret tt s'.
Proof.
  intros Hs Hv. destruct (net_ins_key v k p s Hs Hv) as (s' & Hs' & Hg). exists s'. split; [done|].
  apply recovery_break. unfold or_else, bind. by rewrite Hg.
Qed.

(** A mutation without errors goes through at once. *)
Lemma recover_mutate v n t d acts s :
  shows v s -> holds v (n, t) d -> entry_errors (slot_entries d) (seq_into_actions acts) = ∅ ->
  exists s',
    shows (put_slot (n, t) (set_entries (entries_applied (slot_entries d) (seq_into_actions acts)) d) v) s' /\
    Recovery.mutate_mdata_entries client (MSeq n t) acts s = Ret tt s'.
Proof.
  intros Hs Hd He. destruct (net_mutate v n t d acts s Hs Hd) as (s' & [(_ & Hs' & Hm)|(Hne & _)]); [|done].
  exists s'. split; [done|]. unfold Recovery.mutate_mdata_entries.
  apply (loop_fn_break (mutate_attempt client (MSeq n t)) (0%nat, acts) MAX_ATTEMPTS).
  unfold mutate_attempt, or_else, bind. cbn [mdata_address_name mdata_address_tag]. by rewrite Hm.
Qed.
End calls.
End interface.
