(* ===== verification/OwnNetMock.v ===== *)
(** The mock network as [OwnNet] describes it. *)
From S2P Require Import Prelude SafeNd SafeNdModel MockAccount MockVault.
From S2P Require Import MockVaultRequests MockVaultProcess MockVaultSpec.
From S2P Require Import MockVaultRefine MockVaultSafety MockVaultBehaviour MockVaultAccess.
From S2P Require Import CoreTypes ClientApi MockStore MockConnection MockShared.
From S2P Require Import MockClient MockVaultLocal Recovery RecoveryProofs RecoveryRepair SeqStore.
From S2P Require Import MDataInfo MDataInfoProofs AuthTypes AuthConfig AuthConfigProofs.
From S2P Require Import AccessContainer RevocationMock AuthModel AppAuth OwnNet.

(** Data made by a client is its own, at the given place. *)
Class SeqNewLaws `{!NdTypes, !NdOps, !CoreExt, !AppAuthExt} := seq_new_spec n t es ps o :
  mdata_address (MDSeq (seq_new_with_data n t es ps o)) = MSeq n t /\
  mdata_owner (MDSeq (seq_new_with_data n t es ps o)) = o /\
  seq_mdata_entries (seq_new_with_data n t es ps o) = es /\
  mdata_permissions (MDSeq (seq_new_with_data n t es ps o)) = ps /\
  mdata_version (MDSeq (seq_new_with_data n t es ps o)) = 0%Z.

(** Permissions are changed at the version after the current one, and nothing else is. *)
Class SeqGrantLaws `{!NdTypes, !NdOps} := {
  seq_set_perms d u p : exists x,
    mdata_set_user_permissions (MDSeq d) u p (mdata_version (MDSeq d) + 1) = Ok (MDSeq x) /\
    seq_mdata_entries x = seq_mdata_entries d /\
    mdata_permissions (MDSeq x) = <[u := p]> (mdata_permissions (MDSeq d)) /\
    mdata_version (MDSeq x) = (mdata_version (MDSeq d) + 1)%Z;
  seq_del_perms_ok d u :
    match mdata_permissions (MDSeq d) !! u with
    | Some _ => exists x,
        mdata_del_user_permissions (MDSeq d) u (mdata_version (MDSeq d) + 1) = Ok (MDSeq x) /\
        seq_mdata_entries x = seq_mdata_entries d /\
        mdata_permissions (MDSeq x) = delete u (mdata_permissions (MDSeq d)) /\
        mdata_version (MDSeq x) = (mdata_version (MDSeq d) + 1)%Z
    | None => mdata_del_user_permissions (MDSeq d) u (mdata_version (MDSeq d) + 1) = Err NoSuchKey
    end;
  seq_mutate_rest d acts pk x :
    mdata_mutate_entries (MDSeq d) (ActSeq acts) pk = Ok (MDSeq x) ->
    mdata_permissions (MDSeq x) = mdata_permissions (MDSeq d) /\
    mdata_version (MDSeq x) = mdata_version (MDSeq d);
}.

Section mock.
Context `{ndt : !NdTypes, ndo : !NdOps, ndl : !NdLaws, host : !Host}.
Context `{core : !CoreExt, corel : !CoreExtLaws, lru : !LruOps}.
Context `{cr : !Crypto, auth : !AuthExt, aa : !AppAuthExt, seqn : !SeqNewLaws}.
Context `{env : !StoreEnv, rnd : !RandomSource, seqm : !SeqMutateLaws, seqr : !SeqReadLaws}.

Abbreviation cvault s := (lk_vault (vault (connection_manager s))).

(** * A client that can store data *)

Section client.
Context (id : ClientFullId).
Let c := client_full_public_id id.
Let pk := client_public_key c.
Let n := public_id_name (PClient c).

(** The vault serves the client, which has a balance. *)
Definition funded (s : ClientInner MockNet) : Prop :=
  serving s /\ is_Some (coin_balances (cache (cvault s)) !! public_id_name (PClient c)).

Lemma put_mdata_dispatch d v :
  ~ limited v -> is_Some (coin_balances (cache v) !! public_id_name (PClient c)) ->
  mdata_owner d = pk ->
  dispatch (PClient c) pk pk (PutMData d) v =
    match nae_manager (cache v) !! DMutable (mdata_address d) with
    | Some _ => Ret (RMutation (Err DataExists)) v
    | None => Ret (RMutation (Ok tt)) (put_data_at (DMutable (mdata_address d)) (Mutable d) v)
    end.
Proof.
  intros Hlim [b Hb] Ho. simpl. unfold handle_PutMData, respond. rewrite decide_True by done.
  unfold put_data, bind, attempt. cbn [ret]. rewrite <-public_id_name_client.
  unfold pk. rewrite (authorise_owner [OpMutation] c b v Hb);
    [|constructor; [by intros _; left|constructor]|done].
  unfold gets, contains_data. destruct (nae_manager (cache v) !! _) eqn:Hd; simpl; [done|].
  - unfold commit_mutation, bind, gets. simpl. unfold limited in Hlim.
    destruct (unlimited_coins _); [done|]. by destruct Hlim.
Qed.

(** Storing data of one's own: it is there, or something was there before. *)
Lemma put_dir_call d (s : ClientInner MockNet) :
  funded s -> mdata_owner (MDSeq d) = pk ->
  let a := DMutable (mdata_address (MDSeq d)) in
  exists v', (if decide (nae_manager (cache (cvault s)) !! a = None)
              then v' = put_data_at a (Mutable (MDSeq d)) (cvault s) else v' = cvault s) /\
    funded (after_request v' s) /\
    put_seq_mutable_data (client_of id) d s =
      if decide (nae_manager (cache (cvault s)) !! a = None) then Ret tt (after_request v' s)
      else Fail (DataError DataExists) (after_request v' s).
Proof.
  intros [Hs Hb] Ho a. pose proof Hs as (Hmem & Hwf & Hlim).
  pose proof (put_mdata_dispatch (MDSeq d) (cvault s) Hlim Hb Ho) as Hd. fold a in Hd.
  unfold put_seq_mutable_data. destruct (nae_manager _ !! a) eqn:Ha.
  - exists (cvault s). rewrite !decide_False by done. split_and!; [done| |].
    + split; [by eapply client_call|done].
    + by apply (client_mutation id _ _ (Err DataExists)).
  - eexists. rewrite !decide_True by done. split_and!; [done| |].
    + split; [by eapply client_call|done].
    + by apply (client_mutation id _ _ (Ok tt)).
Qed.

(** * The view *)

Definition slot_of (d : SeqMutableData) : Slot :=
  {| slot_entries := seq_mdata_entries d; slot_perms := mdata_permissions (MDSeq d);
     slot_version := mdata_version (MDSeq d) |}.

Definition addr_id (a : XorName * Z) : DataId := DMutable (MSeq a.1 a.2).

(** What the vault has where the view has data. *)
Definition slot_at (v : Vault) (a : XorName * Z) (slot : Slot) : Prop :=
  exists d, nae_manager (cache v) !! addr_id a = Some (Mutable (MDSeq d)) /\
    mdata_owner (MDSeq d) = pk /\ slot_of d = slot.

Record mock_shows (w : OwnView) (s : ClientInner MockNet) : Prop := {
  ms_funded : funded s;
  ms_keys : auth_keys (account_of n (cvault s)) = ov_keys w;
  ms_version : version (account_of n (cvault s)) = ov_keys_version w;
  ms_data a d : holds w a d -> slot_at (cvault s) a d;
  ms_free a : vacant w a -> nae_manager (cache (cvault s)) !! addr_id a = None;
}.

Lemma addr_id_inj a b : addr_id a = addr_id b -> a = b.
Proof. destruct a, b. unfold addr_id. simpl. congruence. Qed.

(** A request that leaves the vault as it was. *)
Lemma shows_asked w s : mock_shows w s -> mock_shows w (after_request (cvault s) s).
Proof. intros [[(Hm & Hw & Hl) Hb] Hk Hv Hd Hf]. by split. Qed.

(** A request that leaves the balances and the accounts alone, and writes at one address. *)
Lemma shows_written w s a d :
  mock_shows w s -> mdata_owner (MDSeq d) = pk -> serving (after_request (put_data_at (addr_id a) (Mutable (MDSeq d)) (cvault s)) s) ->
  mock_shows (put_slot a (slot_of d) w) (after_request (put_data_at (addr_id a) (Mutable (MDSeq d)) (cvault s)) s).
Proof.
  intros [[Hs Hb] Hk Hv Hd Hf] Ho Hs'.
  assert (forall b, b <> a -> nae_manager (cache (put_data_at (addr_id a) (Mutable (MDSeq d)) (cvault s))) !! addr_id b =
    nae_manager (cache (cvault s)) !! addr_id b) as Hne.
  { intros b Hb'. simpl. apply lookup_insert_ne. intros ?%addr_id_inj. congruence. }
  split; [by split|done|done|..]; intros b.
  - intros slot. destruct (decide (b = a)) as [->|Hb'].
    + unfold holds. simpl. rewrite lookup_insert_eq. intros [= <-]. exists d. simpl. by rewrite lookup_insert_eq.
    + rewrite holds_put_ne by done. intros Hslot. unfold slot_at. cbn. rewrite Hne by done. by apply Hd.
  - intros [Hno Hfree]. simpl in Hno. apply lookup_insert_None in Hno as [Hno Hb'].
    cbn. rewrite Hne by done. by apply Hf.
Qed.

(** * The requests *)

Lemma commit_free m v : ~ limited v -> commit_mutation m v = Ret tt v.
Proof.
  intros Hlim. unfold commit_mutation, bind, gets. unfold limited in Hlim.
  destruct (unlimited_coins _); [done|]. by destruct Hlim.
Qed.

(** The data the view says is there, as the vault has it. *)
Lemma shown w s a slot :
  mock_shows w s -> holds w a slot ->
  exists d, nae_manager (cache (cvault s)) !! addr_id a = Some (Mutable (MDSeq d)) /\
    mdata_owner (MDSeq d) = pk /\ slot_of d = slot /\ mdata_address (MDSeq d) = MSeq a.1 a.2.
Proof.
  intros [[(_ & Hwf & _) _] _ _ Hd _] Ha. destruct (Hd a slot Ha) as (d & Hn & Ho & Hs).
  exists d. split_and!; [done..|]. pose proof (wf_data _ Hwf _ _ Hn) as Hid. by injection Hid.
Qed.

Lemma get_at d a req v :
  nae_manager (cache v) !! addr_id a = Some (Mutable (MDSeq d)) ->
  mdata_address (MDSeq d) = MSeq a.1 a.2 -> check_perms_mdata (MDSeq d) req pk = Ok tt ->
  get_mdata_at (MSeq a.1 a.2) pk req v = Ret (MDSeq d) v.
Proof.
  intros Hd Ha Hc. unfold get_mdata_at, get_mdata, get_data, bind, gets.
  change (DMutable _) with (addr_id a). rewrite Hd. simpl. rewrite Hc. simpl. by rewrite decide_True.
Qed.

(** A change of the data at an address, accepted. *)
Lemma written_call w s a req d d' :
  mock_shows w s -> mdata_owner (MDSeq d') = pk ->
  nae_manager (cache (cvault s)) !! addr_id a = Some (Mutable (MDSeq d)) ->
  dispatch (PClient c) pk pk req (cvault s) =
    Ret (RMutation (Ok tt)) (put_data_at (addr_id a) (Mutable (MDSeq d')) (cvault s)) ->
  exists s', mock_shows (put_slot a (slot_of d') w) s' /\ send_mutation (client_of id) req s = Ret tt s'.
Proof.
  intros Hw Ho Hd Hdis. pose proof (proj1 (ms_funded _ _ Hw)) as Hs.
  destruct (client_call id req s _ _ Hs Hdis) as (Hsend & Hs' & _).
  eexists. split; [by apply shows_written|].
  unfold send_mutation. by rewrite (bind_Ret _ _ _ _ _ Hsend).
Qed.

(** A request that is refused, or answered without a change. *)
Lemma asked_call w s req resp :
  mock_shows w s -> dispatch (PClient c) pk pk req (cvault s) = Ret resp (cvault s) ->
  mock_shows w (after_request (cvault s) s) /\
  send (client_of id) req s = Ret resp (after_request (cvault s) s).
Proof.
  intros Hw Hdis. split; [by apply shows_asked|].
  apply (client_call id req s _ _ (proj1 (ms_funded _ _ Hw)) Hdis).
Qed.

Lemma mock_get w name tag slot k s :
  mock_shows w s -> holds w (name, tag) slot ->
  exists s', mock_shows w s' /\
    get_seq_mdata_value (client_of id) name tag k s =
      match slot_entries slot !! k with
      | Some x => Ret x s'
      | None => Fail (DataError NoSuchEntry) s'
      end.
Proof.
  intros Hw Ha. destruct (shown _ _ _ _ Hw Ha) as (d & Hd & Ho & <- & _).
  assert (dispatch (PClient c) pk pk (GetMDataValue (MSeq name tag) k) (cvault s) = Ret (RGetMDataValue
    (ok_or_r (VSeq <$> seq_mdata_entries d !! k) NoSuchEntry)) (cvault s)) as Hdis.
  { simpl. unfold handle_GetMDataValue, get_mdata, get_data, respond, bind, attempt, gets.
    change (DMutable _) with (addr_id (name, tag)). rewrite Hd. simpl.
    rewrite (seq_owner_allowed d MRead pk Ho). simpl. unfold match_mdata.
    rewrite (proj1 (mdata_address_kind_spec name tag)), seq_get_entries.
    by destruct (seq_mdata_entries d !! k). }
  destruct (asked_call _ _ _ _ Hw Hdis) as [Hw' Hsend]. eexists. split; [exact Hw'|].
  unfold get_seq_mdata_value. rewrite (bind_Ret _ _ _ _ _ Hsend). simpl.
  by destruct (seq_mdata_entries d !! k).
Qed.

Lemma mock_version w name tag slot s :
  mock_shows w s -> holds w (name, tag) slot ->
  exists s', mock_shows w s' /\ get_mdata_version (client_of id) (MSeq name tag) s = Ret (slot_version slot) s'.
Proof.
  intros Hw Ha. destruct (shown _ _ _ _ Hw Ha) as (d & Hd & Ho & <- & Haddr).
  assert (dispatch (PClient c) pk pk (GetMDataVersion (MSeq name tag)) (cvault s) =
    Ret (RGetMDataVersion (Ok (mdata_version (MDSeq d)))) (cvault s)) as Hdis.
  { simpl. unfold handle_GetMDataVersion, respond, bind, attempt.
    by rewrite (get_at d (name, tag)) by (try done; by apply seq_owner_allowed). }
  destruct (asked_call _ _ _ _ Hw Hdis) as [Hw' Hsend]. eexists. split; [exact Hw'|].
  unfold get_mdata_version. by rewrite (bind_Ret _ _ _ _ _ Hsend).
Qed.

Context `{seqg : !SeqGrantLaws}.

Lemma mock_mutate w name tag slot acts s :
  mock_shows w s -> holds w (name, tag) slot ->
  let errors := entry_errors (slot_entries slot) (seq_into_actions acts) in
  exists s',
    (errors = ∅ /\
     mock_shows (put_slot (name, tag)
       (set_entries (entries_applied (slot_entries slot) (seq_into_actions acts)) slot) w) s' /\
     mutate_seq_mdata_entries (client_of id) name tag acts s = Ret tt s') \/
    (errors <> ∅ /\ mock_shows w s' /\
     mutate_seq_mdata_entries (client_of id) name tag acts s = Fail (DataError (InvalidEntryActions errors)) s').
Proof.
  intros Hw Ha. destruct (shown _ _ _ _ Hw Ha) as (d & Hd & Ho & <- & Haddr). intros errors.
  assert (get_mdata_at (MSeq name tag) pk (MutateMDataEntries (MSeq name tag) (ActSeq acts))
    (cvault s) = Ret (MDSeq d) (cvault s)) as Hget by by apply (get_at d (name, tag)).
  pose proof (seq_mutate_owner d acts pk Ho) as Hm.
  destruct (mdata_mutate_entries _ _ _) as [d'|e] eqn:Hmut.
  - destruct Hm as (He & x & -> & Hx). destruct (seq_mutate_rest _ _ _ _ Hmut) as [Hp Hv].
    assert (dispatch (PClient c) pk pk (MutateMDataEntries (MSeq name tag) (ActSeq acts)) (cvault s) =
      Ret (RMutation (Ok tt)) (put_data_at (addr_id (name, tag)) (Mutable (MDSeq x)) (cvault s))) as Hdis.
    { simpl. unfold handle_MutateMDataEntries, respond, bind, attempt. rewrite Hget, Hmut. simpl.
      destruct Hw as [[(_ & _ & Hlim) _] _ _ _ _]. by rewrite commit_free. }
    assert (mdata_owner (MDSeq x) = pk) as Hox by by rewrite (proj2 (mdata_mutate_entries_address _ _ _ _ Hmut)).
    destruct (written_call w s (name, tag) _ d x Hw Hox Hd Hdis) as (s' & Hw' & Hcall).
    exists s'. left. split_and!; [done| |exact Hcall].
    unfold slot_of in Hw' at 1. by rewrite Hx, Hp, Hv in Hw'.
  - destruct Hm as [Hne ->]. fold errors.
    assert (dispatch (PClient c) pk pk (MutateMDataEntries (MSeq name tag) (ActSeq acts)) (cvault s) =
      Ret (RMutation (Err (InvalidEntryActions errors))) (cvault s)) as Hdis.
    { simpl. unfold handle_MutateMDataEntries, respond, bind, attempt. by rewrite Hget, Hmut. }
    destruct (asked_call _ _ _ _ Hw Hdis) as [Hw' Hsend]. eexists. right. split_and!; [done|exact Hw'|].
    unfold mutate_seq_mdata_entries, send_mutation. by rewrite (bind_Ret _ _ _ _ _ Hsend).
Qed.

Lemma mock_grant w name tag slot u p s :
  mock_shows w s -> holds w (name, tag) slot ->
  exists s', mock_shows (put_slot (name, tag) (grant u p slot) w) s' /\
    ClientApi.set_mdata_user_permissions (client_of id) (MSeq name tag) u p (slot_version slot + 1) s = Ret tt s'.
Proof.
  intros Hw Ha. destruct (shown _ _ _ _ Hw Ha) as (d & Hd & Ho & <- & Haddr).
  destruct (seq_set_perms d u p) as (x & Hset & He & Hp & Hv).
  assert (dispatch (PClient c) pk pk (SetMDataUserPermissions (MSeq name tag) u p (slot_version (slot_of d) + 1)) (cvault s) =
    Ret (RMutation (Ok tt)) (put_data_at (addr_id (name, tag)) (Mutable (MDSeq x)) (cvault s))) as Hdis.
  { simpl. unfold handle_SetMDataUserPermissions, respond, bind, attempt.
    rewrite (get_at d (name, tag)) by (try done; by apply seq_owner_allowed). rewrite Hset. simpl.
    destruct Hw as [[(_ & _ & Hlim) _] _ _ _ _]. by rewrite commit_free. }
  assert (mdata_owner (MDSeq x) = pk) as Hox by by rewrite (proj2 (mdata_set_user_permissions_address _ _ _ _ _ Hset)).
  destruct (written_call w s (name, tag) _ d x Hw Hox Hd Hdis) as (s' & Hw' & Hcall).
  exists s'. split; [|exact Hcall]. unfold slot_of in Hw' at 1. by rewrite He, Hp, Hv in Hw'.
Qed.

Lemma mock_ungrant w name tag slot u s :
  mock_shows w s -> holds w (name, tag) slot ->
  exists s',
    (is_Some (slot_perms slot !! u) /\ mock_shows (put_slot (name, tag) (ungrant u slot) w) s' /\
     ClientApi.del_mdata_user_permissions (client_of id) (MSeq name tag) u (slot_version slot + 1) s = Ret tt s') \/
    (slot_perms slot !! u = None /\ mock_shows w s' /\
     ClientApi.del_mdata_user_permissions (client_of id) (MSeq name tag) u (slot_version slot + 1) s =
       Fail (DataError NoSuchKey) s').
Proof.
  intros Hw Ha. destruct (shown _ _ _ _ Hw Ha) as (d & Hd & Ho & <- & Haddr).
  pose proof (seq_del_perms_ok d u) as Hdel. change (slot_perms (slot_of d)) with (mdata_permissions (MDSeq d)).
  assert (get_mdata_at (MSeq name tag) pk (DelMDataUserPermissions (MSeq name tag) u (slot_version (slot_of d) + 1))
    (cvault s) = Ret (MDSeq d) (cvault s)) as Hget
    by (apply (get_at d (name, tag)); try done; by apply seq_owner_allowed).
  cbn [slot_version slot_of] in *.
  destruct (mdata_permissions (MDSeq d) !! u).
  - destruct Hdel as (x & Hset & He & Hp & Hv).
    assert (dispatch (PClient c) pk pk (DelMDataUserPermissions (MSeq name tag) u (slot_version (slot_of d) + 1)) (cvault s) =
      Ret (RMutation (Ok tt)) (put_data_at (addr_id (name, tag)) (Mutable (MDSeq x)) (cvault s))) as Hdis.
    { simpl. unfold handle_DelMDataUserPermissions, respond, bind, attempt. rewrite Hget, Hset. simpl.
      destruct Hw as [[(_ & _ & Hlim) _] _ _ _ _]. by rewrite commit_free. }
    assert (mdata_owner (MDSeq x) = pk) as Hox by by rewrite (proj2 (mdata_del_user_permissions_address _ _ _ _ Hset)).
    destruct (written_call w s (name, tag) _ d x Hw Hox Hd Hdis) as (s' & Hw' & Hcall).
    exists s'. left. split_and!; [by eexists| |exact Hcall].
    unfold slot_of in Hw' at 1. by rewrite He, Hp, Hv in Hw'.
  - assert (dispatch (PClient c) pk pk (DelMDataUserPermissions (MSeq name tag) u (slot_version (slot_of d) + 1)) (cvault s) =
      Ret (RMutation (Err NoSuchKey)) (cvault s)) as Hdis.
    { simpl. unfold handle_DelMDataUserPermissions, respond, bind, attempt. by rewrite Hget, Hdel. }
    destruct (asked_call _ _ _ _ Hw Hdis) as [Hw' Hsend]. eexists. right. split_and!; [done|exact Hw'|].
    unfold ClientApi.del_mdata_user_permissions, send_mutation. by rewrite (bind_Ret _ _ _ _ _ Hsend).
Qed.

Lemma mock_create w name tag es ps s :
  mock_shows w s -> vacant w (name, tag) ->
  exists s',
    mock_shows (put_slot (name, tag) {| slot_entries := es; slot_perms := ps; slot_version := 0 |} w) s' /\
    put_seq_mutable_data (client_of id) (seq_new_with_data name tag es ps (owner_key (client_of id))) s = Ret tt s'.
Proof.
  intros Hw Ha. set (d := seq_new_with_data name tag es ps (owner_key (client_of id))).
  destruct (seq_new_spec name tag es ps (owner_key (client_of id))) as (Haddr & Ho & He & Hp & Hv).
  fold d in Haddr, Ho, He, Hp, Hv. pose proof (ms_free _ _ Hw _ Ha) as Hno.
  destruct (put_dir_call d s (ms_funded _ _ Hw) Ho) as (v' & Hv' & Hf & Hcall).
  rewrite Haddr in Hv', Hcall. change (DMutable _) with (addr_id (name, tag)) in Hv', Hcall.
  destruct (decide _) as [_|Hne]; [|done]. subst v'. eexists. split; [|exact Hcall].
  pose proof (shows_written w s (name, tag) d Hw Ho (proj1 Hf)) as Hw'.
  unfold slot_of in Hw' at 1. by rewrite He, Hp, Hv in Hw'.
Qed.

(** * Authorised keys *)

(** An answer that comes with a new account. *)
Lemma shows_account w s a :
  mock_shows w s -> serving (after_request (put_account n a (cvault s)) s) ->
  mock_shows {| ov_data := ov_data w; ov_free := ov_free w; ov_keys := auth_keys a; ov_keys_version := version a |}
    (after_request (put_account n a (cvault s)) s).
Proof.
  intros [[Hs Hb] Hk Hv Hd Hf] Hs'. split; simpl; [by split|by rewrite account_of_put..|exact Hd|exact Hf].
Qed.

Lemma mock_list_keys w s :
  mock_shows w s ->
  exists s', mock_shows w s' /\
    ClientApi.list_auth_keys_and_version (client_of id) s = Ret (ov_keys w, ov_keys_version w) s'.
Proof.
  intros Hw. pose proof Hw as [[Hs Hb] Hk Hv Hd Hf].
  destruct (client_call id _ s _ _ Hs (list_auth_keys_dispatch id (cvault s))) as (Hsend & Hs' & _).
  eexists. split.
  - assert (account_of n (account_listed n (cvault s)) = account_of n (cvault s)) as Ha.
    { unfold account_of, account_listed. destruct (client_manager _ !! n) as [a|] eqn:Ha; [by rewrite Ha|].
      simpl. by rewrite lookup_insert_eq. }
    assert (Hsame : coin_balances (cache (account_listed n (cvault s))) = coin_balances (cache (cvault s)) /\
      nae_manager (cache (account_listed n (cvault s))) = nae_manager (cache (cvault s))).
    { unfold account_listed. by destruct (client_manager _ !! n). }
    apply (Build_mock_shows _ (after_request (account_listed n (cvault s)) s)).
    + split; [exact Hs'|]. simpl. by rewrite (proj1 Hsame).
    + simpl. by rewrite Ha.
    + simpl. by rewrite Ha.
    + intros b o Hb'. specialize (Hd b o Hb'). unfold slot_at in *. simpl. by rewrite (proj2 Hsame).
    + intros b Hb'. specialize (Hf b Hb'). simpl. by rewrite (proj2 Hsame).
  - unfold ClientApi.list_auth_keys_and_version. rewrite (bind_Ret _ _ _ _ _ Hsend). rewrite <-Hk, <-Hv. reflexivity.
Qed.

Lemma key_change w s req keys :
  mock_shows w s -> (0 <= ov_keys_version w /\ ov_keys_version w + 1 < u64_modulus)%Z ->
  dispatch (PClient c) pk pk req (cvault s) = Ret (RMutation (Ok tt))
    (put_account n {| auth_keys := keys; version := ov_keys_version w + 1;
                      config := config (account_of n (cvault s)) |} (cvault s)) ->
  exists s', mock_shows (set_keys keys w) s' /\ send_mutation (client_of id) req s = Ret tt s'.
Proof.
  intros Hw Hv Hdis. destruct (client_call id req s _ _ (proj1 (ms_funded _ _ Hw)) Hdis) as (Hsend & Hs' & _).
  eexists. split; [exact (shows_account _ _ _ Hw Hs')|].
  unfold send_mutation. by rewrite (bind_Ret _ _ _ _ _ Hsend).
Qed.

Lemma mock_ins_key w k p s :
  mock_shows w s -> (0 <= ov_keys_version w /\ ov_keys_version w + 1 < u64_modulus)%Z ->
  exists s', mock_shows (set_keys (<[k := p]> (ov_keys w)) w) s' /\
    ClientApi.ins_auth_key (client_of id) k p (ov_keys_version w + 1) s = Ret tt s'.
Proof.
  intros Hw Hv. apply key_change; [done|done|]. pose proof Hw as [_ Hk Hver _ _].
  pose proof (ins_auth_key_dispatch c k p (ov_keys_version w + 1)%Z (cvault s)) as Hd. simpl in Hd.
  fold n pk in Hd. rewrite Hver, Hk, u64_add_small, decide_True in Hd by (done || lia). exact Hd.
Qed.

Lemma mock_del_key w k s :
  mock_shows w s -> (0 <= ov_keys_version w /\ ov_keys_version w + 1 < u64_modulus)%Z ->
  is_Some (ov_keys w !! k) ->
  exists s', mock_shows (set_keys (delete k (ov_keys w)) w) s' /\
    ClientApi.del_auth_key (client_of id) k (ov_keys_version w + 1) s = Ret tt s'.
Proof.
  intros Hw Hv [p Hp]. apply key_change; [done|done|]. pose proof Hw as [_ Hk Hver _ _].
  pose proof (del_auth_key_dispatch id k (ov_keys_version w + 1)%Z (cvault s)) as Hd. simpl in Hd.
  fold c n pk in Hd. rewrite Hver, Hk, u64_add_small, decide_True, Hp in Hd by (done || lia). exact Hd.
Qed.

#[export] Instance MockOwnNet : OwnNet (client_of id) := {|
  shows := mock_shows; net_get w name tag d k s := mock_get w name tag d k s;
  net_mutate := mock_mutate; net_version := mock_version; net_grant := mock_grant;
  net_ungrant := mock_ungrant; net_create := mock_create; net_list_keys := mock_list_keys;
  net_ins_key := mock_ins_key; net_del_key := mock_del_key |}.
End client.
End mock.
