(* ===== verification/StdDirsProofs.v ===== *)
(** The creation of an account from end to end on the mock network, and the login that
    makes up for an interrupted creation. *)
From S2P Require Import Prelude SafeNd SafeNdModel MockAccount MockVault.
From S2P Require Import MockVaultRequests MockVaultProcess MockVaultSpec.
From S2P Require Import MockVaultRefine MockVaultSafety MockVaultBehaviour MockVaultAccess.
From S2P Require Import CoreTypes ClientApi MockStore MockConnection MockShared.
From S2P Require Import MockClient MockVaultLocal Recovery RecoveryProofs RecoveryRepair SeqStore.
From S2P Require Import MDataInfo MDataInfoProofs AuthTypes AuthConfig AuthConfigProofs.
From S2P Require Import AccessContainer RevocationMock AuthModel AppAuth AuthErrors AccessContainerProofs OwnNet OwnNetMock.
From S2P Require Import AccountPacket AuthLogin AuthLoginProofs StdDirs.

(** * Futures that are started and joined *)

Section joins.
Context {S E F X T : Type}.

Lemma join_all_ok (ts : list T) (s : S) : join_all (E := E) (map Ok ts) s = Ret ts s.
Proof.
  unfold join_all.
  assert (forall done, fold_m (E := E) (fun done r => let! t := lift_result r in ret (done ++ [t]))
    (map Ok ts) done s = Ret (done ++ ts) s) as H; [|apply H].
  induction ts as [|t ts IH]; intros done; simpl; [by rewrite app_nil_r|].
  unfold bind. simpl. rewrite IH. by rewrite <-app_assoc.
Qed.

Lemma start_all_ok (R : list X -> S -> Prop) (f : X -> M S E T) l s :
  (forall l1 x s, R l1 s -> exists t s', f x s = Ret t s' /\ R (l1 ++ [x]) s') -> R [] s ->
  exists ts s', start_all (F := F) f l s = Ret (map Ok ts) s' /\ R l s'.
Proof.
  intros Hf Hs. unfold start_all.
  assert (forall ts l1 s, R l1 s -> exists ts' s',
    fold_m (E := F) (fun started x => let! r := attempt (f x) in ret (started ++ [r])) l (map Ok ts) s =
      Ret (map Ok ts') s' /\ R (l1 ++ l) s') as H; [|by apply (H [] [])].
  clear Hs s. induction l as [|x l IH]; intros ts l1 s Hs; simpl.
  - exists ts, s. by rewrite app_nil_r.
  - destruct (Hf l1 x s Hs) as (t & s' & Hx & Hs').
    unfold bind at 1, bind at 1, attempt. rewrite Hx. cbn [ret].
    replace (map Ok ts ++ [Ok t]) with (map Ok (ts ++ [t]) : list (result T E)) by apply map_app.
    destruct (IH (ts ++ [t]) _ _ Hs') as (ts' & s2 & Hrun & Hs2).
    exists ts', s2. split; [exact Hrun|]. by rewrite <-app_assoc in Hs2.
Qed.
End joins.

Section mock.
Context `{ndt : !NdTypes, ndo : !NdOps, ndl : !NdLaws, host : !Host}.
Context `{core : !CoreExt, corel : !CoreExtLaws, lru : !LruOps}.
Context `{cr : !Crypto, crl : !CryptoLaws, auth : !AuthExt, authl : !AuthExtLaws}.
Context `{aa : !AppAuthExt, seqn : !SeqNewLaws, aext : !AccountExt}.
Context `{aextl : !AccountExtLaws, sacc : !Serial Account, saccl : !SerialLaws Account}.
Context `{sapps : !Serial Apps, sappsl : !SerialLaws Apps, sdirs : !Serial (gmap string MDataInfo)}.
Context `{sdirsl : !SerialLaws (gmap string MDataInfo)}.
Context `{env : !StoreEnv, rnd : !RandomSource, seqm : !SeqMutateLaws, seqr : !SeqReadLaws}.

Abbreviation cvault s := (lk_vault (vault (connection_manager s))).
Abbreviation AS := (AuthState (W := MockNet)).
Abbreviation nae st := (nae_manager (cache (cvault (inner st)))).

Section client.
Context (id : ClientFullId).
Let c := client_full_public_id id.
Let pk := client_public_key c.

Abbreviation funded := (funded id).

(** * Runs that only add data *)

(** Data is kept as it is, and what is new is as [N] says. *)
Record grows (N : DataId -> Data -> Prop) (st st' : AS) : Prop := {
  grows_rng : auth_rng st <= auth_rng st';
  grows_packets : login_packets (cache (cvault (inner st'))) = login_packets (cache (cvault (inner st)));
  grows_kept a x : nae st !! a = Some x -> nae st' !! a = Some x;
  grows_new a x : nae st' !! a = Some x -> nae st !! a = Some x \/ N a x;
}.

Lemma grows_refl N st : grows N st st.
Proof. split; auto. Qed.

Lemma grows_trans N1 N2 st1 st2 st3 :
  grows N1 st1 st2 -> grows N2 st2 st3 -> grows (fun a x => N1 a x \/ N2 a x) st1 st3.
Proof.
  intros [Hr1 Hp1 Hk1 Hn1] [Hr2 Hp2 Hk2 Hn2]. split; [lia|congruence|auto|].
  intros a x Hx. destruct (Hn2 a x Hx) as [Hx'|]; [|tauto]. destruct (Hn1 a x Hx'); tauto.
Qed.

Lemma grows_mono (N1 N2 : DataId -> Data -> Prop) st1 st2 :
  (forall a x, N1 a x -> N2 a x) -> grows N1 st1 st2 -> grows N2 st1 st2.
Proof. intros HN [Hr Hp Hk Hn]. split; auto. intros a x Hx. destruct (Hn a x Hx); auto. Qed.

Lemma grows_none N st st' a :
  grows N st st' -> nae st !! a = None -> (forall x, ~ N a x) -> nae st' !! a = None.
Proof.
  intros Hg Ha HN. destruct (nae st' !! a) as [x|] eqn:Hx; [|done].
  destruct (grows_new _ _ _ Hg a x Hx) as [|Hn]; [congruence|by destruct (HN x)].
Qed.

Lemma grows_is_Some N st st' a : grows N st st' -> is_Some (nae st !! a) -> is_Some (nae st' !! a).
Proof. intros Hg [x Hx]. exists x. by apply (grows_kept _ _ _ Hg). Qed.

(** The generator alone moved. *)
Lemma grows_draw N st r : auth_rng st <= r -> grows N st (set_auth_rng r st).
Proof. by intros Hr; split; auto. Qed.

(** * Directories *)

Definition dir_id (dir : MDataInfo) : DataId :=
  DMutable (MSeq (mdata_address_name (address dir)) (mdata_address_tag (address dir))).

(** Data of the client, with these entries. *)
Definition own_data (es : MDataSeqEntries) (x : Data) : Prop :=
  exists d, x = Mutable (MDSeq d) /\ mdata_owner (MDSeq d) = pk /\ seq_mdata_entries d = es.

Context (client : AuthClient) (Hclient : ac_client client = client_of id).

Lemma create_dir_ok dir contents (st : AS) :
  funded (inner st) ->
  exists st', create_dir client dir contents ∅ st = Ret tt st' /\ funded (inner st') /\
    grows (fun a x => a = dir_id dir /\ own_data contents x) st st' /\
    is_Some (nae st' !! dir_id dir).
Proof using All.
  intros Hf. set (d := seq_new_with_data (mdata_address_name (address dir))
    (mdata_address_tag (address dir)) contents ∅ pk).
  destruct (seq_new_spec (mdata_address_name (address dir)) (mdata_address_tag (address dir))
    contents ∅ pk) as (Ha & Ho & He & _). fold d in Ha, Ho, He.
  destruct (put_dir_call id d (inner st) Hf Ho) as (v' & Hv' & Hf' & Hcall). rewrite Ha in Hv', Hcall.
  change (DMutable (MSeq _ _)) with (dir_id dir) in Hv', Hcall.
  exists (set_inner (after_request v' (inner st)) st). split_and!; [|exact Hf'| |].
  - unfold create_dir, map_err, or_else. rewrite Hclient. cbn [owner_key client_of]. fold c pk d.
    unfold on_inner. rewrite Hcall. by destruct (decide _).
  - destruct (decide _) as [Hn|Hn]; rewrite Hv'; [|by split; auto]. split; auto; simpl.
    + intros a x Hx. rewrite lookup_insert_ne by congruence. done.
    + intros a x. destruct (decide (a = dir_id dir)) as [->|Hne]; [|rewrite lookup_insert_ne by done; auto].
      rewrite lookup_insert_eq. intros [= <-]. right. split; [done|]. by exists d.
  - destruct (decide _) as [Hn|Hn]; rewrite Hv'; simpl.
    + rewrite lookup_insert_eq. eauto.
    + by apply not_eq_None_Some in Hn.
Qed.

(** The new data of a set of directories. *)
Definition new_dirs (dirs : list MDataInfo) (a : DataId) (x : Data) : Prop :=
  (exists d, d ∈ dirs /\ a = dir_id d) /\ own_data ∅ x.

Lemma create_std_dirs_ok dirs (st : AS) :
  funded (inner st) ->
  exists st', create_std_dirs client dirs st = Ret tt st' /\ funded (inner st') /\
    grows (new_dirs (map_to_list dirs).*2) st st' /\
    forall name d, dirs !! name = Some d -> is_Some (nae st' !! dir_id d).
Proof using All.
  intros Hf.
  set (R := fun (l : list (string * MDataInfo)) st' => funded (inner st') /\
    grows (new_dirs l.*2) st st' /\ Forall (fun p => is_Some (nae st' !! dir_id p.2)) l).
  destruct (start_all_ok (F := AuthError) R (fun '(_, md_info) =>
      map_err auth_from_nfs (create_dir client md_info ∅ ∅)) (hash_iter dirs) st)
    as (ts & st' & Hrun & Hf' & Hg & Hall).
  - intros l1 [n d] st1 (Hf1 & Hg1 & Hall1).
    destruct (create_dir_ok d ∅ st1 Hf1) as (st2 & Hd & Hf2 & Hg2 & Hin).
    exists tt, st2. split; [unfold map_err, or_else; by rewrite Hd|]. split_and!; [done| |].
    + eapply grows_mono; [|by eapply grows_trans]. rewrite fmap_app. unfold new_dirs.
      intros a x [[(d' & Hd' & ->) Hx]|[-> Hx]]; (split; [|done]); [exists d'|exists d]; set_solver.
    + apply Forall_app. split; [|by constructor]. eapply Forall_impl; [|exact Hall1].
      intros p. by apply (grows_is_Some _ _ _ _ Hg2).
  - split_and!; [done|apply grows_refl|constructor].
  - exists st'. split_and!; [|done| |].
    + unfold create_std_dirs. rewrite (bind_Ret _ _ _ _ _ Hrun). by rewrite (bind_Ret _ _ _ _ _ (join_all_ok _ _)).
    + eapply grows_mono; [|exact Hg]. intros a x [(d & Hd & ->) Hx]. split; [|done]. exists d.
      split; [|done]. by rewrite <-(hash_iter_perm dirs).
    + intros name d Hd. rewrite list.Forall_forall in Hall. apply (Hall (name, d)).
      by rewrite (hash_iter_perm dirs), elem_of_map_to_list.
Qed.


(** * The configuration and the access container *)

Lemma encrypt_entries_one info key v i :
  exists c i', encrypt_entries info {[ key := v ]} i = Ret {[ key_cipher info key := c ]} i' /\
    decrypt_value info c = Ok v /\ i <= i'.
Proof.
  destruct (encrypt_value_ok info v i) as (w & i' & Hw & Hdec).
  exists w, i'. split_and!; [|done|].
  - unfold encrypt_entries, btree_iter. rewrite map_to_list_singleton. simpl.
    unfold bind. rewrite (proj1 (key_cipher_ok info key)). simpl. rewrite Hw. done.
  - revert Hw. unfold encrypt_value, enc_entry_value, bind.
    destruct (new_enc_info info) as [[k ?]|]; [|destruct (enc_info info) as [[k ?]|]];
      try (destruct (symmetric_encrypt_ok (seq_data v) k i) as (ct & -> & _));
      unfold ret; intros; simplify_eq; lia.
Qed.

Definition config_entry (info : MDataInfo) (es : MDataSeqEntries) : Prop :=
  exists v, es = {[ key_cipher info KEY_APPS := v ]} /\
    decrypt_value info v = Ok {| seq_data := []; seq_version := 0 |}.

Lemma create_config_dir_ok dir (st : AS) :
  funded (inner st) ->
  exists st' es, create_config_dir client dir st = Ret tt st' /\ funded (inner st') /\
    grows (fun a x => a = dir_id dir /\ own_data es x) st st' /\
    config_entry dir es /\ is_Some (nae st' !! dir_id dir).
Proof using All.
  intros Hf. unfold create_config_dir.
  destruct (encrypt_entries_one dir KEY_APPS {| seq_data := []; seq_version := 0 |} (auth_rng st))
    as (v & r & He & Hv & Hr).
  rewrite (bind_Ret _ _ _ _ _ (from_core_Ret _ _ _ _ (on_rng_Ret _ _ _ _ He))).
  destruct (create_dir_ok dir {[ key_cipher dir KEY_APPS := v ]} (set_auth_rng r st) Hf)
    as (st' & Hd & Hf' & Hg & Hin).
  exists st', {[ key_cipher dir KEY_APPS := v ]}.
  split; [|split; [exact Hf'|split; [|split; [exists v; exact (conj eq_refl Hv)|exact Hin]]]].
  - unfold map_err, or_else. by rewrite Hd.
  - eapply grows_mono; [|eapply (grows_trans (fun _ _ => False)); [by apply grows_draw|exact Hg]].
    simpl. tauto.
Qed.

Lemma create_access_container_ok nonce dirs (st : AS) :
  snd <$> enc_info (access_container client) = Some nonce -> funded (inner st) ->
  exists st' es, create_access_container client (access_container client) dirs st = Ret tt st' /\
    funded (inner st') /\
    grows (fun a x => a = dir_id (access_container client) /\ own_data es x) st st' /\
    container_entry client dirs 0 es /\ is_Some (nae st' !! dir_id (access_container client)).
Proof using All.
  intros Hn Hf. set (sk := secret_symmetric_key client).
  unfold create_access_container. rewrite Hn. erewrite bind_Ret by reflexivity. fold sk.
  destruct (symmetric_encrypt_with_ok (as_bytes AUTHENTICATOR_ENTRY) sk
    (take SYM_ENC_NONCE_LEN (sha3_256 (as_bytes AUTHENTICATOR_ENTRY ++ nonce)))) as [key Hkey].
  assert (access_container_enc_key AUTHENTICATOR_ENTRY sk nonce = Ok key) as Hkey' by exact Hkey.
  rewrite Hkey'. erewrite bind_Ret by reflexivity.
  destruct (serial_roundtrip dirs) as (plain & Hser & _ & Hde). rewrite Hser. erewrite bind_Ret by reflexivity.
  destruct (symmetric_encrypt_ok plain sk (auth_rng st)) as (ct & Hct & Hcipher).
  rewrite (bind_Ret _ _ _ _ _ (from_core_Ret _ _ _ _ (on_rng_Ret _ _ _ _ Hct))).
  set (es := {[ key := {| seq_data := ct; seq_version := 0 |} ]} : MDataSeqEntries).
  destruct (create_dir_ok (access_container client) es (set_auth_rng (S (auth_rng st)) st) Hf)
    as (st' & Hd & Hf' & Hg & Hin).
  exists st', es. split; [|split; [exact Hf'|split; [|split; [|exact Hin]]]].
  - unfold map_err, or_else. by rewrite Hd.
  - eapply grows_mono; [|eapply (grows_trans (fun _ _ => False)); [|exact Hg]].
    + simpl. tauto.
    + apply grows_draw. lia.
  - exists key. split.
    + unfold enc_key. rewrite Hn. cbn [ok_or_r rbind]. fold sk. by rewrite Hkey'.
    + unfold entry_at, es. rewrite lookup_singleton_eq. split; [done|].
      unfold decode_raw. cbn [seq_data]. fold sk.
      rewrite (symmetric_decrypt_ok _ _ _ Hcipher). simpl. by rewrite Hde.
Qed.

(** The authenticator's entry, on the network. *)
Definition container_is (dirs : gmap string MDataInfo) (ver : Z) (st : AS) : Prop :=
  exists es x, nae st !! dir_id (access_container client) = Some x /\ own_data es x /\
    container_entry client dirs ver es.

(** A read leaves the vault as it was. *)
Definition asked (st : AS) : AS := set_inner (after_request (cvault (inner st)) (inner st)) st.

Lemma get_value_dispatch name tag k v :
  dispatch (PClient c) pk pk (GetMDataValue (MSeq name tag) k) v =
    match nae_manager (cache v) !! DMutable (MSeq name tag) with
    | None => Ret (RGetMDataValue (Err NoSuchData)) v
    | _ => dispatch (PClient c) pk pk (GetMDataValue (MSeq name tag) k) v
    end.
Proof.
  destruct (nae_manager _ !! _) eqn:Hd; [done|]. simpl.
  unfold handle_GetMDataValue, get_mdata, get_data, respond, bind, attempt, gets. by rewrite Hd.
Qed.

Lemma fetch_none nonce (st : AS) :
  snd <$> enc_info (access_container client) = Some nonce -> serving (inner st) ->
  nae st !! dir_id (access_container client) = None ->
  fetch_authenticator_entry client st = Fail (AuthCoreError (DataError NoSuchData)) (asked st).
Proof using All.
  intros Hn Hs Hno. destruct (enc_key_ok (access_container client) AUTHENTICATOR_ENTRY (secret_symmetric_key client)) as [key Hkey].
  { destruct (enc_info (access_container client)); [by eexists|done]. }
  unfold fetch_authenticator_entry. rewrite Hkey. erewrite bind_Ret by reflexivity. rewrite Hclient.
  pose proof (get_value_dispatch (mdata_address_name (address (access_container client)))
    (mdata_address_tag (address (access_container client))) key (cvault (inner st))) as Hd.
  unfold dir_id in Hno. rewrite Hno in Hd. destruct (client_call id _ _ _ _ Hs Hd) as (Hsend & _).
  unfold bind at 1. erewrite from_core_Fail; [reflexivity|]. apply on_inner_Fail.
  unfold get_seq_mdata_value. by rewrite (bind_Ret _ _ _ _ _ Hsend).
Qed.

Lemma fetch_some dirs ver (st : AS) :
  serving (inner st) -> container_is dirs ver st ->
  fetch_authenticator_entry client st = Ret (ver, dirs) (asked st).
Proof using All.
  intros Hs (es & x & Hx & (d & -> & Ho & He) & key & Hkey & Hent).
  unfold entry_at in Hent. destruct (es !! key) as [v|] eqn:Hv; [destruct Hent as [Hver Hdec]|done].
  unfold fetch_authenticator_entry. rewrite Hkey. erewrite bind_Ret by reflexivity. rewrite Hclient.
  set (name := mdata_address_name _) in *. set (tag := mdata_address_tag _) in *.
  assert (dispatch (PClient c) pk pk (GetMDataValue (MSeq name tag) key) (cvault (inner st)) =
    Ret (RGetMDataValue (Ok (VSeq v))) (cvault (inner st))) as Hd.
  { simpl. unfold handle_GetMDataValue, get_mdata, get_data, respond, bind, attempt, gets.
    change (DMutable (MSeq name tag)) with (dir_id (access_container client)). rewrite Hx. simpl.
    rewrite (seq_owner_allowed d MRead pk Ho). simpl. unfold match_mdata.
    by rewrite (proj1 (mdata_address_kind_spec name tag)), seq_get_entries, He, Hv. }
  destruct (client_call id _ _ _ _ Hs Hd) as (Hsend & _).
  erewrite bind_Ret; last first.
  { apply from_core_Ret, on_inner_Ret. unfold get_seq_mdata_value.
    rewrite (bind_Ret _ _ _ _ _ Hsend). reflexivity. }
  unfold decode_authenticator_entry. rewrite Hdec. erewrite bind_Ret by reflexivity. by rewrite Hver.
Qed.


Lemma container_is_grows N dirs ver st st' :
  grows N st st' -> container_is dirs ver st -> container_is dirs ver st'.
Proof. intros Hg (es & x & Hx & H). exists es, x. split; [by apply (grows_kept _ _ _ Hg)|done]. Qed.

(** * The standard containers *)

Definition standard_dirs : gset string := list_to_set (DEFAULT_PRIVATE_DIRS ++ DEFAULT_PUBLIC_DIRS).

(** The directory has the name of a draw from [r] on. *)
Definition drawn_dir (r : nat) (d : MDataInfo) : Prop :=
  exists j, r <= j /\ dir_id d = DMutable (MSeq (MkXorName (random_bytes_at j 32)) DIR_TAG).

Lemma random_std_dirs_ok r :
  exists l r', random_std_dirs r = Ret l r' /\ r <= r' /\
    l.*1 = DEFAULT_PRIVATE_DIRS ++ DEFAULT_PUBLIC_DIRS /\ Forall (fun p => drawn_dir r p.2) l.
Proof.
  eexists _, _. split; [reflexivity|]. split_and!; [lia|done|].
  repeat (constructor; [eexists; split; [|reflexivity]; lia|]). constructor.
Qed.

Lemma foldl_dirs (l : list (string * MDataInfo)) (m : gmap string MDataInfo) :
  let dirs := foldl (fun m '(name, md_info) => <[name := md_info]> m) m l in
  dom dirs = dom m ∪ list_to_set l.*1 /\
  forall name d, dirs !! name = Some d -> m !! name = Some d \/ d ∈ l.*2.
Proof.
  revert m. induction l as [|[n d] l IH]; intros m; simpl; [split; [set_solver|auto]|].
  destruct (IH (<[n := d]> m)) as [Hdom Hin]. split.
  - rewrite Hdom, dom_insert_L. set_solver.
  - intros name d' Hd'. destruct (Hin _ _ Hd') as [Hm|Hl]; [|right; set_solver].
    apply lookup_insert_Some in Hm as [[-> ->]|[_ Hm]]; [right; set_solver|by left].
Qed.

(** What the containers of an account are after [create_containers]. *)
Record containers_made (dirs : gmap string MDataInfo) (ver : Z) (st st' : AS) : Prop := {
  cm_funded : funded (inner st');
  cm_entry : container_is dirs ver st';
  cm_stored name d : dirs !! name = Some d -> is_Some (nae st' !! dir_id d);
}.

Definition no_dir_named_as_container (st : AS) : Prop := forall j, auth_rng st <= j ->
  dir_id (access_container client) <> DMutable (MSeq (MkXorName (random_bytes_at j 32)) DIR_TAG).

Lemma create_containers_absent nonce (st : AS) :
  snd <$> enc_info (access_container client) = Some nonce -> funded (inner st) ->
  nae st !! dir_id (access_container client) = None -> no_dir_named_as_container st ->
  exists dirs st', create_containers client (Err (AuthCoreError (DataError NoSuchData))) st = Ret tt st' /\
    containers_made dirs 0 st st' /\ dom dirs = standard_dirs /\
    map_Forall (fun _ => drawn_dir (auth_rng st)) dirs /\
    grows (fun a x => new_dirs (map_to_list dirs).*2 a x \/
                      a = dir_id (access_container client) /\ exists es, own_data es x) st st'.
Proof using All.
  intros Hn Hf Hno Hfresh. destruct (random_std_dirs_ok (auth_rng st)) as (l & r & Hl & Hr & Hnames & Hdrawn).
  destruct (foldl_dirs l ∅) as [Hdom Hin].
  set (dirs := foldl (fun m '(name, md_info) => <[name := md_info]> m) ∅ l) in *.
  assert (map_Forall (fun _ => drawn_dir (auth_rng st)) dirs) as Hdirs.
  { intros name d Hd. destruct (Hin name d Hd) as [Hm|Hm]; [by rewrite lookup_empty in Hm|].
    apply list_elem_of_fmap in Hm as (p & -> & Hp). rewrite list.Forall_forall in Hdrawn. by apply Hdrawn. }
  destruct (create_std_dirs_ok dirs (set_auth_rng r st) Hf) as (st1 & H1 & Hf1 & Hg1 & Hin1).
  assert (Hg1' : grows (new_dirs (map_to_list dirs).*2) st st1).
  { eapply grows_mono; [|eapply (grows_trans (fun _ _ => False)); [|exact Hg1]].
    - simpl. tauto.
    - by apply grows_draw. }
  assert (nae st1 !! dir_id (access_container client) = None) as Hno1.
  { apply (grows_none _ _ _ _ Hg1' Hno). intros x [(d & Hd & Heq) _].
    apply list_elem_of_fmap in Hd as ([n d'] & -> & Hd). apply elem_of_map_to_list in Hd.
    destruct (Hdirs _ _ Hd) as (j & Hj & Hid). apply (Hfresh j Hj). simpl in Heq. congruence. }
  destruct (create_access_container_ok nonce dirs st1 Hn Hf1) as (st2 & es & H2 & Hf2 & Hg2 & He & Hin2).
  exists dirs, st2. split_and!.
  - unfold create_containers. rewrite (bind_Ret _ _ _ _ _ (from_core_Ret _ _ _ _ (on_rng_Ret _ _ _ _ Hl))).
    fold dirs. unfold attempt. unfold bind at 1. rewrite H1. unfold bind at 1. rewrite H2. reflexivity.
  - split; [done| |].
    + destruct Hin2 as [x Hx]. exists es, x. split_and!; [done| |done].
      destruct (grows_new _ _ _ Hg2 _ _ Hx) as [Hx'|[_ Ho]]; [congruence|done].
    + intros name d Hd. apply (grows_is_Some _ _ _ _ Hg2). by apply (Hin1 name).
  - rewrite Hdom, Hnames, dom_empty_L. unfold standard_dirs. set_solver.
  - done.
  - eapply grows_mono; [|by eapply grows_trans]. intros a x [Hx|[-> Hx]]; [by left|right; eauto].
Qed.

Lemma create_containers_existing dirs ver (st : AS) :
  funded (inner st) -> container_is dirs ver st ->
  exists st', create_containers client (Ok (ver, dirs)) st = Ret tt st' /\
    containers_made dirs ver st st' /\ grows (new_dirs (map_to_list dirs).*2) st st'.
Proof using All.
  intros Hf Hc. destruct (create_std_dirs_ok dirs st Hf) as (st' & Hrun & Hf' & Hg & Hin).
  exists st'. split; [exact Hrun|]. split; [|exact Hg]. split; [done|by eapply container_is_grows|done].
Qed.

End client.

(** * Sessions *)

Section session.
Abbreviation sid i := (client_id (maid_keys (acc i))).
Abbreviation vault_of s := (cvault (inner (ses_state s))).

(** The session of an account whose containers are in place, on the network and in the
    account that a login gives. *)
Record in_place (dirs : gmap string MDataInfo) (ver : Z) (s : Session MockNet) : Prop := {
  ip_created : std_dirs_created (ses_auth s) = true;
  ip_funded : funded (sid (ses_auth s)) (inner (ses_state s));
  ip_account : holds_account (acc_loc (ses_auth s)) (user_cred (ses_auth s)) (acc (ses_auth s)) (vault_of s);
  ip_entry : container_is (sid (ses_auth s)) (auth_client_of (ses_auth s)) dirs ver (ses_state s);
  ip_stored name d : dirs !! name = Some d -> is_Some (nae (ses_state s) !! dir_id d);
  ip_config : is_Some (nae (ses_state s) !! dir_id (config_root_dir (auth_client_of (ses_auth s))));
}.

(** What [create] adds to the data of the network. *)
Definition added (i : AuthInner) (dirs : gmap string MDataInfo) (a : DataId) (x : Data) : Prop :=
  new_dirs (sid i) (map_to_list dirs).*2 a x \/
  (a = dir_id (acc_access_container (acc i)) /\ exists es, own_data (sid i) es x) \/
  (a = dir_id (acc_config_root (acc i)) /\
   exists es, own_data (sid i) es x /\ config_entry (acc_config_root (acc i)) es).

Definition adds (i : AuthInner) (dirs : gmap string MDataInfo) (st st' : AS) : Prop :=
  (forall a x, nae st !! a = Some x -> nae st' !! a = Some x) /\
  (forall a x, nae st' !! a = Some x -> nae st !! a = Some x \/ added i dirs a x).

Lemma grows_adds i dirs st st' : grows (added i dirs) st st' -> adds i dirs st st'.
Proof. intros Hg. split; [apply (grows_kept _ _ _ Hg)|apply (grows_new _ _ _ Hg)]. Qed.

Lemma with_client_Ret {T} (f : AuthClient -> M AS AuthError T) a st' (s : Session MockNet) :
  f (auth_client_of (ses_auth s)) (ses_state s) = Ret a st' ->
  with_client f s = Ret a (set_ses_state st' s).
Proof. intros Hf. unfold with_client. by rewrite Hf. Qed.

Lemma attempt_with_client {T} (f : AuthClient -> M AS AuthError T) res st' (s : Session MockNet) :
  attempt (F := AuthError) (f (auth_client_of (ses_auth s))) (ses_state s) = Ret res st' ->
  attempt (F := AuthError) (with_client f) s = Ret res (set_ses_state st' s).
Proof. unfold attempt, with_client. by destruct (f _ _); intros [= <- <-]. Qed.

Lemma attempt_Ret {X} (m : M AS AuthError X) a st st' :
  m st = Ret a st' -> attempt (F := AuthError) m st = Ret (Ok a) st'.
Proof. intros Hm. unfold attempt. by rewrite Hm. Qed.

(** The last step: the flag, and the packet. *)
Lemma flag_and_update dirs ver a0 (s : Session MockNet) :
  let i := ses_auth s in
  containers_made (sid i) (auth_client_of i) dirs ver (ses_state s) (ses_state s) ->
  is_Some (nae (ses_state s) !! dir_id (acc_config_root (acc i))) ->
  accounts_fit (user_cred i) -> holds_account (acc_loc i) (user_cred i) a0 (vault_of s) ->
  exists s', (modify (fun s => set_ses_auth (set_std_dirs_created true (ses_auth s)) s) ;!
              session_update_account_packet) s = Ret tt s' /\
    ses_auth s' = set_std_dirs_created true i /\ in_place dirs ver s' /\
    nae (ses_state s') = nae (ses_state s).
Proof using All.
  intros i [[Hs Hb] Hentry Hstored] Hconf Hfit Hold. destruct Hs as (Hmem & Hwf & Hlim).
  destruct (update_stores (set_std_dirs_created true i) a0 (inner (ses_state s)) Hmem Hwf Hold Hfit)
    as (n & Hup & Hmem' & Hwf' & Hheld & p & Hv).
  set (s1 := set_ses_auth (set_std_dirs_created true i) s).
  exists (set_ses_state (set_inner n (ses_state s1)) s1). split_and!; [| | |].
  - unfold modify, bind. fold i s1. unfold session_update_account_packet.
    change (ses_auth s1) with (set_std_dirs_created true i). change (ses_state s1) with (ses_state s).
    by rewrite Hup.
  - done.
  - split; cbn [set_ses_state ses_state ses_auth set_inner inner].
    + done.
    + split; [split_and!; [done|done|]|]; rewrite Hv; done.
    + exact Hheld.
    + destruct Hentry as (es & x & Hx & Hrest). exists es, x. split; [|exact Hrest].
      cbn [inner set_inner]. rewrite Hv. exact Hx.
    + intros name d Hd. rewrite Hv. by apply (Hstored name).
    + rewrite Hv. exact Hconf.
  - cbn [set_ses_state ses_state set_inner inner]. by rewrite Hv.
Qed.

(** The two states an interrupted creation leaves the access container in. *)
Definition container_present (i : AuthInner) (dirs : gmap string MDataInfo) (ver : Z) (st : AS) : Prop :=
  container_is (sid i) (auth_client_of i) dirs ver st.
Definition container_absent (i : AuthInner) (st : AS) : Prop :=
  nae st !! dir_id (acc_access_container (acc i)) = None /\
  dir_id (acc_access_container (acc i)) <> dir_id (acc_config_root (acc i)) /\
  no_dir_named_as_container (auth_client_of i) st.

(** [create_containers], after the request for the entry and the creation of the
    configuration. *)
Lemma containers_from i nonce st st1 es :
  let client := auth_client_of i in
  snd <$> enc_info (acc_access_container (acc i)) = Some nonce ->
  funded (sid i) (inner st) -> funded (sid i) (inner st1) ->
  grows (fun a x => a = dir_id (acc_config_root (acc i)) /\ own_data (sid i) es x) (asked st) st1 ->
  config_entry (acc_config_root (acc i)) es ->
  (exists dirs ver, container_present i dirs ver st) \/ container_absent i st ->
  exists dirs ver res st2, attempt (F := AuthError) (fetch_authenticator_entry client) st = Ret res (asked st) /\
    create_containers client res st1 = Ret tt st2 /\ containers_made (sid i) client dirs ver st1 st2 /\
    grows (added i dirs) st st2 /\ grows (fun _ _ => True) st1 st2 /\
    (container_present i dirs ver st \/
     container_absent i st /\ dom dirs = standard_dirs /\ ver = 0%Z /\ map_Forall (fun _ => drawn_dir (auth_rng st)) dirs).
Proof using All.
  intros client Hn [Hs _] Hf1 Hg1 Hes Hcases.
  assert (Hg0 : forall dirs, grows (added i dirs) st st1).
  { intros dirs. eapply grows_mono; [|eapply (grows_trans (fun _ _ => False) _ st (asked st)); [|exact Hg1]].
    - intros a x [[]|[-> Ho]]. right; right. eauto.
    - by split; auto. }
  destruct Hcases as [(dirs & ver & Hc)|Hab].
  - assert (Hc1 : container_present i dirs ver st1) by (eapply container_is_grows; [exact (Hg0 ∅)|exact Hc]).
    destruct (create_containers_existing (sid i) client eq_refl dirs ver st1 Hf1 Hc1) as (st2 & Hrun & Hm & Hg).
    exists dirs, ver, (Ok (ver, dirs)), st2. split_and!; [|done|done| |by eapply grows_mono|by left].
    + unfold attempt. by rewrite (fetch_some (sid i) client eq_refl dirs ver st Hs Hc).
    + eapply grows_mono; [|eapply grows_trans; [exact (Hg0 dirs)|exact Hg]].
      intros a x [H|H]; [exact H|by left].
  - pose proof Hab as (Hno & Hne & Hfresh). pose proof (grows_rng _ _ _ (Hg0 ∅)) as Hr.
    assert (Hno1 : nae st1 !! dir_id (acc_access_container (acc i)) = None).
    { apply (grows_none _ _ _ _ Hg1 Hno). intros x [Heq _]. congruence. }
    destruct (create_containers_absent (sid i) client eq_refl nonce st1 Hn Hf1 Hno1)
      as (dirs & st2 & Hrun & Hm & Hdom & Hdrawn & Hg); [intros j Hj; apply Hfresh; lia|].
    exists dirs, 0%Z, (Err (AuthCoreError (DataError NoSuchData))), st2. split_and!; [|done|done| |by eapply grows_mono|].
    + unfold attempt. by rewrite (fetch_none (sid i) client eq_refl nonce st Hn Hs Hno).
    + eapply grows_mono; [|eapply grows_trans; [exact (Hg0 dirs)|exact Hg]].
      intros a x [H|[H|H]]; [exact H|by left|right; by left].
    + right. split_and!; [done..|]. intros name d Hd. destruct (Hdrawn name d Hd) as (j & Hj & Hid).
      exists j. split; [lia|done].
Qed.

(** [create], whatever an earlier attempt left behind. *)
Lemma create_ok nonce a0 (s : Session MockNet) :
  let i := ses_auth s in let st := ses_state s in
  snd <$> enc_info (acc_access_container (acc i)) = Some nonce ->
  funded (sid i) (inner st) -> accounts_fit (user_cred i) ->
  holds_account (acc_loc i) (user_cred i) a0 (vault_of s) ->
  (exists dirs ver, container_present i dirs ver st) \/ container_absent i st ->
  exists dirs ver s', create s = Ret tt s' /\ ses_auth s' = set_std_dirs_created true i /\
    in_place dirs ver s' /\ adds i dirs st (ses_state s') /\
    (container_present i dirs ver st \/
     container_absent i st /\ dom dirs = standard_dirs /\ ver = 0%Z /\ map_Forall (fun _ => drawn_dir (auth_rng st)) dirs).
Proof using All.
  intros i st Hn Hf Hfit Hold Hcases. set (client := auth_client_of i).
  assert (Hfa : funded (sid i) (inner (asked st))).
  { destruct Hf as [(Hmem & Hwf & Hlim) Hb]. exact (conj (conj Hmem (conj Hwf Hlim)) Hb). }
  destruct (create_config_dir_ok (sid i) client eq_refl (acc_config_root (acc i)) (asked st) Hfa)
    as (st1 & es & Hconf & Hf1 & Hg1 & Hes & Hin1).
  destruct (containers_from i nonce st st1 es Hn Hf Hf1 Hg1 Hes Hcases)
    as (dirs & ver & res & st2 & Hfetch & Hrun & Hm & Hg & Hg12 & Hwhich).
  set (s2 := set_ses_state st2 s).
  destruct (flag_and_update dirs ver a0 s2) as (s' & Hlast & Hauth & Hplace & Hnae).
  - destruct Hm as [Hm1 Hm2 Hm3]. by split.
  - by apply (grows_is_Some _ _ _ _ Hg12).
  - done.
  - destruct Hold as [b p Hb Hp Hrest]. apply (HoldsAccount _ _ _ _ b p); [done| |done..].
    cbn [s2 set_ses_state ses_state]. by rewrite (grows_packets _ _ _ Hg).
  - exists dirs, ver, s'. split_and!; [|done|done| |done].
    + unfold create.
      rewrite (bind_Ret _ _ _ _ _ (attempt_with_client fetch_authenticator_entry _ _ s Hfetch)).
      rewrite (bind_Ret _ _ _ _ _ (attempt_with_client (fun client =>
        create_config_dir client (config_root_dir client)) _ _ (set_ses_state (asked st) s)
        (attempt_Ret _ _ _ _ Hconf))).
      rewrite (bind_Ret _ _ _ _ _ (attempt_with_client (fun client => create_containers client res) _ _
        (set_ses_state st1 s) (attempt_Ret _ _ _ _ Hrun))).
      erewrite bind_Ret by exact (join_all_ok [tt; tt] s2). exact Hlast.
    + destruct (grows_adds _ _ _ _ Hg) as [H1 H2]. split; rewrite Hnae; done.
Qed.

(** * What the session then offers *)

Abbreviation next_login s rng' := {| boot_cm := connection_manager (inner (ses_state s)); boot_rng := rng' |}.

(** A later login gives the same account, creates nothing and asks nothing more. *)
Lemma login_again locator password dirs ver (s : Session MockNet) rng' :
  acc_loc (ses_auth s) = packet_location (as_bytes locator) ->
  user_cred (ses_auth s) = credentials (as_bytes locator) (as_bytes password) ->
  in_place dirs ver s ->
  exists s' b, login locator password (next_login s rng') = Ret s' b /\ ses_auth s' = ses_auth s /\
    vault (boot_cm b) = vault (connection_manager (inner (ses_state s))).
Proof.
  intros Hloc Hcred [Hc [(Hmem & Hwf & _) _] Hacc _ _ _]. rewrite Hloc, Hcred in Hacc.
  destruct (login_reads (as_bytes locator) (as_bytes password) (acc (ses_auth s)) _ rng' Hmem Hwf Hacc) as (b & Hl & Hv & _).
  eexists _, _. split.
  - unfold login, login_impl. rewrite (bind_Ret _ _ _ _ _ Hl). unfold std_dirs_created in *.
    cbn [auth_inner acc]. rewrite Hc. reflexivity.
  - simpl. rewrite <-Hloc, <-Hcred. split; [by destruct (ses_auth s)|done].
Qed.

Lemma in_place_fetch dirs ver s :
  in_place dirs ver s ->
  fetch_authenticator_entry (auth_client_of (ses_auth s)) (ses_state s) =
    Ret (ver, dirs) (asked (ses_state s)).
Proof using All. intros [_ [Hs _] _ He _ _]. by apply (fetch_some (sid (ses_auth s))). Qed.

(** A configuration that was just made lists no app. *)
Lemma new_config_lists_nothing (s : Session MockNet) x es :
  serving (inner (ses_state s)) ->
  nae (ses_state s) !! dir_id (acc_config_root (acc (ses_auth s))) = Some x ->
  own_data (sid (ses_auth s)) es x -> config_entry (acc_config_root (acc (ses_auth s))) es ->
  exists st, list_apps (auth_client_of (ses_auth s)) (ses_state s) = Ret (Some 0%Z, ∅) st.
Proof using All.
  intros Hs Hx (d & -> & Ho & He) (v & Hes & Hdec). set (client := auth_client_of (ses_auth s)).
  set (dir := acc_config_root (acc (ses_auth s))) in *.
  destruct (get_entry_ok client (T := Apps) KEY_APPS es (Some 0%Z) ∅ (ses_state s)
    (store := MockSeqStore (sid (ses_auth s)) (mdata_address_name (address dir)) (mdata_address_tag (address dir))))
    as (st & Hget & _); [| |by exists st].
  - split; [done|]. exists d. done.
  - unfold entry_is. change (config_root_dir client) with dir. rewrite Hes, lookup_singleton_eq.
    unfold decrypt_value in Hdec. destruct (decrypt dir (seq_data v)) as [plain|] eqn:Hp; simplify_eq/=.
    split; [congruence|]. exists []. split; [congruence|]. by rewrite decide_True.
Qed.

(** * The theorems *)

(** Names the generator draws are new, and different from one another. *)
Definition unused_draws (rng : nat) (v : Vault) : Prop :=
  (forall j t, rng <= j -> nae_manager (cache v) !! DMutable (MSeq (MkXorName (random_bytes_at j 32)) t) = None) /\
  (forall j j', rng <= j -> rng <= j' -> random_bytes_at j 32 = random_bytes_at j' 32 -> j = j').

Definition drawn_id (j : nat) : DataId := DMutable (MSeq (MkXorName (random_bytes_at j 32)) DIR_TAG).

Lemma account_new_drawn k r a r' :
  AccountPacket.Account_new k r = Ret a r' ->
  dir_id (acc_access_container a) = drawn_id r /\ dir_id (acc_config_root a) = drawn_id (3 + r) /\
  r' = 6 + r /\ exists nonce, snd <$> enc_info (acc_access_container a) = Some nonce.
Proof. intros [= <- <-]. split_and!; [done..|by eexists]. Qed.

Lemma drawn_id_inj rng v j j' :
  unused_draws rng v -> rng <= j -> rng <= j' -> drawn_id j = drawn_id j' -> j = j'.
Proof. intros [_ Hinj] Hj Hj' Heq. apply Hinj; [done..|]. unfold drawn_id in Heq. congruence. Qed.

(** Whose data is where, when every name was new. *)
Lemma added_apart i dirs rng v r a x :
  unused_draws rng v -> rng <= r ->
  dir_id (acc_access_container (acc i)) = drawn_id r ->
  dir_id (acc_config_root (acc i)) = drawn_id (3 + r) ->
  map_Forall (fun _ => drawn_dir (6 + r)) dirs -> added i dirs a x ->
  ((exists name d, dirs !! name = Some d /\ a = dir_id d) -> own_data (sid i) ∅ x) /\
  (a = dir_id (acc_config_root (acc i)) ->
   exists es, own_data (sid i) es x /\ config_entry (acc_config_root (acc i)) es).
Proof using All.
  intros Hu Hr Hac Hcf Hd Hx. unfold added in Hx. rewrite Hac, Hcf in Hx. rewrite Hcf. pose proof (drawn_id_inj rng v) as Hinj.
  assert (Hdirs : forall name d, dirs !! name = Some d -> dir_id d <> drawn_id r /\ dir_id d <> drawn_id (3 + r)).
  { intros name d Hl. destruct (Hd name d Hl) as (j & Hj & ->).
    split; intros Heq;
      [pose proof (Hinj j r Hu ltac:(lia) ltac:(lia) Heq)
      |pose proof (Hinj j (3 + r) Hu ltac:(lia) ltac:(lia) Heq)]; lia. }
  destruct Hx as [[(d & Hin & ->) Ho]|[[-> Ho]|[-> Ho]]].
  - apply list_elem_of_fmap in Hin as ([n d'] & -> & Hin). apply elem_of_map_to_list in Hin. simpl.
    split; [done|]. intros Heq. by destruct (Hdirs _ _ Hin).
  - split; [intros (n & d & Hl & Heq); by destruct (Hdirs _ _ Hl)|].
    intros Heq. assert (r = 3 + r) by (apply Hinj; [done|lia..|done]). lia.
  - split; [intros (n & d & Hl & Heq); by destruct (Hdirs _ _ Hl)|done].
Qed.

(** The session of a registration, before its containers are created. *)
Definition session_of (b : Boot MockNet) (i : AuthInner) : Session MockNet :=
  {| ses_state := {| inner := new_client_inner (boot_cm b); auth_rng := boot_rng b |}; ses_auth := i |}.

Lemma registration_session locator password id n rng b :
  in_memory n -> vault_wf (lk_vault (vault n)) -> ~ limited (lk_vault (vault n)) ->
  accounts_fit (credentials (as_bytes locator) (as_bytes password)) ->
  coin_balances (cache (lk_vault (vault n))) !!
    xor_name_from (client_public_key (client_full_public_id id)) = Some b ->
  login_packets (cache (lk_vault (vault n))) !! packet_location (as_bytes locator) = None ->
  unused_draws rng (lk_vault (vault n)) ->
  exists a s0 r nonce,
    let i := {| acc := a; acc_loc := packet_location (as_bytes locator);
                user_cred := credentials (as_bytes locator) (as_bytes password) |} in
    let s1 := session_of s0 i in
    registered locator password id {| boot_cm := n; boot_rng := rng |} =
      Ret {| login_inner := new_client_inner (boot_cm s0); auth_inner := i |} s0 /\
    (sid i = id /\ rng <= r /\ boot_rng s0 = 6 + r) /\
    (dir_id (acc_access_container a) = drawn_id r /\ dir_id (acc_config_root a) = drawn_id (3 + r)) /\
    nae (ses_state s1) = nae_manager (cache (lk_vault (vault n))) /\
    snd <$> enc_info (acc_access_container a) = Some nonce /\ funded (sid i) (inner (ses_state s1)) /\
    holds_account (acc_loc i) (user_cred i) a (vault_of s1) /\ container_absent i (ses_state s1).
Proof using All.
  intros Hmem Hwf Hun Hfit Hb Hno Hu.
  destruct (registered_stores (as_bytes locator) (as_bytes password) None id n rng b Hmem Hwf Hfit Hb (fun H => False_ind _ (Hun H)) Hno)
    as (a & s0 & Hreg & Hid & _ & Hmem1 & Hwf1 & Hheld & (k & r & Hr & Hnew) & Hvault & _).
  destruct (Hvault Hun) as [p Hv]. destruct (account_new_drawn k r a _ Hnew) as (Hac & Hcf & Hrng & nonce & Hn).
  assert (Hnae : nae_manager (cache (lk_vault (vault (boot_cm s0)))) = nae_manager (cache (lk_vault (vault n))))
    by by rewrite Hv.
  exists a, s0, r, nonce. split; [exact Hreg|]. split; [done|]. split; [done|]. split; [exact Hnae|].
  split; [exact Hn|]. split; [|split; [exact Hheld|split; [|split]]].
  - split; [split_and!; [done|done|]|]; simpl; rewrite Hv; simpl; [exact Hun|].
    rewrite Hid, <-client_xor_name. by rewrite Hb.
  - simpl. rewrite Hnae, Hac. by apply Hu.
  - simpl. rewrite Hac, Hcf. intros Heq.
    pose proof (drawn_id_inj rng _ r (3 + r) Hu ltac:(lia) ltac:(lia) Heq). lia.
  - intros j Hj Heq. change (access_container _) with (acc_access_container a) in Heq. simpl in Hj.
    rewrite Hac in Heq. pose proof (drawn_id_inj rng _ r j Hu ltac:(lia) ltac:(lia) Heq). lia.
Qed.


(** C24: a creation that was interrupted is made up for by the next login: whether the access
    container is there already, or was never made, the login succeeds, keeps the
    containers that were chosen before or makes the standard ones, stores every directory
    and the configuration that is missing, overwrites nothing, and saves that it is done:
    the login after it finds the account complete. *)
Theorem interrupted_creation_repaired locator password a n rng :
  let loc := packet_location (as_bytes locator) in
  let cred := credentials (as_bytes locator) (as_bytes password) in
  let i := {| acc := a; acc_loc := loc; user_cred := cred |} in
  let st := {| inner := new_client_inner n; auth_rng := rng |} in
  in_memory n -> funded (sid i) (inner st) -> accounts_fit cred ->
  holds_account loc cred a (lk_vault (vault n)) -> root_dirs_created a = false ->
  is_Some (enc_info (acc_access_container a)) ->
  (exists dirs ver, container_present i dirs ver st) \/ container_absent i st ->
  exists dirs ver s boot, login locator password {| boot_cm := n; boot_rng := rng |} = Ret s boot /\
    ses_auth s = set_std_dirs_created true i /\
    (container_present i dirs ver st \/ container_absent i st /\ dom dirs = standard_dirs /\ ver = 0%Z) /\
    (exists st', fetch_authenticator_entry (auth_client_of (ses_auth s)) (ses_state s) = Ret (ver, dirs) st') /\
    (forall name d, dirs !! name = Some d -> is_Some (nae (ses_state s) !! dir_id d)) /\
    is_Some (nae (ses_state s) !! dir_id (acc_config_root a)) /\
    (forall x y, nae st !! x = Some y -> nae (ses_state s) !! x = Some y) /\
    forall rng', exists s' boot', login locator password (next_login s rng') = Ret s' boot' /\
      ses_auth s' = ses_auth s /\ vault (boot_cm boot') = vault (connection_manager (inner (ses_state s))).
Proof using All.
  intros loc cred i st Hmem [(_ & Hwf & Hlim) Hb] Hfit Hheld Hflag [[k nonce] Hn] Hcases.
  destruct (login_reads (as_bytes locator) (as_bytes password) a n rng Hmem Hwf Hheld) as (b & Hl & Hv & Hhook & Hr & _).
  set (s1 := session_of b i).
  assert (Hcv : cvault (inner (ses_state s1)) = lk_vault (vault n)) by (simpl; by rewrite Hv).
  destruct (create_ok nonce a s1) as (dirs & ver & s & Hcr & Hauth & Hplace & [Hkept _] & Hwhich).
  - simpl. by rewrite Hn.
  - split; [split_and!|]; rewrite ?Hcv; [split; [simpl; rewrite Hv; apply Hmem|done]|done..].
  - done.
  - by rewrite Hcv.
  - destruct Hcases as [(dirs & ver & es & x & Hx & Hrest)|(Hno & Hne & Hfresh)].
    + left. exists dirs, ver, es, x. by rewrite Hcv.
    + right. split_and!; [by rewrite Hcv|done|]. intros j Hj. apply Hfresh. simpl in *. lia.
  - exists dirs, ver, s. eexists. split_and!; [|done| | | | | |].
    + unfold login, login_impl. rewrite (bind_Ret _ _ _ _ _ Hl). unfold std_dirs_created. cbn [auth_inner acc].
      rewrite Hflag. unfold negb, run_session. change {| ses_state := _; ses_auth := _ |} with s1.
      by rewrite Hcr.
    + destruct Hwhich as [(es & x & Hx & Hrest)|((Hno & Hne & Hfresh) & Hdom & Hver & _)].
      * left. exists es, x. by rewrite Hcv in Hx.
      * right. split_and!; [|done|done]. split_and!; [by rewrite Hcv in Hno|done|].
        intros j Hj. apply Hfresh. simpl in *. lia.
    + eexists. by apply in_place_fetch.
    + apply (ip_stored _ _ _ Hplace).
    + pose proof (ip_config _ _ _ Hplace) as Hc. by rewrite Hauth in Hc.
    + intros x y Hx. apply Hkept. by rewrite Hcv.
    + intros rng'. apply (login_again locator password dirs ver); [by rewrite Hauth..|done].
Qed.
End session.
End mock.

(** * A concrete account *)

#[export] Instance ModelSeqNew : SeqNewLaws.
Proof. done. Qed.

Lemma ex_unused_draws rng : unused_draws rng (lk_vault (vault ex_auth_net)).
Proof.
  split.
  - intros j t _. change (nae_manager _) with (nae_manager (cache ex_auth_vault)).
    cbn [nae_manager cache ex_auth_vault]. rewrite !lookup_insert_ne; [apply lookup_empty|..];
      unfold ex_name; intros [=].
  - intros j j' _ _ Heq. simpl in Heq. injection Heq. lia.
Qed.


(** An account whose registration was interrupted before its containers were made. *)
Definition ex_new_account : Account :=
  {| maid_keys := maid_keys ex_user_account;
     acc_access_container := {| address := MSeq (ex_name 81) 15000; enc_info := Some ([3]%Z, [4]%Z); new_enc_info := None |};
     acc_config_root := {| address := MSeq (ex_name 80) 15000; enc_info := Some ([1]%Z, [2]%Z); new_enc_info := None |};
     root_dirs_created := false |}.
Definition ex_new_ciphertext : bytes :=
  match account_encrypt ex_new_account (cred_password ex_cred) (cred_pin ex_cred) with
  | Ok b => b | Err _ => [] end.
Definition ex_new_packet : LoginPacket :=
  {| lp_dest := ex_loc; lp_getter := packet_id ex_loc; lp_data := ex_new_ciphertext; lp_sig := packet_id ex_loc |}.
Definition ex_new_vault : Vault := set_login_packets (<[ex_loc := ex_new_packet]> ∅) ex_auth_vault.
Definition ex_new_net : MockNet :=
  set_vault {| lk_vault := ex_new_vault; lk_disk := lk_disk (vault ex_auth_net) |} ex_auth_net.

Lemma ex_new_vault_wf : vault_wf ex_new_vault.
Proof.
  destruct ex_auth_vault_wf. split; try done. simpl. apply map_Forall_insert_2; [done|].
  apply map_Forall_empty.
Qed.

Example interrupted_creation_repaired_witness :
  let i := {| acc := ex_new_account; acc_loc := ex_loc; user_cred := ex_cred |} in
  exists dirs ver s boot, login "alice" "secret" {| boot_cm := ex_new_net; boot_rng := 0%nat |} = Ret s boot /\
    ses_auth s = set_std_dirs_created true i /\
    (exists st', fetch_authenticator_entry (auth_client_of (ses_auth s)) (ses_state s) = Ret (ver, dirs) st').
Proof.
  intros i. destruct (interrupted_creation_repaired "alice" "secret" ex_new_account ex_new_net 0%nat)
    as (dirs & ver & s & boot & H1 & H2 & _ & H3 & _).
  - by split.
  - split; [split_and!; [by split|exact ex_new_vault_wf|done]|]. by eexists.
  - apply ex_accounts_fit.
  - by apply (HoldsAccount _ _ _ _ ex_new_ciphertext ex_new_packet).
  - reflexivity.
  - by eexists.
  - right. split_and!; [vm_refl|done|]. intros j _. unfold ex_name. intros [=].
  - exact (ex_intro _ dirs (ex_intro _ ver (ex_intro _ s (ex_intro _ boot (conj H1 (conj H2 H3)))))).
Defined.
