(* ===== verification/OwnSession.v ===== *)
(** The configuration and the access container of an account, on the view of
    [OwnNet]: what reading and changing them does to the view. *)
From S2P Require Import Prelude SafeNd SafeNdModel MockAccount CoreTypes ClientApi.
From S2P Require Import Recovery RecoveryProofs RecoveryRepair SeqStore.
From S2P Require Import MDataInfo MDataInfoProofs AuthTypes AuthConfig AuthConfigProofs.
From S2P Require Import AccessContainer AccessContainerProofs AppAuth OwnNet.

Section session.
Context `{ndt : !NdTypes, ndo : !NdOps, ndl : !NdLaws, core : !CoreExt, lru : !LruOps}.
Context `{cr : !Crypto, crl : !CryptoLaws, auth : !AuthExt, aa : !AppAuthExt, sal : !SeqActionsLaws}.
Context {W : Type} `{net : !Network W}.
Context `{sdirs : !Serial (gmap string MDataInfo), sdirsl : !SerialLaws (gmap string MDataInfo)}.
Context `{sentry : !Serial AccessContainerEntry, sentryl : !SerialLaws AccessContainerEntry}.
Context (client : AuthClient) `{own : !OwnNet (ac_client client)}.
Abbreviation AS := (AuthState (W := W)).
Abbreviation sees v s := (shows v (inner s)).

Lemma slot_stored_self (v : OwnView) a (d : Slot) s :
  holds v a d -> slot_stored (ac_client client) v a.1 a.2 d (slot_entries d) s <-> shows v s.
Proof.
  intros Hd. unfold slot_stored. replace (set_entries (slot_entries d) d) with d by by destruct d.
  destruct a. by rewrite put_slot_same.
Qed.

(** * The configuration *)

Definition cfg_at : XorName * Z :=
  (mdata_address_name (address (config_root_dir client)), mdata_address_tag (address (config_root_dir client))).

Section config.
Context {T : Type} `{dft : !RustDefault T, ser : !Serial T, serl : !SerialLaws T}.

(** The item of the configuration under a key. *)
Definition config_is (key : bytes) (v : OwnView) (ov : option Z) (item : T) : Prop :=
  exists d, holds v cfg_at d /\ entry_is client key (slot_entries d) ov item.

Lemma config_get key v ov item (s : AS) :
  sees v s -> config_is key v ov item ->
  exists s', get_entry client key s = Ret (ov, item) s' /\ sees v s'.
Proof using ndl crl serl.
  intros Hs (d & Hd & He). pose proof (slot_stored_self v cfg_at d (inner s) Hd) as Hself.
  destruct (get_entry_ok client key (slot_entries d) ov item s
    (store := SlotStore (ac_client client) v cfg_at.1 cfg_at.2 d)) as (s' & Hget & Hs'); [by apply Hself|done|].
  exists s'. split; [done|]. by apply (slot_stored_self v cfg_at d).
Qed.

(** The view after a change of the configuration's entries. *)
Definition config_set (m : MDataSeqEntries) (v : OwnView) : OwnView :=
  match ov_data v !! cfg_at with
  | Some d => put_slot cfg_at (set_entries m d) v
  | None => v
  end.

Lemma config_change key v ov cur f fuel (s : AS) :
  sees v s -> config_is key v ov cur -> version_ok ov -> (f cur).2 = true ->
  exists s' m', mutate_entry (S fuel) client key cur (next_version ov) f s =
      Ret (next_version ov, (f cur).1) s' /\ sees (config_set m' v) s' /\
    config_is key (config_set m' v) (Some (next_version ov)) (f cur).1 /\
    forall k d, k <> key_cipher (config_root_dir client) key -> holds v cfg_at d ->
      m' !! k = slot_entries d !! k.
Proof using All.
  intros Hs (d & Hd & He) Hver Hf.
  destruct (mutate_attempt_current client key (slot_entries d) ov cur f s
    (store := SlotStore (ac_client client) v cfg_at.1 cfg_at.2 d)) as (s' & m' & Hatt & Hs' & Hm');
    [by apply slot_stored_self|done|done|].
  rewrite Hf in Hatt, Hm'. destruct Hm' as [He' Hk].
  assert (config_set m' v = put_slot cfg_at (set_entries m' d) v) as Hset
    by (unfold config_set; unfold holds in Hd; by rewrite Hd).
  exists s', m'. rewrite Hset. split_and!.
  - by apply loop_fn_break.
  - exact Hs'.
  - by exists (set_entries m' d).
  - intros k d' Hne Hd'. unfold holds in *. simplify_eq. by apply Hk.
Qed.
End config.

(** * The access container *)

Context (acc_at : XorName * Z) (Hac : address (access_container client) = MSeq acc_at.1 acc_at.2).

Lemma root_get v d dirs ver (s : AS) :
  sees v s -> holds v acc_at d -> container_entry client dirs ver (slot_entries d) ->
  exists s', sees v s' /\ auth_rng s' = auth_rng s /\ fetch_authenticator_entry client s = Ret (ver, dirs) s'.
Proof using Hac.
  intros Hs Hd (key & Hkey & He). destruct acc_at as [an at_]. simpl in *. unfold entry_at in He.
  destruct (net_get v an at_ d key (inner s) Hs Hd) as (i & Hi & Hget).
  destruct (slot_entries d !! key) as [x|]; [|done]. destruct He as [Hver Hdec].
  exists (set_inner i s). split; [done|]. split; [done|].
  unfold fetch_authenticator_entry. rewrite Hkey, Hac. erewrite bind_Ret by reflexivity.
  rewrite (bind_Ret _ _ _ _ _ (from_core_Ret _ _ _ _ (on_inner_Ret _ _ _ _ Hget))).
  unfold decode_authenticator_entry. rewrite Hdec. erewrite bind_Ret by reflexivity. by rewrite Hver.
Qed.

Section entry.
Context (app_id_ : string) (keys : AppKeys) (key : bytes).
Context (Hkey : enc_key (access_container client) app_id_ (app_enc_key keys) = Ok key).
Abbreviation entry m o := (entry_at (T := AccessContainerEntry) (app_enc_key keys) key m o).

Lemma entry_get v d o (s : AS) :
  sees v s -> holds v acc_at d -> entry (slot_entries d) o ->
  exists s', sees v s' /\ fetch_entry client app_id_ keys s =
    Ret (match o with Some (ver, e) => (ver, Some e) | None => (0%Z, None) end) s'.
Proof using Hac Hkey.
  intros Hs Hd He. destruct acc_at as [an at_]. simpl in *. unfold entry_at in He.
  destruct (net_get v an at_ d key (inner s) Hs Hd) as (i & Hi & Hget).
  exists (set_inner i s). split; [done|]. unfold fetch_entry. rewrite Hkey, Hac.
  erewrite bind_Ret by reflexivity. cbn [mdata_address_name mdata_address_tag].
  unfold attempt, bind, on_inner. rewrite Hget.
  destruct (slot_entries d !! key) as [x|], o as [[ver e]|]; try done.
  destruct He as [<- He]. cbn [ret]. unfold decode_app_entry. by rewrite He.
Qed.

(** The access container once an app may read it and its entry is [e]. *)
Lemma entry_put v d o perms (s : AS) :
  sees v s -> holds v acc_at d -> entry (slot_entries d) o -> entry_room o ->
  (0 <= slot_version d /\ slot_version d + 1 < u64_modulus)%Z ->
  exists s' m', put_entry client app_id_ keys perms (entry_next o) s = Ret tt s' /\
    sees (put_slot acc_at (set_entries m' (grant (app_keys_public_key keys) (perms_allow perms_new MRead) d)) v) s' /\
    entry m' (Some (entry_next o, perms)) /\ forall k, k <> key -> m' !! k = slot_entries d !! k.
Proof using All.
  intros Hs Hd He Hr Hv. destruct acc_at as [an at_]. simpl in *.
  unfold put_entry. rewrite Hkey, Hac. erewrite bind_Ret by reflexivity.
  destruct (encode_raw_ok perms (app_enc_key keys) s) as (ct & Henc & Hdec).
  unfold encode_app_entry. rewrite (bind_Ret _ _ _ _ _ Henc). set (s1 := set_auth_rng _ s).
  destruct (net_version v an at_ d (inner s1) Hs Hd) as (i1 & Hi1 & Hver).
  rewrite (bind_Ret _ _ _ _ _ (from_core_Ret _ _ _ _ (on_inner_Ret _ _ _ _ Hver))).
  set (s2 := set_inner i1 s1). rewrite u64_add_small by lia.
  destruct (net_grant v an at_ d (app_keys_public_key keys) (perms_allow perms_new MRead) i1 Hi1 Hd)
    as (i2 & Hi2 & Hset).
  rewrite (bind_Ret _ _ _ _ _ (from_core_Ret _ _ _ _ (on_inner_Ret _ _ _ s2 Hset))).
  destruct (put_actions_ok _ key (slot_entries d) o ct He Hr) as [Herr Happ].
  set (acts := put_actions key ct _) in *. set (d2 := grant _ _ d) in *.
  destruct (recover_mutate (ac_client client) _ an at_ d2 acts i2 Hi2 (holds_put _ _ _) Herr) as (i3 & Hi3 & Hmut).
  rewrite put_slot_twice in Hi3.
  exists (set_inner i3 (set_inner i2 s2)), (entries_applied (slot_entries d) (seq_into_actions acts)). split_and!.
  - exact (from_core_Ret _ _ _ _ (on_inner_Ret _ _ _ (set_inner i2 s2) Hmut)).
  - exact Hi3.
  - unfold entry_at. by rewrite Happ, decide_True.
  - intros k Hk. by rewrite Happ, decide_False.
Qed.
End entry.

Lemma root_put v d dirs dirs' ver (s : AS) :
  sees v s -> holds v acc_at d -> container_entry client dirs ver (slot_entries d) ->
  (0 <= ver /\ ver + 1 < u64_modulus)%Z ->
  exists s' m', put_authenticator_entry client dirs' (u64_add ver 1) s = Ret tt s' /\
    sees (put_slot acc_at (set_entries m' d) v) s' /\ container_entry client dirs' (ver + 1) m' /\
    forall k, enc_key (access_container client) AUTHENTICATOR_ENTRY (secret_symmetric_key client) <> Ok k ->
      m' !! k = slot_entries d !! k.
Proof using All.
  intros Hs Hd (key & Hkey & He) Hr. destruct acc_at as [an at_]. simpl in *.
  unfold put_authenticator_entry. rewrite Hkey, Hac. erewrite bind_Ret by reflexivity.
  destruct (encode_raw_ok dirs' (secret_symmetric_key client) s) as (ct & Henc & Hdec).
  unfold encode_authenticator_entry. rewrite (bind_Ret _ _ _ _ _ Henc). set (s1 := set_auth_rng _ s).
  destruct (put_actions_ok _ key (slot_entries d) (Some (ver, dirs)) ct He Hr) as [Herr Happ]. simpl entry_next in *.
  set (acts := put_actions key ct _) in *.
  destruct (recover_mutate (ac_client client) _ an at_ d acts (inner s1) Hs Hd Herr) as (i3 & Hi3 & Hmut).
  exists (set_inner i3 s1), (entries_applied (slot_entries d) (seq_into_actions acts)). split_and!.
  - exact (from_core_Ret _ _ _ _ (on_inner_Ret _ _ _ s1 Hmut)).
  - exact Hi3.
  - exists key. split; [done|]. unfold entry_at. rewrite Happ, decide_True by done. simpl.
    by rewrite u64_add_small by lia.
  - intros k Hk. rewrite Happ, decide_False; [done|]. congruence.
Qed.
End session.
