(* ===== verification/AppSession.v ===== *)
(** Authenticating an app, from the request to what is on the network afterwards
    ([authenticate] of [safe_authenticator/src/app_auth.rs]), on any network that
    does what [OwnNet] says. *)
From S2P Require Import Prelude SafeNd SafeNdModel MockAccount CoreTypes ClientApi.
From S2P Require Import Recovery RecoveryProofs RecoveryRepair SeqStore.
From S2P Require Import MDataInfo MDataInfoProofs AuthTypes AuthConfig AuthConfigProofs.
From S2P Require Import AccessContainer AccessContainerProofs AppAuth OwnNet OwnSession.

(** * Draws from the random generator *)

Section draws.
Context `{ndt : !NdTypes, ndo : !NdOps, core : !CoreExt, lru : !LruOps}.
Context `{cr : !Crypto, auth : !AuthExt, aa : !AppAuthExt}.
Context {W : Type} `{net : !Network W}.
Context `{sapps : !Serial Apps, squeue : !Serial RevocationQueue}.
Context `{sdirs : !Serial (gmap string MDataInfo), sentry : !Serial AccessContainerEntry}.
Abbreviation AS := (AuthState (W := W)).

(** Nothing moves the generator back. *)
Definition drawn_from (r : nat) (s : AS) : Prop := r <= auth_rng s.
Abbreviation draws m := (forall r, keeps (drawn_from r) (drawn_from r) m).

Lemma draws_le {A E} (m : M AS E A) a s s' : draws m -> m s = Ret a s' -> auth_rng s <= auth_rng s'.
Proof.
  intros Hd Hm. pose proof (Hd (auth_rng s) s (le_n _)) as Hw. unfold wp in Hw. by rewrite Hm in Hw.
Qed.

Lemma on_inner_draws {A} (m : M (ClientInner W) CoreError A) : draws (on_inner m).
Proof. intros r s Hs. unfold wp, on_inner. by destruct (m _). Qed.

Lemma on_rng_draws {A} (m : M Rng CoreError A) : (forall r, r <= final (m r)) -> draws (on_rng m).
Proof.
  intros Hm r s Hs. specialize (Hm (auth_rng s)). unfold wp, on_rng, drawn_from in *.
  destruct (m (auth_rng s)); simpl in *; lia.
Qed.

Lemma encrypt_draws p k i : i <= final (symmetric_encrypt p k None i).
Proof. unfold symmetric_encrypt, bind. simpl. destruct (symmetric_encrypt_with _ _ _); simpl; lia. Qed.

Lemma enc_entry_value_draws info p i : i <= final (enc_entry_value info p i).
Proof.
  unfold enc_entry_value. destruct (new_enc_info info) as [[k ?]|]; [|destruct (enc_info info) as [[k ?]|]];
    try apply encrypt_draws. simpl. lia.
Qed.

Lemma app_keys_new_ok c i : exists ks i', app_keys_new c i = Ret ks i'.
Proof. unfold app_keys_new, bind. simpl. destruct (gen_keypair_at i). by eexists _, _. Qed.

Lemma app_keys_new_draws c i : i <= final (app_keys_new c i).
Proof. unfold app_keys_new, bind. simpl. destruct (gen_keypair_at i). simpl. lia. Qed.

Ltac draws_tac :=
  intros; unfold from_core; keeps_tac;
  try first [apply on_inner_draws | apply on_rng_draws; intros;
         first [apply enc_entry_value_draws | apply app_keys_new_draws]].

Lemma get_entry_draws {T} `{!RustDefault T, !Serial T} client key : draws (get_entry client key (T := T)).
Proof. unfold get_entry. draws_tac. Qed.

Lemma mutate_entry_draws {T} `{!RustDefault T, !Serial T} fuel client key (item : T) n f :
  draws (mutate_entry fuel client key item n f).
Proof.
  intros r. apply keeps_fuel. intros [[k v] i]. unfold mutate_attempt_entry, update_entry, get_entry.
  destruct (f i) as [i' []]; [|auto with keeps]. draws_tac.
Qed.

Lemma app_state_draws client apps a : draws (app_state client apps a).
Proof. unfold app_state, fetch_entry. draws_tac. Qed.

Lemma update_container_perms_draws client perms pk : draws (update_container_perms client perms pk).
Proof.
  unfold update_container_perms, fetch_authenticator_entry. draws_tac.
  match goal with b : _ * _, x : _ * _ |- _ => destruct b, x end. draws_tac.
Qed.
End draws.

(** * The containers an app asks for *)

Section containers.
Context `{ndt : !NdTypes, ndo : !NdOps, ndl : !NdLaws, core : !CoreExt, lru : !LruOps}.
Context `{cr : !Crypto, crl : !CryptoLaws, auth : !AuthExt, authl : !AuthExtLaws, aa : !AppAuthExt}.
Context `{sal : !SeqActionsLaws}.
Context {W : Type} `{net : !Network W}.
Context `{sdirs : !Serial (gmap string MDataInfo), sdirsl : !SerialLaws (gmap string MDataInfo)}.
Context (client : AuthClient) `{own : !OwnNet (ac_client client)}.
Abbreviation AS := (AuthState (W := W)).
Abbreviation sees v s := (shows v (inner s)).

Definition cont_at (info : MDataInfo) : XorName * Z :=
  (mdata_address_name (address info), mdata_address_tag (address info)).
Definition is_seq (info : MDataInfo) : Prop := address info = MSeq (cont_at info).1 (cont_at info).2.

Definition access_set (access : ContainerPermissions) : MDataPermissionSet :=
  container_perms_into_permission_set (permissions_iter access).

(** A container the client has, whose version can be raised. *)
Definition grantable (v : OwnView) (info : MDataInfo) : Prop :=
  is_seq info /\ exists d, holds v (cont_at info) d /\
    (0 <= slot_version d /\ slot_version d + 1 < u64_modulus)%Z.

(** What granting these containers to [pk] does: each has the permissions, the rest
    is as it was. *)
Record grants_made (pk : PublicKey) (l : list (MDataInfo * ContainerPermissions)) (v v' : OwnView) : Prop := {
  gm_keys : ov_keys v' = ov_keys v;
  gm_keys_version : ov_keys_version v' = ov_keys_version v;
  gm_free : ov_free v' = ov_free v;
  gm_made info a d : (info, a) ∈ l -> holds v (cont_at info) d -> holds v' (cont_at info) (grant pk (access_set a) d);
  gm_rest x : x ∉ map (fun p => cont_at p.1) l -> ov_data v' !! x = ov_data v !! x;
}.

Lemma grants_made_nil pk v : grants_made pk [] v v.
Proof. split; set_solver. Qed.

Lemma grants_made_snoc pk l info a d v v' :
  grants_made pk l v v' -> cont_at info ∉ map (fun p => cont_at p.1) l -> holds v (cont_at info) d ->
  grants_made pk (l ++ [(info, a)]) v (put_slot (cont_at info) (grant pk (access_set a) d) v').
Proof.
  intros [Hk Hv Hf Hm Hr] Hno Hd. split; [done..| |].
  - intros info' a' d' [Hin|[= -> ->]%list_elem_of_singleton]%elem_of_app Hd'.
    + apply holds_put_ne; [|by apply Hm]. intros Heq. apply Hno. rewrite Heq.
      apply list_elem_of_fmap. by exists (info', a').
    + unfold holds in Hd, Hd'. simplify_eq. apply holds_put.
  - intros x. rewrite map_app. simpl. intros Hx. rewrite lookup_insert_ne by set_solver. apply Hr. set_solver.
Qed.

(** A container that was asked for, and the answer about its version. *)
Definition answered (v : OwnView) (dirs : gmap string MDataInfo) (asked : string * ContainerPermissions)
    (req : string * MDataInfo * ContainerPermissions * result Z CoreError) : Prop :=
  let '(k, info, a, ver) := req in
  asked = (k, a) /\ dirs !! k = Some info /\
  exists d, holds v (cont_at info) d /\ ver = Ok (slot_version d).
Definition req_cont (req : string * MDataInfo * ContainerPermissions * result Z CoreError) :
    MDataInfo * ContainerPermissions :=
  let '(_, info, a, _) := req in (info, a).

Definition all_grantable (v : OwnView) (dirs : gmap string MDataInfo) (names : list string) : Prop :=
  forall k, k ∈ names -> exists info, dirs !! k = Some info /\ grantable v info.

(** The requests for the versions of the containers. *)
Lemma ask_versions v (dirs : gmap string MDataInfo) (l : list (string * ContainerPermissions)) :
  NoDup l.*1 -> all_grantable v dirs l.*1 ->
  forall (root : gmap string MDataInfo) reqs (s : AS),
  sees v s -> (forall k, k ∈ l.*1 -> root !! k = dirs !! k) ->
  exists s' reqs' root',
    fold_m (fun '(reqs, root_containers) '(container_key, access) =>
      let! mdata_info := ok_or (root_containers !! container_key) (NoSuchContainer container_key) in
      let! version_ := attempt (on_inner (get_mdata_version (ac_client client) (address mdata_info))) in
      ret (reqs ++ [(container_key, mdata_info, access, version_)], delete container_key root_containers))
      l (reqs, root) s = Ret (reqs ++ reqs', root') s' /\ sees v s' /\ Forall2 (answered v dirs) l reqs'.
Proof using All.
  induction l as [|[k a] l IH]; intros Hnd Hl root reqs s Hs Hroot; simpl.
  - exists s, [], root. rewrite app_nil_r. by split_and!.
  - apply list.NoDup_cons in Hnd as [Hk Hnd].
    destruct (Hl k) as (info & Hinfo & Hseq & d & Hd & _); [set_solver|].
    rewrite (Hroot k), Hinfo by set_solver. unfold bind at 1 2. cbn [ok_or ret].
    destruct (net_version v (cont_at info).1 (cont_at info).2 d (inner s) Hs) as (i & Hi & Hver).
    { by rewrite <-surjective_pairing. }
    unfold bind at 1, attempt, on_inner. rewrite Hseq, Hver. cbn [ret].
    destruct (IH Hnd (fun k' Hk' => Hl k' ltac:(set_solver)) (delete k root)
      (reqs ++ [(k, info, a, Ok (slot_version d))]) (set_inner i s) Hi) as (s' & reqs' & root' & Hrun & Hs' & Hall).
    { intros k' Hk'. rewrite lookup_delete_ne by (intros ->; set_solver). apply Hroot. set_solver. }
    exists s', ((k, info, a, Ok (slot_version d)) :: reqs'), root'. split_and!; [|done|].
    + etransitivity; [exact Hrun|]. by rewrite <-app_assoc.
    + constructor; [|done]. split_and!; [done..|by exists d].
Qed.

(** The changes of the permissions, each at the version that was answered. *)
Lemma grant_all pk v (dirs : gmap string MDataInfo) l reqs :
  Forall2 (answered v dirs) l reqs -> all_grantable v dirs l.*1 ->
  forall l0 v0 (entry : AccessContainerEntry) (s : AS), grants_made pk l0 v v0 -> sees v0 s ->
  NoDup (map (fun p => cont_at p.1) (l0 ++ map req_cont reqs)) ->
  exists s' v', fold_m (fun entry '(container_key, mdata_info, access, version_) =>
      let! version_ := from_core (lift_result version_) in
      from_core (on_inner (Recovery.set_mdata_user_permissions (ac_client client)
        (address mdata_info) pk
        (container_perms_into_permission_set (permissions_iter access)) (u64_add version_ 1))) ;!
      ret (<[container_key := (mdata_info, access)]> entry)) reqs entry s =
    Ret (foldl (fun m '(k, info, a, _) => <[k := (info, a)]> m) entry reqs) s' /\ sees v' s' /\
    grants_made pk (l0 ++ map req_cont reqs) v v'.
Proof using All.
  induction 1 as [|[k a] [[[k' info] a'] ver] l reqs ([= <- <-] & Hinfo & d & Hd & ->) Hall IH];
    intros Hl l0 v0 entry s Hg Hs Hnd; simpl.
  - exists s, v0. by rewrite app_nil_r.
  - destruct (Hl k) as (info' & Hinfo' & Hseq & d' & Hd' & Hroom); [set_solver|].
    rewrite Hinfo in Hinfo'. injection Hinfo' as <-.
    assert (d = d') as -> by (unfold holds in *; congruence). clear Hd'.
    cbn [map req_cont] in Hnd. rewrite cons_middle, app_assoc in Hnd.
    assert (cont_at info ∉ map (fun p => cont_at p.1) l0) as Hno.
    { rewrite !map_app in Hnd. apply list.NoDup_app in Hnd as [Hnd _]. apply list.NoDup_app in Hnd as (_ & Hnd & _).
      intros Hin. apply (Hnd _ Hin). simpl. set_solver. }
    assert (holds v0 (cont_at info) d') as Hd0 by (unfold holds; by rewrite (gm_rest _ _ _ _ Hg)).
    destruct (recover_grant (ac_client client) v0 (cont_at info).1 (cont_at info).2 d' pk (access_set a) (inner s) Hs)
      as (i & Hi & Hset); [by rewrite <-surjective_pairing|].
    rewrite <-surjective_pairing in Hi.
    destruct (IH (fun k' Hk' => Hl k' ltac:(set_solver)) (l0 ++ [(info, a)])
      (put_slot (cont_at info) (grant pk (access_set a) d') v0) (<[k := (info, a)]> entry) (set_inner i s))
      as (s' & v' & Hrun & Hs' & Hg').
    + by apply grants_made_snoc.
    + exact Hi.
    + exact Hnd.
    + exists s', v'. rewrite cons_middle, app_assoc. split_and!; [|done|done].
      etransitivity; [|exact Hrun]. apply bind_Ret.
      erewrite bind_Ret by reflexivity. rewrite u64_add_small, Hseq by lia.
      by rewrite (bind_Ret _ _ _ _ _ (from_core_Ret _ _ _ _ (on_inner_Ret _ _ _ s Hset))).
Qed.

(** * The entry an app is given *)

(** The containers asked for, with what they are. *)
Definition asked_entry (dirs : gmap string MDataInfo) (permissions : gmap string ContainerPermissions) :
    AccessContainerEntry :=
  map_imap (fun k a => (fun info => (info, a)) <$> dirs !! k) permissions.

Lemma asked_entry_lookup dirs permissions k info a :
  asked_entry dirs permissions !! k = Some (info, a) <-> permissions !! k = Some a /\ dirs !! k = Some info.
Proof using Type.
  unfold asked_entry. rewrite map_lookup_imap. destruct (permissions !! k); simpl; [|naive_solver].
  destruct (dirs !! k); simpl; naive_solver.
Qed.

(** Different containers are at different places. *)
Definition apart_containers (dirs : gmap string MDataInfo) (names : list string) : Prop :=
  forall k k' info info', k ∈ names -> k' ∈ names -> dirs !! k = Some info -> dirs !! k' = Some info' ->
    cont_at info = cont_at info' -> k = k'.

(** Granting the containers of an entry to [pk]. *)
Record entry_granted (pk : PublicKey) (e : AccessContainerEntry) (v v' : OwnView) : Prop := {
  eg_keys : ov_keys v' = ov_keys v;
  eg_keys_version : ov_keys_version v' = ov_keys_version v;
  eg_free : ov_free v' = ov_free v;
  eg_made k info a d : e !! k = Some (info, a) -> holds v (cont_at info) d ->
    holds v' (cont_at info) (grant pk (access_set a) d);
  eg_rest x : (forall k info a, e !! k = Some (info, a) -> cont_at info <> x) ->
    ov_data v' !! x = ov_data v !! x;
}.

Definition req_kv (req : string * MDataInfo * ContainerPermissions * result Z CoreError) :
    string * (MDataInfo * ContainerPermissions) :=
  let '(k, info, a, _) := req in (k, (info, a)).

Lemma insert_reqs (reqs : list (string * MDataInfo * ContainerPermissions * result Z CoreError))
    (m : AccessContainerEntry) :
  foldl (fun m '(k, info, a, _) => <[k := (info, a)]> m) m reqs =
    foldl (fun m p => <[p.1 := p.2]> m) m (map req_kv reqs).
Proof using All. revert m. by induction reqs as [|[[[k info] a] ver] reqs IH]; intros m; simpl. Qed.

Lemma answered_keys v dirs l reqs : Forall2 (answered v dirs) l reqs -> (map req_kv reqs).*1 = l.*1.
Proof using All.
  induction 1 as [|p [[[k info] a] ver] l reqs (-> & _) _ IH]; [done|]. exact (f_equal (cons k) IH).
Qed.

(** What was answered is what was asked for. *)
Lemma answered_in v dirs l reqs k info a :
  Forall2 (answered v dirs) l reqs -> (k, (info, a)) ∈ map req_kv reqs <-> (k, a) ∈ l /\ dirs !! k = Some info.
Proof using All.
  induction 1 as [|p [[[k' info'] a'] ver] l reqs (-> & Hinfo & _) _ IH]; simpl; [set_solver|].
  rewrite !elem_of_cons, IH. split; [|naive_solver].
  intros [[= -> -> ->]|[]]; auto.
Qed.

Lemma apart_NoDup dirs (kv : list (string * (MDataInfo * ContainerPermissions))) :
  NoDup kv.*1 -> (forall k info a, (k, (info, a)) ∈ kv -> dirs !! k = Some info) ->
  apart_containers dirs kv.*1 -> NoDup (map (fun p => cont_at p.2.1) kv).
Proof using All.
  induction kv as [|[k [info a]] kv IH]; intros Hnd Hdirs Hap; cbn [map]; [constructor|].
  rewrite fmap_cons in Hnd, Hap. apply list.NoDup_cons in Hnd as [Hk Hnd]. constructor.
  - intros ([k' [info' a']] & Heq & Hin)%list_elem_of_fmap. simpl in Heq. apply Hk.
    assert (k' ∈ kv.*1) as Hk' by (apply list_elem_of_fmap; by exists (k', (info', a'))).
    replace k with k'; [done|]. symmetry. apply (Hap k k' info info'); [by left|by right| | |done].
    + apply (Hdirs k info a). by left.
    + apply (Hdirs k' info' a'). by right.
  - apply IH; [done| |].
    + intros k' info' a' Hin. apply (Hdirs k' info' a'). by right.
    + intros k1 k2 i1 i2 H1 H2. apply Hap; by right.
Qed.

(** The answers, whatever the order they came in. *)
Lemma answered_entry v dirs permissions reqs :
  Forall2 (answered v dirs) (hash_iter permissions) reqs -> apart_containers dirs (hash_iter permissions).*1 ->
  foldl (fun m '(k, info, a, _) => <[k := (info, a)]> m) ∅ reqs = asked_entry dirs permissions /\
  (forall k info a, asked_entry dirs permissions !! k = Some (info, a) <-> (k, (info, a)) ∈ map req_kv reqs) /\
  NoDup (map (fun p => cont_at p.1) (map req_cont reqs)).
Proof using All.
  intros Hall Hap. pose proof (answered_keys _ _ _ _ Hall) as Hkeys.
  assert (NoDup (map req_kv reqs).*1) as Hnd.
  { rewrite Hkeys, (hash_iter_perm permissions). apply NoDup_fst_map_to_list. }
  assert (forall k info a, asked_entry dirs permissions !! k = Some (info, a) <-> (k, (info, a)) ∈ map req_kv reqs)
    as Hiff.
  { intros k info a. rewrite asked_entry_lookup, (answered_in _ _ _ _ _ _ _ Hall).
    by rewrite (hash_iter_perm permissions), elem_of_map_to_list. }
  split_and!; [|done|].
  - apply map_eq. intros k. apply option_eq. intros [info a]. rewrite Hiff, insert_reqs.
    rewrite lookup_foldl_insert by (done || intros; apply lookup_empty). rewrite lookup_empty. naive_solver.
  - rewrite map_map. replace (map _ reqs) with (map (fun p => cont_at p.2.1) (map req_kv reqs)).
    + apply (apart_NoDup dirs); [done| |by rewrite Hkeys].
      intros k info a Hin. by apply (answered_in _ _ _ _ _ _ _ Hall) in Hin as [_ ?].
    + rewrite map_map. apply map_ext. by intros [[[k info] a] ver].
Qed.

Lemma made_entry pk reqs dirs permissions v v' :
  (forall k info a, asked_entry dirs permissions !! k = Some (info, a) <-> (k, (info, a)) ∈ map req_kv reqs) ->
  grants_made pk (map req_cont reqs) v v' -> entry_granted pk (asked_entry dirs permissions) v v'.
Proof using All.
  intros Hiff [Hk Hv Hf Hm Hr].
  assert (forall info a, (info, a) ∈ map req_cont reqs <-> exists k, (k, (info, a)) ∈ map req_kv reqs) as Hin.
  { intros info a. split.
    - intros ([[[k info'] a'] ver] & [= -> ->] & Hq)%list_elem_of_fmap. exists k.
      apply list_elem_of_fmap. by exists (k, info', a', ver).
    - intros (k & ([[[k' info'] a'] ver] & [= -> -> ->] & Hq)%list_elem_of_fmap).
      apply list_elem_of_fmap. by exists (k', info', a', ver). }
  split; [done..| |].
  - intros k info a d Hl. apply Hm, Hin. exists k. by apply Hiff.
  - intros x Hx. apply Hr. intros ([info a] & -> & Hp)%list_elem_of_fmap.
    apply Hin in Hp as [k Hp]. by apply (Hx k info a); [apply Hiff|].
Qed.

Context (acc_at : XorName * Z) (Hac : address (access_container client) = MSeq acc_at.1 acc_at.2).

Lemma containers_granted v d dirs ver permissions pk (s : AS) :
  sees v s -> holds v acc_at d -> container_entry client dirs ver (slot_entries d) ->
  all_grantable v dirs (hash_iter permissions).*1 -> apart_containers dirs (hash_iter permissions).*1 ->
  exists s' v', update_container_perms client permissions pk s = Ret (asked_entry dirs permissions) s' /\
    sees v' s' /\ entry_granted pk (asked_entry dirs permissions) v v'.
Proof using All.
  intros Hs Hd He Hgr Hap.
  destruct (root_get client acc_at Hac v d dirs ver s Hs Hd He) as (s1 & Hs1 & _ & Hroot).
  destruct (ask_versions v dirs (hash_iter permissions)) with (root := dirs) (reqs := @nil (string * MDataInfo * ContainerPermissions * result Z CoreError)) (s := s1)
    as (s2 & reqs & root' & Hask & Hs2 & Hall); [|done|done|done|].
  { rewrite (hash_iter_perm permissions). apply NoDup_fst_map_to_list. }
  destruct (answered_entry v dirs permissions reqs Hall Hap) as (Hentry & Hiff & Hnd).
  destruct (grant_all pk v dirs _ reqs Hall Hgr [] v ∅ s2 (grants_made_nil pk v) Hs2 Hnd)
    as (s3 & v' & Hrun & Hs3 & Hg).
  exists s3, v'. split_and!; [|done|by eapply made_entry].
  unfold update_container_perms. rewrite (bind_Ret _ _ _ _ _ Hroot), (bind_Ret _ _ _ _ _ Hask), <-Hentry.
  exact Hrun.
Qed.
End containers.
