(* ===== verification/AppSessionProofs.v ===== *)
(** Authenticating an app, from the request to what is on the network afterwards: the
    container of its own, its entry in the access container, and the whole call. *)
From S2P Require Import Prelude SafeNd SafeNdModel MockAccount CoreTypes ClientApi.
From S2P Require Import Recovery RecoveryProofs RecoveryRepair SeqStore.
From S2P Require Import MDataInfo MDataInfoProofs AuthTypes AuthConfig AuthConfigProofs.
From S2P Require Import AccessContainer AccessContainerProofs AppAuth OwnNet OwnSession AppSession.

Section session.
Context `{ndt : !NdTypes, ndo : !NdOps, ndl : !NdLaws, core : !CoreExt, lru : !LruOps}.
Context `{cr : !Crypto, crl : !CryptoLaws, auth : !AuthExt, authl : !AuthExtLaws, aa : !AppAuthExt}.
Context `{sal : !SeqActionsLaws}.
Context {W : Type} `{net : !Network W}.
Context `{sapps : !Serial Apps, sappsl : !SerialLaws Apps}.
Context `{squeue : !Serial RevocationQueue, squeuel : !SerialLaws RevocationQueue}.
Context `{sdirs : !Serial (gmap string MDataInfo), sdirsl : !SerialLaws (gmap string MDataInfo)}.
Context `{sentry : !Serial AccessContainerEntry, sentryl : !SerialLaws AccessContainerEntry}.
Context (client : AuthClient) `{own : !OwnNet (ac_client client)}.
Context (acc_at : XorName * Z) (Hac : address (access_container client) = MSeq acc_at.1 acc_at.2).
Abbreviation AS := (AuthState (W := W)).
Abbreviation sees v s := (shows v (inner s)).
Abbreviation cfg_at := (cfg_at client).

(** * The container of an app's own *)

(** Where the next directory is made. *)
Definition drawn_at (r : nat) : XorName * Z := (MkXorName (random_bytes_at r 32), DIR_TAG).

(** The key of the authenticator's own entry. *)
Definition is_root_key (k : bytes) : Prop :=
  enc_key (access_container client) AUTHENTICATOR_ENTRY (secret_symmetric_key client) = Ok k.

(** An app's container is there and can be granted, or there is room to make it. *)
Definition container_ready (v : OwnView) (dirs : gmap string MDataInfo) (name : string) (r : nat) : Prop :=
  match dirs !! name with
  | Some info => grantable v info /\ cont_at info <> acc_at /\ cont_at info <> cfg_at
  | None => vacant v (drawn_at r)
  end.

Record own_container (pk : PublicKey) (name : string) (info : MDataInfo) (dirs : gmap string MDataInfo)
    (v : OwnView) (d : Slot) (v' : OwnView) (d' : Slot) : Prop := {
  oc_keys : ov_keys v' = ov_keys v;
  oc_keys_version : ov_keys_version v' = ov_keys_version v;
  oc_acc : holds v' acc_at d';
  oc_perms : slot_perms d' = slot_perms d;
  oc_version : slot_version d' = slot_version d;
  oc_entries k : ~ is_root_key k -> slot_entries d' !! k = slot_entries d !! k;
  oc_root : exists ver, container_entry client (<[name := info]> dirs) ver (slot_entries d');
  oc_granted : exists dc, holds v' (cont_at info) dc /\ slot_perms dc !! pk = Some full_permission_set;
  oc_apart : cont_at info <> acc_at /\ cont_at info <> cfg_at;
  oc_place : dirs !! name = Some info \/ dirs !! name = None /\ ov_data v !! cont_at info = None;
  oc_rest x : x <> acc_at -> x <> cont_at info -> ov_data v' !! x = ov_data v !! x;
}.

(** A directory that was just made, which a key may use. *)
Definition new_slot (pk : PublicKey) : Slot :=
  {| slot_entries := ∅; slot_perms := {[ pk := full_permission_set ]}; slot_version := 0 |}.

Lemma create_own v pk (s : AS) :
  sees v s -> vacant v (drawn_at (auth_rng s)) ->
  exists s' info, create client pk s = Ret info s' /\ cont_at info = drawn_at (auth_rng s) /\
    sees (put_slot (cont_at info) (new_slot pk) v) s'.
Proof using own.
  intros Hs Hfree. unfold create.
  assert (exists info r, random_private MKSeq DIR_TAG (auth_rng s) = Ret info r /\
    cont_at info = drawn_at (auth_rng s)) as (info & r & Hdraw & Hat) by by eexists _, _.
  rewrite (bind_Ret _ _ _ _ _ (from_core_Ret _ _ _ _ (on_rng_Ret _ _ _ _ Hdraw))).
  destruct (net_create v (cont_at info).1 (cont_at info).2 ∅ {[ pk := full_permission_set ]} (inner s) Hs)
    as (i & Hi & Hput); [by rewrite <-surjective_pairing, Hat|]. rewrite <-surjective_pairing in Hi.
  exists (set_inner i (set_auth_rng r s)), info. split_and!; [|done|exact Hi].
  assert (map_err AuthNfsError (create_dir client info ∅ {[ pk := full_permission_set ]}) (set_auth_rng r s) =
    Ret tt (set_inner i (set_auth_rng r s))) as Hdir.
  { pose proof (on_inner_Ret _ _ _ (set_auth_rng r s) Hput) as Hcall. cbn [cont_at fst snd] in Hcall.
    unfold create_dir, map_err, or_else. by rewrite Hcall. }
  by rewrite (bind_Ret _ _ _ _ _ Hdir).
Qed.

Lemma make_new v d dirs ver a pk (s : AS) :
  sees v s -> holds v acc_at d -> container_entry client dirs ver (slot_entries d) ->
  (0 <= ver /\ ver + 1 < u64_modulus)%Z -> is_Some (ov_data v !! cfg_at) ->
  dirs !! app_container_name a = None -> vacant v (drawn_at (auth_rng s)) ->
  exists s' info v' d', fetch_or_create client a pk s = Ret info s' /\ sees v' s' /\
    own_container pk (app_container_name a) info dirs v d v' d'.
Proof using All.
  intros Hs Hd He Hver [dcfg Hcfg] Hname Hfree. set (name := app_container_name a) in *.
  destruct (root_get client acc_at Hac v d dirs ver s Hs Hd He) as (s1 & Hs1 & Hrng & Hroot).
  rewrite <-Hrng in Hfree. destruct (create_own v pk s1 Hs1 Hfree) as (s2 & info & Hcr & Hat & Hs2).
  assert (cont_at info <> acc_at /\ cont_at info <> cfg_at) as [Hne Hnec].
  { rewrite Hat. destruct Hfree as [Hno _]. split; intros Heq; rewrite Heq in Hno; unfold holds in Hd; congruence. }
  set (v1 := put_slot (cont_at info) (new_slot pk) v) in *.
  assert (holds v1 acc_at d) as Hd1 by by apply holds_put_ne.
  destruct (root_put client acc_at Hac v1 d dirs (<[name := info]> dirs) ver s2 Hs2 Hd1 He Hver)
    as (s3 & m' & Hput & Hs3 & He' & Hrest).
  exists s3, info, (put_slot acc_at (set_entries m' d) v1), (set_entries m' d).
  split; [|split; [exact Hs3|]].
  - unfold fetch_or_create. rewrite (bind_Ret _ _ _ _ _ Hroot). fold name. rewrite Hname.
    rewrite (bind_Ret _ _ _ _ _ Hcr). by rewrite (bind_Ret _ _ _ _ _ Hput).
  - split; [done|done|apply holds_put|done|done|exact Hrest|by exists (ver + 1)%Z| |done| |].
    + exists (new_slot pk). split; [|apply lookup_singleton_eq]. apply holds_put_ne; [done|]. apply holds_put.
    + right. split; [done|]. rewrite Hat. apply Hfree.
    + intros x Hx1 Hx2. simpl. by rewrite !lookup_insert_ne.
Qed.

Lemma make_existing v d dirs ver a pk info (s : AS) :
  sees v s -> holds v acc_at d -> container_entry client dirs ver (slot_entries d) ->
  dirs !! app_container_name a = Some info -> grantable v info ->
  cont_at info <> acc_at /\ cont_at info <> cfg_at ->
  exists s' info v' d', fetch_or_create client a pk s = Ret info s' /\ sees v' s' /\
    own_container pk (app_container_name a) info dirs v d v' d'.
Proof using All.
  intros Hs Hd He Hname (Hseq & dc & Hdc & Hroom) Hap. set (name := app_container_name a) in *.
  destruct (root_get client acc_at Hac v d dirs ver s Hs Hd He) as (s1 & Hs1 & Hrng & Hroot).
  destruct (net_version v (cont_at info).1 (cont_at info).2 dc (inner s1) Hs1) as (i & Hi & Hv);
    [by rewrite <-surjective_pairing|].
  destruct (net_grant v (cont_at info).1 (cont_at info).2 dc pk full_permission_set i Hi) as (i' & Hi' & Hset);
    [by rewrite <-surjective_pairing|]. rewrite <-surjective_pairing in Hi'.
  exists (set_inner i' (set_inner i s1)), info, (put_slot (cont_at info) (grant pk full_permission_set dc) v), d.
  split; [|split; [exact Hi'|]].
  - unfold fetch_or_create. rewrite (bind_Ret _ _ _ _ _ Hroot). fold name. rewrite Hname, Hseq.
    rewrite (bind_Ret _ _ _ _ _ (from_core_Ret _ _ _ _ (on_inner_Ret _ _ _ s1 Hv))).
    rewrite u64_add_small by lia.
    by rewrite (bind_Ret _ _ _ _ _ (from_core_Ret _ _ _ _ (on_inner_Ret _ _ _ (set_inner i s1) Hset))).
  - split; [done|done|apply holds_put_ne; tauto|done|done|done| | |done|by left|].
    + exists ver. by rewrite insert_id.
    + eexists. split; [apply holds_put|]. apply lookup_insert_eq.
    + intros x _ Hx. simpl. by rewrite lookup_insert_ne.
Qed.

Lemma make_container v d dirs ver a pk (s : AS) :
  sees v s -> holds v acc_at d -> container_entry client dirs ver (slot_entries d) ->
  (0 <= ver /\ ver + 1 < u64_modulus)%Z -> is_Some (ov_data v !! cfg_at) ->
  container_ready v dirs (app_container_name a) (auth_rng s) ->
  exists s' info v' d', fetch_or_create client a pk s = Ret info s' /\ sees v' s' /\
    own_container pk (app_container_name a) info dirs v d v' d'.
Proof using All.
  intros Hs Hd He Hver Hcfg Hready. unfold container_ready in Hready.
  destruct (dirs !! app_container_name a) as [info|] eqn:Hname.
  - destruct Hready as (Hg & Hap). by eapply make_existing.
  - by eapply make_new.
Qed.

(** * What an authenticated app has *)

Abbreviation app_pk app := (app_keys_public_key (keys app)).
Definition app_key (app : AppInfo) (key : bytes) : Prop :=
  enc_key (access_container client) (app_id (info app)) (app_enc_key (keys app)) = Ok key.

(** The app can read the access container and finds [e] there, and can use each
    container of [e] as [e] says. *)
Record authorised (app : AppInfo) (e : AccessContainerEntry) (v : OwnView) : Prop := {
  au_entry : exists d key ver, holds v acc_at d /\ app_key app key /\
    entry_at (app_enc_key (keys app)) key (slot_entries d) (Some (ver, e)) /\
    slot_perms d !! app_pk app = Some (perms_allow perms_new MRead);
  au_containers name info a : e !! name = Some (info, a) ->
    exists d, holds v (cont_at info) d /\ slot_perms d !! app_pk app = Some (access_set a);
}.

(** What a request can be granted on: the client has the containers, at places of
    their own, and there is room in all the versions. *)
Record request_ready (v : OwnView) (d : Slot) (dirs : gmap string MDataInfo) (ver : Z)
    (names : list string) : Prop := {
  rr_acc : holds v acc_at d;
  rr_room : (0 <= slot_version d /\ slot_version d + 1 < u64_modulus)%Z;
  rr_root : container_entry client dirs ver (slot_entries d);
  rr_root_room : (0 <= ver /\ ver + 1 < u64_modulus)%Z;
  rr_keys_room : (0 <= ov_keys_version v /\ ov_keys_version v + 1 < u64_modulus)%Z;
  rr_config : is_Some (ov_data v !! cfg_at);
  rr_grantable : all_grantable v dirs names;
  rr_places k info : k ∈ names -> dirs !! k = Some info -> cont_at info <> acc_at /\ cont_at info <> cfg_at;
}.

(** The same, for the container of the app's own. *)
Definition own_ready (v : OwnView) (dirs : gmap string MDataInfo) (names : list string) (a : string) (r : nat) : Prop :=
  (app_container_name a ∉ names) /\ apart_containers dirs (app_container_name a :: names) /\
  forall r', r <= r' -> container_ready v dirs (app_container_name a) r'.

(** What an authentication adds to the network. *)
Record app_added (app : AppInfo) (p : AppPermissions) (e : AccessContainerEntry) (dirs : gmap string MDataInfo)
    (v v' : OwnView) : Prop := {
  ad_keys : ov_keys v' = <[app_pk app := p]> (ov_keys v);
  ad_app : authorised app e v';
  ad_dirs : exists d' dirs' ver, holds v' acc_at d' /\ container_entry client dirs' ver (slot_entries d') /\
    dirs ⊆ dirs' /\ forall name info a, e !! name = Some (info, a) -> dirs' !! name = Some info;
  ad_entries d d' k : holds v acc_at d -> holds v' acc_at d' -> ~ app_key app k -> ~ is_root_key k ->
    slot_entries d' !! k = slot_entries d !! k;
  ad_apart name info a : e !! name = Some (info, a) -> cont_at info <> acc_at /\ cont_at info <> cfg_at;
  ad_rest x : x <> acc_at -> (forall name info a, e !! name = Some (info, a) -> cont_at info <> x) ->
    ov_data v' !! x = ov_data v !! x;
}.

Lemma all_permissions_set : access_set all_permissions = full_permission_set.
Proof. reflexivity. Qed.

(** The entry of an app, with the container of its own. *)
Definition with_own (a : string) (o : option MDataInfo) (e : AccessContainerEntry) : AccessContainerEntry :=
  match o with Some info => insert_app_container e a info | None => e end.

Abbreviation names req := (hash_iter (req_containers req)).*1.

Lemma with_own_cases a o e name i p :
  with_own a (Some o) e !! name = Some (i, p) ->
  (name = app_container_name a /\ i = o /\ p = all_permissions) \/
  (name <> app_container_name a /\ e !! name = Some (i, p)).
Proof using Type.
  unfold with_own, insert_app_container.
  destruct (decide (name = app_container_name a)) as [->|Hn];
    [rewrite lookup_insert_eq|rewrite lookup_insert_ne by done]; naive_solver.
Qed.

(** The entry names what was asked for, and has it where the client has it. *)
Lemma asked_in dirs req name info a :
  asked_entry dirs (req_containers req) !! name = Some (info, a) ->
  name ∈ names req /\ dirs !! name = Some info.
Proof using authl.
  intros [Hp Hl]%asked_entry_lookup. split; [|done].
  apply list_elem_of_fmap. exists (name, a). split; [done|]. by rewrite (hash_iter_perm _), elem_of_map_to_list.
Qed.

(** The view when the containers are granted and the app's own is there. *)
Record granted_view (app : AppInfo) (p : AppPermissions) (o : option MDataInfo) (e0 : AccessContainerEntry)
    (dirs : gmap string MDataInfo) (v : OwnView) (d : Slot) (v' : OwnView) (d' : Slot) : Prop := {
  gv_keys : ov_keys v' = <[app_pk app := p]> (ov_keys v);
  gv_acc : holds v' acc_at d';
  gv_version : slot_version d' = slot_version d;
  gv_entries k : ~ is_root_key k -> slot_entries d' !! k = slot_entries d !! k;
  gv_dirs : exists dirs' ver, container_entry client dirs' ver (slot_entries d') /\ dirs ⊆ dirs' /\
    forall name info a, with_own (app_id (AuthTypes.info app)) o e0 !! name = Some (info, a) -> dirs' !! name = Some info;
  gv_containers name info a : with_own (app_id (AuthTypes.info app)) o e0 !! name = Some (info, a) ->
    cont_at info <> acc_at /\ cont_at info <> cfg_at /\
    exists dc, holds v' (cont_at info) dc /\ slot_perms dc !! app_pk app = Some (access_set a);
  gv_rest x : x <> acc_at ->
    (forall name info a, with_own (app_id (AuthTypes.info app)) o e0 !! name = Some (info, a) -> cont_at info <> x) ->
    ov_data v' !! x = ov_data v !! x;
}.

(** The key of the app is inserted, and the containers that were asked for granted. *)
Lemma grant_asked v d dirs ver req app p (s : AS) :
  sees v s -> request_ready v d dirs ver (names req) -> apart_containers dirs (names req) ->
  let e0 := asked_entry dirs (req_containers req) in
  exists s1 s2 v1 v2, Recovery.ins_auth_key (ac_client client) (app_pk app) p (ov_keys_version v + 1) (inner s) =
      Ret tt (inner s1) /\ auth_rng s1 = auth_rng s /\ sees v1 s1 /\
    v1 = set_keys (<[app_pk app := p]> (ov_keys v)) v /\
    (if bool_decide (req_containers req = ∅) then ret ∅
     else update_container_perms client (req_containers req) (app_pk app)) s1 = Ret e0 s2 /\
    auth_rng s1 <= auth_rng s2 /\ sees v2 s2 /\ entry_granted (app_pk app) e0 v1 v2 /\
    granted_view app p None e0 dirs v d v2 d.
Proof using All.
  intros Hs [Hd Hroom He Hver Hkv [dc Hcfg] Hgr Hpl] Hap e0.
  destruct (recover_ins_key (ac_client client) v (app_pk app) p (inner s) Hs Hkv) as (i & Hi & Hins).
  set (v1 := set_keys _ v) in *. set (s1 := set_inner i s).
  assert (exists s2 v2, (if bool_decide (req_containers req = ∅) then ret ∅
     else update_container_perms client (req_containers req) (app_pk app)) s1 = Ret e0 s2 /\
     sees v2 s2 /\ entry_granted (app_pk app) e0 v1 v2 /\ auth_rng s1 <= auth_rng s2)
    as (s2 & v2 & Hrun & Hs2 & Hg & Hr).
  { case_bool_decide as Hemp.
    - exists s1, v1. unfold e0. rewrite Hemp. unfold asked_entry. rewrite map_imap_empty.
      split_and!; [done|done| |done]. split; done.
    - destruct (containers_granted client acc_at Hac v1 d dirs ver (req_containers req) (app_pk app) s1 Hi Hd He Hgr Hap)
        as (s2 & v2 & Hrun & Hs2 & Hg). exists s2, v2. split_and!; [done..|].
      revert Hrun. apply draws_le. intros r. apply update_container_perms_draws. }
  pose proof (asked_in dirs req) as Hin. fold e0 in Hin.
  exists s1, s2, v1, v2. split_and!; [exact Hins|done..|].
  split.
  - by rewrite (eg_keys _ _ _ _ Hg).
  - unfold holds. rewrite (eg_rest _ _ _ _ Hg); [exact Hd|]. intros name info a Hl Heq.
    destruct (Hin _ _ _ Hl) as [Hn Hdir]. by destruct (Hpl name info Hn Hdir).
  - done.
  - done.
  - exists dirs, ver. split_and!; [done..|]. intros name info a Hl. by apply (Hin name info a).
  - intros name info a Hl. destruct (Hin _ _ _ Hl) as [Hn Hdir]. split_and!; [by apply (Hpl name)..|].
    destruct (Hgr name Hn) as (info' & Hdir' & _ & dd & Hdd & _). rewrite Hdir in Hdir'. injection Hdir' as <-.
    exists (grant (app_pk app) (access_set a) dd). split; [by apply (eg_made _ _ _ _ Hg name)|]. apply lookup_insert_eq.
  - intros x _ Hx. by rewrite (eg_rest _ _ _ _ Hg).
Qed.

(** What the grants leave of the client's own: its configuration, and the place where the
    container of the app is or will be. *)
Lemma granted_view_config v d dirs ver req app p v2 :
  request_ready v d dirs ver (names req) ->
  granted_view app p None (asked_entry dirs (req_containers req)) dirs v d v2 d ->
  ov_data v2 !! cfg_at = ov_data v !! cfg_at.
Proof using All.
  intros [Hd _ _ _ _ _ _ Hpl] Hg. destruct (decide (cfg_at = acc_at)) as [Heq|Hne]; [rewrite Heq|].
  - etransitivity; [exact (gv_acc _ _ _ _ _ _ _ _ _ Hg)|]. by symmetry.
  - apply (gv_rest _ _ _ _ _ _ _ _ _ Hg); [done|]. intros name i a [Hn Hdir]%asked_in.
    by apply (Hpl name i).
Qed.

(** The container of the app's own, where it is there, is none of the others. *)
Lemma own_apart dirs req a i name i' p :
  (app_container_name a) ∉ names req ->
  apart_containers dirs (app_container_name a :: names req) ->
  dirs !! app_container_name a = Some i ->
  asked_entry dirs (req_containers req) !! name = Some (i', p) -> cont_at i' <> cont_at i.
Proof using authl.
  intros Hnot Hap Hi [Hn Hdir]%asked_in Heq.
  assert (name = app_container_name a) as Heqn
    by (apply (Hap name (app_container_name a) i' i); [by right|by left|done..]).
  apply Hnot. by rewrite <-Heqn.
Qed.

Lemma own_still_ready v d dirs ver req app p v2 r :
  request_ready v d dirs ver (names req) ->
  own_ready v dirs (names req) (app_id (info app)) r ->
  granted_view app p None (asked_entry dirs (req_containers req)) dirs v d v2 d -> ov_free v2 = ov_free v ->
  container_ready v2 dirs (app_container_name (app_id (info app))) r.
Proof using All.
  intros [Hd _ _ _ _ _ Hgr _] (Hnot & Hap & Hready) Hg Hfree.
  pose proof (gv_rest _ _ _ _ _ _ _ _ _ Hg) as Hrest. cbn [with_own] in Hrest.
  specialize (Hready r (le_n _)). unfold container_ready in *.
  destruct (dirs !! app_container_name _) as [i|] eqn:Hi.
  - destruct Hready as ((Hseq & dd & Hdd & Hv) & Ha1 & Ha2). split_and!; [|done|done].
    split; [done|]. exists dd. split; [|done]. unfold holds. rewrite Hrest; [done|done|].
    intros name i' a Hl. by apply (own_apart dirs req (app_id (info app)) i name i' a).
  - destruct Hready as [Hno Hf]. split; [|by rewrite Hfree]. rewrite Hrest; [done| |].
    + intros Heq. rewrite Heq in Hno. unfold holds in Hd. congruence.
    + intros name i a [Hn Hdir]%asked_in Heq.
      destruct (Hgr name Hn) as (i' & Hdir' & _ & dd & Hdd & _). rewrite Hdir in Hdir'. injection Hdir' as <-.
      unfold holds in Hdd. rewrite Heq in Hdd. congruence.
Qed.

(** The view with the container of the app's own. *)
Lemma view_with_own v d dirs req app p i v2 v3 d3 :
  let name_ := app_container_name (app_id (info app)) in
  let e0 := asked_entry dirs (req_containers req) in
  name_ ∉ names req -> apart_containers dirs (name_ :: names req) ->
  granted_view app p None e0 dirs v d v2 d -> own_container (app_pk app) name_ i dirs v2 d v3 d3 ->
  granted_view app p (Some i) e0 dirs v d v3 d3.
Proof using All.
  intros name_ e0 Hnot Hap Hg
    [Hk Hkvs Hacc Hpe Hve Hen [ver' Hro] (dc' & Hdc' & Hperm) Hapart Hplace Hre].
  assert (forall name i' a, e0 !! name = Some (i', a) -> cont_at i' <> cont_at i) as Hne.
  { intros name i' a Hl. destruct Hplace as [Hi|[Hi Hno]]; [by eapply own_apart|]. intros Heq.
    destruct (gv_containers _ _ _ _ _ _ _ _ _ Hg name i' a Hl) as (_ & _ & dd & Hdd & _).
    unfold holds in Hdd. rewrite Heq in Hdd. congruence. }
  split.
  - by rewrite Hk, (gv_keys _ _ _ _ _ _ _ _ _ Hg).
  - done.
  - done.
  - done.
  - exists (<[name_ := i]> dirs), ver'. split_and!; [done| |].
    + destruct Hplace as [Hi|[Hi _]]; [by rewrite insert_id|by apply insert_subseteq].
    + intros name i' a [(-> & -> & ->)|(Hn & Hl)]%with_own_cases; [apply lookup_insert_eq|].
      rewrite lookup_insert_ne by done. by apply (asked_in dirs req name i' a).
  - intros name i' a [(-> & -> & ->)|(Hn & Hl)]%with_own_cases.
    + split_and!; [apply Hapart..|]. exists dc'. by rewrite all_permissions_set.
    + destruct (gv_containers _ _ _ _ _ _ _ _ _ Hg name i' a Hl) as (H1 & H2 & dd & Hdd & Hp).
      split_and!; [done..|]. exists dd. split; [|done]. unfold holds. rewrite Hre; [done|done|]. by apply (Hne name i' a).
  - intros x Hx Hall. assert (cont_at i <> x) as Hix.
    { apply (Hall name_ i all_permissions). unfold with_own, insert_app_container. apply lookup_insert_eq. }
    rewrite Hre by (done || congruence). apply (gv_rest _ _ _ _ _ _ _ _ _ Hg); [done|].
    intros name i' a Hl. apply (Hall name i' a). unfold with_own, insert_app_container. fold name_.
    destruct (decide (name = name_)) as [->|Hn]; [|by rewrite lookup_insert_ne].
    by destruct (Hnot (proj1 (asked_in _ _ _ _ _ Hl))).
Qed.

(** The container of the app's own, on top of the others. *)
Lemma add_own v d dirs ver req app p e0 v2 (s2 : AS) a :
  sees v2 s2 -> request_ready v d dirs ver (names req) -> a = app_id (info app) ->
  own_ready v dirs (names req) a (auth_rng s2) -> e0 = asked_entry dirs (req_containers req) ->
  granted_view app p None e0 dirs v d v2 d -> ov_free v2 = ov_free v ->
  exists s3 dinfo v3 d3, fetch_or_create client a (app_pk app) s2 = Ret dinfo s3 /\ sees v3 s3 /\
    granted_view app p (Some dinfo) e0 dirs v d v3 d3.
Proof using All.
  intros Hs2 Hready -> Hown -> Hg Hfree. pose proof Hready as [_ _ He Hver _ Hcfg _ _].
  destruct (make_container v2 d dirs ver (app_id (info app)) (app_pk app) s2 Hs2) as (s3 & i & v3 & d3 & Hrun & Hs3 & Hoc);
    [exact (gv_acc _ _ _ _ _ _ _ _ _ Hg)|done|done| | |].
  - by rewrite (granted_view_config _ _ _ _ _ _ _ _ Hready Hg).
  - by eapply own_still_ready.
  - exists s3, i, v3, d3. split_and!; [done..|]. destruct Hown as (Hnot & Hap & _). by eapply view_with_own.
Qed.

(** The entry of the app, once all it names is granted. *)
Lemma add_entry app p o e0 dirs v d v3 d3 key (s3 : AS) :
  sees v3 s3 -> granted_view app p o e0 dirs v d v3 d3 -> holds v acc_at d ->
  (0 <= slot_version d /\ slot_version d + 1 < u64_modulus)%Z ->
  app_key app key -> slot_entries d !! key = None -> ~ is_root_key key ->
  let e := with_own (app_id (info app)) o e0 in
  exists s4 v4, update_access_container client app e s3 = Ret tt s4 /\ sees v4 s4 /\ app_added app p e dirs v v4.
Proof using All.
  intros Hs3 [Hk Hacc Hve Hen (dirs' & ver & Hro & Hsub & Hd1) Hco Hre] Hd Hroom Hkey Hno Hnr e.
  assert (entry_at (T := AccessContainerEntry) (app_enc_key (keys app)) key (slot_entries d3) None) as Hnone.
  { apply entry_at_None. by rewrite Hen. }
  destruct (entry_get client acc_at Hac (app_id (info app)) (keys app) key Hkey v3 d3 None s3 Hs3 Hacc Hnone)
    as (s3' & Hs3' & Hfetch).
  destruct (entry_put client acc_at Hac (app_id (info app)) (keys app) key Hkey v3 d3 None e s3' Hs3' Hacc Hnone I)
    as (s4 & m' & Hput & Hs4 & He' & Hrest); [by rewrite Hve|].
  set (d4 := set_entries m' _) in *. exists s4, (put_slot acc_at d4 v3). split_and!; [|done|].
  - unfold update_access_container. rewrite (bind_Ret _ _ _ _ _ Hfetch). exact Hput.
  - assert (forall name i a, e !! name = Some (i, a) -> cont_at i <> acc_at) as Hne by (intros; by eapply Hco).
    split.
    + exact Hk.
    + split.
      * exists d4, key, 0%Z. split_and!; [apply holds_put|done|exact He'|]. apply lookup_insert_eq.
      * intros name i a Hl. destruct (Hco name i a Hl) as (H1 & H2 & dc & Hdc & Hp). exists dc. split; [|done].
        apply holds_put_ne; [|done]. intros Heq. by apply (Hne name i a Hl).
    + exists d4, dirs', ver. split_and!; [apply holds_put| |done|done].
      destruct Hro as (rk & Hrk & Hroot). exists rk. split; [done|]. eapply entry_at_same; [|exact Hroot].
      apply Hrest. intros ->. by apply Hnr.
    + intros d1 d1' k Hd1' Hd4 Hk1 Hk2. unfold holds in *. simpl in Hd4. rewrite lookup_insert_eq in Hd4.
      injection Hd4 as <-. rewrite Hd in Hd1'. injection Hd1' as <-. simpl. rewrite Hrest; [by apply Hen|].
      intros ->. by apply Hk1.
    + intros name i a Hl. by destruct (Hco name i a Hl) as (H1 & H2 & _).
    + intros x Hx Hall. simpl. rewrite lookup_insert_ne by done. by apply Hre.
Qed.

(** * The whole call *)

(** A request that can be granted, from a generator at [r] on. *)
Definition grant_ready (v : OwnView) (d : Slot) (dirs : gmap string MDataInfo) (ver : Z) (req : AuthReq)
    (r : nat) : Prop :=
  request_ready v d dirs ver (names req) /\ apart_containers dirs (names req) /\
  (req_app_container req = true -> own_ready v dirs (names req) (app_id (req_app req)) r) /\
  is_Some (enc_info (access_container client)).

(** Nothing is stored under the key of the app. *)
Definition key_unused (app : AppInfo) (d : Slot) : Prop :=
  exists key, app_key app key /\ slot_entries d !! key = None /\ ~ is_root_key key.

(** What the app is granted: what it asked for, and the container of its own. *)
Definition asked_permissions (req : AuthReq) : gmap string ContainerPermissions :=
  if req_app_container req
  then <[app_container_name (app_id (req_app req)) := all_permissions]> (req_containers req)
  else req_containers req.

Lemma asked_entry_perms v dirs req :
  all_grantable v dirs (names req) -> snd <$> asked_entry dirs (req_containers req) = req_containers req.
Proof using All.
  intros Hgr. apply map_eq. intros k. rewrite lookup_fmap. unfold asked_entry. rewrite map_lookup_imap.
  destruct (req_containers req !! k) as [a|] eqn:Hk; [|done]. simpl.
  destruct (Hgr k) as (i & -> & _); [|done].
  apply list_elem_of_fmap. exists (k, a). split; [done|]. by rewrite (hash_iter_perm _), elem_of_map_to_list.
Qed.

Lemma new_app_granted v d dirs ver req app b (s : AS) :
  sees v s -> grant_ready v d dirs ver req (auth_rng s) -> info app = req_app req -> key_unused app d ->
  bootstrap_config = Ok b ->
  exists s' v' granted, authenticate_new_app client app (req_app_container req) (req_app_permissions req)
      (req_containers req) s = Ret granted s' /\ sees v' s' /\
    granted_keys granted = keys app /\ granted_bootstrap granted = b /\
    snd <$> granted_entry granted = asked_permissions req /\
    from_mdata_info (access_container client) = Ok (granted_access_info granted) /\
    app_added app (req_app_permissions req) (granted_entry granted) dirs v v'.
Proof using All.
  intros Hs (Hrr & Hap & Hown & [[k nonce] Hn]) Hinfo (key & Hkey & Hno & Hnr) Hb.
  pose proof Hrr as [Hd Hroom _ _ Hkv _ Hgr _].
  destruct (net_list_keys v (inner s) Hs) as (i0 & Hi0 & Hlist). set (s0 := set_inner i0 s).
  destruct (grant_asked v d dirs ver req app (req_app_permissions req) s0 Hi0 Hrr Hap)
    as (s1 & s2 & v1 & v2 & Hins & Hr1 & Hs1 & -> & Hcont & Hr2 & Hs2 & Heg & Hgv).
  set (e0 := asked_entry dirs (req_containers req)) in *.
  assert (exists s3 o v3 d3,
    (if (req_app_container req : bool) then
       let! mdata_info := fetch_or_create client (app_id (info app)) (app_pk app) in
       ret (insert_app_container e0 (app_id (info app)) mdata_info)
     else ret e0) s2 = Ret (with_own (app_id (info app)) o e0) s3 /\ sees v3 s3 /\
    granted_view app (req_app_permissions req) o e0 dirs v d v3 d3 /\
    snd <$> with_own (app_id (info app)) o e0 = asked_permissions req)
    as (s3 & o & v3 & d3 & Hmade & Hs3 & Hgv3 & Hperms).
  { pose proof (asked_entry_perms v dirs req Hgr) as Hp0. fold e0 in Hp0. unfold asked_permissions.
    destruct (req_app_container req).
    - destruct (add_own v d dirs ver req app (req_app_permissions req) e0 v2 s2 (app_id (info app)) Hs2 Hrr eq_refl)
        as (s3 & i & v3 & d3 & Hrun & Hs3 & Hgv3); [|done|done|by rewrite (eg_free _ _ _ _ Heg)|].
      { destruct (Hown eq_refl) as (Ho1 & Ho2 & Ho3). rewrite Hinfo. split_and!; [done..|].
        intros r' Hr'. apply Ho3. simpl in Hr1. lia. }
      exists s3, (Some i), v3, d3. split_and!; [by rewrite (bind_Ret _ _ _ _ _ Hrun)|done|done|].
      simpl. unfold insert_app_container. by rewrite fmap_insert, Hp0, Hinfo.
    - by exists s2, None, v2, d. }
  destruct (add_entry app (req_app_permissions req) o e0 dirs v d v3 d3 key s3 Hs3 Hgv3 Hd Hroom Hkey Hno Hnr)
    as (s4 & v4 & Hup & Hs4 & Hadd).
  eexists s4, v4, _. split_and!; [|exact Hs4|..].
  - unfold authenticate_new_app.
    rewrite (bind_Ret _ _ _ _ _ (from_core_Ret _ _ _ _ (on_inner_Ret _ _ _ s Hlist))).
    fold s0. rewrite u64_add_small by lia.
    rewrite (bind_Ret _ _ _ _ _ (from_core_Ret _ _ _ _ (on_inner_Ret _ _ _ s0 Hins))).
    replace (set_inner (inner s1) s0) with s1 by (destruct s1; unfold set_inner; by rewrite <-Hr1).
    rewrite (bind_Ret _ _ _ _ _ Hcont), (bind_Ret _ _ _ _ _ Hmade), (bind_Ret _ _ _ _ _ Hup).
    unfold from_mdata_info. rewrite Hn. erewrite bind_Ret by reflexivity. rewrite Hb.
    erewrite bind_Ret by reflexivity. reflexivity.
  - done.
  - done.
  - exact Hperms.
  - unfold from_mdata_info. by rewrite Hn.
  - exact Hadd.
Qed.

(** An app that has its entry is given its keys and the entry again. *)
Lemma granted_again v app e b req access_info (s : AS) :
  sees v s -> authorised app e v -> bootstrap_config = Ok b ->
  from_mdata_info (access_container client) = Ok access_info ->
  (req_app_container req = true -> app_container_exists e (app_id (info app)) = true) ->
  exists s', authenticated_app client app (app_id (info app)) (req_app_container req) s =
    Ret {| granted_keys := keys app; granted_bootstrap := b; granted_access_info := access_info;
           granted_entry := e |} s' /\ sees v s'.
Proof using All.
  intros Hs [(d & key & ver & Hd & Hkey & He & _) _] Hb Hi Hex. unfold authenticated_app. rewrite Hb.
  destruct (entry_get client acc_at Hac (app_id (info app)) (keys app) key Hkey v d _ s Hs Hd He) as (s' & Hs' & Hget).
  exists s'. split; [|done]. erewrite bind_Ret by reflexivity. rewrite (bind_Ret _ _ _ _ _ Hget). simpl.
  destruct (req_app_container req); [rewrite Hex by done|]; simpl; unfold bind; simpl; by rewrite Hi.
Qed.

(** ** Around the configuration *)

Context (Hapart : acc_at <> cfg_at).
Abbreviation QKEY := KEY_APP_REVOCATION_QUEUE.
Abbreviation apps_are := (config_is client (T := Apps) KEY_APPS).
Abbreviation queue_is := (config_is client (T := RevocationQueue) QKEY).

Lemma config_is_same {T} `{!RustDefault T, !Serial T} key v v' ov (item : T) :
  ov_data v' !! cfg_at = ov_data v !! cfg_at -> config_is client key v ov item -> config_is client key v' ov item.
Proof using Type. intros Heq (d & Hd & He). exists d. split; [|done]. unfold holds. by rewrite Heq. Qed.

(** A change of the configuration leaves the other addresses alone. *)
Lemma config_set_ne m v x : x <> cfg_at -> ov_data (config_set client m v) !! x = ov_data v !! x.
Proof using Type.
  intros Hne. unfold config_set. destruct (ov_data v !! cfg_at); [|done]. simpl. by rewrite lookup_insert_ne.
Qed.

Lemma config_set_keys m v :
  ov_keys (config_set client m v) = ov_keys v /\ ov_keys_version (config_set client m v) = ov_keys_version v /\
  ov_free (config_set client m v) = ov_free v.
Proof using Type. unfold config_set. by destruct (ov_data v !! cfg_at). Qed.

Lemma grantable_config m v i : cont_at i <> cfg_at -> grantable v i -> grantable (config_set client m v) i.
Proof using Type.
  intros Hne (Hseq & d & Hd & Hv). split; [done|]. exists d. split; [|done]. unfold holds. by rewrite config_set_ne.
Qed.

Lemma grant_ready_config m v d dirs ver req r r' :
  r <= r' -> grant_ready v d dirs ver req r -> grant_ready (config_set client m v) d dirs ver req r'.
Proof using All.
  intros Hr ([Hd Hroom He Hver Hkv [dc Hcfg] Hgr Hpl] & Hap & Hown & Hn).
  destruct (config_set_keys m v) as (Hk1 & Hk2 & Hk3). split_and!; [|done| |done].
  - split; [unfold holds; by rewrite config_set_ne|done|done|done|by rewrite Hk2| | |done].
    + unfold config_set. rewrite Hcfg. simpl. rewrite lookup_insert_eq. by eexists.
    + intros k Hk. destruct (Hgr k Hk) as (i & Hi & Hg). exists i. split; [done|].
      apply grantable_config; [|done]. by apply (Hpl k i).
  - intros Hc. destruct (Hown Hc) as (Ho1 & Ho2 & Ho3). split_and!; [done..|]. intros r2 Hr2.
    specialize (Ho3 r2 ltac:(lia)). unfold container_ready in *. destruct (dirs !! _) as [i|].
    + destruct Ho3 as (Hg & H1 & H2). split_and!; [|done|done]. by apply grantable_config.
    + destruct Ho3 as [Hno Hf]. split; [|by rewrite Hk3]. rewrite config_set_ne; [done|].
      intros Heq. rewrite Heq in Hno. congruence.
Qed.

(** What is read before anything is decided. *)
Lemma authenticate_reads fuel req v ov apps qv q (s : AS) :
  sees v s -> apps_are v ov apps -> queue_is v qv q -> app_id (req_app req) ∉ q ->
  exists s2, sees v s2 /\ auth_rng s <= auth_rng s2 /\
    authenticate fuel client req s =
      (let! state := app_state client apps (app_id (req_app req)) in
       let! app :=
         match state with
         | NotAuthenticated =>
             let! public_id := unwrap match public_id (ac_client client) with
                                      | PClient id => Some id | _ => None end in
             let! keys := from_core (on_rng (app_keys_new public_id)) in
             let app := {| info := req_app req; keys := keys |} in
             insert_app fuel client apps (next_version ov) app ;! ret app
         | Authenticated | Revoked =>
             ok_or (apps !! sha3_256 (as_bytes (app_id (req_app req))))
               (AuthUnexpected "Logical error - couldn't find a revoked app in config")
         end in
       match state with
       | Authenticated => authenticated_app client app (app_id (req_app req)) (req_app_container req)
       | NotAuthenticated | Revoked =>
           authenticate_new_app client app (req_app_container req)
             (req_app_permissions req) (req_containers req)
       end) s2.
Proof using All.
  intros Hs Ha Hq Hnot.
  destruct (config_get client KEY_APPS v ov apps s Hs Ha) as (s1 & Hlist & Hs1).
  destruct (config_get client QKEY v qv q s1 Hs1 Hq) as (s2 & Hqueue & Hs2).
  assert (check_revocation client (app_id (req_app req)) s1 = Ret tt s2) as Hcheck.
  { unfold check_revocation, get_app_revocation_queue. rewrite (bind_Ret _ _ _ _ _ Hqueue).
    by rewrite bool_decide_eq_false_2. }
  exists s2. split_and!; [done| |].
  - transitivity (auth_rng s1); [revert Hlist|revert Hqueue]; apply draws_le; apply get_entry_draws.
  - unfold authenticate. rewrite (bind_Ret _ _ (Ok (ov, apps)) s s1) by (unfold attempt, list_apps; by rewrite Hlist).
    rewrite (bind_Ret _ _ (Ok tt) s1 s2) by (unfold attempt; by rewrite Hcheck). reflexivity.
Qed.

Definition app_hash (a : string) : bytes := sha3_256 (as_bytes a).

(** The registration of a new app in the configuration. *)
Lemma register_app fuel v ov apps qv q app (s : AS) :
  sees v s -> apps_are v ov apps -> queue_is v qv q -> version_ok ov ->
  apps !! app_hash (app_id (info app)) = None ->
  exists s' m x, insert_app (S fuel) client apps (next_version ov) app s = Ret x s' /\
    sees (config_set client m v) s' /\ auth_rng s <= auth_rng s' /\
    apps_are (config_set client m v) (Some (next_version ov)) (<[app_hash (app_id (info app)) := app]> apps) /\
    queue_is (config_set client m v) qv q.
Proof using All.
  intros Hs Ha (dq & Hdq & Hq) Hver Hno. set (hash := app_hash _) in *.
  destruct (config_change client KEY_APPS v ov apps (insert_app_f app) fuel s Hs Ha Hver)
    as (s' & m & Hrun & Hs' & Ha' & Hk).
  { unfold insert_app_f. simpl. by rewrite bool_decide_eq_true_2. }
  exists s', m. eexists. split_and!; [exact Hrun|exact Hs'| |exact Ha'|].
  - revert Hrun. apply draws_le. intros r. apply mutate_entry_draws.
  - exists (set_entries m dq). unfold config_set, holds in *. rewrite Hdq. split; [apply lookup_insert_eq|].
    unfold entry_is in *. cbn [slot_entries set_entries]. rewrite (Hk _ dq); [done| |exact Hdq].
    intros H%key_cipher_inj. discriminate.
Qed.

(** The state of an app that has its entry. *)
Lemma app_state_authorised v app apps e (s : AS) :
  sees v s -> apps !! app_hash (app_id (info app)) = Some app -> authorised app e v ->
  exists s', sees v s' /\ app_state client apps (app_id (info app)) s = Ret Authenticated s'.
Proof using All.
  intros Hs Happ [(d & key & ver & Hd & Hkey & He & _) _].
  destruct (entry_get client acc_at Hac (app_id (info app)) (keys app) key Hkey v d _ s Hs Hd He) as (s' & Hs' & Hget).
  exists s'. split; [done|]. unfold app_state. unfold app_hash in Happ. rewrite Happ.
  by rewrite (bind_Ret _ _ _ _ _ Hget).
Qed.

(** Asking again for an app that has what it was granted. *)
Lemma authenticate_again fuel v ov apps qv q req app granted b (s : AS) :
  sees v s -> apps_are v ov apps -> queue_is v qv q -> app_id (req_app req) ∉ q ->
  info app = req_app req -> apps !! app_hash (app_id (info app)) = Some app ->
  authorised app (granted_entry granted) v -> bootstrap_config = Ok b ->
  granted_keys granted = keys app -> granted_bootstrap granted = b ->
  from_mdata_info (access_container client) = Ok (granted_access_info granted) ->
  snd <$> granted_entry granted = asked_permissions req ->
  exists s', authenticate fuel client req s = Ret granted s' /\ sees v s'.
Proof using All.
  intros Hs Ha Hq Hnot Hinfo Happ Hau Hb Hk Hgb Hai Hp.
  destruct (authenticate_reads fuel req v ov apps qv q s Hs Ha Hq Hnot) as (s2 & Hs2 & _ & Hrun).
  destruct (app_state_authorised v app apps _ s2 Hs2 Happ Hau) as (s3 & Hs3 & Hst).
  destruct (granted_again v app (granted_entry granted) b req (granted_access_info granted) s3 Hs3 Hau Hb Hai)
    as (s4 & Hlast & Hs4).
  { intros Hc. unfold app_container_exists. rewrite Hinfo.
    assert ((snd <$> granted_entry granted) !! app_container_name (app_id (req_app req)) = Some all_permissions) as Hl.
    { rewrite Hp. unfold asked_permissions. rewrite Hc. apply lookup_insert_eq. }
    rewrite lookup_fmap in Hl. destruct (granted_entry granted !! _) as [[i a]|]; [|done].
    injection Hl as ->. by apply bool_decide_eq_true_2. }
  exists s4. split; [|done]. rewrite Hrun, <-Hinfo. rewrite (bind_Ret _ _ _ _ _ Hst).
  unfold app_hash in Happ. rewrite Happ. erewrite bind_Ret by reflexivity. rewrite Hlast, <-Hk, <-Hgb.
  by destruct granted.
Qed.

(** What is on the network once a request was granted, and what was answered. *)
Record app_admitted (ov : option Z) (apps : Apps) (qv : option Z) (q : RevocationQueue) (req : AuthReq)
    (b : BootstrapConfig) (d : Slot) (app : AppInfo) (granted : AuthGranted) (v v' : OwnView) : Prop := {
  am_info : info app = req_app req;
  am_answered : granted_keys granted = keys app /\ granted_bootstrap granted = b /\
    from_mdata_info (access_container client) = Ok (granted_access_info granted);
  am_asked : snd <$> granted_entry granted = asked_permissions req;
  am_apps : apps_are v' (Some (next_version ov)) (<[app_hash (app_id (req_app req)) := app]> apps);
  am_queue : queue_is v' qv q;
  am_keys : ov_keys v' = <[app_pk app := req_app_permissions req]> (ov_keys v);
  am_authorised : authorised app (granted_entry granted) v';
  am_entries d' k : holds v' acc_at d' -> ~ app_key app k -> ~ is_root_key k ->
    slot_entries d' !! k = slot_entries d !! k;
  am_rest x : x <> cfg_at -> x <> acc_at ->
    (forall name i a, granted_entry granted !! name = Some (i, a) -> cont_at i <> x) ->
    ov_data v' !! x = ov_data v !! x;
}.

(** The user grants the request of an app that is not known. *)
Lemma new_app_admitted fuel v d dirs ver req ov apps qv q cid b (s : AS) :
  sees v s -> apps_are v ov apps -> queue_is v qv q -> version_ok ov ->
  app_id (req_app req) ∉ q -> apps !! app_hash (app_id (req_app req)) = None ->
  public_id (ac_client client) = PClient cid -> bootstrap_config = Ok b ->
  grant_ready v d dirs ver req (auth_rng s) ->
  (forall i ks i', auth_rng s <= i -> app_keys_new cid i = Ret ks i' ->
     key_unused {| info := req_app req; keys := ks |} d) ->
  exists s' v' i ks i' granted, authenticate (S fuel) client req s = Ret granted s' /\ sees v' s' /\
    auth_rng s <= i /\ app_keys_new cid i = Ret ks i' /\
    app_admitted ov apps qv q req b d {| info := req_app req; keys := ks |} granted v v'.
Proof using All.
  intros Hs Ha Hq Hver Hnot Hno Hpid Hb Hready Hfresh.
  destruct (authenticate_reads (S fuel) req v ov apps qv q s Hs Ha Hq Hnot) as (s2 & Hs2 & Hr2 & Hrun).
  destruct (app_keys_new_ok cid (auth_rng s2)) as (ks & r3 & Hks). set (app := {| info := req_app req; keys := ks |}).
  set (s3 := set_auth_rng r3 s2).
  assert (auth_rng s2 <= auth_rng s3) as Hr3.
  { pose proof (app_keys_new_draws cid (auth_rng s2)) as H. by rewrite Hks in H. }
  destruct (register_app fuel v ov apps qv q app s3 Hs2 Ha Hq Hver Hno)
    as (s4 & m & x & Hreg & Hs4 & Hr4 & Ha4 & Hq4).
  destruct (new_app_granted (config_set client m v) d dirs ver req app b s4 Hs4)
    as (s5 & v5 & granted & Hnew & Hs5 & Hgk & Hgb & Hp & Hai & Hadd); [|done| |done|].
  { apply (grant_ready_config m v d dirs ver req (auth_rng s)); [lia|done]. }
  { by apply (Hfresh (auth_rng s2) ks r3). }
  destruct Hadd as [Hk5 Hau _ Hen Hapa Hrest].
  assert (ov_data v5 !! cfg_at = ov_data (config_set client m v) !! cfg_at) as Hcfg.
  { apply Hrest; [congruence|]. intros name i a Hl. by destruct (Hapa name i a Hl). }
  exists s5, v5, (auth_rng s2), ks, r3, granted. split_and!; [|done|done|done|split; try done].
  - rewrite Hrun. unfold app_state. unfold app_hash in Hno. rewrite Hno. erewrite bind_Ret by reflexivity.
    rewrite Hpid. erewrite bind_Ret; [exact Hnew|]. erewrite bind_Ret by reflexivity.
    rewrite (bind_Ret _ _ _ _ _ (from_core_Ret _ _ _ _ (on_rng_Ret _ _ _ _ Hks))). fold app s3.
    by rewrite (bind_Ret _ _ _ _ _ Hreg).
  - eapply config_is_same; [exact Hcfg|exact Ha4].
  - eapply config_is_same; [exact Hcfg|exact Hq4].
  - by rewrite Hk5, (proj1 (config_set_keys m v)).
  - intros d' k Hd' Hk1 Hk2. apply (Hen d d' k); [|done..].
    unfold holds. rewrite config_set_ne by done. apply Hready.
  - intros y Hy1 Hy2 Hy3. rewrite Hrest by done. by apply config_set_ne.
Qed.

End session.
