(* ===== verification/RevokeSession.v ===== *)
(** Revoking an app, from end to end, on any network that does what [OwnNet] says
    ([revocation.rs]): what it was granted is taken back, and granting it anew gives it
    the keys it had. *)
From S2P Require Import Prelude SafeNd SafeNdModel MockAccount CoreTypes ClientApi.
From S2P Require Import Recovery RecoveryProofs RecoveryRepair SeqStore.
From S2P Require Import MDataInfo MDataInfoProofs AuthTypes AuthConfig AuthConfigProofs.
From S2P Require Import AccessContainer AccessContainerProofs Revocation AppAuth.
From S2P Require Import OwnNet OwnSession AppSession AppSessionProofs.

Section revoke.
Context `{ndt : !NdTypes, ndo : !NdOps, ndl : !NdLaws, core : !CoreExt, lru : !LruOps}.
Context `{cr : !Crypto, crl : !CryptoLaws, auth : !AuthExt, authl : !AuthExtLaws, aa : !AppAuthExt}.
Context `{sal : !SeqActionsLaws}.
Context {W : Type} `{net : !Network W}.
Context `{sapps : !Serial Apps, sappsl : !SerialLaws Apps}.
Context `{squeue : !Serial RevocationQueue, squeuel : !SerialLaws RevocationQueue}.
Context `{sdirs : !Serial (gmap string MDataInfo), sdirsl : !SerialLaws (gmap string MDataInfo)}.
Context `{sentry : !Serial AccessContainerEntry, sentryl : !SerialLaws AccessContainerEntry}.
Context (client : AuthClient) `{own : !OwnNet (ac_client client)}.
Context (acc_at : XorName * Z) (Hac : address (access_container client) = MSeq acc_at.1 acc_at.2).
Abbreviation AS := (AuthState (W := W)).
Abbreviation sees v s := (shows v (inner s)).
Abbreviation cfg_at := (cfg_at client).
Abbreviation app_pk app := (app_keys_public_key (keys app)).
Abbreviation app_key := (app_key client).

(** * The permissions on containers *)

Record ungrants_made (pk : PublicKey) (l : list MDataInfo) (v v' : OwnView) : Prop := {
  um_keys : ov_keys v' = ov_keys v;
  um_keys_version : ov_keys_version v' = ov_keys_version v;
  um_free : ov_free v' = ov_free v;
  um_made info d : info ∈ l -> holds v (cont_at info) d ->
    exists d', holds v' (cont_at info) d' /\ slot_entries d' = slot_entries d /\
      slot_perms d' = delete pk (slot_perms d);
  um_rest x : x ∉ map cont_at l -> ov_data v' !! x = ov_data v !! x;
}.

Lemma ungrants_nil pk v : ungrants_made pk [] v v.
Proof using All. split; set_solver. Qed.

Lemma ungrants_snoc pk l info d d' v v' :
  ungrants_made pk l v v' -> cont_at info ∉ map cont_at l -> holds v (cont_at info) d ->
  slot_entries d' = slot_entries d -> slot_perms d' = delete pk (slot_perms d) ->
  ungrants_made pk (l ++ [info]) v (put_slot (cont_at info) d' v').
Proof using All.
  intros [Hk Hv Hf Hm Hr] Hno Hd He Hp. split; [done..| |].
  - intros info' d1 [Hin| ->%list_elem_of_singleton]%elem_of_app Hd1.
    + destruct (Hm info' d1 Hin Hd1) as (d2 & Hd2 & H). exists d2. split; [|done].
      apply holds_put_ne; [|done]. intros Heq. apply Hno. rewrite Heq. apply list_elem_of_fmap. by exists info'.
    + assert (d1 = d) as -> by (unfold holds in *; congruence). exists d'. by split; [apply holds_put|].
  - intros x. rewrite map_app. simpl. intros Hx. rewrite lookup_insert_ne by set_solver. apply Hr. set_solver.
Qed.

Definition version_of (v : OwnView) (info : MDataInfo) : Z :=
  default 0%Z (slot_version <$> ov_data v !! cont_at info).

Lemma ask_container_versions v (infos : list MDataInfo) :
  Forall (grantable v) infos -> forall acc (s : AS), sees v s ->
  exists s', fold_m (E := AuthError) (fun versions mdata_info =>
      let! v := attempt (on_inner (get_mdata_version (ac_client client) (address mdata_info))) in
      ret (versions ++ [v])) infos acc s = Ret (acc ++ map (fun i => Ok (version_of v i)) infos) s' /\ sees v s'.
Proof using All.
  induction 1 as [|info infos (Hseq & d & Hd & _) _ IH]; intros acc s Hs; simpl.
  - exists s. by rewrite app_nil_r.
  - destruct (net_version v (cont_at info).1 (cont_at info).2 d (inner s) Hs) as (i & Hi & Hver);
      [by rewrite <-surjective_pairing|].
    destruct (IH (acc ++ [Ok (slot_version d)]) (set_inner i s) Hi) as (s' & Hrun & Hs'). exists s'. split; [|done].
    unfold bind at 1 2, attempt, on_inner. rewrite Hseq, Hver. cbn [ret].
    etransitivity; [exact Hrun|]. unfold version_of, holds in *. rewrite Hd. by rewrite <-app_assoc.
Qed.

Lemma ungrant_all pk v (infos : list MDataInfo) :
  Forall (grantable v) infos -> forall l0 v0 (s : AS), ungrants_made pk l0 v v0 -> sees v0 s ->
  NoDup (map cont_at (l0 ++ infos)) ->
  exists s' v', for_each (E := AuthError) (zip infos (map (fun i => Ok (version_of v i)) infos)) (fun '(mdata_info, version_) =>
      let! version_ := from_core (lift_result version_) in
      from_core (on_inner (Recovery.del_mdata_user_permissions (ac_client client)
        (address mdata_info) pk (u64_add version_ 1)))) s = Ret tt s' /\
    sees v' s' /\ ungrants_made pk (l0 ++ infos) v v'.
Proof using All.
  induction 1 as [|info infos (Hseq & d & Hd & Hroom) _ IH]; intros l0 v0 s Hu Hs Hnd; simpl.
  - exists s, v0. by rewrite app_nil_r.
  - assert (cont_at info ∉ map cont_at l0) as Hno.
    { rewrite map_app in Hnd. apply list.NoDup_app in Hnd as (_ & Hnd & _). intros Hin. apply (Hnd _ Hin). by left. }
    assert (holds v0 (cont_at info) d) as Hd0 by (unfold holds; by rewrite (um_rest _ _ _ _ Hu)).
    destruct (recover_ungrant (ac_client client) v0 (cont_at info).1 (cont_at info).2 d pk (inner s) Hs)
      as (i & d' & Hi & He & Hp & _ & Hdel); [by rewrite <-surjective_pairing|]. rewrite <-surjective_pairing in Hi.
    destruct (IH (l0 ++ [info]) (put_slot (cont_at info) d' v0) (set_inner i s)) as (s' & v' & Hrun & Hs' & Hu').
    + by eapply ungrants_snoc.
    + exact Hi.
    + by rewrite <-app_assoc.
    + exists s', v'. rewrite cons_middle, app_assoc. split_and!; [|done|done].
      assert (version_of v info = slot_version d) as -> by (unfold version_of, holds in *; by rewrite Hd).
      erewrite bind_Ret; [exact Hrun|]. erewrite bind_Ret by reflexivity.
      rewrite u64_add_small, Hseq by lia. by apply from_core_Ret, on_inner_Ret.
Qed.

Lemma containers_revoked v pk (containers : gmap string MDataInfo) (s : AS) :
  sees v s -> Forall (grantable v) (hash_iter containers).*2 -> NoDup (map cont_at (hash_iter containers).*2) ->
  exists s' v', revoke_container_perms client containers pk s = Ret tt s' /\ sees v' s' /\
    ungrants_made pk (hash_iter containers).*2 v v'.
Proof using All.
  intros Hs Hg Hnd. destruct (ask_container_versions v _ Hg [] s Hs) as (s1 & Hask & Hs1).
  destruct (ungrant_all pk v _ Hg [] v s1 (ungrants_nil pk v) Hs1 Hnd) as (s2 & v' & Hrun & Hs2 & Hu).
  exists s2, v'. split_and!; [|done|done].
  unfold revoke_container_perms. by rewrite (bind_Ret _ _ _ _ _ Hask).
Qed.

(** * One revocation *)

Lemma key_deleted v k (s : AS) :
  sees v s -> (0 <= ov_keys_version v /\ ov_keys_version v + 1 < u64_modulus)%Z ->
  exists s' v', delete_app_auth_key client k s = Ret tt s' /\ sees v' s' /\
    ov_keys v' = delete k (ov_keys v) /\ ov_data v' = ov_data v /\ ov_free v' = ov_free v.
Proof using All.
  intros Hs Hv. destruct (net_list_keys v (inner s) Hs) as (i & Hi & Hlist). unfold delete_app_auth_key, or_else.
  rewrite (bind_Ret _ _ _ _ _ (on_inner_Ret _ _ _ _ Hlist)). case_bool_decide as Hk.
  - destruct (net_del_key v k i Hi Hv Hk) as (i' & Hi' & Hdel). rewrite u64_add_small by lia.
    rewrite (on_inner_Ret _ _ _ (set_inner i s) Hdel).
    by exists (set_inner i' (set_inner i s)), (set_keys (delete k (ov_keys v)) v).
  - exists (set_inner i s), v. split_and!; [done..| |done|done].
    symmetry. apply delete_id. by apply eq_None_not_Some.
Qed.

Lemma entry_deleted v d app key ver (e : AccessContainerEntry) (s : AS) :
  sees v s -> holds v acc_at d -> app_key app key ->
  entry_at (app_enc_key (keys app)) key (slot_entries d) (Some (ver, e)) ->
  (0 <= ver /\ ver + 1 < u64_modulus)%Z -> (0 <= slot_version d /\ slot_version d + 1 < u64_modulus)%Z ->
  is_Some (slot_perms d !! app_pk app) ->
  exists s' m', delete_entry client (app_id (info app)) (keys app) (u64_add ver 1) s = Ret tt s' /\
    sees (put_slot acc_at (set_entries m' (ungrant (app_pk app) d)) v) s' /\
    m' !! key = None /\ forall k, k <> key -> m' !! k = slot_entries d !! k.
Proof using All.
  intros Hs Hd Hkey He Hver Hroom Hpk. unfold delete_entry. rewrite Hkey, Hac. erewrite bind_Ret by reflexivity.
  destruct acc_at as [an at_]. simpl in *.
  destruct (net_version v an at_ d (inner s) Hs Hd) as (i1 & Hi1 & Hv).
  rewrite (bind_Ret _ _ _ _ _ (from_core_Ret _ _ _ _ (on_inner_Ret _ _ _ _ Hv))). rewrite !u64_add_small by lia.
  destruct (net_ungrant v an at_ d (app_pk app) i1 Hi1 Hd) as (i2 & [(_ & Hi2 & Hun)|(Hno & _)]);
    [|rewrite Hno in Hpk; by destruct Hpk].
  set (s1 := set_inner i1 s). rewrite (bind_Ret _ _ _ _ _ (from_core_Ret _ _ _ _ (on_inner_Ret _ _ _ s1 Hun))).
  set (s2 := set_inner i2 s1). set (acts := seq_actions_del seq_actions_new key (ver + 1)).
  assert (seq_into_actions acts = {[ key := Del (ver + 1)%Z ]}) as Hacts by apply seq_del_into.
  unfold entry_at in He. destruct (slot_entries d !! key) as [x|] eqn:Hx; [|done]. destruct He as [Hxv _].
  destruct (recover_mutate (ac_client client) _ an at_ (ungrant (app_pk app) d) acts i2 Hi2 (holds_put _ _ _))
    as (i3 & Hi3 & Hmut).
  { rewrite Hacts, entry_errors_singleton. simpl. rewrite Hx. simpl. by rewrite Hxv, Z.eqb_refl. }
  rewrite put_slot_twice in Hi3. rewrite Hacts in Hi3.
  eexists (set_inner i3 s2), _. split_and!; [|exact Hi3|..].
  - exact (from_core_Ret _ _ _ _ (on_inner_Ret _ _ _ s2 Hmut)).
  - simpl. by rewrite entries_applied_singleton, decide_True.
  - intros k Hk. simpl. by rewrite entries_applied_singleton, decide_False.
Qed.

(** ** What can be revoked *)

(** An app with its entry [e] in the access container, whose containers the client
    has at places of their own; there is room in all the versions. *)
Record revocable (v : OwnView) (d : Slot) (app : AppInfo) (key : bytes) (ver : Z)
    (e : AccessContainerEntry) : Prop := {
  rv_acc : holds v acc_at d;
  rv_room : (0 <= slot_version d /\ slot_version d + 1 < u64_modulus)%Z;
  rv_key : app_key app key;
  rv_entry : entry_at (app_enc_key (keys app)) key (slot_entries d) (Some (ver, e));
  rv_entry_room : (0 <= ver /\ ver + 1 < u64_modulus)%Z;
  rv_read : is_Some (slot_perms d !! app_pk app);
  rv_keys_room : (0 <= ov_keys_version v /\ ov_keys_version v + 1 < u64_modulus)%Z;
  rv_containers name i a : e !! name = Some (i, a) -> grantable v i /\ cont_at i <> acc_at /\ cont_at i <> cfg_at;
  rv_apart name name' i i' a a' : e !! name = Some (i, a) -> e !! name' = Some (i', a') ->
    cont_at i = cont_at i' -> name = name';
}.

(** What the revocation of an app takes from the network. *)
Record app_removed (app : AppInfo) (key : bytes) (e : AccessContainerEntry) (d : Slot) (v v' : OwnView) : Prop := {
  rm_keys : ov_keys v' = delete (app_pk app) (ov_keys v);
  rm_acc : exists d', holds v' acc_at d' /\ slot_perms d' = delete (app_pk app) (slot_perms d) /\
    slot_entries d' !! key = None /\ (forall k, k <> key -> slot_entries d' !! k = slot_entries d !! k);
  rm_containers name i a dc : e !! name = Some (i, a) -> holds v (cont_at i) dc ->
    exists dc', holds v' (cont_at i) dc' /\ slot_entries dc' = slot_entries dc /\
      slot_perms dc' = delete (app_pk app) (slot_perms dc);
  rm_rest x : x <> acc_at -> (forall name i a, e !! name = Some (i, a) -> cont_at i <> x) ->
    ov_data v' !! x = ov_data v !! x;
}.

Lemma entry_infos (e : AccessContainerEntry) i :
  i ∈ (hash_iter (fst <$> e)).*2 <-> exists name a, e !! name = Some (i, a).
Proof using All.
  rewrite list_elem_of_fmap. split.
  - intros ([name i'] & -> & Hin). rewrite (hash_iter_perm _), elem_of_map_to_list, lookup_fmap in Hin.
    destruct (e !! name) as [[i a]|] eqn:Hl; [|done]. injection Hin as <-. by exists name, a.
  - intros (name & a & Hl). exists (name, i). split; [done|].
    by rewrite (hash_iter_perm _), elem_of_map_to_list, lookup_fmap, Hl.
Qed.

Lemma entry_infos_apart (e : AccessContainerEntry) :
  (forall name name' i i' a a', e !! name = Some (i, a) -> e !! name' = Some (i', a') ->
     cont_at i = cont_at i' -> name = name') ->
  NoDup (map cont_at (hash_iter (fst <$> e)).*2).
Proof using All.
  intros Hap. change (NoDup (cont_at <$> (snd <$> hash_iter (fst <$> e)))). rewrite <-list_fmap_compose.
  apply NoDup_fmap_2_strong; [|rewrite (hash_iter_perm _); apply NoDup_map_to_list].
  assert (forall name i, (name, i) ∈ hash_iter (fst <$> e) -> exists a, e !! name = Some (i, a)) as Hin.
  { intros name i. rewrite (hash_iter_perm _), elem_of_map_to_list, lookup_fmap.
    destruct (e !! name) as [[i' a]|]; [|done]. intros [= ->]. by exists a. }
  intros [name i] [name' i'] H1 H2 Heq. simpl in Heq.
  destruct (Hin _ _ H1) as [a Ha], (Hin _ _ H2) as [a' Ha'].
  assert (name = name') as <- by by eapply Hap. rewrite Ha in Ha'. by injection Ha' as ->.
Qed.

Lemma app_revoked_once v ov apps d app key ver e (s : AS) :
  sees v s -> config_is client (T := Apps) KEY_APPS v ov apps ->
  apps !! app_hash (app_id (info app)) = Some app -> revocable v d app key ver e ->
  exists s' v', revoke_single_app client (app_id (info app)) s = Ret tt s' /\ sees v' s' /\
    app_removed app key e d v v'.
Proof using All.
  intros Hs Ha Happ [Hd Hroom Hkey He Hver Hread Hkv Hcon Hap].
  destruct (config_get client KEY_APPS v ov apps s Hs Ha) as (s1 & Hlist & Hs1).
  assert (get_app client (app_id (info app)) s = Ret app s1) as Hget.
  { unfold get_app, list_apps. rewrite (bind_Ret _ _ _ _ _ Hlist). unfold app_hash in Happ. by rewrite Happ. }
  destruct (key_deleted v (app_pk app) s1 Hs1 Hkv) as (s2 & v2 & Hdel & Hs2 & Hk2 & Hd2 & _).
  assert (holds v2 acc_at d) as Hd2' by (unfold holds; by rewrite Hd2).
  destruct (entry_get client acc_at Hac (app_id (info app)) (keys app) key Hkey v2 d _ s2 Hs2 Hd2' He)
    as (s3 & Hs3 & Hfetch).
  destruct (containers_revoked v2 (app_pk app) (fst <$> e) s3 Hs3) as (s4 & v4 & Hrev & Hs4 & Hu).
  { apply list.Forall_forall. intros i (name & a & Hl)%entry_infos.
    destruct (Hcon name i a Hl) as ((Hseq & dc & Hdc & Hv) & _). split; [done|]. exists dc.
    unfold holds. by rewrite Hd2. }
  { by apply entry_infos_apart. }
  assert (holds v4 acc_at d) as Hd4.
  { unfold holds. rewrite (um_rest _ _ _ _ Hu); [done|]. intros (i & Heq & (name & a & Hl)%entry_infos)%list_elem_of_fmap.
    by destruct (Hcon name i a Hl) as (_ & Hne & _). }
  destruct (entry_deleted v4 d app key ver e s4 Hs4 Hd4 Hkey He Hver Hroom Hread) as (s5 & m & Hdele & Hs5 & Hno & Hrest).
  exists s5, (put_slot acc_at (set_entries m (ungrant (app_pk app) d)) v4). split_and!; [|done|split].
  - unfold revoke_single_app. rewrite (bind_Ret _ _ _ _ _ Hget), (bind_Ret _ _ _ _ _ Hdel), (bind_Ret _ _ _ _ _ Hfetch).
    unfold clear_from_access_container_entry. by rewrite (bind_Ret _ _ _ _ _ Hrev).
  - simpl. by rewrite (um_keys _ _ _ _ Hu).
  - eexists. split_and!; [apply holds_put|done..].
  - intros name i a dc Hl Hdc. destruct (Hcon name i a Hl) as (_ & Hne & _).
    destruct (um_made _ _ _ _ Hu i dc) as (dc' & Hdc' & H); [apply entry_infos; eauto| |].
    { unfold holds. by rewrite Hd2. }
    exists dc'. split; [|done]. apply holds_put_ne; [|done]. congruence.
  - intros x Hx Hall. simpl. rewrite lookup_insert_ne by done. rewrite (um_rest _ _ _ _ Hu); [by rewrite Hd2|].
    intros (i & -> & (name & a & Hl)%entry_infos)%list_elem_of_fmap. by apply (Hall name i a).
Qed.

(** * The whole call *)

Context (Hapart : acc_at <> cfg_at).
Abbreviation QKEY := KEY_APP_REVOCATION_QUEUE.
Abbreviation apps_are := (config_is client (T := Apps) KEY_APPS).
Abbreviation queue_is := (config_is client (T := RevocationQueue) QKEY).

Lemma revocable_config m v d app key ver e :
  revocable v d app key ver e -> revocable (config_set client m v) d app key ver e.
Proof using All.
  intros [Hd Hroom Hkey He Hver Hread Hkv Hcon Hap]. split; try done.
  - unfold holds. by rewrite config_set_ne.
  - by rewrite (proj1 (proj2 (config_set_keys client m v))).
  - intros name i a Hl. destruct (Hcon name i a Hl) as (Hg & H1 & H2). split_and!; [|done..].
    by apply grantable_config.
Qed.

(** A change of the queue: the apps stay. *)
Lemma queue_change fuel v ov apps qv q f (s : AS) :
  sees v s -> apps_are v ov apps -> queue_is v qv q -> version_ok qv -> (f q).2 = true ->
  exists s' m, mutate_entry (S fuel) client QKEY q (next_version qv) f s = Ret (next_version qv, (f q).1) s' /\
    sees (config_set client m v) s' /\ apps_are (config_set client m v) ov apps /\
    queue_is (config_set client m v) (Some (next_version qv)) (f q).1.
Proof using All.
  intros Hs (da & Hda & Ha) Hq Hver Hf.
  destruct (config_change client QKEY v qv q f fuel s Hs Hq Hver Hf) as (s' & m & Hrun & Hs' & Hq' & Hk).
  exists s', m. split_and!; [done..| |done].
  exists (set_entries m da). unfold config_set, holds in *. rewrite Hda. split; [apply lookup_insert_eq|].
  unfold entry_is in *. cbn [slot_entries set_entries]. rewrite (Hk _ da); [done| |exact Hda].
  intros H%key_cipher_inj. discriminate.
Qed.

(** The queue with one app in it is emptied. *)
Lemma queue_flushed cf fuel v ov apps n d app key ver e (s : AS) :
  sees v s -> apps_are v ov apps -> queue_is v (Some n) [app_id (info app)] ->
  (0 <= n /\ n + 1 < u64_modulus)%Z -> apps !! app_hash (app_id (info app)) = Some app ->
  revocable v d app key ver e ->
  exists s' v' m, flush_app_revocation_queue_impl (S cf) (S (S fuel)) client [app_id (info app)] (u64_add n 1) s = Ret tt s' /\
    sees (config_set client m v') s' /\ app_removed app key e d v v' /\
    apps_are (config_set client m v') ov apps /\ queue_is (config_set client m v') (Some (n + 1)%Z) [].
Proof using All.
  intros Hs Ha Hq Hn Happ Hr. pose proof Hr as [_ _ _ _ _ _ _ Hcon _].
  destruct (app_revoked_once v ov apps d app key ver e s Hs Ha Happ Hr) as (s1 & v1 & Hrev & Hs1 & Hrm).
  assert (ov_data v1 !! cfg_at = ov_data v !! cfg_at) as Hcfg.
  { apply (rm_rest _ _ _ _ _ _ Hrm); [done|]. intros name i a Hl. by destruct (Hcon name i a Hl) as (_ & _ & H). }
  assert (remove_f (app_id (info app)) [app_id (info app)] = ([], true)) as Hf.
  { rewrite remove_f_spec by apply NoDup_singleton. rewrite bool_decide_eq_true_2 by by left.
    unfold without. by rewrite filter_cons_False by auto. }
  destruct (queue_change cf v1 ov apps (Some n) [app_id (info app)] (remove_f (app_id (info app))) s1 Hs1)
    as (s2 & m & Hmut & Hs2 & Ha2 & Hq2); [by apply (config_is_same client KEY_APPS v)|
    by apply (config_is_same client QKEY v)|done|by rewrite Hf|]. rewrite Hf in Hmut, Hq2. cbn [fst next_version] in Hmut, Hq2.
  exists s2, v1, m. rewrite u64_add_small in Hq2 by lia. split_and!; [|done..].
  unfold flush_app_revocation_queue_impl. rewrite loop_fn_S. unfold flush_attempt at 1.
  unfold bind at 1 2, attempt. rewrite Hrev. unfold remove_from_app_revocation_queue.
  erewrite bind_Ret by (erewrite bind_Ret by exact Hmut; reflexivity). cbn [ret]. by rewrite loop_fn_S.
Qed.

(** What is on the network once an app was revoked. *)
Record app_revoked (ov : option Z) (apps : Apps) (qv : option Z) (app : AppInfo) (key : bytes)
    (e : AccessContainerEntry) (d : Slot) (v v' : OwnView) : Prop := {
  rk_apps : apps_are v' ov apps;
  rk_queue : queue_is v' (Some (next_version qv + 1)%Z) [];
  rk_keys : ov_keys v' = delete (app_pk app) (ov_keys v);
  rk_acc : exists d', holds v' acc_at d' /\ slot_perms d' = delete (app_pk app) (slot_perms d) /\
    slot_entries d' !! key = None /\ (forall k, k <> key -> slot_entries d' !! k = slot_entries d !! k);
  rk_containers name i a dc : e !! name = Some (i, a) -> holds v (cont_at i) dc ->
    exists dc', holds v' (cont_at i) dc' /\ slot_entries dc' = slot_entries dc /\
      slot_perms dc' = delete (app_pk app) (slot_perms dc);
  rk_rest x : x <> cfg_at -> x <> acc_at -> (forall name i a, e !! name = Some (i, a) -> cont_at i <> x) ->
    ov_data v' !! x = ov_data v !! x;
}.

(** The user revokes an app, with no revocation waiting. *)
Lemma revoke_app_ok cf fuel v ov apps qv d app key ver e (s : AS) :
  sees v s -> apps_are v ov apps -> queue_is v qv [] ->
  version_ok qv -> (next_version qv + 1 < u64_modulus)%Z ->
  apps !! app_hash (app_id (info app)) = Some app -> revocable v d app key ver e ->
  exists s' v', revoke_app (S cf) (S (S fuel)) client (app_id (info app)) s = Ret tt s' /\ sees v' s' /\
    app_revoked ov apps qv app key e d v v'.
Proof using All.
  intros Hs Ha Hq Hver Hroom Happ Hr.
  destruct (config_get client QKEY v qv [] s Hs Hq) as (s1 & Hget & Hs1).
  assert (0 <= next_version qv)%Z as Hpos by (destruct qv; simpl in *; [rewrite u64_add_small|]; lia).
  destruct (queue_change cf v ov apps qv [] (push_f (app_id (info app))) s1 Hs1 Ha Hq Hver)
    as (s2 & m1 & Hpush & Hs2 & Ha2 & Hq2); [done|]. cbn [push_f fst] in Hpush, Hq2.
  destruct (queue_flushed cf fuel (config_set client m1 v) ov apps (next_version qv) d app key ver e s2)
    as (s3 & v3 & m3 & Hflush & Hs3 & [Hk (d3 & Hd3 & H3) Hcon Hre] & Ha3 & Hq3);
    [done|done|exact Hq2|lia|done|by apply revocable_config|].
  destruct Hr as [_ _ _ _ _ _ _ Hcons _].
  assert (forall x, x <> cfg_at -> ov_data (config_set client m3 v3) !! x = ov_data v3 !! x) as Hne
    by (intros; by apply config_set_ne).
  exists s3, (config_set client m3 v3). split_and!; [|done|split; try done].
  - unfold revoke_app, get_app_revocation_queue. rewrite (bind_Ret _ _ _ _ _ Hget).
    unfold push_to_app_revocation_queue. by rewrite (bind_Ret _ _ _ _ _ Hpush).
  - by rewrite (proj1 (config_set_keys client m3 v3)), Hk, (proj1 (config_set_keys client m1 v)).
  - exists d3. split; [|done]. unfold holds. by rewrite Hne.
  - intros name i a dc Hl Hdc. destruct (Hcons name i a Hl) as (_ & _ & Hc).
    destruct (Hcon name i a dc Hl) as (dc' & Hdc' & H); [unfold holds; by rewrite config_set_ne|].
    exists dc'. split; [|done]. unfold holds. by rewrite Hne.
  - intros x Hx1 Hx2 Hall. rewrite Hne, Hre by done. by apply config_set_ne.
Qed.

(** C4: revoking an app, from end to end.  The user revokes a registered app, with no
    revocation waiting: the call succeeds, the app's key is no longer authorised, its
    entry is gone from the access container, and neither there nor on any container
    it was granted has the key any permission left; the permissions of everyone else,
    the entries of every container, the other entries of the access container and all
    other data are as they were, the queue is empty again, and the app, still
    registered with its keys, is found to be revoked. *)
Theorem revocation_undoes_grant cf fuel v ov apps qv d app key ver e (s : AS) :
  sees v s -> apps_are v ov apps -> queue_is v qv [] ->
  version_ok qv -> (next_version qv + 1 < u64_modulus)%Z ->
  apps !! app_hash (app_id (info app)) = Some app -> revocable v d app key ver e ->
  exists s' v' d', revoke_app (S cf) (S (S fuel)) client (app_id (info app)) s = Ret tt s' /\ sees v' s' /\
    apps_are v' ov apps /\ queue_is v' (Some (next_version qv + 1)%Z) [] /\
    ov_keys v' = delete (app_pk app) (ov_keys v) /\
    holds v' acc_at d' /\ slot_perms d' = delete (app_pk app) (slot_perms d) /\
    slot_entries d' !! key = None /\ (forall k, k <> key -> slot_entries d' !! k = slot_entries d !! k) /\
    (forall name i a dc, e !! name = Some (i, a) -> holds v (cont_at i) dc ->
      exists dc', holds v' (cont_at i) dc' /\ slot_entries dc' = slot_entries dc /\
        slot_perms dc' = delete (app_pk app) (slot_perms dc)) /\
    (forall x, x <> cfg_at -> x <> acc_at -> (forall name i a, e !! name = Some (i, a) -> cont_at i <> x) ->
      ov_data v' !! x = ov_data v !! x) /\
    exists s'', app_state client apps (app_id (info app)) s' = Ret Revoked s''.
Proof using All.
  intros Hs Ha Hq Hver Hroom Happ Hr.
  destruct (revoke_app_ok cf fuel v ov apps qv d app key ver e s)
    as (s' & v' & Hrun & Hs' & [Ha' Hq' Hk (d' & Hd' & Hp & Hno & Hen) Hcon Hrest]); [done..|].
  exists s', v', d'. split_and!; try done.
  destruct (entry_get client acc_at Hac (app_id (info app)) (keys app) key (rv_key _ _ _ _ _ _ Hr) _ d' None s' Hs' Hd')
    as (s'' & _ & Hfetch); [by apply entry_at_None|].
  exists s''. unfold app_state. unfold app_hash in Happ. rewrite Happ. by rewrite (bind_Ret _ _ _ _ _ Hfetch).
Qed.

(** C5: a revoked app that is granted again has the keys it had.  It is registered but
    has no entry: the call changes nothing of the configuration, authorises the app's
    old key with the permissions of this request, and gives the app what the request
    asks for. *)
Theorem revoked_app_granted_again fuel v d dirs ver req ov apps qv q app b (s : AS) :
  sees v s -> apps_are v ov apps -> queue_is v qv q -> app_id (req_app req) ∉ q ->
  info app = req_app req -> apps !! app_hash (app_id (info app)) = Some app -> key_unused client app d ->
  bootstrap_config = Ok b -> (forall r, auth_rng s <= r -> grant_ready client acc_at v d dirs ver req r) ->
  exists s' v' granted, authenticate fuel client req s = Ret granted s' /\ sees v' s' /\
    granted_keys granted = keys app /\ snd <$> granted_entry granted = asked_permissions req /\
    apps_are v' ov apps /\ queue_is v' qv q /\
    ov_keys v' = <[app_pk app := req_app_permissions req]> (ov_keys v) /\
    authorised client acc_at app (granted_entry granted) v'.
Proof using All.
  intros Hs Ha Hq Hnot Hinfo Happ Hkey Hb Hready.
  destruct (authenticate_reads client acc_at Hac Hapart fuel req v ov apps qv q s Hs Ha Hq Hnot) as (s2 & Hs2 & Hr2 & Hrun).
  pose proof Hkey as (key & Hkk & Hnone & _). pose proof (Hready _ (le_n _)) as ([Hd _ _ _ _ _ _ _] & _).
  destruct (entry_get client acc_at Hac (app_id (info app)) (keys app) key Hkk v d None s2 Hs2 Hd)
    as (s3 & Hs3 & Hfetch); [by apply entry_at_None|].
  assert (app_state client apps (app_id (req_app req)) s2 = Ret Revoked s3) as Hst.
  { unfold app_state. unfold app_hash in Happ. rewrite <-Hinfo, Happ. by rewrite (bind_Ret _ _ _ _ _ Hfetch). }
  assert (auth_rng s2 <= auth_rng s3) as Hr3 by (revert Hst; apply draws_le; intros r; apply app_state_draws).
  destruct (new_app_granted client acc_at Hac v d dirs ver req app b s3 Hs3)
    as (s4 & v4 & granted & Hnew & Hs4 & Hgk & _ & Hp & _ & [Hk Hau _ _ Hapa Hrest]); [apply Hready; lia|done..|].
  assert (ov_data v4 !! cfg_at = ov_data v !! cfg_at) as Hcfg.
  { apply Hrest; [congruence|]. intros name i a Hl. by destruct (Hapa name i a Hl). }
  exists s4, v4, granted. split_and!; [|done|done|done|by eapply config_is_same|by eapply config_is_same|done..].
  rewrite Hrun, (bind_Ret _ _ _ _ _ Hst), <-Hinfo. unfold app_hash in Happ. rewrite Happ.
  by erewrite bind_Ret by reflexivity.
Qed.
End revoke.
