(* ===== verification/AppSessionModel.v ===== *)
(** Authentication and revocation at work, on an account of the mock network: one app
    authorised, one revoked, and one that asks for the first time. *)
From S2P Require Import Prelude SafeNd SafeNdModel MockAccount MockVault.
From S2P Require Import MockVaultRequests MockVaultProcess MockVaultSpec.
From S2P Require Import MockVaultRefine MockVaultSafety MockVaultBehaviour MockVaultAccess.
From S2P Require Import CoreTypes ClientApi MockStore MockConnection MockShared.
From S2P Require Import MockClient Recovery RecoveryProofs RecoveryRepair SeqStore.
From S2P Require Import MDataInfo MDataInfoProofs AuthTypes AuthConfig AuthConfigProofs.
From S2P Require Import AccessContainer AccessContainerProofs Revocation RevocationMock AuthModel.
From S2P Require Import AppAuth OwnNet OwnNetMock StdDirsProofs.
From S2P Require Import OwnSession AppSession AppSessionProofs RevokeSession.

#[export] Instance ModelSeqGrant : SeqGrantLaws.
Proof.
  split.
  - intros d u p. simpl. unfold model_set_perms. rewrite Z.eqb_refl. by eexists.
  - intros d u. case_match eqn:Hp; simpl in *; unfold model_del_perms; rewrite Z.eqb_refl, Hp; [by eexists|done].
  - intros d acts pk x. simpl. unfold model_mutate_seq.
    repeat case_match; try done. simpl. by intros [= <-].
Qed.

(** * The account *)

Definition se_music : MDataInfo :=
  {| address := MSeq (ex_name 72) 15000; enc_info := None; new_enc_info := None |}.
Definition se_dirs : gmap string MDataInfo := {[ "_music" := se_music ]}.
Definition se_entry : AccessContainerEntry := {[ "_music" := (se_music, {[ PRead ]} : ContainerPermissions) ]}.
Definition se_app : AppInfo := ex_app_info "app" 7.
Definition se_old : AppInfo := ex_app_info "old" 8.

Definition se_key (name : string) (sk : SymEncKey) : bytes :=
  match AccessContainer.enc_key ex_access name sk with Ok k => k | Err _ => [] end.
Definition se_root_key : bytes := se_key AUTHENTICATOR_ENTRY ex_sk.
Definition se_app_key : bytes := se_key "app" [7%Z].
Definition se_old_key : bytes := se_key "old" [8%Z].
Definition se_text {T} `{!Serial T} (t : T) (sk : SymEncKey) : bytes :=
  match encode_raw t sk ex_auth_state with Ret c _ => c | _ => [] end.

Definition se_config : Slot := {|
  slot_entries := {[ key_cipher ex_config_dir KEY_APPS := ex_stored_value ex_apps 0 ]};
  slot_perms := ∅; slot_version := 0 |}.
Definition se_access : Slot := {|
  slot_entries := {[ se_root_key := {| seq_data := se_text se_dirs ex_sk; seq_version := 0 |};
                     se_app_key := {| seq_data := se_text se_entry [7%Z]; seq_version := 4 |} ]};
  slot_perms := {[ ex_key 7 := perms_allow perms_new MRead ]}; slot_version := 1 |}.
Definition se_container : Slot := {|
  slot_entries := {[ [9%Z] := {| seq_data := [1%Z]; seq_version := 0 |} ]};
  slot_perms := {[ ex_key 7 := access_set {[ PRead ]} ]}; slot_version := 5 |}.

Definition se_at (k : Z) : XorName * Z := (ex_name k, 15000%Z).
Definition se_data (k : Z) (d : Slot) : SeqMutableData :=
  {| md_name := ex_name k; md_tag := 15000; md_entries := slot_entries d; md_perms := slot_perms d;
     md_version := slot_version d; md_owner := 1 |}.

Definition se_vault : Vault := {|
  cache := {|
    coin_balances := <[ex_name 1 := ex_balance 1 100]> ∅;
    client_manager :=
      <[ex_name 1 := {| auth_keys := {[ ex_key 7 := ex_perms ]};
                        version := 1; config := ex_free_config |}]> ∅;
    login_packets := ∅;
    nae_manager :=
      <[addr_id (se_at 70) := Mutable (MDSeq (se_data 70 se_config))]>
      (<[addr_id (se_at 71) := Mutable (MDSeq (se_data 71 se_access))]>
      (<[addr_id (se_at 72) := Mutable (MDSeq (se_data 72 se_container))]> ∅)) |};
  vault_config := ex_free_config;
  store := init_vault_store ex_free_config |}.

Lemma se_vault_wf : vault_wf se_vault.
Proof.
  split; simpl; repeat (apply map_Forall_insert_2; [|]);
    try reflexivity; try apply map_Forall_empty; unfold balance_wf, is_u64, u64_modulus; simpl; lia.
Qed.

Definition se_net : MockNet :=
  {| vault := {| lk_vault := se_vault; lk_disk := {| files := ∅; ticks := 0 |} |};
     request_hook := None; response_hook := None; groups := ∅; net_tx := []; drawn := 0 |}.
Definition se_state : AuthState (W := MockNet) :=
  {| inner := {| connection_manager := se_net;
                 ci_cache := ([] : LruCache IDataAddress IData); timeout := 0 |};
     auth_rng := 0%nat |}.

(** Its view. *)
Definition se_view : OwnView := {|
  ov_data := <[se_at 70 := se_config]> (<[se_at 71 := se_access]> (<[se_at 72 := se_container]> ∅));
  ov_free a := nae_manager (cache se_vault) !! addr_id a = None;
  ov_keys := {[ ex_key 7 := ex_perms ]}; ov_keys_version := 1 |}.

Lemma se_slot a d : holds se_view a d -> slot_at ex_full_id se_vault a d.
Proof.
  unfold holds, se_view. cbn [ov_data]. intros Hl.
  apply lookup_insert_Some in Hl as [[<- <-]|[_ Hl]]; [exists (se_data 70 se_config); split; [vm_refl|by split]|].
  apply lookup_insert_Some in Hl as [[<- <-]|[_ Hl]]; [exists (se_data 71 se_access); split; [vm_refl|by split]|].
  apply lookup_insert_Some in Hl as [[<- <-]|[_ Hl]]; [exists (se_data 72 se_container); split; [vm_refl|by split]|].
  by rewrite lookup_empty in Hl.
Qed.

Lemma se_shown : shows (OwnNet := MockOwnNet ex_full_id) se_view (inner se_state).
Proof.
  split.
  - split; [split; [by split|split; [exact se_vault_wf|done]]|]. by eexists.
  - reflexivity.
  - reflexivity.
  - exact se_slot.
  - intros a [_ Hf]. exact Hf.
Qed.

(** ** What it says *)

Ltac held := unfold holds; vm_refl.

Lemma se_apps_are : config_is ex_auth_client (T := Apps) KEY_APPS se_view (Some 0%Z) ex_apps.
Proof.
  exists se_config. split; [held|]. unfold entry_is.
  replace (slot_entries se_config !! _) with (Some (ex_stored_value ex_apps 0)) by vm_refl.
  split; [reflexivity|].
  exists [Z.pos (encode (app_info_to <$> ex_apps : gmap bytes app_info_code))].
  rewrite decide_False by done. split; vm_refl.
Qed.

Lemma se_queue_is :
  config_is ex_auth_client (T := RevocationQueue) KEY_APP_REVOCATION_QUEUE se_view None [].
Proof.
  exists se_config. split; [held|]. unfold entry_is.
  replace (slot_entries se_config !! _) with (@None MDataSeqValue) by vm_refl. by split.
Qed.

Lemma se_root_is : container_entry ex_auth_client se_dirs 0 (slot_entries se_access).
Proof.
  exists se_root_key. split; [vm_refl|]. unfold entry_at.
  replace (slot_entries se_access !! _)
    with (Some {| seq_data := se_text se_dirs ex_sk; seq_version := 0 |}) by vm_refl.
  split; [reflexivity|vm_refl].
Qed.

Lemma se_entry_is : entry_at [7%Z] se_app_key (slot_entries se_access) (Some (4%Z, se_entry)).
Proof.
  unfold entry_at. replace (slot_entries se_access !! _)
    with (Some {| seq_data := se_text se_entry [7%Z]; seq_version := 4 |}) by vm_refl.
  split; [reflexivity|vm_refl].
Qed.

Lemma se_music_grantable : grantable se_view se_music.
Proof.
  split; [reflexivity|]. exists se_container. split; [held|].
  cbn [slot_version se_container]. unfold u64_modulus. lia.
Qed.

Lemma se_entry_at name i a : se_entry !! name = Some (i, a) -> name = "_music" /\ i = se_music.
Proof. unfold se_entry. rewrite lookup_singleton_Some. intros [<- [= <- _]]. by split. Qed.

Lemma se_revocable : revocable ex_auth_client (se_at 71) se_view se_access se_app se_app_key 4 se_entry.
Proof.
  split.
  - held.
  - cbn [slot_version se_access]. unfold u64_modulus. lia.
  - unfold app_key; vm_refl.
  - exact se_entry_is.
  - unfold u64_modulus. lia.
  - by eexists.
  - cbn [ov_keys_version se_view]. unfold u64_modulus. lia.
  - intros name i a [-> ->]%se_entry_at. split; [exact se_music_grantable|]. split; unfold se_at; by intros [=].
  - by intros name name' i i' a a' [-> _]%se_entry_at [-> _]%se_entry_at _.
Qed.

(** A request for one container and the container of the app's own. *)
Definition se_req (name : string) : AuthReq :=
  {| req_app := info (ex_app_info name 0); req_app_container := true; req_app_permissions := ex_perms;
     req_containers := {[ "_music" := {[ PRead; PInsert ]} ]} |}.

Lemma se_names name : (hash_iter (req_containers (se_req name))).*1 = ["_music"].
Proof. cbn [hash_iter ModelAuth req_containers se_req]. by rewrite map_to_list_singleton. Qed.

Lemma se_drawn_vacant r : vacant se_view (drawn_at r).
Proof.
  assert (forall k, se_at k <> drawn_at r) as Hne by (intros k; unfold se_at, drawn_at, ex_name; by intros [=]).
  split.
  - cbn [ov_data se_view]. by rewrite !lookup_insert_ne, lookup_empty.
  - cbn [ov_free se_view cache se_vault nae_manager].
    assert (forall k, addr_id (se_at k) <> addr_id (drawn_at r)) as Hne'.
    { intros k Heq. by apply (Hne k), addr_id_inj. }
    by rewrite !lookup_insert_ne, lookup_empty.
Qed.

Lemma se_grant_ready name r : name <> "" -> grant_ready ex_auth_client (se_at 71) se_view se_access se_dirs 0 (se_req name) r.
Proof.
  intros Hname. unfold grant_ready. rewrite se_names.
  assert (se_dirs !! "_music" = Some se_music) as Hm by apply lookup_singleton_eq.
  assert (forall k, k ∈ ["_music"] -> k = "_music") as Hin by (by intros k ->%list_elem_of_singleton).
  split; [split|split; [|split]].
  - held.
  - cbn [slot_version se_access]. unfold u64_modulus. lia.
  - exact se_root_is.
  - unfold u64_modulus. lia.
  - cbn [ov_keys_version se_view]. unfold u64_modulus. lia.
  - exists se_config. vm_refl.
  - intros k ->%Hin. exists se_music. split; [done|exact se_music_grantable].
  - intros k i ->%Hin. rewrite Hm. intros [= <-]. split; unfold se_at; by intros [=].
  - by intros k k' i i' ->%Hin ->%Hin _ _ _.
  - intros _. assert (app_container_name (app_id (req_app (se_req name))) <> "_music") as Hown by done.
    assert (se_dirs !! app_container_name (app_id (req_app (se_req name))) = None) as Hno
      by (by apply lookup_singleton_ne).
    split; [by intros ?%Hin|]. split.
    + intros k k' i i' [->|Hk]%elem_of_cons [->|Hk']%elem_of_cons; rewrite ?Hno; try done.
      by rewrite (Hin _ Hk), (Hin _ Hk').
    + intros r' _. unfold container_ready. rewrite Hno. apply se_drawn_vacant.
  - by eexists.
Qed.

(** ** The key of the entry of an app *)

Lemma se_unused name sk key :
  AccessContainer.enc_key ex_access name sk = Ok key ->
  key <> se_root_key -> key <> se_app_key ->
  exists k, AccessContainer.enc_key ex_access name sk = Ok k /\ slot_entries se_access !! k = None /\
    ~ is_root_key ex_auth_client k.
Proof.
  intros Hkey H1 H2. exists key. split_and!; [done| |].
  - cbn [slot_entries se_access]. by rewrite lookup_insert_ne, lookup_singleton_ne.
  - unfold is_root_key. intros Heq. apply H1.
    assert (AccessContainer.enc_key ex_access AUTHENTICATOR_ENTRY ex_sk = Ok se_root_key) as Hr by vm_refl.
    change (AccessContainer.enc_key ex_access AUTHENTICATOR_ENTRY ex_sk = Ok key) in Heq. congruence.
Qed.

Lemma se_new_key_unused i ks i' : app_keys_new (1%Z : ClientPublicId) i = Ret ks i' ->
  key_unused ex_auth_client {| info := req_app (se_req "new"); keys := ks |} se_access.
Proof.
  unfold app_keys_new, bind. simpl. intros [= <- _].
  eapply (se_unused "new"); [reflexivity|..]; intros Heq; by vm_compute in Heq.
Qed.

Lemma se_old_key_unused : key_unused ex_auth_client se_old se_access.
Proof. apply (se_unused "old" [8%Z] se_old_key); [vm_refl|..]; intros Heq; by vm_compute in Heq. Qed.

(** * The theorems at work *)


Example revocation_undoes_grant_witness :
  exists s' v' d', revoke_app 1 2 ex_auth_client "app" se_state = Ret tt s' /\
    shows (OwnNet := MockOwnNet ex_full_id) v' (inner s') /\
    ov_keys v' = delete (ex_key 7) (ov_keys se_view) /\ holds v' (se_at 71) d' /\
    slot_perms d' = delete (ex_key 7) (slot_perms se_access) /\ slot_entries d' !! se_app_key = None.
Proof.
  destruct (revocation_undoes_grant ex_auth_client (own := MockOwnNet ex_full_id) (se_at 71) eq_refl ltac:(discriminate)
    0 0 se_view (Some 0%Z) ex_apps None se_access se_app se_app_key 4 se_entry se_state)
    as (s' & v' & d' & H1 & H2 & _ & _ & H3 & H4 & H5 & H6 & _).
  - exact se_shown.
  - exact se_apps_are.
  - exact se_queue_is.
  - exact I.
  - cbn [next_version]. unfold u64_modulus. lia.
  - vm_refl.
  - exact se_revocable.
  - exact (ex_intro _ s' (ex_intro _ v' (ex_intro _ d' (conj H1 (conj H2 (conj H3 (conj H4 (conj H5 H6)))))))).
Defined.

Example revoked_app_granted_again_witness :
  exists s' v' granted, authenticate 1 ex_auth_client (se_req "old") se_state = Ret granted s' /\
    shows (OwnNet := MockOwnNet ex_full_id) v' (inner s') /\ granted_keys granted = keys se_old /\
    snd <$> granted_entry granted = asked_permissions (se_req "old").
Proof.
  destruct (revoked_app_granted_again ex_auth_client (own := MockOwnNet ex_full_id) (se_at 71) eq_refl ltac:(discriminate)
    1 se_view se_access se_dirs 0 (se_req "old") (Some 0%Z) ex_apps None [] se_old tt se_state)
    as (s' & v' & granted & H1 & H2 & H3 & H4 & _).
  - exact se_shown.
  - exact se_apps_are.
  - exact se_queue_is.
  - set_solver.
  - reflexivity.
  - vm_refl.
  - exact se_old_key_unused.
  - reflexivity.
  - intros r _. by apply se_grant_ready.
  - exact (ex_intro _ s' (ex_intro _ v' (ex_intro _ granted (conj H1 (conj H2 (conj H3 H4)))))).
Defined.
