(* ===== verification/AuthIpc.v ===== *)
(** Requests of apps as the authenticator handles them ([safe_authenticator/src/ipc.rs])
    and its C interface ([ffi/ipc.rs], [ffi/apps.rs], [ffi/mod.rs]).

    A function of the C interface that runs in the event loop is a computation on the
    state of the client; what it passes to its callback is the result, and [Fail e]
    stands for the callback with the code and the text of [e] and nothing else. *)
From Stdlib Require Import Ascii.
From S2P Require Import Prelude SafeNd SafeNdModel MockAccount CoreTypes ClientApi Recovery.
From S2P Require Import MDataInfo AuthTypes AuthConfig AccessContainer Revocation AppAuth AuthErrors Ipc.
From S2P Require Import AccountPacket AuthLogin StdDirs.

(** [str::from_utf8]: the well-formed sequences of bytes. *)
Definition utf8_tail (b : nat) : bool := (128 <=? b)%nat && (b <=? 191)%nat.
Definition between (lo b hi : nat) : bool := (lo <=? b)%nat && (b <=? hi)%nat.
Fixpoint utf8_valid (l : list nat) : bool :=
  match l with
  | [] => true
  | b1 :: l1 =>
      if (b1 <? 128)%nat then utf8_valid l1
      else if between 194 b1 223 then
        match l1 with b2 :: l2 => utf8_tail b2 && utf8_valid l2 | [] => false end
      else if between 224 b1 239 then
        match l1 with
        | b2 :: b3 :: l3 =>
            (if (b1 =? 224)%nat then between 160 b2 191
             else if (b1 =? 237)%nat then between 128 b2 159 else utf8_tail b2) &&
            utf8_tail b3 && utf8_valid l3
        | _ => false
        end
      else if between 240 b1 244 then
        match l1 with
        | b2 :: b3 :: b4 :: l4 =>
            (if (b1 =? 240)%nat then between 144 b2 191
             else if (b1 =? 244)%nat then between 128 b2 143 else utf8_tail b2) &&
            utf8_tail b3 && utf8_tail b4 && utf8_valid l4
        | _ => false
        end
      else false
  end.

(** [CStr::to_str], with [From<Utf8Error> for AuthError]. *)
Definition string_bytes (s : string) : list nat := map nat_of_ascii (String.list_ascii_of_string s).

(** The order in which the futures of a [buffer_unordered] complete; [None] when the
    stream never ends. *)
Class FuturesExt := { completion {X : Type} : nat -> list X -> option (list X) }.
Class FuturesLaws `{!FuturesExt} := {
  completion_perm {X} max (l : list X) :
    (0 < max)%nat -> exists l', completion max l = Some l' /\ l' ≡ₚ l;
}.

Section auth_ipc.
Context `{ndt : !NdTypes, ndo : !NdOps, core : !CoreExt, lru : !LruOps, cr : !Crypto}.
Context `{auth : !AuthExt, aa : !AppAuthExt, ffi : !FfiUtils, ipc : !IpcExt, fut : !FuturesExt}.
Context {W : Type} `{net : !Network W}.
Context `{sapps : !Serial Apps, squeue : !Serial RevocationQueue}.
Context `{sdirs : !Serial (gmap string MDataInfo), sentry : !Serial AccessContainerEntry}.
Context `{smsg : !Serial (IpcMsg * bool), smeta : !Serial UserMetadata} (mock_network : bool).
Context (config_fuel : nat).
Context `{ctxt : !CoreTexts, atxt : !AuthTexts}.
Abbreviation A T := (M (AuthState (W := W)) AuthError T).
Abbreviation R T := (result T AuthError).

Definition to_str (s : string) : R string :=
  if utf8_valid (string_bytes s) then Ok s else Err AuthEncodeDecodeError.

Definition try_ipc {T} (r : result T IpcError) : R T :=
  match r with Ok t => Ok t | Err e => Err (auth_from_ipc e) end.

(** * Messages *)

Definition encode_response (msg : IpcMsg) : result string IpcError :=
  let? resp := encode_msg mock_network msg in
  match CString_new resp with
  | Ok c => Ok c
  | Err e => Err (IpcStringError (string_error_from_nul e))
  end.

(** The code and the text of an error, and the message for the app. *)
Definition decode_ipc_msg (client : AuthClient) (msg : IpcMsg) :
    A (result IpcMsg (Z * string * string)) :=
  match msg with
  | MReq req_id (ReqAuth auth_req) => ret (Ok (MReq req_id (ReqAuth auth_req)))
  | MReq req_id (ReqUnregistered extra_data) => ret (Ok (MReq req_id (ReqUnregistered extra_data)))
  | MReq req_id (ReqShareMData share_mdata_req) => ret (Ok (MReq req_id (ReqShareMData share_mdata_req)))
  | MReq req_id (ReqContainers cont_req) =>
      let! (_, config) := list_apps client in
      let! app_state := app_state client config (app_id (creq_app cont_req)) in
      match app_state with
      | Authenticated => ret (Ok (MReq req_id (ReqContainers cont_req)))
      | Revoked | NotAuthenticated =>
          let error := auth_from_ipc UnknownApp in
          let! resp := lift_result (try_ipc (encode_response (MResp req_id (RespAuth (Err UnknownApp))))) in
          ret (Err (auth_error_code error, auth_error_display error, resp))
      end
  | MResp _ _ | MRevoked _ | MErr _ => fail (AuthIpcError InvalidMsg)
  end.

Inductive ShareMDataError :=
| ShareInvalidOwner (name : XorName) (type_tag : Z)
| ShareInvalidMetadata.

Definition share_md_response (metadata : UserMetadata) (name : XorName) (type_tag : Z) :
    result MetadataResponse ShareMDataError :=
  match into_md_response metadata name type_tag with
  | Ok meta => Ok meta
  | Err _ => Err ShareInvalidMetadata
  end.

(** The metadata of one piece of mutable data, once its shell is there. *)
Definition share_metadata (client : AuthClient) (name : XorName) (type_tag : Z) (shell : SeqMutableData) :
    A (result MetadataResponse ShareMDataError) :=
  if decide (mdata_owner (MDSeq shell) = owner_key (ac_client client)) then
    let! res := attempt (on_inner (get_seq_mdata_value (ac_client client) name type_tag METADATA_KEY)) in
    match res with
    | Ok value =>
        ret match deserialize_of (seq_data value) with
            | Ok metadata => share_md_response metadata name type_tag
            | Err _ => Err ShareInvalidMetadata
            end
    | Err (DataError NoSuchEntry) =>
        ret (share_md_response {| um_name := None; um_description := None |} name type_tag)
    | Err error => fail (AuthCoreError error)
    end
  else ret (Err (ShareInvalidOwner name type_tag)).

(** The results, sorted into metadata and data that is someone else's. *)
Definition sort_metadata (results : list (result MetadataResponse ShareMDataError)) :
    list (option MetadataResponse) * list (XorName * Z) :=
  foldl (fun '(metadata_cont, invalids) result =>
      match result with
      | Ok metadata => (metadata_cont ++ [Some metadata], invalids)
      | Err ShareInvalidMetadata => (metadata_cont ++ [None], invalids)
      | Err (ShareInvalidOwner name type_tag) => (metadata_cont, invalids ++ [(name, type_tag)])
      end) ([], []) results.

Definition decode_share_mdata_req (client : AuthClient) (req : ShareMDataReq) :
    A (list (option MetadataResponse)) :=
  let! futures := start_all (fun mdata =>
      on_inner (get_seq_mdata_shell (ac_client client) (sm_name mdata) (sm_type_tag mdata)))
    (smr_mdata req) in
  let! results := fold_m (fun results '(mdata, shell) =>
      let! shell := from_core (lift_result shell) in
      let! r := share_metadata client (sm_name mdata) (sm_type_tag mdata) shell in
      ret (results ++ [r])) (zip (smr_mdata req) futures) [] in
  let '(metadata_cont, invalids) := sort_metadata results in
  if bool_decide (invalids = []) then ret metadata_cont
  else fail (AuthIpcError (InvalidOwner invalids)).

(** * Decoding requests *)

(** The callbacks of [auth_decode_ipc_msg]; an error that comes with a message for the
    app is [QErr]. *)
Inductive Query :=
| QAuth (req_id : Z) (req : FfiAuthReq)
| QContainers (req_id : Z) (req : FfiContainersReq)
| QUnregistered (req_id : Z) (extra_data : bytes)
| QShareMData (req_id : Z) (req : FfiShareMDataReq) (metadata : list MetadataResponse)
| QErr (error_code : Z) (description response : string).

Definition auth_unregistered_decode_ipc_msg (msg : string) : R Query :=
  let? msg_raw := to_str msg in
  let? msg := try_ipc (decode_msg mock_network msg_raw) in
  match msg with
  | MReq req_id (ReqUnregistered extra_data) => Ok (QUnregistered req_id extra_data)
  | _ => Err (AuthCoreError OperationForbidden)
  end.

(** [NativeResult::into_repr_c]: the text of an error as a C string. *)
Definition native_description (description : string) : R string :=
  match CString_new description with
  | Ok c => Ok c
  | Err e => Err (auth_from_string_error (string_error_from_nul e))
  end.

Definition auth_decode_ipc_msg (client : AuthClient) (msg : string) : A Query :=
  let! msg_raw := lift_result (to_str msg) in
  let! msg := lift_result (try_ipc (decode_msg mock_network msg_raw)) in
  let! decoded := decode_ipc_msg client msg in
  match decoded with
  | Ok (MReq req_id (ReqAuth auth_req)) =>
      let! repr_c := lift_result (try_ipc (auth_req_into_repr_c auth_req)) in
      ret (QAuth req_id repr_c)
  | Ok (MReq req_id (ReqContainers cont_req)) =>
      let! repr_c := lift_result (try_ipc (containers_req_into_repr_c cont_req)) in
      ret (QContainers req_id repr_c)
  | Ok (MReq req_id (ReqUnregistered extra_data)) => ret (QUnregistered req_id extra_data)
  | Ok (MReq req_id (ReqShareMData share_mdata_req)) =>
      let! metadata_cont := decode_share_mdata_req client share_mdata_req in
      let! repr_c := lift_result (try_ipc (share_mdata_req_into_repr_c share_mdata_req)) in
      ret (QShareMData req_id repr_c (map (default metadata_response_invalid) metadata_cont))
  | Err (error_code, description, err) =>
      let! description := lift_result (native_description description) in
      ret (QErr error_code description err)
  | Ok (MResp _ _) | Ok (MRevoked _) | Ok (MErr _) => fail (AuthUnexpected "Unexpected msg type")
  end.

(** * Answering requests *)

(** The callback of the functions that answer: an error, if any, and the message for
    the app.  [Unanswered]: the callback is never called. *)
Inductive Reply :=
| Responded (error : option (Z * string)) (response : string)
| Unanswered.

Definition respond (req_id : Z) (resp : IpcResp) : R Reply :=
  let? resp := try_ipc (encode_response (MResp req_id resp)) in
  Ok (Responded None resp).

(** The [or_else] of the answers: the error goes to the caller and into the message. *)
Definition respond_error (req_id : Z) (wrap : IpcError -> IpcResp) (e : AuthError) : R Reply :=
  let? resp := try_ipc (encode_response (MResp req_id (wrap (auth_into_ipc e)))) in
  let? description := native_description (auth_error_display e) in
  Ok (Responded (Some (auth_error_code e, description)) resp).

Definition encode_unregistered_resp (req_id : Z) (is_granted : bool) : R Reply :=
  if negb is_granted then respond req_id (RespUnregistered (Err AuthDenied))
  else
    let? bootstrap_cfg := core_result bootstrap_config in
    respond req_id (RespUnregistered (Ok bootstrap_cfg)).

Definition encode_auth_resp (client : AuthClient) (req : FfiAuthReq) (req_id : Z) (is_granted : bool) :
    A Reply :=
  let! auth_req := lift_result (try_ipc (auth_req_clone_from_repr_c req)) in
  if negb is_granted then lift_result (respond req_id (RespAuth (Err AuthDenied)))
  else
    or_else
      (let! auth_granted := authenticate config_fuel client auth_req in
       lift_result (respond req_id (RespAuth (Ok auth_granted))))
      (fun e => lift_result (respond_error req_id (fun e => RespAuth (Err e)) e)).

(** The entry of an app once its permissions are updated: what was granted before
    stays, and what is granted now replaces it. *)
Definition merged_entry (existing_perms perms : AccessContainerEntry) : AccessContainerEntry :=
  foldl (fun entry '(key, val) => <[key := val]> entry) existing_perms (hash_iter perms).

Definition grant_containers (client : AuthClient) (app_id : string)
    (permissions : gmap string ContainerPermissions) : A unit :=
  let! app := get_app client app_id in
  let app_pk := app_keys_public_key (keys app) in
  let! perms := update_container_perms client permissions app_pk in
  let app_keys := keys app in
  let! (version_, perms) :=
    let! (version_, entry) := fetch_entry client app_id app_keys in
    match entry with
    | Some existing_perms => ret (u64_add version_ 1, merged_entry existing_perms perms)
    | None => ret (0%Z, perms)
    end in
  put_entry client app_id app_keys perms version_.

Definition encode_containers_resp (client : AuthClient) (req : FfiContainersReq) (req_id : Z)
    (is_granted : bool) : A Reply :=
  let! cont_req := lift_result (try_ipc (containers_req_clone_from_repr_c req)) in
  if negb is_granted then lift_result (respond req_id (RespContainers (Err AuthDenied)))
  else
    or_else
      (or_else
        (grant_containers client (app_id (creq_app cont_req)) (creq_containers cont_req) ;!
         lift_result (respond req_id (RespContainers (Ok tt))))
        (fun e => lift_result (respond_error req_id (fun e => RespContainers (Err e)) e)))
      (fun _ => ret Unanswered).

(** A stream that never ends. *)
Definition never {S E T} : M S E T := fun s => Pending s.

(** The futures of a [buffer_unordered], in the order of their completion. *)
Definition completed {S E X} (max : nat) (l : list X) : M S E (list X) :=
  match completion max l with Some l => ret l | None => never end.

(** Every shell is asked for, and for each that arrives the permissions are set, before
    the results of the settings are looked at. *)
Definition share_mdata (client : AuthClient) (user : PublicKey) (mdata : list ShareMData) : A unit :=
  let num_mdata := length mdata in
  let! shells := start_all (fun m =>
      let! md := on_inner (get_seq_mdata_shell (ac_client client) (sm_name m) (sm_type_tag m)) in
      ret (mdata_version (MDSeq md), m)) mdata in
  let! shells := completed num_mdata shells in
  let! settings := fold_m (fun settings shell =>
      let! (version_, m) := from_core (lift_result shell) in
      let! setting := attempt (on_inner (ClientApi.set_mdata_user_permissions (ac_client client)
        (MSeq (sm_name m) (sm_type_tag m)) user (sm_perms m) (u64_add version_ 1))) in
      ret (settings ++ [setting])) shells [] in
  let! settings := completed num_mdata settings in
  for_each settings (fun setting => from_core (lift_result setting)).

Definition encode_share_mdata_resp (client : AuthClient) (req : FfiShareMDataReq) (req_id : Z)
    (is_granted : bool) : A Reply :=
  let! share_mdata_req := lift_result (try_ipc (share_mdata_req_clone_from_repr_c req)) in
  if negb is_granted then lift_result (respond req_id (RespShareMData (Err ShareMDataDenied)))
  else
    let! app_info := get_app client (app_id (smr_app share_mdata_req)) in
    share_mdata client (app_keys_public_key (keys app_info)) (smr_mdata share_mdata_req) ;!
    lift_result (respond req_id (RespShareMData (Ok tt))).

(** * Revocation and the list of apps *)

Definition c_string (s : option string) : R string :=
  match string_clone_from_repr_c s with Ok s => Ok s | Err e => Err (auth_from_string_error e) end.

(** [revocation_fuel] bounds the flush of the queue. *)
Definition auth_revoke_app (revocation_fuel : nat) (client : AuthClient) (app_id : option string) :
    A string :=
  let! app_id := lift_result (c_string app_id) in
  revoke_app config_fuel revocation_fuel client app_id ;!
  lift_result (try_ipc (encode_response (MRevoked app_id))).

Definition auth_flush_app_revocation_queue (revocation_fuel : nat) (client : AuthClient) : A unit :=
  flush_app_revocation_queue config_fuel revocation_fuel client.

Definition auth_rm_revoked_app (client : AuthClient) (app_id : option string) : A unit :=
  let! app_id := lift_result (c_string app_id) in
  remove_revoked_app config_fuel client app_id.

Definition auth_revoked_apps (client : AuthClient) : A (list FfiAppExchangeInfo) :=
  let! apps := list_revoked client in
  lift_result (try_ipc (collect_r app_exchange_info_into_repr_c apps)).

Record FfiRegisteredApp := {
  fra_app_info : FfiAppExchangeInfo;
  fra_containers : RawVec FfiContainerPermissions;
  fra_containers_len : nat;
}.

Definition registered_app_into_repr_c (app : RegisteredApp) : result FfiRegisteredApp IpcError :=
  let? container_permissions_vec := from_nul (containers_into_vec (hash_iter (reg_containers app))) in
  let '(containers_ptr, containers_len) := vec_into_raw_parts container_permissions_vec in
  let? app_info := app_exchange_info_into_repr_c (reg_info app) in
  Ok {| fra_app_info := app_info; fra_containers := containers_ptr; fra_containers_len := containers_len |}.

Definition registered_app_clone_from_repr_c (c : FfiRegisteredApp) : result RegisteredApp IpcError :=
  let? app_info := app_exchange_info_clone_from_repr_c (fra_app_info c) in
  let? containers := containers_from_repr_c (fra_containers c) (fra_containers_len c) in
  Ok {| reg_info := app_info; reg_containers := containers |}.

Definition auth_registered_apps (client : AuthClient) : A (list FfiRegisteredApp) :=
  let! registered_apps := list_registered client in
  lift_result (try_ipc (collect_r registered_app_into_repr_c registered_apps)).

Definition auth_apps_accessing_mutable_data (client : AuthClient) (md_name : bytes) (md_type_tag : Z) :
    A (list FfiAppAccess) :=
  let! apps_with_access := apps_accessing_mutable_data client (MkXorName md_name) md_type_tag in
  lift_result (try_ipc (collect_r app_access_into_repr_c apps_with_access)).
End auth_ipc.

(** * Creating and opening accounts *)

Section accounts.
Context `{ndt : !NdTypes, ndo : !NdOps, core : !CoreExt, lru : !LruOps, cr : !Crypto}.
Context `{auth : !AuthExt, aa : !AppAuthExt, ffi : !FfiUtils, aext : !AccountExt, sacc : !Serial Account}.
Context {W : Type} `{net : !Network W} `{sdirs : !Serial (gmap string MDataInfo)}.
Context `{ctxt : !CoreTexts, atxt : !AuthTexts}.
(** [Coins::from_str]. *)
Context (coins_from_str : string -> option Coins).

(** The balance is made by a client of its own, the [unwrap]s panic. *)
Definition create_acc (account_locator account_password : option string) :
    M (Boot W) AuthError (Session W) :=
  let! acc_locator := lift_result (c_string account_locator) in
  let! acc_password := lift_result (c_string account_password) in
  let! client_id_ := on_boot_rng (fun i => Ret (client_new_bls_at i) (S i)) in
  let! ten := unwrap (coins_from_str "10") in
  or_else (on_cm (test_create_balance client_id_ ten)) (fun _ => panic) ;!
  StdDirs.create_acc acc_locator acc_password client_id_.

Definition login (account_locator account_password : option string) :
    M (Boot W) AuthError (Session W) :=
  let! acc_locator := lift_result (c_string account_locator) in
  let! acc_password := lift_result (c_string account_password) in
  StdDirs.login acc_locator acc_password.

Definition auth_is_mock (mock_network : bool) : bool := mock_network.
End accounts.
