(* ===== verification/AuthIpcProofs.v ===== *)
(** The conversation of an app with the authenticator, through the C interfaces of both,
    and the requests for shared mutable data. *)
From Stdlib Require Import Ascii.
From S2P Require Import Prelude SafeNd SafeNdModel MockAccount MockVaultSpec.
From S2P Require Import MockConnection CoreTypes ClientApi Recovery MDataInfo.
From S2P Require Import MDataInfoProofs AuthTypes AuthConfig AccessContainer Revocation.
From S2P Require Import AuthModel AppAuth AppErrors AuthErrors Ipc.
From S2P Require Import IpcProofs IpcModel SelfEncryption Nfs AccountPacket AuthLogin.
From S2P Require Import AppObjects AppFfi StdDirs AuthIpc MockStore MockShared.
From S2P Require Import MockClient RecoveryProofs RecoveryRepair SeqStore.
From S2P Require Import AuthConfigProofs AccessContainerProofs.

(** Base32 is plain text. *)
Class Base32Text `{!NdTypes, !CoreExt, !AuthExt, !IpcExt} := base32_text b :
  Forall (fun n => 0 < n < 128) (string_bytes (base32_encode b)).

(** * Text *)

Lemma utf8_valid_ascii l : Forall (fun n => 0 < n < 128) l -> utf8_valid l = true.
Proof.
  induction 1 as [|n l Hn Hl IH]; simpl; [done|].
  rewrite (proj2 (Nat.ltb_lt n 128)) by lia. done.
Qed.

Lemma has_nul_ascii s : Forall (fun n => 0 < n < 128) (string_bytes s) -> has_nul s = false.
Proof.
  induction s as [|a s IH]; intros Hs; simpl; [done|].
  apply list.Forall_cons in Hs as [Ha Hs]. rewrite IH by done.
  rewrite bool_decide_eq_false_2; [done|]. intros ->. exact (Nat.lt_irrefl 0 (proj1 Ha)).
Qed.

Section text.
Context `{ndt : !NdTypes, core : !CoreExt, cr : !Crypto, auth : !AuthExt}.
Context `{aa : !AppAuthExt, ffi : !FfiUtils, ipc : !IpcExt, ipcl : !IpcExtLaws, b32 : !Base32Text}.
Context `{smsg : !Serial (IpcMsg * bool), smsgl : !SerialLaws (IpcMsg * bool)}.

(** Every message is a C string that is read back. *)
Lemma message_text (mock : bool) (msg : IpcMsg) :
  exists text, encode_msg mock msg = Ok text /\ encode_response mock msg = Ok text /\
    CString_new text = Ok text /\ to_str text = Ok text /\ decode_msg mock text = Ok msg.
Proof.
  destruct (ipc_msg_roundtrip mock msg) as (t & He & Hd & _).
  assert (Forall (fun n => 0 < n < 128) (string_bytes (String.append "b" t))) as Hplain.
  { revert He. unfold encode_msg. destruct (ipc_serialisation _) as [b|]; simpl; [|done].
    intros [= Ht]. change (base32_encode b = t) in Ht. rewrite <-Ht.
    constructor; [unfold nat_of_ascii; simpl; lia|]. apply base32_text. }
  set (text := String.append "b" t) in *. exists text.
  assert (CString_new text = Ok text) as Hc
    by (unfold CString_new; by rewrite (has_nul_ascii _ Hplain)).
  split_and!; [done| |done| |done].
  - unfold encode_response. rewrite He. cbn [rbind]. by rewrite Hc.
  - unfold to_str. by rewrite (utf8_valid_ascii _ Hplain).
Qed.
End text.

(** What was read from C has a permission for each container. *)
Section cloned.
Context `{ndt : !NdTypes, core : !CoreExt, auth : !AuthExt, aa : !AppAuthExt, ffi : !FfiUtils}.

Lemma perms_from_repr_c_nonempty c a : container_perms_from_repr_c c = Ok a -> a <> ∅.
Proof. unfold container_perms_from_repr_c. case_decide; [done|]. by intros [= <-]. Qed.

Lemma containers_from_repr_c_nonempty raw len m :
  containers_from_repr_c raw len = Ok m -> map_Forall (fun _ a => a <> ∅) m.
Proof.
  unfold containers_from_repr_c, collect_map_r.
  assert (map_Forall (fun _ a => a <> ∅) (∅ : gmap string ContainerPermissions)) as H0
    by apply map_Forall_empty.
  revert H0. generalize (∅ : gmap string ContainerPermissions) as acc.
  induction (vec_clone_from_raw_parts raw len) as [|c l IH]; intros acc Hacc; simpl; [by intros [= <-]|].
  destruct (string_from_raw _) as [name|]; simpl; [|done].
  destruct (container_perms_from_repr_c _) as [a|] eqn:Ha; simpl; [|done].
  apply IH, map_Forall_insert_2; [by eapply perms_from_repr_c_nonempty|done].
Qed.

Lemma auth_req_cloned_nonempty c req :
  auth_req_clone_from_repr_c c = Ok req -> map_Forall (fun _ a => a <> ∅) (req_containers req).
Proof.
  unfold auth_req_clone_from_repr_c. destruct (app_exchange_info_clone_from_repr_c _); simpl; [|done].
  destruct (containers_from_repr_c _ _) as [m|] eqn:Hm; simpl; [|done].
  intros [= <-]. by eapply containers_from_repr_c_nonempty.
Qed.
End cloned.

(** * A conversation *)

Section conversation.
Context `{ndt : !NdTypes, ndo : !NdOps, core : !CoreExt, lru : !LruOps, cr : !Crypto}.
Context `{auth : !AuthExt, authl : !AuthExtLaws, aa : !AppAuthExt, ffi : !FfiUtils, ffil : !FfiUtilsLaws}.
Context `{ipc : !IpcExt, ipcl : !IpcExtLaws, b32 : !Base32Text, fut : !FuturesExt}.
Context {W : Type} `{net : !Network W}.
Context `{sapps : !Serial Apps, squeue : !Serial RevocationQueue}.
Context `{sdirs : !Serial (gmap string MDataInfo), sentry : !Serial AccessContainerEntry}.
Context `{smsg : !Serial (IpcMsg * bool), smsgl : !SerialLaws (IpcMsg * bool), smeta : !Serial UserMetadata}.
Context `{sfull : !Serial AppFullId, ssk : !Serial EncSecretKey, sboot : !Serial BootstrapConfig}.
Context `{sfulll : !SerialLaws AppFullId, sskl : !SerialLaws EncSecretKey, sbootl : !SerialLaws BootstrapConfig}.
Context (mock : bool) (config_fuel : nat).
Context `{ctxt : !CoreTexts, atxt : !AuthTexts}.

Abbreviation AS := (AuthState (W := W)).
Abbreviation answer_of := (AppFfi.decode_ipc_msg mock).
Abbreviation answer_auth := (encode_auth_resp mock config_fuel).

(** A text without a zero byte arrives as it is. *)
Lemma native_description_ok text : has_nul text = false -> native_description text = Ok text.
Proof using Type. intros Ht. unfold native_description, CString_new. by rewrite Ht. Qed.

Lemma error_answer_ok req_id e :
  has_nul (app_error_display e) = false ->
  error_answer req_id e = Ok (OErr (AppErrors.error_code e) (app_error_display e) req_id).
Proof using Type. intros Ht. unfold error_answer, CString_new. by rewrite Ht. Qed.

(** An answer, sent and read. *)
Lemma answer_read msg :
  exists text, encode_response mock msg = Ok text /\
    answer_of (Some text) = decode_ipc_msg_impl msg.
Proof using ffil ipcl b32 smsgl.
  destruct (message_text mock msg) as (text & _ & He & _ & _ & Hd). exists text. split; [done|].
  unfold AppFfi.decode_ipc_msg. rewrite string_clone_spec. cbn [map_err_r rbind].
  by rewrite Hd.
Qed.

(** What the app hears of a failed request. *)
Definition heard_error (e : AuthError) : AppError := app_from_ipc (auth_into_ipc e).

Lemma failure_heard req_id e :
  has_nul (auth_error_display e) = false ->
  exists text, respond_error mock req_id (fun e => RespAuth (Err e)) e =
      Ok (Responded (Some (auth_error_code e, auth_error_display e)) text) /\
    answer_of (Some text) = error_answer req_id (heard_error e).
Proof using ffil ipcl b32 smsgl.
  intros Ht. destruct (answer_read (MResp req_id (RespAuth (Err (auth_into_ipc e))))) as (text & He & Hd).
  exists text. split.
  - unfold respond_error. rewrite He. cbn [try_ipc rbind]. by rewrite native_description_ok by done.
  - by rewrite Hd.
Qed.

Lemma grant_heard req_id g :
  exists text, respond mock req_id (RespAuth (Ok g)) = Ok (Responded None text) /\
    match auth_granted_into_repr_c g with
    | Ok r => answer_of (Some text) = Ok (OAuth req_id r) /\
        (map_Forall (fun _ v => v.2 <> ∅) (granted_entry g) -> auth_granted_clone_from_repr_c r = Ok g)
    | Err _ => ~ names_ok (granted_entry g)
    end.
Proof using All.
  destruct (answer_read (MResp req_id (RespAuth (Ok g)))) as (text & He & Hd).
  exists text. split; [unfold respond; by rewrite He|].
  pose proof (auth_granted_repr_roundtrip g) as Hr. simpl in Hd.
  destruct (auth_granted_into_repr_c g) as [r|e]; [|done]. destruct Hr as [_ Hr].
  split; [by rewrite Hd|]. intros Hne. by rewrite Hr, decide_True.
Qed.

(** C14: an app asks to be authorised through its C interface; the request reaches the
    authenticator's callback as it was made; and whatever is decided, and whatever
    comes of it, the answer the app reads is that of this request: the denial, the
    grant, or the error that occurred, with its code and text, unless the text has a
    zero byte, which no C string can carry. *)
Theorem auth_conversation (drawn : Z) (c_req : FfiAuthReq) (req : AuthReq) (client : AuthClient) (s : AS) :
  auth_req_clone_from_repr_c c_req = Ok req ->
  app_strings_ok (req_app req) = true -> names_ok (req_containers req) ->
  exists text c, encode_auth_req mock drawn c_req = Ok (gen_req_id drawn, text) /\
    auth_decode_ipc_msg mock client text s = Ret (QAuth (gen_req_id drawn) c) s /\
    auth_req_clone_from_repr_c c = Ok req /\
    (exists answer, answer_auth client c (gen_req_id drawn) false s = Ret (Responded None answer) s /\
       answer_of (Some answer) =
         Ok (OErr (AppErrors.error_code (AppIpcError AuthDenied)) "IPC error: AuthDenied" (gen_req_id drawn))) /\
    match authenticate config_fuel client req s with
    | Ret g s' => exists answer,
        answer_auth client c (gen_req_id drawn) true s = Ret (Responded None answer) s' /\
        match auth_granted_into_repr_c g with
        | Ok r => answer_of (Some answer) = Ok (OAuth (gen_req_id drawn) r) /\
            (map_Forall (fun _ v => v.2 <> ∅) (granted_entry g) -> auth_granted_clone_from_repr_c r = Ok g)
        | Err _ => ~ names_ok (granted_entry g)
        end
    | Fail e s' => has_nul (auth_error_display e) = false -> exists answer,
        answer_auth client c (gen_req_id drawn) true s =
          Ret (Responded (Some (auth_error_code e, auth_error_display e)) answer) s' /\
        answer_of (Some answer) = error_answer (gen_req_id drawn) (heard_error e) /\
        (has_nul (app_error_display (heard_error e)) = false -> answer_of (Some answer) =
          Ok (OErr (AppErrors.error_code (heard_error e)) (app_error_display (heard_error e)) (gen_req_id drawn)))
    | Panic s' => answer_auth client c (gen_req_id drawn) true s = Panic s'
    | Pending s' => answer_auth client c (gen_req_id drawn) true s = Pending s'
    end.
Proof using All.
  intros Hreq Happ Hnames. set (id := gen_req_id drawn).
  destruct (message_text mock (MReq id (ReqAuth req))) as (text & He & _ & Hc & Hto & Hd).
  pose proof (auth_req_repr_roundtrip req) as Hr. simpl in Hr.
  destruct (auth_req_into_repr_c req) as [c|e] eqn:Hrepr; [|by destruct Hr as [[] _]].
  destruct Hr as [_ Hr]. rewrite decide_True in Hr by by eapply auth_req_cloned_nonempty.
  exists text, c. split; [|split; [|split; [exact Hr|split]]].
  - unfold encode_auth_req. rewrite Hreq. cbn [map_err_r rbind]. unfold encode_ipc. fold id. rewrite He.
    cbn [map_err_r rbind]. rewrite Hc. done.
  - unfold auth_decode_ipc_msg. rewrite Hto. erewrite bind_Ret by reflexivity. rewrite Hd.
    erewrite bind_Ret by reflexivity. erewrite bind_Ret by reflexivity. cbv beta iota. by rewrite Hrepr.
  - destruct (answer_read (MResp id (RespAuth (Err AuthDenied)))) as (answer & Hans & Hread).
    exists answer. unfold encode_auth_resp, respond. rewrite Hr. erewrite bind_Ret by reflexivity.
    simpl. rewrite Hans. split; [done|]. rewrite Hread. exact (error_answer_ok id (AppIpcError AuthDenied) eq_refl).
  - unfold encode_auth_resp. rewrite Hr. erewrite bind_Ret by reflexivity. cbn [negb]. unfold or_else, bind.
    destruct (authenticate config_fuel client req s) as [g s'|e s'|s'|s']; [| |done|done].
    + destruct (grant_heard id g) as (answer & -> & Hg). by exists answer.
    + intros Ht. destruct (failure_heard id e Ht) as (answer & -> & Hg). exists answer.
      split_and!; [done|done|]. intros Ha. by rewrite Hg, error_answer_ok.
Qed.
End conversation.

(** * Requests for shared data *)

Lemma start_all_map {S E F X T} (Inv : S -> Prop) (f : X -> M S E T) (g : X -> T) l s :
  (forall x s, x ∈ l -> Inv s -> exists s', f x s = Ret (g x) s' /\ Inv s') -> Inv s ->
  exists s', start_all (F := F) f l s = Ret (map (fun x => Ok (g x)) l) s' /\ Inv s'.
Proof.
  intros Hf Hs. unfold start_all.
  assert (forall acc, exists s', fold_m (E := F) (fun started x => let! r := attempt (f x) in ret (started ++ [r])) l acc s =
    Ret (acc ++ map (fun x => Ok (g x)) l) s' /\ Inv s') as H; [|apply (H [])].
  revert s Hs. induction l as [|x l IH]; intros s Hs acc; simpl; [exists s; by rewrite app_nil_r|].
  destruct (Hf x s ltac:(set_solver) Hs) as (s1 & Hx & Hs1).
  rewrite (bind_Ret _ _ (acc ++ [Ok (g x)]) s s1) by (unfold bind, attempt; by rewrite Hx).
  destruct (IH ltac:(set_solver) s1 Hs1 (acc ++ [Ok (g x)])) as (s2 & Hrun & Hs2).
  exists s2. split; [|done]. rewrite Hrun. by rewrite <-app_assoc.
Qed.

Section sharing.
Context `{ndt : !NdTypes, ndo : !NdOps, core : !CoreExt, lru : !LruOps, cr : !Crypto, auth : !AuthExt}.
Context `{ffi : !FfiUtils, ipc : !IpcExt, smeta : !Serial UserMetadata}.
Context {W : Type} `{net : !Network W}.
Context (client : AuthClient).
Let user := owner_key (ac_client client).

(** Mutable data the client can look at: whose it is, and what its metadata is. *)
Class VisibleData (Inv : ClientInner W -> Prop) (shell : ShareMData -> SeqMutableData)
    (metadata : ShareMData -> option MDataSeqValue) (l : list ShareMData) := {
  visible_shell m s : m ∈ l -> Inv s -> exists s',
    get_seq_mdata_shell (ac_client client) (sm_name m) (sm_type_tag m) s = Ret (shell m) s' /\ Inv s';
  visible_metadata m s : m ∈ l -> mdata_owner (MDSeq (shell m)) = user -> Inv s -> exists s', Inv s' /\
    get_seq_mdata_value (ac_client client) (sm_name m) (sm_type_tag m) METADATA_KEY s =
      match metadata m with Some v => Ret v s' | None => Fail (DataError NoSuchEntry) s' end;
}.

Context {Inv : ClientInner W -> Prop} {shell : ShareMData -> SeqMutableData}.
Context {metadata : ShareMData -> option MDataSeqValue}.

Definition foreign (m : ShareMData) : Prop := mdata_owner (MDSeq (shell m)) <> user.
#[local] Instance foreign_dec m : Decision (foreign m).
Proof. unfold foreign. apply _. Defined.

(** What the user is shown of a piece of data; [None] when its metadata is malformed. *)
Definition shown (m : ShareMData) : option MetadataResponse :=
  match metadata m with
  | None => Some {| mr_name := None; mr_description := None; mr_xor_name := xor_name_0 (sm_name m);
                    mr_type_tag := sm_type_tag m |}
  | Some v =>
      match deserialize_of (seq_data v) with
      | Ok md => match into_md_response md (sm_name m) (sm_type_tag m) with Ok r => Some r | Err _ => None end
      | Err _ => None
      end
  end.

Definition looked_at (m : ShareMData) : result MetadataResponse ShareMDataError :=
  if decide (foreign m) then Err (ShareInvalidOwner (sm_name m) (sm_type_tag m))
  else match shown m with Some r => Ok r | None => Err ShareInvalidMetadata end.

Lemma share_metadata_ok l m (st : AuthState (W := W)) :
  VisibleData Inv shell metadata l -> m ∈ l -> Inv (inner st) ->
  exists st', share_metadata client (sm_name m) (sm_type_tag m) (shell m) st = Ret (looked_at m) st' /\ Inv (inner st').
Proof.
  intros Hv Hm Hs. unfold share_metadata, looked_at. destruct (decide (foreign m)) as [Hf|Hf].
  - rewrite decide_False by done. by exists st.
  - assert (mdata_owner (MDSeq (shell m)) = user) as Ho by (unfold foreign in Hf; by apply dec_stable).
    rewrite decide_True by done. destruct (visible_metadata m (inner st) Hm Ho Hs) as (s' & Hs' & Hget).
    exists (set_inner s' st). split; [|done]. unfold shown, share_md_response, attempt, on_inner, bind. rewrite Hget.
    destruct (metadata m) as [v|]; [|done]. unfold ret. destruct (deserialize_of _) as [md|]; [|done].
    by destruct (into_md_response md _ _).
Qed.

Lemma share_fold_ok l0 l acc (st : AuthState (W := W)) :
  VisibleData Inv shell metadata l0 -> l ⊆ l0 -> Inv (inner st) ->
  exists st', fold_m (fun results '(mdata, sh) =>
      let! sh := from_core (lift_result sh) in
      let! r := share_metadata client (sm_name mdata) (sm_type_tag mdata) sh in
      ret (results ++ [r])) (zip l (map (fun x => Ok (shell x)) l)) acc st =
    Ret (acc ++ map looked_at l) st' /\ Inv (inner st').
Proof.
  intros Hv Hl Hs. revert acc st Hs. induction l as [|m l IH]; intros acc st Hs; simpl.
  - exists st. by rewrite app_nil_r.
  - destruct (share_metadata_ok l0 m st Hv ltac:(set_solver) Hs) as (st1 & Hm & Hs1).
    destruct (IH ltac:(set_solver) (acc ++ [looked_at m]) st1 Hs1) as (st2 & Hrun & Hs2).
    exists st2. split; [|done]. unfold bind at 1. unfold bind at 1. simpl. rewrite (bind_Ret _ _ _ _ _ Hm).
    cbn [ret]. rewrite Hrun. by rewrite <-app_assoc.
Qed.

Lemma sort_metadata_spec l :
  let '(metas, invalids) := sort_metadata (map looked_at l) in
  invalids = map (fun m => (sm_name m, sm_type_tag m)) (filter foreign l) /\
  (invalids = [] -> metas = map shown l).
Proof.
  unfold sort_metadata.
  assert (forall l1 acc, acc = (map shown (filter (fun m => ~ foreign m) l1),
      map (fun m => (sm_name m, sm_type_tag m)) (filter foreign l1)) ->
    foldl (fun '(metadata_cont, invalids) result =>
      match result with
      | Ok metadata => (metadata_cont ++ [Some metadata], invalids)
      | Err ShareInvalidMetadata => (metadata_cont ++ [None], invalids)
      | Err (ShareInvalidOwner name type_tag) => (metadata_cont, invalids ++ [(name, type_tag)])
      end) acc (map looked_at l) =
    (map shown (filter (fun m => ~ foreign m) (l1 ++ l)),
     map (fun m => (sm_name m, sm_type_tag m)) (filter foreign (l1 ++ l)))) as H.
  { induction l as [|m l IH]; intros l1 acc ->; simpl; [by rewrite app_nil_r|].
    rewrite (IH (l1 ++ [m])); [by rewrite <-!app_assoc|]. rewrite !list.filter_app, !map_app. unfold looked_at.
    destruct (decide (foreign m)) as [Hf|Hf].
    - rewrite (filter_cons_False (fun m => ~ foreign m)), (filter_cons_True foreign) by tauto. by rewrite !list.filter_nil, !app_nil_r.
    - rewrite (filter_cons_True (fun m => ~ foreign m)), (filter_cons_False foreign) by tauto.
      rewrite !list.filter_nil, !app_nil_r. simpl. by destruct (shown m). }
  rewrite (H [] ([], []) eq_refl). simpl. split; [done|]. intros Hn. f_equal.
  apply map_eq_nil in Hn. clear H. induction l as [|m l IH]; [done|].
  destruct (decide (foreign m)); [by rewrite filter_cons_True in Hn|].
  rewrite filter_cons_False in Hn by done. rewrite filter_cons_True by done. f_equal. auto.
Qed.

(** C30: a request to share mutable data is put to the user exactly when all of it is the
    user's own: then with what there is to show of each piece, in order; otherwise it is
    refused, with the names of all the pieces that are someone else's. *)
Theorem share_request_decided (req : ShareMDataReq) (st : AuthState (W := W)) :
  VisibleData Inv shell metadata (smr_mdata req) -> Inv (inner st) ->
  exists st', Inv (inner st') /\ decode_share_mdata_req client req st =
    match filter foreign (smr_mdata req) with
    | [] => Ret (map shown (smr_mdata req)) st'
    | others => Fail (AuthIpcError (InvalidOwner (map (fun m => (sm_name m, sm_type_tag m)) others))) st'
    end.
Proof.
  intros Hv Hs. unfold decode_share_mdata_req.
  destruct (start_all_map (F := AuthError) (fun st => Inv (inner st)) (fun mdata =>
      on_inner (get_seq_mdata_shell (ac_client client) (sm_name mdata) (sm_type_tag mdata)))
    shell (smr_mdata req) st) as (st1 & Hrun & Hs1); [|done|].
  { intros m s Hm Hi. destruct (visible_shell m (inner s) Hm Hi) as (s' & Hget & Hs').
    exists (set_inner s' s). split; [by apply on_inner_Ret|done]. }
  rewrite (bind_Ret _ _ _ _ _ Hrun).
  destruct (share_fold_ok (smr_mdata req) (smr_mdata req) [] st1 Hv ltac:(set_solver) Hs1) as (st2 & Hfold & Hs2).
  rewrite (bind_Ret _ _ _ _ _ Hfold). exists st2. split; [done|]. simpl.
  pose proof (sort_metadata_spec (smr_mdata req)) as Hsort.
  destruct (sort_metadata _) as [metas invalids]. destruct Hsort as [-> Hmetas].
  destruct (filter foreign (smr_mdata req)) as [|m l]; [|done].
  rewrite bool_decide_eq_true_2 by done. by rewrite Hmetas.
Qed.
End sharing.

(** * Granting containers to an app that is registered

    [encode_containers_resp] of [safe_authenticator/src/ffi/ipc.rs]: what was granted
    before stays. *)

(** * The access container *)

Section grants.
Context `{ndt : !NdTypes, ndo : !NdOps, ndl : !NdLaws, core : !CoreExt, lru : !LruOps}.
Context `{cr : !Crypto, crl : !CryptoLaws, auth : !AuthExt, authl : !AuthExtLaws, aa : !AppAuthExt}.
Context `{sal : !SeqActionsLaws}.
Context {W : Type} `{net : !Network W}.
Context `{sapps : !Serial Apps, sdirs : !Serial (gmap string MDataInfo)}.
Context `{sentry : !Serial AccessContainerEntry, sentryl : !SerialLaws AccessContainerEntry}.
Context (client : AuthClient) (name : XorName) (tag : Z).
Context (Hac : address (access_container client) = MSeq name tag).
Context `{store : !SeqMDataStore (ac_client client) name tag}.

(** Data whose permissions the client can change at their current version, which
    leaves the entries alone. *)
Class SharedStore := stored_grant m user perms s :
  stored m s -> exists v s1 s2,
    get_mdata_version (ac_client client) (MSeq name tag) s = Ret v s1 /\
    ClientApi.set_mdata_user_permissions (ac_client client) (MSeq name tag) user perms (u64_add v 1) s1 =
      Ret tt s2 /\ stored m s2.

Context `{shared : !SharedStore}.
Abbreviation AS := (AuthState (W := W)).

(** The entry of an app, with its version; [None] when there is none. *)
Abbreviation app_entry keys := (entry_at (T := AccessContainerEntry) (app_enc_key keys)).

Context (app_id_ : string) (keys : AppKeys) (key : bytes).
Context (Hkey : enc_key (access_container client) app_id_ (app_enc_key keys) = Ok key).

Lemma fetch_entry_ok m o (s : AS) :
  stored m (inner s) -> app_entry keys key m o ->
  exists s', stored m (inner s') /\ fetch_entry client app_id_ keys s =
    Ret (match o with Some (v, e) => (v, Some e) | None => (0%Z, None) end) s'.
Proof using Hac Hkey.
  intros Hst He. destruct (stored_get m key (inner s) Hst) as (i & Hi & Hget).
  exists (set_inner i s). split; [done|]. unfold fetch_entry. rewrite Hkey, Hac.
  erewrite bind_Ret by reflexivity. cbn [mdata_address_name mdata_address_tag].
  unfold entry_at in He. unfold attempt, bind, on_inner.
  rewrite Hget. destruct (m !! key) as [v|], o as [[ver e]|]; try done.
  destruct He as [<- He]. cbn [ret]. unfold decode_app_entry. by rewrite He.
Qed.

Lemma recovery_mutate_ok acts i i' :
  mutate_seq_mdata_entries (ac_client client) name tag acts i = Ret tt i' ->
  Recovery.mutate_mdata_entries (ac_client client) (MSeq name tag) acts i = Ret tt i'.
Proof.
  intros Hm. unfold Recovery.mutate_mdata_entries, RETRY_FUEL, loop_fn, mutate_attempt, or_else, bind.
  cbn [mdata_address_name mdata_address_tag]. by rewrite Hm.
Qed.

Lemma put_entry_ok m o perms (s : AS) :
  stored m (inner s) -> app_entry keys key m o -> entry_room o ->
  exists s' m', put_entry client app_id_ keys perms (entry_next o) s = Ret tt s' /\ stored m' (inner s') /\
    app_entry keys key m' (Some (entry_next o, perms)) /\ forall k, k <> key -> m' !! k = m !! k.
Proof using All.
  intros Hst He Hr. unfold put_entry. rewrite Hkey, Hac. erewrite bind_Ret by reflexivity.
  destruct (encode_raw_ok perms (app_enc_key keys) s) as (ct & Henc & Hdec).
  unfold encode_app_entry. rewrite (bind_Ret _ _ _ _ _ Henc). set (s1 := set_auth_rng _ s).
  destruct (stored_grant m (app_keys_public_key keys) (perms_allow perms_new MRead) (inner s1) Hst)
    as (v & i1 & i2 & Hver & Hset & Hst2).
  rewrite (bind_Ret _ _ _ _ _ (from_core_Ret _ _ _ _ (on_inner_Ret _ _ _ _ Hver))).
  set (s2 := set_inner i1 s1).
  rewrite (bind_Ret _ _ _ _ _ (from_core_Ret _ _ _ _ (on_inner_Ret _ _ _ s2 Hset))).
  destruct (put_actions_ok _ key m o ct He Hr) as [Herr Happ]. set (acts := put_actions key ct _) in *.
  destruct (stored_mutate m acts i2 Hst2) as (i3 & [(_ & Hst3 & Hmut)|(Hne & _)]); [|by rewrite Herr in Hne].
  exists (set_inner i3 (set_inner i2 s2)), (entries_applied m (seq_into_actions acts)). split_and!.
  - exact (from_core_Ret _ _ _ _ (on_inner_Ret _ _ _ (set_inner i2 s2) (recovery_mutate_ok _ _ _ Hmut))).
  - exact Hst3.
  - unfold entry_at. by rewrite Happ, decide_True.
  - intros k Hk. by rewrite Happ, decide_False.
Qed.

Lemma merged_entry_union (existing_perms perms : AccessContainerEntry) :
  merged_entry existing_perms perms = perms ∪ existing_perms.
Proof using authl.
  unfold merged_entry. apply map_eq. intros k.
  rewrite <-(foldl_insert_perm perms (hash_iter perms) (hash_iter_perm perms)) at 2.
  generalize (hash_iter perms) as l. intros l. revert existing_perms.
  induction l as [|[k' v] l IH] using rev_ind; intros e; simpl; [by rewrite (left_id ∅ _)|].
  rewrite !foldl_app. simpl. destruct (decide (k = k')) as [->|Hne].
  - rewrite lookup_insert_eq. symmetry. apply lookup_union_Some_l, lookup_insert_eq.
  - rewrite lookup_insert_ne, IH by done. rewrite !lookup_union. by rewrite lookup_insert_ne.
Qed.

(** * What is granted *)

Lemma bind_Ret_inv {S E X Y} (m : M S E X) (k : X -> M S E Y) s y s' :
  bind m k s = Ret y s' -> exists x s1, m s = Ret x s1 /\ k x s1 = Ret y s'.
Proof. unfold bind. destruct (m s); try done. eauto. Qed.

Lemma fold_m_inv {S E X B} (P : B -> list X -> Prop) (f : B -> X -> M S E B) l b s b' s' :
  (forall b x l1 s b' s', P b l1 -> f b x s = Ret b' s' -> P b' (l1 ++ [x])) ->
  P b [] -> fold_m f l b s = Ret b' s' -> P b' l.
Proof.
  intros Hf. change l with ([] ++ l) at 2. generalize (@nil X) as l1. revert b s.
  induction l as [|x l IH]; intros b s l1 Hb; simpl.
  - intros [= <- _]. by rewrite app_nil_r.
  - intros (b1 & s1 & Hx & Hrest)%bind_Ret_inv. rewrite cons_middle, app_assoc.
    apply (IH b1 s1); [by eapply Hf|done].
Qed.

(** Each container that was asked for is granted with the permissions asked for. *)
Lemma update_container_perms_asked permissions pk perms (s s' : AS) :
  update_container_perms client permissions pk s = Ret perms s' -> snd <$> perms = permissions.
Proof using authl.
  unfold update_container_perms. intros ([v root] & s1 & _ & H)%bind_Ret_inv. cbv beta iota in H.
  apply bind_Ret_inv in H as ([reqs left] & s2 & Hreqs & Hset).
  apply (fold_m_inv (fun '(reqs, _) l => map (fun '(k, _, a, _) => (k, a)) reqs = l)) in Hreqs; [| |done].
  2: { intros [r rc] [k a] l1 t [r' rc'] t' <- (info & t1 & _ & H1)%bind_Ret_inv.
       apply bind_Ret_inv in H1 as (ver & t2 & _ & [= <- _ _]). by rewrite map_app. }
  cbv beta iota in Hset.
  apply (fold_m_inv (fun e l => snd <$> e =
    foldl (fun m p => <[p.1 := p.2]> m) ∅ (map (fun '(k, _, a, _) => (k, a)) l))) in Hset.
  - rewrite Hset, Hreqs. apply foldl_insert_perm, hash_iter_perm.
  - intros e [[[k info] a] ver] l1 t e' t' He (n & t1 & _ & H1)%bind_Ret_inv.
    apply bind_Ret_inv in H1 as ([] & t2 & _ & [= <- _]).
    by rewrite map_app, foldl_app, fmap_insert, He.
  - by rewrite fmap_empty.
Qed.

(** C15: granting containers to a registered app adds them to its entry in the access
    container: what it is granted now has the permissions asked for, what it was granted
    before and is not asked for now stays as it was, and the entries of the other apps
    are left alone. *)
Theorem grants_accumulate permissions app perms m o (s0 s1 s2 : AS) :
  get_app client app_id_ s0 = Ret app s1 -> AuthTypes.keys app = keys ->
  update_container_perms client permissions (app_keys_public_key keys) s1 = Ret perms s2 ->
  stored m (inner s2) -> app_entry keys key m o -> entry_room o ->
  let existing := match o with Some (_, e) => e | None => ∅ end in
  exists s' m' e, grant_containers client app_id_ permissions s0 = Ret tt s' /\
    (exists s'', fetch_entry client app_id_ keys s' = Ret (entry_next o, Some e) s'') /\
    e = perms ∪ existing /\ (snd <$> e) = permissions ∪ (snd <$> existing) /\
    stored m' (inner s') /\ forall k, k <> key -> m' !! k = m !! k.
Proof using All.
  intros Happ Hkeys Hupd Hst He Hr existing.
  destruct (fetch_entry_ok m o s2 Hst He) as (s3 & Hst3 & Hfetch).
  destruct (put_entry_ok m o (perms ∪ existing) s3 Hst3 He Hr) as (s4 & m' & Hput & Hst4 & He' & Hrest).
  destruct (fetch_entry_ok m' _ s4 Hst4 He') as (s5 & _ & Hfetch').
  exists s4, m', (perms ∪ existing). split_and!; [|by exists s5|done| |done|done].
  - unfold grant_containers. rewrite (bind_Ret _ _ _ _ _ Happ), Hkeys, (bind_Ret _ _ _ _ _ Hupd).
    rewrite (bind_Ret _ _ (entry_next o, perms ∪ existing) s2 s3); [exact Hput|].
    rewrite (bind_Ret _ _ _ _ _ Hfetch). unfold existing. destruct o as [[ver e]|]; simpl.
    + by rewrite merged_entry_union.
    + by rewrite (right_id ∅ _).
  - rewrite map_fmap_union. by rewrite (update_container_perms_asked _ _ _ _ _ Hupd).
Qed.
End grants.
