(* ===== verification/AuthIpcModel.v ===== *)
(** Requests of apps at work: a network that keeps the entries of mutable data, a
    conversation, a request to share data and a grant of containers. *)
From Stdlib Require Import Ascii.
From S2P Require Import Prelude SafeNd SafeNdModel MockAccount MockVault MockVaultSpec MockConnection.
From S2P Require Import CoreTypes ClientApi MockStore MockShared MockClient Recovery.
From S2P Require Import RecoveryProofs RecoveryRepair SeqStore MDataInfo MDataInfoProofs AuthTypes.
From S2P Require Import AuthConfig AuthConfigProofs AccessContainer AuthModel AppAuth.
From S2P Require Import AppErrors AuthErrors Ipc IpcProofs IpcModel SelfEncryption Nfs NfsMock AccountPacket.
From S2P Require Import AuthLogin AppObjects AppFfi StdDirs AuthIpc AuthIpcProofs AccessContainerProofs AppProofs AppModel.

#[export] Instance ModelFutures : FuturesExt := {| completion X max l := Some l |}.
#[export] Instance ModelFuturesLaws : FuturesLaws.
Proof. split. intros X max l _. by exists l. Qed.

Lemma ascii_pos_text p s :
  Forall (fun n => 0 < n < 128) (string_bytes s) ->
  Forall (fun n => 0 < n < 128) (string_bytes (String.append (pos_text p) s)).
Proof. induction p; intros Hs; simpl; constructor; auto; vm_compute; lia. Qed.

#[export] Instance ModelBase32 : Base32Text.
Proof.
  intros b. simpl. induction b as [|z b IH]; simpl; [constructor|].
  change (foldr _ _ b) with (bytes_text b) in *.
  destruct z as [|p|p]; simpl; (constructor; [vm_compute; lia|]); [exact IH|by apply ascii_pos_text..].
Qed.

(** * A network of entries *)

Definition EntryNet : Type := gmap DataId MDataSeqEntries.

(** Everything belongs to the client, but for the data of one name. *)
Definition net_owner (a : MDataAddress) : PublicKey :=
  if decide (mdata_address_name a = ex_name 90) then (2%Z : PublicKey) else (1%Z : PublicKey).
Definition net_shell (a : MDataAddress) : SeqMutableData :=
  {| md_name := mdata_address_name a; md_tag := mdata_address_tag a; md_entries := ∅; md_perms := ∅;
     md_version := 0; md_owner := net_owner a |}.

Definition net_answer (request : Request) (n : EntryNet) : Response * EntryNet :=
  match request with
  | GetMDataShell a => (RGetMDataShell (Ok (MDSeq (net_shell a))), n)
  | GetMDataVersion a => (RGetMDataVersion (Ok 0%Z), n)
  | GetMDataValue a k =>
      (RGetMDataValue (match n !! DMutable a with
                       | Some m => rmap VSeq (ok_or_r (m !! k) NoSuchEntry) | None => Err NoSuchData end), n)
  | SetMDataUserPermissions a u p v =>
      (RMutation (if decide (v = 1%Z) then Ok tt else Err (InvalidSuccessor 0)), n)
  | MutateMDataEntries a (ActSeq acts) =>
      match n !! DMutable a with
      | Some m =>
          let errors := entry_errors m (seq_into_actions acts) in
          if decide (errors = ∅) then
            (RMutation (Ok tt), <[DMutable a := entries_applied m (seq_into_actions acts)]> n)
          else (RMutation (Err (InvalidEntryActions errors)), n)
      | None => (RMutation (Err NoSuchData), n)
      end
  | _ => (RMutation (Err AccessDenied), n)
  end.

#[export] Instance EntryNetwork : Network EntryNet := {|
  cm_send _ msg := fun n =>
    match msg with
    | MsgRequest request _ _ => let '(r, n') := net_answer request n in Ret r n'
    | _ => Fail ReceivedUnexpectedEvent n
    end;
  cm_bootstrap _ := ret tt; cm_disconnect _ := ret tt;
  new_message_id := ret (0%Z : MessageId); rand_random := ret 0%Z;
|}.

Lemma net_send client request (s : ClientInner EntryNet) :
  send client request s =
    Ret (net_answer request (connection_manager s)).1 (set_cm (net_answer request (connection_manager s)).2 s).
Proof.
  unfold send, compose_message, bind. destruct s as [n c t].
  destruct (negb _); cbn -[net_answer]; unfold with_cm, ret; cbn -[net_answer]; by destruct (net_answer _ _).
Qed.

Definition net_stored (a : MDataAddress) (m : MDataSeqEntries) (s : ClientInner EntryNet) : Prop :=
  connection_manager s !! DMutable a = Some m.

Lemma net_mutate name tag m acts n :
  n !! DMutable (MSeq name tag) = Some m ->
  net_answer (MutateMDataEntries (MSeq name tag) (ActSeq acts)) n =
    if decide (entry_errors m (seq_into_actions acts) = ∅) then
      (RMutation (Ok tt), <[DMutable (MSeq name tag) := entries_applied m (seq_into_actions acts)]> n)
    else (RMutation (Err (InvalidEntryActions (entry_errors m (seq_into_actions acts)))), n).
Proof. intros Hm. unfold net_answer. by rewrite Hm. Qed.

#[export] Instance NetStore client name tag : SeqMDataStore (W := EntryNet) client name tag.
Proof.
  refine {| stored := net_stored (MSeq name tag) |}.
  - intros m k s Hs. unfold get_seq_mdata_value. rewrite (bind_Ret _ _ _ _ _ (net_send _ _ _)). simpl.
    rewrite Hs. exists s. split; [done|]. destruct s as [n c t]. by destruct (m !! k).
  - intros m acts s Hs errors. unfold mutate_seq_mdata_entries, send_mutation.
    rewrite (bind_Ret _ _ _ _ _ (net_send _ _ _)). unfold net_stored in *.
    rewrite (net_mutate name tag m acts _ Hs). fold errors. destruct (decide (errors = ∅)) as [He|He].
    + eexists. left. split_and!; [done| |reflexivity]. apply lookup_insert_eq.
    + exists s. right. split_and!; [done|done|]. by destruct s.
Defined.

#[export] Instance NetShared client name tag : SharedStore client name tag (store := NetStore (ac_client client) name tag).
Proof.
  intros m user perms s Hs. exists 0%Z, s, s. unfold get_mdata_version, ClientApi.set_mdata_user_permissions, send_mutation.
  rewrite (bind_Ret _ _ _ _ _ (net_send _ _ _)), (bind_Ret _ _ _ _ _ (net_send _ _ _)).
  destruct s as [n c t]. split_and!; [done| |done]. reflexivity.
Qed.

(** * The state of an authenticator *)

(** The configuration and the access container of [AuthModel], with the entries of the
    authenticator and of the app. *)
Definition ex_music : MDataInfo :=
  {| address := MSeq (ex_name 72) 15000; enc_info := None; new_enc_info := None |}.
Definition ex_root_dirs : gmap string MDataInfo := {[ "_music" := ex_music ]}.
Definition ex_auth_key : bytes :=
  match AccessContainer.enc_key ex_access AUTHENTICATOR_ENTRY ex_sk with Ok k => k | Err _ => [] end.
Definition ex_auth_text : bytes :=
  match encode_authenticator_entry ex_root_dirs ex_sk ex_auth_state with Ret c _ => c | _ => [] end.
Definition ex_container_entries : MDataSeqEntries :=
  {[ ex_auth_key := {| seq_data := ex_auth_text; seq_version := 0 |};
     ex_entry_key := {| seq_data := ex_entry_text; seq_version := 4 |} ]}.
Definition ex_entry_net : EntryNet :=
  {[ DMutable (MSeq (ex_name 70) 15000) := ex_config_entries;
     DMutable (MSeq (ex_name 71) 15000) := ex_container_entries ]}.
Definition ex_net_state : AuthState (W := EntryNet) :=
  {| inner := new_client_inner ex_entry_net; auth_rng := 0 |}.

Definition ex_asked : gmap string ContainerPermissions := {[ "_music" := {[ PRead; PInsert ]} ]}.
Definition ex_granted_perms : AccessContainerEntry := {[ "_music" := (ex_music, {[ PRead; PInsert ]}) ]}.

Definition ex_after_app : AuthState (W := EntryNet) := final (get_app ex_auth_client "app" ex_net_state).
Definition ex_after_perms : AuthState (W := EntryNet) :=
  final (update_container_perms ex_auth_client ex_asked (app_keys_public_key ex_app_keys) ex_after_app).

Example grants_accumulate_witness :
  exists s' m' e, grant_containers ex_auth_client "app" ex_asked ex_net_state = Ret tt s' /\
    (exists s'', fetch_entry ex_auth_client "app" ex_app_keys s' = Ret (5%Z, Some e) s'') /\
    e = ex_granted_perms ∪ ex_entry /\ (snd <$> e) = ex_asked ∪ (snd <$> ex_entry) /\
    net_stored (MSeq (ex_name 71) 15000) m' (inner s') /\
    forall k, k <> ex_entry_key -> m' !! k = ex_container_entries !! k.
Proof.
  apply (grants_accumulate ex_auth_client (ex_name 71) 15000 eq_refl
    (store := NetStore (ac_client ex_auth_client) (ex_name 71) 15000)
    "app" ex_app_keys ex_entry_key ltac:(vm_refl) ex_asked (ex_app_info "app" 7) ex_granted_perms
    ex_container_entries (Some (4%Z, ex_entry)) ex_net_state ex_after_app ex_after_perms).
  - vm_refl.
  - reflexivity.
  - vm_refl.
  - change (connection_manager (inner ex_after_perms) !! DMutable (MSeq (ex_name 71) 15000) =
      Some ex_container_entries). vm_refl.
  - unfold entry_at. replace (ex_container_entries !! ex_entry_key)
      with (Some {| seq_data := ex_entry_text; seq_version := 4 |}) by vm_refl.
    split; [reflexivity|vm_refl].
  - unfold entry_room, u64_modulus. lia.
Defined.

#[export] Instance SerialMetadata : Serial UserMetadata := {|
  serialize_of m := Ok [Z.pos (encode (um_name m, um_description m))];
  deserialize_of b :=
    match b with
    | [Z.pos p] =>
        match (decode p : option (option string * option string)) with
        | Some (n, d) => Ok {| um_name := n; um_description := d |}
        | None => Err ("malformed" : SerialisationError)
        end
    | _ => Err ("malformed" : SerialisationError)
    end |}.

Definition ex_share (k : Z) : ShareMData :=
  {| sm_type_tag := 15000; sm_name := ex_name k; sm_perms := perms_allow perms_new MInsert |}.
Definition ex_share_req (l : list Z) : ShareMDataReq :=
  {| smr_app := info (ex_app_info "app" 7); smr_mdata := map ex_share l |}.

Definition ex_visible (s : ClientInner EntryNet) : Prop := connection_manager s = ex_entry_net.
Definition ex_shell (m : ShareMData) : SeqMutableData := net_shell (MSeq (sm_name m) (sm_type_tag m)).

(** Data of the client that is there has no metadata. *)
Lemma ex_visible_data l :
  Forall (fun k => k = 71%Z \/ k = 90%Z) l ->
  VisibleData ex_auth_client ex_visible ex_shell (fun _ => None) (map ex_share l).
Proof.
  intros Hl. split.
  - intros m s _ Hs. exists s. split; [|done]. unfold get_seq_mdata_shell.
    rewrite (bind_Ret _ _ _ _ _ (net_send _ _ _)). by destruct s.
  - intros m s Hm Ho Hs. exists s. split; [done|]. apply list_elem_of_fmap in Hm as (k & -> & Hk).
    rewrite list.Forall_forall in Hl. destruct (Hl k Hk) as [->| ->]; [|done].
    unfold get_seq_mdata_value. rewrite (bind_Ret _ _ _ _ _ (net_send _ _ _)).
    replace (net_answer _ (connection_manager s)) with (RGetMDataValue (Err NoSuchEntry), connection_manager s)
      by (rewrite Hs; vm_refl).
    by destruct s.
Qed.

Example share_request_decided_witness :
  (exists st', decode_share_mdata_req ex_auth_client (ex_share_req [71; 90; 71]%Z) ex_net_state =
     Fail (AuthIpcError (InvalidOwner [(ex_name 90, 15000%Z)])) st') /\
  exists st', decode_share_mdata_req ex_auth_client (ex_share_req [71]%Z) ex_net_state =
    Ret [Some {| mr_name := None; mr_description := None; mr_xor_name := [71%Z]; mr_type_tag := 15000 |}] st'.
Proof.
  split.
  - destruct (share_request_decided ex_auth_client (ex_share_req [71; 90; 71]%Z) ex_net_state
      (ex_visible_data [71; 90; 71]%Z ltac:(repeat first [apply List.Forall_nil | apply List.Forall_cons; [by auto|]])) eq_refl) as (st' & _ & H).
    exists st'. exact H.
  - destruct (share_request_decided ex_auth_client (ex_share_req [71]%Z) ex_net_state
      (ex_visible_data [71]%Z ltac:(repeat first [apply List.Forall_nil | apply List.Forall_cons; [by auto|]])) eq_refl) as (st' & _ & H).
    exists st'. exact H.
Defined.

Definition ex_c_req : FfiAuthReq :=
  match auth_req_into_repr_c ex_ipc_req with
  | Ok c => c
  | Err _ => {| far_app := {| fa_id := None; fa_scope := None; fa_name := None; fa_vendor := None |};
                far_app_container := false; app_permission_transfer_coins := false;
                app_permission_perform_mutations := false; app_permission_get_balance := false;
                far_containers := ([] : list _); far_containers_len := 0 |}
  end.

Example auth_conversation_witness :
  exists text c, encode_auth_req true 6 ex_c_req = Ok (7%Z, text) /\
    auth_decode_ipc_msg true ex_auth_client text ex_net_state = Ret (QAuth 7 c) ex_net_state /\
    auth_req_clone_from_repr_c c = Ok ex_ipc_req.
Proof.
  destruct (auth_conversation true 2 6 ex_c_req ex_ipc_req ex_auth_client ex_net_state)
    as (text & c & H1 & H2 & H3 & _).
  - vm_refl.
  - reflexivity.
  - apply map_Forall_insert_2; [reflexivity|]. apply map_Forall_singleton. reflexivity.
  - exists text, c. exact (conj H1 (conj H2 H3)).
Defined.
