(* ===== verification/CoreClient.v ===== *)
(** The client of the tests ([safe_core/src/client/core_client.rs]): an account and a
    balance, made by the client itself.

    The world of a creation is that of a registration ([AuthLogin.Boot]): the
    connection manager the call makes, and the generator of the thread. *)
From S2P Require Import Prelude SafeNd SafeNdModel MockAccount MockVault.
From S2P Require Import MockVaultRequests MockVaultProcess MockVaultSpec.
From S2P Require Import MockVaultRefine MockVaultSafety MockVaultBehaviour MockVaultAccess.
From S2P Require Import CoreTypes ClientApi MockStore MockConnection MockShared.
From S2P Require Import MockClient Recovery MDataInfo MDataInfoProofs AuthTypes AppAuth AuthErrors.
From S2P Require Import RevocationMock AuthModel.
From S2P Require Import AccountPacket AuthLogin AuthLoginProofs.

(** * The client *)

Section core_client.
Context `{ndt : !NdTypes, ndo : !NdOps, core : !CoreExt, lru : !LruOps, cr : !Crypto}.
Context `{auth : !AuthExt, aext : !AccountExt, sacc : !Serial Account}.
Context {W : Type} `{net : !Network W}.
(** [Coins::from_str]. *)
Context (coins_from_str : string -> option Coins).

(** [CoreClient]: its inner state is shared by its clones. *)
Record CoreClient := { cc_inner : ClientInner W; cc_keys : ClientKeys }.

Definition on_manager {A} (m : M W CoreError A) : M (Boot W) CoreError A := fun s =>
  match m (boot_cm s) with
  | Ret a w => Ret a {| boot_cm := w; boot_rng := boot_rng s |}
  | Fail e w => Fail e {| boot_cm := w; boot_rng := boot_rng s |}
  | Panic w => Panic {| boot_cm := w; boot_rng := boot_rng s |}
  | Pending w => Pending {| boot_cm := w; boot_rng := boot_rng s |}
  end.

Definition on_thread_rng {A} (m : M Rng CoreError A) : M (Boot W) CoreError A := fun s =>
  match m (boot_rng s) with
  | Ret a r => Ret a {| boot_cm := boot_cm s; boot_rng := r |}
  | Fail e r => Fail e {| boot_cm := boot_cm s; boot_rng := r |}
  | Panic r => Panic {| boot_cm := boot_cm s; boot_rng := r |}
  | Pending r => Pending {| boot_cm := boot_cm s; boot_rng := r |}
  end.

(** The key of the packet: seeded by the locator and the password together. *)
Definition core_packet_id (acc_locator acc_password : bytes) : ClientFullId :=
  let seeder := acc_locator ++ acc_password in
  client_new_bls_seeded (sha3_256 seeder).

Definition snd_result {A} (r : SndResult A) : M (Boot W) CoreError A :=
  match r with Ok a => ret a | Err e => fail (DataError e) end.

Definition new_impl (acc_locator acc_password : bytes)
    (connection_manager_wrapper_fn : W -> W) : M (Boot W) CoreError CoreClient :=
  let '(password, keyword, pin) := derive_secrets acc_locator acc_password in
  let! acc_loc := lift_result (generate_network_id keyword pin) in
  let! maid_keys_ := on_thread_rng (ClientKeys_new None) in
  let! acc := on_thread_rng (AccountPacket.Account_new maid_keys_) in
  let! acc_ciphertext := lift_result (account_encrypt acc password pin) in
  let client_full_id := core_packet_id acc_locator acc_password in
  let client_pk := client_public_key (client_full_public_id client_full_id) in
  let sig := safe_key_sign (SKClient client_full_id) acc_ciphertext in
  let! new_login_packet := snd_result (LoginPacket_new acc_loc client_pk acc_ciphertext sig) in
  let balance_client_id := client_id maid_keys_ in
  let new_balance_owner := client_public_key (client_full_public_id balance_client_id) in
  let balance_client_id := SKClient balance_client_id in
  let balance_pub_id := safe_key_public_id balance_client_id in
  modify (fun s => {| boot_cm := connection_manager_wrapper_fn (boot_cm s);
                      boot_rng := boot_rng s |}) ;!
  on_manager (cm_bootstrap balance_client_id) ;!
  let! amount := unwrap (coins_from_str "10") in
  let! transaction_id := on_manager rand_random in
  let! response :=
    on_manager (req (CreateBalance new_balance_owner amount transaction_id) balance_client_id) in
  match response with
  | RTransaction res => let! _ := snd_result res in ret tt
  | _ => fail (Unexpected "Unexpected response")
  end ;!
  let! response := on_manager (req (CreateLoginPacket new_login_packet) balance_client_id) in
  match response with
  | RMutation res => snd_result res
  | _ => fail (Unexpected "Unexpected response")
  end ;!
  on_manager (cm_disconnect balance_pub_id) ;!
  on_manager (cm_bootstrap (client_safe_key maid_keys_)) ;!
  let! cm := gets boot_cm in
  ret {| cc_inner := {| connection_manager := cm; ci_cache := lru_new IMMUT_DATA_CACHE_SIZE;
                        timeout := 180 |};
         cc_keys := maid_keys_ |}.

Definition CoreClient_new (acc_locator acc_password : string) : M (Boot W) CoreError CoreClient :=
  new_impl (as_bytes acc_locator) (as_bytes acc_password) (fun cm => cm).

(** What the client offers to the functions of the [Client] trait. *)
Definition core_client_of (c : CoreClient) : Client :=
  {| full_id := client_safe_key (cc_keys c);
     owner_key := safe_key_public_key (client_safe_key (cc_keys c)) |}.

Definition core_config {C} (c : CoreClient) : option C := None.
Definition core_public_encryption_key (c : CoreClient) : EncPublicKey := ck_enc_pk (cc_keys c).
Definition core_secret_encryption_key (c : CoreClient) : EncSecretKey := ck_enc_sk (cc_keys c).
Definition core_secret_symmetric_key (c : CoreClient) : SymEncKey := ck_enc_key (cc_keys c).
End core_client.

(** * On the mock network *)

Section core_client_proofs.
Context `{ndt : !NdTypes, ndo : !NdOps, ndl : !NdLaws, host : !Host}.
Context `{core : !CoreExt, corel : !CoreExtLaws, lru : !LruOps}.
Context `{cr : !Crypto, crl : !CryptoLaws, auth : !AuthExt, aext : !AccountExt}.
Context `{aextl : !AccountExtLaws, sacc : !Serial Account, saccl : !SerialLaws Account}.
Context `{env : !StoreEnv, rnd : !RandomSource}.
Context (coins_from_str : string -> option Coins).

Abbreviation nvault n := (lk_vault (vault n)).

Lemma on_thread_rng_Ret {A} (m : M Rng CoreError A) a r s :
  m (boot_rng s) = Ret a r ->
  on_thread_rng (W := MockNet) m s = Ret a {| boot_cm := boot_cm s; boot_rng := r |}.
Proof. intros Hm. unfold on_thread_rng. by rewrite Hm. Qed.

Lemma on_manager_Ret {A} (m : M MockNet CoreError A) a w s :
  m (boot_cm s) = Ret a w -> on_manager m s = Ret a {| boot_cm := w; boot_rng := boot_rng s |}.
Proof. intros Hm. unfold on_manager. by rewrite Hm. Qed.

(** A client that makes its own balance pays for nothing. *)
Lemma create_own_balance id amt tid v :
  let c := client_full_public_id id in
  let pk := client_public_key c in
  dispatch (PClient c) pk pk (CreateBalance pk amt tid) v =
    Ret (RTransaction (Ok {| tx_id := tid; tx_amount := amt |}))
      (set_coin_balances (<[xor_name_from pk := CoinBalance_new amt pk]> (coin_balances (cache v))) v).
Proof. intros c pk. simpl. unfold handle_CreateBalance. by rewrite decide_True. Qed.

(** The two requests of a creation, from the manager the client has bootstrapped. *)
Lemma creation_requests id p tid ten n1 :
  let c := client_full_public_id id in
  let pk := client_public_key c in
  let balance_request := CreateBalance pk ten tid in
  in_memory n1 -> vault_wf (nvault n1) -> (1 <= as_nano ten)%Z ->
  login_packets (cache (nvault n1)) !! login_destination p = None ->
  exists n2 n3,
    req balance_request (SKClient id) n1 =
      Ret (RTransaction (Ok {| tx_id := tid; tx_amount := ten |})) n2 /\
    req (CreateLoginPacket p) (SKClient id) n2 = Ret (RMutation (Ok tt)) n3 /\
    in_memory n3 /\ vault_wf (nvault n3) /\
    login_packets (cache (nvault n3)) =
      <[login_destination p := p]> (login_packets (cache (nvault n1))) /\
    exists b, coin_balances (cache (nvault n3)) !! xor_name_from pk = Some b /\ owner b = pk /\
      (~ limited (nvault n1) -> value b = ten) /\
      (limited (nvault n1) -> as_nano (value b) = (as_nano ten - 1)%Z).
Proof.
  intros c pk balance_request Hmem Hwf Hten Hno.
  pose proof (create_own_balance id ten tid (nvault n1)) as Hd1. cbv zeta in Hd1.
  fold c pk balance_request in Hd1.
  destruct (dispatch_wf id _ n1 _ _ Hmem Hwf Hd1) as [Hwf1 Hst1].
  set (v1 := set_coin_balances _ (nvault n1)) in *. set (n2 := answered v1 n1).
  assert (Hmem2 : in_memory n2) by (split; [exact Hst1|apply Hmem]).
  destruct (create_login_packet_ok id p (CoinBalance_new ten pk) v1)
    as (v2 & Hd2 & Hl & Hun & Hlim); [apply lookup_insert_eq|done|done|].
  destruct (dispatch_wf id _ n2 _ v2 Hmem2 Hwf1 Hd2) as [Hwf2 Hst2].
  exists n2, (answered v2 n2). split_and!.
  - exact (req_memory id _ n1 _ v1 Hmem Hwf Hd1).
  - exact (req_memory id _ n2 _ v2 Hmem2 Hwf1 Hd2).
  - split; [exact Hst2|apply Hmem].
  - exact Hwf2.
  - exact Hl.
  - assert (limited (nvault n1) \/ ~ limited (nvault n1)) as [Hc|Hc]
      by (unfold limited; destruct (unlimited_coins _); auto).
    + destruct (Hlim Hc) as (b' & (Ho & _ & Hv) & Hb). exists b'. simpl in Hb |- *. rewrite Hb.
      split_and!; [apply lookup_insert_eq|exact Ho|done|done].
    + exists (CoinBalance_new ten pk). simpl. rewrite (Hun Hc).
      split_and!; [apply lookup_insert_eq|done..].
Qed.

(** A packet that is another key's is not given out, and the login ends there. *)
Lemma login_other_getter locator password n rng p :
  let loc := packet_location (as_bytes locator) in
  in_memory n -> vault_wf (nvault n) ->
  login_packets (cache (nvault n)) !! loc = Some p -> login_authorised_getter p <> packet_key loc ->
  exists s, login locator password {| boot_cm := n; boot_rng := rng |} =
    Fail (AuthSndError AccessDenied) s.
Proof.
  intros loc Hmem Hwf Hp Hget.
  assert (Hd : dispatch (PClient (client_full_public_id (packet_id loc))) (packet_key loc)
    (packet_key loc) (GetLoginPacket loc) (nvault n) =
    Ret (RGetLoginPacket (Err AccessDenied)) (nvault n)).
  { simpl. unfold handle_GetLoginPacket, respond, bind, attempt, gets, get_login_packet.
    by rewrite Hp, decide_False. }
  eexists. unfold login, login_impl, derive_secrets, generate_network_id, core_try at 1.
  erewrite bind_Ret by reflexivity. fold (packet_location (as_bytes locator)). fold loc.
  erewrite bind_Ret by reflexivity. erewrite bind_Ret by reflexivity. cbn [boot_cm boot_rng].
  erewrite bind_Ret by (apply on_cm_Ret, req_memory; [by apply in_memory_groups|exact Hwf|exact Hd]).
  erewrite bind_Ret by reflexivity. reflexivity.
Qed.

(** C29: a core client is created whenever its account fits into a packet, the location
    of the account is free and ten coins pay for a mutation. Its key then owns a balance
    of ten coins, less what the packet cost where coins are limited, and the packet of
    the account is at the location of the locator; but the packet is owned by a key made
    of locator and password, not by the one a login asks with, so that the login of the
    authenticator with the same credentials is refused wherever the two keys differ. *)
Theorem core_client_created locator password n rng ten :
  let loc := packet_location (as_bytes locator) in
  let cred := credentials (as_bytes locator) (as_bytes password) in
  let pid := core_packet_id (as_bytes locator) (as_bytes password) in
  in_memory n -> vault_wf (nvault n) ->
  (forall a b, account_encrypt a (cred_password cred) (cred_pin cred) = Ok b ->
    length b <= max_login_packet_bytes) ->
  coins_from_str "10" = Some ten -> (1 <= as_nano ten)%Z ->
  login_packets (cache (nvault n)) !! loc = None ->
  exists c s a p, CoreClient_new coins_from_str locator password {| boot_cm := n; boot_rng := rng |} =
      Ret c s /\
    let v' := nvault (boot_cm s) in
    let pk := safe_key_public_key (full_id (core_client_of c)) in
    owner_key (core_client_of c) = pk /\
    login_packets (cache v') = <[loc := p]> (login_packets (cache (nvault n))) /\
    account_encrypt a (cred_password cred) (cred_pin cred) = Ok (login_data p) /\
    maid_keys a = cc_keys c /\
    (exists b, coin_balances (cache v') !! xor_name_from pk = Some b /\ owner b = pk /\
      (~ limited (nvault n) -> value b = ten) /\
      (limited (nvault n) -> as_nano (value b) = (as_nano ten - 1)%Z)) /\
    (client_public_key (client_full_public_id pid) <> packet_key loc ->
      forall rng', exists s',
        login locator password {| boot_cm := boot_cm s; boot_rng := rng' |} =
          Fail (AuthSndError AccessDenied) s').
Proof.
  intros loc cred pid Hmem Hwf Hfit Hten Hle Hno.
  destruct (client_keys_new_ret None rng) as (k & r1 & Hk & _).
  destruct (account_new_ret k r1) as (a & r2 & Ha & Hak & _).
  destruct (account_roundtrip a (cred_password cred) (cred_pin cred)) as (ct & Hct & _).
  destruct (login_packet_new_spec loc (client_public_key (client_full_public_id pid)) ct
    (client_sign pid ct)) as (p & Hp & Hdest & Hget & Hdata & _); [by eapply Hfit|].
  set (c := client_full_public_id (client_id k)).
  set (n1 := set_drawn (S (drawn n)) (set_groups ({[ PClient c ]} ∪ groups n) (net_tx n) n)).
  destruct (creation_requests (client_id k) p (random_u64_at (drawn n)) ten n1)
    as (n2 & n3 & Hr1 & Hr2 & Hmem3 & Hwf3 & Hl3 & Hb3); [done|done|done|by rewrite Hdest|].
  eexists _, _, a, p. split.
  - unfold CoreClient_new, new_impl, derive_secrets, generate_network_id, lift_result at 1.
    erewrite bind_Ret by reflexivity. fold (packet_location (as_bytes locator)). fold loc.
    erewrite bind_Ret by (apply on_thread_rng_Ret; exact Hk).
    erewrite bind_Ret by (apply on_thread_rng_Ret; exact Ha).
    change (account_encrypt a _ _) with (account_encrypt a (cred_password cred) (cred_pin cred)).
    rewrite Hct. erewrite bind_Ret by reflexivity. fold pid. cbn [safe_key_sign]. rewrite Hp.
    erewrite bind_Ret by reflexivity. erewrite bind_Ret by reflexivity.
    erewrite bind_Ret by reflexivity. rewrite Hten. erewrite bind_Ret by reflexivity.
    erewrite bind_Ret by reflexivity. cbn [boot_cm boot_rng].
    erewrite bind_Ret by (apply on_manager_Ret; exact Hr1). cbv beta iota.
    erewrite bind_Ret by reflexivity.
    erewrite bind_Ret by (apply on_manager_Ret; exact Hr2). cbv beta iota.
    erewrite bind_Ret by reflexivity. erewrite bind_Ret by reflexivity.
    erewrite bind_Ret by reflexivity. erewrite bind_Ret by reflexivity. reflexivity.
  - split_and!; [done| | |done|exact Hb3|].
    + rewrite <-Hdest. exact Hl3.
    + by rewrite Hdata.
    + intros Hne rng'. eapply login_other_getter; [done|done| |by rewrite Hget].
      simpl. rewrite Hl3, Hdest. apply lookup_insert_eq.
Qed.
End core_client_proofs.

(** * A concrete client *)

Definition ex_from_str (s : string) : option Coins :=
  if String.eqb s "10" then Some (ex_coins 10) else None.

Example core_client_created_witness :
  exists c s a p, CoreClient_new ex_from_str "carol" "pass" {| boot_cm := ex_auth_net; boot_rng := 0 |} =
      Ret c s /\
    let v' := lk_vault (vault (boot_cm s)) in
    let pk := safe_key_public_key (full_id (core_client_of c)) in
    owner_key (core_client_of c) = pk /\
    login_packets (cache v') =
      <[packet_location (as_bytes "carol") := p]> (login_packets (cache (lk_vault (vault ex_auth_net)))) /\
    account_encrypt a (cred_password (credentials (as_bytes "carol") (as_bytes "pass")))
      (cred_pin (credentials (as_bytes "carol") (as_bytes "pass"))) = Ok (login_data p) /\
    maid_keys a = cc_keys c /\
    (exists b, coin_balances (cache v') !! xor_name_from pk = Some b /\ owner b = pk /\
      (~ limited (lk_vault (vault ex_auth_net)) -> value b = ex_coins 10) /\
      (limited (lk_vault (vault ex_auth_net)) ->
        as_nano (value b) = (as_nano (ex_coins 10) - 1)%Z)) /\
    (client_public_key (client_full_public_id
        (core_packet_id (as_bytes "carol") (as_bytes "pass"))) <>
      packet_key (packet_location (as_bytes "carol")) ->
      forall rng', exists s',
        login "carol" "pass" {| boot_cm := boot_cm s; boot_rng := rng' |} =
          Fail (AuthSndError AccessDenied) s').
Proof.
  apply (core_client_created ex_from_str "carol" "pass" ex_auth_net 0 (ex_coins 10)).
  - by split.
  - exact ex_auth_vault_wf.
  - apply ex_accounts_fit.
  - reflexivity.
  - simpl. lia.
  - reflexivity.
Defined.
