(* ===== verification/LogFilter.v ===== *)
(** The levels of the loggers, from the text of [RUST_LOG]
    ([parse_loggers] of [safe_core/src/utils/logging/mod.rs]).

    [LevelFilter] and its parser are those of the [log] crate. *)
From S2P Require Import Prelude RustText.

Class LogLevels := {
  LevelFilter : Type;
  LevelWarn : LevelFilter;
  parse_level : Text -> option LevelFilter;
}.

Section filter.
Context `{levels : !LogLevels}.

Record Logger := { logger_name : Text; logger_level : LevelFilter }.

Inductive ParseLoggerError := TheParseLoggerError.

Definition DEFAULT_LOG_LEVEL_FILTER : LevelFilter := LevelWarn.

Definition COMMA : Z := 44.
Definition EQUALS : Z := 61.

Definition build_logger (level : LevelFilter) (name : Text) : Logger :=
  {| logger_name := name; logger_level := level |}.

(** One directive: the default level, the loggers, and the modules that wait for a
    level. *)
Definition parse_directive (st : LevelFilter * list Logger * list Text) (sub_input : Text) :
    result (LevelFilter * list Logger * list Text) ParseLoggerError :=
  let '(default_level, loggers, grouped_modules) := st in
  match split_on EQUALS (trim sub_input) with
  | module_name :: level :: _ =>
      match parse_level level with
      | Some level_filter =>
          Ok (default_level,
              loggers ++ map (build_logger level_filter) grouped_modules ++ [build_logger level_filter module_name],
              [])
      | None => Err TheParseLoggerError
      end
  | [module] =>
      match parse_level module with
      | Some level_filter => Ok (level_filter, loggers, grouped_modules)
      | None => Ok (default_level, loggers, grouped_modules ++ [module])
      end
  | [] => Err TheParseLoggerError
  end.

Definition directives (input : Text) : list Text :=
  filter (fun d => d <> []) (map trim (split_on COMMA input)).

Definition parse_loggers (input : Text) : result (LevelFilter * list Logger) ParseLoggerError :=
  let? (default_level, loggers, grouped_modules) :=
    fold_r parse_directive (directives input) (DEFAULT_LOG_LEVEL_FILTER, [], []) in
  Ok (default_level, loggers ++ map (build_logger default_level) grouped_modules).

(** [rust_log] is the variable of the environment, if it is there. *)
Definition parse_loggers_from_env (rust_log : option Text) : result (LevelFilter * list Logger) ParseLoggerError :=
  match rust_log with
  | Some var => parse_loggers var
  | None => Ok (DEFAULT_LOG_LEVEL_FILTER, [])
  end.

(** * What a list of directives means *)

(** A directive sets the default level, names a module, or gives a module a level;
    anything else is an error. *)
Inductive Directive : Type :=
| DDefault (level : LevelFilter)
| DModule (name : Text)
| DLevel (name : Text) (level : LevelFilter)
| DBad.

Definition directive (t : Text) : Directive :=
  match split_on EQUALS (trim t) with
  | name :: level :: _ =>
      match parse_level level with Some l => DLevel name l | None => DBad end
  | [name] => match parse_level name with Some l => DDefault l | None => DModule name end
  | [] => DBad
  end.

(** The level of the first directive that gives one, or the default. *)
Fixpoint next_level (default : LevelFilter) (l : list Directive) : LevelFilter :=
  match l with
  | DLevel _ level :: _ => level
  | _ :: l => next_level default l
  | [] => default
  end.

(** The last default level. *)
Fixpoint default_level (d : LevelFilter) (l : list Directive) : LevelFilter :=
  match l with
  | DDefault level :: l => default_level level l
  | _ :: l => default_level d l
  | [] => d
  end.

(** A logger for every module that is named, in order, with the level of the next
    directive that gives one. *)
Fixpoint loggers_of (default : LevelFilter) (l : list Directive) : list Logger :=
  match l with
  | DModule name :: l => build_logger (next_level default l) name :: loggers_of default l
  | DLevel name level :: l => build_logger level name :: loggers_of default l
  | _ :: l => loggers_of default l
  | [] => []
  end.

Definition no_bad (l : list Directive) : Prop := Forall (fun d => d <> DBad) l.

Lemma no_bad_check l : forallb (fun d => match d with DBad => false | _ => true end) l = true -> no_bad l.
Proof. rewrite forallb_forall. intros H. apply List.Forall_forall. intros d Hin ->. by apply H in Hin. Qed.

Lemma parse_directive_spec d loggers grouped t :
  parse_directive (d, loggers, grouped) t =
    match directive t with
    | DDefault level => Ok (level, loggers, grouped)
    | DModule name => Ok (d, loggers, grouped ++ [name])
    | DLevel name level =>
        Ok (d, loggers ++ map (build_logger level) grouped ++ [build_logger level name], [])
    | DBad => Err TheParseLoggerError
    end.
Proof.
  unfold parse_directive, directive. destruct (split_on EQUALS (trim t)) as [|name [|level rest]]; [done|..].
  - by destruct (parse_level name).
  - by destruct (parse_level level).
Qed.

#[local] Arguments parse_directive : simpl never.

(** The modules that wait get the level of the next directive that gives one. *)
Lemma parse_directives ds d loggers grouped :
  no_bad (map directive ds) ->
  exists loggers' grouped',
    fold_r parse_directive ds (d, loggers, grouped) = Ok (default_level d (map directive ds), loggers', grouped') /\
    forall final, loggers' ++ map (build_logger final) grouped' =
      loggers ++ map (build_logger (next_level final (map directive ds))) grouped ++
      loggers_of final (map directive ds).
Proof.
  revert d loggers grouped. induction ds as [|t ds IH]; intros d loggers grouped Hok; simpl.
  - exists loggers, grouped. split; [done|]. intros final. by rewrite app_nil_r.
  - apply List.Forall_cons_iff in Hok as [Ht Hok]. rewrite parse_directive_spec.
    destruct (directive t) as [level|name|name level|]; [..|done]; simpl.
    + destruct (IH level loggers grouped Hok) as (ls & g & H1 & H2). exists ls, g. split; [done|exact H2].
    + destruct (IH d loggers (grouped ++ [name]) Hok) as (ls & g & H1 & H2). exists ls, g. split; [done|].
      intros final. rewrite H2, map_app, <-app_assoc. done.
    + destruct (IH d (loggers ++ map (build_logger level) grouped ++ [build_logger level name]) [] Hok)
        as (ls & g & H1 & H2). exists ls, g. split; [done|]. intros final. rewrite H2. simpl.
      by rewrite <-!app_assoc.
Qed.

Lemma parse_directives_bad ds d loggers grouped :
  ~ no_bad (map directive ds) -> fold_r parse_directive ds (d, loggers, grouped) = Err TheParseLoggerError.
Proof.
  revert d loggers grouped. induction ds as [|t ds IH]; intros d loggers grouped Hbad.
  - destruct Hbad. constructor.
  - assert (directive t = DBad \/ ~ no_bad (map directive ds)) as Hcases.
    { destruct (directive t) eqn:Ht; [right..|by left]; intros Hok; apply Hbad; simpl; rewrite Ht; by constructor. }
    simpl. rewrite parse_directive_spec. destruct (directive t); simpl; try done;
      (destruct Hcases as [|Hds]; [done|by apply IH]).
Qed.

(** [RUST_LOG] is read as a list of directives.  It is refused exactly when some
    directive gives a module something that is no level; otherwise every module that is
    named has one logger, in the order they are named, with the level of the first
    directive from its own on that gives one, or else the default level, which is the
    last one that is given by itself, wherever it stands. *)
Theorem parse_loggers_spec input :
  let ds := map directive (directives input) in
  let default := default_level DEFAULT_LOG_LEVEL_FILTER ds in
  (no_bad ds -> parse_loggers input = Ok (default, loggers_of default ds)) /\
  (~ no_bad ds -> parse_loggers input = Err TheParseLoggerError).
Proof.
  intros ds default. unfold parse_loggers. split; intros Hds.
  - destruct (parse_directives _ DEFAULT_LOG_LEVEL_FILTER [] [] Hds) as (ls & g & -> & Hls). simpl.
    unfold default. rewrite Hls. done.
  - by rewrite parse_directives_bad.
Qed.
End filter.

(** * Writing the directives *)

(** Texts of the levels, which are read back. *)
Class LogLevelText `{!LogLevels} := {
  level_text : LevelFilter -> Text;
  level_text_parsed l : parse_level (level_text l) = Some l;
  level_text_plain l : level_text l <> [] /\ trimmed (level_text l) /\ (COMMA ∉ level_text l) /\ (EQUALS ∉ level_text l);
}.

Section print.
Context `{text : LogLevelText}.

Definition show_logger (l : Logger) : Text := logger_name l ++ EQUALS :: level_text (logger_level l).
Definition show_loggers (d : LevelFilter) (ls : list Logger) : Text :=
  join_with COMMA (level_text d :: map show_logger ls).

(** A name that survives the splitting and trimming. *)
Definition plain_module (name : Text) : Prop :=
  (COMMA ∉ name) /\ (EQUALS ∉ name) /\ match name with c :: _ => is_whitespace c = false | [] => True end.

Lemma show_logger_trimmed l : plain_module (logger_name l) -> trimmed (show_logger l).
Proof.
  intros (_ & _ & Hstart). destruct (level_text_plain (logger_level l)) as (Hne & [_ Hend] & _). unfold show_logger. split.
  - by destruct (logger_name l).
  - rewrite reverse_app, reverse_cons, <-app_assoc.
    destruct (reverse (level_text (logger_level l))) eqn:Hr; [|done].
    apply (f_equal reverse) in Hr. rewrite reverse_involutive in Hr. done.
Qed.

Lemma show_logger_directive l : plain_module (logger_name l) ->
  directive (show_logger l) = DLevel (logger_name l) (logger_level l).
Proof.
  intros Hl. pose proof Hl as (_ & He & _). destruct (level_text_plain (logger_level l)) as (_ & _ & _ & Hno).
  unfold directive. rewrite trim_trimmed by by apply show_logger_trimmed.
  unfold show_logger. rewrite split_on_app, split_on_single by done. by rewrite level_text_parsed.
Qed.

Lemma filter_nonempty (l : list Text) : Forall (fun t => t <> []) l -> filter (fun d => d <> []) l = l.
Proof. induction 1 as [|t l Ht _ IH]; [done|]. rewrite filter_cons_True by done. by rewrite IH. Qed.

(** What is written for a default level and a list of loggers is read as these. *)
Theorem show_loggers_parsed d ls :
  Forall (fun l => plain_module (logger_name l)) ls -> parse_loggers (show_loggers d ls) = Ok (d, ls).
Proof.
  intros Hls. destruct (level_text_plain d) as (Hne & Ht & Hc & He).
  assert (directives (show_loggers d ls) = level_text d :: map show_logger ls) as Hd.
  { unfold directives, show_loggers. rewrite split_on_join; [|done|].
    - replace (map trim _) with (level_text d :: map show_logger ls).
      + apply filter_nonempty. constructor; [done|]. apply list.Forall_forall.
        intros t (l & -> & _)%list_elem_of_fmap. unfold show_logger. by destruct (logger_name l).
      + simpl. rewrite trim_trimmed by done. f_equal. rewrite map_map. apply map_ext_in.
        intros l Hin. rewrite trim_trimmed; [done|]. apply show_logger_trimmed.
        rewrite list.Forall_forall in Hls. by apply Hls, list_elem_of_In.
    - constructor; [done|]. apply list.Forall_forall. intros t (l & -> & Hin)%list_elem_of_fmap.
      rewrite list.Forall_forall in Hls. destruct (Hls l Hin) as (Hn & _).
      destruct (level_text_plain (logger_level l)) as (_ & _ & Hlc & _). unfold show_logger.
      rewrite elem_of_app, elem_of_cons. unfold COMMA, EQUALS in *. intros [?|[?|?]]; done. }
  assert (map directive (directives (show_loggers d ls)) =
    DDefault d :: map (fun l => DLevel (logger_name l) (logger_level l)) ls) as Hds.
  { rewrite Hd. simpl. f_equal.
    - unfold directive. rewrite trim_trimmed, split_on_single by done. by rewrite level_text_parsed.
    - rewrite map_map. apply map_ext_in. intros l Hin. apply show_logger_directive.
      rewrite list.Forall_forall in Hls. by apply Hls, list_elem_of_In. }
  assert (forall d', default_level d' (map (fun l => DLevel (logger_name l) (logger_level l)) ls) = d') as Hdef
    by (intros d'; clear; by induction ls).
  assert (forall d', loggers_of d' (map (fun l => DLevel (logger_name l) (logger_level l)) ls) = ls) as Hlog.
  { intros d'. clear. induction ls as [|[n l] ls IH]; [done|]. simpl. by rewrite IH. }
  destruct (parse_directives (directives (show_loggers d ls)) DEFAULT_LOG_LEVEL_FILTER [] []) as (l & g & Hrun & Hl).
  { rewrite Hds. constructor; [done|]. apply list.Forall_forall. by intros t (x & -> & _)%list_elem_of_fmap. }
  unfold parse_loggers. rewrite Hrun. simpl. rewrite Hl, Hds. simpl. by rewrite Hdef, Hlog.
Qed.
End print.

(** * Levels *)

#[export] Instance ModelLevels : LogLevels := {|
  LevelFilter := Z;
  LevelWarn := 2%Z;
  parse_level t := fst <$> find (fun p => bool_decide (lit p.2 = t))
    [(0%Z, "off"); (1%Z, "error"); (2%Z, "warn"); (3%Z, "info"); (4%Z, "debug"); (5%Z, "trace")];
|}.

(** The text of the tests. *)
Example parse_loggers_spec_witness :
  let input := lit "info,foo::bar,baz=debug,a0, a1 , a2" in
  parse_loggers input = Ok (3%Z, [build_logger (4 : LevelFilter)%Z (lit "foo::bar"); build_logger (4 : LevelFilter)%Z (lit "baz");
    build_logger (3 : LevelFilter)%Z (lit "a0"); build_logger (3 : LevelFilter)%Z (lit "a1"); build_logger (3 : LevelFilter)%Z (lit "a2")]).
Proof.
  intros input. destruct (parse_loggers_spec input) as [H _].
  etransitivity; [apply H|vm_refl]. apply no_bad_check. vm_refl.
Defined.
