(* ===== verification/LogWebSocket.v ===== *)
(** The web socket of the remote logger ([safe_core/src/utils/logging/web_socket.rs]).

    Messages wait in a queue; a write sends what it can, in order, and connects again
    when sending fails, but not more often than every [RECONNECT_PERIOD].  The [ws]
    crate, the thread of its event loop and the clock are parameters. *)
From S2P Require Import Prelude RustText.

(** [ws::connect] on a thread of its own gives a sender once the handshake has
    succeeded, or an error; sending succeeds or not; the clock counts nanoseconds. *)
Class WsNet (N : Type) := {
  WsSender : Type;
  WsRequest : Type;
  ws_connect : Text -> option Text -> N -> option WsSender * N;
  ws_send : WsSender -> bytes -> N -> bool * N;
  ws_close : WsSender -> N -> N;
  instant_now : N -> Z * N;
  ws_header : WsRequest -> Text -> option bytes;
  ws_push_header : Text -> bytes -> WsRequest -> WsRequest;
}.

Section websocket.
Context {N : Type} `{net : !WsNet N}.

Definition RECONNECT_PERIOD : Z := 10.
Definition NANOS_PER_SEC : Z := 1000000000.
Definition MAX_BUFFERED_MESSAGES : Z := 500000.
Definition SESSION_ID_HEADER : Text := lit "SessionId".

Record WebSocket := {
  url : Text;
  session_id : option Text;
  socket : option WsSender;
  last_reconnect : Z;
  message_buffer : list bytes;
}.

(** The socket and what it talks to. *)
Record WsState := { ws : WebSocket; ws_net : N }.

Definition set_socket (s : option WsSender) (w : WebSocket) : WebSocket :=
  {| url := url w; session_id := session_id w; socket := s; last_reconnect := last_reconnect w;
     message_buffer := message_buffer w |}.
Definition set_last_reconnect (t : Z) (w : WebSocket) : WebSocket :=
  {| url := url w; session_id := session_id w; socket := socket w; last_reconnect := t;
     message_buffer := message_buffer w |}.
Definition set_message_buffer (b : list bytes) (w : WebSocket) : WebSocket :=
  {| url := url w; session_id := session_id w; socket := socket w; last_reconnect := last_reconnect w;
     message_buffer := b |}.

Abbreviation WS T := (M WsState Empty_set T).
Definition on_ws (f : WebSocket -> WebSocket) : WS unit := modify (fun s => {| ws := f (ws s); ws_net := ws_net s |}).
Definition on_net {T} (f : N -> T * N) : WS T := fun s =>
  let '(t, n) := f (ws_net s) in Ret t {| ws := ws s; ws_net := n |}.

Definition WebSocket_new (url : Text) (session_id : option Text) (n : N) : WebSocket * N :=
  let '(now, n) := instant_now n in
  let last_reconnect := (now - RECONNECT_PERIOD * NANOS_PER_SEC)%Z in
  let '(socket, n) := ws_connect url session_id n in
  ({| url := url; session_id := session_id; socket := socket; last_reconnect := last_reconnect;
      message_buffer := [] |}, n).

(** If the buffer is full the message is dropped. *)
Definition queue_message (msg : bytes) : WS unit :=
  on_ws (fun w =>
    if (Z.of_nat (length (message_buffer w)) <? MAX_BUFFERED_MESSAGES)%Z
    then set_message_buffer (message_buffer w ++ [msg]) w else w).

(** [get_sender().and_then(send).is_err()]. *)
Definition send_fails (msg : bytes) : WS bool :=
  let! s := gets (fun s => socket (ws s)) in
  match s with
  | Some sender => let! sent := on_net (ws_send sender msg) in ret (negb sent)
  | None => ret true
  end.

(** One round of the loop of [write_all]. *)
Definition write_attempt (_ : unit) : WS (Loop unit unit) :=
  let! buffer := gets (fun s => message_buffer (ws s)) in
  match buffer with
  | [] => ret (Break tt)
  | msg :: rest =>
      on_ws (set_message_buffer rest) ;!
      let! failed := send_fails msg in
      if (failed : bool) then
        on_ws (set_message_buffer (msg :: rest)) ;!
        let! now := on_net instant_now in
        let! last := gets (fun s => last_reconnect (ws s)) in
        (if (RECONNECT_PERIOD * NANOS_PER_SEC <=? now - last)%Z then
           on_ws (set_last_reconnect now) ;!
           let! u := gets (fun s => url (ws s)) in
           let! id := gets (fun s => session_id (ws s)) in
           let! s := on_net (ws_connect u id) in
           on_ws (set_socket s)
         else ret tt) ;!
        let! s := gets (fun s => socket (ws s)) in
        match s with
        | None => ret (Break tt)
        | Some _ => ret (Continue tt)
        end
      else ret (Continue tt)
  end.

Definition write_all (fuel : nat) (buf : bytes) : WS unit :=
  queue_message buf ;!
  loop_fn fuel tt write_attempt.

Definition WebSocket_drop (w : WebSocket) (n : N) : N :=
  match socket w with Some sender => ws_close sender n | None => n end.

(** The header of the handshake, on the side of the logger and of the server. *)
Definition build_request (session_id : option Text) (req : WsRequest) : WsRequest :=
  match session_id with
  | Some id => ws_push_header SESSION_ID_HEADER (into_bytes id) req
  | None => req
  end.

Definition validate_request (req : WsRequest) (expected_id : option Text) : bool :=
  match expected_id, ws_header req SESSION_ID_HEADER with
  | Some exp, Some obs => bool_decide (obs = into_bytes exp)
  | None, _ => true
  | Some _, None => false
  end.
End websocket.

(** * What a network does *)

(** What has been delivered, in order, and the time.  A message that is sent is
    delivered; one that is not is not. *)
Class WsLaws (N : Type) `{net : !WsNet N} := {
  delivered : N -> list bytes;
  clock : N -> Z;
  send_delivers w m n : let '(sent, n') := ws_send w m n in
    delivered n' = (if sent then delivered n ++ [m] else delivered n) /\ (clock n <= clock n')%Z;
  connect_delivers u i n : delivered (ws_connect u i n).2 = delivered n /\ (clock n <= clock (ws_connect u i n).2)%Z;
  now_spec n : let '(t, n') := instant_now n in
    delivered n' = delivered n /\ t = clock n' /\ (clock n < clock n')%Z;
  header_pushed k v r : ws_header (ws_push_header k v r) k = Some (default v (ws_header r k));
}.

Section proofs.
Context {N : Type} `{laws : WsLaws N}.

Abbreviation buf s := (message_buffer (ws s)).
Abbreviation sock s := (socket (ws s)).

(** All that was accepted, delivered or waiting. *)
Definition accepted (s : WsState) : list bytes := delivered (ws_net s) ++ buf s.

(** One round: nothing to do, a message sent, or sending failed, and then maybe a new
    connection. *)
Inductive round (s : WsState) : Loop unit unit -> WsState -> Prop :=
| RoundEmpty : buf s = [] -> round s (Break tt) s
| RoundSent m r s' w : buf s = m :: r -> sock s = Some w -> (ws_send w m (ws_net s)).1 = true -> buf s' = r -> accepted s' = accepted s ->
    sock s' = sock s -> last_reconnect (ws s') = last_reconnect (ws s) ->
    (clock (ws_net s) <= clock (ws_net s'))%Z -> round s (Continue tt) s'
| RoundFailed m r s' n : buf s = m :: r -> buf s' = buf s -> accepted s' = accepted s ->
    (clock (ws_net s) < clock n <= clock (ws_net s'))%Z ->
    n = (instant_now (match sock s with Some w => (ws_send w m (ws_net s)).2 | None => ws_net s end)).2 ->
    (if (RECONNECT_PERIOD * NANOS_PER_SEC <=? clock n - last_reconnect (ws s))%Z
     then last_reconnect (ws s') = clock n /\ exists u i, sock s' = (ws_connect u i n).1
     else ws s' = ws s /\ n = ws_net s') ->
    round s (match sock s' with None => Break tt | Some _ => Continue tt end) s'.

Abbreviation never := (fun _ => False).

Lemma send_fails_spec m s :
  wp (send_fails m) (fun failed s' => ws s' = ws s /\ (clock (ws_net s) <= clock (ws_net s'))%Z /\
    delivered (ws_net s') = (if (failed : bool) then delivered (ws_net s) else delivered (ws_net s) ++ [m]) /\
    (failed = false -> exists w, sock s = Some w /\ (ws_send w m (ws_net s)).1 = true) /\
    ws_net s' = match sock s with Some w => (ws_send w m (ws_net s)).2 | None => ws_net s end)
    (fun _ => never) never s.
Proof.
  unfold send_fails. apply wp_bind, wp_gets. destruct (sock s) as [w|]; [|apply wp_ret; simpl; by split_and!].
  apply wp_bind. unfold on_net, wp. pose proof (send_delivers w m (ws_net s)) as H.
  destruct (ws_send w m (ws_net s)) as [sent n] eqn:Hsend. destruct H as [Hd Hc]. simpl. destruct sent; simpl.
  - split_and!; [done..| |done]. intros _. exists w. by rewrite Hsend.
  - by split_and!.
Qed.

Lemma write_attempt_round s :
  wp (write_attempt tt) (fun r s' => round s r s') (fun _ => never) never s.
Proof.
  unfold write_attempt. apply wp_bind, wp_gets. destruct (buf s) as [|m r] eqn:Hb; [by apply wp_ret, RoundEmpty|].
  apply wp_bind, wp_modify, wp_bind. eapply wp_mono; [apply send_fails_spec|..]; [|done|done].
  intros failed s1 (Hw & Hc & Hd & Hok & Hn1). simpl in *. destruct failed.
  - apply wp_bind, wp_modify, wp_bind. unfold on_net at 1, wp at 1. simpl.
    pose proof (now_spec (ws_net s1)) as Hnow. destruct (instant_now (ws_net s1)) as [t n] eqn:Hi.
    destruct Hnow as (Hdn & -> & Hcn). apply wp_bind, wp_gets. simpl. rewrite Hw. simpl.
    apply wp_bind. destruct (RECONNECT_PERIOD * NANOS_PER_SEC <=? clock n - last_reconnect (ws s))%Z eqn:Htime.
    + apply wp_bind, wp_modify, wp_bind, wp_gets, wp_bind, wp_gets, wp_bind. unfold on_net, wp at 1. simpl.
      pose proof (connect_delivers (url (ws s)) (session_id (ws s)) n) as [Hdc Hcc].
      destruct (ws_connect (url (ws s)) (session_id (ws s)) n) as [sk n'] eqn:Hconn. simpl in *.
      apply wp_modify, wp_bind, wp_gets.
      match goal with |- wp _ _ _ _ ?st => set (s' := st) end.
      assert (round s (match sock s' with None => Break tt | Some _ => Continue tt end) s') as Hr.
      { apply RoundFailed with m r n; [done|by rewrite Hb| |simpl; lia|by rewrite <-Hn1, Hi|].
        - unfold accepted. simpl. by rewrite Hdc, Hdn, Hd, Hb.
        - rewrite Htime. split; [done|]. exists (url (ws s)), (session_id (ws s)). by rewrite Hconn. }
      destruct (sock s'); by apply wp_ret.
    + apply wp_ret, wp_bind, wp_gets.
      match goal with |- wp _ _ _ _ ?st => set (s' := st) end.
      assert (ws s' = ws s) as Hs' by (destruct s as [[u i sk l b] n0]; simpl in *; by rewrite Hb).
      assert (round s (match sock s' with None => Break tt | Some _ => Continue tt end) s') as Hr.
      { apply RoundFailed with m r n; [done|by rewrite Hs'| |simpl; lia|by rewrite <-Hn1, Hi|].
        - unfold accepted. rewrite Hs'. simpl. by rewrite Hdn, Hd.
        - by rewrite Htime. }
      destruct (sock s'); by apply wp_ret.
  - destruct (Hok eq_refl) as (w & Hsk & Hsent).
    apply wp_ret, RoundSent with m r w; [done..|by rewrite Hw| |by rewrite Hw|by rewrite Hw|done].
    unfold accepted. by rewrite Hw, Hd, Hb, <-app_assoc.
Qed.

Lemma round_keeps s r s' : round s r s' ->
  accepted s' = accepted s /\ (length (buf s') <= length (buf s))%nat /\
  match r with Break _ => buf s' = [] \/ sock s' = None | Continue _ => True end.
Proof.
  intros [Hb|m rest s1 w Hb _ _ Hb' Ha _ _ _|m rest s1 n Hb Hb' Ha _ _ _].
  - split_and!; [done|done|by left].
  - rewrite Hb, Hb'. split_and!; [done|simpl; lia|done].
  - rewrite Hb'. split_and!; [done|done|]. destruct (sock s1) eqn:Hs; [done|by right].
Qed.

Lemma write_loop fuel s :
  match loop_fn fuel tt write_attempt s with
  | Ret _ s' => buf s' = [] \/ sock s' = None
  | Pending _ => True
  | _ => False
  end /\
  accepted (final (loop_fn fuel tt write_attempt s)) = accepted s /\
  (length (buf (final (loop_fn fuel tt write_attempt s))) <= length (buf s))%nat.
Proof.
  revert s. induction fuel as [|fuel IH]; intros s; [by split_and!|]. cbn [loop_fn].
  pose proof (write_attempt_round s) as Hr. unfold wp, bind in *.
  destruct (write_attempt tt s) as [r s1| | |] eqn:Hrun; try done.
  apply round_keeps in Hr as (Ha & Hl & Hbreak). destruct r as [[]|[]]; simpl; [by split_and!|].
  destruct (IH s1) as (H1 & H2 & H3). split_and!; [done|by rewrite H2|lia].
Qed.

Lemma queue_message_spec m s : exists s1, queue_message m s = Ret tt s1 /\ ws_net s1 = ws_net s /\
  sock s1 = sock s /\ last_reconnect (ws s1) = last_reconnect (ws s) /\
  buf s1 = buf s ++ (if (Z.of_nat (length (buf s)) <? MAX_BUFFERED_MESSAGES)%Z then [m] else []).
Proof.
  unfold queue_message, on_ws, modify. eexists. split; [reflexivity|]. simpl.
  case_match; split_and!; try done. by rewrite app_nil_r.
Qed.

(** The remote logger neither loses nor reorders messages: what it has delivered
    followed by what waits is, at any time during a write, what it was before, followed
    by the new message, unless the queue was full when the new message was dropped.  The
    queue never grows beyond its bound, and a write ends with an empty queue or without
    a connection. *)
Theorem write_all_in_order fuel m s :
  (Z.of_nat (length (buf s)) <= MAX_BUFFERED_MESSAGES)%Z ->
  let s' := final (write_all fuel m s) in
  accepted s' = accepted s ++ (if (Z.of_nat (length (buf s)) <? MAX_BUFFERED_MESSAGES)%Z then [m] else []) /\
  (Z.of_nat (length (buf s')) <= MAX_BUFFERED_MESSAGES)%Z /\
  match write_all fuel m s with
  | Ret _ _ => buf s' = [] \/ sock s' = None
  | Pending _ => True
  | _ => False
  end.
Proof.
  intros Hlen s'. unfold s', write_all. destruct (queue_message_spec m s) as (s1 & Hq & Hn & _ & _ & Hb).
  rewrite (bind_Ret _ _ _ _ _ Hq). destruct (write_loop fuel s1) as (H1 & H2 & H3). split_and!.
  - rewrite H2. unfold accepted. by rewrite Hn, Hb, app_assoc.
  - assert (Z.of_nat (length (buf s1)) <= MAX_BUFFERED_MESSAGES)%Z; [|lia]. rewrite Hb, length_app.
    destruct (Z.ltb_spec (Z.of_nat (length (buf s))) MAX_BUFFERED_MESSAGES); simpl; lia.
  - clear -H1. by destruct (loop_fn fuel tt write_attempt s1).
Qed.

(** * Whether a write ends *)

(** Rounds left while no connection can be made: a message is sent, or time passes. *)
Definition rounds_left (s : WsState) : nat :=
  length (buf s) + Z.to_nat (last_reconnect (ws s) + RECONNECT_PERIOD * NANOS_PER_SEC - clock (ws_net s)).

Lemma round_progress s s' : (forall u i n, (ws_connect u i n).1 = None) ->
  round s (Continue tt) s' -> (rounds_left s' < rounds_left s)%nat.
Proof.
  intros Hdown Hr. inversion Hr as [|m rest s1 w Hb _ _ Hb' _ _ Hl Hc|m rest s1 n Hb Hb' _ Hc Hn Htime Heq]; subst s1.
  - unfold rounds_left. rewrite Hb, Hb', Hl. simpl. lia.
  - destruct (Z.leb_spec (RECONNECT_PERIOD * NANOS_PER_SEC) (clock n - last_reconnect (ws s))).
    + destruct Htime as (_ & u & i & Hs). rewrite Hdown in Hs. by rewrite Hs in Heq.
    + destruct Htime as [Hw ->]. unfold rounds_left. rewrite Hw. lia.
Qed.

(** While no connection can be made, a write ends: it sends what the old connection
    takes, and gives up once it was allowed to try a new one. *)
Theorem write_all_ends fuel m s :
  (forall u i n, (ws_connect u i n).1 = None) -> (rounds_left s + 1 < fuel)%nat ->
  exists s', write_all fuel m s = Ret tt s'.
Proof.
  intros Hdown Hfuel. unfold write_all. destruct (queue_message_spec m s) as (s1 & Hq & Hn & _ & Hl & Hb).
  rewrite (bind_Ret _ _ _ _ _ Hq). assert (rounds_left s1 < fuel)%nat as Hlt.
  { unfold rounds_left in *. rewrite Hn, Hl, Hb, length_app. case_match; simpl; lia. }
  clear -Hdown Hlt laws. revert s1 Hlt. induction fuel as [|fuel IH]; intros s1 Hlt; [lia|]. cbn [loop_fn].
  pose proof (write_attempt_round s1) as Hr. unfold wp, bind in *.
  destruct (write_attempt tt s1) as [[[]|[]] s2| | |] eqn:Hrun; try done; [by eexists|].
  apply IH. pose proof (round_progress s1 s2 Hdown Hr). lia.
Qed.

(** A connection that is gone, but whose loss is not known yet: sending fails, and until
    [RECONNECT_PERIOD] has passed no new connection is tried.  A round takes at most
    [d]. *)
Section gone.
Context (Hgone : forall w m n, (ws_send w m n).1 = false) (d : Z).
Context (Hd : forall w m n, (clock (instant_now (ws_send w m n).2).2 <= clock n + d)%Z).

Lemma round_spins s r s' :
  is_Some (sock s) -> buf s <> [] -> round s r s' ->
  (clock (ws_net s) + d < last_reconnect (ws s) + RECONNECT_PERIOD * NANOS_PER_SEC)%Z ->
  r = Continue tt /\ ws s' = ws s /\ (clock (ws_net s') <= clock (ws_net s) + d)%Z.
Proof using Hgone Hd.
  intros [w Hw] Hne Hr Htime.
  destruct Hr as [Hb|m rest s1 w' Hb Hs Hsent|m rest s1 n Hb Hb' _ Hc Hn Ht]; [done|by rewrite Hgone in Hsent|].
  rewrite Hw in Hn. pose proof (Hd w m (ws_net s)) as Hdn. rewrite <-Hn in Hdn.
  destruct (Z.leb_spec (RECONNECT_PERIOD * NANOS_PER_SEC) (clock n - last_reconnect (ws s))); [lia|].
  destruct Ht as [Hws Hnet]. rewrite Hws, Hw. split_and!; [done..|]. by rewrite <-Hnet.
Qed.

(** It keeps the thread that writes the log busy: the loop goes round as often as there
    is time for, sends nothing and does not wait. *)
Theorem write_all_spins fuel m s :
  is_Some (sock s) -> (Z.of_nat (length (buf s)) < MAX_BUFFERED_MESSAGES)%Z -> (0 <= d)%Z ->
  (clock (ws_net s) + d * Z.of_nat fuel < last_reconnect (ws s) + RECONNECT_PERIOD * NANOS_PER_SEC)%Z ->
  exists s', write_all fuel m s = Pending s' /\ buf s' = buf s ++ [m] /\ delivered (ws_net s') = delivered (ws_net s).
Proof using Hgone Hd.
  intros Hsock Hlen Hd0 Htime. unfold write_all. destruct (queue_message_spec m s) as (s1 & Hq & Hn & Hs & Hl & Hb).
  rewrite (bind_Ret _ _ _ _ _ Hq). rewrite (proj2 (Z.ltb_lt _ _) Hlen) in Hb.
  rewrite <-Hn, <-Hl in Htime. rewrite <-Hs in Hsock. rewrite <-Hb, <-Hn. assert (buf s1 <> []) as Hne by (rewrite Hb; by destruct (buf s)).
  clear Hq Hn Hs Hl Hb. revert s1 Htime Hsock Hne. induction fuel as [|fuel IH]; intros s1 Htime Hsock Hne; [by exists s1|].
  cbn [loop_fn]. pose proof (write_attempt_round s1) as Hr. unfold wp, bind in *.
  destruct (write_attempt tt s1) as [r s2| | |] eqn:Hrun; try done.
  destruct (round_spins s1 r s2 Hsock Hne Hr) as (-> & Hw & Hc); [nia|].
  destruct (IH s2) as (s3 & H3 & Hb3 & Hd3); [rewrite Hw; nia|by rewrite Hw|by rewrite Hw|].
  exists s3. split_and!; [done|by rewrite Hb3, Hw|]. rewrite Hd3. apply round_keeps in Hr as (Ha & _).
  unfold accepted in Ha. rewrite Hw in Ha. by apply app_inv_tail in Ha.
Qed.
End gone.

(** * The handshake *)

(** A server that expects a session lets in the loggers of this session, and a server
    that expects none lets in everyone. *)
Theorem handshake_accepted req id expected :
  ws_header req SESSION_ID_HEADER = None ->
  validate_request (build_request id req) expected =
    match expected, id with
    | None, _ => true
    | Some exp, Some i => bool_decide (into_bytes i = into_bytes exp)
    | Some _, None => false
    end.
Proof.
  intros Hno. unfold validate_request, build_request. destruct expected as [exp|]; [|done].
  destruct id as [i|]; [|by rewrite Hno]. by rewrite header_pushed, Hno.
Qed.
End proofs.

(** * A network of one server *)

Record ServerNet := { sn_up : bool; sn_delivered : list bytes; sn_clock : Z }.

Definition server_send (m : bytes) (n : ServerNet) : bool * ServerNet :=
  if sn_up n then (true, {| sn_up := true; sn_delivered := sn_delivered n ++ [m]; sn_clock := sn_clock n |})
  else (false, n).

#[export] Instance ModelWs : WsNet ServerNet := {|
  WsSender := unit;
  WsRequest := list (Text * bytes);
  ws_connect _ _ n := (if sn_up n then Some tt else None, n);
  ws_send _ m n := server_send m n;
  ws_close _ n := n;
  instant_now n :=
    let t := (sn_clock n + 1)%Z in
    (t, {| sn_up := sn_up n; sn_delivered := sn_delivered n; sn_clock := t |});
  ws_header r k := snd <$> find (fun p => bool_decide (p.1 = k)) r;
  ws_push_header k v r := r ++ [(k, v)];
|}.

#[export] Instance ModelWsLaws : WsLaws ServerNet.
Proof.
  refine {| delivered := sn_delivered; clock := sn_clock |}.
  - intros [] m n. simpl. unfold server_send. destruct (sn_up n); simpl; split; (done || lia).
  - intros u i n. simpl. split; (done || lia).
  - intros n. simpl. split_and!; (done || lia).
  - intros k v r. simpl. induction r as [|[k' v'] r IH]; simpl.
    + by rewrite bool_decide_eq_true_2.
    + by case_bool_decide.
Defined.

Definition ex_ws (up : bool) (buffer : list bytes) : WsState (N := ServerNet) :=
  {| ws := {| url := lit "ws://log"; session_id := Some (lit "7"); socket := Some tt; last_reconnect := 0;
              message_buffer := buffer |};
     ws_net := {| sn_up := up; sn_delivered := []; sn_clock := 0 |} |}.

Example write_all_in_order_witness :
  delivered (ws_net (final (write_all 4 [3%Z] (ex_ws true [[1%Z]; [2%Z]])))) ++
    message_buffer (ws (final (write_all 4 [3%Z] (ex_ws true [[1%Z]; [2%Z]])))) = [[1%Z]; [2%Z]; [3%Z]].
Proof.
  destruct (write_all_in_order 4 [3%Z] (ex_ws true [[1%Z]; [2%Z]])) as (H & _); [done|exact H].
Defined.

(** Nothing waits afterwards. *)
Example write_all_sends :
  delivered (ws_net (final (write_all 4 [3%Z] (ex_ws true [[1%Z]; [2%Z]])))) = [[1%Z]; [2%Z]; [3%Z]].
Proof. reflexivity. Qed.

(** A server that has gone away, and the time: for ten seconds, nobody notices. *)
#[export] Instance GoneWs : WsNet Z := {|
  WsSender := unit; WsRequest := list (Text * bytes);
  ws_connect _ _ t := (None, t); ws_send _ _ t := (false, t); ws_close _ t := t;
  instant_now t := let t' := (t + 1)%Z in (t', t');
  ws_header r k := snd <$> find (fun p => bool_decide (p.1 = k)) r;
  ws_push_header k v r := r ++ [(k, v)];
|}.
#[export] Instance GoneWsLaws : WsLaws Z.
Proof.
  refine {| delivered _ := []; clock t := t |}.
  - intros [] m n. simpl. split; (done || lia).
  - intros u i n. simpl. split; (done || lia).
  - intros n. simpl. split_and!; (done || lia).
  - exact (header_pushed (net := ModelWs)).
Defined.

Definition ex_gone : WsState (N := Z) :=
  {| ws := {| url := lit "ws://log"; session_id := None; socket := Some tt; last_reconnect := 0; message_buffer := [] |};
     ws_net := 0%Z |}.

Example write_all_spins_witness : exists s', write_all (Z.to_nat 9999999999) [3%Z] ex_gone = Pending s' /\
  message_buffer (ws s') = [[3%Z]] /\ delivered (ws_net s') = [].
Proof.
  apply (write_all_spins (N := Z) (laws := GoneWsLaws) (fun w m n => eq_refl) 1 (fun w m n => Z.le_refl _) (Z.to_nat 9999999999) [3%Z] ex_gone).
  - by eexists.
  - reflexivity.
  - lia.
  - rewrite Z2Nat.id by lia. reflexivity.
Defined.

Example write_all_ends_witness : exists s', write_all (Z.to_nat 10000000002) [3%Z] ex_gone = Ret tt s'.
Proof.
  apply (write_all_ends (N := Z) (laws := GoneWsLaws) (Z.to_nat 10000000002) [3%Z] ex_gone (fun u i n => eq_refl)).
  unfold rounds_left. cbn [message_buffer ws ex_gone length last_reconnect ws_net clock GoneWsLaws].
  unfold RECONNECT_PERIOD, NANOS_PER_SEC. lia.
Defined.
