(* ===== verification/ConfigFile.v ===== *)
(** The configuration file ([safe_core/src/config_handler.rs]) and what of it reaches
    the client and the mock vault.

    The directories of a project, the transport configuration and the parser of JSON
    belong to other crates; files are opened on the disk of the host. *)
From S2P Require Import Prelude RustText SafeNd SafeNdModel MockAccount MockVault CoreTypes.
From S2P Require Import ClientApi Recovery MDataInfo AuthTypes AppErrors AuthErrors.

Abbreviation OsString := bytes.

(** [mobile] says whether the target is Android or iOS. *)
Class ConfigExt `{!NdTypes, !CoreExt, !Host} := {
  mobile : bool;
  ProjectDirs : Type;
  dirs_from : string -> string -> string -> option ProjectDirs;
  dirs_from_path : OsString -> option ProjectDirs;
  dirs_config_dir : ProjectDirs -> Path;
  NodeInfo : Type;
  Contacts : Type;
  qp2p_default : QuicP2pConfig;
  (** [our_type] is [Client] and [bootstrap_cache_dir] is given, the rest is the default. *)
  qp2p_client : option Text -> QuicP2pConfig;
  hard_coded_contacts : QuicP2pConfig -> Contacts;
  insert_contact : NodeInfo -> QuicP2pConfig -> QuicP2pConfig;
  qp2p_configuration_error : string -> QuicP2pError;
  OpenFile : Type;
  io_not_found : IoErrorT -> bool;
}.

(** [serde_json::from_reader]. *)
Class FromReader `{!NdTypes, !CoreExt, !Host, !ConfigExt} (T : Type) :=
  from_reader : OpenFile -> result T JsonError.

Section config.
Context `{ndt : !NdTypes, core : !CoreExt, host : !Host, ext : !ConfigExt}.
Context `{rqp2p : !FromReader QuicP2pConfig, rnode : !FromReader NodeInfo}.

Definition CONFIG_DIR_QUALIFIER : string := "net".
Definition CONFIG_DIR_ORGANISATION : string := "MaidSafe".
Definition CONFIG_DIR_APPLICATION : string := "safe_core".
Definition CONFIG_FILE : OsString := into_bytes (lit "safe_core.config").
Definition VAULT_CONFIG_DIR_APPLICATION : string := "safe_vault".
Definition VAULT_CONNECTION_INFO_FILE : OsString := into_bytes (lit "vault_connection_info.config").

Definition DEFAULT_SAFE_CORE_PROJECT_DIRS : option ProjectDirs :=
  dirs_from CONFIG_DIR_QUALIFIER CONFIG_DIR_ORGANISATION CONFIG_DIR_APPLICATION.
Definition DEFAULT_VAULT_PROJECT_DIRS : option ProjectDirs :=
  dirs_from CONFIG_DIR_QUALIFIER CONFIG_DIR_ORGANISATION VAULT_CONFIG_DIR_APPLICATION.

(** [CONFIG_DIR_PATH], which [set_config_dir_path] sets, and the disk. *)
Record ConfigHost := {
  config_dir_path : option OsString;
  open_file : Path -> result OpenFile IoErrorT;
}.

Definition set_config_dir_path (path : OsString) (h : ConfigHost) : ConfigHost :=
  {| config_dir_path := Some path; open_file := open_file h |}.

Abbreviation R T := (result T CoreError).

Definition dirs (h : ConfigHost) : R ProjectDirs :=
  ok_or_r (match config_dir_path h with
           | Some custom_path => dirs_from_path custom_path
           | None => DEFAULT_SAFE_CORE_PROJECT_DIRS
           end) (Unexpected "Cannot determine project directory paths").

Definition vault_dirs (h : ConfigHost) : R ProjectDirs :=
  ok_or_r (match config_dir_path h with
           | Some custom_path => dirs_from_path custom_path
           | None => DEFAULT_VAULT_PROJECT_DIRS
           end) (Unexpected "Cannot determine vault directory paths").

Definition config_dir (h : ConfigHost) : R Path :=
  let? d := dirs h in Ok (dirs_config_dir d).

Definition read_config_file {T} `{!FromReader T} (h : ConfigHost) (dirs : ProjectDirs) (file : OsString) : R T :=
  match open_file h (join_path (dirs_config_dir dirs) (path_new file)) with
  | Ok file =>
      match from_reader file with
      | Ok t => Ok t
      | Err err => Err (core_error_from_json err)
      end
  | Err error => Err (IoError error)
  end.

Definition check_config_path_set (h : ConfigHost) : R unit :=
  match config_dir_path h with
  | None => Err (QuicP2p (qp2p_configuration_error "Boostrap cache directory not set"))
  | Some _ => Ok tt
  end.

(** The configuration of a client that has no file. *)
Definition no_file_config (h : ConfigHost) : R QuicP2pConfig :=
  let? _ := (if (mobile : bool) then check_config_path_set h else Ok tt) in
  let? custom_dir :=
    match config_dir_path h with
    | Some custom_path =>
        let? dir := ok_or_r (from_utf8 custom_path) (Unexpected "Config path is not a valid UTF-8 string") in
        Ok (Some dir)
    | None => Ok None
    end in
  Ok (qp2p_client custom_dir).

Definition read_qp2p_from_file (h : ConfigHost) : R QuicP2pConfig :=
  let? d := dirs h in
  let? config :=
    match read_config_file h d CONFIG_FILE with
    | Err (IoError err) => if io_not_found err then no_file_config h else Err (IoError err)
    | result => result
    end in
  let? v := vault_dirs h in
  Ok (match read_config_file h v VAULT_CONNECTION_INFO_FILE with
      | Ok node_info => insert_contact node_info config
      | Err _ => config
      end).

Definition Config_new (h : ConfigHost) : Config :=
  {| quic_p2p := match read_qp2p_from_file h with Ok config => config | Err _ => qp2p_default end;
     dev := None |}.

Definition get_config (h : ConfigHost) : Config := Config_new h.

(** [bootstrap_config] of [client/mod.rs]. *)
Definition bootstrap_contacts (h : ConfigHost) : R Contacts :=
  Ok (hard_coded_contacts (quic_p2p (Config_new h))).

(** * What is read *)

(** The file of the client, if the directories can be told. *)
Inductive file_state (h : ConfigHost) (d : ProjectDirs) (name : OsString) {T} `{!FromReader T} : result T CoreError -> Prop :=
| FileRead f t : open_file h (join_path (dirs_config_dir d) (path_new name)) = Ok f -> from_reader f = Ok t ->
    file_state h d name (Ok t)
| FileMalformed f e : open_file h (join_path (dirs_config_dir d) (path_new name)) = Ok f -> from_reader f = Err e ->
    file_state h d name (Err (core_error_from_json e))
| FileMissing e : open_file h (join_path (dirs_config_dir d) (path_new name)) = Err e -> file_state h d name (Err (IoError e)).

Lemma read_config_file_state {T} `{!FromReader T} h d name : file_state h d name (read_config_file h d name (T := T)).
Proof.
  unfold read_config_file. destruct (open_file h _) as [f|e] eqn:Hf; [|by apply FileMissing].
  destruct (from_reader f) as [t|e] eqn:Ht; [by eapply FileRead|by eapply FileMalformed].
Qed.

(** The contact of a vault that runs on this machine. *)
Definition with_local_vault (h : ConfigHost) (v : ProjectDirs) (config : QuicP2pConfig) : QuicP2pConfig :=
  match open_file h (join_path (dirs_config_dir v) (path_new VAULT_CONNECTION_INFO_FILE)) with
  | Ok f => match from_reader f with Ok node_info => insert_contact node_info config | Err _ => config end
  | Err _ => config
  end.

(** The configuration of a client.  When its directory can be told: a file that
    can be read gives the transport configuration; when there is none, the configuration
    is that of a client whose bootstrap cache is in the custom directory, if one was
    set; in both cases a vault that runs on this machine is added to the contacts.  A
    file that cannot be opened for another reason, or is malformed, counts for nothing,
    and so does the local vault: the default is used, without an error.  The options for
    developers are never read. *)
Theorem config_read h d v :
  dirs h = Ok d -> vault_dirs h = Ok v ->
  let at_ := join_path (dirs_config_dir d) (path_new CONFIG_FILE) in
  dev (Config_new h) = None /\
  (forall f c, open_file h at_ = Ok f -> from_reader f = Ok c ->
     quic_p2p (Config_new h) = with_local_vault h v c) /\
  (forall f e, open_file h at_ = Ok f -> from_reader (T := QuicP2pConfig) f = Err e -> json_error_io e = None ->
     quic_p2p (Config_new h) = qp2p_default) /\
  (forall e, open_file h at_ = Err e -> io_not_found e = false -> quic_p2p (Config_new h) = qp2p_default) /\
  (forall e, open_file h at_ = Err e -> io_not_found e = true ->
     quic_p2p (Config_new h) =
       match config_dir_path h with
       | Some custom => match from_utf8 custom with
                        | Some dir => with_local_vault h v (qp2p_client (Some dir))
                        | None => qp2p_default
                        end
       | None => if mobile then qp2p_default else with_local_vault h v (qp2p_client None)
       end).
Proof.
  intros Hd Hv at_.
  assert (forall config, (match read_config_file h v VAULT_CONNECTION_INFO_FILE with
      | Ok node_info => insert_contact node_info config | Err _ => config end) = with_local_vault h v config) as Hlocal.
  { intros config. unfold with_local_vault. destruct (read_config_file_state (T := NodeInfo) h v VAULT_CONNECTION_INFO_FILE)
      as [f t Hf Ht|f e Hf Ht|e Hf]; rewrite Hf; by rewrite ?Ht. }
  unfold Config_new. cbn [dev quic_p2p]. unfold read_qp2p_from_file. rewrite Hd. cbn [rbind].
  split_and!; [done|..].
  - intros f c Hf Hc. unfold read_config_file at 1. fold at_. rewrite Hf, Hc. cbn [rbind]. rewrite Hv. cbn [rbind]. apply Hlocal.
  - intros f e Hf He Hio. unfold read_config_file at 1. fold at_. rewrite Hf, He. unfold core_error_from_json.
    by rewrite Hio.
  - intros e He Hn. unfold read_config_file at 1. fold at_. by rewrite He, Hn.
  - intros e He Hn. unfold read_config_file at 1. fold at_. rewrite He, Hn. unfold no_file_config, check_config_path_set.
    rewrite Hv. destruct (config_dir_path h) as [custom|].
    + destruct mobile; cbn [rbind]; (destruct (from_utf8 custom); cbn [rbind ok_or_r]; [apply Hlocal|done]).
    + destruct mobile; cbn [rbind]; [done|apply Hlocal].
Qed.

(** Whatever the configuration file says, the mock vault of a process keeps its
    data in a file, at the default path, and limits coins, unless environment variables
    say otherwise: the options for developers, which the comments of the vault give a
    say, have none. *)
Theorem dev_options_ignored h :
  env_var "SAFE_MOCK_IN_MEMORY_STORAGE" = None -> env_var "SAFE_MOCK_UNLIMITED_COINS" = None ->
  env_var "SAFE_MOCK_VAULT_PATH" = None ->
  store (Vault_new (get_config h)) = FileStoreBox (FileStore_new temp_dir) /\
  unlimited_coins (get_config h) = false.
Proof.
  intros H1 H2 H3. unfold Vault_new, init_vault_store, unlimited_coins, init_vault_path. cbn [store dev get_config Config_new].
  by rewrite H1, H2, H3.
Qed.
End config.

(** * The path, over the two C interfaces *)

Section config_path.
Context `{ndt : !NdTypes, core : !CoreExt, host : !Host, ext : !ConfigExt, auth : !AuthExt}.

(** [CStr::to_str] of the path, and [From<Utf8Error>] of the two error types. *)
Definition app_set_config_dir_path (new_path : bytes) : M ConfigHost AppError unit :=
  match from_utf8 new_path with
  | Some _ => modify (set_config_dir_path new_path)
  | None => fail AppEncodeDecodeError
  end.
Definition auth_set_config_dir_path (new_path : bytes) : M ConfigHost AuthError unit :=
  match from_utf8 new_path with
  | Some _ => modify (set_config_dir_path new_path)
  | None => fail AuthEncodeDecodeError
  end.

(** A path that is text is the one the files are read from; any other changes nothing. *)
Lemma app_set_config_dir_path_ok t h :
  is_text t -> app_set_config_dir_path (into_bytes t) h =
    Ret tt {| config_dir_path := Some (into_bytes t); open_file := open_file h |}.
Proof. intros Ht. unfold app_set_config_dir_path. by rewrite from_utf8_into_bytes. Qed.
End config_path.

(** * A disk *)

(** A transport configuration: whether it is that of a client, the directory of its
    bootstrap cache, and its contacts.  A file is its bytes: the first says what it
    holds. *)
Definition ExQp2p : Type := bool * option Text * list Z.

Definition ExHost : Host := {|
  env_var := fun _ => None;
  temp_dir := "/tmp";
  path_join := fun a b => (a +:+ "/" +:+ b)%string;
  QuicP2pConfig := ExQp2p;
|}.

Definition ExConfig : ConfigExt (H1 := ExHost) := {|
  mobile := false;
  ProjectDirs := Path;
  dirs_from _ org app := Some (path_new (into_bytes (lit (String.append "/home/" (String.append org (String.append "/" app))))));
  dirs_from_path p := Some (path_new p);
  dirs_config_dir p := p;
  NodeInfo := Z; Contacts := list Z;
  qp2p_default := (false, None, []) : QuicP2pConfig (Host := ExHost);
  qp2p_client dir := (true, dir, []) : QuicP2pConfig (Host := ExHost);
  hard_coded_contacts c := (c : ExQp2p).2;
  insert_contact n c := let '(client, dir, l) := (c : ExQp2p) in (client, dir, l ++ [n]) : QuicP2pConfig (Host := ExHost);
  qp2p_configuration_error s := (s : QuicP2pError);
  OpenFile := bytes;
  io_not_found e := bool_decide ((e : string) = "not found"%string);
|}.

#[local] Existing Instance ExHost.
#[local] Existing Instance ExConfig.

#[local] Instance ReadQp2p : FromReader (QuicP2pConfig (Host := ExHost)) := fun f =>
  match f with
  | 1%Z :: l => Ok ((true, None, l) : QuicP2pConfig (Host := ExHost))
  | _ => Err ("malformed"%string : JsonError)
  end.
#[local] Instance ReadNode : FromReader (NodeInfo (ConfigExt := ExConfig)) := fun f =>
  match f with [n] => Ok (n : NodeInfo) | _ => Err ("malformed"%string : JsonError) end.

(** A custom directory, where only a vault has left its contact. *)
Definition ex_disk (p : Path) : result OpenFile IoErrorT :=
  if decide (p = path_new (into_bytes (lit "/data/vault_connection_info.config"))) then Ok ([7%Z] : OpenFile)
  else Err ("not found"%string : IoErrorT).
Definition ex_config_host : ConfigHost :=
  set_config_dir_path (into_bytes (lit "/data")) {| config_dir_path := None; open_file := ex_disk |}.

Example config_read_witness :
  quic_p2p (Config_new ex_config_host) = (true, Some (lit "/data"), [7%Z]).
Proof.
  destruct (config_read ex_config_host (path_new (into_bytes (lit "/data"))) (path_new (into_bytes (lit "/data"))))
    as (_ & _ & _ & _ & H).
  - reflexivity.
  - reflexivity.
  - etransitivity; [apply (H "not found"%string); vm_refl|vm_refl].
Defined.

Example dev_options_ignored_witness :
  store (Vault_new (get_config ex_config_host)) = FileStoreBox (FileStore_new "/tmp") /\
  unlimited_coins (get_config ex_config_host) = false.
Proof. apply (dev_options_ignored ex_config_host); reflexivity. Defined.
