(* ===== verification/LogAppender.v ===== *)
(** The appenders of the loggers ([safe_core/src/utils/logging/async_log.rs]): how they
    are made from the tables of a configuration, how a thread writes what was logged,
    and how messages are told apart on a stream.

    [log4rs], [serde_value] and [regex] are parameters, as are the sockets of the
    host. *)
From S2P Require Import Prelude RustText SafeNd SafeNdModel MockAccount CoreTypes LogWebSocket.

(** [serde_value::Value]. *)
Inductive ValueView (V : Type) `{Countable V} : Type :=
| IsMap (m : gmap V V)
| IsString (t : Text)
| IsBool (b : bool)
| IsOther.
Arguments IsMap {V _ _} m.
Arguments IsString {V _ _} t.
Arguments IsBool {V _ _} b.
Arguments IsOther {V _ _}.

Class LogExt `{!NdTypes, !CoreExt} := {
  Value : Type;
  Value_eq :: EqDecision Value;
  Value_countable :: Countable Value;
  VString : Text -> Value;
  value_view : Value -> ValueView Value;
  (** [log::Record], [log4rs::encode]. *)
  LogRecord : Type;
  Encoder : Type;
  EncodeError : Type;
  pattern_encoder : Text -> Encoder;
  default_pattern : Encoder;
  json_encoder : Encoder;
  encode_record : Encoder -> LogRecord -> result bytes EncodeError;
  (** The first match of a pattern: its first group; and its replacement. *)
  re_captures : Text -> Text -> option (option Text);
  re_replace : Text -> Text -> Text -> Text;
  SocketAddr : Type;
  AddrParseError : Type;
  parse_socket_addr : Text -> result SocketAddr AddrParseError;
  io_debug : IoErrorT -> string;
  (** A TCP connection that has been made. *)
  TcpStream : Type;
  tcp_connect : SocketAddr -> result TcpStream IoErrorT;
  tcp_set_nodelay : TcpStream -> bool -> result unit IoErrorT;
}.

(** [OpenOptions] of the standard library. *)
Record OpenOptions := {
  oo_read : bool; oo_write : bool; oo_append : bool; oo_truncate : bool; oo_create : bool }.

#[export] Instance Component_countable : Countable Component.
Proof.
  refine (inj_countable' (fun c => match c with RootDir => inl 0 | CurDir => inl 1 | ParentDir => inl 2 | Normal n => inr n end)
    (fun s => match s with inl 0 => RootDir | inl 1 => CurDir | inl _ => ParentDir | inr n => Normal n end) _).
  by intros [].
Defined.

Section appender.
Context `{ndt : !NdTypes, core : !CoreExt, ext : !LogExt}.
Context {N : Type} `{wsn : !WsNet N}.

(** * The host *)

(** The files that can be opened and what they hold, the seconds since the epoch, and
    the network of the web socket. *)
Record LogHost := {
  lh_files : gmap Path bytes;
  lh_refused : Path -> option IoErrorT;
  lh_secs : option Z;
  lh_config_dir : result Path CoreError;
  lh_net : N;
}.
Definition set_files (f : gmap Path bytes) (h : LogHost) : LogHost :=
  {| lh_files := f; lh_refused := lh_refused h; lh_secs := lh_secs h; lh_config_dir := lh_config_dir h; lh_net := lh_net h |}.
Definition set_net (n : N) (h : LogHost) : LogHost :=
  {| lh_files := lh_files h; lh_refused := lh_refused h; lh_secs := lh_secs h; lh_config_dir := lh_config_dir h; lh_net := n |}.

Inductive LogError : Type :=
| LConfig (msg : string)
| LIo (e : IoErrorT)
| LCore (e : CoreError)
| LAddr (e : AddrParseError)
| LEncode (e : EncodeError)
| LSend.

Abbreviation L T := (M LogHost LogError T).

Definition open (o : OpenOptions) (path : Path) : M LogHost IoErrorT unit := fun h =>
  match lh_refused h path with
  | Some e => Fail e h
  | None => Ret tt (set_files (<[path := if oo_truncate o then [] else default [] (lh_files h !! path)]> (lh_files h)) h)
  end.

(** * Builders *)

(** What a thread writes to. *)
Inductive Writer : Type :=
| WStdout
| WFile (path : Path)
| WTcp (stream : TcpStream)
| WWebSocket (socket : WebSocket (N := N)).

Record AsyncAppender := { ap_writer : Writer; ap_encoder : Encoder }.

Record AsyncFileAppenderBuilder := {
  fb_path : Path; fb_encoder : Encoder; fb_append : bool; fb_timestamp : bool }.
Definition file_builder (path : Path) : AsyncFileAppenderBuilder :=
  {| fb_path := path; fb_encoder := default_pattern; fb_append := true; fb_timestamp := false |}.
Definition file_encoder (e : Encoder) (b : AsyncFileAppenderBuilder) : AsyncFileAppenderBuilder :=
  {| fb_path := fb_path b; fb_encoder := e; fb_append := fb_append b; fb_timestamp := fb_timestamp b |}.
Definition file_append (append : bool) (b : AsyncFileAppenderBuilder) : AsyncFileAppenderBuilder :=
  {| fb_path := fb_path b; fb_encoder := fb_encoder b; fb_append := append; fb_timestamp := fb_timestamp b |}.
Definition file_timestamp (timestamp : bool) (b : AsyncFileAppenderBuilder) : AsyncFileAppenderBuilder :=
  {| fb_path := fb_path b; fb_encoder := fb_encoder b; fb_append := fb_append b; fb_timestamp := timestamp |}.
Definition file_build (b : AsyncFileAppenderBuilder) : M LogHost IoErrorT AsyncAppender :=
  (if fb_append b
   then open {| oo_read := false; oo_write := true; oo_append := true; oo_truncate := false; oo_create := true |} (fb_path b)
   else open {| oo_read := false; oo_write := true; oo_append := false; oo_truncate := true; oo_create := true |} (fb_path b)) ;!
  ret {| ap_writer := WFile (fb_path b); ap_encoder := fb_encoder b |}.

Record AsyncServerAppenderBuilder := { sb_addr : SocketAddr; sb_encoder : Encoder; sb_no_delay : bool }.
Definition server_builder (addr : SocketAddr) : AsyncServerAppenderBuilder :=
  {| sb_addr := addr; sb_encoder := default_pattern; sb_no_delay := true |}.
Definition server_build (b : AsyncServerAppenderBuilder) : result AsyncAppender IoErrorT :=
  let? stream := tcp_connect (sb_addr b) in
  let? _ := tcp_set_nodelay stream (sb_no_delay b) in
  Ok {| ap_writer := WTcp stream; ap_encoder := sb_encoder b |}.

Record AsyncWebSockAppenderBuilder := { wb_url : Text; wb_session_id : option Text; wb_encoder : Encoder }.
Definition websock_builder (url : Text) : AsyncWebSockAppenderBuilder :=
  {| wb_url := url; wb_session_id := None; wb_encoder := default_pattern |}.
Definition websock_build (b : AsyncWebSockAppenderBuilder) : M LogHost IoErrorT AsyncAppender := fun h =>
  let '(ws, n) := WebSocket_new (wb_url b) (wb_session_id b) (lh_net h) in
  Ret {| ap_writer := WWebSocket ws; ap_encoder := wb_encoder b |} (set_net n h).

Definition console_build (encoder : Encoder) : AsyncAppender :=
  {| ap_writer := WStdout; ap_encoder := encoder |}.

(** * Appenders from a configuration *)

Definition key (k : string) : Value := VString (lit k).

Definition config_map (config : Value) : result (gmap Value Value) LogError :=
  match value_view config with
  | IsMap map => Ok map
  | _ => Err (LConfig "config must be a map")
  end.

Definition parse_pattern (map : gmap Value Value) (is_websocket : bool) :
    result (Encoder * gmap Value Value) LogError :=
  let rest := delete (key "pattern") map in
  match value_view <$> map !! key "pattern" with
  | Some (IsString pattern) => Ok (pattern_encoder pattern, rest)
  | Some _ => Err (LConfig "`pattern` must be a string")
  | None => Ok (if is_websocket then json_encoder else default_pattern, rest)
  end.

(** An optional boolean. *)
Definition parse_bool (map : gmap Value Value) (k msg : string) (dft : bool) :
    result (bool * gmap Value Value) LogError :=
  let rest := delete (key k) map in
  match value_view <$> map !! key k with
  | Some (IsBool b) => Ok (b, rest)
  | Some _ => Err (LConfig msg)
  | None => Ok (dft, rest)
  end.

Definition console_deserialize (config : Value) : L AsyncAppender :=
  let! map := lift_result (config_map config) in
  let! (pattern, map) := lift_result (parse_pattern map false) in
  ret (console_build pattern).

(** The name of a file with the time put into it. *)
Definition timestamped (op_file : Text) (secs : option Z) : Text :=
  let path := path_new (into_bytes op_file) in
  let path_owned :=
    match file_stem path ≫= from_utf8, secs, extension path ≫= from_utf8 with
    | Some stem, Some dur, Some ext =>
        set_file_name (into_bytes (stem ++ lit "-" ++ decimal dur ++ lit "." ++ ext)) path
    | _, _, _ => path
    end in
  match file_name path_owned ≫= from_utf8 with
  | Some f => f
  | None => op_file
  end.

Definition output_file_name (op_file_name_override : option Text) (map : gmap Value Value) :
    result (Text * gmap Value Value) LogError :=
  match op_file_name_override with
  | Some op_file => Ok (op_file, map)
  | None =>
      let rest := delete (key "output_file_name") map in
      match value_view <$> map !! key "output_file_name" with
      | Some (IsString op_file) => Ok (op_file, rest)
      | Some _ => Err (LConfig "`output_file_name` must be a string")
      | None => Err (LConfig "`output_file_name` is required")
      end
  end.

Definition file_deserialize (op_file_name_override : option Text) (config : Value) : L AsyncAppender :=
  let! map := lift_result (config_map config) in
  let! (op_file, map) := lift_result (output_file_name op_file_name_override map) in
  let! (timestamp, map) := lift_result (parse_bool map "file_timestamp" "`file_timestamp` must be a boolean" false) in
  let! secs := gets lh_secs in
  let op_file := if (timestamp : bool) then timestamped op_file secs else op_file in
  let! dir := gets lh_config_dir in
  let! dir := lift_result (match dir with Ok d => Ok d | Err e => Err (LCore e) end) in
  let write_file_path := join_path dir (path_new (into_bytes op_file)) in
  map_err (fun e => LConfig (String.append "Could not establish log file path: " (io_debug e)))
    (open {| oo_read := true; oo_write := true; oo_append := false; oo_truncate := false; oo_create := true |}
       write_file_path) ;!
  let! (append, map) := lift_result (parse_bool map "append" "`append` must be a bool" false) in
  let! (pattern, map) := lift_result (parse_pattern map false) in
  map_err LIo (file_build (file_timestamp timestamp (file_append append (file_encoder pattern
    (file_builder write_file_path))))).

Definition server_deserialize (config : Value) : L AsyncAppender :=
  let! map := lift_result (config_map config) in
  let rest := delete (key "server_addr") map in
  let! server_addr := lift_result
    match value_view <$> map !! key "server_addr" with
    | Some (IsString addr) =>
        match parse_socket_addr addr with Ok a => Ok a | Err e => Err (LAddr e) end
    | Some _ => Err (LConfig "`server_addr` must be a string")
    | None => Err (LConfig "`server_addr` is required")
    end in
  let! (no_delay, map) := lift_result (parse_bool rest "no_delay" "`no_delay` must be a boolean" true) in
  let! (pattern, map) := lift_result (parse_pattern map false) in
  lift_result (match server_build {| sb_addr := server_addr; sb_encoder := pattern; sb_no_delay := no_delay |} with
               | Ok a => Ok a
               | Err e => Err (LIo e)
               end).

Definition websock_deserialize (config : Value) : L AsyncAppender :=
  let! map := lift_result (config_map config) in
  let rest := delete (key "server_url") map in
  let! server_url := lift_result
    match value_view <$> map !! key "server_url" with
    | Some (IsString url) => Ok url
    | Some _ => Err (LConfig "`server_url` must be a string")
    | None => Err (LConfig "`server_url` is required")
    end in
  let map := delete (key "session_id") rest in
  let! session_id := lift_result
    match value_view <$> rest !! key "session_id" with
    | Some (IsString id) => Ok (Some id)
    | Some _ => Err (LConfig "`session_id` must be a string")
    | None => Ok None
    end in
  let! (pattern, map) := lift_result (parse_pattern map true) in
  map_err LIo (websock_build {| wb_url := server_url; wb_session_id := session_id; wb_encoder := pattern |}).

(** * Files with the time in their name *)

Lemma ascii_text t : Forall (fun c => 0 <= c < 128)%Z t -> is_text t.
Proof. intros Ht. eapply List.Forall_impl; [|exact Ht]. intros c Hc. simpl in Hc. unfold is_char. by ztest. Qed.

Lemma decimal_text n : is_text (decimal n).
Proof. apply ascii_text. eapply List.Forall_impl; [|apply decimal_digits]. intros c Hc. simpl in *. lia. Qed.

(** A name of the form [stem.ext]. *)
Definition dotted (stem suffix : Text) : Text := stem ++ DOT :: suffix.

Lemma dotted_name stem suffix : is_text stem -> is_text suffix ->
  (SLASH ∉ stem) -> (SLASH ∉ suffix) -> (DOT ∉ suffix) -> stem <> [] -> stem <> [DOT] -> suffix <> [] ->
  plain_name (into_bytes (dotted stem suffix)) /\ into_bytes (dotted stem suffix) = dotted (into_bytes stem) (into_bytes suffix) /\
  is_text (dotted stem suffix).
Proof.
  intros Hts Hte Hs1 Hs2 Hd Hne Hdot Hext.
  assert (is_text (dotted stem suffix)) as Ht.
  { unfold dotted. apply List.Forall_app. split; [exact Hts|]. constructor; [reflexivity|exact Hte]. }
  assert (into_bytes (dotted stem suffix) = dotted (into_bytes stem) (into_bytes suffix)) as Heq
    by (unfold dotted; rewrite into_bytes_app; done).
  assert (forall t, into_bytes t = [] -> t = []) as Hnil.
  { intros [|c t]; [done|]. unfold into_bytes. simpl. unfold utf8_char. by repeat case_match. }
  split_and!; [|done..]. split.
  - rewrite ascii_in_bytes by (unfold SLASH; (lia || done)). unfold dotted.
    rewrite elem_of_app, elem_of_cons. unfold SLASH, DOT in *. intros [?|[?|?]]; done.
  - rewrite Heq. unfold dotted. split_and!.
    + by destruct (into_bytes stem).
    + intros Hc. destruct (into_bytes stem) as [|x [|y l]] eqn:Hb; [by apply Hnil in Hb| |]; discriminate.
    + intros Hc. destruct (into_bytes stem) as [|x [|y l]] eqn:Hb; [by apply Hnil in Hb| |].
      * injection Hc as _ Hc. by apply Hnil in Hc.
      * injection Hc as _ Hc. by destruct l.
Qed.

(** A log file in a directory, with the time in its name: the directory is lost, and
    the file is made next to the configuration. *)
Lemma timestamped_loses_directory dir stem suffix secs :
  is_text dir -> is_text stem -> is_text suffix ->
  (SLASH ∉ stem) -> (SLASH ∉ suffix) -> (DOT ∉ suffix) -> stem <> [] -> stem <> [DOT] -> suffix <> [] ->
  timestamped (dir ++ SLASH :: dotted stem suffix) (Some secs) =
    dotted (stem ++ lit "-" ++ decimal secs) suffix.
Proof.
  intros Htd Hts Hte Hs1 Hs2 Hd Hne Hdot Hext.
  destruct (dotted_name stem suffix) as (Hplain & Hbytes & Ht); [done..|].
  assert (into_bytes (dir ++ SLASH :: dotted stem suffix) = into_bytes dir ++ SLASH :: into_bytes (dotted stem suffix)) as Hb
    by (rewrite into_bytes_app; done).
  assert (file_name (path_new (into_bytes (dir ++ SLASH :: dotted stem suffix))) = Some (into_bytes (dotted stem suffix))) as Hname
    by (rewrite Hb; by apply file_name_last).
  assert (DOT ∉ into_bytes suffix) as Hde by (rewrite ascii_in_bytes by (unfold DOT; (lia || done)); done).
  assert (into_bytes stem <> []) as Hnb.
  { destruct stem as [|c t]; [done|]. unfold into_bytes. simpl. unfold utf8_char. by repeat case_match. }
  unfold timestamped. set (path := path_new _) in *.
  assert (file_stem path = Some (into_bytes stem)) as ->.
  { unfold file_stem. rewrite Hname, Hbytes. simpl. unfold dotted. rewrite split_last_dot_app by done. by rewrite decide_False. }
  assert (extension path = Some (into_bytes suffix)) as ->.
  { unfold extension. rewrite Hname, Hbytes. simpl. unfold dotted. rewrite split_last_dot_app by done. by rewrite decide_False. }
  cbn [mbind option_bind]. rewrite !from_utf8_into_bytes by done.
  assert (forall c, c ∈ lit "-" ++ decimal secs -> (45 <= c <= 57 /\ c <> SLASH)%Z) as Hdig.
  { intros c [Hc|Hc]%elem_of_app.
    - apply list_elem_of_singleton in Hc as ->. done.
    - pose proof (decimal_digits secs) as Hall. rewrite list.Forall_forall in Hall. specialize (Hall c Hc). unfold SLASH. lia. }
  assert (is_text (lit "-" ++ decimal secs)) as Htd2.
  { apply ascii_text, list.Forall_forall. intros c Hc. specialize (Hdig c Hc). lia. }
  destruct (dotted_name (stem ++ lit "-" ++ decimal secs) suffix) as (Hplain' & _ & Ht'); [by apply List.Forall_app|done| |done|done| | |done|].
  { rewrite elem_of_app. intros [?|Hc]; [done|]. by apply Hdig in Hc as [_ ?]. }
  { by destruct stem. }
  { intros Hc. apply (f_equal length) in Hc. rewrite !length_app in Hc. destruct stem; [done|]. simpl in Hc. lia. }
  replace (stem ++ lit "-" ++ decimal secs ++ lit "." ++ suffix) with (dotted (stem ++ lit "-" ++ decimal secs) suffix)
    by (unfold dotted; rewrite <-!app_assoc; done).
  rewrite file_name_set by done. cbn [mbind option_bind]. by rewrite from_utf8_into_bytes.
Qed.

(** * A file appender *)

Ltac next := erewrite bind_Ret by reflexivity; cbv beta iota.

Context (key_inj : forall k k', key k = key k' -> k = k').

Lemma parse_bool_other map k msg dft b rest k' :
  parse_bool map k msg dft = Ok (b, rest) -> k' <> k -> rest !! key k' = map !! key k'.
Proof using key_inj.
  unfold parse_bool. intros H Hne. repeat case_match; simplify_eq; apply lookup_delete_ne; intros ?%key_inj; congruence.
Qed.

(** The table says where: relative to the directory of the configuration, which file is
    opened, whether what it held stays, and how messages are encoded. *)
Theorem file_appender_opened config map f append pattern dir h :
  value_view config = IsMap map -> value_view <$> map !! key "output_file_name" = Some (IsString f) ->
  map !! key "file_timestamp" = None -> lh_config_dir h = Ok dir ->
  let path := join_path dir (path_new (into_bytes f)) in
  lh_refused h path = None ->
  match append with
  | Some a => value_view <$> map !! key "append" = Some (IsBool a)
  | None => map !! key "append" = None
  end ->
  value_view <$> map !! key "pattern" = pattern ->
  let opened (keep : bool) := set_files (<[path := if keep then default [] (lh_files h !! path) else []]> (lh_files h)) h in
  file_deserialize None config h =
    match pattern with
    | Some (IsString p) => Ret {| ap_writer := WFile path; ap_encoder := pattern_encoder p |} (opened (default false append))
    | None => Ret {| ap_writer := WFile path; ap_encoder := default_pattern |} (opened (default false append))
    | Some _ => Fail (LConfig "`pattern` must be a string") (opened true)
    end.
Proof using key_inj.
  intros Hm Hf Ht Hd path Hr Ha Hp opened. unfold file_deserialize, config_map. rewrite Hm. next.
  unfold output_file_name. rewrite Hf. next. unfold parse_bool at 1.
  rewrite lookup_delete_ne, Ht by (intros ?%key_inj; done). do 3 next.
  rewrite Hd. next. fold path.
  assert (forall o files, open o path (set_files files h) = Ret tt (set_files (<[path := if oo_truncate o then [] else default [] (files !! path)]> files) h)) as Hopen.
  { intros o files. unfold open. cbn [lh_refused set_files lh_files]. by rewrite Hr. }
  replace h with (set_files (lh_files h) h) at 1 by by destruct h.
  erewrite bind_Ret by (unfold map_err, or_else; rewrite Hopen; reflexivity). cbn [oo_truncate].
  unfold parse_bool at 1. rewrite !lookup_delete_ne by (intros ?%key_inj; done).
  assert (forall (a : bool) m, m !! key "pattern" = map !! key "pattern" ->
    (let! (pattern0, map0) := lift_result (parse_pattern m false) in
     map_err LIo (file_build (file_timestamp false (file_append a (file_encoder pattern0 (file_builder path))))))
      (opened true) =
    match pattern with
    | Some (IsString p) => Ret {| ap_writer := WFile path; ap_encoder := pattern_encoder p |} (opened a)
    | None => Ret {| ap_writer := WFile path; ap_encoder := default_pattern |} (opened a)
    | Some _ => Fail (LConfig "`pattern` must be a string") (opened true)
    end) as Hend.
  { intros a m Hmp. unfold parse_pattern. rewrite Hmp, Hp.
    assert (forall e, file_build (file_timestamp false (file_append a (file_encoder e (file_builder path)))) (opened true) =
      Ret {| ap_writer := WFile path; ap_encoder := e |} (opened a)) as Hbuild.
    { intros e. unfold file_build, bind. cbn [fb_append fb_path fb_encoder file_timestamp file_append file_encoder file_builder].
      unfold opened. destruct a; rewrite Hopen; cbn [oo_truncate]; by rewrite ?lookup_insert_eq, insert_insert_eq. }
    unfold bind, map_err, or_else. destruct pattern as [[]|]; cbn [lift_result ret fail]; try done; by rewrite Hbuild. }
  destruct append as [a|]; rewrite Ha; cbn [fmap option_fmap]; next;
    apply Hend; rewrite !lookup_delete_ne by (intros ?%key_inj; done); done.
Qed.
End appender.
