(* ===== verification/LogThread.v ===== *)
(** The thread of an appender ([AsyncAppender] of
    [safe_core/src/utils/logging/async_log.rs]): what is logged goes through a channel
    to a thread that writes it, and on a stream of messages each is followed by
    [MSG_TERMINATOR]. *)
From S2P Require Import Prelude RustText SafeNd SafeNdModel MockAccount CoreTypes LogWebSocket LogAppender.

(** * Streams *)

(** What has been written, and which of the writes to come fail, and after how many
    bytes. *)
Record Stream := { st_written : bytes; st_faults : list (option nat) }.

Definition stream_write_all (buf : bytes) (s : Stream) : bool * Stream :=
  match st_faults s with
  | Some n :: f => (false, {| st_written := st_written s ++ take n buf; st_faults := f |})
  | None :: f => (true, {| st_written := st_written s ++ buf; st_faults := f |})
  | [] => (true, {| st_written := st_written s ++ buf; st_faults := [] |})
  end.
Definition stream_flush (s : Stream) : bool * Stream := stream_write_all [] s.

(** [a?; b]. *)
Definition and_then (a b : Stream -> bool * Stream) (s : Stream) : bool * Stream :=
  let '(ok, s) := a s in if ok then b s else (false, s).

Definition MSG_TERMINATOR : bytes := [254%Z; 253%Z; 255%Z].

(** [SyncWrite] for standard output and files, and for TCP streams. *)
Definition stdout_sync_write (buf : bytes) : Stream -> bool * Stream :=
  and_then (stream_write_all buf) stream_flush.
Definition file_sync_write (buf : bytes) : Stream -> bool * Stream :=
  and_then (stream_write_all buf) stream_flush.
Definition tcp_sync_write (buf : bytes) : Stream -> bool * Stream :=
  and_then (stream_write_all buf) (stream_write_all MSG_TERMINATOR).

(** [SyncWrite] for the web socket. *)
Definition websocket_sync_write {N} `{!WsNet N} (fuel : nat) (buf : bytes) (s : WsState (N := N)) : WsState (N := N) :=
  final (LogWebSocket.write_all fuel buf s).

(** * The thread *)

Section thread.
Context `{ndt : !NdTypes, core : !CoreExt, ext : !LogExt}.
Context {N : Type} `{wsn : !WsNet N}.
Context {W : Type} (sync_write : bytes -> W -> W).

Inductive AsyncEvent : Type :=
| EvLog (msg : bytes)
| EvTerminate.

Definition FILE_NAME_PATTERN : Text := lit "#FS#?.*[/\\#]([^#]+)#FE#".

(** The path between the marks becomes the name of the file. *)
Definition shorten (str_msg : Text) : Text :=
  match re_captures FILE_NAME_PATTERN str_msg with
  | Some (Some file_name) => re_replace FILE_NAME_PATTERN str_msg file_name
  | _ => str_msg
  end.

(** A message that is not UTF-8 is left out, and errors of the writer are ignored. *)
Definition log_event (writer : W) (msg : bytes) : W :=
  match from_utf8 msg with
  | Some str_msg => sync_write (into_bytes (shorten str_msg)) writer
  | None => writer
  end.

Record LogThread := {
  lt_queue : list AsyncEvent; lt_writer : W; lt_running : bool; lt_dropped : bool }.

Definition AsyncAppender_new (writer : W) : LogThread :=
  {| lt_queue := []; lt_writer := writer; lt_running := true; lt_dropped := false |}.

(** One round of [for event in rx.iter()]. *)
Definition thread_round (t : LogThread) : LogThread :=
  if lt_running t then
    match lt_queue t with
    | EvLog msg :: q =>
        {| lt_queue := q; lt_writer := log_event (lt_writer t) msg; lt_running := true; lt_dropped := lt_dropped t |}
    | EvTerminate :: q =>
        {| lt_queue := q; lt_writer := lt_writer t; lt_running := false; lt_dropped := lt_dropped t |}
    | [] => t
    end
  else t.

(** Sending fails once the thread has gone. *)
Definition send_event (e : AsyncEvent) (t : LogThread) : result unit LogError * LogThread :=
  if lt_running t then
    (Ok tt, {| lt_queue := lt_queue t ++ [e]; lt_writer := lt_writer t; lt_running := true; lt_dropped := lt_dropped t |})
  else (Err LSend, t).

Definition append_record (encoder : Encoder) (record : LogRecord) (t : LogThread) : result unit LogError * LogThread :=
  match encode_record encoder record with
  | Ok msg => send_event (EvLog msg) t
  | Err e => (Err (LEncode e), t)
  end.

Definition drop_appender (t : LogThread) : LogThread :=
  let t := (send_event EvTerminate t).2 in
  {| lt_queue := lt_queue t; lt_writer := lt_writer t; lt_running := lt_running t; lt_dropped := true |}.

(** * What becomes of the messages *)

(** The thread runs while others log; nobody logs once the appender is dropped.  The
    label is the message that was accepted. *)
Inductive log_step (encoder : Encoder) : LogThread -> list bytes -> LogThread -> Prop :=
| StepAppend t record msg : lt_dropped t = false -> encode_record encoder record = Ok msg ->
    (append_record encoder record t).1 = Ok tt ->
    log_step encoder t [msg] (append_record encoder record t).2
| StepRefused t record : lt_dropped t = false -> (append_record encoder record t).1 <> Ok tt ->
    log_step encoder t [] (append_record encoder record t).2
| StepDrop t : lt_dropped t = false -> log_step encoder t [] (drop_appender t)
| StepThread t : log_step encoder t [] (thread_round t).

Inductive log_steps (encoder : Encoder) : LogThread -> list bytes -> LogThread -> Prop :=
| StepsNone t : log_steps encoder t [] t
| StepsMore t t1 t2 l l' : log_steps encoder t l t1 -> log_step encoder t1 l' t2 -> log_steps encoder t (l ++ l') t2.

(** What the thread does with the first events of the channel. *)
Definition consume (w : W) (l : list AsyncEvent) : W :=
  fold_left (fun w e => match e with EvLog msg => log_event w msg | EvTerminate => w end) l w.

Definition sent (msgs : list bytes) (dropped : bool) : list AsyncEvent :=
  map EvLog msgs ++ (if dropped then [EvTerminate] else []).

Definition thread_inv (w : W) (msgs : list bytes) (t : LogThread) : Prop :=
  exists done_, sent msgs (lt_dropped t) = done_ ++ lt_queue t /\ lt_writer t = consume w done_ /\
    if lt_running t then EvTerminate ∉ done_ else lt_dropped t = true /\ lt_queue t = [].

Lemma consume_app w l l' : consume w (l ++ l') = consume (consume w l) l'.
Proof. apply fold_left_app. Qed.

Lemma terminate_last msgs (dropped : bool) done_ q :
  sent msgs dropped = done_ ++ EvTerminate :: q -> q = [] /\ dropped = true.
Proof.
  unfold sent. revert done_. induction msgs as [|m msgs IH]; intros [|e done_]; simpl; intros Heq.
  - destruct dropped; [|done]. by injection Heq as <-.
  - destruct dropped; [|done]. injection Heq as <- Heq. by destruct done_.
  - discriminate.
  - injection Heq as <- Heq. by apply (IH done_).
Qed.

Lemma thread_inv_step encoder w msgs t l t' :
  thread_inv w msgs t -> log_step encoder t l t' -> thread_inv w (msgs ++ l) t'.
Proof.
  intros (done_ & Hs & Hw & Hr) Hstep.
  assert (forall e, lt_dropped t = false -> (send_event e t).1 = Ok tt -> lt_running t = true /\
    (send_event e t).2 = {| lt_queue := lt_queue t ++ [e]; lt_writer := lt_writer t; lt_running := true;
                            lt_dropped := lt_dropped t |}) as Hsend.
  { intros e _. unfold send_event. by destruct (lt_running t). }
  destruct Hstep as [t record msg Hd He Hok|t record Hd Hno|t Hd|t].
  - unfold append_record in *. rewrite He in *. destruct (Hsend _ Hd Hok) as [Hrun ->]. rewrite Hrun in Hr.
    exists done_. cbn. split_and!; [|done|done]. unfold sent in *. rewrite Hd in *. rewrite app_nil_r in *.
    by rewrite map_app, Hs, <-app_assoc.
  - rewrite app_nil_r. unfold append_record in *. destruct (encode_record encoder record); [|by exists done_].
    unfold send_event in *. destruct (lt_running t) eqn:Hrun; [done|]. exists done_. cbn. by rewrite Hrun.
  - rewrite app_nil_r. unfold drop_appender, send_event. destruct (lt_running t) eqn:Hrun.
    + exists done_. cbn. split_and!; [|done|done]. unfold sent in *. rewrite Hd, app_nil_r in Hs. by rewrite Hs, <-app_assoc.
    + destruct Hr as [Hr _]. by rewrite Hd in Hr.
  - rewrite app_nil_r. unfold thread_round. destruct (lt_running t) eqn:Hrun; [|by exists done_; rewrite Hrun].
    destruct (lt_queue t) as [|[msg|] q] eqn:Hq.
    + exists done_. by rewrite Hrun, Hq.
    + exists (done_ ++ [EvLog msg]). cbn. split_and!; [by rewrite <-app_assoc|by rewrite consume_app, Hw|set_solver].
    + destruct (terminate_last _ _ _ _ Hs) as [-> Hdr]. exists (done_ ++ [EvTerminate]). cbn.
      split_and!; [by rewrite <-app_assoc|by rewrite consume_app, Hw|done|done].
Qed.

Lemma thread_inv_steps encoder w l t : log_steps encoder (AsyncAppender_new w) l t -> thread_inv w l t.
Proof.
  intros Hsteps. remember (AsyncAppender_new w) as t0 eqn:H0. induction Hsteps as [t|t t1 t2 l l' _ IH Hstep]; subst t.
  - exists []. split_and!; [done|done|]. cbn. set_solver.
  - eapply thread_inv_step; [by apply IH|done].
Qed.

(** When the thread has ended, all that was accepted has been written, in order. *)
Lemma thread_ended encoder w l t :
  log_steps encoder (AsyncAppender_new w) l t -> lt_running t = false ->
  lt_dropped t = true /\ lt_writer t = fold_left log_event l w.
Proof.
  intros (done_ & Hs & Hw & Hr)%thread_inv_steps Hrun. rewrite Hrun in Hr. destruct Hr as [Hd Hq].
  split; [done|]. rewrite Hq, app_nil_r, Hd in Hs. rewrite Hw, <-Hs. unfold sent. rewrite consume_app. simpl.
  clear. unfold consume. revert w. induction l as [|m l IH]; intros w; [done|apply IH].
Qed.

Lemma round_stopped t : lt_running t = false -> lt_running (thread_round t) = false.
Proof. intros H. unfold thread_round. by rewrite H. Qed.

(** The thread ends once the appender is dropped. *)
Lemma thread_ends encoder w l t :
  log_steps encoder (AsyncAppender_new w) l t -> lt_dropped t = true ->
  lt_running (Nat.iter (length (lt_queue t)) thread_round t) = false.
Proof.
  intros (done_ & Hs & _ & Hr)%thread_inv_steps Hd. destruct t as [q w' r d]. simpl in *. subst d.
  destruct r; [|by destruct Hr as [_ ->]].
  assert (EvTerminate ∈ q) as Hin.
  { assert (EvTerminate ∈ done_ ++ q) as H; [rewrite <-Hs; unfold sent; set_solver|]. by apply elem_of_app in H as [?|?]. }
  clear Hs Hr. revert w'. induction q as [|e q IH]; intros w'; [by apply not_elem_of_nil in Hin|].
  cbn [length]. rewrite Nat.iter_succ_r. unfold thread_round at 2. cbn.
  destruct e as [msg|]; [apply IH; set_solver|]. clear. generalize (length q). intros n. induction n; [done|]. simpl.
  by apply round_stopped.
Qed.
End thread.

(** * Messages on a stream *)

(** A server that looks out for the terminator. *)
Fixpoint read_messages (cur b : bytes) : list bytes :=
  match b with
  | x :: b' =>
      match b' with
      | y :: z :: r =>
          if bool_decide ([x; y; z] = MSG_TERMINATOR) then cur :: read_messages [] r
          else read_messages (cur ++ [x]) b'
      | _ => read_messages (cur ++ [x]) b'
      end
  | [] => []
  end.

Lemma read_message cur m r :
  Forall (fun b => 0 <= b < 245)%Z m ->
  read_messages cur (m ++ MSG_TERMINATOR ++ r) = (cur ++ m) :: read_messages [] r.
Proof.
  intros Hm. revert cur. induction Hm as [|x m Hx Hm IH]; intros cur.
  - by rewrite app_nil_r.
  - assert (exists y z t, m ++ MSG_TERMINATOR ++ r = y :: z :: t) as (y & z & t & Heq).
    { destruct m as [|y [|z m]]; by eexists _, _, _. }
    cbn [app read_messages]. rewrite Heq. rewrite bool_decide_eq_false_2 by (unfold MSG_TERMINATOR; intros [=]; lia).
    rewrite <-Heq, IH, <-app_assoc. done.
Qed.

(** The expression gives texts for texts. *)
Class RegexLaws `{!NdTypes, !CoreExt, !LogExt} := {
  captured_text p t g : is_text t -> re_captures p t = Some (Some g) -> is_text g;
  replaced_text p t g : is_text t -> is_text g -> is_text (re_replace p t g);
}.

Section stream.
Context `{ndt : !NdTypes, core : !CoreExt, ext : !LogExt, rx : !RegexLaws}.
Context {N : Type} `{wsn : !WsNet N}.

Definition tcp_writer (buf : bytes) (s : Stream) : Stream := (tcp_sync_write buf s).2.

(** What is sent of a message: nothing if it is not UTF-8. *)
Definition shown (msg : bytes) : option bytes :=
  (fun t => into_bytes (shorten t)) <$> from_utf8 msg.

Lemma shown_small msg b : shown msg = Some b -> Forall (fun x => 0 <= x < 245)%Z b.
Proof.
  unfold shown. destruct (from_utf8 msg) as [t|] eqn:Ht; [|done]. intros [= <-]. apply into_bytes_small.
  apply from_utf8_text in Ht. unfold shorten. destruct (re_captures _ t) as [[g|]|] eqn:Hc; [|done..].
  apply replaced_text; [done|]. by eapply captured_text.
Qed.

Lemma written_messages msgs s :
  st_faults s = [] ->
  st_written (fold_left (log_event tcp_writer) msgs s) =
    st_written s ++ concat (map (fun m => m ++ MSG_TERMINATOR) (omap shown msgs)).
Proof.
  revert s. induction msgs as [|m msgs IH]; intros [b f] Hf; simpl in Hf; subst f; simpl; [by rewrite app_nil_r|].
  unfold log_event at 2, shown at 1. destruct (from_utf8 m) as [t|]; simpl; [|by rewrite IH].
  rewrite IH by done. simpl. by rewrite <-!app_assoc.
Qed.

Lemma read_all msgs : Forall (fun m => Forall (fun x => 0 <= x < 245)%Z m) msgs ->
  read_messages [] (concat (map (fun m => m ++ MSG_TERMINATOR) msgs)) = msgs.
Proof.
  induction 1 as [|m msgs Hm _ IH]; [done|]. simpl. rewrite <-app_assoc, read_message by done. by rewrite IH.
Qed.


(** A message that cannot be sent as a whole runs into the next one: the error of the
    first write is ignored, and no terminator follows. *)
Lemma cut_message_runs_on m1 m2 n t1 t2 :
  from_utf8 m1 = Some t1 -> from_utf8 m2 = Some t2 ->
  read_messages [] (st_written (fold_left (log_event tcp_writer) [m1; m2] {| st_written := []; st_faults := [Some n] |})) =
    [take n (into_bytes (shorten t1)) ++ into_bytes (shorten t2)].
Proof.
  intros H1 H2. simpl. unfold log_event. rewrite H1, H2. simpl. rewrite <-!app_assoc.
  assert (Forall (fun x => 0 <= x < 245)%Z (into_bytes (shorten t1))) as Hs1.
  { apply (shown_small m1). unfold shown. by rewrite H1. }
  assert (Forall (fun x => 0 <= x < 245)%Z (into_bytes (shorten t2))) as Hs2.
  { apply (shown_small m2). unfold shown. by rewrite H2. }
  rewrite app_assoc, <-(app_nil_r MSG_TERMINATOR), read_message; [done|].
  apply Forall_app. split; [by apply Forall_take|done].
Qed.
End stream.

(** * A log *)

(** Values are texts, booleans and tables of these; a record is the bytes of its
    message; a message that starts with [@] is shown without it. *)
Definition ModelValue : Type := list (Text * (Text + bool)) + (Text + bool).
#[export] Instance ModelLog : LogExt := {|
  Value := ModelValue;
  VString t := inr (inl t) : ModelValue;
  value_view v :=
    match v with
    | inl l => IsMap (list_to_map (map (fun p => ((inr (inl p.1) : ModelValue), (inr p.2 : ModelValue))) l))
    | inr (inl t) => IsString t
    | inr (inr b) => IsBool b
    end;
  LogRecord := bytes; Encoder := Text; EncodeError := string;
  pattern_encoder t := t; default_pattern := []; json_encoder := [];
  encode_record _ r := Ok r;
  re_captures _ t := match t with 64%Z :: g => Some (Some g) | _ => None end;
  re_replace _ _ g := g;
  SocketAddr := Z; AddrParseError := string;
  parse_socket_addr t := match t with [c] => Ok c | _ => Err "invalid"%string end;
  io_debug e := (e : string);
  TcpStream := Z;
  tcp_connect a := Ok a;
  tcp_set_nodelay _ _ := Ok tt;
|}.

#[export] Instance ModelRegexLaws : RegexLaws.
Proof.
  split.
  - intros p t g Ht Hc. simpl in Hc. destruct t as [|c t]; [done|].
    assert (c = 64%Z /\ t = g) as [-> ->].
    { repeat (case_match; try discriminate). by simplify_eq. }
    by inversion Ht.
  - done.
Qed.

Abbreviation ExLog := (LogThread (W := Stream)).
Definition ex_log0 : ExLog := AsyncAppender_new {| st_written := []; st_faults := [] |}.
Definition ex_append (m : bytes) (t : ExLog) : ExLog := (append_record [] m t).2.
Definition ex_round : ExLog -> ExLog := thread_round tcp_writer.

(** Two messages and one that is not UTF-8; the thread is behind. *)
Definition ex_log1 : ExLog := ex_round (ex_append [255%Z] (ex_append (lit "@one") ex_log0)).
Definition ex_log2 : ExLog := drop_appender (ex_append (lit "two") ex_log1).
Definition ex_log3 : ExLog := ex_round (ex_round (ex_round ex_log2)).

Lemma ex_log_steps : log_steps tcp_writer [] ex_log0 [lit "@one"; [255%Z]; lit "two"] ex_log3.
Proof.
  assert (log_steps tcp_writer [] ex_log0 [lit "@one"; [255%Z]] ex_log1) as H1.
  { eapply (StepsMore _ _ _ _ _ [lit "@one"; [255%Z]] []); [|apply StepThread].
    eapply (StepsMore _ _ _ _ _ [lit "@one"] [[255%Z]]); [|by apply StepAppend].
    eapply (StepsMore _ _ _ _ _ [] [lit "@one"]); [apply StepsNone|by apply StepAppend]. }
  assert (log_steps tcp_writer [] ex_log0 [lit "@one"; [255%Z]; lit "two"] ex_log2) as H2.
  { eapply (StepsMore _ _ _ _ _ [lit "@one"; [255%Z]; lit "two"] []); [|by apply StepDrop].
    eapply (StepsMore _ _ _ _ _ [lit "@one"; [255%Z]] [lit "two"]); [exact H1|by apply StepAppend]. }
  unfold ex_log3. do 3 (eapply (StepsMore _ _ _ _ _ [lit "@one"; [255%Z]; lit "two"] []); [|apply StepThread]).
  exact H2.
Qed.

