(* ===== verification/LogInit.v ===== *)
(** Setting up the logger ([safe_core/src/utils/logging/mod.rs]): from a file of
    configuration, or from [RUST_LOG] to the console, a file, a server or a web socket;
    once per process.

    [log4rs] is a parameter: what configuration it accepts, and how it reads one from a
    file with the creators of [LogAppender]. *)
From S2P Require Import Prelude RustText SafeNd SafeNdModel MockAccount CoreTypes LogFilter LogWebSocket LogAppender.

Definition LOG_CONFIG_FILE : bytes := into_bytes (lit "log.toml").

(** [std::sync::Once]: a panic in its closure poisons it. *)
Inductive OnceState := Incomplete | Complete | Poisoned.

Class Log4rs `{!NdTypes, !CoreExt, !LogExt, !LogLevels} {N : Type} `{!WsNet N} := {
  LogConfig : Type;
  (** [Config::builder()] with appenders, loggers, and a root with a level and the
      names of its appenders. *)
  config_build : list (string * AsyncAppender (N := N)) -> list Logger -> list string * LevelFilter ->
                 result LogConfig string;
  (** [log4rs::init_config]: whether there is no logger yet. *)
  init_config : LogConfig -> result unit string;
  (** [log4rs::init_file], with the creators of the appenders. *)
  init_file : Path -> (Value -> M (LogHost (N := N)) LogError (AsyncAppender (N := N))) ->
              M (LogHost (N := N)) string LogConfig;
}.

Section init.
Context `{ndt : !NdTypes, core : !CoreExt, ext : !LogExt, levels : !LogLevels}.
Context {N : Type} `{wsn : !WsNet N, l4 : !Log4rs (N := N), ctxt : !CoreTexts}.

(** The process: the [Once], what logger there is, the environment and the host. *)
Record LogProcess := {
  lp_once : OnceState;
  lp_installed : option LogConfig;
  lp_rust_log : option Text;
  lp_host : LogHost (N := N);
}.
Definition set_once (o : OnceState) (p : LogProcess) : LogProcess :=
  {| lp_once := o; lp_installed := lp_installed p; lp_rust_log := lp_rust_log p; lp_host := lp_host p |}.
Definition set_installed (c : LogConfig) (p : LogProcess) : LogProcess :=
  {| lp_once := lp_once p; lp_installed := Some c; lp_rust_log := lp_rust_log p; lp_host := lp_host p |}.
Definition set_host (h : LogHost) (p : LogProcess) : LogProcess :=
  {| lp_once := lp_once p; lp_installed := lp_installed p; lp_rust_log := lp_rust_log p; lp_host := h |}.

Abbreviation P T := (M LogProcess string T).

Definition on_host {T} (m : M (LogHost (N := N)) string T) : P T := fun p =>
  match m (lp_host p) with
  | Ret a h => Ret a (set_host h p)
  | Fail e h => Fail e (set_host h p)
  | Panic h => Panic (set_host h p)
  | Pending h => Pending (set_host h p)
  end.

Definition ALREADY_INITIALISED : string := "Logger already initialised".
Definition PARSE_LOGGER_ERROR : string := "ParseLoggerError".

(** [INITIALISE_LOGGER.call_once], with the result of its closure. *)
Definition init_once_guard (init_fn : P unit) : P unit := fun p =>
  match lp_once p with
  | Complete => Fail ALREADY_INITIALISED p
  | Poisoned => Panic p
  | Incomplete =>
      match init_fn p with
      | Ret _ p => Ret tt (set_once Complete p)
      | Fail e p => Fail e (set_once Complete p)
      | Panic p => Panic (set_once Poisoned p)
      | Pending p => Pending p
      end
  end.

Definition make_pattern (show_thread_name : bool) : Encoder :=
  pattern_encoder (lit (if show_thread_name then "{l} {d(%H:%M:%S.%f)} {T} [{M} #FS#{f}#FE#:{L}] {m}{n}"
                        else "{l} {d(%H:%M:%S.%f)} [{M} #FS#{f}#FE#:{L}] {m}{n}")).

(** [RUST_LOG], or the error as a text. *)
Definition loggers_from_env : P (LevelFilter * list Logger) :=
  let! rust_log := gets lp_rust_log in
  match parse_loggers_from_env rust_log with
  | Ok r => ret r
  | Err _ => fail PARSE_LOGGER_ERROR
  end.

Definition install (config : LogConfig) : P unit :=
  lift_result (init_config config) ;!
  modify (set_installed config).

Definition console_appender (show_thread_name : bool) : AsyncAppender :=
  console_build (make_pattern show_thread_name).

Definition init_impl (show_thread_name : bool) (op_file_name_override : option Text) : P unit :=
  let! h := gets lp_host in
  let! dir := lift_result (match lh_config_dir h with
                           | Ok d => Ok d | Err e => Err (core_error_description e) end) in
  let path := join_path dir (path_new LOG_CONFIG_FILE) in
  if bool_decide (is_Some (lh_files h !! path) /\ lh_refused h path = None) then
    let! config := on_host (init_file path (file_deserialize op_file_name_override)) in
    install config
  else
    let! rust_log := gets lp_rust_log in
    let! (default_level, loggers) := unwrap_result (parse_loggers_from_env rust_log) in
    let! config := lift_result (config_build [("async_console"%string, console_appender show_thread_name)] loggers
                                  (["async_console"%string], default_level)) in
    install config.

Definition init (show_thread_name : bool) : P unit :=
  init_once_guard (init_impl show_thread_name None).

Definition init_with_output_file (show_thread_name : bool) (output_file_name_override : Text) : P unit :=
  init_once_guard (init_impl show_thread_name (Some output_file_name_override)).

(** The appenders of a root: the first one, and the console if it is asked for. *)
Definition with_console (name : string) (appender console : AsyncAppender) (log_to_console : bool) :
    list (string * AsyncAppender) :=
  (name, appender) :: (if log_to_console then [("console"%string, console)] else []).

Definition init_to_file (show_thread_name : bool) (file_path : Path) (log_to_console : bool) : P unit :=
  init_once_guard (
    let! (default_level, loggers) := loggers_from_env in
    let! file_appender := on_host (map_err io_display (file_build (file_append false
      (file_encoder (make_pattern show_thread_name) (file_builder file_path))))) in
    let appenders := with_console "file" file_appender (console_appender show_thread_name) log_to_console in
    let! config := lift_result (config_build appenders loggers (appenders.*1, default_level)) in
    install config).

Definition init_to_server (server_addr : SocketAddr) (show_thread_name log_to_console : bool) : P unit :=
  init_once_guard (
    let! (default_level, loggers) := loggers_from_env in
    let! server_appender := lift_result (match server_build {| sb_addr := server_addr;
        sb_encoder := make_pattern show_thread_name; sb_no_delay := true |} with
      | Ok a => Ok a | Err e => Err (io_display e) end) in
    let appenders := with_console "server" server_appender (console_appender show_thread_name) log_to_console in
    let! config := lift_result (config_build appenders loggers (appenders.*1, default_level)) in
    install config).

Definition init_to_web_socket (server_url : Text) (session_id : option Text)
    (show_thread_name_in_console log_to_console : bool) : P unit :=
  init_once_guard (
    let! (default_level, loggers) := loggers_from_env in
    let! server_appender := on_host (map_err io_display (websock_build {| wb_url := server_url;
      wb_session_id := session_id; wb_encoder := json_encoder |})) in
    let appenders := with_console "server" server_appender (console_appender show_thread_name_in_console) log_to_console in
    let! config := lift_result (config_build appenders loggers (appenders.*1, default_level)) in
    install config).

(** * The logger is set up once *)

Inductive InitCall : Type :=
| CallInit (show : bool)
| CallInitWithOutputFile (show : bool) (name : Text)
| CallInitToFile (show : bool) (path : Path) (console : bool)
| CallInitToServer (addr : SocketAddr) (show console : bool)
| CallInitToWebSocket (url : Text) (session : option Text) (show console : bool).

Definition run_init (c : InitCall) : P unit :=
  match c with
  | CallInit show => init show
  | CallInitWithOutputFile show name => init_with_output_file show name
  | CallInitToFile show path console => init_to_file show path console
  | CallInitToServer addr show console => init_to_server addr show console
  | CallInitToWebSocket url session show console => init_to_web_socket url session show console
  end.

(** Every entry point goes through the guard. *)
Lemma run_init_guarded c : exists init_fn, run_init c = init_once_guard init_fn.
Proof. destruct c; by eexists. Qed.

(** The results of calls made one after the other; a panic is not the end of the
    process. *)
Fixpoint run_inits (l : list InitCall) (p : LogProcess) : list (outcome LogProcess string unit) :=
  match l with
  | [] => []
  | c :: l => run_init c p :: run_inits l (final (run_init c p))
  end.

Lemma guard_done init_fn p : lp_once p <> Incomplete ->
  init_once_guard init_fn p = match lp_once p with Poisoned => Panic p | _ => Fail ALREADY_INITIALISED p end.
Proof. unfold init_once_guard. by destruct (lp_once p). Qed.

Lemma runs_done l p : lp_once p <> Incomplete ->
  run_inits l p = map (fun _ => match lp_once p with Poisoned => Panic p | _ => Fail ALREADY_INITIALISED p end) l.
Proof.
  intros Hp. induction l as [|c l IH]; [done|]. simpl. destruct (run_init_guarded c) as [f ->].
  rewrite guard_done by done. f_equal. rewrite <-IH. by destruct (lp_once p).
Qed.

(** The logger is set up by the first call, or not at all.  If the first call returns,
    every later one is refused and changes nothing, whether it succeeded or not; if it
    panics, so do all later ones. *)
Theorem logger_initialised_once c l p :
  lp_once p = Incomplete ->
  match run_init c p with
  | Ret _ p' | Fail _ p' => run_inits l p' = map (fun _ => Fail ALREADY_INITIALISED p') l
  | Panic p' => run_inits l p' = map (fun _ => Panic p') l
  | Pending _ => True
  end.
Proof.
  intros Hp. destruct (run_init_guarded c) as [f ->]. unfold init_once_guard. rewrite Hp.
  destruct (f p) as [a p'|e p'|p'|p']; [..|done]; by rewrite runs_done.
Qed.

#[local] Arguments parse_loggers : simpl never.

(** What is made of a [RUST_LOG] that cannot be read: the functions that are told where
    to log say so, [init] without a file of configuration panics, and the logger cannot
    be set up any more. *)
Theorem malformed_rust_log c p t :
  lp_once p = Incomplete -> lp_rust_log p = Some t -> parse_loggers t = Err TheParseLoggerError ->
  (forall dir, lh_config_dir (lp_host p) = Ok dir -> lh_files (lp_host p) !! join_path dir (path_new LOG_CONFIG_FILE) = None) ->
  is_ok (lh_config_dir (lp_host p)) = true ->
  run_init c p = match c with
                 | CallInit _ | CallInitWithOutputFile _ _ => Panic (set_once Poisoned p)
                 | _ => Fail PARSE_LOGGER_ERROR (set_once Complete p)
                 end.
Proof.
  intros Hp Ht He Hno Hdir. destruct (lh_config_dir (lp_host p)) as [dir|] eqn:Hd; [|done]. specialize (Hno dir eq_refl).
  assert (forall T (k : LevelFilter * list Logger -> P T), bind loggers_from_env k p = Fail PARSE_LOGGER_ERROR p) as Hfail.
  { intros T k. unfold loggers_from_env, bind, gets. simpl. rewrite Ht. simpl. by rewrite He. }
  assert (forall b o, init_impl b o p = Panic p) as Himpl.
  { intros b o. unfold init_impl. erewrite bind_Ret by reflexivity. rewrite Hd. erewrite bind_Ret by reflexivity.
    cbv beta zeta. rewrite Hno, bool_decide_eq_false_2 by (by intros [[]%is_Some_None _]).
    erewrite bind_Ret by reflexivity. rewrite Ht. unfold parse_loggers_from_env. rewrite He. reflexivity. }
  destruct c; simpl; unfold init, init_with_output_file, init_to_file, init_to_server, init_to_web_socket, init_once_guard;
    rewrite Hp; by rewrite ?Himpl, ?Hfail.
Qed.
End init.
