(* ===== verification/GrantedApp.v ===== *)
(** An app on the network, from the call of the user to its own calls: what the session
    it opens with what it was granted can read and change, and that it can do nothing any
    more once it is revoked.  The composition of [AppSessionProofs] and [RevokeSession],
    which say what is on the network after a grant and after a revocation, with the client
    and the context of the app ([AppObjects]) and the mock vault. *)
From S2P Require Import Prelude SafeNd SafeNdModel MockAccount AuthLoginProofs MockVault.
From S2P Require Import MockVaultRequests MockVaultProcess MockVaultSpec.
From S2P Require Import MockVaultRefine MockVaultSafety MockVaultBehaviour MockVaultAccess.
From S2P Require Import CoreTypes ClientApi MockStore MockConnection MockShared.
From S2P Require Import MockClient Recovery RecoveryProofs RecoveryRepair SeqStore.
From S2P Require Import MDataInfo MDataInfoProofs AuthTypes AuthConfig AuthConfigProofs.
From S2P Require Import AccessContainer AccessContainerProofs AppAuth OwnNet OwnNetMock.
From S2P Require Import OwnSession AppSession AppSessionProofs.
From S2P Require Import AppErrors Ipc SelfEncryption Nfs AccountPacket AuthLogin AppObjects.
From S2P Require Import AppFfi AppProofs IpcModel SelfEncryptionMock NfsMock AppModel.
From S2P Require Import Revocation RevocationMock AuthModel StdDirsProofs RevokeSession AppSessionModel.

(** What [safe_nd] lets a user do who is not the owner: what the data's permissions
    name for the user. *)
Class SeqUserLaws `{!NdTypes, !NdOps} := seq_user_allowed d a u ps :
  mdata_owner (MDSeq d) <> u -> mdata_permissions (MDSeq d) !! u = Some ps ->
  mdata_check_permissions (MDSeq d) a u = if perms_is_allowed ps a then Ok tt else Err AccessDenied.

(** What an action on an entry needs. *)
Definition action_need (act : MDataSeqEntryAction) : MDataAction :=
  match act with Ins _ => MInsert | Update _ => MUpdate | Del _ => MDelete end.
Definition actions_allowed `{!NdTypes, !NdOps} (ps : MDataPermissionSet) (acts : gmap bytes MDataSeqEntryAction) : Prop :=
  map_Forall (fun _ act => perms_is_allowed ps (action_need act) = true) acts.

(** A user who is not the owner changes entries as far as every action is allowed. *)
Class SeqUserMutateLaws `{!NdTypes, !NdOps} := seq_mutate_user d acts u ps :
  mdata_owner (MDSeq d) <> u -> mdata_permissions (MDSeq d) !! u = Some ps ->
  let errors := entry_errors (seq_mdata_entries d) (seq_into_actions acts) in
  match mdata_mutate_entries (MDSeq d) (ActSeq acts) u with
  | Ok d' => actions_allowed ps (seq_into_actions acts) /\ errors = ∅ /\ exists x, d' = MDSeq x /\
      seq_mdata_entries x = entries_applied (seq_mdata_entries d) (seq_into_actions acts)
  | Err e => ~ actions_allowed ps (seq_into_actions acts) /\ e = AccessDenied \/
      actions_allowed ps (seq_into_actions acts) /\ errors <> ∅ /\ e = InvalidEntryActions errors
  end.

Section app_calls.
Context `{ndt : !NdTypes, ndo : !NdOps, ndl : !NdLaws, host : !Host}.
Context `{core : !CoreExt, corel : !CoreExtLaws, lru : !LruOps}.
Context `{cr : !Crypto, auth : !AuthExt, aa : !AppAuthExt, seqn : !SeqNewLaws}.
Context `{env : !StoreEnv, rnd : !RandomSource, seqm : !SeqMutateLaws, seqr : !SeqReadLaws}.
Context `{seqg : !SeqGrantLaws, sequ : !SeqUserLaws, sequm : !SeqUserMutateLaws}.
Context (id : ClientFullId).
Let c := client_full_public_id id.
Let pk := client_public_key c.
Context (client : Client) (app : AppFullId) (Happ : full_id client = SKApp app).
Let apub := app_full_public_id app.
Let apk := app_public_key apub.
Context (Howner : app_owner apub = c).

Abbreviation cvault s := (lk_vault (vault (connection_manager s))).
Abbreviation shown_to := (mock_shows id).

Lemma app_name : public_id_name (PApp apub) = public_id_name (PClient c).
Proof. by rewrite public_id_name_app, app_owner_name_spec, Howner, <-public_id_name_client. Qed.

(** A request of an authorised app: the answer is the handler's. *)
Lemma app_call w s req resp v' :
  shown_to w s -> is_Some (ov_keys w !! apk) ->
  dispatch (PApp apub) apk pk req (cvault s) = Ret resp v' ->
  send client req s = Ret resp (after_request v' s) /\ serving (after_request v' s).
Proof.
  intros [[(Hm & Hwf & Hlim) _] Hk _ _ _] [p Hp] Hdis.
  assert (public_id client = PApp apub) as Hpub by (unfold public_id; by rewrite Happ).
  assert (keys_of (PApp apub) apk pk) as Hkeys by (split; [done|]; by rewrite Howner).
  assert (MockVaultBehaviour.authorised (PApp apub) apk (cvault s)) as Hauth.
  { cbn [MockVaultBehaviour.authorised]. rewrite app_name. rewrite <-Hk in Hp. fold c in Hp.
    unfold account_of in Hp.
    destruct (client_manager (cache (cvault s)) !! public_id_name (PClient c)) as [a|]; [by eauto|].
    simpl in Hp. by rewrite lookup_empty in Hp. }
  split.
  - apply (send_memory client req s apk pk resp); rewrite ?Hpub; [exact Hm|exact Hwf|exact Hkeys| |exact Hauth|exact Hdis].
    unfold public_key. by rewrite Happ.
  - destruct (serialize_request_ok req (message_id_at 0)) as [b Hser].
    set (msg := MsgRequest req (message_id_at 0) (Some (app_sign app b))).
    assert (process_request (PApp apub) msg (cvault s) = Ret (MsgResponse resp (message_id_at 0)) v') as Hproc.
    { unfold process_request, bind, attempt. simpl.
      erewrite (authenticate_request_ok _ _ _ _ _ apk pk);
        [|exact Hkeys|exact Hauth|by apply (safe_key_sign_ok (SKApp app))]. by rewrite Hdis. }
    pose proof (process_request_wf (PApp apub) msg _ Hwf) as Hwf'.
    pose proof (process_request_frame (PApp apub) msg _ Hwf) as [Hst Hcf].
    rewrite Hproc in Hwf', Hst, Hcf. simpl in *. destruct Hm as [Hm1 Hm2].
    split_and!; [split; simpl; congruence|done|]. unfold limited in *. simpl. by rewrite Hcf.
Qed.

(** A request that an authorised app makes without a change. *)
Lemma app_asked w s req resp :
  shown_to w s -> is_Some (ov_keys w !! apk) ->
  dispatch (PApp apub) apk pk req (cvault s) = Ret resp (cvault s) ->
  shown_to w (after_request (cvault s) s) /\
  send client req s = Ret resp (after_request (cvault s) s).
Proof.
  intros Hw Hkey Hdis. split; [by apply shows_asked|]. by eapply app_call.
Qed.

(** What an app reads of data that has permissions for it. *)
Lemma app_get w name tag slot ps k s :
  shown_to w s -> is_Some (ov_keys w !! apk) -> holds w (name, tag) slot -> apk <> pk ->
  slot_perms slot !! apk = Some ps ->
  exists s', shown_to w s' /\
    get_seq_mdata_value client name tag k s =
      if perms_is_allowed ps MRead then
        match slot_entries slot !! k with
        | Some x => Ret x s'
        | None => Fail (DataError NoSuchEntry) s'
        end
      else Fail (DataError AccessDenied) s'.
Proof.
  intros Hw Hkey Ha Hne Hps. destruct (shown _ _ _ _ _ Hw Ha) as (d & Hd & Ho & <- & _).
  set (answer := if perms_is_allowed ps MRead then ok_or_r (VSeq <$> seq_mdata_entries d !! k) NoSuchEntry
                 else Err AccessDenied).
  assert (dispatch (PApp apub) apk pk (GetMDataValue (MSeq name tag) k) (cvault s) =
    Ret (RGetMDataValue answer) (cvault s)) as Hdis.
  { simpl. unfold handle_GetMDataValue, get_mdata, get_data, respond, bind, attempt, gets.
    change (DMutable _) with (addr_id (name, tag)). rewrite Hd. simpl.
    rewrite (seq_user_allowed d MRead apk ps) by (try done; rewrite Ho; by intros <-).
    unfold answer. destruct (perms_is_allowed ps MRead); simpl; [|done]. unfold match_mdata.
    rewrite (proj1 (mdata_address_kind_spec name tag)), seq_get_entries.
    by destruct (seq_mdata_entries d !! k). }
  destruct (app_asked _ _ _ _ Hw Hkey Hdis) as [Hw' Hsend]. eexists. split; [exact Hw'|].
  unfold get_seq_mdata_value. rewrite (bind_Ret _ _ _ _ _ Hsend). unfold answer.
  destruct (perms_is_allowed ps MRead); [|done]. simpl. by destruct (seq_mdata_entries d !! k).
Qed.

(** How an app changes entries of data that has permissions for it. *)
Lemma app_mutate w name tag slot ps acts s :
  shown_to w s -> is_Some (ov_keys w !! apk) -> holds w (name, tag) slot -> apk <> pk ->
  slot_perms slot !! apk = Some ps ->
  let errors := entry_errors (slot_entries slot) (seq_into_actions acts) in
  exists s',
    (actions_allowed ps (seq_into_actions acts) /\ errors = ∅ /\
     shown_to (put_slot (name, tag)
       (set_entries (entries_applied (slot_entries slot) (seq_into_actions acts)) slot) w) s' /\
     mutate_seq_mdata_entries client name tag acts s = Ret tt s') \/
    (actions_allowed ps (seq_into_actions acts) /\ errors <> ∅ /\ shown_to w s' /\
     mutate_seq_mdata_entries client name tag acts s = Fail (DataError (InvalidEntryActions errors)) s') \/
    (~ actions_allowed ps (seq_into_actions acts) /\ shown_to w s' /\
     mutate_seq_mdata_entries client name tag acts s = Fail (DataError AccessDenied) s').
Proof.
  intros Hw Hkey Ha Hne Hps. destruct (shown _ _ _ _ _ Hw Ha) as (d & Hd & Ho & <- & Haddr). intros errors.
  set (req := MutateMDataEntries (MSeq name tag) (ActSeq acts)).
  assert (get_mdata_at (MSeq name tag) apk req (cvault s) = Ret (MDSeq d) (cvault s)) as Hget.
  { unfold get_mdata_at, get_mdata, get_data, bind, gets.
    change (DMutable _) with (addr_id (name, tag)). rewrite Hd. simpl. by rewrite decide_True. }
  pose proof (seq_mutate_user d acts apk ps ltac:(rewrite Ho; by intros <-) Hps) as Hm.
  destruct (mdata_mutate_entries _ _ _) as [d'|e] eqn:Hmut.
  - destruct Hm as (Hall & He & x & -> & Hx). destruct (seq_mutate_rest _ _ _ _ Hmut) as [Hp Hv].
    assert (dispatch (PApp apub) apk pk req (cvault s) =
      Ret (RMutation (Ok tt)) (put_data_at (addr_id (name, tag)) (Mutable (MDSeq x)) (cvault s))) as Hdis.
    { simpl. unfold handle_MutateMDataEntries, respond, bind, attempt. rewrite Hget, Hmut. simpl.
      destruct Hw as [[(_ & _ & Hlim) _] _ _ _ _]. by rewrite commit_free. }
    destruct (app_call _ _ _ _ _ Hw Hkey Hdis) as [Hsend Hs'].
    eexists. left. split_and!; [exact Hall|exact He| |].
    + assert (mdata_owner (MDSeq x) = pk) as Hox by by rewrite (proj2 (mdata_mutate_entries_address _ _ _ _ Hmut)).
      pose proof (shows_written _ _ _ _ _ Hw Hox Hs') as Hw'.
      unfold slot_of in Hw' at 1. by rewrite Hx, Hp, Hv in Hw'.
    + unfold mutate_seq_mdata_entries, send_mutation. fold req. by rewrite (bind_Ret _ _ _ _ _ Hsend).
  - assert (dispatch (PApp apub) apk pk req (cvault s) = Ret (RMutation (Err e)) (cvault s)) as Hdis.
    { simpl. unfold handle_MutateMDataEntries, respond, bind, attempt. by rewrite Hget, Hmut. }
    destruct (app_asked _ _ _ _ Hw Hkey Hdis) as [Hw' Hsend]. eexists. right.
    assert (mutate_seq_mdata_entries client name tag acts s = Fail (DataError e) (after_request (cvault s) s)) as Hcall.
    { unfold mutate_seq_mdata_entries, send_mutation. fold req. by rewrite (bind_Ret _ _ _ _ _ Hsend). }
    destruct Hm as [[Hall ->]|(Hall & He & ->)]; [right|left]; by split_and!.
Qed.

(** A request of an app whose key is not authorised: refused, whatever it asks, unless
    anybody may ask it. *)
Lemma app_refused w s req :
  shown_to w s -> ov_keys w !! apk = None -> get_type req <> PublicGet ->
  exists resp, response_error resp = Some AccessDenied /\
    send client req s = Ret resp (after_request (cvault s) s).
Proof.
  intros Hw Hno Ht. destruct Hw as [[(Hm & Hwf & _) _] Hk _ _ _].
  assert (public_id client = PApp apub) as Hpub by (unfold public_id; by rewrite Happ).
  set (n := connection_manager s). set (mid := message_id_at (drawn n)).
  destruct (serialize_request_ok req mid) as [payload Hser].
  exists (error_response req AccessDenied). split; [apply error_response_spec|].
  assert (forall sig, process_request (PApp apub) (MsgRequest req mid sig) (cvault s) =
    Ret (MsgResponse (error_response req AccessDenied) mid) (cvault s)) as Hp.
  { intros sig. assert (authenticate_request (PApp apub) req mid sig (cvault s) =
      Fail AccessDenied (cvault s)) as Hauth.
    { unfold authenticate_request, bind, gets, get_account. cbn [ret].
      assert (default ∅ (auth_keys <$> client_manager (cache (cvault s)) !! public_id_name (PApp apub))
        !! app_public_key apub = None) as Hlook.
      { rewrite app_name. fold apk. rewrite <-Hk in Hno. fold c in Hno. unfold account_of in Hno.
        by destruct (client_manager (cache (cvault s)) !! public_id_name (PClient c)). }
      by destruct (get_type req); rewrite ?Hlook. }
    unfold process_request, bind, attempt. by rewrite Hauth. }
  unfold send, compose_message, bind, with_cm at 1. simpl. fold n mid.
  rewrite bool_decide_eq_false_2 by done. simpl. rewrite Hser. simpl. rewrite Hpub. unfold with_cm. simpl.
  erewrite (mock_send_memory (PApp apub) _ _ _ mid (cvault s)); [reflexivity|exact Hm|apply Hm|apply Hp].
Qed.

(** Its requests fail, and leave the vault as it is. *)
Lemma app_get_refused w s name tag k :
  shown_to w s -> ov_keys w !! apk = None -> get_type (GetMDataValue (MSeq name tag) k) <> PublicGet ->
  exists e s', get_seq_mdata_value client name tag k s = Fail e s' /\ cvault s' = cvault s /\ shown_to w s'.
Proof.
  intros Hw Hno Ht. destruct (app_refused w s _ Hw Hno Ht) as (resp & He & Hsend).
  unfold get_seq_mdata_value. rewrite (bind_Ret _ _ _ _ _ Hsend). pose proof (shows_asked _ _ _ Hw) as Hw'.
  destruct resp; try (eexists _, _; split_and!; [reflexivity|reflexivity|exact Hw']).
  simpl in He. destruct r as [v|e]; simplify_eq/=. by eexists _, _.
Qed.
End app_calls.

(** * A session of the app *)

Section session.
Context `{ndt : !NdTypes, ndo : !NdOps, ndl : !NdLaws, host : !Host}.
Context `{core : !CoreExt, corel : !CoreExtLaws, lru : !LruOps}.
Context `{cr : !Crypto, auth : !AuthExt, aa : !AppAuthExt, seqn : !SeqNewLaws}.
Context `{env : !StoreEnv, rnd : !RandomSource, seqm : !SeqMutateLaws, seqr : !SeqReadLaws}.
Context `{seqg : !SeqGrantLaws, sequ : !SeqUserLaws, sequm : !SeqUserMutateLaws}.
Context `{se : !SelfEnc, ide : !IDataExt, chr : !Chrono, ffi : !FfiUtils, ffil : !FfiUtilsLaws}.
Context `{ipc : !IpcExt, ax : !AppExt, aext : !AccountExt}.
Context `{sentry : !Serial AccessContainerEntry}.
Context (id : ClientFullId).
Let c := client_full_public_id id.
Let pk := client_public_key c.
(** The user, and the access container of the account. *)
Context (user : AuthClient).
Context (acc_at : XorName * Z) (Hac : address (access_container user) = MSeq acc_at.1 acc_at.2).
(** The app, which is the user's and has keys of its own. *)
Context (app : AppInfo).
Let apub := app_full_public_id (app_full_id (keys app)).
Context (Howner : app_owner apub = c) (Hne : app_keys_public_key (keys app) <> pk).
(** The vault of the process, which every connection manager shares. *)
Context (shared : Locked).
Abbreviation connection_manager_new := (fun _ : BootstrapConfig => ConnectionManager_new shared).

Abbreviation cvault s := (lk_vault (vault (connection_manager s))).
Abbreviation shown_to := (mock_shows id).
Abbreviation net_of s := (inner (core_state s)).

(** What the user granted to the app. *)
Definition grants_to (granted : AuthGranted) : Prop :=
  granted_keys granted = keys app /\
  from_mdata_info (access_container user) = Ok (granted_access_info granted).

Lemma shown_elsewhere w (s s' : ClientInner MockNet) :
  shown_to w s -> cvault s' = cvault s -> request_hook (connection_manager s') = None -> shown_to w s'.
Proof.
  intros [[[[Hst _] Hrest] Hb] Hk Hv Hd Hf] Heq Hh. split; try (by rewrite Heq).
  split; [|by rewrite Heq]. split; [split; [by rewrite Heq|done]|by rewrite Heq].
Qed.

(** The session an app opens. *)
Lemma app_opens granted w s r :
  grants_to granted -> lk_vault shared = cvault s -> shown_to w s ->
  exists client sess, App_registered_impl connection_manager_new (app_id (info app)) granted r = Ret (client, sess) r /\
    full_id (app_client_of client) = SKApp (app_full_id (keys app)) /\
    context sess = context_registered (app_id (info app)) (app_enc_key (keys app)) (granted_access_info granted) /\
    shown_to w (net_of sess) /\ cvault (net_of sess) = cvault s.
Proof.
  intros [Hgk _] Hv Hw.
  eexists _, _. unfold App_registered_impl, App_new, from_keys, from_keys_impl. rewrite Hgk.
  split_and!; [reflexivity|reflexivity|reflexivity| |exact Hv].
  by apply (shown_elsewhere w s).
Qed.

Lemma decode_raw_inv (ct : bytes) k (e : AccessContainerEntry) :
  decode_raw ct k = Ok e ->
  exists encoded, symmetric_decrypt ct k = Ok encoded /\ deserialize_of encoded = Ok e.
Proof.
  unfold decode_raw. destruct (symmetric_decrypt ct k) as [b|]; [|done]. simpl.
  destruct (deserialize_of b) as [e'|] eqn:He; [|done]. simpl. intros [= ->]. by exists b.
Qed.

(** What the answer says about the access container. *)
Lemma granted_info granted a key :
  grants_to granted -> address (access_container user) = MSeq a.1 a.2 -> app_key user app key ->
  aci_id (granted_access_info granted) = a.1 /\ aci_tag (granted_access_info granted) = a.2 /\
  access_container_enc_key (app_id (info app)) (app_enc_key (keys app))
    (aci_nonce (granted_access_info granted)) = Ok key.
Proof.
  intros [_ Hai] Ha Hkey. pose proof (enc_key_of_info _ _ _ _ _ Hai Hkey) as Hek.
  unfold from_mdata_info in Hai. destruct (enc_info _) as [[]|]; [|done]. injection Hai as Hai.
  rewrite <-Hai in Hek |- *. simpl in *. rewrite Ha. split_and!; [reflexivity|reflexivity|exact Hek].
Qed.

Lemma container_reads access :
  bool_decide (PRead ∈ access) = perms_is_allowed (access_set access) MRead.
Proof. symmetry. apply (container_permissions_exact access PRead). Qed.

(** The permission an app asks for to take an action. *)
Definition action_permission (act : MDataSeqEntryAction) : Permission :=
  match act with Ins _ => PInsert | Update _ => PUpdate | Del _ => PDelete end.
Definition may_take (access : ContainerPermissions) (acts : gmap bytes MDataSeqEntryAction) : Prop :=
  map_Forall (fun _ act => action_permission act ∈ access) acts.

Lemma may_take_allowed access acts : actions_allowed (access_set access) acts <-> may_take access acts.
Proof.
  assert (forall act, perms_is_allowed (access_set access) (action_need act) = true <->
    action_permission act ∈ access) as Hact.
  { intros act. rewrite <-(bool_decide_eq_true (action_permission act ∈ access)).
    rewrite <-(container_permissions_exact access). by destruct act. }
  by split; intros H k act Hk; apply Hact, (H k act Hk).
Qed.

(** What an app reads in a container with the data [d], on which it was granted [a]. *)
Definition reads_container (client : Client) (at_ : XorName * Z) (d : Slot) (a : ContainerPermissions)
    (w : OwnView) (s : ClientInner MockNet) : Prop :=
  forall k, exists s', shown_to w s' /\
    get_seq_mdata_value client at_.1 at_.2 k s =
      if decide (PRead ∈ a) then
        match slot_entries d !! k with
        | Some x => Ret x s'
        | None => Fail (DataError NoSuchEntry) s'
        end
      else Fail (DataError AccessDenied) s'.

(** What it changes there: all that it asked for, or nothing. *)
Definition writes_container (client : Client) (at_ : XorName * Z) (d : Slot) (a : ContainerPermissions)
    (w : OwnView) (s : ClientInner MockNet) : Prop :=
  forall acts, let errors := entry_errors (slot_entries d) (seq_into_actions acts) in
  (~ may_take a (seq_into_actions acts) -> exists s', shown_to w s' /\
     mutate_seq_mdata_entries client at_.1 at_.2 acts s = Fail (DataError AccessDenied) s') /\
  (may_take a (seq_into_actions acts) -> errors <> ∅ -> exists s', shown_to w s' /\
     mutate_seq_mdata_entries client at_.1 at_.2 acts s = Fail (DataError (InvalidEntryActions errors)) s') /\
  (may_take a (seq_into_actions acts) -> errors = ∅ -> exists s',
     shown_to (put_slot at_ (set_entries (entries_applied (slot_entries d) (seq_into_actions acts)) d) w) s' /\
     mutate_seq_mdata_entries client at_.1 at_.2 acts s = Ret tt s').

(** The containers an app was granted, as it can use them. *)
Definition uses_containers (client : Client) (e : AccessContainerEntry) (w : OwnView)
    (s : ClientInner MockNet) : Prop :=
  forall name info a, e !! name = Some (info, a) ->
    exists d, holds w (cont_at info) d /\ reads_container client (cont_at info) d a w s /\
      writes_container client (cont_at info) d a w s.

Lemma container_used client w s info d a :
  full_id client = SKApp (app_full_id (keys app)) -> shown_to w s ->
  is_Some (ov_keys w !! app_keys_public_key (keys app)) -> holds w (cont_at info) d ->
  slot_perms d !! app_keys_public_key (keys app) = Some (access_set a) ->
  reads_container client (cont_at info) d a w s /\ writes_container client (cont_at info) d a w s.
Proof.
  intros Hfull Hw Hauth Hd Hps. split.
  - intros k. destruct (app_get id client (app_full_id (keys app)) Hfull Howner w (cont_at info).1
      (cont_at info).2 d _ k s Hw Hauth Hd Hne Hps) as (s2 & Hw2 & Hg).
    exists s2. split; [exact Hw2|]. rewrite <-container_reads in Hg. unfold bool_decide in Hg.
    rewrite Hg. by destruct (decide_rel elem_of PRead a).
  - intros acts errors. destruct (app_mutate id client (app_full_id (keys app)) Hfull Howner w (cont_at info).1
      (cont_at info).2 d _ acts s Hw Hauth Hd Hne Hps) as (s2 & H). rewrite may_take_allowed in H.
    fold errors in H. destruct (cont_at info) as [nm t].
    destruct H as [(Hall & He & Hw2 & Hm)|[(Hall & He & Hw2 & Hm)|(Hall & Hw2 & Hm)]]; split_and!; try done; by exists s2.
Qed.

(** Where the network is as it is after a grant, the app opens a session, reads its entry
    and uses each container of the entry as it was granted. *)
Lemma authorised_app_uses w e granted s r :
  grants_to granted -> lk_vault shared = cvault s -> shown_to w s ->
  authorised user acc_at app e w -> is_Some (ov_keys w !! app_keys_public_key (keys app)) ->
  exists client sess sess',
    App_registered_impl connection_manager_new (app_id (info app)) granted r = Ret (client, sess) r /\
    get_access_info client sess = Ret e sess' /\ shown_to w (net_of sess') /\
    uses_containers (app_client_of client) e w (net_of sess').
Proof.
  intros Hg Hr Hw [(d & key & ver & Hd & Hkey & He & Hread) Hcont] Hauth.
  destruct (app_opens granted w s r Hg Hr Hw) as (client & sess & Hopen & Hfull & Hctx & Hw1 & _).
  destruct acc_at as [name tag].
  destruct (app_get id (app_client_of client) (app_full_id (keys app)) Hfull Howner w name tag d _ key
    (net_of sess) Hw1 Hauth Hd Hne Hread) as (s1 & Hw2 & Hget).
  rewrite perms_allow_allowed, bool_decide_eq_true_2 in Hget by done. cbn [orb] in Hget.
  unfold entry_at in He. destruct (slot_entries d !! key) as [x|]; [|done]. destruct He as [_ Hdec].
  apply decode_raw_inv in Hdec as (encoded & Hdec & Hdes).
  destruct (granted_info granted (name, tag) key Hg Hac Hkey) as (Hid & Htag & Hek).
  destruct (reads_entry client (granted_access_info granted) (app_id (info app)) (app_enc_key (keys app))
    key x encoded e s1 sess) as [_ Hfirst]; [exact Hek|exact Hctx|by rewrite Hid, Htag|done|done|].
  eexists client, sess, _. split_and!; [exact Hopen|exact Hfirst|exact Hw2|].
  intros nm i a Hl. destruct (Hcont nm i a Hl) as (dc & Hdc & Hps). exists dc. split; [exact Hdc|].
  by apply container_used.
Qed.

(** Cut off: each request that not everybody may make is answered with [AccessDenied] and
    leaves the vault as it was, and so does reading the access container again. *)
Definition cut_off (client : AppInner) (sess : AppSession (W := MockNet)) : Prop :=
  (forall req, get_type req <> PublicGet ->
     exists resp s', send (app_client_of client) req (net_of sess) = Ret resp s' /\
       response_error resp = Some AccessDenied /\ cvault s' = cvault (net_of sess)) /\
  (exists e sess', access_container_refresh_access_info client sess = Fail e sess' /\
     cvault (net_of sess') = cvault (net_of sess) /\ context sess' = context sess).

Lemma unauthorised_app_cut_off w client (sess : AppSession (W := MockNet)) reg :
  full_id (app_client_of client) = SKApp (app_full_id (keys app)) ->
  shown_to w (net_of sess) -> ov_keys w !! app_keys_public_key (keys app) = None ->
  context sess = CtxRegistered reg ->
  (forall name tag k, get_type (GetMDataValue (MSeq name tag) k) <> PublicGet) ->
  cut_off client sess.
Proof.
  intros Hfull Hw Hno Hctx Hpriv. split.
  - intros req Ht. destruct (app_refused id _ _ Hfull Howner w (net_of sess) req Hw Hno Ht) as (resp & He & Hs).
    by eexists _, _.
  - unfold access_container_refresh_access_info, refresh_access_info, bind at 1, gets. rewrite Hctx.
    unfold bind at 1. cbn [as_registered of_result ret]. unfold refresh_access_info_of.
    destruct (access_container_enc_key _ _ _) as [key|e]; unfold bind at 1; cbn [of_result ret]; [|by eexists _, _].
    destruct (app_get_refused id _ _ Hfull Howner w (net_of sess) (aci_id (access_container_info reg))
      (aci_tag (access_container_info reg)) key Hw Hno (Hpriv _ _ _)) as (e & s' & Hget & Hv & _).
    unfold bind at 1, on_core, on_inner. rewrite Hget. by eexists _, _.
Qed.
End session.

(** * From the user's call to the app's session *)

Section lifecycle.
Context `{ndt : !NdTypes, ndo : !NdOps, ndl : !NdLaws, host : !Host}.
Context `{core : !CoreExt, corel : !CoreExtLaws, lru : !LruOps}.
Context `{cr : !Crypto, crl : !CryptoLaws, auth : !AuthExt, authl : !AuthExtLaws, aa : !AppAuthExt}.
Context `{seqn : !SeqNewLaws, sal : !SeqActionsLaws}.
Context `{env : !StoreEnv, rnd : !RandomSource, seqm : !SeqMutateLaws, seqr : !SeqReadLaws}.
Context `{seqg : !SeqGrantLaws, sequ : !SeqUserLaws, sequm : !SeqUserMutateLaws}.
Context `{se : !SelfEnc, ide : !IDataExt, chr : !Chrono, ffi : !FfiUtils, ffil : !FfiUtilsLaws}.
Context `{ipc : !IpcExt, ax : !AppExt, aext : !AccountExt}.
Context `{sapps : !Serial Apps, sappsl : !SerialLaws Apps}.
Context `{squeue : !Serial RevocationQueue, squeuel : !SerialLaws RevocationQueue}.
Context `{sdirs : !Serial (gmap string MDataInfo), sdirsl : !SerialLaws (gmap string MDataInfo)}.
Context `{sentry : !Serial AccessContainerEntry, sentryl : !SerialLaws AccessContainerEntry}.
(** The user's account, on the mock network. *)
Context (id : ClientFullId) (config_dir access : MDataInfo) (sk : SymEncKey).
Let c := client_full_public_id id.
Let user : AuthClient := mock_auth_client id config_dir access sk.
Context (acc_at : XorName * Z) (Hac : address access = MSeq acc_at.1 acc_at.2).
Context (Hapart : acc_at <> cfg_at user).

Abbreviation cvault s := (lk_vault (vault (connection_manager s))).
Abbreviation net_of s := (inner (core_state s)).
Abbreviation shown_to := (mock_shows id).
Abbreviation apps_are := (config_is user (T := Apps) KEY_APPS).
Abbreviation queue_is := (config_is user (T := RevocationQueue) KEY_APP_REVOCATION_QUEUE).

(** Keys made for an app of the user. *)
Definition app_of_user (ks : AppKeys) : Prop :=
  app_owner (app_full_public_id (app_full_id ks)) = c /\ app_keys_public_key ks <> client_public_key c.

(** C6: what an app is granted it can use, from the request to the app's own calls.  The
    user grants the request of an app that is not known: with the answer, and a connection
    to the same vault, the app opens a session and reads in the access container the
    entry it was answered, which has what it asked for; nothing on the network changes by
    that.  From then on it uses each container of the entry as it was granted: it reads
    the value of every key if it may read, and is denied access if it may not; it changes
    entries if it may take every action it asks for and none is refused for its version,
    and changes nothing at all otherwise. *)
Theorem granted_app_uses fuel v d dirs ver req ov apps qv q b (s : AuthState (W := MockNet)) :
  shown_to v (inner s) -> apps_are v ov apps -> queue_is v qv q -> version_ok ov ->
  app_id (req_app req) ∉ q -> apps !! app_hash (app_id (req_app req)) = None -> bootstrap_config = Ok b ->
  grant_ready user acc_at v d dirs ver req (auth_rng s) ->
  (forall i ks i', auth_rng s <= i -> app_keys_new c i = Ret ks i' ->
     app_of_user ks /\ key_unused user {| info := req_app req; keys := ks |} d) ->
  exists s' v' granted, authenticate (S fuel) user req s = Ret granted s' /\ shown_to v' (inner s') /\
    snd <$> granted_entry granted = asked_permissions req /\
    forall shared r, lk_vault shared = cvault (inner s') ->
    exists client sess sess',
      App_registered_impl (fun _ => ConnectionManager_new shared) (app_id (req_app req)) granted r = Ret (client, sess) r /\
      get_access_info client sess = Ret (granted_entry granted) sess' /\ shown_to v' (net_of sess') /\
      uses_containers id (app_client_of client) (granted_entry granted) v' (net_of sess').
Proof using All.
  intros Hs Ha Hq Hver Hnot Hno Hb Hready Hfresh.
  destruct (new_app_admitted user (own := MockOwnNet id) acc_at Hac Hapart fuel v d dirs ver req ov apps qv q c b s)
    as (s' & v' & i & ks & i' & granted & Hrun & Hs' & Hi & Hks & [_ (Hgk & _ & Hai) Hp _ _ Hk Hau _ _]);
    [done..|by intros i ks i' Hi Hks; apply (Hfresh i ks i')|].
  exists s', v', granted. split_and!; [done..|]. intros shared r Hr.
  destruct (Hfresh i ks i' Hi Hks) as [[Howner Hne] _].
  apply (authorised_app_uses id user acc_at Hac {| info := req_app req; keys := ks |} Howner Hne shared v' _ granted
    (inner s') r); try done.
  rewrite Hk, lookup_insert_eq. by eexists.
Qed.

(** C7: an app that is revoked is cut off, whatever it still has.  The user revokes a
    registered app, with no revocation waiting: a session of the app that was open
    before, connected to the same vault, gets [AccessDenied] for each request that not
    everybody may make, and these leave the vault as it was; it cannot read its entry in
    the access container again, and what it knows of its containers stays as it was. *)
Theorem revoked_app_cut_off cf fuel v ov apps qv d app key ver e (s : AuthState (W := MockNet)) :
  shown_to v (inner s) -> apps_are v ov apps -> queue_is v qv [] ->
  version_ok qv -> (next_version qv + 1 < u64_modulus)%Z ->
  apps !! app_hash (app_id (info app)) = Some app -> revocable user acc_at v d app key ver e ->
  app_of_user (keys app) ->
  (forall name tag k, get_type (GetMDataValue (MSeq name tag) k) <> PublicGet) ->
  exists s' v', revoke_app (S cf) (S (S fuel)) user (app_id (info app)) s = Ret tt s' /\ shown_to v' (inner s') /\
    forall client sess reg,
      full_id (app_client_of client) = SKApp (app_full_id (keys app)) ->
      cvault (net_of sess) = cvault (inner s') -> request_hook (connection_manager (net_of sess)) = None ->
      context sess = CtxRegistered reg -> cut_off client sess.
Proof using All.
  intros Hs Ha Hq Hver Hroom Happ Hr [Howner _] Hpriv.
  destruct (revoke_app_ok user (own := MockOwnNet id) acc_at Hac Hapart cf fuel v ov apps qv d app key ver e s)
    as (s' & v' & Hrun & Hs' & [_ _ Hk _ _ _]); [done..|].
  exists s', v'. split_and!; [done..|]. intros client sess reg Hfull Hv Hh Hctx.
  apply (unauthorised_app_cut_off id app Howner v' client sess reg Hfull); try done.
  - by apply (shown_elsewhere id v' (inner s')).
  - by rewrite Hk, lookup_delete_eq.
Qed.
End lifecycle.

(** * A granted and a revoked app *)

#[export] Instance ModelSeqUserMutate : SeqUserMutateLaws.
Proof.
  intros d acts u ps Ho Hps errors. simpl in *. unfold model_mutate_seq.
  assert (forallb (fun p => model_granted d (model_need p.2) u) (map_to_list acts) = true <->
    actions_allowed ps acts) as Hall.
  { rewrite forallb_forall. unfold actions_allowed. rewrite map_Forall_to_list, list.Forall_forall.
    setoid_rewrite list_elem_of_In. unfold model_granted. rewrite bool_decide_eq_false_2, Hps by congruence.
    split; intros H p Hp; specialize (H p Hp); destruct p as [k []]; exact H. }
  destruct (forallb _ _).
  - rewrite model_errors_eq. case_bool_decide as He; simpl.
    + split; [by apply Hall|]. split; [done|]. eexists. split; [done|]. apply model_applied_eq.
    + right. split_and!; [by apply Hall|done|done].
  - left. split; [|done]. intros H. by apply Hall in H.
Qed.

#[export] Instance ModelSeqUser : SeqUserLaws.
Proof.
  intros d a u ps Ho Hps. simpl in *. unfold model_granted. rewrite bool_decide_eq_false_2 by congruence.
  rewrite Hps. simpl. by destruct (model_allowed ps a).
Qed.

(** The account, where new keys are not the user's. *)
Definition ex_granting : AuthState (W := MockNet) := set_auth_rng 1 se_state.

Definition ex_bootstrap : BootstrapConfig := tt.

Lemma se_new_keys i ks i' : auth_rng ex_granting <= i -> app_keys_new (1%Z : ClientPublicId) i = Ret ks i' ->
  app_of_user ex_full_id ks /\ key_unused ex_auth_client {| info := req_app (se_req "new"); keys := ks |} se_access.
Proof.
  intros Hi Hks. split; [|by eapply se_new_key_unused]. simpl in Hi.
  revert Hks. unfold app_keys_new, bind. simpl. intros [= <- _]. split; [done|].
  unfold app_keys_public_key. simpl. intros Heq. change (Z.of_nat (S i) = 1%Z) in Heq. lia.
Qed.

Lemma se_apart : se_at 71 <> cfg_at ex_auth_client.
Proof. discriminate. Qed.

Example granted_app_uses_witness :
  exists s' v' granted client sess sess',
    authenticate 1 ex_auth_client (se_req "new") ex_granting = Ret granted s' /\
    App_registered_impl (fun _ => ConnectionManager_new (vault (connection_manager (inner s')))) "new" granted 5 = Ret (client, sess) 5 /\
    get_access_info client sess = Ret (granted_entry granted) sess' /\
    uses_containers ex_full_id (app_client_of client) (granted_entry granted) v' (inner (core_state sess')).
Proof.
  destruct (granted_app_uses ex_full_id ex_config_dir ex_access ex_sk (se_at 71) eq_refl se_apart
    0 se_view se_access se_dirs 0 (se_req "new") (Some 0%Z) ex_apps None [] ex_bootstrap ex_granting)
    as (s' & v' & granted & Hrun & Hs' & Hp & Happ).
  - exact se_shown.
  - exact se_apps_are.
  - exact se_queue_is.
  - cbn [version_ok]. unfold u64_modulus. lia.
  - set_solver.
  - vm_refl.
  - reflexivity.
  - by apply se_grant_ready.
  - exact se_new_keys.
  - destruct (Happ (vault (connection_manager (inner s'))) 5 eq_refl) as (client & sess & sess' & H1 & H2 & _ & H3).
    exact (ex_intro _ s' (ex_intro _ v' (ex_intro _ granted (ex_intro _ client (ex_intro _ sess (ex_intro _ sess'
      (conj Hrun (conj H1 (conj H2 H3))))))))).
Defined.

(** A session of an app that is about to be revoked. *)
Definition ex_open_client : AppInner :=
  {| ai_keys := keys se_app; ai_owner_key := ex_key 1; ai_config := None |}.
Definition ex_open_registered : Registered := {|
  reg_object_cache := ObjectCache_new; reg_app_id := "app"; reg_sym_enc_key := app_enc_key (keys se_app);
  access_container_info := {| aci_id := (se_at 71).1; aci_tag := (se_at 71).2;
    aci_nonce := match enc_info ex_access with Some (_, n) => n | None => [] end |};
  access_info := se_entry |}.
Definition ex_open_session (s : ClientInner MockNet) : AppSession (W := MockNet) :=
  {| core_state := {| inner := {| connection_manager := {| vault := vault (connection_manager s);
                                    request_hook := None; response_hook := None; groups := ∅; net_tx := []; drawn := 0 |};
                                  ci_cache := ([] : LruCache IDataAddress IData); timeout := 0 |};
                      auth_rng := 0%nat |};
     context := CtxRegistered ex_open_registered |}.

Example revoked_app_cut_off_witness :
  exists s', revoke_app 1 2 ex_auth_client "app" se_state = Ret tt s' /\
    cut_off ex_open_client (ex_open_session (inner s')).
Proof.
  destruct (revoked_app_cut_off ex_full_id ex_config_dir ex_access ex_sk (se_at 71) eq_refl se_apart
    0 0 se_view (Some 0%Z) ex_apps None se_access se_app se_app_key 4 se_entry se_state)
    as (s' & v' & Hrun & _ & Hcut).
  - exact se_shown.
  - exact se_apps_are.
  - exact se_queue_is.
  - exact I.
  - cbn [next_version]. unfold u64_modulus. lia.
  - vm_refl.
  - exact se_revocable.
  - split; [vm_refl|]. intros Heq. by vm_compute in Heq.
  - discriminate.
  - exists s'. split; [exact Hrun|]. by apply (Hcut _ _ ex_open_registered).
Defined.
