(* ===== verification/Reconnect.v ===== *)
(** Losing the connection to the network, hearing of it, and restoring it: the channel of
    network events between the connection manager of a client and whoever opened the
    session ([restart_network] of [client/mod.rs], [app_reconnect], [auth_reconnect], and
    the observers of [safe_app/src/lib.rs] and [safe_authenticator/src/lib.rs]). *)
From S2P Require Import Prelude EventLoop SafeNd SafeNdModel MockAccount MockVault.
From S2P Require Import MockVaultRequests MockVaultProcess MockVaultSpec.
From S2P Require Import MockVaultRefine MockVaultSafety MockVaultBehaviour MockVaultAccess.
From S2P Require Import CoreTypes ClientApi MockStore MockConnection MockShared.
From S2P Require Import MockClient Recovery MDataInfo MDataInfoProofs AuthTypes AppAuth AppErrors AuthErrors.
From S2P Require Import RevocationMock AuthModel AccountPacket AuthLogin AuthLoginProofs.

Section reconnect.
Context `{ndt : !NdTypes, ndo : !NdOps, host : !Host, core : !CoreExt}.
Context `{env : !StoreEnv, rnd : !RandomSource, auth : !AuthExt}.
(** The text of [futures]' [SendError]. *)
Context (send_failed : string).

(** The connection manager of a client, and the other end of its channel: the events
    taken from it, whether it still exists, and how often the observer has notified. *)
Record Linked := { ln_net : MockNet; ln_taken : nat; ln_open : bool; ln_notified : nat }.

Definition set_ln_net (n : MockNet) (s : Linked) : Linked :=
  {| ln_net := n; ln_taken := ln_taken s; ln_open := ln_open s; ln_notified := ln_notified s |}.
Definition linked (n : MockNet) : Linked :=
  {| ln_net := n; ln_taken := 0; ln_open := true; ln_notified := 0 |}.

Definition on_link {E A} (m : M MockNet E A) : M Linked E A := fun s =>
  match m (ln_net s) with
  | Ret a n => Ret a (set_ln_net n s)
  | Fail e n => Fail e (set_ln_net n s)
  | Panic n => Panic (set_ln_net n s)
  | Pending n => Pending (set_ln_net n s)
  end.

(** [From<SendError<T>> for CoreError]. *)
Definition core_from_send_error : CoreError :=
  Unexpected (String.append "Couldn't send message to the channel: " send_failed).

(** [self.net_tx.unbounded_send(event)?]. *)
Definition send_event (e : NetworkEvent) : M Linked CoreError unit := fun s =>
  if ln_open s then Ret tt (set_ln_net (set_groups (groups (ln_net s)) (net_tx (ln_net s) ++ [e]) (ln_net s)) s)
  else Fail core_from_send_error s.

Definition restart_network : M Linked CoreError unit :=
  on_link mock_restart_network ;! send_event Connected.

(** What the callbacks are given. *)
Definition app_reconnect : M Linked AppError unit := map_err app_from_core restart_network.
Definition auth_reconnect : M Linked AuthError unit := map_err auth_from_core restart_network.

(** The observer's future takes an event, if there is one. *)
Definition unread (s : Linked) : list NetworkEvent := drop (ln_taken s) (net_tx (ln_net s)).
Definition observe_next (s : Linked) : Linked :=
  match unread s with
  | e :: _ => {| ln_net := ln_net s; ln_taken := S (ln_taken s); ln_open := ln_open s;
                 ln_notified := app_observe e (ln_notified s) |}
  | [] => s
  end.

(** What happens in a session: requests, a loss of the connection, attempts to restore
    it, and the observer's turns. *)
Inductive NetCall :=
| CallSend (pub_id : PublicId) (msg : Message)
| CallLost
| CallReconnect
| NextEvent.

Definition loses_connection (c : NetCall) : bool := match c with CallLost => true | _ => false end.

Definition run_call (c : NetCall) (s : Linked) : Linked :=
  match c with
  | CallSend pub_id msg => final (on_link (mock_send pub_id msg) s)
  | CallLost => final (on_link simulate_disconnect s)
  | CallReconnect => final (app_reconnect s)
  | NextEvent => observe_next s
  end.
Definition run_calls (cs : list NetCall) (s : Linked) : Linked := foldl (fun s c => run_call c s) s cs.

(** ** Invariants *)

Lemma auth_observe_ok e k : auth_observe (Ok e) k = app_observe e k.
Proof using Type. by destruct e. Qed.

(** Sending leaves the groups and the channel alone. *)
Lemma mock_send_groups pub_id msg n :
  groups (final (mock_send pub_id msg n)) = groups n /\ net_tx (final (mock_send pub_id msg n)) = net_tx n.
Proof using Type.
  assert (forall E, groups (final (intercept_request (E := E) msg n)) = groups n /\
    net_tx (final (intercept_request (E := E) msg n)) = net_tx n) as Hi.
  { intros E. unfold intercept_request. by repeat case_match. }
  specialize (Hi CoreError). unfold mock_send, bind.
  destruct (intercept_request msg n) as [[resp|] n1| | |]; try done. cbn [final ret] in *. unfold on_vault.
  destruct (process_locked pub_id msg (vault n1)) as [[]| | |]; done.
Qed.

(** Notices given and still to be given. *)
Definition is_lost (e : NetworkEvent) : bool := bool_decide (e = Disconnected).
Definition notices (s : Linked) : nat := ln_notified s + length (filter (fun e => e = Disconnected) (unread s)).

(** The session whose connection was reported lost [k] times, and is there or not. *)
Record session_link (k : nat) (g : gset PublicId) (s : Linked) : Prop := {
  sl_groups : groups (ln_net s) = g;
  sl_open : ln_open s = true;
  sl_taken : ln_taken s <= length (net_tx (ln_net s));
  sl_notices : notices s = k;
}.

Lemma unread_app s e n' :
  ln_taken s <= length (net_tx (ln_net s)) -> net_tx n' = net_tx (ln_net s) ++ [e] ->
  unread (set_ln_net n' s) = unread s ++ [e].
Proof using Type. intros Hle Hn. unfold unread. simpl. rewrite Hn, drop_app_le by done. done. Qed.

Lemma send_event_link e k g s :
  session_link k g s ->
  exists s', send_event e s = Ret tt s' /\ session_link (if is_lost e then S k else k) g s'.
Proof using Type.
  intros [Hg Ho Ht Hk]. unfold send_event. rewrite Ho. eexists. split; [done|]. split; simpl; [done|done| |].
  - rewrite length_app. simpl. lia.
  - unfold notices in *. erewrite unread_app by done. rewrite list.filter_app, length_app. simpl.
    unfold is_lost. destruct e; simpl; lia.
Qed.

(** Restoring the connection never fails while the session is there, and restores nothing. *)
Lemma reconnect_link k g s :
  session_link k g s -> exists s', app_reconnect s = Ret tt s' /\ session_link k g s'.
Proof using Type.
  intros Hs. assert (set_ln_net (ln_net s) s = s) as Heq by by destruct s.
  destruct (send_event_link Connected k g s Hs) as (s' & Hrun & Hs').
  exists s'. split; [|exact Hs']. unfold app_reconnect, map_err, or_else, restart_network, bind, on_link.
  simpl. by rewrite Heq, Hrun.
Qed.

Lemma observe_link k g s : session_link k g s -> session_link k g (observe_next s).
Proof using Type.
  intros [Hg Ho Ht Hk]. unfold observe_next. destruct (unread s) as [|e l] eqn:Hu; [done|].
  assert (ln_taken s < length (net_tx (ln_net s))) as Hlt.
  { pose proof (length_drop (net_tx (ln_net s)) (ln_taken s)) as Hl. fold (unread s) in Hl. rewrite Hu in Hl. simpl in Hl. lia. }
  split; simpl; [done|done|lia|]. unfold notices in *. rewrite Hu in Hk. unfold unread in *. simpl.
  assert (drop (S (ln_taken s)) (net_tx (ln_net s)) = l) as ->.
  { rewrite <-Nat.add_1_r, <-drop_drop, Hu. done. }
  rewrite filter_cons in Hk. destruct e; simpl in *; lia.
Qed.

Lemma send_link k g s pub_id msg :
  session_link k g s -> session_link k g (run_call (CallSend pub_id msg) s).
Proof using Type.
  intros [Hg Ho Ht Hk]. destruct (mock_send_groups pub_id msg (ln_net s)) as [Hgr Htx].
  cbn [run_call]. unfold on_link. destruct (mock_send pub_id msg (ln_net s)); cbn [final] in *;
    (split; simpl; rewrite ?Hgr, ?Htx; try done; unfold notices, unread in *; simpl; by rewrite Htx).
Qed.

(** The connection is lost once: without groups there is nothing to lose. *)
Lemma lost_link k g s :
  session_link k g s -> session_link (if decide (g = ∅) then k else S k) ∅ (run_call CallLost s).
Proof using Type.
  intros Hs. pose proof Hs as [Hg Ho Ht Hk]. cbn [run_call]. unfold on_link, simulate_disconnect, modify. simpl. rewrite Hg.
  destruct (decide (g = ∅)) as [He|He].
  - replace (set_ln_net (ln_net s) s) with s by (by destruct s). by rewrite <-He.
  - split; simpl; [done|done|rewrite length_app; simpl; lia|].
    unfold notices in *. erewrite unread_app by done. rewrite list.filter_app, length_app. simpl. lia.
Qed.

Lemma call_link k g c s :
  session_link k g s -> g <> ∅ ->
  if loses_connection c then session_link (S k) ∅ (run_call c s) else session_link k g (run_call c s).
Proof using Type.
  intros Hs Hg. destruct c as [pub_id msg| | |]; cbn [loses_connection].
  - by apply send_link.
  - pose proof (lost_link k g s Hs) as H. by rewrite decide_False in H.
  - cbn [run_call]. destruct (reconnect_link k g s Hs) as (s' & -> & Hs'). exact Hs'.
  - by apply observe_link.
Qed.

(** Once it is lost, nothing is reported any more. *)
Lemma call_unlinked k c s : session_link k ∅ s -> session_link k ∅ (run_call c s).
Proof using Type.
  intros Hs. destruct c as [pub_id msg| | |].
  - by apply send_link.
  - exact (lost_link k ∅ s Hs).
  - cbn [run_call]. destruct (reconnect_link k ∅ s Hs) as (s' & -> & Hs'). exact Hs'.
  - by apply observe_link.
Qed.

Lemma calls_unlinked cs k s : session_link k ∅ s -> session_link k ∅ (run_calls cs s).
Proof using Type. revert s. induction cs as [|c cs IH]; intros s Hs; [done|]. by apply IH, call_unlinked. Qed.

Lemma calls_link cs k g s :
  session_link k g s -> g <> ∅ ->
  if existsb loses_connection cs then session_link (S k) ∅ (run_calls cs s) else session_link k g (run_calls cs s).
Proof using Type.
  intros Hs Hg. revert s Hs. induction cs as [|c cs IH]; intros s Hs; [done|].
  pose proof (call_link k g c s Hs Hg) as H. simpl. destruct (loses_connection c); simpl; [by apply calls_unlinked|by apply IH].
Qed.

(** The observer reads what there is. *)
Lemma drain_link k g s :
  session_link k g s -> exists n, let s' := run_calls (replicate n NextEvent) s in
    unread s' = [] /\ ln_notified s' = k /\ session_link k g s'.
Proof using Type.
  remember (length (unread s)) as n eqn:Hn. revert s Hn. induction n as [|n IH]; intros s Hn Hs.
  - exists 0. simpl. symmetry in Hn. apply nil_length_inv in Hn. destruct Hs as [? ? ? Hk]. unfold notices in Hk.
    rewrite Hn in Hk. simpl in Hk. split_and!; [done|lia|split; try done]. unfold notices. rewrite Hn. simpl. lia.
  - pose proof (observe_link k g s Hs) as Hs'.
    destruct (IH (observe_next s)) as (m & H); [|done|by exists (S m)].
    unfold observe_next. destruct (unread s) as [|e l] eqn:Hu; [done|]. simpl in Hn. injection Hn as ->.
    unfold unread in *. simpl. by rewrite <-Nat.add_1_r, <-drop_drop, Hu.
Qed.

Lemma linked_session n g :
  groups n = g -> net_tx n = [Disconnected] -> session_link 1 g (linked n).
Proof using Type.
  intros Hg Htx. split; simpl; [done|done|lia|]. unfold notices, unread. simpl. by rewrite Htx.
Qed.
End reconnect.

Section session.
Context `{ndt : !NdTypes, ndo : !NdOps, ndl : !NdLaws, host : !Host}.
Context `{core : !CoreExt, corel : !CoreExtLaws, lru : !LruOps}.
Context `{cr : !Crypto, crl : !CryptoLaws, auth : !AuthExt, aext : !AccountExt}.
Context `{aextl : !AccountExtLaws, sacc : !Serial Account, saccl : !SerialLaws Account}.
Context `{env : !StoreEnv, rnd : !RandomSource}.
Context (send_failed : string).
Abbreviation calls cs s := (run_calls send_failed cs s).

End session.

(** * The handles of a loop *)

Section handle.
Context `{ndt : !NdTypes, core : !CoreExt, auth : !AuthExt} {W : Type}.
(** The description of [futures]' [SendError]. *)
Context (send_failed : string).
Abbreviation handle := (option (EventLoop W)).

(** [App::send], [Authenticator::send]: over the lock of the sender. *)
Definition App_send (f : TailFutureFn W) : M handle AppError unit := fun l =>
  let '(sent, l) := unbounded_send (CoreMsg_new f) l in
  if sent then Ret tt l else Fail (AppUnexpected send_failed) l.
Definition Authenticator_send (f : TailFutureFn W) : M handle AuthError unit := fun l =>
  let '(sent, l) := unbounded_send (CoreMsg_new f) l in
  if sent then Ret tt l else Fail (AuthUnexpected send_failed) l.

(** [Drop for App], by [app_free]: that the loop has ended is only logged.  [Drop for
    Authenticator] does the same. *)
Definition App_drop (l : handle) : handle := (unbounded_send build_terminator l).2.
Definition Authenticator_drop (l : handle) : handle := (unbounded_send build_terminator l).2.

(** What was sent through a handle before it was freed is what the loop will run. *)
Lemma freed_handle_pending fs gs el :
  el_rx el = map CoreMsg_new fs ->
  exists l, foldl (fun o g => match o with Ret _ l => App_send g l | o => o end) (Ret tt (Some el)) gs = Ret tt l /\
    exists el', App_drop l = Some el' /\ pending_calls (fs ++ gs) el'.
Proof.
  revert fs el. induction gs as [|g gs IH]; intros fs el Hrx.
  - eexists. split; [done|]. eexists. split; [done|]. exists []. simpl. by rewrite Hrx, app_nil_r.
  - set (el1 := {| el_rx := el_rx el ++ [CoreMsg_new g]; el_closed := el_closed el;
                   el_spawned := el_spawned el; el_world := el_world el |}).
    destruct (IH (fs ++ [g]) el1) as (l & Hl & H); [simpl; by rewrite Hrx, map_app|].
    exists l. split; [exact Hl|]. by rewrite <-(assoc_L (++)) in H.
Qed.
End handle.

(** * A session *)

Definition ex_session_net : MockNet :=
  set_vault {| lk_vault := ex_login_vault; lk_disk := lk_disk (vault ex_auth_net) |} ex_auth_net.

